(* ===== verification/_CoqProject ===== *)
-Q . S2P
Prelude.v
Bytes.v
Csum.v
Types.v
Kernel.v
Parse.v
Rewrite.v
Firewall.v
Conntrack.v
ConntrackGc.v
Meter.v
Vip.v
Nat.v
Maglev.v
Lb.v
Encap.v
ArpNd.v
Nat64.v
Safe.v
Handles.v
Dhcp4.v
Dhcp6.v
Egress.v
Ingress.v
Guest.v
Skb.v
Tc.v
TcNat64.v
Host.v
NetAddr.v
Ctl.v
Rpc.v
CtlIface.v
Delivery.v
CtlRoute.v
CtlFw.v
CtlLb.v
CtlNat.v
GrpcIface.v
GrpcFw.v
GrpcLb.v
GrpcNat.v
GrpcErrors.v
Bringup.v
System.v
