(* ===== verification/Prelude.v ===== *)
(** * dpservice-xdp: a verification development

    The program is a network datapath for virtual machines.  BPF programs
    forward the frames of guest interfaces and of the host's uplink; a daemon
    owns the BPF maps those programs read, changes them on gRPC requests, and
    sweeps the connection-tracking table.  Guests reach each other inside a
    virtual network (a VNI), across hosts through IPv6 encapsulation, and the
    outside through VIPs, network NAT, NAT64 and load balancers.

    ** Parts and files

    Shared.  [Prelude] (this file): the fallible and stateful programs, their
    notations, tactics, hint databases.  [Bytes]: bounds-checked access to
    a frame.  [Csum]: one's-complement sums (csum of xdp-dp-common/src/lib.rs,
    xdp-dp-ebpf/src/csum.rs).  [Types]: keys, values and constants both sides
    share (xdp-dp-common/src/lib.rs).  [Kernel]: the maps as one record
    ([Maps], xdp-dp-ebpf/src/maps.rs), the state [world] of a running program
    (frame, maps, clock, redirect target) and the kernel's helpers.

    The datapath (xdp-dp-ebpf/src).  [Parse] (parse.rs), [Rewrite] (what the
    header rewrites share), [Firewall] (firewall.rs and the rule match of
    lib.rs), [Conntrack] (conntrack.rs), [Meter] (meter.rs), [Vip] (vip.rs),
    [Nat] (nat.rs), [Lb] (lb.rs), [Encap] (encap.rs, decapsulation of
    ingress.rs and v6.rs), [ArpNd] (arp_nd.rs and lib.rs), [Nat64] (nat64.rs),
    [Dhcp4] and [Dhcp6] (dhcp.rs, module dhcp of lib.rs), [Egress] (egress.rs,
    the transmit half of v6.rs), [Ingress] (ingress.rs, the receive half of
    v6.rs), [Guest] (dispatch of egress.rs, entry points of main.rs), [Skb]
    and [Tc] (tc.rs, the tc variants in dhcp.rs and nat64.rs), [TcNat64] (that
    NAT64 on the two guest edges agrees).  [Safe] holds the rules by which
    programs are shown not to fault.

    The daemon (xdp-dp/src).  [Maglev] (maglev.rs), [ConntrackGc]
    (conntrack_gc.rs), [Handles] (the map operations of maps.rs), [Host]
    (netdev files, main.rs and control.rs), [Ctl] (the state [Inner] of
    control.rs) and its operations in [CtlIface], [CtlRoute], [CtlFw],
    [CtlLb], [CtlNat]; the service of grpc.rs in [NetAddr] (address texts),
    [Rpc] (responses, messages, calls), [GrpcIface], [GrpcFw], [GrpcLb],
    [GrpcNat], [GrpcErrors].  [Bringup] models the bringup and tc-bringup
    commands of main.rs, which program a datapath from flags without the
    daemon.  [Delivery] and [System] compose the two sides.

    ** How the code is modelled

    A frame is the list of its bytes and an address the offset from [data].
    Pure packet functions return [mem], where [None] is an access outside the
    frame; programs are [prog S A := S → option (A * S)] with the same
    reading, over [world], or over [skb] (a world whose frame is the linear
    head, and the bytes behind it) in [Skb] and [Tc].  Machine integers are
    [Z] values with the wrap-around of each operation written out ([wrap16],
    [wrap32], [wrap64]); arrays are byte lists of their size.  Rust's [Result]
    and [Option] are [result] and [option].

    An operation of the control plane is [ctl A := Inner → outcome A * Inner]:
    an error keeps what was changed before it.  Every operation of control.rs
    holds the state's mutex, so operations are sequential; a datapath program
    sees the maps between two steps of the daemon.  Iteration over a HashMap
    follows [map_to_list] of its model, and no theorem depends on that order.

    Code that is not the repository's is a class: [Kernel] with [KernelLaws]
    (clock, LRU and LPM maps, frame resizing, load and store of a run of
    bytes), [SkbKernel] with [SkbLaws] (pull, tail and room of a socket
    buffer), [Host] (the files the operating system shows, attaching a
    program).  The instances [ref_kernel], [ref_skb], [demo_host] and
    [demo_node_host] satisfy the laws and serve in the examples.

    ** What the theorems show

    Safety and types: [Ingress.uplink_rx_safe] and [Guest.guest_tx_safe], the
    programs reach a result on every frame and never touch memory outside it;
    [System.node_never_stuck], from a start and through any sequence of
    requests, sweeps and frames, stored values keep the sizes the programs
    read them with, on the XDP and on the tc edge.  [Bringup.bringup_safe]:
    the same of the datapath the bring-up commands leave.

    Equivalences: [Tc.tc_guest_as_xdp] and [TcNat64.tc_nat64_as_xdp] (the two
    guest edges),
    [Csum.csum_replace4_full_recompute] (incremental and full checksums),
    [Vip.rewrite_raw_is_ct_apply], [Nat.nat_write_is_ct_apply] (the
    hand-written rewrites and the conntrack translation),
    [Lb.icmp_error_same_backend].

    Packets: translated and generated packets have the checksums a receiver
    verifies and the addresses and ports the configuration asks for
    ([Conntrack.ct_apply_valid], the echo replies of [Ingress], the ARP and
    neighbor replies of [ArpNd], [Dhcp4.dhcpv4_answer],
    [Encap.encap_relay_decap]).  [Nat64.nat64_egress_valid] and
    [Nat64.nat64_ingress_valid] say for every message exactly when the
    translation verifies: the checksum of an echo leaves its data out, and an
    absent UDP checksum counts as a value.  [Dhcp6.dhcpv6_answer] keeps ten
    bytes of the client's identifier, as the code does.

    Policies and state: [Firewall.fw_eval_dir_first_match] (the slot scan is
    the first matching rule), [Bringup.bringup_firewall_decides] (from the
    flags to the decision), [Egress.egress_firewall_enforced], the TCP state
    and tracking of [Conntrack], [ConntrackGc.gc_round_exact],
    [Meter.take_run_conforms] and [Meter.meter_recovers] (the rate is kept,
    and a silent interface passes again), [Nat.nat_alloc_fresh] (the first
    free port of those probed, and what happens when there is none),
    [Lb.lb_select_forward_backend], [Maglev.build_complete].

    Control plane: the maps are what the configuration says.  The rule slots
    are the rule list; the route list and the trie follow one finite map; the
    backend tables hold every current backend with its even share; the
    neighbor slots are the list ([CtlFw], [CtlRoute], [CtlLb], [CtlNat]).
    Prefixes stay unique, and the NAT ranges of a VNI disjoint as long as no
    interface takes over an address whose range was left behind, which
    [System.nat_range_taken_over] shows to happen.
    [CtlIface.detach_interface_clears] says which rows go with an interface
    and which stay.  [Delivery.create_interface_delivers] follows a created
    interface into the datapath's decision on frames to it.  Service: addresses and firewall
    rules read back as they were written, and unknown objects are answered
    with their status and change nothing ([Rpc], [GrpcFw], [GrpcErrors]).

    ** Bounds and fuel

    Loops of the source with a constant bound are recursions on that bound:
    64 port probes ([Nat]), the rule slots ([Firewall]), 12 options and 128
    bytes of a DHCPv6 request ([Dhcp6]), the option scan of
    [Dhcp4.opt_scan] as many steps as the source's [for].  [Csum.fold] has fuel 4, and [fold_loop_residue] shows two
    rounds give the residue of any 32-bit sum.  The [while] loops
    of the Maglev builder have the table size as fuel; [build_complete] shows
    that this is never the limit.
    LPM lookup and the clock are the kernel's.  A frame longer than 65535
    bytes is outside [load_bytes] and [store_bytes] of [KernelLaws].

    ** Not modelled

    Program loading, pinning and attaching (loader.rs): kernel I/O through
    aya and netlink; the commands are modelled from the point where it has
    succeeded.  The load, pass and inspect commands of main.rs, which attach
    one program and wait or print maps, the adoption of a pinned datapath,
    and the program arrays and counters they use.  dbg.rs and inspect.rs, which observe
    frames for debugging.  The transport of the service (tonic), its server
    loop and logging.  The generated proto code: the messages are records of
    the fields the handlers use.  Build scripts and tests.  The padding of
    C structures, which is always zero.

    ** Reading order

    [Bytes], [Kernel] and a component such as [Firewall] or [Conntrack]; then
    [Egress] and [Ingress], which compose them; then [Ctl] and one of the
    operations' files; then [System].

    This file holds the notations, tactics, hint databases and generic lemmas
    on options, lists and integers. *)
From Stdlib Require Export ZArith Lia Bool.
From stdpp Require Export base tactics option list numbers countable gmap.

#[global] Open Scope Z_scope.
#[global] Set Default Goal Selector "!".

Create HintDb dp_bounds.
Create HintDb dp_bytes.

(** ** Fault monad

    A computation that touches packet memory returns [None] when it would
    read or write outside [data, data_end); [Some r] is a run with no such
    access.  Rust's own [Option] results appear inside as a second
    [option]. *)
Abbreviation mem A := (option A) (only parsing).

(** ** Programs over a state, with faults

    A datapath program reads and updates a state (frame, maps, clock) and may
    fault; [let*] sequences programs the way statements do. *)
Definition prog (S A : Type) : Type := S → option (A * S).
Definition pret {S A} (a : A) : prog S A := λ s, Some (a, s).
Definition pbind {S A B} (m : prog S A) (k : A → prog S B) : prog S B :=
  λ s, match m s with Some (a, s') => k a s' | None => None end.

Declare Scope dp_scope.
Delimit Scope dp_scope with dp.
Notation "'let*' x := m 'in' k" := (pbind m (λ x, k))
  (at level 100, x name, m at level 99, k at level 200,
   format "'[v' 'let*'  x  :=  m  'in' '/' k ']'") : dp_scope.
Notation "'let*' ' p := m 'in' k" := (pbind m (λ x, match x with p => k end))
  (at level 100, p strict pattern, m at level 99, k at level 200) : dp_scope.
Notation "m ;;; k" := (pbind m (λ _, k))
  (at level 100, k at level 200, right associativity) : dp_scope.

(** [Result<A, ()>], and [let?] for the [?] operator on it. *)
Inductive result (A : Type) := Ok (a : A) | Err.
Arguments Ok {A} a.
Arguments Err {A}.
Definition rbind {S A B} (m : prog S (result A)) (k : A → prog S (result B)) : prog S (result B) :=
  pbind m (λ r, match r with Ok a => k a | Err => pret Err end).
Notation "'let?' x := m 'in' k" := (rbind m (λ x, k))
  (at level 100, x name, m at level 99, k at level 200) : dp_scope.

Lemma pbind_inv {S A B} (m : prog S A) (k : A → prog S B) s b s' :
  pbind m k s = Some (b, s') → ∃ a s1, m s = Some (a, s1) ∧ k a s1 = Some (b, s').
Proof. unfold pbind. destruct (m s) as [[a s1]|]; [eauto|done]. Qed.
Lemma rbind_inv {S A B} (m : prog S (result A)) (k : A → prog S (result B)) s b s' :
  rbind m k s = Some (Ok b, s') → ∃ a s1, m s = Some (Ok a, s1) ∧ k a s1 = Some (Ok b, s').
Proof. intros H. apply pbind_inv in H as ([a|] & s1 & E & H); [eauto|done]. Qed.

(** ** Tactics *)

(** Split every conjunction of the context and substitute. *)
Ltac norm_hyps :=
  repeat match goal with
  | H : _ /\ _ |- _ => destruct H
  | H : ex _ |- _ => destruct H
  | H : Some _ = Some _ |- _ => injection H as H; try subst
  | H : (_, _) = (_, _) |- _ => injection H as H; try subst
  end.

(** Case analysis on a boolean comparison of the goal or of a hypothesis. *)
Ltac zbool :=
  repeat match goal with
  | H : negb _ = true |- _ => apply negb_true_iff in H
  | H : negb _ = false |- _ => apply negb_false_iff in H
  | H : bool_decide _ = true |- _ => apply bool_decide_eq_true in H
  | H : bool_decide _ = false |- _ => apply bool_decide_eq_false in H
  | H : (_ <? _) = true |- _ => apply Z.ltb_lt in H
  | H : (_ <? _) = false |- _ => apply Z.ltb_ge in H
  | H : (_ <=? _) = true |- _ => apply Z.leb_le in H
  | H : (_ <=? _) = false |- _ => apply Z.leb_gt in H
  | H : (_ =? _) = true |- _ => apply Z.eqb_eq in H
  | H : (_ =? _) = false |- _ => apply Z.eqb_neq in H
  | H : (_ <? _)%nat = true |- _ => apply Nat.ltb_lt in H
  | H : (_ <? _)%nat = false |- _ => apply Nat.ltb_ge in H
  | H : (_ <=? _)%nat = true |- _ => apply Nat.leb_le in H
  | H : (_ <=? _)%nat = false |- _ => apply Nat.leb_gt in H
  end.

(** ** Lists *)

(** Induction that peels two elements at a time: 16-bit words. *)
Lemma list_pair_ind {A} (P : list A → Prop) :
  P [] → (∀ a, P [a]) → (∀ a b r, P r → P (a :: b :: r)) → ∀ l, P l.
Proof.
  intros H0 H1 H2 l. assert (P l ∧ ∀ a, P (a :: l)) as [? _]; [|done].
  induction l as [|x l [IH1 IH2]]; split; auto.
Qed.

(** ** Maps *)

(** A property of every value of a singleton or empty map. *)
Lemma singleton_all {K V} `{Countable K} (i : K) (x : V) (P : V → Prop) :
  P x → ∀ k v, ({[ i := x ]} : gmap K V) !! k = Some v → P v.
Proof. intros Hx k v E. by apply lookup_singleton_Some in E as [_ <-]. Qed.
Lemma empty_all {K V} `{Countable K} (P : V → Prop) :
  ∀ k v, (∅ : gmap K V) !! k = Some v → P v.
Proof. intros k v E. by apply lookup_empty_Some in E. Qed.
