(* ===== verification/Bytes.v ===== *)
(** * Bytes

    Packet memory: a frame is the list of the bytes in [data, data_end), an
    offset is the distance from [data].  Every access is bounds-checked and
    faults ([None]) outside the frame. *)
From S2P Require Import Prelude.

(** ** Bytes and words *)

Definition is_byte (b : Z) : Prop := 0 <= b < 256.
Definition is_u16 (x : Z) : Prop := 0 <= x < 65536.
Definition is_u32 (x : Z) : Prop := 0 <= x < 2 ^ 32.
Definition bytes_ok (p : list Z) : Prop := Forall is_byte p.
Definition is_arr (n : nat) (a : list Z) : Prop := length a = n /\ bytes_ok a.

Definition wrap8 (x : Z) : Z := Z.land x 0xff.
Definition wrap16 (x : Z) : Z := Z.land x 0xffff.
Definition wrap32 (x : Z) : Z := Z.land x 0xffffffff.
Definition wrap64 (x : Z) : Z := Z.land x 0xffffffffffffffff.
Definition not16 (x : Z) : Z := wrap16 (Z.lnot x).

(** [u16::from_be_bytes], [u16::to_be_bytes], and their 32-bit versions. *)
Definition be16 (hi lo : Z) : Z := Z.lor (Z.shiftl hi 8) lo.
Definition to_be16 (x : Z) : list Z := [Z.shiftr x 8; wrap8 x].
Definition to_be32 (x : Z) : list Z :=
  [wrap8 (Z.shiftr x 24); wrap8 (Z.shiftr x 16); wrap8 (Z.shiftr x 8); wrap8 x].
Definition be32 (a b c d : Z) : Z :=
  Z.lor (Z.shiftl a 24) (Z.lor (Z.shiftl b 16) (Z.lor (Z.shiftl c 8) d)).

(** [a[i]] on a fixed-size array whose index is in range. *)
Definition at_ (a : list Z) (i : nat) : Z := nth i a 0.

(** ** Accesses *)

Definition rd8 (p : list Z) (i : nat) : mem Z := p !! i.
Definition rd16 (p : list Z) (i : nat) : mem Z :=
  hi ← p !! i; lo ← p !! (i + 1)%nat; Some (be16 hi lo).
Definition rdn (p : list Z) (i n : nat) : mem (list Z) :=
  if (i + n <=? length p)%nat then Some (take n (drop i p)) else None.
Definition splice (p : list Z) (i : nat) (bs : list Z) : list Z :=
  take i p ++ bs ++ drop (i + length bs) p.
Definition wrn (p : list Z) (i : nat) (bs : list Z) : mem (list Z) :=
  if (i + length bs <=? length p)%nat then Some (splice p i bs) else None.
Definition wr8 (p : list Z) (i : nat) (v : Z) : mem (list Z) := wrn p i [v].
Definition wr16 (p : list Z) (i : nat) (v : Z) : mem (list Z) := wrn p i (to_be16 v).

(** [data + n > data_end]: the frame is shorter than [n]. *)
Definition short (p : list Z) (n : nat) : bool := (length p <? n)%nat.

(** Big-endian 16-bit word sum of a byte list; an odd last byte is padded
    with a zero byte. *)
Fixpoint wsum (l : list Z) : Z :=
  match l with
  | a :: b :: r => be16 a b + wsum r
  | [a] => be16 a 0
  | [] => 0
  end.

(** [n] bytes of [p] from offset [i]. *)
Definition slice (p : list Z) (i n : nat) : list Z := take n (drop i p).

(** ** Words *)

Lemma wrap8_mod x : wrap8 x = x mod 256.
Proof. apply (Z.land_ones x 8). lia. Qed.
Lemma wrap16_mod x : wrap16 x = x mod 65536.
Proof. apply (Z.land_ones x 16). lia. Qed.
Lemma wrap32_mod x : wrap32 x = x mod 2 ^ 32.
Proof. apply (Z.land_ones x 32). lia. Qed.
Lemma wrap64_mod x : wrap64 x = x mod 2 ^ 64.
Proof. apply (Z.land_ones x 64). lia. Qed.

Lemma not16_sub x : is_u16 x → not16 x = 65535 - x.
Proof.
  unfold is_u16, not16, Z.lnot. intros H. rewrite wrap16_mod.
  rewrite <- (Z.mod_small (65535 - x) 65536) by lia.
  rewrite <- (Z.mod_add (Z.pred (- x)) 1 65536) by lia. f_equal. lia.
Qed.

Lemma not16_range x : is_u16 (not16 x).
Proof. unfold not16, is_u16. rewrite wrap16_mod. apply Z.mod_pos_bound. lia. Qed.

Lemma not16_involutive x : is_u16 x → not16 (not16 x) = x.
Proof.
  intros H. rewrite (not16_sub (not16 x)), not16_sub; auto using not16_range.
  unfold is_u16 in H. lia.
Qed.

Lemma be16_add hi lo : is_byte lo → be16 hi lo = 256 * hi + lo.
Proof.
  unfold be16, is_byte. intros H. rewrite Z.shiftl_mul_pow2 by lia.
  assert (Z.land (hi * 2 ^ 8) lo = 0) as Hl.
  { apply Z.bits_inj'. intros n Hn. rewrite Z.land_spec, Z.bits_0.
    destruct (decide (n < 8)).
    - by rewrite Z.mul_pow2_bits_low.
    - rewrite <- (Z.mod_small lo (2 ^ 8)) by (change (2 ^ 8) with 256; lia).
      rewrite Z.mod_pow2_bits_high by lia. apply andb_false_r. }
  pose proof (Z.add_lor_land (hi * 2 ^ 8) lo) as E. rewrite Hl in E.
  change (2 ^ 8) with 256 in *. lia.
Qed.

Lemma be16_range hi lo : is_byte hi → is_byte lo → is_u16 (be16 hi lo).
Proof. intros Hh Hl. rewrite be16_add by done. unfold is_byte, is_u16 in *. lia. Qed.

Lemma to_be16_bytes x : is_u16 x → bytes_ok (to_be16 x).
Proof.
  intros H. unfold to_be16. repeat constructor; unfold is_u16 in H.
  - rewrite Z.shiftr_div_pow2 by lia. apply Z.div_pos; lia.
  - rewrite Z.shiftr_div_pow2 by lia. apply Z.div_lt_upper_bound; lia.
  - rewrite wrap8_mod. apply Z.mod_pos_bound. lia.
  - rewrite wrap8_mod. apply Z.mod_pos_bound. lia.
Qed.

Lemma be16_to_be16 x : is_u16 x → be16 (Z.shiftr x 8) (wrap8 x) = x.
Proof.
  intros H. rewrite be16_add.
  - rewrite wrap8_mod, Z.shiftr_div_pow2 by lia. change (2 ^ 8) with 256.
    rewrite (Z.div_mod x 256) at 3 by lia. done.
  - unfold is_byte. rewrite wrap8_mod. apply Z.mod_pos_bound. lia.
Qed.

Lemma wsum_to_be16 x : is_u16 x → wsum (to_be16 x) = x.
Proof. intros H. simpl. rewrite be16_to_be16 by done. lia. Qed.

Lemma wsum_nonneg l : bytes_ok l → 0 <= wsum l.
Proof.
  induction l as [|a|a b r IH] using list_pair_ind; [done| |].
  - intros Hl. inversion Hl; subst. simpl. pose proof (be16_range a 0).
    unfold is_u16, is_byte in *. lia.
  - intros Hl. inversion Hl as [|? ? Ha Hr]; subst. inversion Hr; subst. simpl.
    pose proof (be16_range a b Ha). unfold is_u16 in *. specialize (IH ltac:(done)).
    specialize (H ltac:(done)). lia.
Qed.

#[export] Hint Resolve not16_range to_be16_bytes be16_range : dp_bounds.

(** ** Reads, slices and splices *)

Lemma rd8_at p i : (i < length p)%nat → rd8 p i = Some (at_ p i).
Proof.
  intros H. unfold rd8, at_. rewrite nth_lookup.
  by destruct (lookup_lt_is_Some_2 p i H) as [x ->].
Qed.

Lemma rd16_at p i :
  (i + 1 < length p)%nat → rd16 p i = Some (be16 (at_ p i) (at_ p (i + 1))).
Proof.
  intros H. unfold rd16. change (p !! i) with (rd8 p i).
  change (p !! (i + 1)%nat) with (rd8 p (i + 1)). by rewrite !rd8_at by lia.
Qed.

Lemma rdn_slice p i n : (i + n <= length p)%nat → rdn p i n = Some (slice p i n).
Proof. intros H. unfold rdn. by rewrite (proj2 (Nat.leb_le _ _)). Qed.

Lemma wrn_splice p i bs :
  (i + length bs <= length p)%nat → wrn p i bs = Some (splice p i bs).
Proof. intros H. unfold wrn. by rewrite (proj2 (Nat.leb_le _ _)). Qed.

Lemma wr8_splice p i v : (i < length p)%nat → wr8 p i v = Some (splice p i [v]).
Proof. intros H. apply wrn_splice. simpl. lia. Qed.

Lemma wr16_splice p i v :
  (i + 1 < length p)%nat → wr16 p i v = Some (splice p i (to_be16 v)).
Proof. intros H. apply wrn_splice. simpl. lia. Qed.

Lemma short_false p n : short p n = false → (n <= length p)%nat.
Proof. unfold short. intros H. zbool. lia. Qed.

Lemma short_true p n : short p n = true → (length p < n)%nat.
Proof. unfold short. intros H. by zbool. Qed.

Lemma short_true_eq p n : (length p < n)%nat → short p n = true.
Proof. intros H. unfold short. by apply Nat.ltb_lt. Qed.
Lemma short_false_eq p n : (n <= length p)%nat → short p n = false.
Proof. intros H. unfold short. by apply Nat.ltb_ge. Qed.

Lemma length_splice p i bs :
  (i + length bs <= length p)%nat → length (splice p i bs) = length p.
Proof. intros H. unfold splice. rewrite !length_app, length_take, length_drop. lia. Qed.

Lemma drop_splice p i bs n :
  (i + length bs <= length p)%nat → (i + length bs <= n)%nat →
  drop n (splice p i bs) = drop n p.
Proof.
  intros H Hn. unfold splice. rewrite !drop_app_ge; rewrite ?length_take; try lia.
  rewrite drop_drop. f_equal. lia.
Qed.

Lemma length_slice p i n : (i + n <= length p)%nat → length (slice p i n) = n.
Proof. intros H. unfold slice. rewrite length_take, length_drop. lia. Qed.

Lemma bytes_ok_slice p i n : bytes_ok p → bytes_ok (slice p i n).
Proof. intros H. unfold bytes_ok, slice. by apply Forall_take, Forall_drop. Qed.

Lemma bytes_ok_splice p i bs : bytes_ok p → bytes_ok bs → bytes_ok (splice p i bs).
Proof.
  intros Hp Hb. unfold bytes_ok, splice.
  apply Forall_app; split; [by apply Forall_take|].
  apply Forall_app; split; [done|by apply Forall_drop].
Qed.

Lemma at_byte p i : bytes_ok p → is_byte (at_ p i).
Proof.
  intros H. unfold at_. destruct (nth_in_or_default i p 0) as [Hin| ->].
  - by apply (proj1 (List.Forall_forall _ _) H).
  - unfold is_byte. lia.
Qed.

Lemma at_splice_in p i bs j :
  (i + length bs <= length p)%nat → (i <= j < i + length bs)%nat →
  at_ (splice p i bs) j = at_ bs (j - i).
Proof.
  intros H Hj. unfold at_, splice.
  rewrite app_nth2; rewrite length_take; [|lia].
  rewrite app_nth1 by lia. f_equal. lia.
Qed.

Lemma at_splice_out p i bs j :
  (i + length bs <= length p)%nat → (j < i ∨ i + length bs <= j)%nat →
  at_ (splice p i bs) j = at_ p j.
Proof.
  intros H Hj. unfold at_, splice. rewrite !nth_lookup. f_equal.
  destruct (decide (j < i)%nat).
  - rewrite lookup_app_l by (rewrite length_take; lia). by apply lookup_take_lt.
  - rewrite lookup_app_r by (rewrite length_take; lia).
    rewrite lookup_app_r by (rewrite length_take; lia).
    rewrite lookup_drop. f_equal. rewrite length_take. lia.
Qed.

(** Reading back what was written, and reading past a disjoint write. *)
Lemma slice_splice_same p i bs :
  (i + length bs <= length p)%nat → slice (splice p i bs) i (length bs) = bs.
Proof.
  intros H. unfold slice, splice.
  rewrite drop_app_length' by (rewrite length_take; lia).
  by rewrite take_app_length.
Qed.

Lemma slice_splice_at p i bs n :
  length bs = n → (i + n <= length p)%nat → slice (splice p i bs) i n = bs.
Proof. intros <- H. by apply slice_splice_same. Qed.

Lemma at_slice p i n k : (k < n)%nat → at_ (slice p i n) k = at_ p (i + k).
Proof.
  intros H. unfold at_, slice. rewrite !nth_lookup.
  by rewrite lookup_take_lt, lookup_drop by lia.
Qed.

(** Two lists of one length are equal when they agree at every index. *)
Lemma at_ext (a b : list Z) :
  length a = length b → (∀ k, (k < length a)%nat → at_ a k = at_ b k) → a = b.
Proof.
  intros Hl H. apply (nth_ext a b 0 0 Hl). intros k Hk. by apply H.
Qed.

Lemma slice_splice_out p i bs j n :
  (i + length bs <= length p)%nat → (j + n <= length p)%nat →
  (j + n <= i ∨ i + length bs <= j)%nat →
  slice (splice p i bs) j n = slice p j n.
Proof.
  intros H Hj Hd. apply at_ext.
  - by rewrite !length_slice by (rewrite ?length_splice; lia).
  - rewrite length_slice by (rewrite length_splice; lia). intros k Hk.
    rewrite !at_slice by done. apply at_splice_out; lia.
Qed.

Lemma slice_splice_inner p i bs j n :
  (i + length bs <= length p)%nat → (j + n <= length p)%nat →
  (j <= i)%nat → (i + length bs <= j + n)%nat →
  slice (splice p i bs) j n = splice (slice p j n) (i - j) bs.
Proof.
  intros H Hj H1 H2.
  assert (length (slice p j n) = n) as Hls by (by apply length_slice).
  apply at_ext.
  - rewrite length_slice by (rewrite length_splice; lia).
    rewrite length_splice; lia.
  - rewrite length_slice by (rewrite length_splice; lia). intros k Hk.
    rewrite at_slice by done.
    destruct (decide (i <= j + k < i + length bs)%nat).
    + rewrite !at_splice_in by lia. f_equal. lia.
    + rewrite !at_splice_out by lia. by rewrite at_slice.
Qed.

Lemma slice_slice p i n j m :
  (j + m <= n)%nat → slice (slice p i n) j m = slice p (i + j) m.
Proof.
  intros H. unfold slice. rewrite skipn_firstn_comm, take_take, drop_drop.
  f_equal. lia.
Qed.

Lemma slice_full p : slice p 0 (length p) = p.
Proof. unfold slice. rewrite drop_0. apply firstn_all. Qed.

(** A write inside an earlier one, and one that continues it. *)
Lemma splice_inner p i a k j b :
  (i + length a <= length p)%nat → (k + length b <= length a)%nat → j = (i + k)%nat →
  splice (splice p i a) j b = splice p i (splice a k b).
Proof.
  intros Hp Hk ->. apply at_ext.
  { rewrite !length_splice; rewrite ?length_splice; lia. }
  rewrite !length_splice by (rewrite ?length_splice; lia). intros n Hn.
  destruct (decide (i + k <= n < i + k + length b)%nat).
  { rewrite at_splice_in by (rewrite ?length_splice; lia).
    rewrite at_splice_in by (rewrite ?length_splice; lia).
    rewrite at_splice_in by lia. f_equal. lia. }
  rewrite at_splice_out by (rewrite ?length_splice; lia).
  destruct (decide (i <= n < i + length a)%nat).
  - rewrite !at_splice_in by (rewrite ?length_splice; lia). by rewrite at_splice_out by lia.
  - by rewrite !at_splice_out by (rewrite ?length_splice; lia).
Qed.

Lemma splice_next p i a j b :
  (i + length a + length b <= length p)%nat → j = (i + length a)%nat →
  splice (splice p i a) j b = splice p i (a ++ b).
Proof.
  intros Hp ->. apply at_ext.
  { rewrite !length_splice; rewrite ?length_splice, ?length_app; lia. }
  rewrite !length_splice by (rewrite ?length_splice; lia). intros n Hn.
  destruct (decide (i + length a <= n < i + length a + length b)%nat).
  { rewrite !at_splice_in by (rewrite ?length_splice, ?length_app; lia).
    unfold at_. rewrite app_nth2 by lia. f_equal. lia. }
  rewrite at_splice_out by (rewrite ?length_splice; lia).
  destruct (decide (i <= n < i + length a)%nat).
  - rewrite !at_splice_in by (rewrite ?length_app; lia). unfold at_. by rewrite app_nth1 by lia.
  - by rewrite !at_splice_out by (rewrite ?length_app; lia).
Qed.

Lemma splice_app_r a b k c : splice (a ++ b) (length a + k) c = a ++ splice b k c.
Proof.
  unfold splice. rewrite take_app_add, <- Nat.add_assoc, drop_app_add. by rewrite <- app_assoc.
Qed.
Lemma splice_nil p i : splice p i [] = p.
Proof. unfold splice. cbn. rewrite Nat.add_0_r. apply take_drop. Qed.
Lemma splice_front a b : splice a 0 b = b ++ drop (length b) a.
Proof. reflexivity. Qed.

Lemma slice_cons p i n :
  (i + S n <= length p)%nat → slice p i (S n) = at_ p i :: slice p (i + 1) n.
Proof.
  intros H. apply at_ext.
  - simpl. rewrite !length_slice; lia.
  - rewrite length_slice by done. intros [|k] Hk.
    + rewrite at_slice by done. simpl. unfold at_ at 2. simpl. f_equal. lia.
    + rewrite at_slice by done. change (at_ (?x :: ?l) (S k)) with (at_ l k).
      rewrite at_slice by lia. f_equal. lia.
Qed.

Lemma split_slice p i n :
  (i + n <= length p)%nat → p = take i p ++ slice p i n ++ drop (i + n) p.
Proof.
  intros H. unfold slice. rewrite <- drop_drop.
  by rewrite (take_drop n), take_drop.
Qed.

(** Deciding the side conditions of a literal. *)
Lemma bytes_ok_b l : forallb (λ b, (0 <=? b) && (b <? 256)) l = true → bytes_ok l.
Proof.
  rewrite forallb_forall. intros H. apply List.Forall_forall. intros b Hb.
  apply H, andb_true_iff in Hb as [? ?]. unfold is_byte. zbool. lia.
Qed.
Lemma is_arr_b n l :
  (length l =? n)%nat && forallb (λ b, (0 <=? b) && (b <? 256)) l = true → is_arr n l.
Proof. intros [E Hb]%andb_true_iff. split; [by apply Nat.eqb_eq|by apply bytes_ok_b]. Qed.

(** ** Word sums *)

Lemma wsum_app l1 l2 :
  Nat.Even (length l1) → wsum (l1 ++ l2) = wsum l1 + wsum l2.
Proof.
  induction l1 as [|a|a b r IH] using list_pair_ind; intros [k Hk]; simpl in *.
  - lia.
  - lia.
  - rewrite IH; [lia|]. exists (k - 1)%nat. lia.
Qed.

(** A 16-bit-aligned write changes the word sum by the difference of the word
    sums of the field. *)
Lemma wsum_splice p i bs :
  (i + length bs <= length p)%nat → Nat.Even i → Nat.Even (length bs) →
  wsum (splice p i bs) = wsum p - wsum (slice p i (length bs)) + wsum bs.
Proof.
  intros H Hi Hb. rewrite (split_slice p i (length bs) H) at 2.
  unfold splice.
  assert (Nat.Even (length (take i p))) by (rewrite length_take_le; [done|lia]).
  assert (Nat.Even (length (slice p i (length bs)))) by (by rewrite length_slice).
  rewrite !wsum_app by done. lia.
Qed.

(** The word sum of the [n] bytes from [i]. *)
Definition wsl (p : list Z) (i n : nat) : Z := wsum (slice p i n).

Lemma wsl_splice_out p j bs i n :
  (j + length bs <= length p)%nat → (i + n <= length p)%nat →
  (i + n <= j ∨ j + length bs <= i)%nat → wsl (splice p j bs) i n = wsl p i n.
Proof. intros. unfold wsl. by rewrite slice_splice_out. Qed.

Lemma wsl_splice_in p j bs i n :
  (i + n <= length p)%nat → (i <= j)%nat → (j + length bs <= i + n)%nat →
  Nat.Even (j - i) → Nat.Even (length bs) →
  wsl (splice p j bs) i n = wsl p i n - wsl p j (length bs) + wsum bs.
Proof.
  intros Hn H1 H2 He Hb. unfold wsl. rewrite slice_splice_inner by lia.
  rewrite wsum_splice by (rewrite ?length_slice; done || lia).
  rewrite slice_slice by lia. do 4 f_equal. lia.
Qed.

Lemma wsl_2 p i : (i + 2 <= length p)%nat → wsl p i 2 = be16 (at_ p i) (at_ p (i + 1)).
Proof.
  intros H. unfold wsl. rewrite !slice_cons by lia. simpl.
  lia.
Qed.

Lemma wsl_nonneg p i n : bytes_ok p → 0 <= wsl p i n.
Proof. intros H. apply wsum_nonneg. by apply bytes_ok_slice. Qed.

Lemma length_to_be16 x : length (to_be16 x) = 2%nat.
Proof. done. Qed.

(** A write in bounds keeps the length. *)
Lemma wrn_len p i bs :
  (i + length bs <= length p)%nat → ∃ q, wrn p i bs = Some q ∧ length q = length p.
Proof. intros H. rewrite wrn_splice by done. eexists. split; [done|]. by apply length_splice. Qed.
Lemma wr8_len p i v : (i < length p)%nat → ∃ q, wr8 p i v = Some q ∧ length q = length p.
Proof. intros H. apply wrn_len. simpl. lia. Qed.
Lemma wr16_len p i v : (i + 1 < length p)%nat → ∃ q, wr16 p i v = Some q ∧ length q = length p.
Proof. intros H. apply wrn_len. simpl. lia. Qed.

(** ** Automation for packet code *)

(** Run the next write of the goal, remembering the length of the result. *)
Ltac write_step :=
  let q := fresh "q" in let H := fresh "Hq" in
  match goal with
  | |- context [wrn ?p ?i ?b] => destruct (wrn_len p i b) as (q & -> & H); [cbn; lia|]
  | |- context [wr8 ?p ?i ?v] => destruct (wr8_len p i v) as (q & -> & H); [cbn; lia|]
  | |- context [wr16 ?p ?i ?v] => destruct (wr16_len p i v) as (q & -> & H); [cbn; lia|]
  end; cbn [mbind option_bind].

(** Case analysis on the length checks, conditionals and reads of a packet
    function: every access is discharged by the checks before it. *)
Ltac mem_case b :=
  lazymatch b with
  | short ?p ?n =>
      let E := fresh "Hlen" in
      destruct (short p n) eqn:E; [apply short_true in E|apply short_false in E]
  | _ => let E := fresh "Hc" in destruct b eqn:E
  end.
Ltac mem_step :=
  match goal with
  | |- context [rd8 ?p ?i] => rewrite (rd8_at p i) by (rewrite ?length_splice; simpl; lia)
  | |- context [rd16 ?p ?i] => rewrite (rd16_at p i) by (rewrite ?length_splice; simpl; lia)
  | |- context [rdn ?p ?i ?n] => rewrite (rdn_slice p i n) by (rewrite ?length_splice; simpl; lia)
  | |- (if ?b then _ else _) = _ => mem_case b
  | |- (if ?b then _ else _) = _ → _ => mem_case b
  | |- context [if ?b then _ else _] => mem_case b
  end; cbn [mbind option_bind].
Ltac mem_go := cbn [mbind option_bind]; repeat mem_step.

(** A list of at least [n] bytes, or an array of [n], as variables: writes at
    constant offsets then compute. *)
Tactic Notation "explode_frame" ident(p) int_or_var(n) hyp(H) :=
  do n (destruct p as [|? p]; [exfalso; cbn in H; lia|]).
Tactic Notation "explode_arr" ident(a) int_or_var(n) hyp(H) :=
  do n (destruct a as [|? a]; [discriminate H|]); destruct a; [|discriminate H]; clear H.
