(* ===== verification/Csum.v ===== *)
(** * Csum

    One's-complement checksums (module [csum] of xdp-dp-common/src/lib.rs,
    xdp-dp-ebpf/src/csum.rs, and the full sums of the ARP/ND and NAT64
    responders): the folding loop, the two-step fold, the RFC 1624
    incremental updates, and the arithmetic modulo 65535 they compute. *)
From S2P Require Import Prelude Bytes.

(** ** Definitions *)

(** One round of carry propagation. *)
Definition carry (sum : Z) : Z := Z.land sum 0xffff + Z.shiftr sum 16.

(** [csum::fold]: [while (sum >> 16) != 0]; [fold_fuel] rounds are enough for
    a [u32] ([fold_loop_done]). *)
Fixpoint fold_loop (fuel : nat) (sum : Z) : Z :=
  match fuel with
  | O => sum
  | S f => if Z.shiftr sum 16 =? 0 then sum else fold_loop f (carry sum)
  end.
Definition fold_fuel : nat := 4.
Definition fold (sum : Z) : Z := wrap16 (fold_loop fold_fuel sum).

(** [csum::csum_replace4]. *)
Definition csum_replace4 (check : Z) (old new : list Z) : Z :=
  let sum := not16 check in
  let sum := sum + not16 (be16 (at_ old 0) (at_ old 1)) in
  let sum := sum + not16 (be16 (at_ old 2) (at_ old 3)) in
  let sum := sum + be16 (at_ new 0) (at_ new 1) in
  let sum := sum + be16 (at_ new 2) (at_ new 3) in
  not16 (fold sum).

(** [csum_replace2]: the upper two bytes of both arguments are zeroed. *)
Definition csum_replace2 (check old new : Z) : Z :=
  let o := to_be16 old in
  let n := to_be16 new in
  csum_replace4 check [at_ o 0; at_ o 1; 0; 0] [at_ n 0; at_ n 1; 0; 0].

(** The two unrolled rounds the datapath uses where the verifier forbids the
    loop, and the complement that follows. *)
Definition fold2 (sum : Z) : Z := carry (carry sum).
Definition csum_fold (sum : Z) : Z := not16 (wrap16 (fold2 sum)).

(** [csum_add16] of the NAT64 and DHCP builders. *)
Definition csum_add16 (sum hi lo : Z) : Z := wrap32 (sum + Z.lor (Z.shiftl hi 8) lo).

(** A run of [csum_add16] calls over the bytes of an array, two at a time. *)
Fixpoint csum_add_words (s : Z) (a : list Z) : Z :=
  match a with
  | hi :: lo :: r => csum_add_words (csum_add16 s hi lo) r
  | _ => s
  end.

(** ** Specification vocabulary *)

(** The one's-complement residue of a sum: the value in 0..65535 that both
    folds compute; 0 only for the empty sum. *)
Definition residue (s : Z) : Z := if s =? 0 then 0 else (s - 1) mod 65535 + 1.

(** The checksum a full recomputation over [h] stores (field zeroed). *)
Definition full_csum (h : list Z) : Z := not16 (fold (wsum h)).

(** A sum that includes its checksum field verifies: it folds to 0xffff. *)
Definition csum_valid (s : Z) : Prop := residue s = 0xffff.

(** ** Arithmetic of the residue *)

Lemma carry_div s : carry s = s - 65535 * (s / 65536).
Proof.
  unfold carry. change (Z.land s 0xffff) with (wrap16 s).
  rewrite wrap16_mod, Z.shiftr_div_pow2 by lia. change (2 ^ 16) with 65536.
  pose proof (Z.div_mod s 65536). lia.
Qed.

Lemma residue_shift s k : 0 < s → 0 < s + 65535 * k → residue (s + 65535 * k) = residue s.
Proof.
  intros H1 H2. unfold residue.
  rewrite (proj2 (Z.eqb_neq s 0)), (proj2 (Z.eqb_neq (s + 65535 * k) 0)) by lia.
  replace (s + 65535 * k - 1) with (s - 1 + k * 65535) by lia.
  by rewrite Z.mod_add by lia.
Qed.

Lemma residue_small s : 0 <= s <= 65535 → residue s = s.
Proof.
  intros H. unfold residue. destruct (s =? 0) eqn:E; zbool; [done|].
  rewrite Z.mod_small; lia.
Qed.

Lemma residue_range s : 0 <= s → 0 <= residue s <= 65535.
Proof.
  intros H. unfold residue. destruct (s =? 0); [lia|].
  pose proof (Z.mod_pos_bound (s - 1) 65535). lia.
Qed.

Lemma residue_u16 s : 0 <= s → is_u16 (residue s).
Proof. intros H. pose proof (residue_range s H). unfold is_u16. lia. Qed.

Lemma residue_pos s : 0 < s → 0 < residue s.
Proof.
  intros H. unfold residue. rewrite (proj2 (Z.eqb_neq s 0)) by lia.
  pose proof (Z.mod_pos_bound (s - 1) 65535). lia.
Qed.

(** A sum and its residue differ by a multiple of 65535. *)
Lemma residue_repr s : 0 <= s → ∃ k, 0 <= k ∧ s = residue s + 65535 * k.
Proof.
  intros H. unfold residue. destruct (s =? 0) eqn:E; zbool; [exists 0; lia|].
  exists ((s - 1) / 65535). split; [apply Z.div_pos; lia|].
  pose proof (Z.div_mod (s - 1) 65535). lia.
Qed.

Lemma residue_eq a b : 0 < a → 0 < b → a mod 65535 = b mod 65535 → residue a = residue b.
Proof.
  intros Ha Hb H. pose proof (Z.div_mod a 65535). pose proof (Z.div_mod b 65535).
  replace a with (b + 65535 * (a / 65535 - b / 65535)) by lia.
  apply residue_shift; lia.
Qed.

Lemma residue_mod s : 0 <= s → residue s mod 65535 = s mod 65535.
Proof.
  intros H. destruct (residue_repr s H) as (k & _ & E).
  rewrite E at 2. by rewrite Z.mul_comm, Z.mod_add by lia.
Qed.

(** A residue inside a sum may be replaced by the value itself. *)
Lemma residue_add a b : 0 < a → 0 <= b → residue (residue a + b) = residue (a + b).
Proof.
  intros Ha Hb. pose proof (residue_pos a Ha). apply residue_eq; [lia..|].
  rewrite Z.add_mod, residue_mod, <- Z.add_mod by lia. done.
Qed.

Lemma csum_valid_iff s : 0 <= s → csum_valid s ↔ 0 < s ∧ s mod 65535 = 0.
Proof.
  intros H. unfold csum_valid. split.
  - intros E. split.
    + destruct (decide (s = 0)); [subst; discriminate E|lia].
    + rewrite <- residue_mod, E by done. done.
  - intros [Hp Hm]. rewrite (residue_eq s 65535) by (rewrite ?Hm; done). done.
Qed.

(** ** The folds compute the residue *)

Lemma carry_residue s : 0 <= s → residue (carry s) = residue s ∧ 0 <= carry s.
Proof.
  intros H. rewrite carry_div. pose proof (Z.div_mod s 65536).
  pose proof (Z.mod_pos_bound s 65536).
  assert (0 <= s / 65536) by (apply Z.div_pos; lia).
  destruct (decide (s = 0)) as [->|]; [done|].
  assert (0 < s - 65535 * (s / 65536)) by lia. split; [|lia].
  replace (s - 65535 * (s / 65536)) with (s + 65535 * - (s / 65536)) by lia.
  apply residue_shift; lia.
Qed.

Lemma carry_le s b : 0 <= s <= b → carry s <= 65535 + b / 65536.
Proof.
  intros H. unfold carry. change (Z.land s 0xffff) with (wrap16 s).
  rewrite wrap16_mod, Z.shiftr_div_pow2 by lia. change (2 ^ 16) with 65536.
  pose proof (Z.mod_pos_bound s 65536). pose proof (Z.div_le_mono s b 65536). lia.
Qed.

(** Two rounds bring any 32-bit sum below 2^16. *)
Lemma carry2_residue s :
  0 <= s < 2 ^ 32 → 0 <= carry (carry s) <= 65535 ∧ carry (carry s) = residue s.
Proof.
  intros H. destruct (carry_residue s) as [R1 P1]; [lia|].
  destruct (carry_residue (carry s)) as [R2 P2]; [lia|].
  pose proof (carry_le s (2 ^ 32 - 1)) as B1. change ((2 ^ 32 - 1) / 65536) with 65535 in B1.
  assert (carry (carry s) <= 65535) as B.
  { rewrite (carry_div (carry s)). pose proof (Z.div_mod (carry s) 65536).
    pose proof (Z.mod_pos_bound (carry s) 65536).
    pose proof (Z.div_le_mono (carry s) 131070 65536 ltac:(lia)) as D.
    change (131070 / 65536) with 1 in D.
    assert (0 <= carry s / 65536) by (apply Z.div_pos; lia). lia. }
  split; [lia|]. rewrite <- R1, <- R2. symmetry. apply residue_small. lia.
Qed.

Lemma shiftr16_zero s : 0 <= s → (Z.shiftr s 16 =? 0) = (s <=? 65535).
Proof.
  intros H. rewrite Z.shiftr_div_pow2 by lia. change (2 ^ 16) with 65536.
  pose proof (Z.div_mod s 65536). pose proof (Z.mod_pos_bound s 65536).
  destruct (s <=? 65535) eqn:E; zbool.
  - apply Z.eqb_eq, Z.div_small. lia.
  - apply Z.eqb_neq. lia.
Qed.

Lemma fold_loop_stop fuel s : 0 <= s <= 65535 → fold_loop fuel s = residue s.
Proof.
  intros H. rewrite residue_small by done. destruct fuel as [|fuel]; [done|]. simpl.
  rewrite shiftr16_zero by lia. by rewrite (proj2 (Z.leb_le s 65535)) by lia.
Qed.

(** At most two rounds are needed below 2^32: the loop stops with the
    residue, whatever fuel beyond two it is given. *)
Lemma fold_loop_residue fuel s :
  0 <= s < 2 ^ 32 → (2 <= fuel)%nat → fold_loop fuel s = residue s.
Proof.
  intros Hs Hf. destruct fuel as [|[|fuel]]; [lia..|]. simpl.
  destruct (carry_residue s) as [R1 P1]; [lia|].
  destruct (carry2_residue s Hs) as [B E].
  rewrite !shiftr16_zero by lia.
  destruct (s <=? 65535) eqn:E1; zbool; [rewrite residue_small; lia|].
  destruct (carry s <=? 65535) eqn:E2; zbool.
  - rewrite <- R1, residue_small; lia.
  - rewrite fold_loop_stop by done. rewrite residue_small; [done|lia].
Qed.

Lemma wrap16_small x : is_u16 x → wrap16 x = x.
Proof. intros H. rewrite wrap16_mod. by apply Z.mod_small. Qed.

Lemma fold_residue s : 0 <= s < 2 ^ 32 → fold s = residue s.
Proof.
  intros H. unfold fold. rewrite fold_loop_residue by (done || (unfold fold_fuel; lia)).
  apply wrap16_small, residue_u16. lia.
Qed.

Lemma fold2_residue s : 0 <= s < 2 ^ 32 → wrap16 (fold2 s) = residue s.
Proof.
  intros H. destruct (carry2_residue s H) as [B E]. unfold fold2. rewrite E.
  apply wrap16_small, residue_u16. lia.
Qed.

Lemma csum_fold_residue s : 0 <= s < 2 ^ 32 → csum_fold s = 65535 - residue s.
Proof.
  intros H. unfold csum_fold. rewrite fold2_residue by done.
  apply not16_sub, residue_u16. lia.
Qed.

(** Storing the folded sum of the other words makes the whole verify. *)
Lemma csum_fold_valid s : 0 < s < 2 ^ 32 → csum_valid (s + csum_fold s).
Proof.
  intros H. rewrite csum_fold_residue by lia. destruct (residue_repr s) as (k & Hk & E); [lia|].
  pose proof (residue_range s). apply csum_valid_iff; [lia|]. split; [lia|].
  replace (s + (65535 - residue s)) with ((k + 1) * 65535) by lia. apply Z.mod_mul. lia.
Qed.

Lemma csum_fold_range s : is_u16 (csum_fold s).
Proof. apply not16_range. Qed.

(** ** Full sums *)

Lemma csum_add_words_run a s :
  bytes_ok a → Nat.Even (length a) → 0 <= s → s + wsum a < 2 ^ 32 →
  csum_add_words s a = s + wsum a.
Proof.
  revert s. induction a as [|x|x y a IH] using list_pair_ind; intros s Hb [k Hk] Hs Hlt.
  - cbn. lia.
  - cbn in Hk. lia.
  - apply Forall_cons in Hb as [Hx Hb]. apply Forall_cons in Hb as [Hy Hb].
    cbn [csum_add_words wsum] in *. unfold csum_add16. fold (be16 x y).
    pose proof (be16_range x y Hx Hy) as Hw. unfold is_u16 in Hw.
    pose proof (wsum_nonneg a Hb). rewrite wrap32_mod, Z.mod_small by lia.
    rewrite IH; [lia|done| |lia|lia]. exists (k - 1)%nat. cbn in Hk. lia.
Qed.

Lemma csum_add16_run s x y :
  is_byte x → is_byte y → 0 <= s → s + be16 x y < 2 ^ 32 → csum_add16 s x y = s + be16 x y.
Proof.
  intros Hx Hy Hs Hlt. unfold csum_add16. fold (be16 x y).
  pose proof (be16_range x y Hx Hy) as Hw. unfold is_u16 in Hw.
  rewrite wrap32_mod. apply Z.mod_small. lia.
Qed.

(** ** The incremental update *)

Definition word4 (a : list Z) : Z := be16 (at_ a 0) (at_ a 1) + be16 (at_ a 2) (at_ a 3).

Lemma be16_at a i j : bytes_ok a → is_u16 (be16 (at_ a i) (at_ a j)).
Proof. intros H. apply be16_range; by apply at_byte. Qed.

Lemma word4_range a : bytes_ok a → 0 <= word4 a <= 131070.
Proof.
  intros H. pose proof (be16_at a 0 1 H). pose proof (be16_at a 2 3 H).
  unfold word4, is_u16 in *. lia.
Qed.

Lemma wsum_word4 a : length a = 4%nat → wsum a = word4 a.
Proof.
  destruct a as [|a [|b [|c [|d [|]]]]]; try done. intros _.
  unfold word4, at_. simpl. lia.
Qed.

(** The sum the update folds, as one expression. *)
Lemma csum_replace4_residue check old new :
  is_u16 check → bytes_ok old → bytes_ok new →
  csum_replace4 check old new
  = 65535 - residue (65535 - check + (131070 - word4 old) + word4 new).
Proof.
  intros Hc Ho Hn. unfold csum_replace4.
  pose proof (word4_range old Ho). pose proof (word4_range new Hn).
  rewrite (not16_sub check), !(not16_sub (be16 (at_ old _) _)) by (done || by apply be16_at).
  unfold is_u16, word4 in *.
  set (s := _ + _ + _ + _ + _). assert (0 <= s < 2 ^ 32) as Hs.
  { subst s. pose proof (be16_at old 0 1 Ho). pose proof (be16_at old 2 3 Ho).
    unfold is_u16 in *. lia. }
  rewrite fold_residue by done. rewrite not16_sub by (apply residue_u16; lia).
  do 2 f_equal. subst s. lia.
Qed.

Lemma csum_replace4_range check old new :
  is_u16 check → bytes_ok old → bytes_ok new → is_u16 (csum_replace4 check old new).
Proof.
  intros Hc Ho Hn. rewrite csum_replace4_residue by done.
  pose proof (word4_range old Ho). pose proof (word4_range new Hn).
  pose proof (residue_range (65535 - check + (131070 - word4 old) + word4 new)).
  unfold is_u16 in *. lia.
Qed.

(** Modulo 65535, the stored checksum plus the field is unchanged. *)
Lemma csum_replace4_mod check old new :
  is_u16 check → bytes_ok old → bytes_ok new →
  (csum_replace4 check old new + word4 new) mod 65535 = (check + word4 old) mod 65535.
Proof.
  intros Hc Ho Hn. rewrite csum_replace4_residue by done.
  pose proof (word4_range old Ho). pose proof (word4_range new Hn). unfold is_u16 in Hc.
  destruct (residue_repr (65535 - check + (131070 - word4 old) + word4 new)) as (k & Hk & E);
    [lia|].
  replace (65535 - residue _ + word4 new) with (check + word4 old + (k - 2) * 65535) by lia.
  by rewrite Z.mod_add by lia.
Qed.

Lemma csum_replace2_word4 x : is_u16 x →
  let b := to_be16 x in word4 [at_ b 0; at_ b 1; 0; 0] = x ∧ bytes_ok [at_ b 0; at_ b 1; 0; 0].
Proof.
  intros H. pose proof (to_be16_bytes x H) as Hb. inversion Hb as [|? ? ? Hb1]; subst.
  inversion Hb1; subst. split; [|by repeat (done || constructor)].
  unfold word4, at_. cbn [nth to_be16]. rewrite be16_to_be16 by done.
  change (be16 0 0) with 0. lia.
Qed.

Lemma csum_replace2_range check old new :
  is_u16 check → is_u16 old → is_u16 new → is_u16 (csum_replace2 check old new).
Proof.
  intros Hc Ho Hn. apply csum_replace4_range; [done|..];
    by apply csum_replace2_word4.
Qed.

Lemma csum_replace2_mod check old new :
  is_u16 check → is_u16 old → is_u16 new →
  (csum_replace2 check old new + new) mod 65535 = (check + old) mod 65535.
Proof.
  intros Hc Ho Hn. destruct (csum_replace2_word4 old Ho) as [Eo Bo].
  destruct (csum_replace2_word4 new Hn) as [En Bn].
  pose proof (csum_replace4_mod check _ _ Hc Bo Bn) as H. by rewrite Eo, En in H.
Qed.

(** The same facts in the linear form [lia] uses. *)
Lemma mod_shift a b : a mod 65535 = b mod 65535 → ∃ k, a = b + 65535 * k.
Proof.
  intros H. exists (a / 65535 - b / 65535).
  pose proof (Z.div_mod a 65535). pose proof (Z.div_mod b 65535). lia.
Qed.

Lemma csum_replace4_shift check old new :
  is_u16 check → bytes_ok old → bytes_ok new →
  ∃ k, csum_replace4 check old new + word4 new = check + word4 old + 65535 * k.
Proof. intros. by apply mod_shift, csum_replace4_mod. Qed.

Lemma csum_replace2_shift check old new :
  is_u16 check → is_u16 old → is_u16 new →
  ∃ k, csum_replace2 check old new + new = check + old + 65535 * k.
Proof. intros. by apply mod_shift, csum_replace2_mod. Qed.

Lemma residue_congr a b k : 0 < a → 0 < b → a = b + 65535 * k → residue a = residue b.
Proof. intros Ha Hb ->. apply residue_shift; lia. Qed.

Lemma csum_valid_congr a b k : 0 < a → a = b + 65535 * k → 0 <= b → csum_valid b → csum_valid a.
Proof.
  intros Ha E Hb Hv. apply csum_valid_iff in Hv as [Hp Hm]; [|done].
  unfold csum_valid. rewrite (residue_congr a b k) by done.
  by apply csum_valid_iff.
Qed.
Lemma csum_valid_shift a b k : 0 < a → 0 < b → a = b + 65535 * k → csum_valid a ↔ csum_valid b.
Proof. intros Ha Hb E. unfold csum_valid. by rewrite (residue_congr a b k). Qed.
(** Words behind a valid sum keep it valid when they sum to zero. *)
Lemma csum_valid_add s r :
  0 <= s → csum_valid s → 0 <= r → csum_valid (s + r) ↔ r mod 65535 = 0.
Proof.
  intros Hs Hv Hr. apply csum_valid_iff in Hv as [Hp Hm]; [|done].
  rewrite csum_valid_iff by lia. rewrite <- Zplus_mod_idemp_l, Hm, Z.add_0_l.
  split; [by intros []|]. intros H. split; [lia|done].
Qed.

#[export] Hint Resolve csum_replace4_range csum_replace2_range at_byte be16_at : dp_bounds.

Lemma full_csum_range h : is_u16 (full_csum h).
Proof. apply not16_range. Qed.

Lemma full_csum_residue h :
  bytes_ok h → wsum h < 2 ^ 32 → full_csum h = 65535 - residue (wsum h).
Proof.
  intros Hb Hw. pose proof (wsum_nonneg h Hb). unfold full_csum.
  rewrite fold_residue by lia. apply not16_sub, residue_u16. lia.
Qed.

(** A list of 16-bit words sums below 2^16 times its length. *)
Lemma wsum_bound l : bytes_ok l → wsum l <= 65535 * Z.of_nat (length l).
Proof.
  induction l as [|a|a b r IH] using list_pair_ind; intros Hl.
  - done.
  - inversion Hl; subst. pose proof (be16_range a 0). unfold is_u16, is_byte in *.
    simpl. lia.
  - inversion Hl as [|? ? Ha Hr]; subst. inversion Hr; subst. specialize (IH ltac:(done)).
    pose proof (be16_range a b). unfold is_u16 in *.
    cbn [wsum length]. specialize (H ltac:(done) ltac:(done)). lia.
Qed.

(** ** Properties *)

(** C18.  RFC 1624 incremental update equals a full recomputation: for any
    header [h] (its checksum field zero), replacing the four bytes at an
    even offset and updating the full checksum with [csum_replace4] gives
    exactly the full checksum of the changed header. *)
Theorem csum_replace4_full_recompute (h : list Z) (off : nat) (new : list Z) :
  bytes_ok h → Z.of_nat (length h) <= 65535 → Nat.Even off → (off + 4 <= length h)%nat →
  is_arr 4 new → 0 < wsum (splice h off new) →
  csum_replace4 (full_csum h) (slice h off 4) new = full_csum (splice h off new).
Proof.
  intros Hb Hlen He Hoff [Hnl Hnb] Hpos.
  assert (bytes_ok (slice h off 4)) as Hob by (by apply bytes_ok_slice).
  assert (length (slice h off 4) = 4%nat) as Hol by (by apply length_slice).
  assert (bytes_ok (splice h off new)) as Hsb by (by apply bytes_ok_splice).
  pose proof (wsum_bound h Hb). pose proof (wsum_bound _ Hsb) as Hbs.
  rewrite length_splice in Hbs by lia. pose proof (wsum_nonneg h Hb).
  rewrite csum_replace4_residue by (assumption || apply full_csum_range).
  rewrite (full_csum_residue h), (full_csum_residue (splice h off new)) by (done || lia).
  pose proof (wsum_splice h off new ltac:(lia) He) as Hw. rewrite Hnl in Hw.
  specialize (Hw ltac:(by exists 2%nat)). rewrite (wsum_word4 (slice h off 4)), (wsum_word4 new) in Hw by done.
  pose proof (word4_range _ Hob). pose proof (word4_range _ Hnb).
  rewrite Hw. f_equal.
  replace (65535 - (65535 - residue (wsum h)) + (131070 - word4 (slice h off 4)) + word4 new)
    with (residue (wsum h) + (131070 - word4 (slice h off 4) + word4 new)) by lia.
  destruct (decide (wsum h = 0)) as [E0|].
  - rewrite E0 in *. change (residue 0) with 0.
    replace (0 - word4 (slice h off 4) + word4 new) with
      (0 + (131070 - word4 (slice h off 4) + word4 new) + 65535 * -2) by lia.
    symmetry. apply residue_shift; lia.
  - rewrite residue_add by lia.
    replace (wsum h - word4 (slice h off 4) + word4 new) with
      (wsum h + (131070 - word4 (slice h off 4) + word4 new) + 65535 * -2) by lia.
    symmetry. apply residue_shift; lia.
Qed.

Lemma csum_replace4_full_recompute_witness :
  let h := [0x45; 0; 0; 0x54; 0; 0; 0x40; 0; 0x40; 1; 0; 0; 10; 0; 0; 5; 10; 0; 0; 6] in
  csum_replace4 (full_csum h) (slice h 16 4) [10; 0; 0; 7]
  = full_csum (splice h 16 [10; 0; 0; 7]).
Proof.
  apply (csum_replace4_full_recompute
    [0x45; 0; 0; 0x54; 0; 0; 0x40; 0; 0x40; 1; 0; 0; 10; 0; 0; 5; 10; 0; 0; 6] 16 [10; 0; 0; 7]).
  - repeat constructor; done.
  - simpl. lia.
  - by exists 8%nat.
  - simpl. lia.
  - split; [done|]. repeat constructor; done.
  - vm_compute. done.
Defined.

(** Rewriting a field there and back restores the checksum, with the
    two representations of one's-complement zero identified: a stored 0xffff
    comes back as 0. *)
Theorem csum_replace4_round_trip (c : Z) (a b : list Z) :
  is_u16 c → is_arr 4 a → is_arr 4 b →
  csum_replace4 (csum_replace4 c a b) b a = if c =? 0xffff then 0 else c.
Proof.
  intros Hc [_ Ha] [_ Hb].
  pose proof (csum_replace4_range c a b Hc Ha Hb) as Hr.
  rewrite csum_replace4_residue by done.
  rewrite csum_replace4_residue by done.
  pose proof (word4_range a Ha). pose proof (word4_range b Hb). unfold is_u16 in *.
  set (s := 65535 - c + (131070 - word4 a) + word4 b).
  assert (0 <= s) by (subst s; lia).
  replace (65535 - (65535 - residue s) + (131070 - word4 b) + word4 a)
    with (residue s + (131070 - word4 b + word4 a)) by lia.
  destruct (decide (s = 0)) as [E|E].
  - assert (c = 65535 ∧ word4 a = 131070 ∧ word4 b = 0) as (-> & -> & ->) by (subst s; lia).
    rewrite E. done.
  - rewrite residue_add by lia.
    replace (s + (131070 - word4 b + word4 a)) with (65535 - c + 65535 * 4) by (subst s; lia).
    destruct (c =? 65535) eqn:Ec; zbool; [by subst c|].
    rewrite (residue_shift (65535 - c) 4) by lia. rewrite residue_small; lia.
Qed.

Lemma csum_replace4_round_trip_witness :
  csum_replace4 (csum_replace4 0x1234 [10; 0; 0; 5] [192; 168; 1; 1]) [192; 168; 1; 1] [10; 0; 0; 5]
  = 0x1234.
Proof.
  apply (csum_replace4_round_trip 0x1234 [10; 0; 0; 5] [192; 168; 1; 1]).
  - done.
  - split; [done|]. repeat constructor; done.
  - split; [done|]. repeat constructor; done.
Defined.
