(* ===== verification/Types.v ===== *)
(** * Types

    The plain-old-data types shared by the control plane and the datapath
    (xdp-dp-common/src/lib.rs) and its constants.  Integers are [Z] values of
    their width; [[u8; N]] arrays are byte lists ([is_arr N]).  The explicit
    [_pad] fields, always written as zero, are left out: two keys are equal
    here exactly when their bytes are. *)
From S2P Require Import Prelude Bytes.

(** ** Keys *)

Record IfaceKey := mkIfaceKey { ik_vni : Z; ik_ipv4 : list Z }.
Record VipKey := mkVipKey { vk_vni : Z; vk_ipv4 : list Z }.
Record NatKey := mkNatKey { nk_vni : Z; nk_ipv4 : list Z }.
Record LbKey := mkLbKey
  { lk_vni : Z; lk_ipv4 : list Z; lk_port : Z; lk_proto : Z }.
Record MaglevKey := mkMaglevKey { mk_table_id : Z; mk_slot : Z }.
Record FwRuleKey := mkFwRuleKey { fk_ifindex : Z; fk_idx : Z }.
Record CtKey := mkCtKey
  { ck_vni : Z; ck_src_ip : list Z; ck_dst_ip : list Z;
    ck_src_port : Z; ck_dst_port : Z; ck_proto : Z }.

(** An LPM-trie key: its prefix length and data bytes ([RouteLpmData],
    [RouteLpmData6]: the big-endian VNI, then the address). *)
Record LpmKey := mkLpmKey { lpm_prefix_len : Z; lpm_data : list Z }.

(** ** Values *)

Record IfaceValue := mkIfaceValue
  { iv_tap_ifindex : Z; iv_is_local : Z; iv_underlay_ipv6 : list Z; iv_guest_mac : list Z }.
Record UnderlayValue := mkUnderlayValue
  { uv_vni : Z; uv_tap_ifindex : Z; uv_guest_mac : list Z }.
Record PortMeta := mkPortMeta
  { pm_vni : Z; pm_guest_ipv4 : list Z; pm_gateway_ipv4 : list Z; pm_guest_mac : list Z;
    pm_underlay_ipv6 : list Z; pm_gateway_ipv6 : list Z; pm_guest_ipv6 : list Z }.
Record RouteValue := mkRouteValue
  { rv_nexthop_vni : Z; rv_nexthop_ipv6 : list Z; rv_is_external : Z }.
Record MeterState := mkMeterState
  { total_bps : Z; total_burst : Z; total_tokens : Z; total_last_ns : Z;
    public_bps : Z; public_burst : Z; public_tokens : Z; public_last_ns : Z }.
Record Local := mkLocal
  { lo_uplink_ifindex : Z; lo_uplink_mac : list Z; lo_gateway_mac : list Z;
    lo_underlay_ipv6 : list Z }.
Record LbValue := mkLbValue { lv_table_id : Z; lv_size : Z }.
Record NatValue := mkNatValue { nv_nat_ipv4 : list Z; nv_port_min : Z; nv_port_max : Z }.
Record CtEntry := mkCtEntry
  { ce_last_seen : Z; ce_xlate_ip : list Z; ce_xlate_port : Z; ce_flags : Z;
    ce_tcp_state : Z; ce_fwall_action : Z }.
Record FwRule := mkFwRule
  { fr_src_ip : list Z; fr_src_mask : list Z; fr_dst_ip : list Z; fr_dst_mask : list Z;
    fr_src_port_min : Z; fr_src_port_max : Z; fr_dst_port_min : Z; fr_dst_port_max : Z;
    fr_icmp_type : Z; fr_icmp_code : Z;
    fr_proto : Z; fr_action : Z; fr_direction : Z; fr_enabled : Z }.
Record FwMeta := mkFwMeta { ingress_count : Z; egress_count : Z }.
Record NeighborNatEntry := mkNeighborNatEntry
  { ne_underlay : list Z; ne_nat_ip : list Z; ne_vni : Z; ne_port_min : Z; ne_port_max : Z;
    ne_enabled : Z }.
Record DhcpConfig := mkDhcpConfig
  { dc_mtu : Z; dc_dns4_len : Z; dc_dns6_len : Z; dc_dns4 : list (list Z);
    dc_dns6 : list (list Z) }.
Record DhcpMeta := mkDhcpMeta
  { dm_hostname : list Z; dm_hostname_len : Z; dm_boot_filename : list Z;
    dm_boot_filename_len : Z; dm_pxe_host : list Z; dm_pxe_host_len : Z }.

(** The packet fields a firewall rule is matched against. *)
Record PacketSelectors := mkPacketSelectors
  { s_src : list Z; s_dst : list Z; s_proto : Z; s_sport : Z; s_dport : Z;
    s_icmp_type : Z; s_icmp_code : Z }.

(** ** Constants *)

Definition CT_REWRITE_SRC : Z := 0x01.
Definition CT_REWRITE_DST : Z := 0x02.
Definition CT_F_SRC_NAT : Z := 0x04.
Definition CT_F_DST_LB : Z := 0x08.
Definition CT_F_DEFAULT : Z := 0x10.
Definition CT_F_FIREWALL : Z := 0x20.
Definition CT_F_NAT64 : Z := 0x40.

Definition TCP_NONE : Z := 0.
Definition TCP_NEW_SYN : Z := 1.
Definition TCP_NEW_SYNACK : Z := 2.
Definition TCP_ESTABLISHED : Z := 3.
Definition TCP_FINWAIT : Z := 4.
Definition TCP_RST_FIN : Z := 5.

Definition FW_MAX_RULES : nat := 16.
Definition FW_DIR_INGRESS : Z := 0.
Definition FW_DIR_EGRESS : Z := 1.
Definition FW_ACTION_DROP : Z := 0.
Definition FW_ACTION_ACCEPT : Z := 1.
Definition NB_MAX_ENTRIES : nat := 64.
Definition DHCP_MAX_DNS : nat := 8.

(** Flag tests: [e.flags & bit != 0]. *)
Definition has_flag (flags bit : Z) : bool := negb (Z.land flags bit =? 0).

(** ** Decidable equality and countability of the keys *)

#[export] Instance IfaceKey_eq_dec : EqDecision IfaceKey.
Proof. solve_decision. Defined.
#[export] Instance VipKey_eq_dec : EqDecision VipKey.
Proof. solve_decision. Defined.
#[export] Instance NatKey_eq_dec : EqDecision NatKey.
Proof. solve_decision. Defined.
#[export] Instance LbKey_eq_dec : EqDecision LbKey.
Proof. solve_decision. Defined.
#[export] Instance MaglevKey_eq_dec : EqDecision MaglevKey.
Proof. solve_decision. Defined.
#[export] Instance FwRuleKey_eq_dec : EqDecision FwRuleKey.
Proof. solve_decision. Defined.
#[export] Instance CtKey_eq_dec : EqDecision CtKey.
Proof. solve_decision. Defined.
#[export] Instance LpmKey_eq_dec : EqDecision LpmKey.
Proof. solve_decision. Defined.

#[export] Instance IfaceKey_countable : Countable IfaceKey.
Proof.
  refine (inj_countable' (λ k, (ik_vni k, ik_ipv4 k))
    (λ x, mkIfaceKey x.1 x.2) _). by intros [].
Defined.
#[export] Instance VipKey_countable : Countable VipKey.
Proof.
  refine (inj_countable' (λ k, (vk_vni k, vk_ipv4 k)) (λ x, mkVipKey x.1 x.2) _).
  by intros [].
Defined.
#[export] Instance NatKey_countable : Countable NatKey.
Proof.
  refine (inj_countable' (λ k, (nk_vni k, nk_ipv4 k)) (λ x, mkNatKey x.1 x.2) _).
  by intros [].
Defined.
#[export] Instance LbKey_countable : Countable LbKey.
Proof.
  refine (inj_countable' (λ k, (lk_vni k, lk_ipv4 k, lk_port k, lk_proto k))
    (λ x, mkLbKey x.1.1.1 x.1.1.2 x.1.2 x.2) _). by intros [].
Defined.
#[export] Instance MaglevKey_countable : Countable MaglevKey.
Proof.
  refine (inj_countable' (λ k, (mk_table_id k, mk_slot k)) (λ x, mkMaglevKey x.1 x.2) _).
  by intros [].
Defined.
#[export] Instance FwRuleKey_countable : Countable FwRuleKey.
Proof.
  refine (inj_countable' (λ k, (fk_ifindex k, fk_idx k)) (λ x, mkFwRuleKey x.1 x.2) _).
  by intros [].
Defined.
#[export] Instance CtKey_countable : Countable CtKey.
Proof.
  refine (inj_countable'
    (λ k, (ck_vni k, ck_src_ip k, ck_dst_ip k, ck_src_port k, ck_dst_port k, ck_proto k))
    (λ x, mkCtKey x.1.1.1.1.1 x.1.1.1.1.2 x.1.1.1.2 x.1.1.2 x.1.2 x.2) _). by intros [].
Defined.
#[export] Instance LpmKey_countable : Countable LpmKey.
Proof.
  refine (inj_countable' (λ k, (lpm_prefix_len k, lpm_data k)) (λ x, mkLpmKey x.1 x.2) _).
  by intros [].
Defined.

(** ** Well-formedness *)

Record wf_CtKey (k : CtKey) : Prop := {
  wf_ck_vni : is_u32 (ck_vni k);
  wf_ck_src : is_arr 4 (ck_src_ip k);
  wf_ck_dst : is_arr 4 (ck_dst_ip k);
  wf_ck_sport : is_u16 (ck_src_port k);
  wf_ck_dport : is_u16 (ck_dst_port k);
  wf_ck_proto : is_byte (ck_proto k) }.

Record wf_CtEntry (e : CtEntry) : Prop := {
  wf_ce_ip : is_arr 4 (ce_xlate_ip e);
  wf_ce_port : is_u16 (ce_xlate_port e);
  wf_ce_flags : is_byte (ce_flags e);
  wf_ce_tcp : 0 <= ce_tcp_state e <= 5 }.

Record wf_NatValue (v : NatValue) : Prop := {
  wf_nv_ip : is_arr 4 (nv_nat_ipv4 v);
  wf_nv_min : is_u16 (nv_port_min v);
  wf_nv_max : is_u16 (nv_port_max v) }.
