(* ===== verification/Kernel.v ===== *)
(** * Kernel

    The state a datapath program runs on and the kernel interface it uses:
    the BPF maps (xdp-dp-ebpf/src/maps.rs), the frame, the clock, and the BPF
    helpers.  A hash map is a [gmap] with the capacity it is declared with.
    The helpers whose code is the kernel's are the fields of the class
    [Kernel]; what the program relies on of them is the class [KernelLaws]. *)
From S2P Require Import Prelude Bytes Types.

(** ** Maps *)

Record Maps := mkMaps {
  m_interfaces : gmap IfaceKey IfaceValue;
  m_port_meta : gmap Z PortMeta;
  m_underlay : gmap (list Z) UnderlayValue;
  m_routes : gmap LpmKey RouteValue;
  m_routes6 : gmap LpmKey RouteValue;
  m_local : option Local;
  m_vips : gmap VipKey (list Z);
  m_lb : gmap LbKey LbValue;
  m_maglev : gmap MaglevKey (list Z);
  m_conntrack : gmap CtKey CtEntry;
  m_nat : gmap NatKey NatValue;
  m_nat_ips : gmap VipKey Z;
  m_fw_rules : gmap FwRuleKey FwRule;
  m_fw_meta : gmap Z FwMeta;
  m_fw_config : option Z;
  m_neighbor_nat : gmap Z NeighborNatEntry;
  m_neighbor_nat_count : option Z;
  m_meter : gmap Z MeterState;
  m_dhcp_config : option DhcpConfig;
  m_dhcp_meta : gmap Z DhcpMeta }.

(** The maps of a freshly loaded object: hash maps are empty, the entry of an
    [Array] map exists and is zero ([LOCAL] is left out: it is written before
    the program is attached). *)
Definition zero_dhcp_config : DhcpConfig :=
  mkDhcpConfig 0 0 0 (replicate DHCP_MAX_DNS (replicate 4 0))
    (replicate DHCP_MAX_DNS (replicate 16 0)).
Definition empty_maps : Maps :=
  mkMaps ∅ ∅ ∅ ∅ ∅ None ∅ ∅ ∅ ∅ ∅ ∅ ∅ ∅ (Some 0) ∅ (Some 0) ∅
    (Some zero_dhcp_config) ∅.

(** Insertion into a BPF hash map of [max] entries ([BPF_ANY]): an existing
    key is overwritten, a new key needs room. *)
Definition hash_insert {K V} `{Countable K} (max : Z) (k : K) (v : V) (m : gmap K V)
    : option (gmap K V) :=
  match m !! k with
  | Some _ => Some (<[k := v]> m)
  | None => if Z.of_nat (size m) <? max then Some (<[k := v]> m) else None
  end.

(** Removal: an error when the key is absent. *)
Definition hash_remove {K V} `{Countable K} (k : K) (m : gmap K V) : option (gmap K V) :=
  match m !! k with
  | Some _ => Some (delete k m)
  | None => None
  end.

(** [let _ = map.insert(..)]: the result is dropped. *)
Definition hash_insert_ {K V} `{Countable K} (max : Z) (k : K) (v : V) (m : gmap K V) :=
  default m (hash_insert max k v m).

(** ** World *)

Record world := mkWorld
  { w_pkt : list Z;            (** the bytes of [data, data_end) *)
    w_maps : Maps;
    w_tick : nat;              (** clock readings so far *)
    w_redirect : option Z }.   (** target of the last [bpf_redirect] *)

Class Kernel := {
  (** The [n]-th reading of [bpf_ktime_get_ns]. *)
  ktime : nat → Z;
  (** [LruHashMap::insert] into CONNTRACK; it may evict other entries. *)
  lru_insert : CtKey → CtEntry → gmap CtKey CtEntry → gmap CtKey CtEntry;
  (** [LpmTrie::get] with a prefix length and key bytes; userspace [insert]
      and [remove]. *)
  lpm_lookup : gmap LpmKey RouteValue → Z → list Z → option RouteValue;
  lpm_insert : LpmKey → RouteValue → gmap LpmKey RouteValue → option (gmap LpmKey RouteValue);
  lpm_remove : LpmKey → gmap LpmKey RouteValue → option (gmap LpmKey RouteValue);
  (** [bpf_xdp_adjust_head] / [bpf_xdp_adjust_tail] on the frame: [None] is a
      non-zero return, which leaves the frame as it was. *)
  adjust_head : Z → list Z → option (list Z);
  adjust_tail : Z → list Z → option (list Z);
  (** [bpf_xdp_load_bytes] ([n] bytes at an offset) and [bpf_xdp_store_bytes]
      ([bs] at an offset): [None] is a non-zero return. *)
  load_bytes : nat → nat → list Z → option (list Z);
  store_bytes : nat → list Z → list Z → option (list Z);
  (** The action [bpf_redirect] returns. *)
  redirect_ret : Z → Z }.

(** The documented behaviour the program relies on. *)
Class KernelLaws `{K : Kernel} : Prop := {
  ktime_u64 n : 0 <= ktime n < 2 ^ 64;
  lru_insert_same k e m : lru_insert k e m !! k = Some e;
  lru_insert_other k e m k' :
    k' ≠ k → lru_insert k e m !! k' = m !! k' ∨ lru_insert k e m !! k' = None;
  lpm_lookup_stored m len d v : lpm_lookup m len d = Some v → ∃ k, m !! k = Some v;
  lpm_insert_values k v m m' k' v' :
    lpm_insert k v m = Some m' → m' !! k' = Some v' → v' = v ∨ ∃ k0, m !! k0 = Some v';
  lpm_remove_values k m m' k' v' :
    lpm_remove k m = Some m' → m' !! k' = Some v' → ∃ k0, m !! k0 = Some v';
  (** A key of full length is the longest prefix of its own data. *)
  lpm_insert_exact len d v m m' :
    lpm_insert (mkLpmKey len d) v m = Some m' → len = 8 * Z.of_nat (length d) →
    lpm_lookup m' len d = Some v;
  adjust_head_shrink d p p' :
    0 < d → adjust_head d p = Some p' → (Z.to_nat d <= length p)%nat ∧ p' = drop (Z.to_nat d) p;
  adjust_head_grow d p p' :
    d < 0 → adjust_head d p = Some p' →
    ∃ h, length h = Z.to_nat (- d) ∧ bytes_ok h ∧ p' = h ++ p;
  adjust_tail_grow d p p' :
    0 <= d → adjust_tail d p = Some p' →
    ∃ t, length t = Z.to_nat d ∧ bytes_ok t ∧ p' = p ++ t;
  adjust_tail_shrink d p p' :
    d < 0 → adjust_tail d p = Some p' →
    (Z.to_nat (- d) <= length p)%nat ∧ p' = take (length p - Z.to_nat (- d)) p;
  (** Both check the range against the frame, whose size fits 16 bits here. *)
  load_bytes_in i n p :
    (0 < n)%nat → (i + n <= length p)%nat → Z.of_nat (i + n) <= 0xffff →
    load_bytes i n p = Some (slice p i n);
  load_bytes_out i n p : (length p < i + n)%nat → load_bytes i n p = None;
  store_bytes_in i bs p :
    (0 < length bs)%nat → (i + length bs <= length p)%nat → Z.of_nat (i + length bs) <= 0xffff →
    store_bytes i bs p = Some (splice p i bs);
  store_bytes_out i bs p : (length p < i + length bs)%nat → store_bytes i bs p = None;
  (** In any case they fill the buffer, and leave the frame's size. *)
  load_bytes_len i n p b : load_bytes i n p = Some b → length b = n;
  store_bytes_len i bs p p' : store_bytes i bs p = Some p' → length p' = length p }.

(** ** Programs *)

Definition gets {A} (f : Maps → A) : prog world A := λ w, Some (f (w_maps w), w).
Definition get_pkt : prog world (list Z) := λ w, Some (w_pkt w, w).
Definition set_pkt (p : list Z) : prog world unit :=
  λ w, Some (tt, mkWorld p (w_maps w) (w_tick w) (w_redirect w)).
Definition update (f : Maps → Maps) : prog world unit :=
  λ w, Some (tt, mkWorld (w_pkt w) (f (w_maps w)) (w_tick w) (w_redirect w)).
(** A packet access: its fault is the program's fault. *)
Definition access {A} (m : list Z → mem A) : prog world A :=
  λ w, match m (w_pkt w) with Some a => Some (a, w) | None => None end.
(** A rewrite of the frame in place. *)
Definition rewrite_pkt (m : list Z → mem (list Z)) : prog world unit :=
  λ w, match m (w_pkt w) with
       | Some p => Some (tt, mkWorld p (w_maps w) (w_tick w) (w_redirect w))
       | None => None
       end.
Definition pwhen (b : bool) (m : prog world unit) : prog world unit :=
  if b then m else pret tt.

Section helpers.
Context `{Kernel}.

(** [conntrack::now]. *)
Definition now : prog world Z :=
  λ w, Some (ktime (w_tick w),
             mkWorld (w_pkt w) (w_maps w) (S (w_tick w)) (w_redirect w)).
Definition bpf_redirect (ifindex : Z) : prog world Z :=
  λ w, Some (redirect_ret ifindex,
             mkWorld (w_pkt w) (w_maps w) (w_tick w) (Some ifindex)).
(** Resizes: [true] on success. *)
Definition resize (f : list Z → option (list Z)) : prog world bool :=
  λ w, match f (w_pkt w) with
       | Some p => Some (true, mkWorld p (w_maps w) (w_tick w) (w_redirect w))
       | None => Some (false, w)
       end.
Definition xdp_adjust_head (d : Z) : prog world bool := resize (adjust_head d).
Definition xdp_adjust_tail (d : Z) : prog world bool := resize (adjust_tail d).
End helpers.

(** Map writes of the datapath. *)
Definition with_conntrack (f : gmap CtKey CtEntry → gmap CtKey CtEntry) (m : Maps) : Maps :=
  mkMaps (m_interfaces m) (m_port_meta m) (m_underlay m) (m_routes m) (m_routes6 m) (m_local m)
    (m_vips m) (m_lb m) (m_maglev m) (f (m_conntrack m)) (m_nat m) (m_nat_ips m)
    (m_fw_rules m) (m_fw_meta m) (m_fw_config m) (m_neighbor_nat m) (m_neighbor_nat_count m)
    (m_meter m) (m_dhcp_config m) (m_dhcp_meta m).
Definition with_meter (f : gmap Z MeterState → gmap Z MeterState) (m : Maps) : Maps :=
  mkMaps (m_interfaces m) (m_port_meta m) (m_underlay m) (m_routes m) (m_routes6 m) (m_local m)
    (m_vips m) (m_lb m) (m_maglev m) (m_conntrack m) (m_nat m) (m_nat_ips m)
    (m_fw_rules m) (m_fw_meta m) (m_fw_config m) (m_neighbor_nat m) (m_neighbor_nat_count m)
    (f (m_meter m)) (m_dhcp_config m) (m_dhcp_meta m).
(** Map writes of the control plane. *)
Definition with_interfaces (f : gmap IfaceKey IfaceValue → gmap IfaceKey IfaceValue) (m : Maps) : Maps :=
  mkMaps (f (m_interfaces m)) (m_port_meta m) (m_underlay m) (m_routes m) (m_routes6 m)
    (m_local m) (m_vips m) (m_lb m) (m_maglev m) (m_conntrack m) (m_nat m) (m_nat_ips m)
    (m_fw_rules m) (m_fw_meta m) (m_fw_config m) (m_neighbor_nat m) (m_neighbor_nat_count m)
    (m_meter m) (m_dhcp_config m) (m_dhcp_meta m).
Definition with_port_meta (f : gmap Z PortMeta → gmap Z PortMeta) (m : Maps) : Maps :=
  mkMaps (m_interfaces m) (f (m_port_meta m)) (m_underlay m) (m_routes m) (m_routes6 m)
    (m_local m) (m_vips m) (m_lb m) (m_maglev m) (m_conntrack m) (m_nat m) (m_nat_ips m)
    (m_fw_rules m) (m_fw_meta m) (m_fw_config m) (m_neighbor_nat m) (m_neighbor_nat_count m)
    (m_meter m) (m_dhcp_config m) (m_dhcp_meta m).
Definition with_underlay (f : gmap (list Z) UnderlayValue → gmap (list Z) UnderlayValue) (m : Maps) : Maps :=
  mkMaps (m_interfaces m) (m_port_meta m) (f (m_underlay m)) (m_routes m) (m_routes6 m)
    (m_local m) (m_vips m) (m_lb m) (m_maglev m) (m_conntrack m) (m_nat m) (m_nat_ips m)
    (m_fw_rules m) (m_fw_meta m) (m_fw_config m) (m_neighbor_nat m) (m_neighbor_nat_count m)
    (m_meter m) (m_dhcp_config m) (m_dhcp_meta m).
Definition with_routes (f : gmap LpmKey RouteValue → gmap LpmKey RouteValue) (m : Maps) : Maps :=
  mkMaps (m_interfaces m) (m_port_meta m) (m_underlay m) (f (m_routes m)) (m_routes6 m)
    (m_local m) (m_vips m) (m_lb m) (m_maglev m) (m_conntrack m) (m_nat m) (m_nat_ips m)
    (m_fw_rules m) (m_fw_meta m) (m_fw_config m) (m_neighbor_nat m) (m_neighbor_nat_count m)
    (m_meter m) (m_dhcp_config m) (m_dhcp_meta m).
Definition with_routes6 (f : gmap LpmKey RouteValue → gmap LpmKey RouteValue) (m : Maps) : Maps :=
  mkMaps (m_interfaces m) (m_port_meta m) (m_underlay m) (m_routes m) (f (m_routes6 m))
    (m_local m) (m_vips m) (m_lb m) (m_maglev m) (m_conntrack m) (m_nat m) (m_nat_ips m)
    (m_fw_rules m) (m_fw_meta m) (m_fw_config m) (m_neighbor_nat m) (m_neighbor_nat_count m)
    (m_meter m) (m_dhcp_config m) (m_dhcp_meta m).
Definition with_local (f : option Local → option Local) (m : Maps) : Maps :=
  mkMaps (m_interfaces m) (m_port_meta m) (m_underlay m) (m_routes m) (m_routes6 m)
    (f (m_local m)) (m_vips m) (m_lb m) (m_maglev m) (m_conntrack m) (m_nat m) (m_nat_ips m)
    (m_fw_rules m) (m_fw_meta m) (m_fw_config m) (m_neighbor_nat m) (m_neighbor_nat_count m)
    (m_meter m) (m_dhcp_config m) (m_dhcp_meta m).
Definition with_vips (f : gmap VipKey (list Z) → gmap VipKey (list Z)) (m : Maps) : Maps :=
  mkMaps (m_interfaces m) (m_port_meta m) (m_underlay m) (m_routes m) (m_routes6 m) (m_local m)
    (f (m_vips m)) (m_lb m) (m_maglev m) (m_conntrack m) (m_nat m) (m_nat_ips m) (m_fw_rules m)
    (m_fw_meta m) (m_fw_config m) (m_neighbor_nat m) (m_neighbor_nat_count m) (m_meter m)
    (m_dhcp_config m) (m_dhcp_meta m).
Definition with_lb (f : gmap LbKey LbValue → gmap LbKey LbValue) (m : Maps) : Maps :=
  mkMaps (m_interfaces m) (m_port_meta m) (m_underlay m) (m_routes m) (m_routes6 m) (m_local m)
    (m_vips m) (f (m_lb m)) (m_maglev m) (m_conntrack m) (m_nat m) (m_nat_ips m) (m_fw_rules m)
    (m_fw_meta m) (m_fw_config m) (m_neighbor_nat m) (m_neighbor_nat_count m) (m_meter m)
    (m_dhcp_config m) (m_dhcp_meta m).
Definition with_maglev (f : gmap MaglevKey (list Z) → gmap MaglevKey (list Z)) (m : Maps) : Maps :=
  mkMaps (m_interfaces m) (m_port_meta m) (m_underlay m) (m_routes m) (m_routes6 m) (m_local m)
    (m_vips m) (m_lb m) (f (m_maglev m)) (m_conntrack m) (m_nat m) (m_nat_ips m) (m_fw_rules m)
    (m_fw_meta m) (m_fw_config m) (m_neighbor_nat m) (m_neighbor_nat_count m) (m_meter m)
    (m_dhcp_config m) (m_dhcp_meta m).
Definition with_nat (f : gmap NatKey NatValue → gmap NatKey NatValue) (m : Maps) : Maps :=
  mkMaps (m_interfaces m) (m_port_meta m) (m_underlay m) (m_routes m) (m_routes6 m) (m_local m)
    (m_vips m) (m_lb m) (m_maglev m) (m_conntrack m) (f (m_nat m)) (m_nat_ips m) (m_fw_rules m)
    (m_fw_meta m) (m_fw_config m) (m_neighbor_nat m) (m_neighbor_nat_count m) (m_meter m)
    (m_dhcp_config m) (m_dhcp_meta m).
Definition with_nat_ips (f : gmap VipKey Z → gmap VipKey Z) (m : Maps) : Maps :=
  mkMaps (m_interfaces m) (m_port_meta m) (m_underlay m) (m_routes m) (m_routes6 m) (m_local m)
    (m_vips m) (m_lb m) (m_maglev m) (m_conntrack m) (m_nat m) (f (m_nat_ips m)) (m_fw_rules m)
    (m_fw_meta m) (m_fw_config m) (m_neighbor_nat m) (m_neighbor_nat_count m) (m_meter m)
    (m_dhcp_config m) (m_dhcp_meta m).
Definition with_fw_rules (f : gmap FwRuleKey FwRule → gmap FwRuleKey FwRule) (m : Maps) : Maps :=
  mkMaps (m_interfaces m) (m_port_meta m) (m_underlay m) (m_routes m) (m_routes6 m) (m_local m)
    (m_vips m) (m_lb m) (m_maglev m) (m_conntrack m) (m_nat m) (m_nat_ips m) (f (m_fw_rules m))
    (m_fw_meta m) (m_fw_config m) (m_neighbor_nat m) (m_neighbor_nat_count m) (m_meter m)
    (m_dhcp_config m) (m_dhcp_meta m).
Definition with_fw_meta (f : gmap Z FwMeta → gmap Z FwMeta) (m : Maps) : Maps :=
  mkMaps (m_interfaces m) (m_port_meta m) (m_underlay m) (m_routes m) (m_routes6 m) (m_local m)
    (m_vips m) (m_lb m) (m_maglev m) (m_conntrack m) (m_nat m) (m_nat_ips m) (m_fw_rules m)
    (f (m_fw_meta m)) (m_fw_config m) (m_neighbor_nat m) (m_neighbor_nat_count m) (m_meter m)
    (m_dhcp_config m) (m_dhcp_meta m).
Definition with_fw_config (f : option Z → option Z) (m : Maps) : Maps :=
  mkMaps (m_interfaces m) (m_port_meta m) (m_underlay m) (m_routes m) (m_routes6 m) (m_local m)
    (m_vips m) (m_lb m) (m_maglev m) (m_conntrack m) (m_nat m) (m_nat_ips m) (m_fw_rules m)
    (m_fw_meta m) (f (m_fw_config m)) (m_neighbor_nat m) (m_neighbor_nat_count m) (m_meter m)
    (m_dhcp_config m) (m_dhcp_meta m).
Definition with_neighbor_nat (f : gmap Z NeighborNatEntry → gmap Z NeighborNatEntry) (m : Maps) : Maps :=
  mkMaps (m_interfaces m) (m_port_meta m) (m_underlay m) (m_routes m) (m_routes6 m) (m_local m)
    (m_vips m) (m_lb m) (m_maglev m) (m_conntrack m) (m_nat m) (m_nat_ips m) (m_fw_rules m)
    (m_fw_meta m) (m_fw_config m) (f (m_neighbor_nat m)) (m_neighbor_nat_count m) (m_meter m)
    (m_dhcp_config m) (m_dhcp_meta m).
Definition with_neighbor_nat_count (f : option Z → option Z) (m : Maps) : Maps :=
  mkMaps (m_interfaces m) (m_port_meta m) (m_underlay m) (m_routes m) (m_routes6 m) (m_local m)
    (m_vips m) (m_lb m) (m_maglev m) (m_conntrack m) (m_nat m) (m_nat_ips m) (m_fw_rules m)
    (m_fw_meta m) (m_fw_config m) (m_neighbor_nat m) (f (m_neighbor_nat_count m)) (m_meter m)
    (m_dhcp_config m) (m_dhcp_meta m).
Definition with_dhcp_config (f : option DhcpConfig → option DhcpConfig) (m : Maps) : Maps :=
  mkMaps (m_interfaces m) (m_port_meta m) (m_underlay m) (m_routes m) (m_routes6 m) (m_local m)
    (m_vips m) (m_lb m) (m_maglev m) (m_conntrack m) (m_nat m) (m_nat_ips m) (m_fw_rules m)
    (m_fw_meta m) (m_fw_config m) (m_neighbor_nat m) (m_neighbor_nat_count m) (m_meter m)
    (f (m_dhcp_config m)) (m_dhcp_meta m).
Definition with_dhcp_meta (f : gmap Z DhcpMeta → gmap Z DhcpMeta) (m : Maps) : Maps :=
  mkMaps (m_interfaces m) (m_port_meta m) (m_underlay m) (m_routes m) (m_routes6 m) (m_local m)
    (m_vips m) (m_lb m) (m_maglev m) (m_conntrack m) (m_nat m) (m_nat_ips m) (m_fw_rules m)
    (m_fw_meta m) (m_fw_config m) (m_neighbor_nat m) (m_neighbor_nat_count m) (m_meter m)
    (m_dhcp_config m) (f (m_dhcp_meta m)).
(** Two map states that differ in CONNTRACK only. *)
Definition ct_only (m m' : Maps) : Prop := m' = with_conntrack (λ _, m_conntrack m') m.

(** The three maps MAC learning writes. *)
Definition with_macs (fi : gmap IfaceKey IfaceValue → gmap IfaceKey IfaceValue)
    (fp : gmap Z PortMeta → gmap Z PortMeta)
    (fu : gmap (list Z) UnderlayValue → gmap (list Z) UnderlayValue) (m : Maps) : Maps :=
  mkMaps (fi (m_interfaces m)) (fp (m_port_meta m)) (fu (m_underlay m)) (m_routes m)
    (m_routes6 m) (m_local m)
    (m_vips m) (m_lb m) (m_maglev m) (m_conntrack m) (m_nat m) (m_nat_ips m)
    (m_fw_rules m) (m_fw_meta m) (m_fw_config m) (m_neighbor_nat m) (m_neighbor_nat_count m)
    (m_meter m) (m_dhcp_config m) (m_dhcp_meta m).

Lemma ct_only_refl m : ct_only m m.
Proof. by destruct m. Qed.
Lemma ct_only_with f m : ct_only m (with_conntrack f m).
Proof. done. Qed.
Lemma ct_only_trans m1 m2 m3 : ct_only m1 m2 → ct_only m2 m3 → ct_only m1 m3.
Proof. unfold ct_only. intros H1 H2. rewrite H2, H1. done. Qed.

(** ** Total correctness triples

    [spec P m Q]: from a world satisfying [P], [m] does not fault and its
    result and final world satisfy [Q]. *)
Definition spec {A} (P : world → Prop) (m : prog world A) (Q : A → world → Prop) : Prop :=
  ∀ w, P w → ∃ a w', m w = Some (a, w') ∧ Q a w'.

Lemma spec_ret {A} (P : world → Prop) (a : A) Q :
  (∀ w, P w → Q a w) → spec P (pret a) Q.
Proof. intros H w Hw. exists a, w. auto. Qed.

Lemma spec_bind {A B} P (m : prog world A) R (k : A → prog world B) Q :
  spec P m R → (∀ a, spec (R a) (k a) Q) → spec P (pbind m k) Q.
Proof.
  intros Hm Hk w Hw. destruct (Hm w Hw) as (a & w1 & E & Hr).
  destruct (Hk a w1 Hr) as (b & w2 & E2 & Hq). exists b, w2.
  unfold pbind. by rewrite E.
Qed.

Lemma spec_conseq {A} (P P' : world → Prop) (m : prog world A) (Q Q' : A → world → Prop) :
  spec P m Q → (∀ w, P' w → P w) → (∀ a w, Q a w → Q' a w) → spec P' m Q'.
Proof.
  intros H HP HQ w Hw. destruct (H w (HP w Hw)) as (a & w' & E & Hq). eauto.
Qed.

Lemma spec_gets {A} P (f : Maps → A) Q :
  (∀ w, P w → Q (f (w_maps w)) w) → spec P (gets f) Q.
Proof. intros H w Hw. exists (f (w_maps w)), w. auto. Qed.

Lemma spec_get_pkt P Q : (∀ w, P w → Q (w_pkt w) w) → spec P get_pkt Q.
Proof. intros H w Hw. exists (w_pkt w), w. auto. Qed.

Lemma spec_update P f Q :
  (∀ w, P w → Q tt (mkWorld (w_pkt w) (f (w_maps w)) (w_tick w) (w_redirect w))) →
  spec P (update f) Q.
Proof. intros H w Hw. eexists _, _. split; [reflexivity|auto]. Qed.

Lemma spec_access {A} P (m : list Z → mem A) Q :
  (∀ w, P w → ∃ a, m (w_pkt w) = Some a ∧ Q a w) → spec P (access m) Q.
Proof.
  intros H w Hw. destruct (H w Hw) as (a & E & Hq). exists a, w. unfold access.
  by rewrite E.
Qed.

Lemma spec_rewrite_pkt P m Q :
  (∀ w, P w → ∃ p, m (w_pkt w) = Some p ∧
      Q tt (mkWorld p (w_maps w) (w_tick w) (w_redirect w))) →
  spec P (rewrite_pkt m) Q.
Proof.
  intros H w Hw. destruct (H w Hw) as (p & E & Hq). unfold rewrite_pkt. rewrite E. eauto.
Qed.

Lemma spec_if {A} P (b : bool) (m1 m2 : prog world A) Q :
  (b = true → spec P m1 Q) → (b = false → spec P m2 Q) → spec P (if b then m1 else m2) Q.
Proof. intros H1 H2. destruct b; auto. Qed.

Lemma spec_now `{Kernel} P Q :
  (∀ w, P w → Q (ktime (w_tick w))
     (mkWorld (w_pkt w) (w_maps w) (S (w_tick w)) (w_redirect w))) → spec P now Q.
Proof. intros Hq w Hw. eexists _, _. split; [reflexivity|auto]. Qed.

Lemma spec_bpf_redirect `{Kernel} P i Q :
  (∀ w, P w → Q (redirect_ret i) (mkWorld (w_pkt w) (w_maps w) (w_tick w) (Some i))) →
  spec P (bpf_redirect i) Q.
Proof. intros Hq w Hw. eexists _, _. split; [reflexivity|auto]. Qed.

Lemma spec_resize P f Q :
  (∀ w p, P w → f (w_pkt w) = Some p →
     Q true (mkWorld p (w_maps w) (w_tick w) (w_redirect w))) →
  (∀ w, P w → Q false w) → spec P (resize f) Q.
Proof.
  intros H1 H2 w Hw. unfold resize. destruct (f (w_pkt w)) as [p|] eqn:E; eauto 6.
Qed.

(** ** A concrete kernel

    An instance of the interface used by the witnesses: a clock that ticks a
    microsecond per reading, a conntrack map that does not evict, longest
    prefix match by search, frames that can be resized freely. *)
Definition be_num (l : list Z) : Z := fold_left (λ a b, 256 * a + b) l 0.
Definition lpm_matches (k : LpmKey) (len : Z) (data : list Z) : bool :=
  let sh := 8 * Z.of_nat (length data) - lpm_prefix_len k in
  (lpm_prefix_len k <=? len) &&
  (Z.shiftr (be_num (lpm_data k)) sh =? Z.shiftr (be_num data) sh).
Definition ref_lpm_search (m : gmap LpmKey RouteValue) (len : Z) (data : list Z)
    : option RouteValue :=
  snd <$> map_fold (λ k v acc,
    if lpm_matches k len data then
      match acc with
      | Some (l, _) => if l <? lpm_prefix_len k then Some (lpm_prefix_len k, v) else acc
      | None => Some (lpm_prefix_len k, v)
      end
    else acc) None m.
Definition ref_lpm_lookup (m : gmap LpmKey RouteValue) (len : Z) (data : list Z)
    : option RouteValue :=
  match m !! mkLpmKey len data with
  | Some v => Some v
  | None => ref_lpm_search m len data
  end.
Definition ref_adjust_head (d : Z) (p : list Z) : option (list Z) :=
  if 0 <=? d then
    if (Z.to_nat d + 14 <=? length p)%nat then Some (drop (Z.to_nat d) p) else None
  else Some (replicate (Z.to_nat (- d)) 0 ++ p).
Definition ref_adjust_tail (d : Z) (p : list Z) : option (list Z) :=
  if 0 <=? d then Some (p ++ replicate (Z.to_nat d) 0)
  else if (Z.to_nat (- d) + 14 <=? length p)%nat
       then Some (take (length p - Z.to_nat (- d)) p) else None.
#[export] Instance ref_kernel : Kernel := {
  ktime n := 1000 * (Z.of_nat n mod 1000000);
  lru_insert k e m := <[k := e]> m;
  lpm_lookup := ref_lpm_lookup;
  lpm_insert k v m := Some (<[k := v]> m);
  lpm_remove k m := hash_remove k m;
  adjust_head := ref_adjust_head;
  adjust_tail := ref_adjust_tail;
  load_bytes i n p := rdn p i n;
  store_bytes i bs p := wrn p i bs;
  redirect_ret _ := 4 }.

Lemma replicate_bytes n : bytes_ok (replicate n 0).
Proof. apply Forall_replicate. unfold is_byte. lia. Qed.

Lemma ref_lpm_search_stored m len d v : ref_lpm_search m len d = Some v → ∃ k, m !! k = Some v.
Proof.
  unfold ref_lpm_search. set (f := λ k v acc, _). set (P := λ (acc : option (Z * RouteValue))
    (m : gmap LpmKey RouteValue), ∀ l v, acc = Some (l, v) → ∃ k, m !! k = Some v).
  assert (P (map_fold f None m) m) as HP.
  { apply (map_fold_weak_ind (λ acc m, P acc m)); [done|].
    intros k x m' r Hk IH l y. unfold f.
    assert (∀ z, r = Some (l, z) → ∃ k', <[k:=x]> m' !! k' = Some z) as Hold.
    { intros z Hz. destruct (IH _ _ Hz) as [k' Hk']. exists k'.
      rewrite lookup_insert_ne; [done|]. intros ->. congruence. }
    assert (∃ k', <[k:=x]> m' !! k' = Some x) as Hnew by (exists k; apply lookup_insert_eq).
    destruct (lpm_matches k len d); [|by apply Hold].
    destruct r as [[l' v']|]; [destruct (_ <? _)|]; [|by apply Hold|]; by intros [= _ <-]. }
  destruct (map_fold f None m) as [[l y]|] eqn:E; [|done]. cbn. intros [= ->]. by eapply HP.
Qed.

Lemma ref_lpm_lookup_stored m len d v : ref_lpm_lookup m len d = Some v → ∃ k, m !! k = Some v.
Proof.
  unfold ref_lpm_lookup. destruct (m !! mkLpmKey len d) as [x|] eqn:E; [|apply ref_lpm_search_stored].
  intros [= <-]. eauto.
Qed.

#[export] Instance ref_kernel_laws : KernelLaws (K := ref_kernel).
Proof.
  split; unfold lru_insert, lpm_lookup, lpm_insert, lpm_remove, adjust_head, adjust_tail,
    load_bytes, store_bytes, ktime; cbn [ref_kernel].
  - intros n. pose proof (Z.mod_pos_bound (Z.of_nat n) 1000000). lia.
  - intros. apply lookup_insert_eq.
  - intros. left. by apply lookup_insert_ne.
  - apply ref_lpm_lookup_stored.
  - intros k v m m' k' v' [= <-]. rewrite lookup_insert_Some. intros [[_ <-]|[_ E]]; eauto.
  - intros k m m' k' v'. unfold hash_remove. destruct (m !! k); [|done]. intros [= <-].
    rewrite lookup_delete_Some. intros [_ E]. eauto.
  - intros len d v m m' [= <-] _. unfold ref_lpm_lookup. by rewrite lookup_insert_eq.
  - intros d p p' Hd. unfold ref_adjust_head. rewrite (proj2 (Z.leb_le 0 d)) by lia.
    destruct (_ <=? _)%nat eqn:E; [|done]. intros [= <-]. zbool. split; [lia|done].
  - intros d p p' Hd. unfold ref_adjust_head. rewrite (proj2 (Z.leb_gt 0 d)) by lia.
    intros [= <-]. exists (replicate (Z.to_nat (- d)) 0).
    rewrite length_replicate. auto using replicate_bytes.
  - intros d p p' Hd. unfold ref_adjust_tail. rewrite (proj2 (Z.leb_le 0 d)) by lia.
    intros [= <-]. exists (replicate (Z.to_nat d) 0).
    rewrite length_replicate. auto using replicate_bytes.
  - intros d p p' Hd. unfold ref_adjust_tail. rewrite (proj2 (Z.leb_gt 0 d)) by lia.
    destruct (_ <=? _)%nat eqn:E; [|done]. intros [= <-]. zbool. split; [lia|done].
  - intros i n p _ H _. by apply rdn_slice.
  - intros i n p H. unfold rdn. by rewrite (proj2 (Nat.leb_gt _ _)).
  - intros i bs p _ H _. by apply wrn_splice.
  - intros i bs p H. unfold wrn. by rewrite (proj2 (Nat.leb_gt _ _)).
  - intros i n p b. unfold rdn. destruct (_ <=? _)%nat eqn:E; [|done]. intros [= <-]. zbool.
    apply length_slice. lia.
  - intros i bs p p'. unfold wrn. destruct (_ <=? _)%nat eqn:E; [|done]. intros [= <-]. zbool.
    apply length_splice. lia.
Qed.
