(* ===== verification/Parse.v ===== *)
(** * Parse

    Frame parsing (xdp-dp-ebpf/src/parse.rs): protocol constants, the L4
    port/ICMP-id reader, the TCP flags reader and the 5-tuple hash. *)
From S2P Require Import Prelude Bytes Types.

(** ** Definitions *)

Definition ETH_LEN : nat := 14.
Definition IPV6_LEN : nat := 40.
Definition ETH_P_IP : Z := 0x0800.
Definition ETH_P_IPV6 : Z := 0x86DD.
Definition IPPROTO_IPIP : Z := 4.
Definition IPPROTO_IPV6 : Z := 41.
Definition IPPROTO_ICMPV6 : Z := 58.
Definition IPPROTO_ICMP : Z := 1.
Definition IPPROTO_TCP : Z := 6.
Definition IPPROTO_UDP : Z := 17.

(** The header length in bytes from the version/IHL byte. *)
Definition ihl_bytes (b : Z) : nat := Z.to_nat (Z.land b 0x0f) * 4.

(** [l4_ports]: protocol and ports (ICMP: the id twice) of the IPv4 packet at
    [ip_off]; [None] when truncated or of another protocol. *)
Definition l4_ports (p : list Z) (ip_off : nat) : mem (option (Z * Z * Z)) :=
  if short p (ip_off + 20) then Some None else
  b ← rd8 p ip_off;
  proto ← rd8 p (ip_off + 9);
  let l4 := (ip_off + ihl_bytes b)%nat in
  if (proto =? IPPROTO_TCP) || (proto =? IPPROTO_UDP) then
    if short p (l4 + 4) then Some None else
    sp ← rd16 p l4;
    dp ← rd16 p (l4 + 2);
    Some (Some (proto, sp, dp))
  else if proto =? IPPROTO_ICMP then
    if short p (l4 + 6) then Some None else
    id ← rd16 p (l4 + 4);
    Some (Some (proto, id, id))
  else Some None.

(** [tcp_flags]: the flags byte of an option-less IPv4/TCP packet. *)
Definition tcp_flags (p : list Z) (ip_off : nat) : mem (option Z) :=
  if short p (ip_off + 20) then Some None else
  proto ← rd8 p (ip_off + 9);
  if negb (proto =? IPPROTO_TCP) then Some None else
  b ← rd8 p ip_off;
  if negb (Z.land b 0x0f =? 5) then Some None else
  let l4 := (ip_off + 20)%nat in
  if short p (l4 + 14) then Some None else
  f ← rd8 p (l4 + 13);
  Some (Some f).

(** [hash5]: thirteen FNV-1a steps over the 5-tuple, in [u32]. *)
Definition hash_step (h b : Z) : Z := wrap32 (Z.lxor h b * 16777619).
Definition hash5 (src dst : list Z) (sport dport proto : Z) : Z :=
  let h := 2166136261 in
  let h := hash_step h (at_ src 0) in
  let h := hash_step h (at_ src 1) in
  let h := hash_step h (at_ src 2) in
  let h := hash_step h (at_ src 3) in
  let h := hash_step h (at_ dst 0) in
  let h := hash_step h (at_ dst 1) in
  let h := hash_step h (at_ dst 2) in
  let h := hash_step h (at_ dst 3) in
  let h := hash_step h (wrap8 sport) in
  let h := hash_step h (wrap8 (Z.shiftr sport 8)) in
  let h := hash_step h (wrap8 dport) in
  let h := hash_step h (wrap8 (Z.shiftr dport 8)) in
  let h := hash_step h proto in
  h.

(** ** Lemmas *)

Lemma hash_step_range h b : is_u32 (hash_step h b).
Proof. unfold hash_step, is_u32. rewrite wrap32_mod. apply Z.mod_pos_bound. lia. Qed.

Lemma hash5_range src dst sp dp proto : is_u32 (hash5 src dst sp dp proto).
Proof. apply hash_step_range. Qed.

Lemma ihl_bytes_5 b : Z.land b 0x0f = 5 → ihl_bytes b = 20%nat.
Proof. intros H. unfold ihl_bytes. by rewrite H. Qed.

(** The port reader never reads outside the frame. *)
Lemma l4_ports_total p off : ∃ r, l4_ports p off = Some r.
Proof. unfold l4_ports. mem_go; eauto. Qed.

Lemma tcp_flags_total p off : ∃ r, tcp_flags p off = Some r.
Proof. unfold tcp_flags. mem_go; eauto. Qed.

(** What a successful read says about the frame. *)
Lemma l4_ports_inv p off proto sp dp :
  l4_ports p off = Some (Some (proto, sp, dp)) →
  let l4 := (off + ihl_bytes (at_ p off))%nat in
  (off + 20 <= length p)%nat ∧ proto = at_ p (off + 9) ∧
  ((proto = IPPROTO_TCP ∨ proto = IPPROTO_UDP) ∧ (l4 + 4 <= length p)%nat ∧
     sp = be16 (at_ p l4) (at_ p (l4 + 1)) ∧ dp = be16 (at_ p (l4 + 2)) (at_ p (l4 + 2 + 1))
   ∨ proto = IPPROTO_ICMP ∧ (l4 + 6 <= length p)%nat ∧
     sp = be16 (at_ p (l4 + 4)) (at_ p (l4 + 4 + 1)) ∧ dp = sp).
Proof.
  unfold l4_ports. mem_go; intros [=]; subst; zbool; (split; [lia|split; [done|]]).
  - left. apply orb_true_iff in Hc as [?|?]; zbool; auto.
  - right. auto.
Qed.

Lemma l4_ports_wf p off proto sp dp :
  bytes_ok p → l4_ports p off = Some (Some (proto, sp, dp)) →
  is_byte proto ∧ is_u16 sp ∧ is_u16 dp.
Proof.
  intros Hb H. apply l4_ports_inv in H as (_ & -> & H).
  split; [by apply at_byte|].
  destruct H as [(_ & _ & -> & ->)|(_ & _ & -> & ->)]; split; apply be16_range; by apply at_byte.
Qed.

Lemma tcp_flags_byte p off f :
  bytes_ok p → tcp_flags p off = Some (Some f) → is_byte f.
Proof. unfold tcp_flags. mem_go; intros Hb [=]; subst; by apply at_byte. Qed.
