(* ===== verification/Rewrite.v ===== *)
(** * Rewrite

    What the in-place header rewrites of conntrack, VIP and NAT share: the
    address change with its IP checksum fix, the L4 field changes, and the
    sums a receiver checks. *)
From S2P Require Import Prelude Bytes Csum Types Parse.

(** ** Definitions *)

(** The word sums a receiver verifies: the option-less IPv4 header at [off],
    the TCP/UDP segment of [n] bytes at [l4] with its pseudo header, and the
    ICMP message of [n] bytes at [l4]. *)
Definition ip_sum (p : list Z) (off : nat) : Z := wsl p off 20.
Definition l4_sum (p : list Z) (off l4 n : nat) : Z :=
  wsl p (off + 12) 8 + at_ p (off + 9) + Z.of_nat n + wsl p l4 n.
Definition icmp_sum (p : list Z) (l4 n : nat) : Z := wsl p l4 n.

(** The 16-bit field at [i]. *)
Definition w16 (p : list Z) (i : nat) : Z := be16 (at_ p i) (at_ p (i + 1)).

(** What a receiver accepts: a valid IP header checksum and, for an L4 message
    of [n] bytes, a valid L4 checksum (a zero UDP checksum is not checked). *)
Definition l4_valid (p : list Z) (off l4 n : nat) : Prop :=
  (at_ p (off + 9) = 6 → csum_valid (l4_sum p off l4 n)) ∧
  (at_ p (off + 9) = 17 → w16 p (l4 + 6) = 0 ∨ csum_valid (l4_sum p off l4 n)) ∧
  (at_ p (off + 9) = 1 → csum_valid (icmp_sum p l4 n)).
Definition packet_valid (p : list Z) (off n : nat) : Prop :=
  csum_valid (ip_sum p off) ∧ l4_valid p off (off + 20) n.

(** The L4 message is long enough to hold the fields the rewrites touch. *)
Definition l4_fits (p : list Z) (off n : nat) : Prop :=
  (off + 20 + n <= length p)%nat ∧
  (at_ p (off + 9) = 6 ∧ (18 <= n)%nat ∨ at_ p (off + 9) = 17 ∧ (8 <= n)%nat ∨
   at_ p (off + 9) = 1 ∧ (8 <= n)%nat).

(** The frame with the address at [a] (source or destination) replaced and
    the IP checksum at [off + 10] updated for it. *)
Definition addr_fixed (p : list Z) (off a : nat) (new : list Z) : list Z :=
  splice (splice p a new) (off + 10)
    (to_be16 (csum_replace4 (w16 p (off + 10)) (slice p a 4) new)).

(** ** Tactics *)

(** Lengths of nested in-range writes. *)
Ltac len := repeat (rewrite length_splice; [|solve [len]]); cbn [length to_be16] in *; lia.
Ltac bok :=
  repeat first
    [ assumption
    | apply bytes_ok_splice | apply bytes_ok_slice | apply to_be16_bytes
    | apply csum_replace4_range | apply csum_replace2_range
    | apply at_byte | apply be16_range
    | eassumption ].

(** ** Lemmas *)

Lemma w16_range p i : bytes_ok p → is_u16 (w16 p i).
Proof. intros H. apply be16_range; by apply at_byte. Qed.

Lemma w16_wsl p i : (i + 2 <= length p)%nat → wsl p i 2 = w16 p i.
Proof. apply wsl_2. Qed.

Lemma rd16_w16 p i : (i + 1 < length p)%nat → rd16 p i = Some (w16 p i).
Proof. apply rd16_at. Qed.

Lemma w16_splice_out p j bs i :
  (j + length bs <= length p)%nat → (i + 2 <= j ∨ j + length bs <= i)%nat →
  w16 (splice p j bs) i = w16 p i.
Proof. intros H Hd. unfold w16. rewrite !at_splice_out by lia. done. Qed.

Lemma wsl_word4 p i : (i + 4 <= length p)%nat → wsl p i 4 = word4 (slice p i 4).
Proof. intros H. apply wsum_word4. by apply length_slice. Qed.

Lemma wsl_cut p i a n :
  Nat.Even a → (a <= n)%nat → (i + n <= length p)%nat →
  wsl p i n = wsl p i a + wsl p (i + a) (n - a).
Proof.
  intros He Ha Hl. unfold wsl. rewrite <- wsum_app by (by rewrite length_slice by lia).
  f_equal. unfold slice. rewrite <- (take_drop a (firstn n (drop i p))) at 1.
  by rewrite take_take, skipn_firstn_comm, drop_drop, Nat.min_l by lia.
Qed.

Lemma w16_splice_same p i v :
  (i + 2 <= length p)%nat → is_u16 v → w16 (splice p i (to_be16 v)) i = v.
Proof.
  intros Hi Hv. rewrite <- w16_wsl by len. unfold wsl.
  change 2%nat with (length (to_be16 v)). rewrite slice_splice_same by len.
  by apply wsum_to_be16.
Qed.

(** A 16-bit field change inside an aligned region. *)
Lemma wsl_set16 p i n j v :
  (i + n <= length p)%nat → (i <= j)%nat → (j + 2 <= i + n)%nat → Nat.Even (j - i) →
  is_u16 v → wsl (splice p j (to_be16 v)) i n = wsl p i n - w16 p j + v.
Proof.
  intros Hn H1 H2 He Hv. rewrite wsl_splice_in by (done || by exists 1%nat).
  change (length (to_be16 v)) with 2%nat. rewrite w16_wsl by lia. by rewrite wsum_to_be16.
Qed.

(** Two of them, at different fields. *)
Lemma wsl_set16_2 p i n j v k w :
  (i + n <= length p)%nat → (i <= j)%nat → (j + 2 <= i + n)%nat → Nat.Even (j - i) →
  (i <= k)%nat → (k + 2 <= i + n)%nat → Nat.Even (k - i) → (j + 2 <= k ∨ k + 2 <= j)%nat →
  is_u16 v → is_u16 w →
  wsl (splice (splice p j (to_be16 v)) k (to_be16 w)) i n
  = wsl p i n - w16 p j + v - w16 p k + w.
Proof.
  intros. rewrite wsl_set16 by (done || len). rewrite wsl_set16 by done.
  rewrite w16_splice_out; [lia|len|cbn; lia].
Qed.

Section addr.
Context (p : list Z) (off a : nat) (new : list Z).
Context (Hb : bytes_ok p) (Hl : (off + 20 <= length p)%nat).
Context (Ha : a = (off + 12)%nat ∨ a = (off + 16)%nat) (Hnew : is_arr 4 new).

Let Hnl : length new = 4%nat := proj1 Hnew.
Let Hnb : bytes_ok new := proj2 Hnew.

Lemma addr_csum_range : is_u16 (csum_replace4 (w16 p (off + 10)) (slice p a 4) new).
Proof using Hb Hnew. apply csum_replace4_range; [by apply w16_range|by apply bytes_ok_slice|done]. Qed.

Lemma addr_fixed_length : length (addr_fixed p off a new) = length p.
Proof using Hl Ha Hnew. unfold addr_fixed. rewrite !length_splice; cbn; len. Qed.

Lemma addr_fixed_bytes : bytes_ok (addr_fixed p off a new).
Proof using Hb Hnew. unfold addr_fixed. bok. Qed.

(** Fields from the L4 header on, and the header fields before the
    checksum, are as they were. *)
Lemma addr_fixed_at i :
  (i < off + 10 ∨ off + 20 <= i)%nat → at_ (addr_fixed p off a new) i = at_ p i.
Proof using Hl Ha Hnew.
  intros Hi. unfold addr_fixed. rewrite at_splice_out; [|len|cbn; lia].
  apply at_splice_out; lia.
Qed.

Lemma addr_fixed_w16 i :
  (off + 20 <= i)%nat → w16 (addr_fixed p off a new) i = w16 p i.
Proof using Hl Ha Hnew. intros Hi. unfold w16. rewrite !addr_fixed_at by lia. done. Qed.

Lemma addr_fixed_wsl i n :
  (off + 20 <= i)%nat → (i + n <= length p)%nat →
  wsl (addr_fixed p off a new) i n = wsl p i n.
Proof using Hl Ha Hnew.
  intros Hi Hn. unfold addr_fixed.
  rewrite wsl_splice_out; [|len|len|cbn; lia]. apply wsl_splice_out; lia.
Qed.

(** The pseudo header changes by the address. *)
Lemma addr_fixed_pseudo :
  wsl (addr_fixed p off a new) (off + 12) 8
  = wsl p (off + 12) 8 - word4 (slice p a 4) + word4 new.
Proof using Hl Ha Hnew.
  unfold addr_fixed. rewrite wsl_splice_out; [|len|len|cbn; lia].
  rewrite wsl_splice_in; [|lia|lia|lia| |rewrite Hnl; by exists 2%nat].
  - rewrite Hnl, wsl_word4, wsum_word4 by (done || lia). done.
  - destruct Ha as [->| ->]; [exists 0%nat|exists 2%nat]; lia.
Qed.

(** The header sum only moves by a multiple of 65535. *)
Lemma addr_fixed_ip_sum :
  ∃ k, ip_sum (addr_fixed p off a new) off = ip_sum p off + 65535 * k.
Proof using Hb Hl Ha Hnew.
  destruct (csum_replace4_shift (w16 p (off + 10)) (slice p a 4) new) as [k E];
    [by apply w16_range|by apply bytes_ok_slice|done|].
  exists k. unfold ip_sum, addr_fixed.
  rewrite wsl_set16; [|len|lia|lia|exists 5%nat; lia|apply addr_csum_range].
  rewrite w16_splice_out by lia.
  rewrite wsl_splice_in; [|lia|lia|lia| |rewrite Hnl; by exists 2%nat].
  - rewrite Hnl, wsl_word4, (wsum_word4 new) by (done || lia). lia.
  - destruct Ha as [->| ->]; [exists 6%nat|exists 8%nat]; lia.
Qed.
End addr.

(** Positive sums: an option-less header has a non-zero first byte; a TCP/UDP
    segment has a non-zero protocol in its pseudo header. *)
Lemma ip_sum_pos p off :
  bytes_ok p → (off + 20 <= length p)%nat → Z.land (at_ p off) 0x0f = 5 → 0 < ip_sum p off.
Proof.
  intros Hb Hl H5. unfold ip_sum, wsl. rewrite slice_cons, slice_cons by lia.
  cbn [wsum]. pose proof (wsl_nonneg p (off + 1 + 1) 18 Hb) as H1. unfold wsl in H1.
  assert (at_ p off ≠ 0) by (intros E; by rewrite E in H5).
  pose proof (at_byte p off Hb) as H2. pose proof (at_byte p (off + 1) Hb) as H3.
  rewrite be16_add by done. unfold is_byte in *. lia.
Qed.

Lemma l4_sum_pos p off l4 n : bytes_ok p → 0 < at_ p (off + 9) → 0 < l4_sum p off l4 n.
Proof.
  intros Hb H. unfold l4_sum. pose proof (wsl_nonneg p (off + 12) 8 Hb).
  pose proof (wsl_nonneg p l4 n Hb). lia.
Qed.

Lemma icmp_sum_pos p l4 n i :
  bytes_ok p → (l4 + n <= length p)%nat → (l4 <= i)%nat → (i + 2 <= l4 + n)%nat →
  Nat.Even (i - l4) → 0 < w16 p i → 0 < icmp_sum p l4 n.
Proof.
  intros Hb Hl H1 H2 He Hp. unfold icmp_sum.
  pose proof (wsl_set16 p l4 n i 0 Hl H1 H2 He ltac:(by unfold is_u16)) as E.
  assert (bytes_ok (splice p i (to_be16 0))) as Hb' by (by apply bytes_ok_splice, to_be16_bytes).
  pose proof (wsl_nonneg _ l4 n Hb'). lia.
Qed.

(** Packets that differ from a valid one by multiples of 65535 in their sums
    are valid. *)
Lemma packet_valid_shift p p' off n ki :
  bytes_ok p → bytes_ok p' → (off + 20 <= length p)%nat → length p' = length p →
  at_ p' off = at_ p off → at_ p' (off + 9) = at_ p (off + 9) → Z.land (at_ p off) 0x0f = 5 →
  ip_sum p' off = ip_sum p off + 65535 * ki →
  (csum_valid (ip_sum p off) → l4_valid p off (off + 20) n → l4_valid p' off (off + 20) n) →
  packet_valid p off n → packet_valid p' off n.
Proof.
  intros Hb Hb' Hl Hlen H0 H9 H5 Ei Hl4 [Hi Hv]. split; [|by apply Hl4].
  apply (csum_valid_congr _ (ip_sum p off) ki); auto.
  - apply ip_sum_pos; [done|lia|]. by rewrite H0.
  - by apply wsl_nonneg.
Qed.

(** Two frames of one length that agree below [k]. *)
Definition same_below (k : nat) (p q : list Z) : Prop :=
  length q = length p ∧ ∀ i, (i < k)%nat → at_ q i = at_ p i.

Lemma same_below_slice k p q i n :
  same_below k p q → (k <= length p)%nat → (i + n <= k)%nat → slice q i n = slice p i n.
Proof.
  intros [Hl H] Hk Hi. apply at_ext; [by rewrite !length_slice by lia|].
  rewrite length_slice by lia. intros j Hj. rewrite !at_slice by done. apply H. lia.
Qed.

Lemma same_below_wsl k p q i n :
  same_below k p q → (k <= length p)%nat → (i + n <= k)%nat → wsl q i n = wsl p i n.
Proof. intros. unfold wsl. by erewrite same_below_slice. Qed.

Lemma same_below_trans k p q r : same_below k p q → same_below k q r → same_below k p r.
Proof. intros [H1 H2] [H3 H4]. split; [lia|]. intros i Hi. rewrite H4, H2; auto. Qed.

Lemma same_below_refl k p : same_below k p p.
Proof. by split. Qed.

Lemma same_below_splice k p j bs :
  (j + length bs <= length p)%nat → (k <= j)%nat → same_below k p (splice p j bs).
Proof. intros. split; [by apply length_splice|]. intros. apply at_splice_out; lia. Qed.

Lemma addr_fixed_addr p off a new :
  (off + 20 <= length p)%nat → a = (off + 12)%nat ∨ a = (off + 16)%nat → is_arr 4 new →
  slice (addr_fixed p off a new) a 4 = new.
Proof.
  intros Hl Ha [Hn Hb]. unfold addr_fixed. rewrite slice_splice_out; [|len|len|cbn; lia].
  rewrite <- Hn. apply slice_splice_same. lia.
Qed.
