(* ===== verification/Firewall.v ===== *)
(** * Firewall

    The stateless rule match (xdp-dp-common/src/lib.rs, [fw_rule_matches])
    and its evaluation over the rule slots of an interface
    (xdp-dp-ebpf/src/firewall.rs). *)
From S2P Require Import Prelude Bytes Types Kernel Parse.

(** ** Definitions *)

(** [a[i] & mask[i] == b[i] & mask[i]] for the four bytes. *)
Definition masked_eq (a b mask : list Z) : bool :=
  forallb (λ i, Z.land (at_ a i) (at_ mask i) =? Z.land (at_ b i) (at_ mask i)) [0; 1; 2; 3]%nat.

Definition fw_rule_matches (r : FwRule) (s : PacketSelectors) : bool :=
  if fr_enabled r =? 0 then false else
  if negb (fr_proto r =? 0) && negb (fr_proto r =? s_proto s) then false else
  if negb (masked_eq (s_src s) (fr_src_ip r) (fr_src_mask r)
           && masked_eq (s_dst s) (fr_dst_ip r) (fr_dst_mask r)) then false else
  if (s_proto s =? 6) || (s_proto s =? 17) then
    (fr_src_port_min r <=? s_sport s) && (s_sport s <=? fr_src_port_max r)
    && (fr_dst_port_min r <=? s_dport s) && (s_dport s <=? fr_dst_port_max r)
  else if s_proto s =? 1 then
    ((fr_icmp_type r =? 0xffff) || (s_icmp_type s =? fr_icmp_type r))
    && ((fr_icmp_code r =? 0xffff) || (s_icmp_code s =? fr_icmp_code r))
  else true.

(** [fw_enforcing]: FW_CONFIG[0] != 0, true when the read fails. *)
Definition fw_enforcing (m : Maps) : bool :=
  match m_fw_config m with Some v => negb (v =? 0) | None => true end.

Definition icmp_type_code (p : list Z) (ip_off : nat) : mem (Z * Z) :=
  if short p (ip_off + 20) then Some (0, 0) else
  b ← rd8 p ip_off;
  proto ← rd8 p (ip_off + 9);
  if negb (Z.land b 0x0f =? 5) || negb (proto =? 1) then Some (0, 0) else
  let l4 := (ip_off + 20)%nat in
  if short p (l4 + 2) then Some (0, 0) else
  t ← rd8 p l4;
  c ← rd8 p (l4 + 1);
  Some (t, c).

(** The selectors [fw_eval_dir] builds once the IPv4 header is known to be
    there. *)
Definition fw_selectors (p : list Z) (ip_off : nat) : mem PacketSelectors :=
  src ← rdn p (ip_off + 12) 4;
  dst ← rdn p (ip_off + 16) 4;
  ports ← l4_ports p ip_off;
  proto0 ← rd8 p (ip_off + 9);
  let '(proto, sport, dport) := default (proto0, 0, 0) ports in
  tc ← icmp_type_code p ip_off;
  Some (mkPacketSelectors src dst proto sport dport tc.1 tc.2).

(** The slot loop: the action of the first enabled rule of this direction
    that matches; DROP when the slots are exhausted. *)
Fixpoint fw_scan (n : nat) (idx : Z) (rules : gmap FwRuleKey FwRule) (ifindex dir : Z)
    (sel : PacketSelectors) : Z :=
  match n with
  | O => FW_ACTION_DROP
  | S n' =>
      match rules !! mkFwRuleKey ifindex idx with
      | Some r =>
          if (fr_direction r =? dir) && fw_rule_matches r sel then fr_action r
          else fw_scan n' (idx + 1) rules ifindex dir sel
      | None => fw_scan n' (idx + 1) rules ifindex dir sel
      end
  end.

Definition fw_eval_dir (m : Maps) (p : list Z) (ip_off : nat) (ifindex dir : Z) : mem Z :=
  match m_fw_meta m !! ifindex with
  | None => Some FW_ACTION_ACCEPT
  | Some meta =>
      let count := if dir =? FW_DIR_EGRESS then egress_count meta else ingress_count meta in
      if count =? 0 then Some FW_ACTION_ACCEPT else
      if short p (ip_off + 20) then Some FW_ACTION_ACCEPT else
      sel ← fw_selectors p ip_off;
      Some (fw_scan FW_MAX_RULES 0 (m_fw_rules m) ifindex dir sel)
  end.

(** ** Specification *)

(** The rules of an interface, in slot order. *)
Definition fw_slots (rules : gmap FwRuleKey FwRule) (ifindex : Z) : list FwRule :=
  omap (λ i, rules !! mkFwRuleKey ifindex (Z.of_nat i)) (seq 0 FW_MAX_RULES).

(** Whitelist semantics over an ordered rule list. *)
Definition fw_decide (rules : list FwRule) (dir : Z) (sel : PacketSelectors) : Z :=
  match filter (λ r, fr_direction r = dir) rules with
  | [] => FW_ACTION_ACCEPT
  | rs => match List.find (λ r, fw_rule_matches r sel) rs with
          | Some r => fr_action r
          | None => FW_ACTION_DROP
          end
  end.

(** ** Lemmas *)

Lemma icmp_type_code_total p off : ∃ r, icmp_type_code p off = Some r.
Proof. unfold icmp_type_code. mem_go; eauto. Qed.

Lemma fw_selectors_total p off :
  (off + 20 <= length p)%nat → ∃ s, fw_selectors p off = Some s.
Proof.
  intros Hl. unfold fw_selectors. mem_go.
  destruct (l4_ports_total p off) as [r ->]. mem_go.
  destruct (icmp_type_code_total p off) as [tc ->]. mem_go.
  destruct (default _ r) as [[? ?] ?]. eauto.
Qed.

Lemma fw_eval_dir_total m p off i d : ∃ a, fw_eval_dir m p off i d = Some a.
Proof.
  unfold fw_eval_dir. destruct (m_fw_meta m !! i) as [meta|]; [|eauto].
  destruct (_ =? 0) eqn:E; [eauto|].
  destruct (short p (off + 20)) eqn:Es; [eauto|]. apply short_false in Es.
  destruct (fw_selectors_total p off Es) as [s ->]. by eexists.
Qed.

(** The loop is a first-match search over the slots in order. *)
Lemma fw_scan_find n k rules ifindex dir sel :
  fw_scan n (Z.of_nat k) rules ifindex dir sel
  = match List.find (λ r, (fr_direction r =? dir) && fw_rule_matches r sel)
          (omap (λ i, rules !! mkFwRuleKey ifindex (Z.of_nat i)) (seq k n)) with
    | Some r => fr_action r
    | None => FW_ACTION_DROP
    end.
Proof.
  revert k. induction n as [|n IH]; intros k; [done|]. cbn [fw_scan seq].
  specialize (IH (S k)). rewrite Nat2Z.inj_succ, <- Z.add_1_r in IH.
  rewrite IH. cbn [omap list_omap].
  destruct (rules !! mkFwRuleKey ifindex (Z.of_nat k)) as [r|]; [|done].
  cbn [List.find]. by destruct (_ && _).
Qed.

Lemma find_filter_dir dir sel rules :
  List.find (λ r, (fr_direction r =? dir) && fw_rule_matches r sel) rules
  = List.find (λ r, fw_rule_matches r sel) (filter (λ r, fr_direction r = dir) rules).
Proof.
  induction rules as [|r rs IH]; [done|]. cbn [List.find].
  rewrite filter_cons. destruct (decide (fr_direction r = dir)) as [E|E].
  - rewrite (proj2 (Z.eqb_eq _ _) E). cbn [andb List.find]. by destruct (fw_rule_matches r sel).
  - by rewrite (proj2 (Z.eqb_neq _ _) E).
Qed.

Lemma fw_scan_slots rules ifindex dir sel :
  filter (λ r, fr_direction r = dir) (fw_slots rules ifindex) ≠ [] →
  fw_scan FW_MAX_RULES 0 rules ifindex dir sel = fw_decide (fw_slots rules ifindex) dir sel.
Proof.
  intros Hne. change 0 with (Z.of_nat 0). rewrite fw_scan_find. fold (fw_slots rules ifindex).
  rewrite find_filter_dir. unfold fw_decide.
  by destruct (filter _ (fw_slots rules ifindex)).
Qed.

(** FW_META mirrors the slots of an interface: its counts are the numbers of
    rules per direction (every rule that is not egress counts as ingress). *)
Definition fw_meta_of (rules : list FwRule) : FwMeta :=
  mkFwMeta
    (Z.of_nat (length (filter (λ r, fr_direction r ≠ FW_DIR_EGRESS) rules)))
    (Z.of_nat (length (filter (λ r, fr_direction r = FW_DIR_EGRESS) rules))).

(** The maps agree with an ordered rule list of an interface. *)
Record fw_synced (m : Maps) (ifindex : Z) (rules : list FwRule) : Prop := {
  synced_slots : fw_slots (m_fw_rules m) ifindex = rules;
  synced_meta : m_fw_meta m !! ifindex = Some (fw_meta_of rules);
  synced_dirs :
    Forall (λ r, fr_direction r = FW_DIR_INGRESS ∨ fr_direction r = FW_DIR_EGRESS) rules }.

Lemma fw_count_zero dir rules :
  dir = FW_DIR_INGRESS ∨ dir = FW_DIR_EGRESS →
  Forall (λ r, fr_direction r = FW_DIR_INGRESS ∨ fr_direction r = FW_DIR_EGRESS) rules →
  (if dir =? FW_DIR_EGRESS then egress_count (fw_meta_of rules)
   else ingress_count (fw_meta_of rules))
  = Z.of_nat (length (filter (λ r, fr_direction r = dir) rules)).
Proof.
  intros Hd Hr. unfold fw_meta_of. simpl. destruct (dir =? FW_DIR_EGRESS) eqn:E; zbool.
  - by rewrite E.
  - do 2 f_equal.
    induction Hr as [|r rs Hr _ IH]; [done|]. rewrite !filter_cons, IH.
    unfold FW_DIR_EGRESS, FW_DIR_INGRESS in *.
    destruct (decide (fr_direction r ≠ 1)), (decide (fr_direction r = dir)); done || lia.
Qed.

(** On synchronised maps the evaluation is [fw_decide]. *)
Lemma fw_eval_decide m p off ifindex dir rules :
  fw_synced m ifindex rules → dir = FW_DIR_INGRESS ∨ dir = FW_DIR_EGRESS →
  (off + 20 <= length p)%nat →
  ∃ sel, fw_selectors p off = Some sel ∧
    fw_eval_dir m p off ifindex dir = Some (fw_decide rules dir sel).
Proof.
  intros [Hs Hm Hdirs] Hd Hl. destruct (fw_selectors_total p off Hl) as [sel Esel].
  exists sel. split; [done|]. unfold fw_eval_dir. rewrite Hm, fw_count_zero by done.
  destruct (filter (λ r, fr_direction r = dir) rules) as [|r0 rs] eqn:Ef.
  - simpl. unfold fw_decide. by rewrite Ef.
  - destruct (_ =? 0) eqn:E0; zbool; [simpl in E0; lia|].
    unfold short. rewrite (proj2 (Nat.ltb_ge _ _) Hl), Esel. cbn [mbind option_bind]. f_equal.
    rewrite fw_scan_slots; rewrite Hs; [done|]. by rewrite Ef.
Qed.

(** ** Properties *)

(** C19.  The datapath's firewall decision is the whitelist semantics over the
    ordered rule list the maps hold: no rule of the direction accepts, else
    the first matching rule of that direction decides, else drop. *)
Theorem fw_eval_dir_first_match (m : Maps) (p : list Z) (off : nat) (ifindex dir : Z)
    (rules : list FwRule) :
  fw_synced m ifindex rules → dir = FW_DIR_INGRESS ∨ dir = FW_DIR_EGRESS →
  (off + 20 <= length p)%nat →
  ∃ sel, fw_selectors p off = Some sel ∧
    fw_eval_dir m p off ifindex dir = Some (fw_decide rules dir sel).
Proof. apply fw_eval_decide. Qed.

Definition demo_rule (dir action : Z) (port : Z) : FwRule :=
  mkFwRule [0; 0; 0; 0] [0; 0; 0; 0] [10; 0; 0; 5] [255; 255; 255; 255] 0 65535 port port
    0xffff 0xffff 6 action dir 1.
Definition demo_maps : Maps :=
  let e := empty_maps in
  mkMaps (m_interfaces e) (m_port_meta e) (m_underlay e) (m_routes e) (m_routes6 e) (m_local e)
    (m_vips e) (m_lb e) (m_maglev e) (m_conntrack e) (m_nat e) (m_nat_ips e)
    (<[mkFwRuleKey 7 0 := demo_rule 1 1 22]> (<[mkFwRuleKey 7 1 := demo_rule 0 1 80]> ∅))
    (<[7 := mkFwMeta 1 1]> ∅) (Some 1) ∅ (Some 0) ∅ None ∅.
Definition demo_packet (dport : Z) : list Z :=
  replicate 14 0 ++ [0x45; 0; 0; 40; 0; 0; 0; 0; 64; 6; 0; 0; 1; 2; 3; 4; 10; 0; 0; 5]
  ++ [0x30; 0x39; 0; dport] ++ replicate 16 0.

Lemma fw_eval_dir_first_match_witness :
  ∃ sel, fw_selectors (demo_packet 81) 14 = Some sel ∧
    fw_eval_dir demo_maps (demo_packet 81) 14 7 FW_DIR_INGRESS
    = Some (fw_decide [demo_rule 1 1 22; demo_rule 0 1 80] FW_DIR_INGRESS sel).
Proof.
  apply (fw_eval_dir_first_match demo_maps (demo_packet 81) 14 7 FW_DIR_INGRESS
    [demo_rule 1 1 22; demo_rule 0 1 80]).
  - split; [vm_compute; reflexivity|vm_compute; reflexivity|].
    repeat (apply List.Forall_cons || apply List.Forall_nil); auto.
  - by left.
  - vm_compute. lia.
Defined.
