(* ===== verification/Conntrack.v ===== *)
(** * Conntrack

    Connection tracking (xdp-dp-ebpf/src/conntrack.rs): the 5-tuple key, the
    address/port translation of an entry, the TCP state, and the tracking of
    untranslated flows. *)
From S2P Require Import Prelude Bytes Csum Types Kernel Parse Rewrite.

(** ** Definitions *)

(** [ct_key]: the VNI-keyed 5-tuple of the packet at [ip_off]. *)
Definition ct_key (p : list Z) (ip_off : nat) (vni : Z) : mem (option CtKey) :=
  if short p (ip_off + 20) then Some None else
  src ← rdn p (ip_off + 12) 4;
  dst ← rdn p (ip_off + 16) 4;
  ports ← l4_ports p ip_off;
  match ports with
  | None => Some None
  | Some (proto, sport, dport) => Some (Some (mkCtKey vni src dst sport dport proto))
  end.

(** The write phase of [ct_apply]. *)
Definition ct_apply_write (p : list Z) (ip_off l4 addr_off port_off : nat) (e : CtEntry)
    (new_ip_csum : Z) (tcp_ok udp_ok icmp_ok : bool)
    (new_tcp_csum udp_csum new_udp_csum new_icmp_csum : Z) : mem (list Z) :=
  p ← wrn p addr_off (ce_xlate_ip e);
  p ← wr16 p (ip_off + 10) new_ip_csum;
  if tcp_ok then
    p ← wr16 p (l4 + 16) new_tcp_csum;
    if negb (ce_xlate_port e =? 0) then wr16 p port_off (ce_xlate_port e) else Some p
  else if udp_ok then
    p ← (if negb (udp_csum =? 0) then wr16 p (l4 + 6) new_udp_csum else Some p);
    if negb (ce_xlate_port e =? 0) then wr16 p port_off (ce_xlate_port e) else Some p
  else if icmp_ok && negb (ce_xlate_port e =? 0) then
    p ← wr16 p (l4 + 2) new_icmp_csum;
    wr16 p (l4 + 4) (ce_xlate_port e)
  else Some p.

(** [ct_apply]: rewrite the source or destination address (and port or ICMP
    id) of the packet at [ip_off], fixing the IP and L4 checksums.  All reads
    come before all writes. *)
Definition ct_apply (p : list Z) (ip_off : nat) (e : CtEntry) : mem (list Z) :=
  if Z.land (ce_flags e) (Z.lor CT_REWRITE_SRC CT_REWRITE_DST) =? 0 then Some p else
  if short p (ip_off + 20) then Some p else
  ihl_byte ← rd8 p ip_off;
  if negb (Z.land ihl_byte 0x0f =? 5) then Some p else
  let l4 := (ip_off + 20)%nat in
  proto ← rd8 p (ip_off + 9);
  let rewrite_src := has_flag (ce_flags e) CT_REWRITE_SRC in
  let addr_off := (ip_off + if rewrite_src then 12 else 16)%nat in
  old_addr ← rdn p addr_off 4;
  let new_addr := ce_xlate_ip e in
  old_ip_csum ← rd16 p (ip_off + 10);
  let tcp_ok := (proto =? 6) && negb (short p (l4 + 18)) in
  let udp_ok := (proto =? 17) && negb (short p (l4 + 8)) in
  let icmp_ok := (proto =? 1) && negb (short p (l4 + 8)) in
  tcp_csum ← (if tcp_ok then rd16 p (l4 + 16) else Some 0);
  udp_csum ← (if udp_ok then rd16 p (l4 + 6) else Some 0);
  icmp_csum ← (if icmp_ok then rd16 p (l4 + 2) else Some 0);
  icmp_id ← (if icmp_ok then rd16 p (l4 + 4) else Some 0);
  let port_off := if rewrite_src then l4 else (l4 + 2)%nat in
  old_port ← (if (tcp_ok || udp_ok) && negb (ce_xlate_port e =? 0)
              then rd16 p port_off else Some 0);
  let new_ip_csum := csum_replace4 old_ip_csum old_addr new_addr in
  let new_tcp_csum :=
    if tcp_ok then
      let c1 := csum_replace4 tcp_csum old_addr new_addr in
      if negb (ce_xlate_port e =? 0) then csum_replace2 c1 old_port (ce_xlate_port e) else c1
    else 0 in
  let new_udp_csum :=
    if udp_ok && negb (udp_csum =? 0) then
      let c1 := csum_replace4 udp_csum old_addr new_addr in
      if negb (ce_xlate_port e =? 0) then csum_replace2 c1 old_port (ce_xlate_port e) else c1
    else 0 in
  let new_icmp_csum :=
    if icmp_ok && negb (ce_xlate_port e =? 0)
    then csum_replace2 icmp_csum icmp_id (ce_xlate_port e) else 0 in
  ct_apply_write p ip_off l4 addr_off port_off e new_ip_csum tcp_ok udp_ok icmp_ok
    new_tcp_csum udp_csum new_udp_csum new_icmp_csum.

Definition TCP_FIN : Z := 0x01.
Definition TCP_SYN : Z := 0x02.
Definition TCP_RST : Z := 0x04.
Definition TCP_ACK : Z := 0x10.

(** [tcp_advance]: the next TCP state from the flags of a packet. *)
Definition tcp_advance (state flags : Z) : Z :=
  if has_flag flags TCP_RST then TCP_RST_FIN else
  if has_flag flags TCP_FIN then TCP_FINWAIT else
  if has_flag flags TCP_SYN then
    if has_flag flags TCP_ACK then TCP_NEW_SYNACK else TCP_NEW_SYN
  else if has_flag flags TCP_ACK
       && ((state =? TCP_NEW_SYNACK) || (state =? TCP_NEW_SYN) || (state =? TCP_ESTABLISHED))
  then TCP_ESTABLISHED
  else state.

(** [invert_key]: the expected key of the reverse direction. *)
Definition invert_key (k : CtKey) : CtKey :=
  mkCtKey (ck_vni k) (ck_dst_ip k) (ck_src_ip k) (ck_dst_port k) (ck_src_port k) (ck_proto k).

Section programs.
Context `{Kernel}.
Local Open Scope dp_scope.

Definition ct_insert (k : CtKey) (e : CtEntry) : prog world unit :=
  update (with_conntrack (lru_insert k e)).

(** [ct_touch]: refresh [last_seen] and the TCP state and write the entry
    back; the refreshed entry is returned (the source updates it through
    [&mut]). *)
Definition ct_touch (ip_off : nat) (key : CtKey) (e : CtEntry) : prog world CtEntry :=
  let* t := now in
  let* fl := access (λ p, tcp_flags p ip_off) in
  let state := match fl with Some f => tcp_advance (ce_tcp_state e) f | None => ce_tcp_state e end in
  let e' := mkCtEntry t (ce_xlate_ip e) (ce_xlate_port e) (ce_flags e) state
              (ce_fwall_action e) in
  ct_insert key e' ;;;
  pret e'.

(** [ct_ensure_default]: track a flow without translation, in both
    directions, an existing reverse entry being kept. *)
Definition ct_ensure_default (ip_off : nat) (key : CtKey) : prog world unit :=
  let* fl := access (λ p, tcp_flags p ip_off) in
  let tcp := match fl with Some f => tcp_advance 0 f | None => 0 end in
  let* t := now in
  let e := mkCtEntry t [0; 0; 0; 0] 0 CT_F_DEFAULT tcp 0 in
  ct_insert key e ;;;
  let rev := invert_key key in
  let* ct := gets m_conntrack in
  match ct !! rev with
  | None => ct_insert rev e
  | Some _ => pret tt
  end.
End programs.

(** ** Lemmas: the translation *)

Section apply.
Context (p : list Z) (off : nat) (e : CtEntry).
Context (Hb : bytes_ok p) (Hl : (off + 20 <= length p)%nat).
Context (Hihl : Z.land (at_ p off) 0x0f = 5).
Context (Hfl : Z.land (ce_flags e) (Z.lor CT_REWRITE_SRC CT_REWRITE_DST) ≠ 0).
Context (He : wf_CtEntry e).

Definition apply_src : bool := has_flag (ce_flags e) CT_REWRITE_SRC.
Definition apply_addr : nat := (off + if apply_src then 12 else 16)%nat.
Definition apply_port : nat := if apply_src then (off + 20)%nat else (off + 20 + 2)%nat.
Definition apply_l4_csum (c : Z) : Z :=
  let c1 := csum_replace4 c (slice p apply_addr 4) (ce_xlate_ip e) in
  if negb (ce_xlate_port e =? 0) then csum_replace2 c1 (w16 p apply_port) (ce_xlate_port e)
  else c1.
Definition apply_set_port (q : list Z) : list Z :=
  if negb (ce_xlate_port e =? 0) then splice q apply_port (to_be16 (ce_xlate_port e)) else q.
Definition apply_base : list Z := addr_fixed p off apply_addr (ce_xlate_ip e).

Lemma apply_addr_cases : apply_addr = (off + 12)%nat ∨ apply_addr = (off + 16)%nat.
Proof using. unfold apply_addr. destruct apply_src; auto. Qed.

Lemma apply_port_cases : apply_port = (off + 20)%nat ∨ apply_port = (off + 22)%nat.
Proof using. unfold apply_port. rewrite <- Nat.add_assoc. destruct apply_src; auto. Qed.

Lemma apply_base_length : length apply_base = length p.
Proof using Hl He. apply addr_fixed_length; [done|apply apply_addr_cases|apply He]. Qed.

(** The read phase, once the guards have passed. *)
Lemma ct_apply_reads :
  ct_apply p off e =
  let l4 := (off + 20)%nat in
  let proto := at_ p (off + 9) in
  let tcp_ok := (proto =? 6) && negb (short p (l4 + 18)) in
  let udp_ok := (proto =? 17) && negb (short p (l4 + 8)) in
  let icmp_ok := (proto =? 1) && negb (short p (l4 + 8)) in
  let udp_csum := if udp_ok then w16 p (l4 + 6) else 0 in
  ct_apply_write p off l4 apply_addr apply_port e
    (csum_replace4 (w16 p (off + 10)) (slice p apply_addr 4) (ce_xlate_ip e))
    tcp_ok udp_ok icmp_ok
    (if tcp_ok then apply_l4_csum (w16 p (l4 + 16)) else 0)
    udp_csum
    (if udp_ok && negb (udp_csum =? 0) then apply_l4_csum udp_csum else 0)
    (if icmp_ok && negb (ce_xlate_port e =? 0)
     then csum_replace2 (w16 p (l4 + 2)) (w16 p (l4 + 4)) (ce_xlate_port e) else 0).
Proof using Hl Hihl Hfl.
  unfold ct_apply. rewrite (proj2 (Z.eqb_neq _ _) Hfl), short_false_eq by done.
  rewrite !rd8_at by lia. cbn [mbind option_bind].
  rewrite Hihl. change (5 =? 5) with true. cbn [negb].
  fold apply_src. change (off + (if apply_src then 12 else 16))%nat with apply_addr.
  change (if apply_src then (off + 20)%nat else (off + 20 + 2)%nat) with apply_port.
  pose proof apply_addr_cases as Ha. pose proof apply_port_cases as Hq.
  rewrite rdn_slice by (destruct Ha; lia). cbn [mbind option_bind].
  rewrite (rd16_w16 p (off + 10)) by lia. cbn [mbind option_bind]. unfold apply_l4_csum.
  destruct (at_ p (off + 9) =? 6) eqn:E6; destruct (at_ p (off + 9) =? 17) eqn:E17;
    destruct (at_ p (off + 9) =? 1) eqn:E1; zbool; try lia; cbn [andb orb];
    repeat (let E := fresh in destruct (short p _) eqn:E;
            [apply short_true in E|apply short_false in E]);
    cbn [negb andb orb mbind option_bind];
    repeat (rewrite rd16_w16 by (destruct Hq; lia); cbn [mbind option_bind]);
    destruct (ce_xlate_port e =? 0); cbn [negb mbind option_bind]; try done;
    rewrite rd16_w16 by (destruct Hq; lia); done.
Qed.

Ltac writes :=
  unfold ct_apply_write;
  pose proof apply_addr_cases; pose proof (proj1 (wf_ce_ip e He)) as Hxl;
  rewrite wrn_splice by lia; cbn [mbind option_bind];
  rewrite wr16_splice by len; cbn [mbind option_bind];
  fold (addr_fixed p off apply_addr (ce_xlate_ip e)); fold apply_base.
Ltac write16 :=
  rewrite wr16_splice by (pose proof apply_base_length; pose proof apply_port_cases; len);
  cbn [mbind option_bind].

Lemma ct_apply_tcp :
  at_ p (off + 9) = 6 → (off + 38 <= length p)%nat →
  ct_apply p off e = Some (apply_set_port
    (splice apply_base (off + 20 + 16) (to_be16 (apply_l4_csum (w16 p (off + 20 + 16)))))).
Proof.
  intros E6 Hn. rewrite ct_apply_reads. cbv zeta. rewrite E6.
  rewrite (short_false_eq p (off + 20 + 18)) by lia. cbn [Z.eqb Pos.eqb andb negb]. writes. write16. unfold apply_set_port.
  destruct (ce_xlate_port e =? 0); cbn [negb]; [done|]. by write16.
Qed.

Lemma ct_apply_udp :
  at_ p (off + 9) = 17 → (off + 28 <= length p)%nat →
  ct_apply p off e = Some (apply_set_port
    (if w16 p (off + 20 + 6) =? 0 then apply_base else
     splice apply_base (off + 20 + 6) (to_be16 (apply_l4_csum (w16 p (off + 20 + 6)))))).
Proof.
  intros E17 Hn. rewrite ct_apply_reads. cbv zeta. rewrite E17.
  rewrite (short_false_eq p (off + 20 + 8)) by lia. cbn [Z.eqb Pos.eqb andb negb]. writes.
  unfold apply_set_port. destruct (w16 p (off + 20 + 6) =? 0); cbn [negb mbind option_bind].
  - destruct (ce_xlate_port e =? 0); cbn [negb]; [done|]. by write16.
  - write16. destruct (ce_xlate_port e =? 0); cbn [negb]; [done|]. by write16.
Qed.

Lemma ct_apply_icmp :
  at_ p (off + 9) = 1 → (off + 28 <= length p)%nat →
  ct_apply p off e = Some
    (if ce_xlate_port e =? 0 then apply_base else
     splice (splice apply_base (off + 20 + 2)
        (to_be16 (csum_replace2 (w16 p (off + 20 + 2)) (w16 p (off + 20 + 4)) (ce_xlate_port e))))
       (off + 20 + 4) (to_be16 (ce_xlate_port e))).
Proof.
  intros E1 Hn. rewrite ct_apply_reads. cbv zeta. rewrite E1.
  rewrite (short_false_eq p (off + 20 + 8)) by lia. cbn [Z.eqb Pos.eqb andb negb]. writes.
  destruct (ce_xlate_port e =? 0); cbn [negb mbind option_bind]; [done|]. write16. by write16.
Qed.

Lemma apply_old_bytes : bytes_ok (slice p apply_addr 4).
Proof. by apply bytes_ok_slice. Qed.

Lemma apply_l4_csum_range c : is_u16 c → is_u16 (apply_l4_csum c).
Proof.
  intros Hc. unfold apply_l4_csum. destruct He as [[_ Hx] Hport _ _].
  pose proof apply_old_bytes. destruct (negb _).
  - apply csum_replace2_range; [|by apply w16_range|done]. by apply csum_replace4_range.
  - by apply csum_replace4_range.
Qed.

(** The new L4 checksum accounts for the address and the port change. *)
Lemma apply_l4_csum_shift c :
  is_u16 c → ∃ k,
    apply_l4_csum c + word4 (ce_xlate_ip e)
    + (if ce_xlate_port e =? 0 then 0 else ce_xlate_port e)
    = c + word4 (slice p apply_addr 4)
      + (if ce_xlate_port e =? 0 then 0 else w16 p apply_port) + 65535 * k.
Proof.
  intros Hc. unfold apply_l4_csum. destruct He as [[_ Hx] Hport _ _].
  pose proof apply_old_bytes as Ho.
  destruct (csum_replace4_shift c _ _ Hc Ho Hx) as [k1 E1].
  destruct (ce_xlate_port e =? 0); cbn [negb]; [exists k1; lia|].
  destruct (csum_replace2_shift (csum_replace4 c (slice p apply_addr 4) (ce_xlate_ip e))
    (w16 p apply_port) (ce_xlate_port e)) as [k2 E2];
    [by apply csum_replace4_range|by apply w16_range|done|].
  exists (k1 + k2). lia.
Qed.

Lemma apply_base_bytes : bytes_ok apply_base.
Proof. apply addr_fixed_bytes; [done|apply He]. Qed.

Lemma apply_set_port_length q : length q = length p → (off + 24 <= length p)%nat →
  length (apply_set_port q) = length p.
Proof.
  intros Hq Hn. unfold apply_set_port. pose proof apply_port_cases.
  destruct (negb _); [len|done].
Qed.

Lemma apply_set_port_bytes q : bytes_ok q → bytes_ok (apply_set_port q).
Proof.
  intros Hq. unfold apply_set_port. destruct (negb _); [|done].
  apply bytes_ok_splice; [done|]. apply to_be16_bytes, He.
Qed.

(** Outside the port field nothing moves. *)
Lemma apply_set_port_at q i :
  length q = length p → (off + 24 <= length p)%nat →
  (i < off + 20 ∨ off + 24 <= i)%nat → at_ (apply_set_port q) i = at_ q i.
Proof.
  intros Hq Hn Hi. unfold apply_set_port. pose proof apply_port_cases.
  destruct (negb _); [|done]. apply at_splice_out; cbn; lia.
Qed.

Lemma apply_set_port_hdr q i n :
  length q = length p → (off + 24 <= length p)%nat → (i + n <= off + 20)%nat →
  wsl (apply_set_port q) i n = wsl q i n.
Proof.
  intros Hq Hn Hi. unfold apply_set_port. pose proof apply_port_cases.
  destruct (negb _); [|done]. apply wsl_splice_out; cbn; lia.
Qed.

(** A checksum field at [off + 20 + c] set to account for the change, and
    the port: the segment sum moves by a multiple of 65535. *)
Lemma apply_segment n c :
  (off + 20 + n <= length p)%nat → (4 <= c)%nat → (c + 2 <= n)%nat → Nat.Even c →
  let f := (off + 20 + c)%nat in
  let p' := apply_set_port (splice apply_base f (to_be16 (apply_l4_csum (w16 p f)))) in
  ∃ k, l4_sum p' off (off + 20) n = l4_sum p off (off + 20) n + 65535 * k.
Proof.
  intros Hn H4 Hc He2 f p'.
  pose proof (apply_l4_csum_range (w16 p f) (w16_range p f Hb)) as Hr.
  destruct (apply_l4_csum_shift (w16 p f) (w16_range p f Hb)) as [k E].
  pose proof apply_addr_cases as Ha. pose proof apply_port_cases as Hq.
  pose proof apply_base_length as Hbl. pose proof (wf_ce_port e He) as Hport.
  exists k. unfold l4_sum, p'. rewrite apply_set_port_at by len.
  rewrite apply_set_port_hdr by len.
  rewrite at_splice_out, (wsl_splice_out apply_base f) by len.
  unfold apply_base at 1 2. rewrite addr_fixed_at by (done || apply He || lia).
  rewrite addr_fixed_pseudo by (done || apply He).
  assert (wsl apply_base (off + 20) n = wsl p (off + 20) n) as Hs
    by (apply addr_fixed_wsl; done || apply He || lia).
  assert (∀ i, (off + 20 <= i)%nat → w16 apply_base i = w16 p i) as Hw
    by (intros; apply addr_fixed_w16; done || apply He).
  assert (Nat.Even (f - (off + 20))) as Hf by (by replace (f - (off + 20))%nat with c by lia).
  unfold apply_set_port. destruct (ce_xlate_port e =? 0); cbn [negb].
  - rewrite wsl_set16 by (done || lia).
    rewrite Hw, Hs by lia. lia.
  - rewrite wsl_set16_2 by (done || lia ||
      (destruct Hq as [->| ->]; [exists 0%nat|exists 1%nat]; lia)).
    rewrite !Hw, Hs by lia. lia.
Qed.

Lemma apply_base_addr : slice apply_base apply_addr 4 = ce_xlate_ip e.
Proof. apply addr_fixed_addr; [done|apply apply_addr_cases|apply He]. Qed.

Lemma apply_set_port_below q :
  length q = length p → (off + 24 <= length p)%nat → same_below (off + 20) q (apply_set_port q).
Proof.
  intros Hq Hn. split; [by rewrite apply_set_port_length|].
  intros i Hi. apply apply_set_port_at; auto with lia.
Qed.

(** A frame that agrees with [apply_base] on the IPv4 header has the new
    address and a valid header checksum if [p] has. *)
Lemma apply_header q :
  bytes_ok q → same_below (off + 20) apply_base q →
  length q = length p ∧ slice q apply_addr 4 = ce_xlate_ip e ∧
  at_ q (off + 9) = at_ p (off + 9) ∧
  (csum_valid (ip_sum p off) → csum_valid (ip_sum q off)).
Proof.
  intros Hq Hs. pose proof apply_base_length as Hbl. pose proof (proj1 Hs) as Hlq.
  pose proof apply_addr_cases as Ha. rewrite Hbl in Hlq.
  assert (∀ i, (i < off + 10)%nat → at_ q i = at_ p i) as Hat.
  { intros i Hi. rewrite (proj2 Hs) by lia. apply addr_fixed_at; [done..|apply He|lia]. }
  split; [done|split; [|split; [apply Hat; lia|]]].
  - rewrite (same_below_slice _ _ _ _ _ Hs) by lia. apply apply_base_addr.
  - intros Hv. destruct (addr_fixed_ip_sum p off apply_addr (ce_xlate_ip e)) as [k E];
      [done|done|done|apply He|].
    apply (csum_valid_congr _ (ip_sum p off) k); [|..|by apply wsl_nonneg|done].
    + apply ip_sum_pos; [done|lia|]. by rewrite Hat by lia.
    + rewrite <- E. unfold ip_sum. by rewrite (same_below_wsl _ _ _ _ _ Hs) by lia.
Qed.

Lemma apply_below_trans q :
  length q = length p → (off + 24 <= length p)%nat →
  same_below (off + 20) apply_base q → same_below (off + 20) apply_base (apply_set_port q).
Proof. intros. eapply same_below_trans; [done|]. by apply apply_set_port_below. Qed.

Lemma apply_segment_ok n c :
  (off + 20 + n <= length p)%nat → (4 <= c)%nat → (c + 2 <= n)%nat → Nat.Even c →
  0 < at_ p (off + 9) →
  let f := (off + 20 + c)%nat in
  let p' := apply_set_port (splice apply_base f (to_be16 (apply_l4_csum (w16 p f)))) in
  bytes_ok p' ∧ same_below (off + 20) apply_base p' ∧
  (csum_valid (l4_sum p off (off + 20) n) → csum_valid (l4_sum p' off (off + 20) n)).
Proof.
  intros Hn H4 Hc He2 Hp f p'. pose proof apply_base_length as Hbl.
  assert (bytes_ok p') as Hb'.
  { apply apply_set_port_bytes, bytes_ok_splice; [apply apply_base_bytes|].
    by apply to_be16_bytes, apply_l4_csum_range, w16_range. }
  assert (same_below (off + 20) apply_base p') as Hs.
  { apply apply_below_trans; [len|lia|]. apply same_below_splice; cbn; lia. }
  split; [done|split; [done|]]. intros Hv.
  destruct (apply_segment n c Hn H4 Hc He2) as [k E].
  apply (csum_valid_congr _ (l4_sum p off (off + 20) n) k); [|done| |done].
  - apply l4_sum_pos; [done|]. by rewrite (proj1 (proj2 (proj2 (apply_header p' Hb' Hs)))).
  - pose proof (l4_sum_pos p off (off + 20) n Hb Hp). lia.
Qed.

(** The ICMP id change. *)
Lemma apply_icmp_ok n :
  (off + 20 + n <= length p)%nat → (8 <= n)%nat → 0 < ce_xlate_port e →
  let c := csum_replace2 (w16 p (off + 20 + 2)) (w16 p (off + 20 + 4)) (ce_xlate_port e) in
  let p' := splice (splice apply_base (off + 20 + 2) (to_be16 c)) (off + 20 + 4)
              (to_be16 (ce_xlate_port e)) in
  bytes_ok p' ∧ same_below (off + 20) apply_base p' ∧
  (csum_valid (icmp_sum p (off + 20) n) → csum_valid (icmp_sum p' (off + 20) n)).
Proof.
  intros Hn H8 Hp c p'. pose proof apply_base_length as Hbl.
  pose proof (w16_range p (off + 20 + 2) Hb) as R2. pose proof (w16_range p (off + 20 + 4) Hb) as R4.
  pose proof (wf_ce_port e He) as Rp. pose proof apply_base_bytes as Hbb.
  assert (is_u16 c) as Rc by (by apply csum_replace2_range).
  assert (bytes_ok p') as Hb' by (apply bytes_ok_splice; [apply bytes_ok_splice|]; auto using to_be16_bytes).
  assert (same_below (off + 20) apply_base p') as Hs.
  { eapply same_below_trans; apply same_below_splice; len. }
  split; [done|split; [done|]]. intros Hv.
  destruct (csum_replace2_shift _ _ _ R2 R4 Rp) as [k E].
  assert (∀ i, (off + 20 <= i)%nat → w16 apply_base i = w16 p i) as Hw
    by (intros; apply addr_fixed_w16; done || apply He || apply apply_addr_cases).
  assert (wsl apply_base (off + 20) n = wsl p (off + 20) n) as Hsl
    by (apply addr_fixed_wsl; done || apply He || apply apply_addr_cases || lia).
  apply (csum_valid_congr _ (icmp_sum p (off + 20) n) k); [| |by apply wsl_nonneg|done].
  - apply (icmp_sum_pos _ _ _ (off + 20 + 4)); [done|unfold p'; len|lia|lia|exists 2%nat; lia|].
    unfold w16, p'. rewrite !at_splice_in by len.
    replace (off + 20 + 4 - (off + 20 + 4))%nat with 0%nat by lia.
    replace (off + 20 + 4 + 1 - (off + 20 + 4))%nat with 1%nat by lia.
    change (at_ (to_be16 ?x) 0) with (Z.shiftr x 8). change (at_ (to_be16 ?x) 1) with (wrap8 x).
    by rewrite be16_to_be16.
  - unfold icmp_sum, p'. rewrite wsl_set16_2 by (done || lia || (exists 1%nat; lia) || (exists 2%nat; lia)).
    rewrite !Hw, Hsl by lia. fold c in E. lia.
Qed.
End apply.

(** ** Property: translation keeps packets valid *)

(** What a translation writes: the IP checksum, the address, the port (the id
    of an echo) when the entry has one, and the L4 checksum when the packet
    has one that covers what changed. *)
Definition xlate_port_field (p : list Z) (off : nat) (e : CtEntry) : nat :=
  if at_ p (off + 9) =? 1 then (off + 24)%nat
  else if has_flag (ce_flags e) CT_REWRITE_SRC then (off + 20)%nat else (off + 22)%nat.
Definition xlate_addr_field (off : nat) (e : CtEntry) : nat :=
  if has_flag (ce_flags e) CT_REWRITE_SRC then (off + 12)%nat else (off + 16)%nat.
Definition xlate_csum_field (p : list Z) (off : nat) : nat :=
  if at_ p (off + 9) =? 6 then (off + 36)%nat
  else if at_ p (off + 9) =? 17 then (off + 26)%nat else (off + 22)%nat.
Definition xlate_has_csum (p : list Z) (off : nat) (e : CtEntry) : Prop :=
  at_ p (off + 9) = 6 ∨ at_ p (off + 9) = 17 ∧ w16 p (off + 26) ≠ 0 ∨
  at_ p (off + 9) = 1 ∧ ce_xlate_port e ≠ 0.
Definition xlate_writes (p : list Z) (off : nat) (e : CtEntry) (i : nat) : Prop :=
  (off + 10 <= i < off + 12)%nat ∨
  (xlate_addr_field off e <= i < xlate_addr_field off e + 4)%nat ∨
  ce_xlate_port e ≠ 0 ∧ (xlate_port_field p off e <= i < xlate_port_field p off e + 2)%nat ∨
  xlate_has_csum p off e ∧ (xlate_csum_field p off <= i < xlate_csum_field p off + 2)%nat.

Section fields.
Context (p : list Z) (off n : nat) (e : CtEntry).
Context (Hb : bytes_ok p) (Hk : l4_fits p off n) (H5 : Z.land (at_ p off) 0x0f = 5).
Context (Hf : Z.land (ce_flags e) (Z.lor CT_REWRITE_SRC CT_REWRITE_DST) ≠ 0) (He : wf_CtEntry e).

Lemma apply_base_keeps i : ¬ xlate_writes p off e i → at_ (apply_base p off e) i = at_ p i.
Proof using Hk He.
  intros Hi. unfold xlate_writes, xlate_addr_field in Hi. unfold apply_base, addr_fixed.
  pose proof (proj1 Hk). pose proof (proj1 (wf_ce_ip e He)) as Hx. destruct (proj2 Hk) as [[_ ?]|[[_ ?]|[_ ?]]];
    unfold apply_addr, apply_src; destruct (has_flag _ _);
    rewrite !at_splice_out; rewrite ?length_splice; cbn [length to_be16]; lia || done.
Qed.

Lemma apply_set_port_keeps q i :
  length q = length p → at_ p (off + 9) ≠ 1 → ¬ xlate_writes p off e i →
  at_ (apply_set_port off e q) i = at_ q i.
Proof using Hk.
  intros Hq Hp Hi. unfold xlate_writes, xlate_port_field in Hi.
  rewrite (proj2 (Z.eqb_neq _ _) Hp) in Hi. unfold apply_set_port, apply_port, apply_src.
  destruct (ce_xlate_port e =? 0) eqn:E; cbn [negb]; [done|]. zbool.
  destruct (proj2 Hk) as [[_ ?]|[[_ ?]|[_ ?]]]; pose proof (proj1 Hk);
    destruct (has_flag _ _); apply at_splice_out; cbn [length to_be16]; lia.
Qed.

Lemma apply_set_port_port q :
  length q = length p → at_ p (off + 9) ≠ 1 → ce_xlate_port e ≠ 0 →
  w16 (apply_set_port off e q) (xlate_port_field p off e) = ce_xlate_port e.
Proof using Hk He.
  intros Hq Hp H0. unfold xlate_port_field, apply_set_port, apply_port, apply_src.
  rewrite (proj2 (Z.eqb_neq _ _) Hp), (proj2 (Z.eqb_neq _ _) H0). cbn [negb].
  rewrite <- Nat.add_assoc. pose proof (wf_ce_port e He).
  destruct (proj2 Hk) as [[_ ?]|[[_ ?]|[_ ?]]]; pose proof (proj1 Hk);
    destruct (has_flag _ _); apply w16_splice_same; done || lia.
Qed.

(** The translation writes the port, and nothing but its fields. *)
Lemma ct_apply_fields p' :
  ct_apply p off e = Some p' →
  (ce_xlate_port e ≠ 0 → w16 p' (xlate_port_field p off e) = ce_xlate_port e) ∧
  (∀ i, ¬ xlate_writes p off e i → at_ p' i = at_ p i).
Proof using Hb Hk H5 Hf He.
  pose proof (proj1 Hk) as Hl.
  assert (length (apply_base p off e) = length p) as Hbl.
  { apply apply_base_length; [|done]. destruct (proj2 Hk) as [[_ ?]|[[_ ?]|[_ ?]]]; lia. }
  destruct (proj2 Hk) as [[E Hn]|[[E Hn]|[E Hn]]].
  - rewrite ct_apply_tcp by (done || lia). intros [= <-].
    split; [intros H0; apply apply_set_port_port; [len|lia|done]|]. intros i Hi.
    rewrite apply_set_port_keeps by (len || lia || done). rewrite <- apply_base_keeps by done.
    unfold xlate_writes, xlate_has_csum, xlate_csum_field in Hi. rewrite E in Hi. cbn [Z.eqb Pos.eqb] in Hi.
    apply at_splice_out; cbn [length to_be16]; lia.
  - rewrite ct_apply_udp by (done || lia). set (q := if _ =? 0 then _ else _). intros [= <-].
    assert (length q = length p) as Hq by (subst q; case_match; len).
    split; [intros H0; apply apply_set_port_port; lia|]. intros i Hi.
    rewrite apply_set_port_keeps by (lia || done). rewrite <- apply_base_keeps by done. subst q.
    unfold xlate_writes, xlate_has_csum, xlate_csum_field in Hi. rewrite E in Hi. cbn [Z.eqb Pos.eqb] in Hi.
    rewrite <- !Nat.add_assoc. cbn [Nat.add]. destruct (w16 p (off + 26) =? 0) eqn:E0; [done|]. zbool.
    apply at_splice_out; cbn [length to_be16]; lia.
  - rewrite ct_apply_icmp by (done || lia). intros [= <-].
    assert (xlate_port_field p off e = off + 24 ∧ xlate_csum_field p off = off + 22)%nat as [Ep Ec].
    { unfold xlate_port_field, xlate_csum_field. by rewrite E. }
    rewrite Ep, <- !Nat.add_assoc. cbn [Nat.add]. pose proof (wf_ce_port e He).
    destruct (ce_xlate_port e =? 0) eqn:E0; zbool; [split; [done|apply apply_base_keeps]|].
    split; [intros _; apply w16_splice_same; [len|done]|]. intros i Hi.
    pose proof (apply_base_keeps i Hi) as <-. unfold xlate_writes, xlate_has_csum in Hi.
    rewrite Ep, Ec, E in Hi.
    rewrite !at_splice_out by (rewrite ?length_splice; cbn [length to_be16]; lia). done.
Qed.
End fields.

(** Address, length and checksums. *)
Lemma ct_apply_run p off n e :
  bytes_ok p → l4_fits p off n → Z.land (at_ p off) 0x0f = 5 →
  Z.land (ce_flags e) (Z.lor CT_REWRITE_SRC CT_REWRITE_DST) ≠ 0 → wf_CtEntry e →
  packet_valid p off n →
  ∃ p', ct_apply p off e = Some p' ∧ length p' = length p ∧ bytes_ok p' ∧
    slice p' (xlate_addr_field off e) 4 = ce_xlate_ip e ∧ packet_valid p' off n.
Proof.
  intros Hb [Hn Hk] H5 Hf He [Hip [Ht [Hu Hi]]].
  assert (off + 20 <= length p)%nat as Hl by lia.
  assert (xlate_addr_field off e = apply_addr off e) as ->.
  { unfold xlate_addr_field, apply_addr, apply_src. by destruct (has_flag _ _). }
  pose proof (apply_base_length p off e Hl He) as Hbl.
  pose proof (apply_base_bytes p off e Hb He) as Hbb.
  assert (∀ q, bytes_ok q → same_below (off + 20) (apply_base p off e) q →
    (at_ q (off + 9) = at_ p (off + 9) → l4_valid q off (off + 20) n) →
    length q = length p ∧ bytes_ok q ∧ slice q (apply_addr off e) 4 = ce_xlate_ip e ∧
    packet_valid q off n) as Hfin.
  { intros q Hq Hs Hv. destruct (apply_header p off e Hb Hl H5 He q Hq Hs) as (? & ? & ? & ?).
    repeat split; auto; apply Hv; done. }
  destruct Hk as [[E Hk]|[[E Hk]|[E Hk]]].
  - rewrite ct_apply_tcp by (done || lia). eexists. split; [done|].
    destruct (apply_segment_ok p off e Hb Hl H5 He n 16) as (B & S & V);
      [lia|lia|lia|by exists 8%nat|lia|].
    apply Hfin; [done|done|]. intros E9. unfold l4_valid. rewrite E9, E. auto with lia.
  - rewrite ct_apply_udp by (done || lia). eexists. split; [done|].
    destruct (w16 p (off + 20 + 6) =? 0) eqn:E0; zbool.
    + apply Hfin; [by eapply apply_set_port_bytes|eapply apply_below_trans; eauto with lia|].
      { apply same_below_refl. }
      intros E9. unfold l4_valid. rewrite E9, E. split; [lia|split; [|lia]]. left.
      unfold w16. rewrite !(apply_set_port_at p off e) by (done || lia).
      unfold apply_base.
      by rewrite !addr_fixed_at by (done || apply He || apply apply_addr_cases || lia).
    + destruct (apply_segment_ok p off e Hb Hl H5 He n 6) as (B & S & V);
        [lia|lia|lia|by exists 3%nat|lia|].
      apply Hfin; [done|done|]. intros E9. unfold l4_valid. rewrite E9, E.
      split; [lia|split; [|lia]]. destruct (Hu E) as [?|?]; [done|auto].
  - rewrite ct_apply_icmp by (done || lia). eexists. split; [done|].
    destruct (ce_xlate_port e =? 0) eqn:E0; zbool.
    + apply Hfin; [done|apply same_below_refl|]. intros E9. unfold l4_valid. rewrite E9, E.
      split; [lia|split; [lia|]]. intros _. unfold icmp_sum, apply_base.
      rewrite addr_fixed_wsl by (done || apply He || apply apply_addr_cases || lia). by apply Hi.
    + destruct (apply_icmp_ok p off e Hb Hl He n) as (B & S & V);
        [lia|lia|pose proof (wf_ce_port e He); unfold is_u16 in *; lia|].
      apply Hfin; [done|done|]. intros E9. unfold l4_valid. rewrite E9, E. auto with lia.
Qed.

(** C20.  Applying a translation to a packet a receiver would accept yields a
    packet a receiver accepts: [ct_apply] never accesses memory outside the
    frame, keeps its length, installs the translated address and, when the
    entry has one, the translated port (the id of an echo), keeps the IP
    header checksum and the TCP, UDP or ICMP checksum valid (a UDP packet
    sent without checksum stays one), and changes no other byte. *)
Theorem ct_apply_valid (p : list Z) (off n : nat) (e : CtEntry) :
  bytes_ok p → l4_fits p off n → Z.land (at_ p off) 0x0f = 5 →
  Z.land (ce_flags e) (Z.lor CT_REWRITE_SRC CT_REWRITE_DST) ≠ 0 → wf_CtEntry e →
  packet_valid p off n →
  ∃ p', ct_apply p off e = Some p' ∧ length p' = length p ∧ bytes_ok p' ∧
    slice p' (xlate_addr_field off e) 4 = ce_xlate_ip e ∧
    (ce_xlate_port e ≠ 0 → w16 p' (xlate_port_field p off e) = ce_xlate_port e) ∧
    packet_valid p' off n ∧ ∀ i, ¬ xlate_writes p off e i → at_ p' i = at_ p i.
Proof.
  intros Hb Hk H5 Hf He Hv. destruct (ct_apply_run p off n e) as (p' & E & H1 & H2 & H3 & H4); try done.
  destruct (ct_apply_fields p off n e Hb Hk H5 Hf He p' E) as [Hp Hi].
  exists p'. do 4 (split; [done|]). done.
Qed.

(** A TCP SYN 10.0.0.5:12345 -> 8.8.8.8:80 with valid checksums. *)
Definition demo_syn : list Z :=
  replicate 14 0 ++
  [0x45; 0; 0; 40; 0; 0; 0; 0; 64; 6; 96; 188; 10; 0; 0; 5; 8; 8; 8; 8] ++
  [0x30; 0x39; 0; 80; 0; 0; 0; 1; 0; 0; 0; 0; 0x50; 2; 0xff; 0xff; 101; 68; 0; 0].
Definition demo_snat : CtEntry := mkCtEntry 0 [203; 0; 113; 1] 40001 0x05 0 0.

Lemma ct_apply_valid_witness :
  ∃ p', ct_apply demo_syn 14 demo_snat = Some p' ∧ length p' = length demo_syn ∧ bytes_ok p' ∧
    slice p' (xlate_addr_field 14 demo_snat) 4 = ce_xlate_ip demo_snat ∧
    (ce_xlate_port demo_snat ≠ 0 →
     w16 p' (xlate_port_field demo_syn 14 demo_snat) = ce_xlate_port demo_snat) ∧
    packet_valid p' 14 20 ∧ ∀ i, ¬ xlate_writes demo_syn 14 demo_snat i → at_ p' i = at_ demo_syn i.
Proof.
  apply (ct_apply_valid demo_syn 14 20 demo_snat).
  - repeat (apply List.Forall_cons; [unfold is_byte; lia|]). constructor.
  - split; [vm_compute; lia|]. left. split; [reflexivity|lia].
  - reflexivity.
  - discriminate.
  - split; [split; [reflexivity|]| | |]; try (unfold is_u16, is_byte; cbn; lia).
    repeat (apply List.Forall_cons; [unfold is_byte; lia|]). constructor.
  - split; [reflexivity|]. split; [|split]; try discriminate. reflexivity.
Defined.

(** ** Lemmas: totality *)

Lemma ct_apply_total p off e :
  length (ce_xlate_ip e) = 4%nat → ∃ p', ct_apply p off e = Some p' ∧ length p' = length p.
Proof.
  intros Hx. unfold ct_apply.
  destruct (_ =? 0); [eauto|]. destruct (short p (off + 20)) eqn:El; [eauto|].
  apply short_false in El. rewrite !rd8_at by lia. cbn [mbind option_bind].
  destruct (negb _); [eauto|].
  set (a := (off + if has_flag _ _ then 12 else 16)%nat).
  set (q := if has_flag (ce_flags e) CT_REWRITE_SRC then (off + 20)%nat else (off + 20 + 2)%nat).
  assert (a = off + 12 ∨ a = off + 16)%nat as Ha by (subst a; destruct (has_flag _ _); auto).
  assert (q = off + 20 ∨ q = off + 22)%nat as Hq by (subst q; destruct (has_flag _ _); lia).
  clearbody a q. rewrite rdn_slice by lia. cbn [mbind option_bind].
  rewrite (rd16_w16 p (off + 10)) by lia. cbn [mbind option_bind].
  destruct (at_ p (off + 9) =? 6) eqn:E6; destruct (at_ p (off + 9) =? 17) eqn:E17;
    destruct (at_ p (off + 9) =? 1) eqn:E1; zbool; try lia; cbn [andb orb];
    repeat (let E := fresh in destruct (short p _) eqn:E;
            [apply short_true in E|apply short_false in E]);
    cbn [negb andb orb mbind option_bind];
    repeat (rewrite rd16_w16 by lia; cbn [mbind option_bind]);
    destruct (ce_xlate_port e =? 0); cbn [negb mbind option_bind];
    repeat (rewrite rd16_w16 by lia; cbn [mbind option_bind]);
    unfold ct_apply_write; rewrite wrn_splice by lia; cbn [mbind option_bind];
    repeat match goal with |- context [negb (?x =? 0)] => destruct (x =? 0); cbn [negb] end;
    cbn [negb andb orb mbind option_bind];
    repeat (rewrite wr16_splice by len; cbn [mbind option_bind]);
    (eexists; split; [reflexivity|len]).
Qed.

Lemma ct_key_total p off vni : ∃ r, ct_key p off vni = Some r.
Proof.
  unfold ct_key. destruct (short p (off + 20)) eqn:E; [eauto|]. apply short_false in E.
  rewrite !rdn_slice by lia. cbn [mbind option_bind].
  destruct (l4_ports_total p off) as [r ->]. cbn [mbind option_bind].
  destruct r as [[[? ?] ?]|]; eauto.
Qed.

Lemma ct_key_inv p off vni k :
  ct_key p off vni = Some (Some k) →
  (off + 20 <= length p)%nat ∧ ck_vni k = vni ∧
  ck_src_ip k = slice p (off + 12) 4 ∧ ck_dst_ip k = slice p (off + 16) 4 ∧
  l4_ports p off = Some (Some (ck_proto k, ck_src_port k, ck_dst_port k)).
Proof.
  unfold ct_key. destruct (short p (off + 20)) eqn:E; [done|]. apply short_false in E.
  rewrite !rdn_slice by lia. cbn [mbind option_bind].
  destruct (l4_ports p off) as [[[[pr sp] dp]|]|]; cbn [mbind option_bind]; intros [=]; subst.
  done.
Qed.

Lemma ct_key_wf p off vni k :
  bytes_ok p → is_u32 vni → ct_key p off vni = Some (Some k) → wf_CtKey k.
Proof.
  intros Hb Hv H. apply ct_key_inv in H as (Hl & E1 & E2 & E3 & E4).
  apply l4_ports_wf in E4 as (? & ? & ?); [|done].
  split; rewrite ?E1, ?E2, ?E3; try done;
    (split; [apply length_slice; lia|by apply bytes_ok_slice]).
Qed.

Lemma invert_key_involutive k : invert_key (invert_key k) = k.
Proof. by destruct k. Qed.

Lemma invert_key_wf k : wf_CtKey k → wf_CtKey (invert_key k).
Proof. by intros []. Qed.

(** ** The TCP state machine *)

(** Flags that open a connection (SYN without RST or FIN), that only
    acknowledge, and that neither reset nor finish. *)
Definition opens (f : Z) : bool :=
  has_flag f TCP_SYN && negb (has_flag f TCP_RST) && negb (has_flag f TCP_FIN).
Definition acks (f : Z) : bool :=
  has_flag f TCP_ACK && negb (has_flag f TCP_RST) && negb (has_flag f TCP_FIN)
  && negb (has_flag f TCP_SYN).
Definition quiet (f : Z) : bool := negb (has_flag f TCP_RST) && negb (has_flag f TCP_FIN).

(** The state after the packets of a flow, oldest first. *)
Definition tcp_run (fs : list Z) : Z := fold_left tcp_advance fs TCP_NONE.

Lemma tcp_advance_range s f : 0 <= s <= 5 → 0 <= tcp_advance s f <= 5.
Proof.
  unfold tcp_advance, TCP_RST_FIN, TCP_FINWAIT, TCP_NEW_SYNACK, TCP_NEW_SYN, TCP_ESTABLISHED.
  repeat (destruct (_ : bool)); lia.
Qed.

Lemma tcp_run_snoc fs f : tcp_run (fs ++ [f]) = tcp_advance (tcp_run fs) f.
Proof. unfold tcp_run. by rewrite fold_left_app. Qed.

(** Invariant of a run: an open or established state has an opening packet
    followed by packets without RST or FIN, and in an established state one
    of those acknowledges. *)
Definition opened (fs : list Z) (est : bool) : Prop :=
  ∃ l1 s l2, fs = l1 ++ s :: l2 ∧ opens s = true ∧ Forall (λ f, quiet f = true) l2 ∧
    (est = true → Exists (λ f, acks f = true) l2).

Lemma opened_snoc fs f est :
  opened fs est → quiet f = true → opened (fs ++ [f]) est.
Proof.
  intros (l1 & s & l2 & -> & Hs & Hq & He) Hf. exists l1, s, (l2 ++ [f]).
  rewrite <- app_assoc. split; [done|split; [done|split]].
  - apply Forall_app. by repeat constructor.
  - intros E. apply Exists_app. auto.
Qed.

Lemma opened_ack fs f : opened fs false → acks f = true → opened (fs ++ [f]) true.
Proof.
  intros (l1 & s & l2 & -> & Hs & Hq & _) Hf. exists l1, s, (l2 ++ [f]).
  rewrite <- app_assoc. split; [done|split; [done|split]].
  - apply Forall_app. repeat constructor; [done|]. unfold acks, quiet in *.
    by destruct (has_flag f TCP_RST), (has_flag f TCP_FIN), (has_flag f TCP_ACK).
  - intros _. apply Exists_app. right. by constructor.
Qed.

Lemma opened_weaken fs : opened fs true → opened fs false.
Proof. intros (l1 & s & l2 & ? & ? & ? & _). by exists l1, s, l2. Qed.

Lemma tcp_run_inv fs :
  (tcp_run fs = TCP_NEW_SYN ∨ tcp_run fs = TCP_NEW_SYNACK → opened fs false) ∧
  (tcp_run fs = TCP_ESTABLISHED → opened fs true).
Proof.
  induction fs as [|f fs [IH1 IH2]] using rev_ind; [split; [intros [?|?]|]; done|].
  rewrite tcp_run_snoc. unfold tcp_advance.
  destruct (has_flag f TCP_RST) eqn:Er; [split; [intros [?|?]|]; done|].
  destruct (has_flag f TCP_FIN) eqn:Ef; [split; [intros [?|?]|]; done|].
  assert (quiet f = true) as Hq by (unfold quiet; by rewrite Er, Ef).
  destruct (has_flag f TCP_SYN) eqn:Es.
  - assert (opened (fs ++ [f]) false) as Ho.
    { exists fs, f, []. unfold opens. rewrite Es, Er, Ef. by repeat constructor. }
    destruct (has_flag f TCP_ACK); split; done.
  - destruct (has_flag f TCP_ACK) eqn:Ea; cbn [andb].
    + assert (acks f = true) as Hk by (unfold acks; by rewrite Ea, Er, Ef, Es).
      destruct (tcp_run fs =? TCP_NEW_SYNACK) eqn:E1; zbool; cbn [orb].
      { split; [by intros [?|?]|]. intros _. apply opened_ack; auto. }
      destruct (tcp_run fs =? TCP_NEW_SYN) eqn:E2; zbool; cbn [orb].
      { split; [by intros [?|?]|]. intros _. apply opened_ack; auto. }
      destruct (tcp_run fs =? TCP_ESTABLISHED) eqn:E3; zbool.
      { split; [by intros [?|?]|]. intros _. apply opened_snoc; auto. }
      split; [by intros [?|?]|done].
    + split; intros; apply opened_snoc; auto.
Qed.

(** C21.  A flow counts as ESTABLISHED (and so ages after a day instead of
    thirty seconds) only after a handshake: some packet opened it with SYN,
    a later one acknowledged, and nothing since the SYN carried RST or FIN. *)
Theorem tcp_established_handshake (fs : list Z) :
  tcp_run fs = TCP_ESTABLISHED →
  ∃ l1 s l2, fs = l1 ++ s :: l2 ∧ opens s = true ∧ Forall (λ f, quiet f = true) l2 ∧
    Exists (λ f, acks f = true) l2.
Proof.
  intros H. apply (proj2 (tcp_run_inv fs)) in H as (l1 & s & l2 & ? & ? & ? & He).
  exists l1, s, l2. auto.
Qed.

Lemma tcp_established_handshake_witness :
  ∃ l1 s l2, [0x02; 0x12; 0x10; 0x18] = l1 ++ s :: l2 ∧ opens s = true ∧
    Forall (λ f, quiet f = true) l2 ∧ Exists (λ f, acks f = true) l2.
Proof. apply (tcp_established_handshake [0x02; 0x12; 0x10; 0x18]). reflexivity. Defined.

(** ** Tracking *)

Section tracking.
Context `{KL : KernelLaws}.

Lemma spec_ct_insert P k e Q :
  (∀ w, P w → Q tt (mkWorld (w_pkt w) (with_conntrack (lru_insert k e) (w_maps w))
                      (w_tick w) (w_redirect w))) →
  spec P (ct_insert k e) Q.
Proof. apply spec_update. Qed.

(** The entry [ct_ensure_default] installs at a world. *)
Definition default_entry (w : world) (off : nat) : CtEntry :=
  let tcp := match tcp_flags (w_pkt w) off with
             | Some (Some f) => tcp_advance 0 f | _ => 0 end in
  mkCtEntry (ktime (w_tick w)) [0; 0; 0; 0] 0 CT_F_DEFAULT tcp 0.

Definition conntrack_of (w : world) : gmap CtKey CtEntry := m_conntrack (w_maps w).

(** The map after tracking a flow by default. *)
Definition ensured (m : gmap CtKey CtEntry) (k : CtKey) (e : CtEntry) :=
  let m1 := lru_insert k e m in
  match m1 !! invert_key k with
  | None => lru_insert (invert_key k) e m1
  | Some _ => m1
  end.

Lemma ct_ensure_default_run off k w :
  ∃ w', ct_ensure_default off k w = Some (tt, w') ∧ w_pkt w' = w_pkt w ∧
    w_redirect w' = w_redirect w ∧
    w_maps w' = with_conntrack (λ m, ensured m k (default_entry w off)) (w_maps w).
Proof using.
  unfold ct_ensure_default, pbind, access, now, gets.
  destruct (tcp_flags_total (w_pkt w) off) as [r Hr]. rewrite Hr. cbn.
  assert (default_entry w off = mkCtEntry (ktime (w_tick w)) [0; 0; 0; 0] 0 CT_F_DEFAULT
    match r with Some f => tcp_advance 0 f | None => 0 end 0) as <-.
  { unfold default_entry. rewrite Hr. by destruct r. }
  destruct (lru_insert k (default_entry w off) (m_conntrack (w_maps w)) !! invert_key k) eqn:E;
    eexists; (split; [reflexivity|]); cbn; (split; [done|split; [done|]]);
    unfold with_conntrack, ensured; cbn; by rewrite E.
Qed.

Lemma ct_touch_run off k e w :
  ∃ e' w', ct_touch off k e w = Some (e', w') ∧ w_pkt w' = w_pkt w ∧
    w_redirect w' = w_redirect w ∧
    w_maps w' = with_conntrack (lru_insert k e') (w_maps w) ∧
    ce_last_seen e' = ktime (w_tick w) ∧ ce_xlate_ip e' = ce_xlate_ip e ∧
    ce_xlate_port e' = ce_xlate_port e ∧ ce_flags e' = ce_flags e.
Proof using.
  unfold ct_touch, pbind, access, now. cbn.
  destruct (tcp_flags_total (w_pkt w) off) as [r ->]. cbn.
  eexists _, _. split; [reflexivity|]. done.
Qed.
End tracking.

(** A flow tracked on a conntrack miss is recognised in both directions
    and an existing entry of the reverse direction (a NAT return) survives
    untouched, when the LRU map evicts nothing. *)
Theorem ct_ensure_default_tracks `{KL : KernelLaws} (off : nat) (k : CtKey) (w : world) :
  (∀ k1 e1 m k2, k2 ≠ k1 → lru_insert k1 e1 m !! k2 = m !! k2) →
  ∃ w', ct_ensure_default off k w = Some (tt, w') ∧ w_pkt w' = w_pkt w ∧
    conntrack_of w' !! k = Some (default_entry w off) ∧
    (k ≠ invert_key k →
     conntrack_of w' !! invert_key k
     = Some (default (default_entry w off) (conntrack_of w !! invert_key k))) ∧
    (∀ k', k' ≠ k → k' ≠ invert_key k → conntrack_of w' !! k' = conntrack_of w !! k').
Proof.
  intros Hkeep. destruct (ct_ensure_default_run off k w) as (w' & E & Hp & _ & Hm).
  exists w'. split; [done|split; [done|]]. unfold conntrack_of. rewrite Hm. cbn.
  set (e := default_entry w off). set (m := m_conntrack (w_maps w)). unfold ensured.
  destruct (lru_insert k e m !! invert_key k) as [r|] eqn:Er; split_and!.
  - apply lru_insert_same.
  - intros Hne. rewrite Er. rewrite Hkeep in Er by done. by rewrite Er.
  - intros k' H1 H2. by rewrite Hkeep.
  - destruct (decide (k = invert_key k)) as [Hk|Hk].
    + rewrite Hk at 1. apply lru_insert_same.
    + rewrite Hkeep by done. apply lru_insert_same.
  - intros Hne. rewrite Hkeep in Er by done. rewrite Er. apply lru_insert_same.
  - intros k' H1 H2. by rewrite !Hkeep.
Qed.

Definition demo_key : CtKey := mkCtKey 100 [10; 0; 0; 5] [8; 8; 8; 8] 12345 80 6.
Definition demo_world : world := mkWorld demo_syn empty_maps 5 None.

Lemma ct_ensure_default_tracks_witness :
  ∃ w', ct_ensure_default 14 demo_key demo_world = Some (tt, w') ∧ w_pkt w' = w_pkt demo_world ∧
    conntrack_of w' !! demo_key = Some (default_entry demo_world 14) ∧
    (demo_key ≠ invert_key demo_key →
     conntrack_of w' !! invert_key demo_key
     = Some (default (default_entry demo_world 14)
               (conntrack_of demo_world !! invert_key demo_key))) ∧
    (∀ k', k' ≠ demo_key → k' ≠ invert_key demo_key →
       conntrack_of w' !! k' = conntrack_of demo_world !! k').
Proof.
  apply (ct_ensure_default_tracks 14 demo_key demo_world).
  intros k1 e1 m k2 H. by apply lookup_insert_ne.
Defined.
