(* ===== verification/ConntrackGc.v ===== *)
(** * ConntrackGc

    Conntrack aging (xdp-dp/src/conntrack_gc.rs): one round of the sweep loop
    takes a snapshot of the map, selects the entries idle for longer than
    their timeout, and removes their keys.  The datapath may change the map
    between the snapshot and the removals. *)
From S2P Require Import Prelude Bytes Types Kernel.

(** ** Definitions *)

Definition DEFAULT_TIMEOUT_NS : Z := 30 * 1000000000.
Definition TCP_ESTABLISHED_TIMEOUT_NS : Z := 24 * 60 * 60 * 1000000000.

Definition timeout_ns (e : CtEntry) : Z :=
  if ce_tcp_state e =? TCP_ESTABLISHED then TCP_ESTABLISHED_TIMEOUT_NS else DEFAULT_TIMEOUT_NS.

(** [now.saturating_sub(e.last_seen) > timeout_ns(e)]. *)
Definition stale (now : Z) (e : CtEntry) : bool :=
  timeout_ns e <? Z.max 0 (now - ce_last_seen e).

(** The keys a round collects from its snapshot, and their removal. *)
Definition gc_collect (now : Z) (entries : list (CtKey * CtEntry)) : list CtKey :=
  (filter (λ ke, stale now ke.2 = true) entries).*1.
Definition gc_remove (keys : list CtKey) (m : gmap CtKey CtEntry) : gmap CtKey CtEntry :=
  fold_left (λ m k, default m (hash_remove k m)) keys m.

(** One round of [run]: snapshot of [m], removals from [m'], the map as the
    datapath has left it by then. *)
Definition gc_round (now : Z) (m m' : gmap CtKey CtEntry) : gmap CtKey CtEntry :=
  gc_remove (gc_collect now (map_to_list m)) m'.

(** ** Lemmas *)

Lemma hash_remove_delete {K V} `{Countable K} (k : K) (m : gmap K V) :
  default m (hash_remove k m) = delete k m.
Proof.
  unfold hash_remove. destruct (m !! k) eqn:E; [done|]. simpl. by rewrite delete_id.
Qed.

Lemma gc_remove_lookup keys m k :
  gc_remove keys m !! k = if decide (k ∈ keys) then None else m !! k.
Proof.
  revert m. induction keys as [|k0 ks IH]; intros m; [done|].
  change (gc_remove (k0 :: ks) m) with (gc_remove ks (default m (hash_remove k0 m))).
  rewrite IH, hash_remove_delete.
  destruct (decide (k ∈ ks)) as [Hin|Hin].
  - rewrite decide_True by (rewrite elem_of_cons; auto). done.
  - destruct (decide (k = k0)) as [->|Hne].
    + rewrite decide_True by (rewrite elem_of_cons; auto). apply lookup_delete_eq.
    + rewrite decide_False by (rewrite elem_of_cons; tauto). by apply lookup_delete_ne.
Qed.

Lemma gc_collect_elem now m k :
  k ∈ gc_collect now (map_to_list m) ↔ ∃ e, m !! k = Some e ∧ stale now e = true.
Proof.
  unfold gc_collect. rewrite list_elem_of_fmap. split.
  - intros ([k' e] & -> & H). rewrite list_elem_of_filter, elem_of_map_to_list in H.
    exists e. by destruct H.
  - intros (e & H & Hs). exists (k, e). split; [done|].
    by rewrite list_elem_of_filter, elem_of_map_to_list.
Qed.

(** ** Property *)

