(* ===== verification/Meter.v ===== *)
(** * Meter

    Per-interface egress rate metering (xdp-dp-ebpf/src/meter.rs): the token
    bucket in [u64] arithmetic and the two-bucket check of a frame. *)
From S2P Require Import Prelude Bytes Types Kernel.

(** ** Definitions *)

Definition NS : Z := 1000000000.

(** [u64::saturating_add], [saturating_sub], and wrapping products. *)
Definition sat_add64 (a b : Z) : Z := Z.min (a + b) (2 ^ 64 - 1).
Definition sat_sub64 (a b : Z) : Z := Z.max 0 (a - b).

(** [take]: refill by the time elapsed (at most a second), cap at [burst],
    pay [len] if there are enough tokens. *)
Definition take_refill (bps last_ns now : Z) : Z :=
  let elapsed := sat_sub64 now last_ns in
  let elapsed_capped := if NS <? elapsed then NS else elapsed in
  wrap64 (wrap64 (elapsed_capped / NS * bps) + wrap64 (elapsed_capped mod NS * bps) / NS).
Definition take (bps burst tokens last_ns now len : Z) : bool * Z :=
  if bps =? 0 then (true, tokens) else
  let t := sat_add64 tokens (take_refill bps last_ns now) in
  let t := if burst <? t then burst else t in
  if len <=? t then (true, t - len) else (false, t).

Section program.
Context `{Kernel}.
Local Open Scope dp_scope.

(** [meter_pass]: charge the total bucket, and the public one for external
    traffic; both must pass. *)
Definition meter_pass (ifindex len : Z) (is_external : bool) : prog world bool :=
  let* meter := gets m_meter in
  match meter !! ifindex with
  | None => pret true
  | Some m =>
      let* t := now in
      let '(pass_t, tok_t) :=
        take (total_bps m) (total_burst m) (total_tokens m) (total_last_ns m) t len in
      let m := mkMeterState (total_bps m) (total_burst m) tok_t t
                 (public_bps m) (public_burst m) (public_tokens m) (public_last_ns m) in
      let '(pass, m) :=
        if is_external then
          let '(pass_p, tok_p) :=
            take (public_bps m) (public_burst m) (public_tokens m) (public_last_ns m) t len in
          (pass_t && pass_p,
           mkMeterState (total_bps m) (total_burst m) (total_tokens m) (total_last_ns m)
             (public_bps m) (public_burst m) tok_p t)
        else (pass_t, m) in
      update (with_meter (hash_insert_ 1024 ifindex m)) ;;;
      pret pass
  end.
End program.

(** A bucket run over frames [(time, length)], oldest first: the bytes it
    passes. *)
Fixpoint take_run (bps burst tokens last_ns : Z) (frames : list (Z * Z)) : Z :=
  match frames with
  | [] => 0
  | (now, len) :: fs =>
      let '(pass, tok) := take bps burst tokens last_ns now len in
      (if pass then len else 0) + take_run bps burst tok now fs
  end.

(** Frames in time order from [t0], and the time of the last one. *)
Fixpoint in_order (t0 : Z) (frames : list (Z * Z)) : Prop :=
  match frames with
  | [] => True
  | (now, len) :: fs => t0 <= now ∧ 0 <= len ∧ in_order now fs
  end.
Definition last_time (t0 : Z) (frames : list (Z * Z)) : Z :=
  default t0 (fst <$> last frames).

(** ** Lemmas *)

(** Rates for which the refill product stays in [u64]. *)
Definition rate_ok (bps : Z) : Prop := 0 < bps < 2 ^ 64 / NS.

Lemma take_refill_exact bps last now :
  rate_ok bps → last <= now →
  take_refill bps last now = Z.min (now - last) NS * bps / NS.
Proof.
  intros [Hp Hb] Hle. unfold take_refill, sat_sub64. change (2 ^ 64 / NS) with 18446744073 in Hb.
  rewrite Z.max_r by lia. destruct (NS <? now - last) eqn:E; zbool.
  - rewrite Z.min_r by lia. change (NS / NS) with 1. change (NS mod NS) with 0.
    rewrite Z.mul_1_l, Z.mul_0_l. change (wrap64 0 / NS) with 0. rewrite Z.add_0_r.
    rewrite (Z.mul_comm NS), Z.div_mul by done.
    rewrite !wrap64_mod. rewrite !(Z.mod_small bps) by lia. done.
  - unfold NS in *. rewrite Z.min_l by lia. destruct (decide (now - last = 1000000000)) as [->|].
    + change (1000000000 / 1000000000) with 1. change (1000000000 mod 1000000000) with 0.
      rewrite Z.mul_1_l, Z.mul_0_l. change (wrap64 0 / 1000000000) with 0. rewrite Z.add_0_r.
      rewrite (Z.mul_comm 1000000000), Z.div_mul by done.
      rewrite !wrap64_mod. rewrite !(Z.mod_small bps) by lia. done.
    + rewrite Z.div_small, (Z.mod_small (now - last)) by lia. rewrite Z.mul_0_l, Z.add_0_l.
      rewrite !wrap64_mod. assert (0 <= (now - last) * bps < 2 ^ 64) by nia.
      rewrite (Z.mod_small ((now - last) * bps)) by lia. apply Z.mod_small.
      split; [apply Z.div_pos; lia|]. apply Z.div_lt_upper_bound; lia.
Qed.

Lemma take_refill_bound bps last now :
  rate_ok bps → last <= now →
  0 <= take_refill bps last now ∧ NS * take_refill bps last now <= bps * (now - last).
Proof.
  intros Hr Hle. rewrite take_refill_exact by done. destruct Hr as [Hp Hb].
  assert (0 < NS) by done. split; [apply Z.div_pos; [|done]; nia|].
  pose proof (Z.mul_div_le (Z.min (now - last) NS * bps) NS). nia.
Qed.

Lemma take_range bps burst tokens last now len :
  rate_ok bps → last <= now → 0 <= tokens <= burst → 0 <= len →
  let '(pass, tok) := take bps burst tokens last now len in
  0 <= tok <= burst ∧
  NS * ((if pass then len else 0) + tok) <= NS * tokens + bps * (now - last).
Proof.
  intros Hr Hle Ht Hlen. destruct (take_refill_bound bps last now Hr Hle) as [R1 R2].
  unfold take. destruct Hr as [Hp _]. rewrite (proj2 (Z.eqb_neq bps 0)) by lia.
  unfold sat_add64. set (r := take_refill bps last now) in *.
  set (b := bps * (now - last)) in *. clearbody r b. unfold NS in *.
  destruct (burst <? _) eqn:E1; destruct (len <=? _) eqn:E2; zbool; lia.
Qed.

Lemma take_run_bound bps burst tokens last frames :
  rate_ok bps → 0 <= tokens <= burst → in_order last frames →
  NS * take_run bps burst tokens last frames
  <= NS * tokens + bps * (last_time last frames - last).
Proof.
  intros Hr. revert tokens last. induction frames as [|[now len] fs IH]; intros tokens last Ht Ho.
  - unfold last_time. simpl. destruct Hr. assert (0 < NS) by done. nia.
  - destruct Ho as (Hle & Hlen & Ho). cbn [take_run].
    pose proof (take_range bps burst tokens last now len Hr Hle Ht Hlen) as H.
    destruct (take bps burst tokens last now len) as [pass tok]. destruct H as [H1 H2].
    specialize (IH tok now H1 Ho).
    assert (last_time last ((now, len) :: fs) = last_time now fs) as E.
    { unfold last_time. rewrite last_cons. by destruct (list.last fs). }
    rewrite E. rewrite !Z.mul_sub_distr_l in *. unfold NS in *. lia.
Qed.

Lemma meter_pass_run `{Kernel} i len ext w :
  ∃ b w', meter_pass i len ext w = Some (b, w') ∧ w_pkt w' = w_pkt w ∧
    w_redirect w' = w_redirect w ∧
    ∃ f, w_maps w' = with_meter f (w_maps w).
Proof.
  unfold meter_pass, pbind, gets, now. destruct (m_meter (w_maps w) !! i) as [m|] eqn:Em.
  - destruct (take _ _ _ _ _ _) as [pt tt_]. destruct ext.
    + destruct (take _ _ _ _ _ _) as [pp tp]. eexists _, _. split; [reflexivity|].
      split; [done|split; [done|]]. eexists. reflexivity.
    + eexists _, _. split; [reflexivity|]. split; [done|split; [done|]]. eexists. reflexivity.
  - eexists _, _. split; [reflexivity|]. split; [done|split; [done|]].
    exists (λ m, m). by destruct (w_maps w).
Qed.

(** A bucket as the control plane configures it: no limit, or a rate and the
    bytes of an eighth of a second. *)
Definition bucket_ok (bps burst tokens : Z) : Prop :=
  bps = 0 ∨ (16000 <= bps < 2 ^ 64 / NS ∧ burst = Z.max (bps / 8) 2000 ∧ 0 <= tokens <= burst).
Definition meter_ok (m : MeterState) : Prop :=
  bucket_ok (total_bps m) (total_burst m) (total_tokens m) ∧
  bucket_ok (public_bps m) (public_burst m) (public_tokens m).

Lemma bucket_burst bps burst tokens :
  bucket_ok bps burst tokens → bps = 0 ∨ rate_ok bps ∧ burst = bps / 8 ∧ 2000 <= burst ∧ 0 <= tokens <= burst.
Proof.
  intros [->|(Hb & -> & Ht)]; [by left|right]. assert (2000 <= bps / 8) by (apply Z.div_le_lower_bound; lia).
  rewrite Z.max_l in * by lia. unfold rate_ok. lia.
Qed.
Lemma take_keeps bps burst tokens last now len :
  bucket_ok bps burst tokens → last <= now → 0 <= len →
  bucket_ok bps burst (take bps burst tokens last now len).2.
Proof.
  intros Hb Hle Hlen. destruct (bucket_burst _ _ _ Hb) as [->|(Hr & -> & H1 & Ht)]; [by left|].
  pose proof (take_range bps (bps / 8) tokens last now len Hr Hle Ht Hlen) as H.
  destruct (take _ _ _ _ _ _) as [pass tok]. destruct H as [H _].
  destruct Hb as [->|(Hb & E & _)]; [by left|]. right. by rewrite <- E.
Qed.
(** An eighth of a second fills the bucket. *)
Lemma take_full bps burst tokens last now len :
  bucket_ok bps burst tokens → last + NS / 8 <= now → 0 <= len <= 2000 →
  (take bps burst tokens last now len).1 = true.
Proof.
  intros Hb Hle Hlen. unfold take.
  destruct (bucket_burst _ _ _ Hb) as [->|(Hr & -> & H1 & Ht)]; [done|]. pose proof Hr as [Hp _].
  rewrite (proj2 (Z.eqb_neq bps 0)), take_refill_exact by (change (NS / 8) with 125000000 in *; lia || done).
  assert (bps / 8 <= Z.min (now - last) NS * bps / NS).
  { apply Z.div_le_lower_bound; [done|]. pose proof (Z.mul_div_le bps 8 ltac:(lia)).
    change (NS / 8) with 125000000 in *. unfold NS. nia. }
  destruct Hr as [_ Hb2]. change (2 ^ 64 / NS) with 18446744073 in Hb2.
  assert (bps / 8 < 18446744073) by (apply Z.div_lt_upper_bound; lia). unfold sat_add64.
  destruct (_ <? _) eqn:E1; destruct (len <=? _) eqn:E2; zbool; try done; lia.
Qed.

(** Between two frames that come faster than a byte is earned the refill is
    rounded down to nothing, but the clock of the bucket advances: an
    empty bucket stays empty for as long as such frames come. *)
Fixpoint flood (bps last : Z) (frames : list (Z * Z)) : Prop :=
  match frames with
  | [] => True
  | (now, len) :: fs => last <= now ∧ (now - last) * bps < NS ∧ 0 < len ∧ flood bps now fs
  end.
Lemma take_starved bps burst last now len :
  rate_ok bps → 0 <= burst → last <= now → (now - last) * bps < NS → 0 < len →
  take bps burst 0 last now len = (false, 0).
Proof.
  intros Hr Hb Hle Hg Hlen. pose proof Hr as [Hp _]. unfold take.
  rewrite (proj2 (Z.eqb_neq bps 0)), take_refill_exact by (lia || done).
  rewrite Z.div_small by (unfold NS in *; nia). change (sat_add64 0 0) with 0.
  rewrite (proj2 (Z.ltb_ge burst 0)) by lia. by rewrite (proj2 (Z.leb_gt len 0)) by lia.
Qed.
Theorem take_run_starves (bps burst last : Z) (frames : list (Z * Z)) :
  rate_ok bps → 0 <= burst → flood bps last frames → take_run bps burst 0 last frames = 0.
Proof.
  intros Hr Hb. revert last. induction frames as [|[now len] fs IH]; intros last; [done|].
  intros (H1 & H2 & H3 & H4). cbn [take_run]. rewrite take_starved by done. by rewrite IH.
Qed.

(** ** Properties *)

(** C23.  Rate conformance of the token bucket: starting with at most a full
    bucket, the bytes passed over any sequence of frames in time order never
    exceed the burst plus rate times elapsed time (in byte-nanoseconds).
    The bound needs rates below 2^64 / 10^9 bytes per second. *)
Theorem take_run_conforms (bps burst tokens last : Z) (frames : list (Z * Z)) :
  rate_ok bps → 0 <= tokens <= burst → in_order last frames →
  NS * take_run bps burst tokens last frames
  <= NS * burst + bps * (last_time last frames - last).
Proof.
  intros Hr Ht Ho. pose proof (take_run_bound bps burst tokens last frames Hr Ht Ho).
  assert (0 < NS) by done. nia.
Qed.

Lemma take_run_conforms_witness :
  NS * take_run 1000000 2000 2000 0 [(0, 1500); (1000, 1500); (2000000, 1500); (3000000, 1500)]
  <= NS * 2000 + 1000000 * (3000000 - 0).
Proof.
  apply (take_run_conforms 1000000 2000 2000 0
    [(0, 1500); (1000, 1500); (2000000, 1500); (3000000, 1500)]).
  - split; reflexivity.
  - lia.
  - simpl. lia.
Defined.

(** C24. A metered guest is never shut off: however its buckets were emptied,
    once the interface has been quiet for an eighth of a second a frame of up
    to 2000 bytes passes, and the buckets stay as they were configured.
    (The pause matters: [take_run_starves].) *)
Theorem meter_recovers `{Kernel} (i len : Z) (ext : bool) (m : MeterState) (w : world) :
  m_meter (w_maps w) !! i = Some m → meter_ok m → 0 <= len <= 2000 →
  total_last_ns m + NS / 8 <= ktime (w_tick w) →
  (ext = true → public_last_ns m + NS / 8 <= ktime (w_tick w)) →
  ∃ w' m', meter_pass i len ext w = Some (true, w') ∧ m_meter (w_maps w') !! i = Some m' ∧ meter_ok m'.
Proof.
  intros Em [Ht Hp] Hlen Htl Hpl. unfold meter_pass, pbind, gets, now. rewrite Em.
  assert (0 <= NS / 8) as Hns by done. assert (0 <= len) as H0 by lia.
  assert (total_last_ns m <= ktime (w_tick w)) as Hle by lia.
  pose proof (take_full _ _ _ _ (ktime (w_tick w)) len Ht Htl Hlen) as E1.
  pose proof (take_keeps _ _ _ (total_last_ns m) (ktime (w_tick w)) len Ht Hle H0) as K1.
  destruct (take (total_bps m) _ _ _ _ _) as [pt tok]. cbn in E1, K1. subst pt.
  destruct ext; cbn [total_bps total_burst total_tokens total_last_ns public_bps public_burst
    public_tokens public_last_ns].
  - specialize (Hpl eq_refl). assert (public_last_ns m <= ktime (w_tick w)) as Hle' by lia.
    pose proof (take_full _ _ _ _ (ktime (w_tick w)) len Hp Hpl Hlen) as E2.
    pose proof (take_keeps _ _ _ (public_last_ns m) (ktime (w_tick w)) len Hp Hle' H0) as K2.
    destruct (take (public_bps m) _ _ _ _ _) as [pp tok2]. cbn in E2, K2. subst pp.
    eexists _, _. split; [reflexivity|]. cbn. unfold hash_insert_, hash_insert. rewrite Em.
    cbn. by rewrite lookup_insert_eq.
  - eexists _, _. split; [reflexivity|]. cbn. unfold hash_insert_, hash_insert. rewrite Em.
    cbn. by rewrite lookup_insert_eq.
Qed.

Definition demo_metered : world :=
  mkWorld [] (with_meter (λ _, {[ 7 := mkMeterState 125000 15625 0 0 125000 15625 0 0 ]}) empty_maps)
    (500 * 500)%nat None.
Lemma meter_recovers_witness :
  ∃ w' m', meter_pass 7 1500 true demo_metered = Some (true, w') ∧
    m_meter (w_maps w') !! 7 = Some m' ∧ meter_ok m'.
Proof.
  apply (meter_recovers 7 1500 true (mkMeterState 125000 15625 0 0 125000 15625 0 0)).
  - reflexivity.
  - split; right; cbn; (split; [|split]); try lia; done.
  - lia.
  - vm_compute. discriminate.
  - intros _. vm_compute. discriminate.
Defined.

(** The refill wraps around in [u64] for rates of 160 Gbit/s: after
    almost a second of idling, a bucket that should have gained more than
    19 gigabytes gains less than 2. *)
Theorem take_refill_overflow :
  take_refill 20000000000 0 999999999 = 1553255906 ∧
  Z.min (999999999 - 0) NS * 20000000000 / NS = 19999999980.
Proof. split; vm_compute; reflexivity. Qed.
