(* ===== verification/Vip.v ===== *)
(** * Vip

    1:1 VIP translation (xdp-dp-ebpf/src/vip.rs): source rewrite on egress,
    destination rewrite on egress and ingress, through the VIPS map. *)
From S2P Require Import Prelude Bytes Csum Types Kernel Parse Rewrite Conntrack.

(** ** Definitions *)

(** The writes of [rewrite_raw] once a mapping was found. *)
Definition vip_write (p : list Z) (ip_off addr_off : nat) (old new : list Z) : mem (list Z) :=
  b ← rd8 p ip_off;
  let ihl := ihl_bytes b in
  proto ← rd8 p (ip_off + 9);
  p ← wrn p addr_off new;
  ipchk ← rd16 p (ip_off + 10);
  p ← wr16 p (ip_off + 10) (csum_replace4 ipchk old new);
  let l4 := (ip_off + ihl)%nat in
  if (proto =? IPPROTO_TCP) && negb (short p (l4 + 18)) then
    c ← rd16 p (l4 + 16);
    wr16 p (l4 + 16) (csum_replace4 c old new)
  else if (proto =? IPPROTO_UDP) && negb (short p (l4 + 8)) then
    c ← rd16 p (l4 + 6);
    if negb (c =? 0) then wr16 p (l4 + 6) (csum_replace4 c old new) else Some p
  else Some p.

(** [rewrite_raw]: rewrite the source or destination address that has a VIP
    mapping. *)
Definition rewrite_raw (vips : gmap VipKey (list Z)) (p : list Z) (ip_off : nat) (vni : Z)
    (is_src : bool) : mem (list Z) :=
  if short p (ip_off + 20) then Some p else
  let addr_off := (ip_off + if is_src then 12 else 16)%nat in
  old ← rdn p addr_off 4;
  match vips !! mkVipKey vni old with
  | Some new => vip_write p ip_off addr_off old new
  | None => Some p
  end.

(** [snat_egress], [dnat_egress] and [dnat_ingress]. *)
Definition snat_egress (ip_off : nat) (vni : Z) : prog world unit :=
  pbind (gets m_vips) (λ vips, rewrite_pkt (λ p, rewrite_raw vips p ip_off vni true)).
Definition dnat_egress (ip_off : nat) (vni : Z) : prog world unit :=
  pbind (gets m_vips) (λ vips, rewrite_pkt (λ p, rewrite_raw vips p ip_off vni false)).
Definition dnat_ingress (ip_off : nat) (vni : Z) : prog world unit :=
  pbind (gets m_vips) (λ vips, rewrite_pkt (λ p, rewrite_raw vips p ip_off vni false)).

(** ** Lemmas *)

(** VIP values are addresses. *)
Definition vips_ok (vips : gmap VipKey (list Z)) : Prop :=
  ∀ k v, vips !! k = Some v → is_arr 4 v.

Lemma vip_write_total p off a old new :
  (off + 20 <= length p)%nat → (a = off + 12 ∨ a = off + 16)%nat → length new = 4%nat →
  ∃ p', vip_write p off a old new = Some p' ∧ length p' = length p.
Proof.
  intros Hl Ha Hn. unfold vip_write. rewrite !rd8_at by lia. cbn [mbind option_bind].
  rewrite wrn_splice by lia. cbn [mbind option_bind].
  rewrite rd16_w16 by len. cbn [mbind option_bind].
  rewrite wr16_splice by len. cbn [mbind option_bind].
  set (q := splice _ (off + 10) _).
  assert (length q = length p) as Hq by (subst q; len). clearbody q.
  destruct (short q _) eqn:E18; destruct (short q (_ + 8)) eqn:E8;
    repeat (apply short_true in E18 || apply short_false in E18);
    repeat (apply short_true in E8 || apply short_false in E8);
    destruct (_ =? IPPROTO_TCP), (_ =? IPPROTO_UDP); cbn [andb negb]; eauto;
    rewrite rd16_w16 by lia; cbn [mbind option_bind];
    try (destruct (negb _); [|by eauto]); rewrite wr16_splice by lia;
    (eexists; split; [reflexivity|len]).
Qed.

Lemma rewrite_raw_total vips p off vni b :
  (∀ k v, vips !! k = Some v → length v = 4%nat) →
  ∃ p', rewrite_raw vips p off vni b = Some p' ∧ length p' = length p.
Proof.
  intros Hv. unfold rewrite_raw. destruct (short p (off + 20)) eqn:E; [eauto|].
  apply short_false in E.
  assert (∀ a, (a = off + 12 ∨ a = off + 16)%nat →
    ∃ p', (old ← rdn p a 4;
           match vips !! mkVipKey vni old with
           | Some new => vip_write p off a old new
           | None => Some p end) = Some p' ∧ length p' = length p) as H.
  { intros a Ha. rewrite rdn_slice by lia. cbn [mbind option_bind].
    destruct (vips !! _) as [new|] eqn:Ev; [|eauto].
    apply vip_write_total; [done|done|]. by eapply Hv. }
  destruct b; apply H; auto.
Qed.

(** The conntrack entry that asks for the same translation. *)
Definition vip_entry (is_src : bool) (new : list Z) : CtEntry :=
  mkCtEntry 0 new 0 (if is_src then CT_REWRITE_SRC else CT_REWRITE_DST) 0 0.

Lemma vip_entry_src is_src new : apply_src (vip_entry is_src new) = is_src.
Proof. by destruct is_src. Qed.

Lemma vip_entry_flags is_src new :
  Z.land (ce_flags (vip_entry is_src new)) (Z.lor CT_REWRITE_SRC CT_REWRITE_DST) ≠ 0.
Proof. by destruct is_src. Qed.

Lemma vip_entry_wf is_src new : is_arr 4 new → wf_CtEntry (vip_entry is_src new).
Proof. intros H. split; [done|done| |cbn; lia]. by destruct is_src. Qed.

(** The straight-line result of [vip_write] on an option-less header. *)
Lemma vip_write_eq p off a new :
  bytes_ok p → (off + 20 <= length p)%nat → (a = off + 12 ∨ a = off + 16)%nat →
  is_arr 4 new → Z.land (at_ p off) 0x0f = 5 →
  let base := addr_fixed p off a new in
  let c i := csum_replace4 (w16 p i) (slice p a 4) new in
  vip_write p off a (slice p a 4) new = Some
    (if (at_ p (off + 9) =? IPPROTO_TCP) && negb (short p (off + 20 + 18))
     then splice base (off + 20 + 16) (to_be16 (c (off + 20 + 16)%nat))
     else if (at_ p (off + 9) =? IPPROTO_UDP) && negb (short p (off + 20 + 8))
     then if w16 p (off + 20 + 6) =? 0 then base
          else splice base (off + 20 + 6) (to_be16 (c (off + 20 + 6)%nat))
     else base).
Proof.
  intros Hb Hl Ha Hn H5 base c. pose proof (proj1 Hn) as Hnl.
  unfold vip_write. rewrite !rd8_at by lia. cbn [mbind option_bind].
  rewrite wrn_splice by lia. cbn [mbind option_bind].
  rewrite rd16_w16 by len. cbn [mbind option_bind]. rewrite w16_splice_out by lia.
  rewrite wr16_splice by len. cbn [mbind option_bind].
  fold (addr_fixed p off a new). fold base. rewrite (ihl_bytes_5 _ H5).
  assert (length base = length p) as Hbl by (by apply addr_fixed_length).
  assert (∀ n, short base n = short p n) as Hs by (intros; unfold short; by rewrite Hbl).
  assert (∀ i, (off + 20 <= i)%nat → w16 base i = w16 p i) as Hw
    by (intros; by apply addr_fixed_w16).
  rewrite !Hs.
  destruct (short p (off + 20 + 18)) eqn:E18; [apply short_true in E18|apply short_false in E18];
  (destruct (short p (off + 20 + 8)) eqn:E8; [apply short_true in E8|apply short_false in E8]);
  destruct (at_ p (off + 9) =? IPPROTO_TCP), (at_ p (off + 9) =? IPPROTO_UDP);
    cbn [andb negb]; try done;
    rewrite rd16_w16 by lia; cbn [mbind option_bind]; rewrite Hw by lia;
    try (destruct (w16 p (off + 20 + 6) =? 0); cbn [negb]; [done|]);
    by rewrite wr16_splice by lia.
Qed.

(** ** Property *)

(** C25.  VIP translation of an option-less packet is exactly the translation
    conntrack would apply for the mapped address: [rewrite_raw] equals
    [ct_apply] of an entry with that address and no port, so it keeps every
    checksum valid and touches nothing else; without a mapping the packet is
    unchanged. *)
Theorem rewrite_raw_is_ct_apply (vips : gmap VipKey (list Z)) (p : list Z) (off : nat) (vni : Z)
    (is_src : bool) :
  vips_ok vips → bytes_ok p → Z.land (at_ p off) 0x0f = 5 → (off + 20 <= length p)%nat →
  let a := (off + if is_src then 12 else 16)%nat in
  rewrite_raw vips p off vni is_src =
    match vips !! mkVipKey vni (slice p a 4) with
    | Some new => ct_apply p off (vip_entry is_src new)
    | None => Some p
    end.
Proof.
  intros Hv Hb H5 Hl a. unfold rewrite_raw. rewrite short_false_eq by done. fold a.
  assert (a = off + 12 ∨ a = off + 16)%nat as Ha by (subst a; destruct is_src; auto).
  rewrite rdn_slice by lia. cbn [mbind option_bind].
  destruct (vips !! _) as [new|] eqn:Ev; [|done]. apply Hv in Ev.
  assert (apply_addr off (vip_entry is_src new) = a) as Ea
    by (unfold apply_addr; by rewrite vip_entry_src).
  clearbody a. rewrite (vip_write_eq p off a new Hb Hl Ha Ev H5). cbv zeta.
  rewrite ct_apply_reads by (assumption || apply vip_entry_flags). cbv zeta.
  unfold ct_apply_write, apply_l4_csum. rewrite Ea. cbn [vip_entry ce_xlate_ip ce_xlate_port negb Z.eqb].
  rewrite wrn_splice by (rewrite (proj1 Ev); lia). cbn [mbind option_bind].
  rewrite wr16_splice by (pose proof (proj1 Ev); len). cbn [mbind option_bind].
  fold (addr_fixed p off a new). rewrite !andb_false_r.
  assert (length (addr_fixed p off a new) = length p) as Hbl by (by apply addr_fixed_length).
  change (at_ p (off + 9) =? 6) with (at_ p (off + 9) =? IPPROTO_TCP).
  change (at_ p (off + 9) =? 17) with (at_ p (off + 9) =? IPPROTO_UDP).
  destruct (short p (off + 20 + 18)) eqn:E18; [apply short_true in E18|apply short_false in E18];
  (destruct (short p (off + 20 + 8)) eqn:E8; [apply short_true in E8|apply short_false in E8]);
  destruct (at_ p (off + 9) =? IPPROTO_TCP), (at_ p (off + 9) =? IPPROTO_UDP);
    cbn [andb negb mbind option_bind]; try done;
    try (destruct (w16 p (off + 20 + 6) =? 0); cbn [negb mbind option_bind]; [done|]);
    by rewrite wr16_splice by lia.
Qed.

Lemma rewrite_raw_is_ct_apply_witness :
  let vips := <[mkVipKey 100 [10; 0; 0; 5] := [203; 0; 113; 7]]> ∅ in
  rewrite_raw vips demo_syn 14 100 true =
    match vips !! mkVipKey 100 (slice demo_syn (14 + 12) 4) with
    | Some new => ct_apply demo_syn 14 (vip_entry true new)
    | None => Some demo_syn
    end.
Proof.
  apply (rewrite_raw_is_ct_apply (<[mkVipKey 100 [10; 0; 0; 5] := [203; 0; 113; 7]]> ∅)
    demo_syn 14 100 true).
  - intros k v H. apply lookup_insert_Some in H as [[_ <-]|[_ H]]; [|by rewrite lookup_empty in H].
    split; [done|]. repeat (apply List.Forall_cons; [unfold is_byte; lia|]). constructor.
  - repeat (apply List.Forall_cons; [unfold is_byte; lia|]). constructor.
  - reflexivity.
  - vm_compute. lia.
Defined.
