(* ===== verification/Nat.v ===== *)
(** * Nat

    Network NAT (xdp-dp-ebpf/src/nat.rs): source-port allocation by probing
    the reverse conntrack keys, the source rewrite of an egress packet, and
    the neighbor-NAT lookup of the ingress path. *)
From S2P Require Import Prelude Bytes Csum Types Kernel Parse Rewrite Conntrack.

(** ** Definitions *)

Definition PROBE_LIMIT : nat := 64.

(** The peer-independent return key of a NAT port. *)
Definition nat_rev_key (vni : Z) (nat_ip : list Z) (port proto : Z) : CtKey :=
  mkCtKey vni [0; 0; 0; 0] nat_ip 0 port proto.

(** The [i]-th candidate port. *)
Definition nat_cand (port_min start range : Z) (i : nat) : Z :=
  wrap16 (port_min + wrap16 (start + Z.of_nat i) mod range).

(** The rewrite of [nat_snat_egress], once the port is known. *)
Definition nat_write (p : list Z) (ip_off : nat) (src nat_ip : list Z) (proto sport nat_port : Z)
    : mem (list Z) :=
  b ← rd8 p ip_off;
  let ihl := ihl_bytes b in
  p ← wrn p (ip_off + 12) nat_ip;
  ipc ← rd16 p (ip_off + 10);
  p ← wr16 p (ip_off + 10) (csum_replace4 ipc src nat_ip);
  let l4 := (ip_off + ihl)%nat in
  if (proto =? IPPROTO_TCP) && negb (short p (l4 + 18)) then
    c0 ← rd16 p (l4 + 16);
    let c1 := csum_replace4 c0 src nat_ip in
    let c2 := csum_replace2 c1 sport nat_port in
    p ← wr16 p (l4 + 16) c2;
    wr16 p l4 nat_port
  else if (proto =? IPPROTO_UDP) && negb (short p (l4 + 8)) then
    c0 ← rd16 p (l4 + 6);
    p ← (if negb (c0 =? 0) then
           let c1 := csum_replace4 c0 src nat_ip in
           let c2 := csum_replace2 c1 sport nat_port in
           wr16 p (l4 + 6) c2
         else Some p);
    wr16 p l4 nat_port
  else if (proto =? IPPROTO_ICMP) && negb (short p (l4 + 8)) then
    c0 ← rd16 p (l4 + 2);
    let c1 := csum_replace2 c0 sport nat_port in
    p ← wr16 p (l4 + 2) c1;
    wr16 p (l4 + 4) nat_port
  else Some p.

Section programs.
Context `{Kernel}.
Local Open Scope dp_scope.

(** The probe loop: the first candidate whose reverse key is free gets a
    reverse entry; [chosen] is kept when the limit is reached.  [extra] is
    the flag NAT64 flows add. *)
Fixpoint nat_probe (fuel i : nat) (extra vni : Z) (nat_ip : list Z)
    (port_min start range proto : Z) (src : list Z) (sport chosen : Z) : prog world Z :=
  match fuel with
  | O => pret chosen
  | S fuel' =>
      let cand := nat_cand port_min start range i in
      let rev_key := nat_rev_key vni nat_ip cand proto in
      let* ct := gets m_conntrack in
      match ct !! rev_key with
      | None =>
          let* t := now in
          ct_insert rev_key (mkCtEntry t src sport
            (Z.lor (Z.lor CT_REWRITE_DST CT_F_SRC_NAT) extra) 0 0) ;;;
          pret cand
      | Some _ =>
          nat_probe fuel' (S i) extra vni nat_ip port_min start range proto src sport chosen
      end
  end.

(** Port allocation of a new flow: hash to a start slot, probe, pin the
    forward entry. *)
Definition nat_alloc (extra : Z) (fwd_key : CtKey) (nat_ip : list Z) (port_min range : Z)
    : prog world Z :=
  let vni := ck_vni fwd_key in
  let src := ck_src_ip fwd_key in
  let dst := ck_dst_ip fwd_key in
  let sport := ck_src_port fwd_key in
  let dport := ck_dst_port fwd_key in
  let proto := ck_proto fwd_key in
  let start := wrap16 (hash5 src dst sport dport proto mod range) in
  let chosen := wrap16 (port_min + start) in
  let* chosen :=
    nat_probe PROBE_LIMIT 0 extra vni nat_ip port_min start range proto src sport chosen in
  let* t := now in
  ct_insert fwd_key (mkCtEntry t nat_ip chosen
    (Z.lor (Z.lor CT_REWRITE_SRC CT_F_SRC_NAT) extra) 0 0) ;;;
  pret chosen.

(** The port of a flow: the tracked one, or a new allocation. *)
Definition nat_port_of (extra : Z) (fwd_key : CtKey) (nat_ip : list Z) (port_min range : Z)
    : prog world Z :=
  let* ct := gets m_conntrack in
  match ct !! fwd_key with
  | Some v =>
      if has_flag (ce_flags v) CT_F_SRC_NAT then pret (ce_xlate_port v)
      else nat_alloc extra fwd_key nat_ip port_min range
  | None => nat_alloc extra fwd_key nat_ip port_min range
  end.

(** [nat_snat_egress]; [true] when the packet was translated. *)
Definition nat_snat_egress (ip_off : nat) (vni : Z) (is_external : bool) : prog world bool :=
  if negb is_external then pret false else
  let* p := get_pkt in
  if short p (ip_off + 20) then pret false else
  let* src := access (λ p, rdn p (ip_off + 12) 4) in
  let* dst := access (λ p, rdn p (ip_off + 16) 4) in
  let* nats := gets m_nat in
  match nats !! mkNatKey vni src with
  | None => pret false
  | Some nat =>
      let range := wrap16 (nv_port_max nat - nv_port_min nat) in
      if range =? 0 then pret false else
      let* ports := access (λ p, l4_ports p ip_off) in
      match ports with
      | None => pret false
      | Some (proto, sport, dport) =>
          let fwd_key := mkCtKey vni src dst sport dport proto in
          let* nat_port := nat_port_of 0 fwd_key (nv_nat_ipv4 nat) (nv_port_min nat) range in
          rewrite_pkt (λ p, nat_write p ip_off src (nv_nat_ipv4 nat) proto sport nat_port) ;;;
          pret true
      end
  end.
End programs.

(** [neighbor_nat_lookup]: scan the first [count] slots (64 at most). *)
Fixpoint neighbor_scan (fuel : nat) (idx count : Z) (slots : gmap Z NeighborNatEntry)
    (vni : Z) (dst : list Z) (dport : Z) : option (list Z) :=
  match fuel with
  | O => None
  | S n =>
      if count <=? idx then None else
      match slots !! idx with
      | Some e =>
          if negb (ne_enabled e =? 0) && (ne_vni e =? vni) && bool_decide (ne_nat_ip e = dst)
             && (ne_port_min e <=? dport) && (dport <? ne_port_max e)
          then Some (ne_underlay e)
          else neighbor_scan n (idx + 1) count slots vni dst dport
      | None => neighbor_scan n (idx + 1) count slots vni dst dport
      end
  end.
Definition neighbor_nat_lookup (m : Maps) (vni : Z) (dst : list Z) (dport : Z)
    : option (list Z) :=
  match m_neighbor_nat_count m with
  | None => None
  | Some count => neighbor_scan NB_MAX_ENTRIES 0 count (m_neighbor_nat m) vni dst dport
  end.

(** ** Lemmas: candidates *)

Lemma nat_cand_range port_min port_max start i :
  is_u16 port_min → is_u16 port_max → port_min < port_max →
  port_min <= nat_cand port_min start (port_max - port_min) i < port_max.
Proof.
  unfold is_u16. intros H1 H2 Hlt. unfold nat_cand.
  pose proof (Z.mod_pos_bound (wrap16 (start + Z.of_nat i)) (port_max - port_min)).
  rewrite (wrap16_mod (_ + _)). rewrite Z.mod_small; lia.
Qed.

(** A small range is probed completely. *)
Lemma nat_cand_complete port_min port_max start port :
  is_u16 port_min → is_u16 port_max → port_min < port_max →
  port_max - port_min <= Z.of_nat PROBE_LIMIT → 0 <= start < port_max - port_min →
  port_min <= port < port_max →
  ∃ i, (i < PROBE_LIMIT)%nat ∧ nat_cand port_min start (port_max - port_min) i = port.
Proof.
  unfold is_u16, PROBE_LIMIT. intros H1 H2 Hlt Hr Hs Hp.
  set (r := port_max - port_min) in *. set (d := port - port_min).
  exists (Z.to_nat ((d - start) mod r)).
  pose proof (Z.mod_pos_bound (d - start) r ltac:(lia)) as Hm. split; [lia|].
  unfold nat_cand. rewrite Z2Nat.id by lia.
  rewrite (wrap16_mod (start + _)), (Z.mod_small (start + _)) by lia.
  rewrite Z.add_mod_idemp_r by lia. replace (start + (d - start)) with d by lia.
  subst d. rewrite (Z.mod_small (port - port_min)) by lia.
  rewrite wrap16_mod. replace (port_min + (port - port_min)) with port by lia.
  apply Z.mod_small. lia.
Qed.

Lemma nat_start_range src dst sp dp proto r :
  0 < r <= 65535 → 0 <= wrap16 (hash5 src dst sp dp proto mod r) < r.
Proof.
  intros Hr. pose proof (Z.mod_pos_bound (hash5 src dst sp dp proto) r).
  rewrite wrap16_mod, Z.mod_small; lia.
Qed.

Lemma nat_range_sub port_min port_max :
  is_u16 port_min → is_u16 port_max → port_min < port_max →
  wrap16 (port_max - port_min) = port_max - port_min.
Proof. unfold is_u16. intros. rewrite wrap16_mod. apply Z.mod_small. lia. Qed.

(** ** Lemmas: allocation *)

Definition rev_entry (t : Z) (extra : Z) (src : list Z) (sport : Z) : CtEntry :=
  mkCtEntry t src sport (Z.lor (Z.lor CT_REWRITE_DST CT_F_SRC_NAT) extra) 0 0.
Definition fwd_entry (t : Z) (extra : Z) (nat_ip : list Z) (port : Z) : CtEntry :=
  mkCtEntry t nat_ip port (Z.lor (Z.lor CT_REWRITE_SRC CT_F_SRC_NAT) extra) 0 0.

(** Two worlds with the same frame and pending redirect. *)
Definition same_frame (w w' : world) : Prop :=
  w_pkt w' = w_pkt w ∧ w_redirect w' = w_redirect w.

Section alloc.
Context `{KL : KernelLaws}.

Lemma nat_probe_run fuel i extra vni nat_ip pmin start range proto src sport chosen w :
  let rev c := nat_rev_key vni nat_ip (nat_cand pmin start range c) proto in
  ∃ port w',
    nat_probe fuel i extra vni nat_ip pmin start range proto src sport chosen w
      = Some (port, w') ∧ same_frame w w' ∧
    ((∃ j t, (i <= j < i + fuel)%nat ∧ port = nat_cand pmin start range j ∧
        conntrack_of w !! rev j = None ∧
        (∀ j', (i <= j' < j)%nat → conntrack_of w !! rev j' ≠ None) ∧
        w_maps w' = with_conntrack (lru_insert (rev j) (rev_entry t extra src sport)) (w_maps w)) ∨
     (port = chosen ∧ w' = w ∧
      ∀ j, (i <= j < i + fuel)%nat → conntrack_of w !! rev j ≠ None)).
Proof using.
  intros rev. revert i. induction fuel as [|fuel IH]; intros i.
  - exists chosen, w. split; [done|split; [done|]]. right. split; [done|split; [done|]]. lia.
  - cbn [nat_probe]. unfold pbind at 1, gets.
    change (m_conntrack (w_maps w)) with (conntrack_of w).
    change (nat_rev_key vni nat_ip (nat_cand pmin start range i) proto) with (rev i).
    destruct (conntrack_of w !! rev i) as [v|] eqn:E.
    + destruct (IH (S i)) as (port & w' & Er & Hf & [(j & t & Hj & Hp & Hn & Hall & Hm)|(-> & -> & Hall)]).
      * exists port, w'. split; [done|split; [done|]]. left. exists j, t. split; [lia|].
        do 2 (split; [done|]). split; [|done]. intros j' Hj'.
        destruct (decide (j' = i)) as [->|]; [by rewrite E|]. apply Hall. lia.
      * exists chosen, w. split; [done|split; [done|]]. right. split; [done|split; [done|]].
        intros j Hj. destruct (decide (j = i)) as [->|]; [by rewrite E|]. apply Hall. lia.
    + eexists _, _. split; [reflexivity|]. split; [done|]. left.
      exists i, (ktime (w_tick w)). split; [lia|]. do 2 (split; [done|]). split; [intros j' Hj'; lia|done].
Qed.

(** The ports an allocation probes, in order. *)
Definition nat_candidate (k : CtKey) (pmin range : Z) (i : nat) : Z :=
  nat_cand pmin (wrap16 (hash5 (ck_src_ip k) (ck_dst_ip k) (ck_src_port k) (ck_dst_port k)
    (ck_proto k) mod range)) range i.
(** No flow of the NAT address and protocol has the [i]-th of them as its
    return port. *)
Definition candidate_free (k : CtKey) (nat_ip : list Z) (pmin range : Z) (m : gmap CtKey CtEntry)
    (i : nat) : Prop :=
  m !! nat_rev_key (ck_vni k) nat_ip (nat_candidate k pmin range i) (ck_proto k) = None.

(** The allocation takes the first free candidate and enters it as the return
    key of the guest; when there is none, it takes the first and enters
    nothing.  Either way the flow is entered with the port.  The kernel's LRU
    map may evict any other entry at each insertion. *)
Definition allocated (extra : Z) (k : CtKey) (nat_ip : list Z) (pmin range port : Z)
    (m m' : gmap CtKey CtEntry) : Prop :=
  (∃ j t t', (j < PROBE_LIMIT)%nat ∧ port = nat_candidate k pmin range j ∧
     candidate_free k nat_ip pmin range m j ∧
     (∀ i, (i < j)%nat → ¬ candidate_free k nat_ip pmin range m i) ∧
     m' = lru_insert k (fwd_entry t' extra nat_ip port)
            (lru_insert (nat_rev_key (ck_vni k) nat_ip port (ck_proto k))
               (rev_entry t extra (ck_src_ip k) (ck_src_port k)) m)) ∨
  (∃ t', port = nat_candidate k pmin range 0 ∧
     (∀ i, (i < PROBE_LIMIT)%nat → ¬ candidate_free k nat_ip pmin range m i) ∧
     m' = lru_insert k (fwd_entry t' extra nat_ip port) m).

Lemma nat_alloc_run extra k nat_ip pmin range w :
  0 < range <= 65535 →
  ∃ port w', nat_alloc extra k nat_ip pmin range w = Some (port, w') ∧ same_frame w w' ∧
    allocated extra k nat_ip pmin range port (conntrack_of w) (conntrack_of w').
Proof using KL.
  intros Hr. unfold nat_alloc.
  set (start := wrap16 (hash5 _ _ _ _ _ mod range)).
  assert (0 <= start < range) as Hst by (by apply nat_start_range).
  destruct (nat_probe_run PROBE_LIMIT 0 extra (ck_vni k) nat_ip pmin start range (ck_proto k)
    (ck_src_ip k) (ck_src_port k) (wrap16 (pmin + start)) w)
    as (port & w1 & E & [Hf1 Hf2] & Hc).
  unfold pbind at 1. rewrite E. unfold pbind, now, ct_insert, update, pret.
  eexists port, _. split; [reflexivity|]. split; [by split|].
  unfold allocated, conntrack_of. cbn.
  destruct Hc as [(j & t & Hj & -> & Hn & Hall & Hm)|(-> & -> & Hall)]; [left|right].
  - exists j, t, (ktime (w_tick w1)). split; [lia|]. do 2 (split; [done|]).
    split; [intros i Hi; apply Hall; lia|]. by rewrite Hm.
  - exists (ktime (w_tick w)). split.
    { unfold nat_candidate, nat_cand. fold start. rewrite Z.add_0_r, (wrap16_mod start).
      by rewrite (Z.mod_small start), (Z.mod_small start range) by lia. }
    split; [|done]. intros i Hi. apply Hall. lia.
Qed.
End alloc.

(** ** Properties: port allocation *)

(** C26.  Port allocation of a new NAT flow.  It always yields a port of the
    guest's range, pinned in the flow's forward entry.  While one of the 64
    probed ports is free, the port is the first that is: its return key was
    free, and now leads back to the guest and its source port.  Only when all
    of them belong to other flows is the first one shared, and no return
    entry made.  A range of at most 64 ports is searched completely.  The LRU
    map may evict other entries, as the kernel's does. *)
Theorem nat_alloc_fresh `{KL : KernelLaws} (extra : Z) (k : CtKey) (nat_ip : list Z)
    (pmin pmax : Z) (w : world) :
  is_u16 pmin → is_u16 pmax → pmin < pmax →
  let range := pmax - pmin in
  let free := candidate_free k nat_ip pmin range (conntrack_of w) in
  ∃ port w' t', nat_alloc extra k nat_ip pmin range w = Some (port, w') ∧
    same_frame w w' ∧ pmin <= port < pmax ∧
    conntrack_of w' !! k = Some (fwd_entry t' extra nat_ip port) ∧
    ((∃ i, (i < PROBE_LIMIT)%nat ∧ free i) →
     let rev := nat_rev_key (ck_vni k) nat_ip port (ck_proto k) in
     ∃ j t, (j < PROBE_LIMIT)%nat ∧ port = nat_candidate k pmin range j ∧
       (∀ i, (i < j)%nat → ¬ free i) ∧ conntrack_of w !! rev = None ∧
       conntrack_of w' = lru_insert k (fwd_entry t' extra nat_ip port)
         (lru_insert rev (rev_entry t extra (ck_src_ip k) (ck_src_port k)) (conntrack_of w))) ∧
    ((∀ i, (i < PROBE_LIMIT)%nat → ¬ free i) →
     port = nat_candidate k pmin range 0 ∧
     conntrack_of w' = lru_insert k (fwd_entry t' extra nat_ip port) (conntrack_of w)) ∧
    (range <= 64 → ∀ q, pmin <= q < pmax →
     ∃ i, (i < PROBE_LIMIT)%nat ∧ nat_candidate k pmin range i = q).
Proof.
  intros H1 H2 Hlt range free. assert (0 < range <= 65535) as Hr by (unfold is_u16, range in *; lia).
  pose proof (nat_start_range (ck_src_ip k) (ck_dst_ip k) (ck_src_port k) (ck_dst_port k)
    (ck_proto k) range Hr) as Hst.
  destruct (nat_alloc_run extra k nat_ip pmin range w Hr) as (port & w' & E & Hf & Ha).
  assert (range <= 64 → ∀ q, pmin <= q < pmax →
     ∃ i, (i < PROBE_LIMIT)%nat ∧ nat_candidate k pmin range i = q) as Hcov.
  { intros Hs q Hq. by apply nat_cand_complete. }
  destruct Ha as [(j & t & t' & Hj & -> & Hn & Hall & Em)|(t' & -> & Hall & Em)].
  - eexists _, w', t'. split; [exact E|]. split; [done|]. split; [by apply nat_cand_range|].
    split; [rewrite Em; apply lru_insert_same|]. split; [intros _; by exists j, t|].
    split; [|done]. intros Hno. by apply Hno in Hn.
  - eexists _, w', t'. split; [exact E|]. split; [done|]. split; [by apply nat_cand_range|].
    split; [rewrite Em; apply lru_insert_same|]. split; [|done].
    intros (i & Hi & Hfree). by apply Hall in Hfree.
Qed.

Lemma nat_alloc_fresh_witness :
  ∃ port w', nat_alloc 0 demo_key [203; 0; 113; 1] 40000 (40016 - 40000) demo_world
      = Some (port, w') ∧ 40000 <= port < 40016 ∧
    conntrack_of demo_world !! nat_rev_key 100 [203; 0; 113; 1] port 6 = None.
Proof.
  destruct (nat_alloc_fresh 0 demo_key [203; 0; 113; 1] 40000 40016 demo_world)
    as (port & w' & t' & E & _ & Hp & _ & Hfree & _).
  - unfold is_u16. lia.
  - unfold is_u16. lia.
  - lia.
  - exists port, w'. split; [exact E|]. split; [exact Hp|].
    destruct Hfree as (j & t & _ & _ & _ & Hn & _); [|exact Hn].
    exists 0%nat. split; [unfold PROBE_LIMIT; lia|]. vm_compute. reflexivity.
Defined.

(** ** Lemmas: the rewrite *)

Lemma nat_write_total p off src nat_ip proto sport port :
  (off + 20 <= length p)%nat → length nat_ip = 4%nat →
  ∃ p', nat_write p off src nat_ip proto sport port = Some p' ∧ length p' = length p.
Proof.
  intros Hl Hn. unfold nat_write. rewrite !rd8_at by lia. cbn [mbind option_bind].
  rewrite wrn_splice by lia. cbn [mbind option_bind].
  rewrite rd16_w16 by len. cbn [mbind option_bind].
  rewrite wr16_splice by len. cbn [mbind option_bind].
  set (q := splice _ (off + 10) _).
  assert (length q = length p) as Hq by (subst q; len). clearbody q.
  destruct (short q _) eqn:E18; destruct (short q (_ + 8)) eqn:E8;
    (apply short_true in E18 || apply short_false in E18);
    (apply short_true in E8 || apply short_false in E8);
    destruct (proto =? IPPROTO_TCP), (proto =? IPPROTO_UDP), (proto =? IPPROTO_ICMP);
    cbn [andb negb]; eauto;
    rewrite rd16_w16 by lia; cbn [mbind option_bind];
    try (destruct (negb _); cbn [mbind option_bind]);
    repeat (rewrite wr16_splice by len; cbn [mbind option_bind]);
    (eexists; split; [reflexivity|len]).
Qed.

Lemma fwd_entry_flags t extra nat_ip port :
  extra = 0 ∨ extra = CT_F_NAT64 →
  Z.land (ce_flags (fwd_entry t extra nat_ip port)) (Z.lor CT_REWRITE_SRC CT_REWRITE_DST) ≠ 0 ∧
  apply_src (fwd_entry t extra nat_ip port) = true.
Proof. by intros [->| ->]. Qed.

(** ** Property: the first packet is translated like the following ones *)

(** The rewrite of the packet that allocates a port equals what
    conntrack applies to the later packets of the flow: [nat_write] is
    [ct_apply] of the forward entry the allocation stores (so it keeps
    valid packets valid). *)
Theorem nat_write_is_ct_apply (p : list Z) (off : nat) (nat_ip : list Z)
    (proto sport dport t extra port : Z) :
  bytes_ok p → Z.land (at_ p off) 0x0f = 5 → is_arr 4 nat_ip → port ≠ 0 →
  extra = 0 ∨ extra = CT_F_NAT64 →
  l4_ports p off = Some (Some (proto, sport, dport)) →
  nat_write p off (slice p (off + 12) 4) nat_ip proto sport port
  = ct_apply p off (fwd_entry t extra nat_ip port).
Proof.
  intros Hb H5 Hn Hport Hx Hl4. apply l4_ports_inv in Hl4 as (Hl & -> & Hcase).
  rewrite (ihl_bytes_5 _ H5) in Hcase. pose proof (proj1 Hn) as Hnl.
  destruct (fwd_entry_flags t extra nat_ip port Hx) as [Hfl Hsrc].
  assert (apply_addr off (fwd_entry t extra nat_ip port) = (off + 12)%nat) as Ea
    by (unfold apply_addr; by rewrite Hsrc).
  assert (apply_port off (fwd_entry t extra nat_ip port) = (off + 20)%nat) as Eq
    by (unfold apply_port; by rewrite Hsrc).
  rewrite ct_apply_reads by assumption. cbv zeta.
  unfold ct_apply_write, apply_l4_csum, nat_write. rewrite Ea, Eq.
  cbn [fwd_entry ce_xlate_ip ce_xlate_port].
  rewrite (proj2 (Z.eqb_neq _ _) Hport). cbn [negb].
  rewrite !rd8_at by lia. cbn [mbind option_bind]. rewrite (ihl_bytes_5 _ H5).
  rewrite !wrn_splice by lia. cbn [mbind option_bind].
  rewrite (rd16_w16 _ (off + 10)) by len. cbn [mbind option_bind].
  rewrite w16_splice_out by lia. rewrite !wr16_splice by len. cbn [mbind option_bind].
  fold (addr_fixed p off (off + 12) nat_ip). set (base := addr_fixed p off (off + 12) nat_ip).
  assert (length base = length p) as Hbl by (apply addr_fixed_length; auto).
  assert (∀ n, short base n = short p n) as Hs by (intros; unfold short; by rewrite Hbl).
  assert (∀ i, (off + 20 <= i)%nat → w16 base i = w16 p i) as Hw
    by (intros; apply addr_fixed_w16; auto).
  rewrite !Hs. clearbody base.
  change (be16 (at_ p ?i) (at_ p (?i + 1))) with (w16 p i) in Hcase.
  destruct Hcase as [([E|E] & H4 & -> & _)|(E & H6 & -> & _)]; rewrite E;
    cbn [Z.eqb Pos.eqb IPPROTO_TCP IPPROTO_UDP IPPROTO_ICMP andb].
  - destruct (short p (off + 20 + 18)) eqn:E18; cbn [negb mbind option_bind]; [done|].
    apply short_false in E18. rewrite rd16_w16 by lia. cbn [mbind option_bind].
    by rewrite Hw by lia.
  - destruct (short p (off + 20 + 8)) eqn:E8; cbn [negb mbind option_bind]; [done|].
    apply short_false in E8. rewrite rd16_w16 by lia. cbn [mbind option_bind].
    rewrite Hw by lia. destruct (w16 p (off + 20 + 6) =? 0); cbn [andb negb mbind option_bind];
      reflexivity.
  - destruct (short p (off + 20 + 8)) eqn:E8; cbn [negb mbind option_bind]; [done|].
    apply short_false in E8. rewrite rd16_w16 by lia. cbn [mbind option_bind].
    by rewrite Hw by lia.
Qed.

Lemma nat_write_is_ct_apply_witness :
  nat_write demo_syn 14 (slice demo_syn (14 + 12) 4) [203; 0; 113; 1] 6 12345 40001
  = ct_apply demo_syn 14 (fwd_entry 0 0 [203; 0; 113; 1] 40001).
Proof.
  apply (nat_write_is_ct_apply demo_syn 14 [203; 0; 113; 1] 6 12345 80 0 0 40001).
  - repeat (apply List.Forall_cons; [unfold is_byte; lia|]). constructor.
  - reflexivity.
  - split; [reflexivity|]. repeat (apply List.Forall_cons; [unfold is_byte; lia|]). constructor.
  - discriminate.
  - by left.
  - reflexivity.
Defined.

(** ** Lemmas: the egress program *)

(** NAT configurations hold addresses and ports. *)
Definition nats_ok (m : Maps) : Prop := ∀ k v, m_nat m !! k = Some v → wf_NatValue v.

Lemma nat_probe_total `{Kernel} fuel i extra vni nat_ip pmin start range proto src sport chosen w :
  ∃ port w',
    nat_probe fuel i extra vni nat_ip pmin start range proto src sport chosen w
      = Some (port, w') ∧ same_frame w w' ∧ ct_only (w_maps w) (w_maps w').
Proof.
  destruct (nat_probe_run fuel i extra vni nat_ip pmin start range proto src sport chosen w)
    as (port & w' & E & Hf & Hc). exists port, w'. split; [done|split; [done|]].
  destruct Hc as [(j & t & _ & _ & _ & _ & Hm)|(_ & -> & _)]; [|apply ct_only_refl].
  rewrite Hm. apply ct_only_with.
Qed.

Lemma nat_port_of_run `{Kernel} extra k nat_ip pmin range w :
  ∃ port w', nat_port_of extra k nat_ip pmin range w = Some (port, w') ∧ same_frame w w' ∧
    ct_only (w_maps w) (w_maps w').
Proof.
  assert (∃ port w', nat_alloc extra k nat_ip pmin range w = Some (port, w') ∧ same_frame w w' ∧
    ct_only (w_maps w) (w_maps w')) as Ha.
  { unfold nat_alloc. unfold pbind at 1.
    edestruct nat_probe_total as (port & w1 & -> & [H1 H2] & Hm).
    eexists _, _. split; [reflexivity|]. split; [by split|].
    eapply ct_only_trans; [exact Hm|]. apply ct_only_with. }
  unfold nat_port_of, pbind at 1, gets.
  destruct (m_conntrack (w_maps w) !! k) as [v|]; [|done].
  destruct (has_flag _ _); [|done]. eexists _, _. split; [reflexivity|]. split; [done|apply ct_only_refl].
Qed.

(** Tracked ports are 16-bit values, and so are new ones. *)
Definition ct_ports_ok (m : Maps) : Prop :=
  ∀ k e, m_conntrack m !! k = Some e → is_u16 (ce_xlate_port e).

Lemma nat_cand_u16 pmin start range i : is_u16 (nat_cand pmin start range i).
Proof. unfold nat_cand, is_u16. rewrite wrap16_mod. apply Z.mod_pos_bound. lia. Qed.

Lemma nat_port_of_u16 `{Kernel} extra k nat_ip pmin range w port w' :
  ct_ports_ok (w_maps w) → nat_port_of extra k nat_ip pmin range w = Some (port, w') → is_u16 port.
Proof.
  intros Hok. assert (nat_alloc extra k nat_ip pmin range w = Some (port, w') → is_u16 port) as Ha.
  { intros E. unfold nat_alloc in E. apply pbind_inv in E as (c & w1 & E1 & E2).
    set (start := wrap16 _) in E1.
    destruct (nat_probe_run PROBE_LIMIT 0 extra (ck_vni k) nat_ip pmin start range (ck_proto k)
      (ck_src_ip k) (ck_src_port k) (wrap16 (pmin + start)) w) as (p1 & w2 & E3 & _ & Hc).
    rewrite E3 in E1. injection E1 as -> ->.
    unfold pbind, now, ct_insert, update, pret in E2. injection E2 as <- _.
    destruct Hc as [(j & t & _ & -> & _)|(-> & _)]; [apply nat_cand_u16|].
    unfold is_u16. rewrite wrap16_mod. apply Z.mod_pos_bound. lia. }
  unfold nat_port_of, pbind at 1, gets.
  destruct (m_conntrack (w_maps w) !! k) as [v|] eqn:E; [|done].
  destruct (has_flag _ _); [|done]. intros [= <- _]. by apply (Hok k).
Qed.

Lemma nat_snat_egress_run `{Kernel} off vni ext w :
  nats_ok (w_maps w) →
  ∃ b w', nat_snat_egress off vni ext w = Some (b, w') ∧ length (w_pkt w') = length (w_pkt w) ∧
    w_redirect w' = w_redirect w ∧ ct_only (w_maps w) (w_maps w').
Proof.
  intros Hok. assert (∀ b : bool, ∃ b' w', pret b w = Some (b', w') ∧
    length (w_pkt w') = length (w_pkt w) ∧ w_redirect w' = w_redirect w ∧
    ct_only (w_maps w) (w_maps w')) as Hret.
  { intros b. exists b, w. split; [done|split; [done|split; [done|apply ct_only_refl]]]. }
  unfold nat_snat_egress. destruct (negb ext); [apply Hret|].
  unfold pbind at 1, get_pkt. destruct (short (w_pkt w) _) eqn:El; [apply Hret|].
  apply short_false in El. unfold pbind at 1, access.
  rewrite rdn_slice by lia. unfold pbind at 1. rewrite rdn_slice by lia.
  unfold pbind at 1, gets. destruct (m_nat (w_maps w) !! _) as [nat|] eqn:En; [|apply Hret].
  destruct (_ =? 0); [apply Hret|]. unfold pbind at 1.
  destruct (l4_ports_total (w_pkt w) off) as [r ->].
  destruct r as [[[proto sport] dport]|]; [|apply Hret].
  unfold pbind at 1.
  edestruct nat_port_of_run as (port & w1 & -> & [Hp Hr] & Hm).
  unfold pbind, rewrite_pkt.
  destruct (nat_write_total (w_pkt w1) off (slice (w_pkt w) (off + 12) 4) (nv_nat_ipv4 nat)
    proto sport port) as (p' & -> & Hl); [by rewrite Hp|apply (Hok _ _ En)|].
  eexists _, _. split; [reflexivity|]. cbn. split; [by rewrite Hl, Hp|]. split; [done|exact Hm].
Qed.

(** ** Neighbor NAT *)

(** What a match is. *)
Definition neighbor_matches (vni : Z) (dst : list Z) (dport : Z) (e : NeighborNatEntry) : bool :=
  negb (ne_enabled e =? 0) && (ne_vni e =? vni) && bool_decide (ne_nat_ip e = dst)
  && (ne_port_min e <=? dport) && (dport <? ne_port_max e).

(** The slots agree with an ordered list of entries. *)
Definition neighbors_synced (m : Maps) (es : list NeighborNatEntry) : Prop :=
  m_neighbor_nat_count m = Some (Z.of_nat (length es)) ∧ (length es <= NB_MAX_ENTRIES)%nat ∧
  ∀ i e, es !! i = Some e → m_neighbor_nat m !! Z.of_nat i = Some e.

Lemma neighbor_scan_find fuel (i : nat) slots vni dst dport es :
  (∀ j e, es !! j = Some e → slots !! Z.of_nat (i + j) = Some e) → (length es <= fuel)%nat →
  neighbor_scan fuel (Z.of_nat i) (Z.of_nat (i + length es)) slots vni dst dport
  = ne_underlay <$> List.find (neighbor_matches vni dst dport) es.
Proof.
  revert i es. induction fuel as [|fuel IH]; intros i es Hs Hl.
  - by destruct es; [|simpl in Hl; lia].
  - cbn [neighbor_scan]. destruct es as [|e es].
    + rewrite (proj2 (Z.leb_le _ _)); [done|]. simpl. lia.
    + rewrite (proj2 (Z.leb_gt _ _)) by (simpl; lia).
      pose proof (Hs 0%nat e eq_refl) as H0. rewrite Nat.add_0_r in H0. rewrite H0.
      cbn [List.find]. fold (neighbor_matches vni dst dport e).
      destruct (neighbor_matches vni dst dport e); [done|].
      specialize (IH (S i) es). rewrite Nat2Z.inj_succ, <- Z.add_1_r in IH.
      replace (i + length (e :: es))%nat with (S i + length es)%nat by (simpl; lia).
      apply IH; [|simpl in Hl; lia]. intros j e' Hj. rewrite <- (Hs (S j) e' Hj). f_equal. lia.
Qed.

(** Ports of a NAT address are owned by at most one entry. *)
Definition neighbors_disjoint (es : list NeighborNatEntry) : Prop :=
  ∀ i j e1 e2, es !! i = Some e1 → es !! j = Some e2 → i ≠ j → ne_nat_ip e1 = ne_nat_ip e2 →
    ne_port_max e1 <= ne_port_min e2 ∨ ne_port_max e2 <= ne_port_min e1.

(** Return traffic of a distributed NAT reaches its owner: when the
    slots mirror a list of entries whose port ranges do not overlap per NAT
    address, the lookup answers the underlay of an entry exactly when that
    entry is enabled and owns the VNI, address and port. *)
Theorem neighbor_nat_lookup_owner (m : Maps) (es : list NeighborNatEntry) (vni : Z)
    (dst : list Z) (dport : Z) :
  neighbors_synced m es → neighbors_disjoint es →
  (∀ e, e ∈ es → neighbor_matches vni dst dport e = true →
     neighbor_nat_lookup m vni dst dport = Some (ne_underlay e)) ∧
  (∀ u, neighbor_nat_lookup m vni dst dport = Some u →
     ∃ e, e ∈ es ∧ neighbor_matches vni dst dport e = true ∧ ne_underlay e = u).
Proof.
  intros (Hc & Hl & Hs) Hd. unfold neighbor_nat_lookup. rewrite Hc.
  pose proof (neighbor_scan_find NB_MAX_ENTRIES 0 (m_neighbor_nat m) vni dst dport es Hs Hl) as E.
  change (Z.of_nat 0) with 0 in E. simpl (0 + length es)%nat in E. rewrite E. split.
  - intros e Hin Hm. destruct (List.find _ es) as [e'|] eqn:Ef.
    + apply List.find_some in Ef as [Hin' Hm']. apply list_elem_of_In in Hin'.
      apply list_elem_of_lookup in Hin as [i Hi], Hin' as [j Hj].
      destruct (decide (i = j)) as [->|Hne]; [by rewrite Hi in Hj; injection Hj as ->|].
      exfalso. unfold neighbor_matches in Hm, Hm'.
      rewrite !andb_true_iff, bool_decide_eq_true in Hm, Hm'.
      destruct Hm as [[[[_ _] H1] H2] H3], Hm' as [[[[_ _] H1'] H2'] H3']. zbool.
      destruct (Hd i j e e' Hi Hj Hne); [congruence|lia|lia].
    + eapply List.find_none in Ef; [|by apply list_elem_of_In]. by rewrite Hm in Ef.
  - intros u Hu. destruct (List.find _ es) as [e'|] eqn:Ef; [|done].
    injection Hu as <-. apply List.find_some in Ef as [Hin' Hm']. exists e'.
    split; [by apply list_elem_of_In|done].
Qed.

Definition demo_neighbors : list NeighborNatEntry :=
  [mkNeighborNatEntry (replicate 16 1) [203; 0; 113; 1] 100 1024 2048 1;
   mkNeighborNatEntry (replicate 16 2) [203; 0; 113; 1] 100 2048 4096 1].
Definition demo_neighbor_maps : Maps :=
  let e := empty_maps in
  mkMaps (m_interfaces e) (m_port_meta e) (m_underlay e) (m_routes e) (m_routes6 e) (m_local e)
    (m_vips e) (m_lb e) (m_maglev e) (m_conntrack e) (m_nat e) (m_nat_ips e) ∅ ∅ (Some 1)
    (list_to_map [(0, mkNeighborNatEntry (replicate 16 1) [203; 0; 113; 1] 100 1024 2048 1);
      (1, mkNeighborNatEntry (replicate 16 2) [203; 0; 113; 1] 100 2048 4096 1)])
    (Some 2) ∅ None ∅.

Lemma neighbor_nat_lookup_owner_witness :
  (∀ e, e ∈ demo_neighbors → neighbor_matches 100 [203; 0; 113; 1] 3000 e = true →
     neighbor_nat_lookup demo_neighbor_maps 100 [203; 0; 113; 1] 3000 = Some (ne_underlay e)) ∧
  (∀ u, neighbor_nat_lookup demo_neighbor_maps 100 [203; 0; 113; 1] 3000 = Some u →
     ∃ e, e ∈ demo_neighbors ∧ neighbor_matches 100 [203; 0; 113; 1] 3000 e = true
          ∧ ne_underlay e = u).
Proof.
  apply (neighbor_nat_lookup_owner demo_neighbor_maps demo_neighbors 100 [203; 0; 113; 1] 3000).
  - split; [reflexivity|]. split; [vm_compute; lia|].
    intros [|[|i]] e H; [injection H as <-; reflexivity..|discriminate H].
  - intros [|[|i]] [|[|j]] e1 e2 H1 H2 Hne _;
      try (injection H1 as <-; injection H2 as <-; cbn; lia || congruence);
      discriminate H1 || discriminate H2 || congruence.
Defined.
