(* ===== verification/Maglev.v ===== *)
(** * Maglev

    The Maglev lookup-table builder (xdp-dp/src/maglev.rs): the FNV-1a seeds,
    the permutation walk of each backend, the round-robin fill, and that it
    terminates with a complete and even table. *)
From Stdlib Require Import Znumtheory.
From S2P Require Import Prelude Bytes.

(** ** Definitions *)

Definition TABLE_SIZE : nat := Z.to_nat 1021.
Definition U32_MAX : Z := 2 ^ 32 - 1.

(** [fnv1a] in [u64]. *)
Definition fnv1a (bytes : list Z) (seed : Z) : Z :=
  fold_left (λ h b, wrap64 (Z.lxor h b * 0x100000001b3)) bytes (Z.lxor 0xcbf29ce484222325 seed).

(** The permutation parameters of a backend. *)
Definition mg_offset (b : list Z) : Z := fnv1a b 1 mod Z.of_nat TABLE_SIZE.
Definition mg_skip (b : list Z) : Z := fnv1a b 2 mod (Z.of_nat TABLE_SIZE - 1) + 1.
Definition mg_slot (b : list Z) (next : Z) : nat :=
  Z.to_nat ((mg_offset b + next * mg_skip b) mod Z.of_nat TABLE_SIZE).

(** The builder's mutable state. *)
Record mg_state := mkMg { mg_next : list Z; mg_table : list Z; mg_filled : nat }.

(** [while table[c] != u32::MAX]: the first position of the permutation from
    [next] whose slot is free; [None] when out of fuel. *)
Fixpoint mg_seek (fuel : nat) (b : list Z) (table : list Z) (next : Z) : option Z :=
  match fuel with
  | O => None
  | S f =>
      match table !! mg_slot b next with
      | Some x => if x =? U32_MAX then Some next else mg_seek f b table (next + 1)
      | None => None
      end
  end.

(** The body of the [for] loop: backend [i] takes its next free slot. *)
Definition mg_place (backends : list (list Z)) (i : nat) (s : mg_state) : option mg_state :=
  b ← backends !! i;
  next ← mg_next s !! i;
  k ← mg_seek TABLE_SIZE b (mg_table s) next;
  Some (mkMg (<[i := k + 1]> (mg_next s)) (<[mg_slot b k := Z.of_nat i]> (mg_table s))
          (S (mg_filled s))).

(** [for i in 0..n], left by the [break] when the table is full. *)
Fixpoint mg_round (backends : list (list Z)) (idxs : list nat) (s : mg_state) : option mg_state :=
  match idxs with
  | [] => Some s
  | i :: idxs' =>
      s ← mg_place backends i s;
      if (mg_filled s =? TABLE_SIZE)%nat then Some s else mg_round backends idxs' s
  end.

(** [while filled < m]. *)
Fixpoint mg_fill (fuel : nat) (backends : list (list Z)) (s : mg_state) : option mg_state :=
  if (mg_filled s <? TABLE_SIZE)%nat then
    match fuel with
    | O => None
    | S f => s ← mg_round backends (seq 0 (length backends)) s; mg_fill f backends s
    end
  else Some s.

(** [build]; [None] would be running out of fuel ([build_complete]: it does
    not). *)
Definition build (backends : list (list Z)) : option (list Z) :=
  let n := length backends in
  if (n =? 0)%nat then Some [] else
  s ← mg_fill TABLE_SIZE backends (mkMg (replicate n 0) (replicate TABLE_SIZE U32_MAX) 0);
  Some (mg_table s).

(** ** The permutation *)

Lemma prime_1021 : Z.prime 1021.
Proof.
  split; [lia|]. intros n Hn Hd. apply Z.mod0_divide in Hd; try lia.
  assert (forallb (λ d, negb (1021 mod Z.of_nat d =? 0)) (seq 2 1019) = true) as H
    by (vm_compute; reflexivity).
  rewrite forallb_forall in H. specialize (H (Z.to_nat n)).
  rewrite Z2Nat.id in H by lia. rewrite Hd in H. discriminate H.
  apply in_seq. lia.
Qed.

Lemma mg_skip_range b : 1 <= mg_skip b < 1021.
Proof.
  unfold mg_skip. change (Z.of_nat TABLE_SIZE - 1) with 1020.
  pose proof (Z.mod_pos_bound (fnv1a b 2) 1020). lia.
Qed.

Lemma mg_slot_lt b k : (mg_slot b k < TABLE_SIZE)%nat.
Proof.
  unfold mg_slot, TABLE_SIZE. rewrite Z2Nat.id by lia.
  pose proof (Z.mod_pos_bound (mg_offset b + k * mg_skip b) 1021). lia.
Qed.

Lemma mg_slot_inj b k1 k2 : 0 <= k1 - k2 < 1021 → mg_slot b k1 = mg_slot b k2 → k1 = k2.
Proof.
  intros Hk E. unfold mg_slot, TABLE_SIZE in E. rewrite Z2Nat.id in E by lia.
  pose proof (Z.mod_pos_bound (mg_offset b + k1 * mg_skip b) 1021).
  pose proof (Z.mod_pos_bound (mg_offset b + k2 * mg_skip b) 1021).
  apply Z2Nat.inj in E; [|lia..].
  assert ((1021 | (k1 - k2) * mg_skip b)) as Hd.
  { apply Z.mod_divide; [lia|].
    replace ((k1 - k2) * mg_skip b)
      with ((mg_offset b + k1 * mg_skip b) - (mg_offset b + k2 * mg_skip b)) by lia.
    rewrite Zminus_mod, E, Z.sub_diag. done. }
  apply (Z.divide_prime_mul _ _ _ prime_1021) in Hd as [Hd|Hd].
  - destruct (decide (k1 = k2)); [done|]. apply Z.divide_pos_le in Hd; lia.
  - pose proof (mg_skip_range b). apply Z.divide_pos_le in Hd; lia.
Qed.

(** Any 1021 consecutive positions reach every slot. *)
Lemma mg_slot_surj b next c :
  (c < TABLE_SIZE)%nat → ∃ j, (j < TABLE_SIZE)%nat ∧ mg_slot b (next + Z.of_nat j) = c.
Proof.
  intros Hc. set (l := map (λ j, mg_slot b (next + Z.of_nat j)) (seq 0 TABLE_SIZE)).
  assert (List.NoDup l) as Hnd.
  { apply List.NoDup_map_NoDup_ForallPairs; [|apply List.seq_NoDup].
    intros x y Hx Hy E. apply in_seq in Hx, Hy. unfold TABLE_SIZE in Hx, Hy.
    destruct (decide (y <= x)%nat).
    - apply mg_slot_inj in E; lia.
    - symmetry in E. apply mg_slot_inj in E; lia. }
  assert (List.In c l) as Hin.
  { apply (List.NoDup_length_incl (l' := seq 0 TABLE_SIZE) Hnd).
    - unfold l. by rewrite length_map.
    - intros x Hx. apply List.in_map_iff in Hx as (j & <- & _). apply in_seq.
      pose proof (mg_slot_lt b (next + Z.of_nat j)). lia.
    - apply in_seq. lia. }
  apply List.in_map_iff in Hin as (j & E & Hj). apply in_seq in Hj. exists j. split; [lia|done].
Qed.

(** The walk finds a free slot while there is one. *)
Lemma mg_seek_finds fuel b table next :
  length table = TABLE_SIZE →
  (∃ j, (j < fuel)%nat ∧ table !! mg_slot b (next + Z.of_nat j) = Some U32_MAX) →
  ∃ k, mg_seek fuel b table next = Some k ∧ table !! mg_slot b k = Some U32_MAX.
Proof.
  intros Hl. revert next. induction fuel as [|fuel IH]; intros next (j & Hj & E); [lia|].
  cbn [mg_seek]. destruct (lookup_lt_is_Some_2 table (mg_slot b next)) as [x Hx].
  { rewrite Hl. apply mg_slot_lt. }
  rewrite Hx. destruct (x =? U32_MAX) eqn:Ex; zbool; [subst x; eauto|].
  apply IH. destruct j as [|j].
  - rewrite Z.add_0_r in E. congruence.
  - exists j. split; [lia|]. rewrite <- E. do 2 f_equal. lia.
Qed.

(** ** Counting *)

Definition count (x : Z) (l : list Z) : nat := length (filter (λ y, y = x) l).

Lemma count_cons x y l : count x (y :: l) = ((if decide (y = x) then 1 else 0) + count x l)%nat.
Proof. unfold count. rewrite filter_cons. by destruct (decide (y = x)). Qed.

Lemma count_insert x y old l c :
  l !! c = Some old →
  (count x (<[c := y]> l) + (if decide (old = x) then 1 else 0)
   = count x l + (if decide (y = x) then 1 else 0))%nat.
Proof.
  revert c. induction l as [|z l IH]; intros [|c] E; try done.
  - injection E as ->. simpl. rewrite !count_cons. lia.
  - simpl in E |- *. rewrite !count_cons. specialize (IH c E). lia.
Qed.

Lemma count_pos x l : (0 < count x l)%nat → ∃ c, l !! c = Some x.
Proof.
  intros H. unfold count in H. destruct (filter (λ y, y = x) l) as [|y ys] eqn:E; [simpl in H; lia|].
  assert (y ∈ filter (λ y, y = x) l) as Hin by (rewrite E; apply elem_of_cons; auto).
  apply list_elem_of_filter in Hin as [-> Hin]. by apply list_elem_of_lookup in Hin.
Qed.

Lemma count_replicate x n : count x (replicate n x) = n.
Proof. induction n as [|n IH]; [done|]. simpl. rewrite count_cons, IH, decide_True; done. Qed.

Lemma count_replicate_ne x y n : y ≠ x → count x (replicate n y) = 0%nat.
Proof. intros H. induction n as [|n IH]; [done|]. simpl. rewrite count_cons, IH, decide_False; done. Qed.

Lemma elem_of_insert_or (x y : Z) (l : list Z) c : x ∈ <[c := y]> l → x = y ∨ x ∈ l.
Proof.
  intros Hx. apply list_elem_of_lookup in Hx as [d Hd].
  apply list_lookup_insert_Some in Hd as [(-> & -> & _)|[_ Hd]]; [auto|].
  right. by eapply list_elem_of_lookup_2.
Qed.

(** ** The fill *)

Section fill.
Context (backends : list (list Z)).
Context (Hn : (0 < length backends)%nat) (Hu : Z.of_nat (length backends) < U32_MAX).

(** After [r] full rounds and [i] placements of the next one: the first [i]
    backends hold [r + 1] slots, the others [r]. *)
Record mg_inv (r i : nat) (s : mg_state) : Prop := {
  inv_filled : mg_filled s = (r * length backends + i)%nat;
  inv_next : length (mg_next s) = length backends;
  inv_len : length (mg_table s) = TABLE_SIZE;
  inv_free : (count U32_MAX (mg_table s) + mg_filled s)%nat = TABLE_SIZE;
  inv_count : ∀ j, (j < length backends)%nat →
    count (Z.of_nat j) (mg_table s) = (r + if decide (j < i)%nat then 1 else 0)%nat;
  inv_entries : ∀ x, x ∈ mg_table s → x = U32_MAX ∨ 0 <= x < Z.of_nat (length backends) }.

Lemma mg_place_inv r i s :
  mg_inv r i s → (i < length backends)%nat → (mg_filled s < TABLE_SIZE)%nat →
  ∃ s', mg_place backends i s = Some s' ∧ mg_inv r (S i) s'.
Proof.
  intros [If In Il Ie Ic Ix] Hi Hf. unfold mg_place.
  destruct (lookup_lt_is_Some_2 backends i Hi) as [b Hb].
  destruct (lookup_lt_is_Some_2 (mg_next s) i) as [next Hnx]; [by rewrite In|].
  rewrite Hb, Hnx. cbn [mbind option_bind].
  destruct (count_pos U32_MAX (mg_table s)) as [c Hc]; [lia|].
  destruct (mg_slot_surj b next c) as (j & Hj & Ej).
  { rewrite <- Il. by eapply lookup_lt_Some. }
  destruct (mg_seek_finds TABLE_SIZE b (mg_table s) next Il) as (k & Ek & Hk).
  { exists j. rewrite Ej. done. }
  rewrite Ek. cbn [mbind option_bind]. eexists. split; [reflexivity|].
  assert (∀ x, (count x (<[mg_slot b k := Z.of_nat i]> (mg_table s))
    + (if decide (U32_MAX = x) then 1 else 0)
    = count x (mg_table s) + (if decide (Z.of_nat i = x) then 1 else 0))%nat) as Hcnt.
  { intros x. by apply count_insert. }
  split; cbn [mg_filled mg_next mg_table].
  - lia.
  - by rewrite length_insert.
  - by rewrite length_insert.
  - specialize (Hcnt U32_MAX). rewrite decide_True in Hcnt by done.
    rewrite decide_False in Hcnt by lia. lia.
  - intros q Hq. specialize (Hcnt (Z.of_nat q)). rewrite (Ic q Hq) in Hcnt.
    rewrite decide_False in Hcnt by lia.
    destruct (decide (Z.of_nat i = Z.of_nat q)), (decide (q < i)%nat), (decide (q < S i)%nat); lia.
  - intros x Hx. apply elem_of_insert_or in Hx as [->|Hx]; [right; lia|auto].
Qed.

Lemma mg_inv_wrap r s : mg_inv r (length backends) s → mg_inv (S r) 0 s.
Proof.
  intros [If In Il Ie Ic Ix]. split; auto.
  - rewrite If. lia.
  - intros j Hj. rewrite Ic by done. rewrite decide_True, decide_False by lia. lia.
Qed.

(** A round from backend [i] ends full, or completes. *)
Lemma mg_round_inv r m i s :
  mg_inv r i s → (i + m = length backends)%nat → (mg_filled s < TABLE_SIZE)%nat →
  ∃ s', mg_round backends (seq i m) s = Some s' ∧
    ((∃ q, (q <= length backends)%nat ∧ mg_inv r q s' ∧ mg_filled s' = TABLE_SIZE) ∨
     (mg_inv (S r) 0 s' ∧ (mg_filled s' < TABLE_SIZE)%nat)).
Proof.
  revert i s. induction m as [|m IH]; intros i s Hs Hi Hf; cbn [seq mg_round].
  - exists s. split; [done|]. right. split; [|done]. apply mg_inv_wrap.
    by replace (length backends) with i by lia.
  - destruct (mg_place_inv r i s Hs) as (s1 & -> & H1); [lia|done|]. cbn [mbind option_bind].
    destruct (_ =? _)%nat eqn:E.
    + apply Nat.eqb_eq in E. exists s1. split; [done|]. left. exists (S i). split; [lia|done].
    + apply Nat.eqb_neq in E. apply IH; [done|lia|]. pose proof (inv_free _ _ _ H1). lia.
Qed.

(** Every round makes progress, so [TABLE_SIZE] rounds are enough. *)
Lemma mg_fill_inv fuel r s :
  mg_inv r 0 s → (mg_filled s < TABLE_SIZE)%nat → (TABLE_SIZE <= fuel + mg_filled s)%nat →
  ∃ s' r' q, mg_fill fuel backends s = Some s' ∧ (q <= length backends)%nat ∧
    mg_inv r' q s' ∧ mg_filled s' = TABLE_SIZE.
Proof.
  revert r s. induction fuel as [|fuel IH]; intros r s Hs Hlt Hf; [lia|].
  cbn [mg_fill]. rewrite (proj2 (Nat.ltb_lt _ _) Hlt).
  destruct (mg_round_inv r (length backends) 0 s Hs) as (s1 & -> & Hc); [lia|done|].
  cbn [mbind option_bind]. destruct Hc as [(q & Hq & H1 & Hfull)|[H1 Hlt1]].
  - exists s1, r, q. destruct fuel; cbn [mg_fill]; rewrite Hfull, Nat.ltb_irrefl; auto.
  - apply (IH (S r)); [done|done|]. rewrite (inv_filled _ _ _ H1).
    rewrite (inv_filled _ _ _ Hs) in Hf. lia.
Qed.
End fill.

Lemma build_spec (backends : list (list Z)) :
  (0 < length backends)%nat → Z.of_nat (length backends) < U32_MAX →
  ∃ table, build backends = Some table ∧ length table = TABLE_SIZE ∧
    (∀ x, x ∈ table → 0 <= x < Z.of_nat (length backends)) ∧
    ∃ r, ∀ j, (j < length backends)%nat →
      (r <= count (Z.of_nat j) table <= r + 1)%nat.
Proof.
  intros Hn Hu. unfold build. rewrite (proj2 (Nat.eqb_neq _ _)) by lia.
  destruct (mg_fill_inv backends Hn Hu TABLE_SIZE 0
    (mkMg (replicate (length backends) 0) (replicate TABLE_SIZE U32_MAX) 0))
    as (s & r & q & -> & Hq & Hs & Hf).
  - split; cbn [mg_filled mg_next mg_table].
    + lia.
    + apply length_replicate.
    + apply length_replicate.
    + rewrite count_replicate. lia.
    + intros j Hj. rewrite count_replicate_ne by lia. rewrite decide_False by lia. lia.
    + intros x Hx. apply elem_of_replicate in Hx as [-> _]. auto.
  - vm_compute. lia.
  - lia.
  - cbn [mbind option_bind]. eexists. split; [reflexivity|].
    destruct Hs as [If In Il Ie Ic Ix]. split; [done|split].
    + intros x Hx. destruct (Ix x Hx) as [->|?]; [|done]. exfalso.
      assert (count U32_MAX (mg_table s) = 0)%nat as H0 by lia.
      apply list_elem_of_lookup in Hx as [c Hc].
      pose proof (count_insert U32_MAX 0 U32_MAX (mg_table s) c Hc) as Hi.
      rewrite decide_True in Hi by done. destruct (decide (0 = U32_MAX)); [done|]. lia.
    + exists r. intros j Hj. rewrite Ic by done. destruct (decide _); lia.
Qed.

(** *** Even shares *)

Section shares.
Local Open Scope nat_scope.

Lemma sum_bounds {A} (f : A → nat) lo hi l :
  (∀ x, x ∈ l → lo ≤ f x ≤ hi) → length l * lo ≤ sum_list_with f l ≤ length l * hi.
Proof.
  induction l as [|x l IH]; intros H; simpl; [lia|].
  pose proof (H x ltac:(left)). specialize (IH ltac:(intros y Hy; apply H; by right)). lia.
Qed.
(** Values one apart differ from their mean by less than one. *)
Lemma even_share {A} (f : A → nat) r l x :
  (∀ y, y ∈ l → r ≤ f y ≤ r + 1) → x ∈ l →
  sum_list_with f l / length l ≤ f x ≤ sum_list_with f l / length l + 1.
Proof.
  intros H Hx. pose proof (H x Hx) as Hfx. apply list_elem_of_split in Hx as (l1 & l2 & ->).
  rewrite sum_list_with_app, length_app. simpl.
  destruct (sum_bounds f r (r + 1) l1) as [A1 A2]; [intros y Hy; apply H, elem_of_app; by left|].
  destruct (sum_bounds f r (r + 1) l2) as [B1 B2];
    [intros y Hy; apply H, elem_of_app; right; by right|].
  set (n := length l1 + S (length l2)). set (s := sum_list_with f l1 + _).
  assert (n * r ≤ s ≤ n * (r + 1)) as [S1 S2] by (unfold n, s; nia).
  assert (r ≤ s / n) by (apply Nat.div_le_lower_bound; unfold n in *; lia).
  assert (s / n ≤ r + 1) by (apply Nat.Div0.div_le_upper_bound; unfold n in *; lia).
  destruct (decide (f x = r)) as [E|E]; [|lia].
  assert (s / n < r + 1); [|lia]. apply Nat.Div0.div_lt_upper_bound. unfold n, s in *. nia.
Qed.
Lemma count_sum n l :
  (∀ x, x ∈ l → (0 <= x < Z.of_nat n)%Z) →
  sum_list_with (λ j, count (Z.of_nat j) l) (seq 0 n) = length l.
Proof.
  assert (∀ x a m, sum_list_with (λ j, if decide (x = Z.of_nat j) then 1 else 0) (seq a m)
    = if decide (Z.of_nat a <= x < Z.of_nat (a + m))%Z then 1 else 0) as Hone.
  { intros x a m. revert a. induction m as [|m IH]; intros a; simpl.
    - by rewrite decide_False by lia.
    - rewrite IH. repeat case_decide; lia. }
  assert (∀ f g ks, sum_list_with (λ j : nat, f j + g j) ks
    = sum_list_with f ks + sum_list_with g ks) as Hadd.
  { intros f g ks. induction ks as [|k ks IH]; simpl; [done|]. lia. }
  induction l as [|x l IH]; intros H.
  - assert (∀ ks, sum_list_with (λ j, count (Z.of_nat j) []) ks = 0) as Hz;
      [|apply Hz]. by induction ks.
  - simpl. rewrite <- IH by (intros y Hy; apply H; by right).
    pose proof (H x ltac:(left)) as Hx. specialize (Hone x 0 n).
    rewrite decide_True in Hone by lia.
    rewrite <- Nat.add_1_l, <- Hone at 1. rewrite <- Hadd. generalize (seq 0 n).
    induction l0 as [|k ks IHk]; simpl; [done|]. rewrite count_cons. by rewrite IHk.
Qed.
(** Every backend holds an even share of the slots. *)
Lemma build_even (backends : list (list Z)) table :
  0 < length backends → (Z.of_nat (length backends) < U32_MAX)%Z → build backends = Some table →
  length table = TABLE_SIZE ∧ (∀ x, x ∈ table → (0 <= x < Z.of_nat (length backends))%Z) ∧
  ∀ j, j < length backends →
    TABLE_SIZE / length backends ≤ count (Z.of_nat j) table ≤ TABLE_SIZE / length backends + 1.
Proof.
  intros Hn Hu E. destruct (build_spec backends Hn Hu) as (t & Et & Hl & Hr & r & Hc).
  rewrite E in Et. injection Et as <-. split; [done|]. split; [done|]. intros j Hj.
  pose proof (even_share (λ j, count (Z.of_nat j) table) r (seq 0 (length backends)) j) as He.
  rewrite count_sum, length_seq, Hl in He by done. apply He.
  - intros y Hy%elem_of_seq. apply Hc. lia.
  - apply elem_of_seq. lia.
Qed.
End shares.

(** ** Property *)

(** C27.  The builder terminates for every non-empty backend list, fills
    every slot with the index of a backend, and is even: the numbers of slots
    of any two backends differ by at most one. *)
Theorem build_complete (backends : list (list Z)) :
  (0 < length backends)%nat → Z.of_nat (length backends) < U32_MAX →
  ∃ table, build backends = Some table ∧ length table = TABLE_SIZE ∧
    (∀ x, x ∈ table → 0 <= x < Z.of_nat (length backends)) ∧
    ∃ r, ∀ j, (j < length backends)%nat →
      (r <= count (Z.of_nat j) table <= r + 1)%nat.
Proof. apply build_spec. Qed.

Lemma build_complete_witness :
  ∃ table, build [replicate 16 1; replicate 16 2; replicate 16 3] = Some table ∧
    length table = TABLE_SIZE ∧
    (∀ x, x ∈ table → 0 <= x < Z.of_nat 3) ∧
    ∃ r, ∀ j, (j < 3)%nat → (r <= count (Z.of_nat j) table <= r + 1)%nat.
Proof.
  apply (build_complete [replicate 16 1; replicate 16 2; replicate 16 3]).
  - simpl. lia.
  - reflexivity.
Defined.
