(* ===== verification/Lb.v ===== *)
(** * Lb

    Load-balancer backend selection (xdp-dp-ebpf/src/lb.rs): the service is
    looked up by the address and port of the packet, the backend by the
    5-tuple hash in the service's Maglev table. *)
From S2P Require Import Prelude Bytes Types Kernel Parse.

(** ** Definitions *)

(** The common tail of the three selectors: the LB entry, then the Maglev slot
    of the hash; [None] when either is absent or the table is empty. *)
Definition lb_pick (m : Maps) (key : LbKey) (hash : Z) : option (list Z) :=
  lb ← m_lb m !! key;
  if lv_size lb =? 0 then None else
  m_maglev m !! mkMaglevKey (lv_table_id lb) (hash mod lv_size lb).

(** [lb_select_forward]: the inner IPv4 packet at [ip_off]. *)
Definition lb_select_forward (m : Maps) (p : list Z) (ip_off : nat) (vni : Z)
    : mem (option (list Z)) :=
  if short p (ip_off + 20) then Some None else
  dst ← rdn p (ip_off + 16) 4;
  src ← rdn p (ip_off + 12) 4;
  ports ← l4_ports p ip_off;
  match ports with
  | None => Some None
  | Some (proto, sport, dport) =>
      let lookup_port := if proto =? 1 then 0 else dport in
      Some (lb_pick m (mkLbKey vni dst lookup_port proto) (hash5 src dst sport dport proto))
  end.

(** [lb_select_forward_icmp_error]: an ICMP error at [ip_off] about a packet
    a service sent. *)
Definition lb_select_forward_icmp_error (m : Maps) (p : list Z) (ip_off : nat) (vni : Z)
    : mem (option (list Z)) :=
  if short p (ip_off + 20) then Some None else
  b ← rd8 p ip_off;
  if negb (Z.land b 0x0f =? 5) then Some None else
  proto ← rd8 p (ip_off + 9);
  if negb (proto =? IPPROTO_ICMP) then Some None else
  let icmp_off := (ip_off + 20)%nat in
  if short p (icmp_off + 8) then Some None else
  icmp_type ← rd8 p icmp_off;
  if negb (icmp_type =? 3) && negb (icmp_type =? 11) && negb (icmp_type =? 12) then Some None else
  let inner_ip_off := (icmp_off + 8)%nat in
  if short p (inner_ip_off + 20) then Some None else
  b ← rd8 p inner_ip_off;
  if negb (Z.land b 0x0f =? 5) then Some None else
  inner_proto ← rd8 p (inner_ip_off + 9);
  if negb (inner_proto =? IPPROTO_TCP) && negb (inner_proto =? IPPROTO_UDP) then Some None else
  inner_src ← rdn p (inner_ip_off + 12) 4;
  inner_dst ← rdn p (inner_ip_off + 16) 4;
  let inner_l4_off := (inner_ip_off + 20)%nat in
  if short p (inner_l4_off + 4) then Some None else
  inner_sport ← rd16 p inner_l4_off;
  inner_dport ← rd16 p (inner_l4_off + 2);
  Some (lb_pick m (mkLbKey vni inner_src inner_sport inner_proto)
          (hash5 inner_dst inner_src inner_dport inner_sport inner_proto)).

(** [lb_select_forward_v6]: the inner IPv6 packet at [ip_off]; the key uses
    the last four bytes of the addresses. *)
Definition lb_select_forward_v6 (m : Maps) (p : list Z) (ip_off : nat) (vni : Z)
    : mem (option (list Z)) :=
  if short p (ip_off + 44) then Some None else
  inner_nexthdr ← rd8 p (ip_off + 6);
  if negb (inner_nexthdr =? IPPROTO_TCP) && negb (inner_nexthdr =? IPPROTO_UDP)
  then Some None else
  inner_dst6 ← rdn p (ip_off + 24) 16;
  inner_src6 ← rdn p (ip_off + 8) 16;
  let dst4 := drop 12 inner_dst6 in
  let src4 := drop 12 inner_src6 in
  let l4_off := (ip_off + 40)%nat in
  if short p (l4_off + 4) then Some None else
  sport ← rd16 p l4_off;
  dport ← rd16 p (l4_off + 2);
  Some (lb_pick m (mkLbKey vni dst4 dport inner_nexthdr)
          (hash5 src4 dst4 sport dport inner_nexthdr)).

(** ** Specification *)

(** The 5-tuple of a flow. *)
Record flow := mkFlow { fl_src : list Z; fl_dst : list Z; fl_sport : Z; fl_dport : Z; fl_proto : Z }.

(** The backend of a TCP or UDP flow to a service. *)
Definition lb_backend (m : Maps) (vni : Z) (f : flow) : option (list Z) :=
  lb_pick m (mkLbKey vni (fl_dst f) (fl_dport f) (fl_proto f))
    (hash5 (fl_src f) (fl_dst f) (fl_sport f) (fl_dport f) (fl_proto f)).

(** The TCP or UDP packet of flow [f] at [off]. *)
Definition carries (p : list Z) (off : nat) (f : flow) : Prop :=
  let l4 := (off + ihl_bytes (at_ p off))%nat in
  (off + 20 <= length p)%nat ∧ (l4 + 4 <= length p)%nat ∧
  (fl_proto f = IPPROTO_TCP ∨ fl_proto f = IPPROTO_UDP) ∧
  at_ p (off + 9) = fl_proto f ∧ slice p (off + 12) 4 = fl_src f ∧
  slice p (off + 16) 4 = fl_dst f ∧
  be16 (at_ p l4) (at_ p (l4 + 1)) = fl_sport f ∧
  be16 (at_ p (l4 + 2)) (at_ p (l4 + 2 + 1)) = fl_dport f.

Definition reply_of (f : flow) : flow :=
  mkFlow (fl_dst f) (fl_src f) (fl_dport f) (fl_sport f) (fl_proto f).

(** The option-less ICMP error (destination unreachable, time exceeded or
    parameter problem) at [off] that quotes an option-less packet of flow [f]. *)
Definition icmp_error_about (p : list Z) (off : nat) (f : flow) : Prop :=
  Z.land (at_ p off) 0x0f = 5 ∧ at_ p (off + 9) = IPPROTO_ICMP ∧
  (at_ p (off + 20) = 3 ∨ at_ p (off + 20) = 11 ∨ at_ p (off + 20) = 12) ∧
  Z.land (at_ p (off + 28)) 0x0f = 5 ∧ carries p (off + 28) f.

(** The maps hold the service [key] over the Maglev table of [backends]. *)
Definition lb_synced (m : Maps) (key : LbKey) (backends : list (list Z)) : Prop :=
  ∃ lb, m_lb m !! key = Some lb ∧ 0 < lv_size lb ∧
    ∀ slot, 0 <= slot < lv_size lb →
      ∃ b, m_maglev m !! mkMaglevKey (lv_table_id lb) slot = Some b ∧ b ∈ backends.

(** ** Lemmas *)

Lemma lb_select_forward_total m p off vni : ∃ r, lb_select_forward m p off vni = Some r.
Proof.
  unfold lb_select_forward. mem_go; [eauto|].
  destruct (l4_ports_total p off) as [r ->]. cbn [mbind option_bind].
  destruct r as [[[proto sp] dp]|]; eauto.
Qed.

Lemma lb_select_forward_icmp_error_total m p off vni :
  ∃ r, lb_select_forward_icmp_error m p off vni = Some r.
Proof. unfold lb_select_forward_icmp_error. mem_go; eauto. Qed.

Lemma lb_select_forward_v6_total m p off vni : ∃ r, lb_select_forward_v6 m p off vni = Some r.
Proof. unfold lb_select_forward_v6. mem_go; eauto. Qed.

Lemma carries_ports p off f :
  carries p off f → l4_ports p off = Some (Some (fl_proto f, fl_sport f, fl_dport f)).
Proof.
  intros (Hl & Hl4 & Hp & Ep & _ & _ & Es & Ed). unfold l4_ports.
  rewrite short_false_eq, rd8_at, rd8_at by lia. cbn [mbind option_bind]. rewrite Ep.
  replace ((_ =? _) || (_ =? _)) with true by (destruct Hp as [-> | ->]; done).
  rewrite short_false_eq, !rd16_at by lia. cbn [mbind option_bind]. by rewrite Es, Ed.
Qed.

(** A packet of a flow selects the flow's backend. *)
Lemma lb_select_forward_flow m p off vni f :
  carries p off f → lb_select_forward m p off vni = Some (lb_backend m vni f).
Proof.
  intros H. pose proof (carries_ports _ _ _ H) as Hports.
  destruct H as (Hl & _ & Hp & _ & Es & Ed & _ & _).
  unfold lb_select_forward. rewrite short_false_eq, !rdn_slice by lia. cbn [mbind option_bind].
  rewrite Hports, Es, Ed. cbn [mbind option_bind]. unfold lb_backend.
  by destruct Hp as [-> | ->].
Qed.

Lemma lb_pick_synced m key backends h :
  lb_synced m key backends → ∃ b, lb_pick m key h = Some b ∧ b ∈ backends.
Proof.
  intros (lb & E & Hs & Hslots). unfold lb_pick. rewrite E. cbn [mbind option_bind].
  destruct (lv_size lb =? 0) eqn:E0; zbool; [lia|].
  apply Hslots. by apply Z.mod_pos_bound.
Qed.

(** ** Properties *)

(** C10.  A packet to a load-balanced service is always forwarded to one of
    the service's backends, the same one for every packet of a flow: the
    choice depends on the 5-tuple only. *)
Theorem lb_select_forward_backend (m : Maps) (vni : Z) (backends : list (list Z)) (f : flow) :
  lb_synced m (mkLbKey vni (fl_dst f) (fl_dport f) (fl_proto f)) backends →
  ∃ b, b ∈ backends ∧
    ∀ p off, carries p off f → lb_select_forward m p off vni = Some (Some b).
Proof.
  intros Hs. destruct (lb_pick_synced m _ _
    (hash5 (fl_src f) (fl_dst f) (fl_sport f) (fl_dport f) (fl_proto f)) Hs) as (b & Eb & Hb).
  exists b. split; [done|]. intros p off Hc.
  rewrite (lb_select_forward_flow _ _ _ _ _ Hc). by unfold lb_backend; rewrite Eb.
Qed.

(** C13.  An ICMP error about a reply of the service reaches the backend that
    serves the flow: the error quotes the reply, and selecting with its
    swapped 5-tuple gives the backend the flow's own packets get. *)
Theorem icmp_error_same_backend (m : Maps) (vni : Z) (f : flow) (p p' : list Z) (off off' : nat) :
  carries p off f → icmp_error_about p' off' (reply_of f) →
  lb_select_forward_icmp_error m p' off' vni = lb_select_forward m p off vni.
Proof.
  intros Hc (H1 & H2 & H3 & H4 & Hq). rewrite (lb_select_forward_flow _ _ _ _ _ Hc).
  destruct Hq as (Hl & Hl4 & Hp & Ep & Es & Ed & Esp & Edp).
  rewrite (ihl_bytes_5 _ H4) in *.
  unfold lb_select_forward_icmp_error.
  replace (off' + 20 + 8)%nat with (off' + 28)%nat by lia.
  rewrite !short_false_eq, !rd8_at, !rdn_slice, !rd16_at by lia. cbn [mbind option_bind].
  rewrite H1, H2, H4, Ep, Es, Ed, Esp, Edp, !Z.eqb_refl. cbn [negb].
  replace (negb _ && _ && _) with false by (destruct H3 as [-> | [-> | ->]]; done).
  replace (negb _ && _) with false by (destruct Hp as [-> | ->]; done).
  done.
Qed.

(** A service 10.0.0.9:80/TCP of VNI 100 over a table of three slots. *)
Definition demo_lb_maps : Maps :=
  with_lb (λ _, {[ mkLbKey 100 [10; 0; 0; 9] 80 6 := mkLbValue 3 3 ]})
    (with_maglev (λ _, {[ mkMaglevKey 3 0 := replicate 16 1; mkMaglevKey 3 1 := replicate 16 2;
                          mkMaglevKey 3 2 := replicate 16 1 ]}) empty_maps).
Definition demo_flow : flow := mkFlow [1; 2; 3; 4] [10; 0; 0; 9] 4000 80 6.
(** An IPv4/TCP packet with the addresses and ports of a flow. *)
Definition demo_tcp (f : flow) : list Z :=
  [0x45; 0; 0; 40; 0; 0; 0; 0; 64; fl_proto f; 0; 0] ++ fl_src f ++ fl_dst f
  ++ to_be16 (fl_sport f) ++ to_be16 (fl_dport f) ++ replicate 16 0.
Definition demo_icmp_error (f : flow) : list Z :=
  [0x45; 0; 0; 56; 0; 0; 0; 0; 64; 1; 0; 0; 9; 9; 9; 9; 10; 0; 0; 9]
  ++ [3; 1; 0; 0; 0; 0; 0; 0] ++ demo_tcp f.

Lemma lb_select_forward_backend_witness :
  ∃ b, b ∈ [replicate 16 1; replicate 16 2] ∧
    ∀ p off, carries p off demo_flow → lb_select_forward demo_lb_maps p off 100 = Some (Some b).
Proof.
  apply (lb_select_forward_backend demo_lb_maps 100 [replicate 16 1; replicate 16 2] demo_flow).
  exists (mkLbValue 3 3). split; [vm_compute; reflexivity|]. split; [reflexivity|].
  cbn [lv_size lv_table_id]. intros slot Hs.
  assert (slot = 0 ∨ slot = 1 ∨ slot = 2) as [-> | [-> | ->]] by lia;
    eexists; (split; [vm_compute; reflexivity|]); apply elem_of_cons; auto.
  right. apply elem_of_cons. auto.
Defined.

Lemma icmp_error_same_backend_witness :
  lb_select_forward_icmp_error demo_lb_maps (demo_icmp_error (reply_of demo_flow)) 0 100
  = lb_select_forward demo_lb_maps (demo_tcp demo_flow) 0 100.
Proof.
  apply (icmp_error_same_backend demo_lb_maps 100 demo_flow).
  - repeat split; vm_compute; try lia; auto.
  - repeat split; vm_compute; try lia; auto.
Defined.
