(* ===== verification/Encap.v ===== *)
(** * Encap

    IPv6 encapsulation towards the underlay (xdp-dp-ebpf/src/encap.rs), and
    the decapsulation the ingress programs share (ingress.rs, v6.rs): strip
    the outer headers and write the Ethernet header of the guest. *)
From S2P Require Import Prelude Bytes Types Kernel Parse.

(** ** Definitions *)

Definition XDP_ABORTED : Z := 0.
Definition XDP_DROP : Z := 1.
Definition XDP_PASS : Z := 2.
Definition GW_MAC : list Z := [0x02; 0; 0; 0; 0; 0x01].

Record EncapParams := mkEncapParams
  { ep_gateway_mac : list Z; ep_uplink_mac : list Z; ep_uplink_ifindex : Z;
    ep_src_underlay : list Z; ep_nexthop_ipv6 : list Z; ep_inner_len : Z; ep_inner_proto : Z }.

(** [write_outer_v6]: [None] is [false], the frame is too short. *)
Definition write_outer_v6 (p : list Z) (e : EncapParams) : mem (option (list Z)) :=
  if short p (ETH_LEN + IPV6_LEN) then Some None else
  p ← wrn p 0 (ep_gateway_mac e);
  p ← wrn p 6 (ep_uplink_mac e);
  p ← wr16 p 12 ETH_P_IPV6;
  p ← wr8 p ETH_LEN 0x60;
  p ← wr8 p (ETH_LEN + 1) 0;
  p ← wr8 p (ETH_LEN + 2) 0;
  p ← wr8 p (ETH_LEN + 3) 0;
  p ← wr16 p (ETH_LEN + 4) (ep_inner_len e);
  p ← wr8 p (ETH_LEN + 6) (ep_inner_proto e);
  p ← wr8 p (ETH_LEN + 7) 64;
  p ← wrn p (ETH_LEN + 8) (ep_src_underlay e);
  p ← wrn p (ETH_LEN + 24) (ep_nexthop_ipv6 e);
  Some (Some p).

(** An in-place rewrite that may decline: [false] leaves the frame as it is. *)
Definition rewrite_opt (m : list Z → mem (option (list Z))) : prog world bool :=
  λ w, match m (w_pkt w) with
       | Some (Some p) => Some (true, mkWorld p (w_maps w) (w_tick w) (w_redirect w))
       | Some None => Some (false, w)
       | None => None
       end.

Section programs.
Context `{Kernel}.
Local Open Scope dp_scope.

(** The [Encap] arm of the egress verdict ([try_guest_tx], [v6_guest_tx]):
    make room, write the outer headers, redirect out of the uplink. *)
Definition encap_out (e : EncapParams) : prog world (result Z) :=
  let* ok := xdp_adjust_head (- Z.of_nat IPV6_LEN) in
  if negb ok then pret Err else
  let* ok := rewrite_opt (λ p, write_outer_v6 p e) in
  if ok then
    let* act := bpf_redirect (ep_uplink_ifindex e) in
    pret (Ok act)
  else pret Err.

(** [encap_and_redirect]. *)
Definition encap_and_redirect (local : Local) (src_underlay : list Z) (route : RouteValue)
    (inner_len inner_proto : Z) : prog world (result Z) :=
  encap_out (mkEncapParams (lo_gateway_mac local) (lo_uplink_mac local) (lo_uplink_ifindex local)
    src_underlay (rv_nexthop_ipv6 route) inner_len inner_proto).

(** [reforward]: the encapsulated packet goes to another backend as it is. *)
Definition reforward_write (local : Local) (lb_underlay backend p : list Z) : mem (list Z) :=
  p ← wrn p 0 (lo_gateway_mac local);
  p ← wrn p 6 (lo_uplink_mac local);
  p ← wrn p (ETH_LEN + 8) lb_underlay;
  wrn p (ETH_LEN + 24) backend.
Definition reforward (local : Local) (lb_underlay backend : list Z) : prog world Z :=
  let* p := get_pkt in
  if short p (ETH_LEN + IPV6_LEN) then pret XDP_DROP else
  rewrite_pkt (reforward_write local lb_underlay backend) ;;;
  bpf_redirect (lo_uplink_ifindex local).

(** The Ethernet header a guest receives. *)
Definition write_guest_eth (guest_mac : list Z) (ethertype : Z) (p : list Z) : mem (list Z) :=
  p ← wrn p 0 guest_mac;
  p ← wrn p 6 GW_MAC;
  wr16 p 12 ethertype.

(** Decapsulation: drop the outer headers, keep room for the inner Ethernet
    header and write it. *)
Definition decap (guest_mac : list Z) (ethertype : Z) : prog world (result unit) :=
  let* ok := xdp_adjust_head (Z.of_nat IPV6_LEN) in
  if negb ok then pret Err else
  let* p := get_pkt in
  if short p ETH_LEN then pret Err else
  rewrite_pkt (write_guest_eth guest_mac ethertype) ;;;
  pret (Ok tt).
End programs.

(** ** Specification *)

Record encap_ok (e : EncapParams) : Prop := {
  eo_gw : is_arr 6 (ep_gateway_mac e);
  eo_up : is_arr 6 (ep_uplink_mac e);
  eo_src : is_arr 16 (ep_src_underlay e);
  eo_dst : is_arr 16 (ep_nexthop_ipv6 e);
  eo_len : is_u16 (ep_inner_len e);
  eo_proto : is_byte (ep_inner_proto e) }.

Record local_ok (l : Local) : Prop := {
  lo_up_ok : is_arr 6 (lo_uplink_mac l);
  lo_gw_ok : is_arr 6 (lo_gateway_mac l) }.

(** The outer headers of an encapsulated packet, as bytes. *)
Definition outer_v6 (e : EncapParams) : list Z :=
  ep_gateway_mac e ++ ep_uplink_mac e ++ to_be16 ETH_P_IPV6 ++ [0x60; 0; 0; 0]
  ++ to_be16 (ep_inner_len e) ++ [ep_inner_proto e; 64]
  ++ ep_src_underlay e ++ ep_nexthop_ipv6 e.
Definition guest_eth (guest_mac : list Z) (ethertype : Z) : list Z :=
  guest_mac ++ GW_MAC ++ to_be16 ethertype.

(** ** Lemmas *)

(** Writing consecutive fields from the front of a frame. *)
Lemma wrn_next p i bs h r :
  p = h ++ r → length h = i → (length bs <= length r)%nat →
  wrn p i bs = Some ((h ++ bs) ++ drop (length bs) r).
Proof.
  intros -> Hi Hl. rewrite wrn_splice by (rewrite length_app; lia). f_equal. unfold splice.
  rewrite <- Hi, take_app_length, drop_app_add, <- app_assoc. done.
Qed.

Lemma wr8_next p i v h r :
  p = h ++ r → length h = i → (1 <= length r)%nat →
  wr8 p i v = Some ((h ++ [v]) ++ drop 1 r).
Proof. intros. by apply wrn_next. Qed.

Lemma wr16_next p i v h r :
  p = h ++ r → length h = i → (2 <= length r)%nat →
  wr16 p i v = Some ((h ++ to_be16 v) ++ drop 2 r).
Proof. intros. by apply (wrn_next p i (to_be16 v)). Qed.

Ltac next_write :=
  let side := (rewrite ?length_app, ?length_drop; simpl; lia) in
  first [erewrite wr8_next; [|reflexivity|side|side]
        |erewrite wr16_next; [|reflexivity|side|side]
        |erewrite wrn_next; [|reflexivity|side|side]];
  cbn [mbind option_bind].

Lemma write_outer_v6_run' p e :
  length (ep_gateway_mac e) = 6%nat → length (ep_uplink_mac e) = 6%nat →
  length (ep_src_underlay e) = 16%nat → length (ep_nexthop_ipv6 e) = 16%nat →
  (54 <= length p)%nat → write_outer_v6 p e = Some (Some (outer_v6 e ++ drop 54 p)).
Proof.
  intros Hg Hu Hs Hd Hl. unfold write_outer_v6, ETH_LEN, IPV6_LEN.
  rewrite short_false_eq by (simpl; lia).
  change p with ([] ++ p) at 1.
  repeat next_write. unfold outer_v6. rewrite !drop_drop. do 2 f_equal.
  rewrite Hg, Hu, Hs, Hd. repeat (cbn [app]; rewrite <- ?app_assoc). done.
Qed.

Lemma write_outer_v6_run p e :
  encap_ok e → (54 <= length p)%nat →
  write_outer_v6 p e = Some (Some (outer_v6 e ++ drop 54 p)).
Proof. intros [[? _] [? _] [? _] [? _] _ _] Hl. by apply write_outer_v6_run'. Qed.

Lemma write_guest_eth_run mac et p :
  length mac = 6%nat → (14 <= length p)%nat →
  write_guest_eth mac et p = Some (guest_eth mac et ++ drop 14 p).
Proof.
  intros Hm Hl. unfold write_guest_eth. change p with ([] ++ p) at 1.
  repeat next_write. unfold guest_eth. rewrite !drop_drop, Hm. repeat (cbn [app]; rewrite <- ?app_assoc). done.
Qed.

Section run.
Context `{KernelLaws}.

(** A successful encapsulation: the outer headers before the inner packet,
    whose Ethernet header is consumed. *)
Lemma encap_out_run e w act w' :
  encap_ok e → (14 <= length (w_pkt w))%nat →
  encap_out e w = Some (Ok act, w') →
  w_pkt w' = outer_v6 e ++ drop 14 (w_pkt w) ∧ w_maps w' = w_maps w ∧
  w_redirect w' = Some (ep_uplink_ifindex e) ∧ act = redirect_ret (ep_uplink_ifindex e).
Proof.
  intros He Hl. unfold encap_out, xdp_adjust_head, resize, pbind.
  destruct (adjust_head _ (w_pkt w)) as [p|] eqn:Ea; [|done].
  apply adjust_head_grow in Ea as (h & Hh & _ & ->); [|done].
  change (Z.to_nat _) with 40%nat in Hh.
  cbn [negb]. unfold rewrite_opt. cbn [w_pkt].
  rewrite write_outer_v6_run by (done || rewrite length_app; lia). cbn.
  intros [= <- <-]. cbn. split; [|done]. f_equal.
  rewrite drop_app_ge by lia. f_equal. lia.
Qed.

(** Encapsulation never faults. *)
Lemma encap_out_total e w :
  encap_ok e → (14 <= length (w_pkt w))%nat → ∃ r w', encap_out e w = Some (r, w').
Proof.
  intros He Hl. unfold encap_out, xdp_adjust_head, resize, pbind.
  destruct (adjust_head _ (w_pkt w)) as [p|] eqn:Ea; [|by eexists _, _].
  apply adjust_head_grow in Ea as (h & Hh & _ & ->); [|done].
  change (Z.to_nat _) with 40%nat in Hh.
  cbn [negb]. unfold rewrite_opt. cbn [w_pkt].
  rewrite write_outer_v6_run by (done || rewrite length_app; lia). by eexists _, _.
Qed.

Lemma decap_run mac et w w' :
  length mac = 6%nat → decap mac et w = Some (Ok tt, w') →
  (54 <= length (w_pkt w))%nat ∧ w_pkt w' = guest_eth mac et ++ drop 54 (w_pkt w) ∧
  w_maps w' = w_maps w.
Proof.
  intros Hm. unfold decap, xdp_adjust_head, resize, pbind.
  destruct (adjust_head _ (w_pkt w)) as [p|] eqn:Ea; [|done].
  apply adjust_head_shrink in Ea as (Hl & ->); [|done].
  change (Z.to_nat _) with 40%nat in *.
  cbn [negb]. unfold get_pkt. cbn [w_pkt].
  destruct (short _ _) eqn:Es; [done|]. apply short_false in Es.
  rewrite length_drop in Es. unfold ETH_LEN in Es.
  unfold rewrite_pkt. cbn [w_pkt].
  rewrite write_guest_eth_run by (done || rewrite length_drop; lia). cbn.
  intros [= <-]. cbn. rewrite drop_drop. repeat split. lia.
Qed.

Lemma decap_total mac et w :
  length mac = 6%nat → ∃ r w', decap mac et w = Some (r, w').
Proof.
  intros Hm. unfold decap, xdp_adjust_head, resize, pbind.
  destruct (adjust_head _ (w_pkt w)) as [p|] eqn:Ea; [|by eexists _, _].
  cbn [negb]. unfold get_pkt. cbn [w_pkt].
  destruct (short p _) eqn:Es; [by eexists _, _|]. apply short_false in Es.
  unfold ETH_LEN in Es. unfold rewrite_pkt. cbn [w_pkt].
  rewrite write_guest_eth_run by (done || lia). by eexists _, _.
Qed.

Lemma reforward_write_run l lb b p :
  local_ok l → is_arr 16 lb → is_arr 16 b → (54 <= length p)%nat →
  reforward_write l lb b p
  = Some (splice (splice (lo_gateway_mac l ++ lo_uplink_mac l ++ drop 12 p) 22 lb) 38 b).
Proof.
  intros [[Hu _] [Hg _]] [Hlb _] [Hb _] Hl. unfold reforward_write.
  change p with ([] ++ p) at 1. do 2 next_write. rewrite drop_drop, Hu, Hg. cbn [app].
  rewrite wrn_splice by (rewrite !length_app, length_drop, Hu, Hg, Hlb; simpl; lia).
  cbn [mbind option_bind].
  rewrite wrn_splice
    by (rewrite length_splice; rewrite !length_app, length_drop, Hu, Hg, ?Hlb, ?Hb; simpl; lia).
  by rewrite <- app_assoc.
Qed.

Lemma reforward_total l lb b w :
  local_ok l → is_arr 16 lb → is_arr 16 b → ∃ r w', reforward l lb b w = Some (r, w').
Proof.
  intros Hlo Hlb Hb. unfold reforward, get_pkt, pbind. destruct (short _ _) eqn:Es; [by eexists _, _|].
  apply short_false in Es. unfold ETH_LEN, IPV6_LEN in Es. unfold rewrite_pkt.
  rewrite reforward_write_run by done. by eexists _, _.
Qed.

(** A relay keeps the encapsulated packet. *)
Lemma reforward_keeps l lb b w r w' :
  local_ok l → is_arr 16 lb → is_arr 16 b → reforward l lb b w = Some (r, w') →
  length (w_pkt w') = length (w_pkt w) ∧ drop 54 (w_pkt w') = drop 54 (w_pkt w).
Proof.
  intros Hlo Hlb Hb. unfold reforward, get_pkt, pbind.
  destruct (short _ _) eqn:Es; [by intros [= _ <-]|].
  apply short_false in Es. unfold ETH_LEN, IPV6_LEN in Es. unfold rewrite_pkt.
  rewrite reforward_write_run by done. cbn. intros [= _ <-]. cbn [w_pkt].
  destruct Hlo as [[Hu _] [Hg _]]. destruct Hlb as [Hlb _], Hb as [Hb _].
  assert (length (lo_gateway_mac l ++ lo_uplink_mac l ++ drop 12 (w_pkt w)) = length (w_pkt w)) as E.
  { rewrite !length_app, length_drop. lia. }
  assert (length (splice (lo_gateway_mac l ++ lo_uplink_mac l ++ drop 12 (w_pkt w)) 22 lb)
    = length (w_pkt w)) as E2 by (rewrite length_splice; lia).
  split; [rewrite length_splice; lia|].
  rewrite !drop_splice by lia. rewrite !drop_app_ge by lia.
  rewrite drop_drop. f_equal. lia.
Qed.
End run.

(** ** Property *)

(** One node of the path relays frame [p] as [q]. *)
Definition relay `{Kernel} (p q : list Z) : Prop :=
  ∃ l lb b w r w', local_ok l ∧ is_arr 16 lb ∧ is_arr 16 b ∧
    w_pkt w = p ∧ reforward l lb b w = Some (r, w') ∧ w_pkt w' = q.

(** C12.  The overlay carries the inner packet unchanged: a frame that is
    encapsulated on one node, relayed by any number of nodes and decapsulated
    on another keeps the bytes after its Ethernet header, and the guest sees
    them behind a header with its MAC and the gateway's.  On the first hop the
    frame is addressed to the route's next hop, from the port's underlay
    address, with the length and protocol of the inner packet. *)
Theorem encap_relay_decap `{KernelLaws} (local : Local) (src : list Z) (route : RouteValue)
    (inner_len inner_proto act : Z) (w w1 w2 w3 : world) (mac : list Z) (et : Z) :
  local_ok local → is_arr 16 src → is_arr 16 (rv_nexthop_ipv6 route) →
  is_u16 inner_len → is_byte inner_proto → length mac = 6%nat →
  (14 <= length (w_pkt w))%nat →
  encap_and_redirect local src route inner_len inner_proto w = Some (Ok act, w1) →
  rtc relay (w_pkt w1) (w_pkt w2) →
  decap mac et w2 = Some (Ok tt, w3) →
  w_redirect w1 = Some (lo_uplink_ifindex local) ∧
  slice (w_pkt w1) 18 36 = to_be16 inner_len ++ [inner_proto; 64] ++ src ++ rv_nexthop_ipv6 route ∧
  w_pkt w3 = guest_eth mac et ++ drop 14 (w_pkt w).
Proof.
  intros [Hlu Hlg] Hs Hd Hn Hp Hm Hl He Hr Hdec.
  set (e := mkEncapParams (lo_gateway_mac local) (lo_uplink_mac local) (lo_uplink_ifindex local)
    src (rv_nexthop_ipv6 route) inner_len inner_proto) in *.
  assert (encap_ok e) as Hok by (by constructor).
  destruct (encap_out_run e w act w1 Hok Hl He) as (Ew & _ & Eredir & _).
  apply decap_run in Hdec as (_ & Ew3 & _); [|done].
  assert (length (outer_v6 e) = 54%nat) as Hlen.
  { unfold outer_v6. rewrite !length_app. cbn [e ep_gateway_mac ep_uplink_mac ep_src_underlay
      ep_nexthop_ipv6]. destruct Hlu as [-> _], Hlg as [-> _], Hs as [-> _], Hd as [-> _]. done. }
  split; [done|split].
  - rewrite Ew.
    replace (outer_v6 e) with ((lo_gateway_mac local ++ lo_uplink_mac local ++ to_be16 ETH_P_IPV6
      ++ [0x60; 0; 0; 0]) ++ to_be16 inner_len ++ [inner_proto; 64] ++ src ++ rv_nexthop_ipv6 route)
      by (unfold outer_v6; by rewrite <- !app_assoc).
    destruct Hlu as [Hlu _], Hlg as [Hlg _], Hs as [Hs _], Hd as [Hd _].
    unfold slice. rewrite <- app_assoc, drop_app_length'.
    + rewrite take_app_length'; [done|]. rewrite !length_app, Hs, Hd. done.
    + rewrite !length_app, Hlu, Hlg. done.
  - rewrite Ew3. f_equal.
    assert (drop 54 (w_pkt w2) = drop 54 (w_pkt w1)) as ->.
    { clear -Hr. induction Hr as [|x y z Hxy _ IH]; [done|].
      destruct Hxy as (l & lb & b & u & r & u' & ? & ? & ? & <- & Er & <-).
      apply reforward_keeps in Er as [_ Er]; [|done..]. congruence. }
    rewrite Ew, drop_app_length'; done.
Qed.

Definition demo_local : Local :=
  mkLocal 2 [2; 0; 0; 0; 0; 0xaa] [2; 0; 0; 0; 0; 0xbb] (replicate 16 0xfd).
Definition demo_frame : list Z :=
  replicate 12 7 ++ [8; 0; 0x45; 0; 0; 24; 0; 0; 0; 0; 64; 17; 0; 0; 10; 0; 0; 5; 10; 0; 0; 6]
  ++ [1; 2; 3; 4].
(** The world after a program, or the one before it. *)
Definition after {A} (m : prog world A) (w : world) : world :=
  match m w with Some (_, w') => w' | None => w end.
Definition demo_w0 : world := mkWorld demo_frame empty_maps 0 None.
Definition demo_w1 : world :=
  after (encap_and_redirect demo_local (replicate 16 1) (mkRouteValue 100 (replicate 16 2) 0)
           24 IPPROTO_IPIP) demo_w0.
Definition demo_w2 : world := after (reforward demo_local (replicate 16 2) (replicate 16 3)) demo_w1.
Definition demo_w3 : world := after (decap [2; 0; 0; 0; 0; 9] ETH_P_IP) demo_w2.

Lemma demo_local_ok : local_ok demo_local.
Proof. split; by apply is_arr_b. Qed.

Lemma encap_relay_decap_witness :
  w_redirect demo_w1 = Some 2 ∧
  slice (w_pkt demo_w1) 18 36
    = to_be16 24 ++ [IPPROTO_IPIP; 64] ++ replicate 16 1 ++ replicate 16 2 ∧
  w_pkt demo_w3 = guest_eth [2; 0; 0; 0; 0; 9] ETH_P_IP ++ drop 14 demo_frame.
Proof.
  apply (encap_relay_decap demo_local (replicate 16 1) (mkRouteValue 100 (replicate 16 2) 0)
    24 IPPROTO_IPIP 4 demo_w0 demo_w1 demo_w2 demo_w3 [2; 0; 0; 0; 0; 9] ETH_P_IP).
  - apply demo_local_ok.
  - by apply is_arr_b.
  - by apply is_arr_b.
  - unfold is_u16. lia.
  - unfold is_byte, IPPROTO_IPIP. lia.
  - done.
  - vm_compute. lia.
  - vm_compute. reflexivity.
  - apply rtc_once. exists demo_local, (replicate 16 2), (replicate 16 3), demo_w1, 4, demo_w2.
    split; [apply demo_local_ok|]. split; [by apply is_arr_b|]. split; [by apply is_arr_b|].
    split; [done|]. split; [vm_compute; reflexivity|done].
  - vm_compute. reflexivity.
Defined.
