(* ===== verification/ArpNd.v ===== *)
(** * ArpNd

    The gateway's ARP and IPv6 neighbor-discovery responders: the in-place
    rewrites (xdp-dp-common/src/lib.rs, module arp_nd) and their XDP glue
    (xdp-dp-ebpf/src/arp_nd.rs). *)
From S2P Require Import Prelude Bytes Csum Types Kernel Parse Rewrite Encap.

(** ** Definitions *)

Definition ETH_P_ARP : Z := 0x0806.
Definition ARP_LEN : nat := 28.
Definition ND_NS : Z := 135.
Definition ND_NA : Z := 136.

(** [csum16]: the words of [len] bytes at [ptr] are added to a [u32] that
    starts with [sum], then the odd byte, then two carries. *)
Fixpoint csum16_words (n : nat) (sum : Z) (p : list Z) (ptr : nat) : mem Z :=
  match n with
  | O => Some sum
  | S n' => w ← rd16 p ptr; csum16_words n' (wrap32 (sum + w)) p (ptr + 2)
  end.
Definition csum16 (sum : Z) (p : list Z) (ptr len : nat) : mem Z :=
  s ← csum16_words (len / 2) sum p ptr;
  s ← (if Nat.odd len
       then b ← rd8 p (ptr + (len - 1)); Some (wrap32 (s + Z.shiftl b 8)) else Some s);
  Some (csum_fold s).

(** The pseudo-header loop: the addresses at [ip + 8] and [ip + 24]. *)
Fixpoint nd_addr_words (n k : nat) (sum : Z) (p : list Z) (ip : nat) : mem Z :=
  match n with
  | O => Some sum
  | S n' =>
      a ← rd16 p (ip + 8 + k);
      b ← rd16 p (ip + 24 + k);
      nd_addr_words n' (k + 2) (wrap32 (wrap32 (sum + a) + b)) p ip
  end.

(** The writes of [try_write_nd_reply]: the fields, with a zero checksum, then
    the checksum over the pseudo-header and the message. *)
Definition nd_reply_fields (p : list Z) (gateway_ipv6 reply_mac : list Z) : mem (list Z) :=
  let ip := ETH_LEN in
  let icmp := (ETH_LEN + IPV6_LEN)%nat in
  req_mac ← rdn p 6 6;
  req_src ← rdn p (ip + 8) 16;
  let gw_mac := reply_mac in
  p ← wrn p 0 req_mac;
  p ← wrn p 6 gw_mac;
  p ← wrn p (ip + 8) gateway_ipv6;
  p ← wrn p (ip + 24) req_src;
  p ← wr8 p (ip + 7) 255;
  p ← wr16 p (ip + 4) 32;
  p ← wr8 p icmp ND_NA;
  p ← wr8 p (icmp + 1) 0;
  p ← wr16 p (icmp + 2) 0;
  p ← wr8 p (icmp + 4) 0x60;
  p ← wr8 p (icmp + 5) 0;
  p ← wr8 p (icmp + 6) 0;
  p ← wr8 p (icmp + 7) 0;
  p ← wr8 p (icmp + 24) 2;
  p ← wr8 p (icmp + 25) 1;
  wrn p (icmp + 26) gw_mac.
Definition nd_reply_write (p : list Z) (gateway_ipv6 reply_mac : list Z) : mem (list Z) :=
  let ip := ETH_LEN in
  let icmp := (ETH_LEN + IPV6_LEN)%nat in
  p ← nd_reply_fields p gateway_ipv6 reply_mac;
  sum ← nd_addr_words 8 0 0 p ip;
  let sum := wrap32 (sum + 32) in
  let sum := wrap32 (sum + IPPROTO_ICMPV6) in
  cks ← csum16 sum p icmp 32;
  wr16 p (icmp + 2) cks.

(** [try_write_nd_reply]: [None] is [false], the frame is not a solicitation
    for the gateway. *)
Definition try_write_nd_reply (p : list Z) (gateway_ipv6 reply_mac : list Z)
    : mem (option (list Z)) :=
  if short p (ETH_LEN + IPV6_LEN + 32) then Some None else
  ethertype ← rd16 p 12;
  if negb (ethertype =? ETH_P_IPV6) then Some None else
  nexthdr ← rd8 p (ETH_LEN + 6);
  if negb (nexthdr =? IPPROTO_ICMPV6) then Some None else
  let icmp := (ETH_LEN + IPV6_LEN)%nat in
  t ← rd8 p icmp;
  if negb (t =? ND_NS) then Some None else
  target ← rdn p (icmp + 8) 16;
  if negb (bool_decide (target = gateway_ipv6)) then Some None else
  q ← nd_reply_write p gateway_ipv6 reply_mac;
  Some (Some q).

(** [try_write_arp_reply]. *)
Definition arp_reply_write (p : list Z) (gateway_ipv4 reply_mac : list Z) : mem (list Z) :=
  let arp := ETH_LEN in
  sender_mac ← rdn p (arp + 8) 6;
  spa ← rdn p (arp + 14) 4;
  p ← wrn p 0 sender_mac;
  p ← wrn p 6 reply_mac;
  p ← wr16 p (arp + 6) 2;
  p ← wrn p (arp + 8) reply_mac;
  p ← wrn p (arp + 14) gateway_ipv4;
  p ← wrn p (arp + 18) sender_mac;
  wrn p (arp + 24) spa.
Definition try_write_arp_reply (p : list Z) (gateway_ipv4 reply_mac : list Z)
    : mem (option (list Z)) :=
  if short p (ETH_LEN + ARP_LEN) then Some None else
  ethertype ← rd16 p 12;
  if negb (ethertype =? ETH_P_ARP) then Some None else
  opcode ← rd16 p (ETH_LEN + 6);
  if negb (opcode =? 1) then Some None else
  tpa ← rdn p (ETH_LEN + 24) 4;
  if negb (bool_decide (tpa = gateway_ipv4)) then Some None else
  q ← arp_reply_write p gateway_ipv4 reply_mac;
  Some (Some q).

Section programs.
Context `{Kernel}.
Local Open Scope dp_scope.

(** [reflect]: back to the interface the frame came from. *)
Definition reflect (ingress_ifindex : Z) : prog world Z := bpf_redirect ingress_ifindex.

Definition try_arp_reply (ifindex : Z) (meta : PortMeta) : prog world (option Z) :=
  let* done := rewrite_opt (λ p, try_write_arp_reply p (pm_gateway_ipv4 meta) (pm_guest_mac meta)) in
  if done then let* act := reflect ifindex in pret (Some act) else pret None.

Definition try_nd_reply (ifindex : Z) (meta : PortMeta) : prog world (option Z) :=
  let* done := rewrite_opt (λ p, try_write_nd_reply p (pm_gateway_ipv6 meta) (pm_guest_mac meta)) in
  if done then let* act := reflect ifindex in pret (Some act) else pret None.
End programs.

(** ** Specification *)

(** An ARP request for the gateway, and the reply to it: addressed to the
    sender, announcing [mac] for the gateway. *)
Definition is_arp_request (p gateway_ipv4 : list Z) : Prop :=
  (42 <= length p)%nat ∧ w16 p 12 = ETH_P_ARP ∧ w16 p 20 = 1 ∧ slice p 38 4 = gateway_ipv4.
Definition arp_reply (p gateway_ipv4 mac : list Z) : list Z :=
  slice p 22 6 ++ mac ++ slice p 12 8 ++ to_be16 2 ++ mac ++ gateway_ipv4
  ++ slice p 22 6 ++ slice p 28 4 ++ drop 42 p.

(** A neighbor solicitation for the gateway. *)
Definition is_nd_solicit (p gateway_ipv6 : list Z) : Prop :=
  (86 <= length p)%nat ∧ w16 p 12 = ETH_P_IPV6 ∧ at_ p 20 = IPPROTO_ICMPV6 ∧
  at_ p 54 = ND_NS ∧ slice p 62 16 = gateway_ipv6.
(** The solicited advertisement, up to its checksum [cks]. *)
Definition nd_reply (p gateway_ipv6 mac : list Z) (cks : Z) : list Z :=
  slice p 6 6 ++ mac ++ slice p 12 6 ++ to_be16 32 ++ [at_ p 20; 255]
  ++ gateway_ipv6 ++ slice p 22 16
  ++ [ND_NA; 0] ++ to_be16 cks ++ [0x60; 0; 0; 0] ++ slice p 62 16 ++ [2; 1] ++ mac
  ++ drop 86 p.
(** The sum a receiver checks: pseudo-header (addresses, length, protocol) and
    the message of [n] bytes. *)
Definition icmp6_sum (p : list Z) (ip n : nat) : Z :=
  wsl p (ip + 8) 32 + Z.of_nat n + IPPROTO_ICMPV6 + wsl p (ip + 40) n.

(** ** Lemmas *)

Lemma wsl_words p i n :
  (i + 2 * S n <= length p)%nat → wsl p i (2 * S n) = w16 p i + wsl p (i + 2) (2 * n).
Proof.
  intros H. unfold wsl. replace (2 * S n)%nat with (S (S (2 * n))) by lia.
  rewrite !slice_cons by lia. cbn [wsum]. unfold w16. do 3 f_equal. lia.
Qed.

Lemma wsl_0 p i : wsl p i (2 * 0) = 0.
Proof. done. Qed.

Lemma csum16_words_run n sum p ptr :
  bytes_ok p → (ptr + 2 * n <= length p)%nat → 0 <= sum → sum + wsl p ptr (2 * n) < 2 ^ 32 →
  csum16_words n sum p ptr = Some (sum + wsl p ptr (2 * n)).
Proof.
  intros Hb. revert sum ptr. induction n as [|n IH]; intros sum ptr Hl Hs Hlt.
  - rewrite !wsl_0. cbn [csum16_words nd_addr_words]. f_equal. lia.
  - rewrite wsl_words in * by lia. cbn [csum16_words]. rewrite rd16_w16 by lia.
    cbn [mbind option_bind]. pose proof (w16_range p ptr Hb) as Hw. unfold is_u16 in Hw.
    pose proof (wsl_nonneg p (ptr + 2) (2 * n) Hb).
    rewrite wrap32_mod, Z.mod_small by lia. rewrite IH by lia. f_equal. lia.
Qed.

Lemma csum16_run sum p ptr n :
  bytes_ok p → (ptr + 2 * n <= length p)%nat → 0 <= sum → sum + wsl p ptr (2 * n) < 2 ^ 32 →
  csum16 sum p ptr (2 * n) = Some (csum_fold (sum + wsl p ptr (2 * n))).
Proof.
  intros Hb Hl Hs Hlt. unfold csum16.
  replace (2 * n / 2)%nat with n by (rewrite Nat.mul_comm, Nat.div_mul; lia).
  rewrite csum16_words_run by done. cbn [mbind option_bind].
  replace (Nat.odd (2 * n)) with false; [done|].
  symmetry. rewrite <- Nat.negb_even. apply negb_false_iff, Nat.even_spec. by exists n.
Qed.

Lemma nd_addr_words_run n k sum p ip :
  bytes_ok p → (ip + 24 + k + 2 * n <= length p)%nat → 0 <= sum →
  sum + wsl p (ip + 8 + k) (2 * n) + wsl p (ip + 24 + k) (2 * n) < 2 ^ 32 →
  nd_addr_words n k sum p ip
  = Some (sum + wsl p (ip + 8 + k) (2 * n) + wsl p (ip + 24 + k) (2 * n)).
Proof.
  intros Hb. revert k sum. induction n as [|n IH]; intros k sum Hl Hs Hlt.
  - rewrite !wsl_0. cbn [csum16_words nd_addr_words]. f_equal. lia.
  - rewrite !wsl_words in * by lia. cbn [nd_addr_words]. rewrite !rd16_w16 by lia.
    cbn [mbind option_bind].
    pose proof (w16_range p (ip + 8 + k) Hb) as H1. pose proof (w16_range p (ip + 24 + k) Hb) as H2.
    unfold is_u16 in H1, H2.
    pose proof (wsl_nonneg p (ip + 8 + k + 2) (2 * n) Hb).
    pose proof (wsl_nonneg p (ip + 24 + k + 2) (2 * n) Hb).
    rewrite !wrap32_mod, (Z.mod_small (sum + _)), Z.mod_small by lia.
    replace (ip + 8 + k + 2)%nat with (ip + 8 + (k + 2))%nat in * by lia.
    replace (ip + 24 + k + 2)%nat with (ip + 24 + (k + 2))%nat in * by lia.
    rewrite IH by lia. f_equal. lia.
Qed.

Lemma arp_reply_write_run p gw mac :
  (42 <= length p)%nat → length gw = 4%nat → length mac = 6%nat →
  arp_reply_write p gw mac = Some (arp_reply p gw mac).
Proof.
  intros Hl Hg Hm.
  explode_arr mac 6 Hm. explode_arr gw 4 Hg. explode_frame p 42 Hl. reflexivity.
Qed.

Lemma try_write_arp_reply_total p gw mac :
  length gw = 4%nat → length mac = 6%nat →
  ∃ r, try_write_arp_reply p gw mac = Some r ∧ ∀ q, r = Some q → length q = length p.
Proof.
  intros Hg Hm. unfold try_write_arp_reply, ETH_LEN, ARP_LEN.
  mem_go; try (eexists; split; [done|]; by intros q [=]).
  rewrite arp_reply_write_run by (done || lia). eexists. split; [done|]. intros q [= <-].
  unfold arp_reply. rewrite !length_app, length_drop, !length_slice, Hg, Hm by lia.
  cbn [length to_be16]. lia.
Qed.

Lemma nd_reply_fields_run p gw mac :
  (86 <= length p)%nat → length gw = 16%nat → length mac = 6%nat →
  nd_reply_fields p gw mac = Some (nd_reply p gw mac 0).
Proof.
  intros Hl Hg Hm.
  explode_arr mac 6 Hm. explode_arr gw 16 Hg. explode_frame p 86 Hl. reflexivity.
Qed.

Lemma nd_reply_csum p gw mac cks :
  (86 <= length p)%nat → length gw = 16%nat → length mac = 6%nat →
  splice (nd_reply p gw mac 0) 56 (to_be16 cks) = nd_reply p gw mac cks.
Proof.
  intros Hl Hg Hm.
  explode_arr mac 6 Hm. explode_arr gw 16 Hg. explode_frame p 86 Hl. reflexivity.
Qed.

Lemma nd_reply_length p gw mac cks :
  (86 <= length p)%nat → length gw = 16%nat → length mac = 6%nat →
  length (nd_reply p gw mac cks) = length p.
Proof.
  intros Hl Hg Hm. unfold nd_reply. rewrite !length_app, length_drop, !length_slice, Hg, Hm by lia.
  cbn [length to_be16]. lia.
Qed.

Lemma nd_reply_bytes p gw mac cks :
  bytes_ok p → bytes_ok gw → bytes_ok mac → is_u16 cks → bytes_ok (nd_reply p gw mac cks).
Proof.
  intros Hp Hg Hm Hc. unfold nd_reply, bytes_ok.
  repeat (apply Forall_app; split); try (by apply bytes_ok_slice); try done;
    try (by apply to_be16_bytes); try (by apply Forall_drop); try by apply bytes_ok_b.
  apply List.Forall_cons; [by apply at_byte|]. by apply bytes_ok_b.
Qed.

(** Storing the checksum adds it to the sum a receiver checks. *)
Lemma icmp6_sum_csum p gw mac cks :
  (86 <= length p)%nat → length gw = 16%nat → length mac = 6%nat → is_u16 cks →
  icmp6_sum (nd_reply p gw mac cks) 14 32 = icmp6_sum (nd_reply p gw mac 0) 14 32 + cks.
Proof.
  intros Hl Hg Hm Hc. pose proof (nd_reply_length p gw mac 0 Hl Hg Hm) as Hn.
  rewrite <- (nd_reply_csum p gw mac cks) by done. unfold icmp6_sum.
  rewrite wsl_splice_out by (cbn [length to_be16]; lia).
  rewrite wsl_set16 by (done || lia || by exists 1%nat).
  replace (w16 (nd_reply p gw mac 0) 56) with 0; [lia|].
  clear Hn. explode_arr mac 6 Hm. explode_arr gw 16 Hg. explode_frame p 86 Hl. reflexivity.
Qed.

(** A word sum is bounded by its length. *)
Lemma wsl_bound p i n :
  bytes_ok p → (i + 2 * n <= length p)%nat → wsl p i (2 * n) <= 65535 * Z.of_nat n.
Proof.
  intros Hb. revert i. induction n as [|n IH]; intros i Hl; [by rewrite wsl_0|].
  rewrite wsl_words by done. specialize (IH (i + 2)%nat ltac:(lia)).
  pose proof (w16_range p i Hb). unfold is_u16 in *. lia.
Qed.

Lemma wsum_words_bound a n : bytes_ok a → length a = (2 * n)%nat → 0 <= wsum a <= 65535 * Z.of_nat n.
Proof.
  intros Hb Hl. pose proof (wsl_bound a 0 n Hb ltac:(lia)) as H. unfold wsl in H.
  rewrite <- Hl, slice_full in H. pose proof (wsum_nonneg a Hb). lia.
Qed.

Lemma wsl_split p i n m :
  (i + 2 * n + 2 * m <= length p)%nat →
  wsl p i (2 * n + 2 * m) = wsl p i (2 * n) + wsl p (i + 2 * n) (2 * m).
Proof.
  revert i. induction n as [|n IH]; intros i Hl.
  - rewrite wsl_0. replace (i + 2 * 0)%nat with i by lia. done.
  - replace (2 * S n + 2 * m)%nat with (2 * S (n + m))%nat by lia.
    rewrite (wsl_words p i (n + m)), (wsl_words p i n) by lia.
    replace (2 * (n + m))%nat with (2 * n + 2 * m)%nat by lia. rewrite IH by lia.
    replace (i + 2 + 2 * n)%nat with (i + 2 * S n)%nat by lia. lia.
Qed.

Lemma nd_addr_words_total n k sum p ip :
  (ip + 24 + k + 2 * n <= length p)%nat → ∃ s, nd_addr_words n k sum p ip = Some s.
Proof.
  revert k sum. induction n as [|n IH]; intros k sum Hl; cbn [nd_addr_words]; [by eexists|].
  rewrite !rd16_w16 by lia. cbn [mbind option_bind]. apply IH. lia.
Qed.

Lemma csum16_words_total n sum p ptr :
  (ptr + 2 * n <= length p)%nat → ∃ s, csum16_words n sum p ptr = Some s.
Proof.
  revert sum ptr. induction n as [|n IH]; intros sum ptr Hl; cbn [csum16_words]; [by eexists|].
  rewrite rd16_w16 by lia. apply IH. lia.
Qed.

(** Whatever the frame holds, a response keeps its length. *)
Lemma nd_reply_write_total p gw mac :
  (86 <= length p)%nat → length gw = 16%nat → length mac = 6%nat →
  ∃ q, nd_reply_write p gw mac = Some q ∧ length q = length p.
Proof.
  intros Hl Hg Hm. unfold nd_reply_write, ETH_LEN, IPV6_LEN.
  rewrite nd_reply_fields_run by done. cbn [mbind option_bind].
  pose proof (nd_reply_length p gw mac 0 Hl Hg Hm) as Hn. revert Hn.
  generalize (nd_reply p gw mac 0). intros q Hn.
  destruct (nd_addr_words_total 8 0 0 q 14) as (s & ->); [cbn [Nat.add Nat.mul]; lia|].
  cbn [mbind option_bind]. unfold csum16.
  edestruct (csum16_words_total (32 / 2)) as (c & ->); [cbn; lia|].
  cbn [mbind option_bind Nat.odd Nat.even negb]. rewrite wr16_splice by (cbn [Nat.add]; lia).
  eexists. split; [done|]. rewrite length_splice by (cbn [length to_be16 Nat.add]; lia). done.
Qed.

Lemma nd_reply_write_run p gw mac :
  bytes_ok p → (86 <= length p)%nat → is_arr 16 gw → is_arr 6 mac →
  nd_reply_write p gw mac
  = Some (nd_reply p gw mac (csum_fold (icmp6_sum (nd_reply p gw mac 0) 14 32))).
Proof.
  intros Hb Hl [Hg Hgb] [Hm Hmb]. unfold nd_reply_write, ETH_LEN, IPV6_LEN.
  rewrite nd_reply_fields_run by done. cbn [mbind option_bind].
  set (q := nd_reply p gw mac 0).
  assert (bytes_ok q) as Hqb by (by apply nd_reply_bytes).
  assert (length q = length p) as Hql by (by apply nd_reply_length).
  pose proof (wsl_bound q 22 8 Hqb). pose proof (wsl_bound q 38 8 Hqb).
  pose proof (wsl_bound q 54 16 Hqb).
  pose proof (wsl_nonneg q 22 16 Hqb). pose proof (wsl_nonneg q 38 16 Hqb).
  pose proof (wsl_nonneg q 54 32 Hqb).
  cbn [Nat.add Nat.mul] in *.
  rewrite nd_addr_words_run by (done || cbn [Nat.add Nat.mul]; lia).
  cbn [mbind option_bind Nat.add Nat.mul].
  unfold IPPROTO_ICMPV6. rewrite !wrap32_mod, (Z.mod_small (_ + 32)), Z.mod_small by lia.
  rewrite (csum16_run _ q 54 16) by (done || cbn [Nat.add Nat.mul]; lia).
  cbn [mbind option_bind Nat.add Nat.mul].
  pose proof (wsl_split q 22 8 8) as Es. cbn [Nat.add Nat.mul] in Es.
  rewrite wr16_splice by lia. unfold q at 1. rewrite nd_reply_csum by done.
  do 3 f_equal. unfold icmp6_sum, IPPROTO_ICMPV6. fold q. cbn [Nat.add]. rewrite Es by lia. lia.
Qed.

Lemma nd_reply_sum_pos p gw mac cks :
  (86 <= length p)%nat → bytes_ok p → is_arr 16 gw → is_arr 6 mac → is_u16 cks →
  0 < icmp6_sum (nd_reply p gw mac cks) 14 32 < 2 ^ 32.
Proof.
  intros Hl Hb [Hg Hgb] [Hm Hmb] Hc. set (q := nd_reply p gw mac cks).
  assert (bytes_ok q) as Hqb by (by apply nd_reply_bytes).
  assert (length q = length p) as Hql by (by apply nd_reply_length).
  pose proof (wsl_bound q 22 16 Hqb). pose proof (wsl_bound q 54 16 Hqb).
  pose proof (wsl_nonneg q 22 32 Hqb). pose proof (wsl_nonneg q 54 32 Hqb).
  unfold icmp6_sum, IPPROTO_ICMPV6. cbn [Nat.add Nat.mul] in *. lia.
Qed.

(** ** Properties *)

(** C14.  The ARP responder answers exactly the requests for the gateway: the
    reply goes to the sender and gives the port's MAC for the gateway's
    address; every other frame is left alone. *)
Theorem try_write_arp_reply_spec (p gw mac : list Z) :
  is_arr 4 gw → is_arr 6 mac →
  (is_arp_request p gw → try_write_arp_reply p gw mac = Some (Some (arp_reply p gw mac))) ∧
  (¬ is_arp_request p gw → try_write_arp_reply p gw mac = Some None).
Proof.
  intros [Hg _] [Hm _].
  unfold try_write_arp_reply, is_arp_request, w16, ETH_LEN, ARP_LEN. cbn [Nat.add]. split.
  - intros (Hl & He & Ho & Ht). mem_go; zbool; cbn [Nat.add] in *; try (lia || congruence).
    by rewrite arp_reply_write_run.
  - intros Hn. mem_go; zbool; cbn [Nat.add] in *; try done. by destruct Hn.
Qed.

(** C15.  The neighbor-discovery responder answers exactly the solicitations
    for the gateway, with an advertisement of the port's MAC that carries the
    checksum an IPv6 receiver verifies; every other frame is left alone. *)
Theorem try_write_nd_reply_spec (p gw mac : list Z) :
  bytes_ok p → is_arr 16 gw → is_arr 6 mac →
  (is_nd_solicit p gw →
   ∃ cks, try_write_nd_reply p gw mac = Some (Some (nd_reply p gw mac cks)) ∧
     csum_valid (icmp6_sum (nd_reply p gw mac cks) 14 32)) ∧
  (¬ is_nd_solicit p gw → try_write_nd_reply p gw mac = Some None).
Proof.
  intros Hb Hg Hm.
  unfold try_write_nd_reply, is_nd_solicit, w16, ETH_LEN, IPV6_LEN. cbn [Nat.add]. split.
  - intros (Hl & He & Hp & Hs & Ht).
    exists (csum_fold (icmp6_sum (nd_reply p gw mac 0) 14 32)). split.
    + mem_go; zbool; cbn [Nat.add] in *; try (lia || congruence). by rewrite nd_reply_write_run.
    + pose proof (nd_reply_sum_pos p gw mac 0 Hl Hb Hg Hm ltac:(by unfold is_u16)).
      rewrite icmp6_sum_csum by (apply csum_fold_range || apply Hg || apply Hm || done).
      by apply csum_fold_valid.
  - intros Hn. mem_go; zbool; cbn [Nat.add] in *; try done. by destruct Hn.
Qed.

Lemma try_write_nd_reply_total p gw mac :
  length gw = 16%nat → length mac = 6%nat →
  ∃ r, try_write_nd_reply p gw mac = Some r ∧ ∀ q, r = Some q → length q = length p.
Proof.
  intros Hg Hm. unfold try_write_nd_reply, ETH_LEN, IPV6_LEN.
  mem_go; try (eexists; split; [done|]; by intros q [=]).
  destruct (nd_reply_write_total p gw mac) as (q & -> & Hq); [lia|done|done|].
  eexists. split; [done|]. by intros q' [= <-].
Qed.

Definition demo_gw4 : list Z := [10; 0; 0; 1].
Definition demo_mac : list Z := [2; 0; 0; 0; 0; 9].
Definition demo_arp : list Z :=
  replicate 6 0xff ++ demo_mac ++ [8; 6; 0; 1; 8; 0; 6; 4; 0; 1] ++ demo_mac
  ++ [10; 0; 0; 5] ++ replicate 6 0 ++ demo_gw4.
Definition demo_gw6 : list Z := [0xfe; 0x80] ++ replicate 13 0 ++ [1].
Definition demo_ns : list Z :=
  [0x33; 0x33; 0; 0; 0; 1] ++ demo_mac ++ [0x86; 0xdd; 0x60; 0; 0; 0; 0; 32; 58; 255]
  ++ [0xfd] ++ replicate 14 0 ++ [5] ++ demo_gw6
  ++ [135; 0; 0; 0; 0; 0; 0; 0] ++ demo_gw6 ++ [1; 1] ++ demo_mac.

Lemma try_write_arp_reply_spec_witness :
  try_write_arp_reply demo_arp demo_gw4 demo_mac
  = Some (Some (arp_reply demo_arp demo_gw4 demo_mac)).
Proof.
  apply try_write_arp_reply_spec; [by apply is_arr_b|by apply is_arr_b|].
  repeat split; vm_compute; (reflexivity || lia).
Defined.

Lemma try_write_nd_reply_spec_witness :
  ∃ cks, try_write_nd_reply demo_ns demo_gw6 demo_mac
    = Some (Some (nd_reply demo_ns demo_gw6 demo_mac cks)) ∧
    csum_valid (icmp6_sum (nd_reply demo_ns demo_gw6 demo_mac cks) 14 32).
Proof.
  apply try_write_nd_reply_spec; [by apply bytes_ok_b|by apply is_arr_b|by apply is_arr_b|].
  repeat split; vm_compute; (reflexivity || lia).
Defined.
