(* ===== verification/Nat64.v ===== *)
(** * Nat64

    NAT64 (xdp-dp-ebpf/src/nat64.rs): an IPv6 frame to 64:ff9b::/96 leaves as
    an IPv4 packet behind the guest's NAT address, and the reply comes back to
    the guest as IPv6. *)
From S2P Require Import Prelude Bytes Csum Types Kernel Parse Rewrite Conntrack Nat Encap ArpNd.

(** ** Definitions *)

Definition ICMPV6_ECHO_REQUEST : Z := 128.
Definition ICMPV6_ECHO_REPLY : Z := 129.
Definition ICMP_ECHO_REQUEST : Z := 8.
Definition NAT64_PFX : list Z := [0x00; 0x64; 0xff; 0x9b; 0; 0; 0; 0; 0; 0; 0; 0].

Definition is_nat64_addr (addr : list Z) : bool :=
  forallb (λ i, at_ addr i =? at_ NAT64_PFX i) [0; 1; 2; 3; 4; 5; 6; 7; 8; 9; 10; 11]%nat.

Definition nat64_embed (ipv4 : list Z) : list Z :=
  [0x00; 0x64; 0xff; 0x9b; 0; 0; 0; 0; 0; 0; 0; 0; at_ ipv4 0; at_ ipv4 1; at_ ipv4 2; at_ ipv4 3].

(** [csum_fold] and [csum_add16] are those of Csum.v. *)
Definition ipv4_hdr_checksum (hdr : list Z) : Z := csum_fold (csum_add_words 0 hdr).
Definition icmpv4_echo_checksum (hdr : list Z) : Z := csum_fold (csum_add_words 0 hdr).
Definition icmpv6_echo_checksum (src dst hdr : list Z) : Z :=
  let s := csum_add_words (csum_add_words 0 src) dst in
  let s := csum_add16 s 0 8 in
  let s := csum_add16 s 0 IPPROTO_ICMPV6 in
  csum_fold (csum_add_words s hdr).

(** The pseudo-header sums, folded to 16 bits. *)
Definition pseudo_v4 (src dst : list Z) (proto l4_len : Z) : Z :=
  let s := csum_add_words (csum_add_words 0 src) dst in
  let s := csum_add16 s 0 proto in
  let s := csum_add16 s (wrap8 (Z.shiftr l4_len 8)) (wrap8 l4_len) in
  fold2 s.
Definition pseudo_v6 (src dst : list Z) (proto l4_len : Z) : Z :=
  let s := csum_add_words (csum_add_words 0 src) dst in
  let s := csum_add16 s 0 0 in
  let s := csum_add16 s (wrap8 (Z.shiftr l4_len 8)) (wrap8 l4_len) in
  let s := csum_add16 s 0 proto in
  fold2 s.

(** Checksum translations between the pseudo-headers.  The source passes the
    16-bit values in network order and converts them on use; they are
    host-order here. *)
Definition tcp_udp_v6_to_v4 (cksum : Z) (src6 dst6 src4 dst4 : list Z)
    (proto l4_len old_sport new_sport : Z) : Z :=
  let s0 := not16 cksum in
  let pv6 := pseudo_v6 src6 dst6 proto l4_len in
  let pv4 := pseudo_v4 src4 dst4 proto l4_len in
  let old_sp := not16 old_sport in
  let sum := wrap32 (wrap32 (wrap32 (wrap32 (s0 + not16 pv6) + pv4) + old_sp) + new_sport) in
  csum_fold sum.
Definition tcp_udp_v4_to_v6 (cksum : Z) (src4 dst4 src6 dst6 : list Z) (proto l4_len : Z) : Z :=
  let s0 := not16 cksum in
  let pv4 := pseudo_v4 src4 dst4 proto l4_len in
  let pv6 := pseudo_v6 src6 dst6 proto l4_len in
  csum_fold (wrap32 (wrap32 (s0 + not16 pv4) + pv6)).

(** The L4 fields of the IPv6 frame: the IPv4 protocol, the ports (the echo id
    twice) and the checksum. *)
Definition nat64_l4 (p : list Z) (nh : Z) : mem (option (Z * Z * Z * Z)) :=
  let l4 := (ETH_LEN + IPV6_LEN)%nat in
  if nh =? IPPROTO_ICMPV6 then
    if short p (l4 + 8) then Some None else
    t ← rd8 p l4;
    if negb (t =? ICMPV6_ECHO_REQUEST) then Some None else
    id ← rd16 p (l4 + 4);
    cksum ← rd16 p (l4 + 2);
    Some (Some (IPPROTO_ICMP, id, id, cksum))
  else if nh =? IPPROTO_TCP then
    if short p (l4 + 20) then Some None else
    sp ← rd16 p l4;
    dp ← rd16 p (l4 + 2);
    ck ← rd16 p (l4 + 16);
    Some (Some (IPPROTO_TCP, sp, dp, ck))
  else if nh =? IPPROTO_UDP then
    if short p (l4 + 8) then Some None else
    sp ← rd16 p l4;
    dp ← rd16 p (l4 + 2);
    ck ← rd16 p (l4 + 6);
    Some (Some (IPPROTO_UDP, sp, dp, ck))
  else Some None.

(** The IPv4 header built on the stack. *)
Definition ip4hdr_fields (total_len hop_limit proto cks : Z) (src dst : list Z) : list Z :=
  [0x45; 0] ++ to_be16 total_len ++ [0; 0; 0; 0; hop_limit; proto] ++ to_be16 cks
  ++ [at_ src 0; at_ src 1; at_ src 2; at_ src 3; at_ dst 0; at_ dst 1; at_ dst 2; at_ dst 3].
Definition ip4hdr (total_len hop_limit proto : Z) (src dst : list Z) : list Z :=
  ip4hdr_fields total_len hop_limit proto
    (ipv4_hdr_checksum (ip4hdr_fields total_len hop_limit proto 0 src dst)) src dst.

(** The echo header rewrite of the egress path. *)
Definition nat64_icmp_to_v4 (p : list Z) (l4 : nat) (nat_port : Z) : mem (list Z) :=
  seq_ ← rd16 p (l4 + 6);
  let icmp4 := [ICMP_ECHO_REQUEST; 0; 0; 0] ++ to_be16 nat_port ++ to_be16 seq_ in
  let chk := icmpv4_echo_checksum icmp4 in
  p ← wr8 p l4 ICMP_ECHO_REQUEST;
  p ← wr8 p (l4 + 1) 0;
  p ← wr16 p (l4 + 2) chk;
  wr16 p (l4 + 4) nat_port.

(** The port and checksum rewrite of a TCP or UDP header. *)
Definition nat64_ports_to_v4 (p : list Z) (l4 csum_off : nat) (nat_port new_ck : Z)
    : mem (list Z) :=
  p ← wr16 p l4 nat_port;
  wr16 p (l4 + csum_off) new_ck.

(** The L4 translation of the egress path, at [l4]; [None] is [Err]. *)
Definition nat64_l4_to_v4 (p : list Z) (l4 : nat) (src6 dst6 src4 dst4 : list Z)
    (proto l4_len sport nat_port old_ck : Z) : mem (option (list Z)) :=
  if proto =? IPPROTO_ICMP then
    p ← nat64_icmp_to_v4 p l4 nat_port;
    Some (Some p)
  else
    let new_ck := tcp_udp_v6_to_v4 old_ck src6 dst6 src4 dst4 proto l4_len sport nat_port in
    if proto =? IPPROTO_TCP then
      if short p (l4 + 20) then Some None else
      p ← nat64_ports_to_v4 p l4 16 nat_port new_ck;
      Some (Some p)
    else
      if short p (l4 + 8) then Some None else
      p ← nat64_ports_to_v4 p l4 6 nat_port new_ck;
      Some (Some p).

(** Ethernet and IPv4 headers of the translated frame. *)
Definition nat64_v4_headers (p : list Z) (eth_dst eth_src : list Z) (hdr : list Z)
    : mem (list Z) :=
  p ← wrn p 0 eth_dst;
  p ← wrn p 6 eth_src;
  p ← wr16 p 12 ETH_P_IP;
  wrn p ETH_LEN hdr.

(** The L4 checksum field of the inner IPv4 reply, with the length checks of
    its protocol; [None] falls through. *)
Definition nat64_reply_csum (p : list Z) (l4_proto : Z) : mem (option Z) :=
  let l4 := (ETH_LEN + IPV6_LEN + 20)%nat in
  if l4_proto =? IPPROTO_TCP then
    if short p (l4 + 20) then Some None else c ← rd16 p (l4 + 16); Some (Some c)
  else if l4_proto =? IPPROTO_UDP then
    if short p (l4 + 8) then Some None else c ← rd16 p (l4 + 6); Some (Some c)
  else if l4_proto =? IPPROTO_ICMP then
    if short p (l4 + 8) then Some None else c ← rd16 p (l4 + 2); Some (Some c)
  else Some None.

(** Ethernet and IPv6 headers of the reply the guest receives. *)
Definition nat64_v6_headers (p : list Z) (guest_mac : list Z)
    (payload_len l4_proto_v6 ttl : Z) (src6 dst6 : list Z) : mem (list Z) :=
  p ← wrn p 0 guest_mac;
  p ← wrn p 6 GW_MAC;
  p ← wr16 p 12 ETH_P_IPV6;
  p ← wr8 p ETH_LEN 0x60;
  p ← wr8 p (ETH_LEN + 1) 0;
  p ← wr8 p (ETH_LEN + 2) 0;
  p ← wr8 p (ETH_LEN + 3) 0;
  p ← wr16 p (ETH_LEN + 4) payload_len;
  p ← wr8 p (ETH_LEN + 6) l4_proto_v6;
  p ← wr8 p (ETH_LEN + 7) ttl;
  p ← wrn p (ETH_LEN + 8) src6;
  wrn p (ETH_LEN + 24) dst6.

(** The L4 translation of the ingress path; [None] is [Err]. *)
Definition nat64_l4_to_v6 (p : list Z) (src4 dst4 src6 dst6 : list Z)
    (proto l4_len orig_sport old_ck : Z) : mem (option (list Z)) :=
  let l4 := (ETH_LEN + IPV6_LEN)%nat in
  if proto =? IPPROTO_ICMP then
    seq_ ← rd16 p (l4 + 6);
    let icmp6 := [ICMPV6_ECHO_REPLY; 0; 0; 0] ++ to_be16 orig_sport ++ to_be16 seq_ in
    let chk := icmpv6_echo_checksum src6 dst6 icmp6 in
    p ← wr8 p l4 ICMPV6_ECHO_REPLY;
    p ← wr8 p (l4 + 1) 0;
    p ← wr16 p (l4 + 2) chk;
    p ← wr16 p (l4 + 4) orig_sport;
    Some (Some p)
  else
    let new_ck := tcp_udp_v4_to_v6 old_ck src4 dst4 src6 dst6 proto l4_len in
    if proto =? IPPROTO_TCP then
      if short p (l4 + 20) then Some None else
      p ← wr16 p (l4 + 16) new_ck;
      Some (Some p)
    else
      if short p (l4 + 8) then Some None else
      p ← wr16 p (l4 + 6) new_ck;
      Some (Some p).

Section programs.
Context `{Kernel}.
Local Open Scope dp_scope.

(** [rewrite_opt] as a fallible step. *)
Definition rewrite_or_err (m : list Z → mem (option (list Z))) : prog world (result unit) :=
  let* ok := rewrite_opt m in if ok then pret (Ok tt) else pret Err.

(** What follows port allocation in [nat64_egress]: shrink the frame, write
    the Ethernet and IPv4 headers, translate L4. *)
Definition nat64_translate (src6 dst6 nat_ipv4 ipv4_dst : list Z)
    (proto l4_len sport nat_port old_ck : Z) : prog world (result unit) :=
  let* eth_dst := access (λ p, rdn p 0 6) in
  let* eth_src := access (λ p, rdn p 6 6) in
  let* hop_limit := access (λ p, rd8 p (ETH_LEN + 7)) in
  let* ok := xdp_adjust_head 20 in
  if negb ok then pret Err else
  let* p := get_pkt in
  if short p (ETH_LEN + 20 + 8) then pret Err else
  let total_len := wrap16 (20 + l4_len) in
  rewrite_pkt (λ p, nat64_v4_headers p eth_dst eth_src
    (ip4hdr total_len hop_limit proto nat_ipv4 ipv4_dst)) ;;;
  rewrite_or_err (λ p, nat64_l4_to_v4 p (ETH_LEN + 20) src6 dst6 nat_ipv4 ipv4_dst
    proto l4_len sport nat_port old_ck).

(** The route lookup and encapsulation at the end of [nat64_egress]. *)
Definition nat64_forward (vni : Z) (ipv4_dst underlay : list Z)
    : prog world (result (option Z)) :=
  let* routes := gets m_routes in
  match lpm_lookup routes 64 (to_be32 vni ++ ipv4_dst) with
  | None => pret (Ok None)
  | Some route =>
      let* p := get_pkt in
      let inner_len := wrap16 (Z.of_nat (length p - ETH_LEN)) in
      let* local := gets m_local in
      match local with
      | None => pret Err
      | Some local =>
          let? act := encap_and_redirect local underlay route inner_len IPPROTO_IPIP in
          pret (Ok (Some act))
      end
  end.

(** [nat64_egress]. *)
Definition nat64_egress (vni : Z) (guest_ipv4 underlay : list Z)
    : prog world (result (option Z)) :=
  let* p := get_pkt in
  if short p (ETH_LEN + IPV6_LEN + 8) then pret (Ok None) else
  let* ip6_dst := access (λ p, rdn p (ETH_LEN + 24) 16) in
  if negb (is_nat64_addr ip6_dst) then pret (Ok None) else
  let ipv4_dst := drop 12 ip6_dst in
  let* nats := gets m_nat in
  match nats !! mkNatKey vni guest_ipv4 with
  | None => pret (Ok None)
  | Some nat =>
      let range := wrap16 (nv_port_max nat - nv_port_min nat) in
      if range =? 0 then pret (Ok None) else
      let* ip6_src := access (λ p, rdn p (ETH_LEN + 8) 16) in
      let* nh := access (λ p, rd8 p (ETH_LEN + 6)) in
      let* l4_len := access (λ p, rd16 p (ETH_LEN + 4)) in
      if short p (ETH_LEN + IPV6_LEN + Z.to_nat l4_len) then pret (Ok None) else
      let* l4 := access (λ p, nat64_l4 p nh) in
      match l4 with
      | None => pret (Ok None)
      | Some (proto, sport, dport, old_ck) =>
          let fwd_key := mkCtKey vni guest_ipv4 ipv4_dst sport dport proto in
          let* nat_port :=
            nat_port_of CT_F_NAT64 fwd_key (nv_nat_ipv4 nat) (nv_port_min nat) range in
          let? _ := nat64_translate ip6_src ip6_dst (nv_nat_ipv4 nat) ipv4_dst
                      proto l4_len sport nat_port old_ck in
          nat64_forward vni ipv4_dst underlay
      end
  end.

(** The part of [nat64_ingress] after its checks: shrink, write the headers,
    translate L4, deliver. *)
Definition nat64_deliver (tap_ifindex : Z) (guest_mac guest_ipv6 src4 dst4 : list Z)
    (l4_proto l4_len ttl orig_sport old_ck : Z) : prog world (result (option Z)) :=
  let ipv6_src := nat64_embed src4 in
  let* ok := xdp_adjust_head 20 in
  if negb ok then pret Err else
  let* p := get_pkt in
  if short p (ETH_LEN + IPV6_LEN + 8) then pret Err else
  let l4_proto_v6 := if l4_proto =? IPPROTO_ICMP then IPPROTO_ICMPV6 else l4_proto in
  rewrite_pkt (λ p, nat64_v6_headers p guest_mac l4_len l4_proto_v6 ttl ipv6_src guest_ipv6) ;;;
  let? _ := rewrite_or_err (λ p, nat64_l4_to_v6 p src4 dst4 ipv6_src guest_ipv6
              l4_proto l4_len orig_sport old_ck) in
  let* act := bpf_redirect tap_ifindex in
  pret (Ok (Some act)).

(** [nat64_ingress]. *)
Definition nat64_ingress (tap_ifindex : Z) (guest_mac : list Z) (orig_sport : Z)
    : prog world (result (option Z)) :=
  let inner_off := (ETH_LEN + IPV6_LEN)%nat in
  let* p := get_pkt in
  if short p (inner_off + 20 + 8) then pret (Ok None) else
  let* b := access (λ p, rd8 p inner_off) in
  if negb (Z.land b 0x0f =? 5) then pret (Ok None) else
  let* l4_proto := access (λ p, rd8 p (inner_off + 9)) in
  if negb ((l4_proto =? IPPROTO_ICMP) || (l4_proto =? IPPROTO_TCP) || (l4_proto =? IPPROTO_UDP))
  then pret (Ok None) else
  let* ttl := access (λ p, rd8 p (inner_off + 8)) in
  let* src4 := access (λ p, rdn p (inner_off + 12) 4) in
  let* dst4 := access (λ p, rdn p (inner_off + 16) 4) in
  let* inner_total_len := access (λ p, rd16 p (inner_off + 2)) in
  if inner_total_len <? 20 then pret (Ok None) else
  let l4_len := inner_total_len - 20 in
  let* old_ck := access (λ p, nat64_reply_csum p l4_proto) in
  match old_ck with
  | None => pret (Ok None)
  | Some old_ck =>
      let* ports := gets m_port_meta in
      match ports !! tap_ifindex with
      | None => pret (Ok None)
      | Some m =>
          if bool_decide (pm_guest_ipv6 m = replicate 16 0) then pret (Ok None) else
          nat64_deliver tap_ifindex guest_mac (pm_guest_ipv6 m) src4 dst4
            l4_proto l4_len ttl orig_sport old_ck
      end
  end.
End programs.

(** ** Lemmas: checksums *)

Lemma is_byte_0 : is_byte 0.
Proof. unfold is_byte. lia. Qed.
Lemma be16_0 x : is_byte x → be16 0 x = x.
Proof. intros H. rewrite be16_add by done. lia. Qed.

Lemma len_bytes n : is_u16 n →
  is_byte (wrap8 (Z.shiftr n 8)) ∧ is_byte (wrap8 n) ∧ be16 (wrap8 (Z.shiftr n 8)) (wrap8 n) = n.
Proof.
  intros H. pose proof (to_be16_bytes n H) as Hb. apply Forall_cons in Hb as [H1 Hb].
  apply Forall_cons in Hb as [H2 _].
  assert (wrap8 (Z.shiftr n 8) = Z.shiftr n 8) as E.
  { rewrite wrap8_mod. by apply Z.mod_small. }
  rewrite E. split; [done|split; [done|]]. by apply be16_to_be16.
Qed.

(** Both pseudo-header sums are the residue of the plain sum. *)
Lemma pseudo_v4_run src dst proto n :
  is_arr 4 src → is_arr 4 dst → is_byte proto → is_u16 n →
  pseudo_v4 src dst proto n = residue (wsum src + wsum dst + proto + n).
Proof.
  intros [Hsl Hsb] [Hdl Hdb] Hp Hn. unfold pseudo_v4.
  pose proof (wsum_words_bound src 2 Hsb Hsl). pose proof (wsum_words_bound dst 2 Hdb Hdl).
  destruct (len_bytes n Hn) as (Hn1 & Hn2 & En). unfold is_byte in Hp. unfold is_u16 in Hn.
  rewrite (csum_add_words_run src) by (done || lia || rewrite Hsl; by exists 2%nat).
  rewrite csum_add_words_run by (done || lia || rewrite Hdl; by exists 2%nat).
  rewrite (csum_add16_run _ 0 proto) by (apply is_byte_0 || done || rewrite ?be16_0 by done; lia).
  rewrite be16_0 by done.
  rewrite csum_add16_run by (done || rewrite ?En; lia). rewrite En.
  destruct (carry2_residue (wsum src + wsum dst + proto + n)) as [_ E]; [lia|].
  unfold fold2. by rewrite <- E.
Qed.

Lemma pseudo_v6_run src dst proto n :
  is_arr 16 src → is_arr 16 dst → is_byte proto → is_u16 n →
  pseudo_v6 src dst proto n = residue (wsum src + wsum dst + proto + n).
Proof.
  intros [Hsl Hsb] [Hdl Hdb] Hp Hn. unfold pseudo_v6.
  pose proof (wsum_words_bound src 8 Hsb Hsl). pose proof (wsum_words_bound dst 8 Hdb Hdl).
  destruct (len_bytes n Hn) as (Hn1 & Hn2 & En). unfold is_byte in Hp. unfold is_u16 in Hn.
  rewrite (csum_add_words_run src) by (done || lia || rewrite Hsl; by exists 8%nat).
  rewrite csum_add_words_run by (done || lia || rewrite Hdl; by exists 8%nat).
  rewrite (csum_add16_run _ 0 0)
    by (apply is_byte_0 || done || rewrite ?be16_0 by apply is_byte_0; lia).
  rewrite be16_0 by apply is_byte_0.
  rewrite (csum_add16_run _ (wrap8 _) (wrap8 _)) by (done || rewrite ?En; lia). rewrite En.
  rewrite (csum_add16_run _ 0 proto) by (apply is_byte_0 || done || rewrite ?be16_0 by done; lia).
  rewrite be16_0 by done.
  destruct (carry2_residue (wsum src + wsum dst + proto + n)) as [_ E]; [lia|].
  unfold fold2. rewrite <- E. do 2 f_equal. lia.
Qed.

Lemma wrap32_small a : 0 <= a < 2 ^ 32 → wrap32 a = a.
Proof. intros H. rewrite wrap32_mod. by apply Z.mod_small. Qed.

(** The translated checksum, up to multiples of 65535. *)
Lemma tcp_udp_v6_to_v4_shift ck src6 dst6 src4 dst4 proto n old new :
  is_u16 ck → is_arr 16 src6 → is_arr 16 dst6 → is_arr 4 src4 → is_arr 4 dst4 →
  is_byte proto → is_u16 n → is_u16 old → is_u16 new →
  let r := tcp_udp_v6_to_v4 ck src6 dst6 src4 dst4 proto n old new in
  is_u16 r ∧
  ∃ k, r + wsum src4 + wsum dst4 + new = ck + wsum src6 + wsum dst6 + old + 65535 * k.
Proof.
  intros Hck Hs6 Hd6 Hs4 Hd4 Hp Hn Ho Hw r. split; [apply csum_fold_range|].
  unfold r, tcp_udp_v6_to_v4. clear r. rewrite pseudo_v6_run, pseudo_v4_run by done.
  pose proof (wsum_words_bound src6 8 (proj2 Hs6) (proj1 Hs6)).
  pose proof (wsum_words_bound dst6 8 (proj2 Hd6) (proj1 Hd6)).
  pose proof (wsum_words_bound src4 2 (proj2 Hs4) (proj1 Hs4)).
  pose proof (wsum_words_bound dst4 2 (proj2 Hd4) (proj1 Hd4)).
  unfold is_byte in Hp.
  assert (0 <= n) by (unfold is_u16 in Hn; lia).
  set (a6 := wsum src6 + wsum dst6 + proto + n) in *.
  set (a4 := wsum src4 + wsum dst4 + proto + n) in *.
  pose proof (residue_u16 a6 ltac:(lia)) as H6. pose proof (residue_u16 a4 ltac:(lia)) as H4.
  rewrite !not16_sub by done.
  destruct (residue_repr a6) as (k6 & _ & E6); [lia|].
  destruct (residue_repr a4) as (k4 & _ & E4); [lia|].
  unfold is_u16 in *.
  rewrite (wrap32_small (65535 - ck + _)), (wrap32_small (65535 - ck + _ + _)),
    (wrap32_small (_ + (65535 - old))), wrap32_small by lia.
  set (s := 65535 - ck + (65535 - residue a6) + residue a4 + (65535 - old) + new).
  rewrite csum_fold_residue by lia.
  destruct (residue_repr s) as (k & _ & E); [lia|].
  exists (k + k4 - k6 - 2). subst s a6 a4. lia.
Qed.

Lemma tcp_udp_v4_to_v6_shift ck src4 dst4 src6 dst6 proto n :
  is_u16 ck → is_arr 4 src4 → is_arr 4 dst4 → is_arr 16 src6 → is_arr 16 dst6 →
  is_byte proto → is_u16 n →
  let r := tcp_udp_v4_to_v6 ck src4 dst4 src6 dst6 proto n in
  is_u16 r ∧
  ∃ k, r + wsum src6 + wsum dst6 = ck + wsum src4 + wsum dst4 + 65535 * k.
Proof.
  intros Hck Hs4 Hd4 Hs6 Hd6 Hp Hn r. split; [apply csum_fold_range|].
  unfold r, tcp_udp_v4_to_v6. clear r. rewrite pseudo_v6_run, pseudo_v4_run by done.
  pose proof (wsum_words_bound src6 8 (proj2 Hs6) (proj1 Hs6)).
  pose proof (wsum_words_bound dst6 8 (proj2 Hd6) (proj1 Hd6)).
  pose proof (wsum_words_bound src4 2 (proj2 Hs4) (proj1 Hs4)).
  pose proof (wsum_words_bound dst4 2 (proj2 Hd4) (proj1 Hd4)).
  unfold is_byte in Hp.
  assert (0 <= n) by (unfold is_u16 in Hn; lia).
  set (a6 := wsum src6 + wsum dst6 + proto + n) in *.
  set (a4 := wsum src4 + wsum dst4 + proto + n) in *.
  pose proof (residue_u16 a6 ltac:(lia)) as H6. pose proof (residue_u16 a4 ltac:(lia)) as H4.
  rewrite !not16_sub by done.
  destruct (residue_repr a6) as (k6 & _ & E6); [lia|].
  destruct (residue_repr a4) as (k4 & _ & E4); [lia|].
  unfold is_u16 in *.
  rewrite (wrap32_small (65535 - ck + _)), wrap32_small by lia.
  set (s := 65535 - ck + (65535 - residue a4) + residue a6).
  rewrite csum_fold_residue by lia.
  destruct (residue_repr s) as (k & _ & E); [lia|].
  exists (k + k6 - k4 - 1). subst s a6 a4. lia.
Qed.

(** ** Lemmas: the translated frame *)

Lemma slice_app_r a b i n k : length a = k → slice (a ++ b) (k + i) n = slice b i n.
Proof. intros <-. unfold slice. by rewrite drop_app_add. Qed.
Lemma slice_app_l a b i n : (i + n <= length a)%nat → slice (a ++ b) i n = slice a i n.
Proof.
  intros H. unfold slice. rewrite drop_app_le by lia. apply take_app_le.
  rewrite length_drop. lia.
Qed.
Lemma slice_drop p k i n : slice (drop k p) i n = slice p (k + i) n.
Proof. unfold slice. by rewrite drop_drop. Qed.
Lemma at_app_r a b i k : length a = k → at_ (a ++ b) (k + i) = at_ b i.
Proof. intros <-. unfold at_. by rewrite app_nth2_plus. Qed.
Lemma at_drop p k i : at_ (drop k p) i = at_ p (k + i).
Proof. unfold at_. rewrite !nth_lookup. by rewrite lookup_drop. Qed.

Lemma ip4hdr_fields_sum t h proto c src dst :
  is_u16 t → is_byte h → is_byte proto → is_u16 c → is_arr 4 src → is_arr 4 dst →
  bytes_ok (ip4hdr_fields t h proto c src dst) ∧
  wsum (ip4hdr_fields t h proto c src dst)
  = 0x4500 + t + be16 h proto + c + wsum src + wsum dst.
Proof.
  intros Ht Hh Hp Hc [Hsl Hsb] [Hdl Hdb].
  explode_arr src 4 Hsl. explode_arr dst 4 Hdl.
  pose proof (to_be16_bytes t Ht) as Htb. pose proof (to_be16_bytes c Hc) as Hcb.
  split.
  - unfold ip4hdr_fields, bytes_ok in *. rewrite !Forall_app, !Forall_cons in *. cbn.
    intuition (unfold is_byte; lia || auto).
  - unfold ip4hdr_fields. cbn [app wsum at_ nth to_be16]. rewrite !be16_to_be16 by done.
    change (be16 69 0) with 0x4500. change (be16 0 0) with 0. lia.
Qed.

Lemma ip4hdr_ok t h proto src dst :
  is_u16 t → is_byte h → is_byte proto → is_arr 4 src → is_arr 4 dst →
  let hdr := ip4hdr t h proto src dst in
  is_arr 20 hdr ∧ csum_valid (wsum hdr) ∧ at_ hdr 0 = 0x45 ∧ at_ hdr 9 = proto ∧
  slice hdr 12 4 = src ∧ slice hdr 16 4 = dst.
Proof.
  intros Ht Hh Hp Hs Hd hdr. unfold hdr, ip4hdr. clear hdr.
  assert (is_u16 0) as H0 by (by unfold is_u16).
  destruct (ip4hdr_fields_sum t h proto 0 src dst Ht Hh Hp H0 Hs Hd) as [B0 S0].
  set (c := ipv4_hdr_checksum (ip4hdr_fields t h proto 0 src dst)).
  assert (is_u16 c) as Hc by apply csum_fold_range.
  destruct (ip4hdr_fields_sum t h proto c src dst Ht Hh Hp Hc Hs Hd) as [B S].
  pose proof (wsum_words_bound src 2 (proj2 Hs) (proj1 Hs)).
  pose proof (wsum_words_bound dst 2 (proj2 Hd) (proj1 Hd)).
  pose proof (be16_range h proto Hh Hp) as Hhp. unfold is_u16 in Ht, Hhp.
  split; [split; [done|done]|split].
  - rewrite S.
    assert (c = csum_fold (wsum (ip4hdr_fields t h proto 0 src dst))) as Ec.
    { unfold c, ipv4_hdr_checksum. rewrite csum_add_words_run; [done|done|by exists 10%nat|done|lia]. }
    replace (_ + c + _ + _) with (wsum (ip4hdr_fields t h proto 0 src dst) + c) by lia.
    rewrite Ec. apply csum_fold_valid. lia.
  - clear -Hs Hd. destruct Hs as [Hsl _], Hd as [Hdl _].
    explode_arr src 4 Hsl. explode_arr dst 4 Hdl. done.
Qed.

(** The frame with the IPv4 header [hdr] in place of the IPv6 header. *)
Definition v4_frame (p hdr : list Z) : list Z :=
  (slice p 0 12 ++ to_be16 ETH_P_IP ++ hdr) ++ drop 54 p.

Lemma nat64_v4_headers_run p hdr :
  (54 <= length p)%nat → length hdr = 20%nat →
  nat64_v4_headers (drop 20 p) (slice p 0 6) (slice p 6 6) hdr = Some (v4_frame p hdr).
Proof.
  intros Hl Hh. unfold nat64_v4_headers, ETH_LEN.
  assert (length (slice p 0 6) = 6%nat) as H1 by (apply length_slice; lia).
  assert (length (slice p 6 6) = 6%nat) as H2 by (apply length_slice; lia).
  change (drop 20 p) with ([] ++ drop 20 p). repeat next_write.
  rewrite !drop_drop, H1, H2, Hh. unfold v4_frame. do 2 f_equal.
  repeat (cbn [app]; rewrite <- ?app_assoc). rewrite app_assoc. f_equal.
  unfold slice. rewrite !drop_0. by rewrite (take_take_drop p 6 6).
Qed.

Section translate.
Context `{KL : KernelLaws}.

Lemma nat64_translate_inv src6 dst6 nip d4 proto n sport port ck w r w' :
  (54 <= length (w_pkt w))%nat →
  nat64_translate src6 dst6 nip d4 proto n sport port ck w = Some (r, w') →
  r = Err ∨
  r = Ok tt ∧ w_maps w' = w_maps w ∧
  nat64_l4_to_v4 (v4_frame (w_pkt w) (ip4hdr (wrap16 (20 + n)) (at_ (w_pkt w) 21) proto nip d4))
    34 src6 dst6 nip d4 proto n sport port ck = Some (Some (w_pkt w')).
Proof using KL.
  intros Hl. unfold nat64_translate, pbind, access, ETH_LEN. cbn [Nat.add].
  rewrite !rdn_slice, rd8_at by lia. unfold xdp_adjust_head, resize.
  destruct (adjust_head 20 (w_pkt w)) as [q|] eqn:Ea; [|intros [= <- _]; by left].
  apply adjust_head_shrink in Ea as [_ ->]; [|done]. change (Z.to_nat 20) with 20%nat.
  cbn [negb]. unfold get_pkt. cbn [w_pkt].
  destruct (short _ _); [intros [= <- _]; by left|].
  unfold rewrite_pkt. cbn [w_pkt]. rewrite nat64_v4_headers_run by done.
  unfold rewrite_or_err, rewrite_opt, pbind. cbn [w_pkt].
  destruct (nat64_l4_to_v4 _ _ _ _ _ _ _ _ _ _ _) as [[q|]|] eqn:E; [|intros [= <- _]; by left|done].
  intros [= <- <-]. right. done.
Qed.
End translate.

(** ** Specification *)

(** The sum an IPv6 receiver checks for an L4 message of [n] bytes. *)
Definition v6_sum (p : list Z) (ip n : nat) (nh : Z) : Z :=
  wsl p (ip + 8) 32 + Z.of_nat n + nh + wsl p (ip + 40) n.

(** The frame holds a TCP, UDP or ICMPv6 message of [n] bytes. *)
Definition v6_message (p : list Z) (n : nat) : Prop :=
  (54 + n <= length p)%nat ∧
  (at_ p 20 = IPPROTO_TCP ∧ (20 <= n)%nat ∨ at_ p 20 = IPPROTO_UDP ∧ (8 <= n)%nat ∨
   at_ p 20 = IPPROTO_ICMPV6 ∧ (8 <= n)%nat).

(** How the IPv4 packet at [off] of [q] carries the message of the frame [p]:
    TCP and UDP verify at the receiver exactly when they did before; an echo
    request becomes an IPv4 echo request and verifies exactly when the words
    behind its header sum to zero, as those of an echo without data do. *)
Definition carried_v4 (p : list Z) (n : nat) (q : list Z) (off : nat) : Prop :=
  (at_ p 20 = IPPROTO_TCP ∨ at_ p 20 = IPPROTO_UDP →
   at_ q (off + 9) = at_ p 20 ∧
   (csum_valid (l4_sum q off (off + 20) n) ↔ csum_valid (v6_sum p 14 n (at_ p 20)))) ∧
  (at_ p 20 = IPPROTO_ICMPV6 →
   at_ q (off + 9) = IPPROTO_ICMP ∧ at_ q (off + 20) = ICMP_ECHO_REQUEST ∧
   (csum_valid (icmp_sum q (off + 20) n) ↔ wsl p 62 (n - 8) mod 65535 = 0)).

Section frame.
Context (p nip d4 : list Z) (t proto : Z).
Context (Hb : bytes_ok p) (Hl : (54 <= length p)%nat).
Context (Ht : is_u16 t) (Hp : is_byte proto) (Hnip : is_arr 4 nip) (Hd4 : is_arr 4 d4).
Let hdr := ip4hdr t (at_ p 21) proto nip d4.
Let f := v4_frame p hdr.

Lemma v4_frame_hdr :
  is_arr 20 hdr ∧ csum_valid (wsum hdr) ∧ at_ hdr 0 = 0x45 ∧ at_ hdr 9 = proto ∧
  slice hdr 12 4 = nip ∧ slice hdr 16 4 = d4.
Proof. apply ip4hdr_ok; try done. by apply at_byte. Qed.

Lemma v4_frame_front : length (slice p 0 12 ++ to_be16 ETH_P_IP ++ hdr) = 34%nat.
Proof. rewrite !length_app, length_slice by lia. done. Qed.

Lemma v4_frame_length : length f = (length p - 20)%nat.
Proof. unfold f, v4_frame. rewrite length_app, v4_frame_front, length_drop. lia. Qed.

Lemma v4_frame_bytes : bytes_ok f.
Proof.
  unfold f, v4_frame, bytes_ok. rewrite !Forall_app. repeat split.
  - by apply bytes_ok_slice.
  - by apply to_be16_bytes.
  - apply v4_frame_hdr.
  - by apply Forall_drop.
Qed.

Lemma v4_frame_slice i n : (i + n <= 20)%nat → slice f (14 + i) n = slice hdr i n.
Proof.
  intros Hi. unfold f, v4_frame.
  replace ((slice p 0 12 ++ to_be16 ETH_P_IP ++ hdr) ++ drop 54 p)
    with ((slice p 0 12 ++ to_be16 ETH_P_IP) ++ hdr ++ drop 54 p) by (by rewrite <- !app_assoc).
  rewrite slice_app_r by (rewrite length_app, length_slice by lia; done).
  apply slice_app_l. by destruct v4_frame_hdr as [[-> _] _].
Qed.

Lemma v4_frame_at i : (i < 20)%nat → at_ f (14 + i) = at_ hdr i.
Proof.
  intros Hi. pose proof (v4_frame_slice i 1 ltac:(lia)) as E.
  assert (length hdr = 20%nat) as Hh by apply v4_frame_hdr.
  rewrite !slice_cons in E by (rewrite ?v4_frame_length; lia). by injection E.
Qed.

Lemma v4_frame_payload i n : slice f (34 + i) n = slice p (54 + i) n.
Proof. unfold f, v4_frame. rewrite slice_app_r by apply v4_frame_front. apply slice_drop. Qed.

Lemma v4_frame_w16 i : w16 f (34 + i) = w16 p (54 + i).
Proof.
  unfold w16, f, v4_frame. rewrite <- (Nat.add_assoc 34).
  rewrite !(at_app_r _ _ _ 34) by apply v4_frame_front. by rewrite !at_drop, Nat.add_assoc.
Qed.

Lemma v4_frame_src : slice f 26 4 = nip.
Proof. etransitivity; [exact (v4_frame_slice 12 4 ltac:(lia))|apply v4_frame_hdr]. Qed.
Lemma v4_frame_dst : slice f 30 4 = d4.
Proof. etransitivity; [exact (v4_frame_slice 16 4 ltac:(lia))|apply v4_frame_hdr]. Qed.
Lemma v4_frame_proto : at_ f 23 = proto.
Proof. etransitivity; [exact (v4_frame_at 9 ltac:(lia))|apply v4_frame_hdr]. Qed.
Lemma v4_frame_l4 n : wsl f 34 n = wsl p 54 n.
Proof. unfold wsl. f_equal. exact (v4_frame_payload 0 n). Qed.
Lemma v4_frame_port : w16 f 34 = w16 p 54.
Proof. exact (v4_frame_w16 0). Qed.

Lemma v4_frame_addrs : wsl f 26 8 = wsum nip + wsum d4.
Proof.
  pose proof (wsl_split f 26 2 2) as E. cbn [Nat.add Nat.mul] in E.
  rewrite E by (rewrite v4_frame_length; lia). unfold wsl.
  by rewrite v4_frame_src, v4_frame_dst.
Qed.

Lemma v4_frame_ip_valid : csum_valid (ip_sum f 14).
Proof.
  unfold ip_sum, wsl. change 14%nat with (14 + 0)%nat. rewrite v4_frame_slice by lia.
  unfold slice. rewrite drop_0, take_ge; [apply v4_frame_hdr|].
  by destruct v4_frame_hdr as [[-> _] _].
Qed.
End frame.

(** The header of a frame that agrees with the translated one below the L4
    message, and what its receiver checks of the message. *)
Lemma v4_frame_header p nip d4 t proto q n :
  bytes_ok p → (54 <= length p)%nat → is_u16 t → is_byte proto → is_arr 4 nip → is_arr 4 d4 →
  same_below 34 (v4_frame p (ip4hdr t (at_ p 21) proto nip d4)) q →
  csum_valid (ip_sum q 14) ∧ slice q 26 4 = nip ∧ slice q 30 4 = d4 ∧ at_ q 23 = proto ∧
  l4_sum q 14 34 n = wsum nip + wsum d4 + proto + Z.of_nat n + wsl q 34 n.
Proof.
  intros Hb Hl Ht Hp Hn Hd Hs.
  set (f := v4_frame p (ip4hdr t (at_ p 21) proto nip d4)) in *.
  assert (34 <= length f)%nat as Hf by (unfold f; rewrite v4_frame_length by done; lia).
  assert (at_ q 23 = proto) as E23.
  { rewrite (proj2 Hs) by lia. unfold f. by rewrite v4_frame_proto. }
  split_and!; [..|done|].
  - unfold ip_sum. rewrite (same_below_wsl 34 f q) by (done || lia). by apply v4_frame_ip_valid.
  - rewrite (same_below_slice 34 f q) by (done || lia). unfold f.
    by rewrite v4_frame_src.
  - rewrite (same_below_slice 34 f q) by (done || lia). unfold f.
    by rewrite v4_frame_dst.
  - unfold l4_sum. cbn [Nat.add]. rewrite E23, (same_below_wsl 34 f q) by (done || lia).
    unfold f. by rewrite v4_frame_addrs.
Qed.

(** TCP and UDP: the port and checksum rewrite leaves the checksum as valid as
    it was. *)
Lemma nat64_ports_valid p nip d4 t proto n port off src6 dst6 q :
  bytes_ok p → (54 + n <= length p)%nat → is_u16 t → is_byte proto → 0 < proto →
  is_arr 4 nip → is_arr 4 d4 → is_u16 port → is_u16 (Z.of_nat n) →
  (2 <= off)%nat → Nat.Even off → (off + 2 <= n)%nat →
  slice p 22 16 = src6 → slice p 38 16 = dst6 →
  let f := v4_frame p (ip4hdr t (at_ p 21) proto nip d4) in
  nat64_ports_to_v4 f 34 off port
    (tcp_udp_v6_to_v4 (w16 p (54 + off)) src6 dst6 nip d4 proto (Z.of_nat n) (w16 p 54) port)
  = Some q →
  same_below 34 f q ∧ w16 q 34 = port ∧
  (csum_valid (wsum nip + wsum d4 + proto + Z.of_nat n + wsl q 34 n) ↔
   csum_valid (v6_sum p 14 n proto)).
Proof.
  intros Hb Hl Ht Hp Hp0 Hn Hd Hport Hlen Ho1 Hoe Ho2 Hs6 Hd6 f.
  assert (54 <= length p)%nat as Hl' by lia.
  assert (length f = length p - 20)%nat as Hfl by (by apply v4_frame_length).
  assert (is_arr 16 src6) as Ha6.
  { rewrite <- Hs6. split; [apply length_slice; lia|by apply bytes_ok_slice]. }
  assert (is_arr 16 dst6) as Hb6.
  { rewrite <- Hd6. split; [apply length_slice; lia|by apply bytes_ok_slice]. }
  destruct (tcp_udp_v6_to_v4_shift (w16 p (54 + off)) src6 dst6 nip d4 proto (Z.of_nat n)
    (w16 p 54) port) as (Hr & k & Ek); try done; try by apply w16_range.
  set (ck := tcp_udp_v6_to_v4 _ _ _ _ _ _ _ _ _) in *.
  unfold nat64_ports_to_v4. rewrite wr16_splice by lia. cbn [mbind option_bind].
  rewrite wr16_splice by (rewrite length_splice; cbn [length to_be16]; lia).
  set (g := splice (splice f 34 (to_be16 port)) (34 + off) (to_be16 ck)). intros [= <-].
  assert (bytes_ok g) as Hg.
  { apply bytes_ok_splice; [apply bytes_ok_splice|]; try by apply to_be16_bytes.
    by apply v4_frame_bytes. }
  split; [|split].
  - apply same_below_trans with (splice f 34 (to_be16 port)); apply same_below_splice;
      rewrite ?length_splice; cbn [length to_be16]; lia.
  - unfold g. rewrite w16_splice_out by (rewrite ?length_splice; cbn [length to_be16]; lia).
    apply w16_splice_same; [lia|done].
  - pose proof (wsl_nonneg g 34 n Hg). pose proof (wsl_nonneg p 54 n Hb).
    pose proof (wsum_nonneg nip (proj2 Hn)). pose proof (wsum_nonneg d4 (proj2 Hd)).
    pose proof (wsum_nonneg src6 (proj2 Ha6)). pose proof (wsum_nonneg dst6 (proj2 Hb6)).
    assert (v6_sum p 14 n proto = wsum src6 + wsum dst6 + Z.of_nat n + proto + wsl p 54 n) as ->.
    { unfold v6_sum. cbn [Nat.add]. pose proof (wsl_split p 22 8 8) as E. cbn [Nat.add Nat.mul] in E.
      rewrite E by lia. unfold wsl at 1 2. by rewrite Hs6, Hd6. }
    apply csum_valid_shift with k; [lia..|].
    assert (wsl g 34 n = wsl p 54 n - w16 p 54 + port - w16 p (54 + off) + ck) as ->; [|lia].
    unfold g. rewrite wsl_set16_2; try done; try lia;
      [|by exists 0%nat|by replace (34 + off - 34)%nat with off by lia].
    unfold f. rewrite v4_frame_w16 by done.
    by rewrite v4_frame_port, v4_frame_l4.
Qed.

(** The eight bytes of an echo header before the sequence number, and what
    follows, after [k] bytes. *)
Lemma w16_app_r (fr r : list Z) k i : length fr = k → w16 (fr ++ r) (k + i) = w16 r i.
Proof. intros H. unfold w16. rewrite <- Nat.add_assoc. by rewrite !at_app_r. Qed.
Lemma echo_head_sum (fr rest : list Z) k ty chk id :
  length fr = k → is_byte ty → is_u16 chk → is_u16 id → (2 <= length rest)%nat →
  wsl (fr ++ ([ty; 0] ++ to_be16 chk ++ to_be16 id) ++ rest) k 8 = ty * 256 + chk + id + w16 rest 0.
Proof.
  intros Hfr Hty Hc Hi Hr. unfold wsl.
  pose proof (slice_app_r fr (([ty; 0] ++ to_be16 chk ++ to_be16 id) ++ rest) 0 8 k Hfr) as E.
  rewrite Nat.add_0_r in E. rewrite E.
  replace (slice _ 0 8) with ([ty; 0] ++ to_be16 chk ++ to_be16 id ++ slice rest 0 2)
    by by (unfold slice; rewrite !drop_0).
  change (wsum _) with (be16 ty 0 + (be16 (Z.shiftr chk 8) (wrap8 chk)
    + (be16 (Z.shiftr id 8) (wrap8 id) + wsl rest 0 2))).
  rewrite !be16_to_be16, w16_wsl by (done || lia).
  assert (be16 ty 0 = ty * 256) as -> by (rewrite be16_add by (done || unfold is_byte; lia); lia). lia.
Qed.
Lemma echo_tail_sum (fr rest : list Z) k ty chk id m :
  length fr = k →
  wsl (fr ++ ([ty; 0] ++ to_be16 chk ++ to_be16 id) ++ rest) (k + 8) m = wsl rest 2 m.
Proof.
  intros Hfr. unfold wsl. f_equal. rewrite (slice_app_r fr _ 8 m k Hfr).
  exact (slice_app_r ([ty; 0] ++ to_be16 chk ++ to_be16 id) rest 2 m 6 eq_refl).
Qed.

(** Echo: the checksum of the eight header bytes. *)
Lemma echo_request_csum id seq :
  is_u16 id → is_u16 seq →
  icmpv4_echo_checksum ([ICMP_ECHO_REQUEST; 0; 0; 0] ++ to_be16 id ++ to_be16 seq) =
  csum_fold (0x0800 + id + seq).
Proof.
  intros Hi Hs. unfold icmpv4_echo_checksum, ICMP_ECHO_REQUEST. unfold is_u16 in *.
  assert (wsum ([8; 0; 0; 0] ++ to_be16 id ++ to_be16 seq) = 0x800 + id + seq) as E.
  { cbn [app to_be16 wsum]. rewrite !be16_to_be16 by done.
    change (be16 8 0) with 0x800. change (be16 0 0) with 0. lia. }
  rewrite csum_add_words_run; [by rewrite E| |by exists 4%nat|lia|rewrite E; lia].
  unfold bytes_ok. rewrite !Forall_app. split; [by apply bytes_ok_b|].
  split; by apply to_be16_bytes.
Qed.

Lemma nat64_icmp_valid p nip d4 t proto port n q :
  bytes_ok p → (54 + n <= length p)%nat → (8 <= n)%nat → is_u16 t → is_byte proto →
  is_arr 4 nip → is_arr 4 d4 → is_u16 port →
  let f := v4_frame p (ip4hdr t (at_ p 21) proto nip d4) in
  nat64_icmp_to_v4 f 34 port = Some q →
  same_below 34 f q ∧ w16 q 38 = port ∧ at_ q 34 = ICMP_ECHO_REQUEST ∧
  (csum_valid (wsl q 34 n) ↔ wsl p 62 (n - 8) mod 65535 = 0).
Proof.
  intros Hb Hln Hn8 Ht Hp Hn Hd Hport f. assert (62 <= length p)%nat as Hl by lia.
  assert (54 <= length p)%nat as Hl' by lia.
  assert (length f = length p - 20)%nat as Hfl by (by apply v4_frame_length).
  assert (w16 f (34 + 6) = w16 p (54 + 6)) as E40 by (by apply v4_frame_w16).
  cbn [Nat.add] in E40.
  pose proof (w16_range p 60 Hb) as Hs.
  unfold nat64_icmp_to_v4. rewrite rd16_w16 by lia. cbn [Nat.add mbind option_bind].
  rewrite E40. set (chk := icmpv4_echo_checksum _).
  assert (chk = csum_fold (0x0800 + port + w16 p 60)) as Echk by (by apply echo_request_csum).
  assert (is_u16 chk) as Hchk by (rewrite Echk; apply csum_fold_range).
  assert (length (slice p 0 12 ++ to_be16 ETH_P_IP ++ ip4hdr t (at_ p 21) proto nip d4) = 34%nat)
    as Hfr by (by apply v4_frame_front).
  unfold f, v4_frame. set (fr := slice p 0 12 ++ _) in *.
  assert (length (drop 54 p) = length p - 54)%nat as Hdl by apply length_drop.
  repeat next_write. intros [= <-]. rewrite !drop_drop. cbn [Nat.add].
  set (q := _ ++ drop 60 p).
  assert (q = fr ++ (([ICMP_ECHO_REQUEST; 0] ++ to_be16 chk ++ to_be16 port) ++ drop 60 p)) as Eq.
  { unfold q. by rewrite <- !app_assoc. }
  clearbody q. subst q. split; [|split; [|split]].
  - split.
    + rewrite !length_app, !length_drop. cbn [length to_be16]. lia.
    + intros i Hi. unfold at_. rewrite !app_nth1 by lia. done.
  - rewrite <- w16_wsl by (rewrite !length_app, length_drop; cbn [length to_be16]; lia).
    unfold wsl. rewrite <- (wsum_to_be16 port) at 2 by done. f_equal.
    rewrite (slice_app_r fr _ 4 2 34 Hfr). done.
  - change 34%nat with (34 + 0)%nat. by rewrite at_app_r.
  - rewrite (wsl_cut _ 34 8)
      by first [by exists 4%nat|lia|rewrite !length_app, !length_drop; cbn [length to_be16]; lia].
    rewrite (echo_tail_sum _ _ 34), (echo_head_sum _ _ 34)
      by first [done|rewrite length_drop; lia].
    assert (wsl (drop 60 p) 2 (n - 8) = wsl p 62 (n - 8)) as -> by (unfold wsl; by rewrite slice_drop).
    assert (w16 (drop 60 p) 0 = w16 p 60) as -> by (unfold w16; by rewrite !at_drop).
    pose proof (wsl_nonneg p 62 (n - 8) Hb). unfold is_u16 in *. change (ICMP_ECHO_REQUEST * 256) with 0x800.
    replace (0x800 + chk + port + w16 p 60) with (0x800 + port + w16 p 60 + chk) by lia.
    apply csum_valid_add; [lia|rewrite Echk; apply csum_fold_valid; lia|done].
Qed.

Lemma nat64_l4_total p nh : ∃ r, nat64_l4 p nh = Some r.
Proof. unfold nat64_l4, ETH_LEN, IPV6_LEN. cbn [Nat.add]. mem_go; eauto. Qed.

Lemma nat64_l4_inv p nh proto sp dp ck :
  nat64_l4 p nh = Some (Some (proto, sp, dp, ck)) →
  (nh = IPPROTO_ICMPV6 ∧ proto = IPPROTO_ICMP ∧ (62 <= length p)%nat ∧ sp = w16 p 58) ∨
  (nh = IPPROTO_TCP ∧ proto = IPPROTO_TCP ∧ (74 <= length p)%nat ∧ sp = w16 p 54 ∧ ck = w16 p 70) ∨
  (nh = IPPROTO_UDP ∧ proto = IPPROTO_UDP ∧ (62 <= length p)%nat ∧ sp = w16 p 54 ∧ ck = w16 p 60).
Proof.
  unfold nat64_l4, ETH_LEN, IPV6_LEN. cbn [Nat.add].
  mem_go; intros [=]; subst; zbool; cbn [Nat.add] in *; auto 10.
Qed.

Section translate_valid.
Context `{KL : KernelLaws}.

(** The L4 part of the translation. *)
Lemma nat64_l4_carried p n nip d4 t proto sport dport port ck q :
  bytes_ok p → v6_message p n → is_u16 (Z.of_nat n) → is_u16 t →
  nat64_l4 p (at_ p 20) = Some (Some (proto, sport, dport, ck)) →
  is_arr 4 nip → is_arr 4 d4 → is_u16 port →
  let f := v4_frame p (ip4hdr t (at_ p 21) proto nip d4) in
  nat64_l4_to_v4 f 34 (slice p 22 16) (slice p 38 16) nip d4 proto (Z.of_nat n) sport port ck
    = Some (Some q) →
  is_byte proto ∧ same_below 34 f q ∧ w16 q (if proto =? IPPROTO_ICMP then 38 else 34) = port ∧
  (at_ p 20 = IPPROTO_TCP ∨ at_ p 20 = IPPROTO_UDP → proto = at_ p 20 ∧
    (csum_valid (wsum nip + wsum d4 + proto + Z.of_nat n + wsl q 34 n) ↔
     csum_valid (v6_sum p 14 n (at_ p 20)))) ∧
  (at_ p 20 = IPPROTO_ICMPV6 → proto = IPPROTO_ICMP ∧ at_ q 34 = ICMP_ECHO_REQUEST ∧
    (csum_valid (wsl q 34 n) ↔ wsl p 62 (n - 8) mod 65535 = 0)).
Proof using.
  intros Hb [Hl Hv] Hn Htl Hl4 Hnip Hd4 Hport f Ht. apply nat64_l4_inv in Hl4.
  unfold IPPROTO_ICMPV6, IPPROTO_TCP, IPPROTO_UDP, IPPROTO_ICMP, is_byte in *.
  revert Ht. unfold nat64_l4_to_v4, IPPROTO_TCP, IPPROTO_ICMP.
  destruct Hl4 as [(E & -> & Hl5 & ->)|[(E & -> & Hl5 & -> & ->)|(E & -> & Hl5 & -> & ->)]];
    rewrite E in *; cbn [Z.eqb Pos.eqb].
  - destruct Hv as [[? _]|[[? _]|[_ Hn8]]]; [done..|].
    destruct (nat64_icmp_to_v4 f 34 port) as [q'|] eqn:Ei; [|done]. intros [= ->].
    apply (nat64_icmp_valid p nip d4 t 1 port n) in Ei as (? & ? & ? & ?); try done; try (unfold is_byte; lia).
    split; [lia|]. do 2 (split; [done|]). split; [intros [?|?]; done|done].
  - destruct Hv as [[_ Hlo]|[[? _]|[? _]]]; [|done..].
    destruct (short f _); [done|].
    destruct (nat64_ports_to_v4 _ _ _ _ _) as [q'|] eqn:Ei; [|done]. intros [= ->].
    apply (nat64_ports_valid p nip d4 _ 6 n port 16) in Ei as (? & ? & ?); try done; try (unfold is_byte; lia);
      try (by exists 8%nat).
  - destruct Hv as [[? _]|[[_ Hlo]|[? _]]]; [done| |done].
    destruct (short f _); [done|].
    destruct (nat64_ports_to_v4 _ _ _ _ _) as [q'|] eqn:Ei; [|done]. intros [= ->].
    apply (nat64_ports_valid p nip d4 _ 17 n port 6) in Ei as (? & ? & ?); try done; try (unfold is_byte; lia);
      try (by exists 3%nat).
Qed.

(** The translation of an IPv6 frame. *)
Lemma nat64_translate_carried p n nip d4 proto sport dport port ck w w' :
  w_pkt w = p → bytes_ok p → v6_message p n → is_u16 (Z.of_nat n) →
  nat64_l4 p (at_ p 20) = Some (Some (proto, sport, dport, ck)) →
  is_arr 4 nip → is_arr 4 d4 → is_u16 port →
  nat64_translate (slice p 22 16) (slice p 38 16) nip d4 proto (Z.of_nat n) sport port ck w
    = Some (Ok tt, w') →
  csum_valid (ip_sum (w_pkt w') 14) ∧ slice (w_pkt w') 26 4 = nip ∧ slice (w_pkt w') 30 4 = d4 ∧
  at_ (w_pkt w') 23 = proto ∧ w16 (w_pkt w') (if proto =? IPPROTO_ICMP then 38 else 34) = port ∧
  carried_v4 p n (w_pkt w') 14 ∧ w_maps w' = w_maps w.
Proof using KL.
  intros Hw Hb Hv Hn Hl4 Hnip Hd4 Hport Ht. pose proof (proj1 Hv) as Hl.
  apply nat64_translate_inv in Ht as [|(_ & Hm & Ht)]; [done| |rewrite Hw; lia].
  rewrite Hw in Ht. set (q := w_pkt w') in *.
  assert (is_u16 (wrap16 (20 + Z.of_nat n))) as Htl.
  { unfold is_u16. rewrite wrap16_mod. apply Z.mod_pos_bound. lia. }
  eapply nat64_l4_carried in Ht as (Hp & Hs & Hpo & H1 & H2); try done.
  destruct (v4_frame_header p nip d4 (wrap16 (20 + Z.of_nat n)) proto q n) as (A & B & C & D & F);
    try done; [lia|].
  do 5 (split; [done|]). split; [|done]. split; cbn [Nat.add].
  - intros Hpr. apply H1 in Hpr as [-> Hiff]. rewrite F. by split.
  - intros Hpr. apply H2 in Hpr as (-> & ? & ?). by split.
Qed.
End translate_valid.

(** ** Ingress *)

(** The translated reply: [hdr54] before the L4 message. *)
Definition v6_front (mac : list Z) (len proto ttl : Z) (src6 dst6 : list Z) : list Z :=
  guest_eth mac ETH_P_IPV6 ++ [0x60; 0; 0; 0] ++ to_be16 len ++ [proto; ttl] ++ src6 ++ dst6.

Lemma v6_front_length mac len proto ttl src6 dst6 :
  length mac = 6%nat → length src6 = 16%nat → length dst6 = 16%nat →
  length (v6_front mac len proto ttl src6 dst6) = 54%nat.
Proof. intros H1 H2 H3. unfold v6_front, guest_eth. by rewrite !length_app, H1, H2, H3. Qed.

Lemma nat64_v6_headers_run p mac len proto ttl src6 dst6 :
  (54 <= length p)%nat → length mac = 6%nat → length src6 = 16%nat → length dst6 = 16%nat →
  nat64_v6_headers p mac len proto ttl src6 dst6
  = Some (v6_front mac len proto ttl src6 dst6 ++ drop 54 p).
Proof.
  intros Hl Hm Hs Hd. unfold nat64_v6_headers, ETH_LEN. change p with ([] ++ p) at 1.
  repeat next_write. rewrite !drop_drop, Hm, Hs, Hd. unfold v6_front, guest_eth. f_equal.
  repeat (cbn [app]; rewrite <- ?app_assoc). done.
Qed.

Section v6.
Context (fr r : list Z) (src6 dst6 : list Z) (n : nat) (proto : Z).
Context (Hfr : length fr = 54%nat) (Hr : (n <= length r)%nat) (Hrb : bytes_ok r).
Context (Hs : slice fr 22 16 = src6) (Hd : slice fr 38 16 = dst6).
Context (Hsl : length src6 = 16%nat) (Hdl : length dst6 = 16%nat).

Lemma v6_sum_front q :
  length q = length (fr ++ r) → (∀ i, (i < 54)%nat → at_ q i = at_ (fr ++ r) i) →
  v6_sum q 14 n proto = wsum src6 + wsum dst6 + Z.of_nat n + proto + wsl q 54 n.
Proof.
  intros Hq Ha. assert (same_below 54 (fr ++ r) q) as Hsb by done.
  unfold v6_sum. cbn [Nat.add].
  assert (54 <= length (fr ++ r))%nat as Hl by (rewrite length_app; lia).
  rewrite (same_below_wsl 54 (fr ++ r) q 22 32) by (done || lia).
  pose proof (wsl_split (fr ++ r) 22 8 8) as E. cbn [Nat.add Nat.mul] in E. rewrite E by lia.
  unfold wsl at 1 2. rewrite !slice_app_l, Hs, Hd by lia. done.
Qed.

(** TCP and UDP: the checksum rewrite moves the pseudo-header, and leaves the
    checksum as valid as it was. *)
Lemma v6_csum_valid src4 dst4 off :
  is_arr 4 src4 → is_arr 4 dst4 → is_arr 16 src6 → is_arr 16 dst6 →
  is_byte proto → 0 < proto → is_u16 (Z.of_nat n) → Nat.Even off → (off + 2 <= n)%nat →
  let ck := tcp_udp_v4_to_v6 (w16 r off) src4 dst4 src6 dst6 proto (Z.of_nat n) in
  csum_valid (v6_sum (splice (fr ++ r) (54 + off) (to_be16 ck)) 14 n proto) ↔
  csum_valid (wsum src4 + wsum dst4 + proto + Z.of_nat n + wsl r 0 n).
Proof.
  intros H4s H4d H6s H6d Hp Hp0 Hn16 Hoe Hoff ck.
  destruct (tcp_udp_v4_to_v6_shift (w16 r off) src4 dst4 src6 dst6 proto (Z.of_nat n))
    as (Hck & k & Ek); try done; [by apply w16_range|]. fold ck in Hck, Ek.
  assert (54 + n <= length (fr ++ r))%nat as Hl by (rewrite length_app; lia).
  rewrite v6_sum_front.
  2: by rewrite length_splice by (cbn [length to_be16]; lia).
  2: intros i Hi; apply at_splice_out; cbn [length to_be16]; lia.
  rewrite wsl_set16; try done; try lia; [|by replace (54 + off - 54)%nat with off by lia].
  assert (wsl (fr ++ r) 54 n = wsl r 0 n) as ->.
  { unfold wsl. f_equal. exact (slice_app_r fr r 0 n 54 Hfr). }
  assert (w16 (fr ++ r) (54 + off) = w16 r off) as ->.
  { by apply w16_app_r. }
  pose proof (wsum_nonneg src4 (proj2 H4s)). pose proof (wsum_nonneg dst4 (proj2 H4d)).
  pose proof (wsum_nonneg src6 (proj2 H6s)). pose proof (wsum_nonneg dst6 (proj2 H6d)).
  pose proof (wsl_nonneg r 0 n Hrb).
  pose proof (wsl_set16 r 0 n off 0 ltac:(lia) ltac:(lia) ltac:(lia)
    ltac:(by rewrite Nat.sub_0_r) ltac:(by unfold is_u16)) as E.
  pose proof (wsl_nonneg (splice r off (to_be16 0)) 0 n
    ltac:(by apply bytes_ok_splice; [|apply to_be16_bytes])) as Hz.
  unfold is_u16 in Hck. rewrite E in Hz.
  apply csum_valid_shift with k; lia.
Qed.

(** Echo: the checksum is over the pseudo-header and the eight bytes. *)
Lemma echo_reply_csum sport seq :
  is_arr 16 src6 → is_arr 16 dst6 → is_u16 sport → is_u16 seq →
  icmpv6_echo_checksum src6 dst6
    ([ICMPV6_ECHO_REPLY; 0; 0; 0] ++ to_be16 sport ++ to_be16 seq)
  = csum_fold (wsum src6 + wsum dst6 + 8 + 58 + (0x8100 + sport + seq)).
Proof.
  intros H6s H6d Hsp Hw. unfold is_u16 in Hsp, Hw.
  pose proof (wsum_words_bound src6 8 (proj2 H6s) Hsl). pose proof (wsum_words_bound dst6 8 (proj2 H6d) Hdl).
  assert (wsum ([ICMPV6_ECHO_REPLY; 0; 0; 0] ++ to_be16 sport ++ to_be16 seq)
    = 0x8100 + sport + seq) as Eh.
  { unfold ICMPV6_ECHO_REPLY. cbn [app to_be16 wsum]. rewrite !be16_to_be16 by done.
    change (be16 129 0) with 0x8100. change (be16 0 0) with 0. lia. }
  unfold icmpv6_echo_checksum.
  rewrite (csum_add_words_run src6) by (apply H6s || lia || rewrite Hsl; by exists 8%nat).
  rewrite (csum_add_words_run dst6) by (apply H6d || lia || rewrite Hdl; by exists 8%nat).
  rewrite (csum_add16_run _ 0 8)
    by (unfold is_byte; lia || rewrite be16_0 by (unfold is_byte; lia); lia).
  rewrite be16_0 by (unfold is_byte; lia).
  rewrite (csum_add16_run _ 0 IPPROTO_ICMPV6)
    by (unfold is_byte, IPPROTO_ICMPV6; lia
        || rewrite be16_0 by (unfold is_byte, IPPROTO_ICMPV6; lia); unfold IPPROTO_ICMPV6; lia).
  rewrite be16_0 by (unfold is_byte, IPPROTO_ICMPV6; lia). unfold IPPROTO_ICMPV6.
  rewrite csum_add_words_run; [|..|by exists 4%nat|lia|rewrite Eh; lia].
  - f_equal. rewrite Eh. lia.
  - unfold bytes_ok. rewrite !Forall_app. split; [by apply bytes_ok_b|]. split; by apply to_be16_bytes.
Qed.
Lemma v6_icmp_valid sport :
  (8 <= n)%nat → proto = IPPROTO_ICMPV6 → is_arr 16 src6 → is_arr 16 dst6 → is_u16 sport →
  let chk := icmpv6_echo_checksum src6 dst6
    ([ICMPV6_ECHO_REPLY; 0; 0; 0] ++ to_be16 sport ++ to_be16 (w16 r 6)) in
  csum_valid (v6_sum (fr ++ ([ICMPV6_ECHO_REPLY; 0] ++ to_be16 chk ++ to_be16 sport)
    ++ drop 6 r) 14 n proto) ↔ (Z.of_nat n - 8 + wsl r 8 (n - 8)) mod 65535 = 0.
Proof.
  intros Hn8 Hp H6s H6d Hsp chk. rewrite v6_sum_front.
  2: rewrite !length_app, length_drop; cbn [length to_be16]; lia.
  2: intros i Hi; unfold at_; rewrite !app_nth1 by lia; done.
  rewrite Hp in *. pose proof (wsl_nonneg r 8 (n - 8) Hrb) as Hrest.
  pose proof (wsum_words_bound src6 8 (proj2 H6s) Hsl). pose proof (wsum_words_bound dst6 8 (proj2 H6d) Hdl).
  pose proof (w16_range r 6 Hrb) as Hw. pose proof (echo_reply_csum sport (w16 r 6) H6s H6d Hsp Hw) as Ec.
  fold chk in Ec. set (s := wsum src6 + _ + 8 + 58 + _) in Ec.
  assert (is_u16 chk) as Hchk by (rewrite Ec; apply csum_fold_range).
  rewrite (wsl_cut _ 54 8)
    by first [by exists 4%nat|lia|rewrite !length_app, !length_drop; cbn [length to_be16]; lia].
  rewrite (echo_tail_sum _ _ 54), (echo_head_sum _ _ 54)
    by first [done|rewrite length_drop; lia].
  assert (wsl (drop 6 r) 2 (n - 8) = wsl r 8 (n - 8)) as -> by (unfold wsl; by rewrite slice_drop).
  assert (w16 (drop 6 r) 0 = w16 r 6) as -> by (unfold w16; by rewrite !at_drop).
  match goal with |- csum_valid ?x ↔ _ => replace x with (s + chk + (Z.of_nat n - 8 + wsl r 8 (n - 8)))
    by (unfold s, IPPROTO_ICMPV6, ICMPV6_ECHO_REPLY; lia) end.
  unfold is_u16 in *. apply csum_valid_add; [lia| |lia]. rewrite Ec.
  apply csum_fold_valid. unfold s. lia.
Qed.
End v6.

(** ** Property *)

Lemma carried_v4_drop p n q k : carried_v4 p n q k → carried_v4 p n (drop k q) 0.
Proof.
  unfold carried_v4, l4_sum, icmp_sum, wsl.
  rewrite !slice_drop, !at_drop, !Nat.add_assoc. cbn [Nat.add]. by rewrite <- !Nat.add_assoc.
Qed.
Lemma ip_sum_drop p k : ip_sum (drop k p) 0 = ip_sum p k.
Proof. unfold ip_sum, wsl. by rewrite slice_drop, Nat.add_0_r. Qed.

(** The checks of the egress path up to the translation. *)
Lemma nat64_egress_enter `{Kernel} vni guest ul w w' act :
  let p := w_pkt w in
  (54 <= length p)%nat → nat64_egress vni guest ul w = Some (Ok (Some act), w') →
  ∃ nat proto sport dport ck port w1 w2,
    m_nat (w_maps w) !! mkNatKey vni guest = Some nat ∧
    nat64_l4 p (at_ p 20) = Some (Some (proto, sport, dport, ck)) ∧
    nat_port_of CT_F_NAT64 (mkCtKey vni guest (drop 12 (slice p 38 16)) sport dport proto)
      (nv_nat_ipv4 nat) (nv_port_min nat) (wrap16 (nv_port_max nat - nv_port_min nat)) w
      = Some (port, w1) ∧
    nat64_translate (slice p 22 16) (slice p 38 16) (nv_nat_ipv4 nat) (drop 12 (slice p 38 16))
      proto (w16 p 18) sport port ck w1 = Some (Ok tt, w2) ∧
    nat64_forward vni (drop 12 (slice p 38 16)) ul w2 = Some (Ok (Some act), w').
Proof.
  intros p Hl. unfold nat64_egress, ETH_LEN, IPV6_LEN. cbn [Nat.add].
  unfold pbind at 1, get_pkt. fold p. destruct (short p 62); [done|].
  unfold pbind at 1, access. fold p. rewrite rdn_slice by lia.
  destruct (negb _); [done|]. unfold pbind at 1, gets.
  destruct (m_nat (w_maps w) !! mkNatKey vni guest) as [nat|]; [|done].
  destruct (_ =? 0); [done|].
  unfold pbind at 1. fold p. rewrite rdn_slice by lia. unfold pbind at 1. fold p.
  rewrite rd8_at by lia. unfold pbind at 1. fold p. rewrite rd16_w16 by lia.
  destruct (short p _); [done|]. unfold pbind at 1. fold p.
  destruct (nat64_l4 p (at_ p 20)) as [[[[[proto sport] dport] ck]|]|]; [|done..].
  intros E. apply pbind_inv in E as (port & w1 & E1 & E).
  apply rbind_inv in E as ([] & w2 & E2 & E). eauto 20.
Qed.


(** A DNS query of a guest to 64:ff9b::8.8.8.8. *)
Definition demo_v6_udp : list Z :=
  replicate 12 7 ++ [0x86; 0xdd; 0x60; 0; 0; 0; 0; 12; 17; 64]
  ++ [0xfd] ++ replicate 14 0 ++ [5] ++ NAT64_PFX ++ [8; 8; 8; 8]
  ++ [0x13; 0x88; 0; 53; 0; 12; 218; 253; 1; 2; 3; 4].
Definition demo_nat64_maps : Maps :=
  with_nat (λ _, {[ mkNatKey 100 [10; 0; 0; 5] := mkNatValue [203; 0; 113; 1] 40000 40016 ]})
    (with_routes (λ _, {[ mkLpmKey 32 [0; 0; 0; 100; 0; 0; 0; 0] := mkRouteValue 0 (replicate 16 2) 1 ]})
      (with_local (λ _, Some demo_local) empty_maps)).
Definition demo_nat64_world : world := mkWorld demo_v6_udp demo_nat64_maps 0 None.

(** The run took the packet. *)
Definition acted (r : option (result (option Z) * world)) : bool :=
  match r with Some (Ok (Some _), _) => true | _ => false end.
Lemma acted_inv r : acted r = true → ∃ act w, r = Some (Ok (Some act), w).
Proof. destruct r as [[[[act|]|] w]|]; [eauto|done..]. Qed.


Lemma nat64_embed_arr a : is_arr 4 a → is_arr 16 (nat64_embed a).
Proof.
  intros [Hl Hb]. explode_arr a 4 Hl. split; [done|]. unfold bytes_ok in *.
  rewrite !Forall_cons in Hb. unfold nat64_embed. rewrite !Forall_cons.
  unfold is_byte in *. cbn. intuition lia.
Qed.

Lemma nat64_reply_csum_inv p proto c :
  nat64_reply_csum p proto = Some (Some c) →
  (proto = IPPROTO_TCP ∧ (94 <= length p)%nat ∧ c = w16 p 90) ∨
  (proto = IPPROTO_UDP ∧ (82 <= length p)%nat ∧ c = w16 p 80) ∨
  (proto = IPPROTO_ICMP ∧ (82 <= length p)%nat).
Proof.
  unfold nat64_reply_csum, ETH_LEN, IPV6_LEN. cbn [Nat.add].
  mem_go; intros [=]; subst; zbool; cbn [Nat.add] in *; auto.
Qed.

(** What the ingress path is given: the reply behind the outer headers, with
    the guest's address and port already restored, and [n] bytes of L4
    message. *)
Definition v4_reply (p : list Z) (n : nat) : Prop :=
  (74 + n <= length p)%nat ∧ w16 p 56 = 20 + Z.of_nat n ∧
  (at_ p 63 = IPPROTO_TCP ∧ (20 <= n)%nat ∨ at_ p 63 = IPPROTO_UDP ∧ (8 <= n)%nat ∨
   at_ p 63 = IPPROTO_ICMP ∧ (8 <= n)%nat).

(** How the IPv6 frame [q] carries the reply [p]: a TCP or UDP sum is valid
    exactly when the reply's was, a zero UDP checksum counting as any other;
    an echo reply carries the guest's id, and its sum is valid exactly when
    its data and the data's length sum to zero, as when there is none. *)
Definition carried_v6 (p : list Z) (n : nat) (sport : Z) (q : list Z) : Prop :=
  (at_ p 63 = IPPROTO_TCP ∨ at_ p 63 = IPPROTO_UDP →
   (csum_valid (v6_sum q 14 n (at_ p 63)) ↔ csum_valid (l4_sum p 54 74 n))) ∧
  (at_ p 63 = IPPROTO_ICMP →
   at_ q 54 = ICMPV6_ECHO_REPLY ∧ w16 q 58 = sport ∧
   (csum_valid (v6_sum q 14 n IPPROTO_ICMPV6) ↔
    (Z.of_nat n - 8 + wsl p 82 (n - 8)) mod 65535 = 0)).

(** A rewritten TCP or UDP checksum, at an even offset of the message. *)
Lemma reply_ports_valid p n fr src6 dst6 proto off :
  bytes_ok p → (74 + n <= length p)%nat → is_u16 (Z.of_nat n) →
  proto = at_ p 63 → proto = IPPROTO_TCP ∨ proto = IPPROTO_UDP →
  is_arr 16 src6 → is_arr 16 dst6 →
  length fr = 54%nat → slice fr 22 16 = src6 → slice fr 38 16 = dst6 →
  Nat.Even off → (off + 2 <= n)%nat →
  csum_valid (v6_sum (splice (fr ++ drop 74 p) (54 + off)
    (to_be16 (tcp_udp_v4_to_v6 (w16 (drop 74 p) off) (slice p 66 4) (slice p 70 4) src6 dst6 proto
      (Z.of_nat n)))) 14 n proto) ↔ csum_valid (l4_sum p 54 74 n).
Proof.
  intros Hb Hl Hn Hp Hpr H6s H6d Hfr Hsf Hdf He Hoff.
  assert (∀ i, (i + 4 <= length p)%nat → is_arr 4 (slice p i 4)) as H4.
  { intros i Hi. split; [apply length_slice; lia|by apply bytes_ok_slice]. }
  assert (l4_sum p 54 74 n = wsum (slice p 66 4) + wsum (slice p 70 4) + proto + Z.of_nat n
    + wsl (drop 74 p) 0 n) as ->.
  { unfold l4_sum. cbn [Nat.add]. rewrite <- Hp.
    pose proof (wsl_split p 66 2 2) as E. cbn [Nat.add Nat.mul] in E. rewrite E by lia.
    unfold wsl. by rewrite slice_drop. }
  apply v6_csum_valid; try done; try (apply H4; lia); try apply H6s; try apply H6d.
  - rewrite length_drop. lia.
  - by apply Forall_drop.
  - unfold is_byte, IPPROTO_TCP, IPPROTO_UDP in *. lia.
  - unfold IPPROTO_TCP, IPPROTO_UDP in *. lia.
Qed.

Lemma nat64_l4_to_v6_valid p n fr src4 dst4 src6 dst6 proto sport ck q :
  bytes_ok p → v4_reply p n → is_u16 (Z.of_nat n) → proto = at_ p 63 →
  nat64_reply_csum p proto = Some (Some ck) →
  slice p 66 4 = src4 → slice p 70 4 = dst4 → is_arr 16 src6 → is_arr 16 dst6 → is_u16 sport →
  length fr = 54%nat → slice fr 22 16 = src6 → slice fr 38 16 = dst6 →
  nat64_l4_to_v6 (fr ++ drop 74 p) src4 dst4 src6 dst6 proto (Z.of_nat n) sport ck = Some (Some q) →
  carried_v6 p n sport q ∧ (∀ i k, (i + k <= 54)%nat → slice q i k = slice fr i k) ∧
  length q = length (fr ++ drop 74 p).
Proof.
  intros Hb (Hl & _ & Hv) Hn Hp Hck <- <- H6s H6d Hsp Hfr Hsf Hdf.
  pose proof (λ off Hpr He Ho, reply_ports_valid p n fr src6 dst6 proto off Hb Hl Hn Hp Hpr
    H6s H6d Hfr Hsf Hdf He Ho) as Hport.
  set (r := drop 74 p) in *. assert (n <= length r)%nat as Hr by (unfold r; rewrite length_drop; lia).
  assert (bytes_ok r) as Hrb by (by apply Forall_drop).
  assert (∀ i, w16 r i = w16 p (74 + i)) as Hw.
  { intros i. unfold w16, r. by rewrite !at_drop, Nat.add_assoc. }
  assert (length (fr ++ r) = 54 + length r)%nat as Hlen by (rewrite length_app; lia).
  assert (∀ bs off, (54 <= off)%nat → (off + length bs <= length (fr ++ r))%nat →
    ∀ i k, (i + k <= 54)%nat → slice (splice (fr ++ r) off bs) i k = slice fr i k) as Hfront.
  { intros bs off H1 H2 i k Hik. rewrite slice_splice_out by lia. apply slice_app_l. lia. }
  unfold carried_v6. rewrite <- Hp in Hv |- *. apply nat64_reply_csum_inv in Hck.
  unfold nat64_l4_to_v6, ETH_LEN, IPV6_LEN. cbn [Nat.add]. fold r.
  destruct Hck as [(E & Hl2 & ->)|[(E & Hl2 & ->)|(E & Hl2)]]; rewrite E in *;
    unfold IPPROTO_TCP, IPPROTO_UDP, IPPROTO_ICMP in *; cbn [Z.eqb Pos.eqb].
  - destruct Hv as [[_ Hlo]|[[? _]|[? _]]]; [|done..].
    destruct (short _ _); [done|]. rewrite wr16_splice by lia. intros [= <-].
    split; [split; [intros _|done]|split; [by apply Hfront; cbn [length to_be16]; lia|apply length_splice; cbn [length to_be16]; lia]].
    pose proof (Hw 16%nat) as Ew. cbn [Nat.add] in Ew. rewrite <- Ew. apply (Hport 16%nat); try done; [by left|by exists 8%nat|lia].
  - destruct Hv as [[? _]|[[_ Hlo]|[? _]]]; [done| |done].
    destruct (short _ _); [done|]. rewrite wr16_splice by lia. intros [= <-].
    split; [split; [intros _|done]|split; [by apply Hfront; cbn [length to_be16]; lia|apply length_splice; cbn [length to_be16]; lia]].
    pose proof (Hw 6%nat) as Ew. cbn [Nat.add] in Ew. rewrite <- Ew. apply (Hport 6%nat); try done; [by right|by exists 3%nat].
  - destruct Hv as [[? _]|[[? _]|[_ Hn8]]]; [done..|].
    rewrite rd16_w16 by lia. cbn [mbind option_bind].
    assert (w16 (fr ++ r) 60 = w16 r 6) as -> by by apply (w16_app_r fr r 54 6).
    set (chk := icmpv6_echo_checksum _ _ _). repeat next_write. intros [= <-].
    rewrite !drop_drop. cbn [Nat.add].
    set (q := _ ++ drop 6 r).
    assert (q = fr ++ (([ICMPV6_ECHO_REPLY; 0] ++ to_be16 chk ++ to_be16 sport) ++ drop 6 r)) as Eq.
    { unfold q. by rewrite <- !app_assoc. }
    clearbody q. subst q. split; [|split].
    + split; [intros [?|?]; done|]. intros _.
      assert (wsl p 82 (n - 8) = wsl r 8 (n - 8)) as -> by (unfold wsl, r; by rewrite slice_drop).
      split; [|split; [|by apply v6_icmp_valid; try done; [apply H6s|apply H6d]]].
      * change 54%nat with (54 + 0)%nat. by rewrite at_app_r.
      * rewrite (w16_app_r fr _ 54 4 Hfr). by apply be16_to_be16.
    + intros i k Hik. apply slice_app_l. lia.
    + rewrite !length_app, length_drop. cbn [length to_be16]. lia.
Qed.

(** The checks of the ingress path up to the translation. *)
Lemma nat64_ingress_enter `{Kernel} tap mac sport w w' act :
  let p := w_pkt w in
  (74 <= length p)%nat → nat64_ingress tap mac sport w = Some (Ok (Some act), w') →
  ∃ m ck, m_port_meta (w_maps w) !! tap = Some m ∧
    nat64_reply_csum p (at_ p 63) = Some (Some ck) ∧
    nat64_deliver tap mac (pm_guest_ipv6 m) (slice p 66 4) (slice p 70 4) (at_ p 63)
      (w16 p 56 - 20) (at_ p 62) sport ck w = Some (Ok (Some act), w').
Proof.
  intros p Hl. unfold nat64_ingress, ETH_LEN, IPV6_LEN. cbn [Nat.add].
  unfold pbind at 1, get_pkt. fold p. destruct (short p _); [done|].
  unfold pbind at 1, access. fold p. rewrite rd8_at by lia.
  destruct (negb _); [done|]. unfold pbind at 1. fold p. rewrite rd8_at by lia.
  destruct (negb _); [done|]. unfold pbind at 1. fold p. rewrite rd8_at by lia.
  unfold pbind at 1. fold p. rewrite rdn_slice by lia.
  unfold pbind at 1. fold p. rewrite rdn_slice by lia.
  unfold pbind at 1. fold p. rewrite rd16_w16 by lia.
  destruct (_ <? 20); [done|]. unfold pbind at 1. fold p.
  destruct (nat64_reply_csum p (at_ p 63)) as [[ck|]|]; [|done..].
  unfold pbind at 1, gets. destruct (m_port_meta (w_maps w) !! tap) as [m|]; [|done].
  destruct (bool_decide _); [done|]. eauto.
Qed.


(** The answer to it, after the reverse translation to 10.0.0.5:5000. *)
Definition demo_v4_reply : list Z :=
  replicate 54 7 ++ [0x45; 0; 0; 32; 0; 0; 0; 0; 60; 17; 0; 0; 8; 8; 8; 8; 10; 0; 0; 5]
  ++ [0; 53; 0x13; 0x88; 0; 12; 197; 246; 5; 6; 7; 8].
Definition demo_port_meta : PortMeta :=
  mkPortMeta 100 [10; 0; 0; 5] demo_gw4 demo_mac (replicate 16 1) demo_gw6
    ([0xfd] ++ replicate 14 0 ++ [5]).
Definition demo_reply_world : world :=
  mkWorld demo_v4_reply (with_port_meta (λ _, {[ 7 := demo_port_meta ]}) empty_maps) 0 None.

Definition demo_reply_out : world := after (nat64_ingress 7 demo_mac 5000) demo_reply_world.

