(* ===== verification/Safe.v ===== *)
(** * Safe

    Memory safety and totality of the datapath programs: a program runs to a
    result without touching memory outside the frame, from every state whose
    map values have the sizes of their types.  The rules of the triple [runs]
    follow the program's structure; each component's operations have theirs. *)
From S2P Require Import Prelude Bytes Types Kernel Parse Firewall Conntrack Meter.
From S2P Require Import Vip Nat Encap ArpNd Lb Nat64.

(** ** The state *)

(** The arrays inside map values have the lengths of their types ([[u8; 4]],
    [[u8; 6]], [[u8; 16]]). *)
Record port_shaped (v : PortMeta) : Prop := {
  ps_guest4 : length (pm_guest_ipv4 v) = 4%nat;
  ps_gw4 : length (pm_gateway_ipv4 v) = 4%nat;
  ps_mac : length (pm_guest_mac v) = 6%nat;
  ps_underlay : length (pm_underlay_ipv6 v) = 16%nat;
  ps_gw6 : length (pm_gateway_ipv6 v) = 16%nat;
  ps_guest6 : length (pm_guest_ipv6 v) = 16%nat }.
Record local_shaped (l : Local) : Prop := {
  ls_up : length (lo_uplink_mac l) = 6%nat;
  ls_gw : length (lo_gateway_mac l) = 6%nat }.
Record dhcp_config_shaped (c : DhcpConfig) : Prop := {
  ds_dns4 : length (dc_dns4 c) = DHCP_MAX_DNS ∧ Forall (λ a, length a = 4%nat) (dc_dns4 c);
  ds_dns6 : length (dc_dns6 c) = DHCP_MAX_DNS ∧ Forall (λ a, length a = 16%nat) (dc_dns6 c) }.
Record dhcp_meta_shaped (v : DhcpMeta) : Prop := {
  ds_hostname : length (dm_hostname v) = 64%nat;
  ds_boot : length (dm_boot_filename v) = 64%nat;
  ds_pxe : length (dm_pxe_host v) = 46%nat;
  ds_boot_len : dm_boot_filename_len v <= 64 }.
Record shaped (m : Maps) : Prop := {
  sh_port : ∀ i v, m_port_meta m !! i = Some v → port_shaped v;
  sh_underlay : ∀ k v, m_underlay m !! k = Some v → length (uv_guest_mac v) = 6%nat;
  sh_routes : ∀ k v, m_routes m !! k = Some v → length (rv_nexthop_ipv6 v) = 16%nat;
  sh_routes6 : ∀ k v, m_routes6 m !! k = Some v → length (rv_nexthop_ipv6 v) = 16%nat;
  sh_local : ∀ l, m_local m = Some l → local_shaped l;
  sh_vips : ∀ k v, m_vips m !! k = Some v → length v = 4%nat;
  sh_nat : ∀ k v, m_nat m !! k = Some v → length (nv_nat_ipv4 v) = 4%nat;
  sh_maglev : ∀ k v, m_maglev m !! k = Some v → length v = 16%nat;
  sh_neighbor : ∀ k v, m_neighbor_nat m !! k = Some v → length (ne_underlay v) = 16%nat;
  sh_ct : ∀ k e, m_conntrack m !! k = Some e → length (ce_xlate_ip e) = 4%nat;
  sh_dhcp : ∀ c, m_dhcp_config m = Some c → dhcp_config_shaped c;
  sh_dhcp_meta : ∀ i v, m_dhcp_meta m !! i = Some v → dhcp_meta_shaped v }.

Lemma zero_dhcp_shaped : dhcp_config_shaped zero_dhcp_config.
Proof. split; (split; [reflexivity|by apply Forall_replicate]). Qed.
#[export] Hint Resolve zero_dhcp_shaped : core.

(** Freshly loaded maps. *)
Lemma empty_maps_shaped : shaped empty_maps.
Proof. split; cbn; try (by apply empty_all); [done|]. by intros c [= <-]. Qed.

(** A shaped state with a frame of [n] bytes. *)
Definition fits (n : nat) (w : world) : Prop := shaped (w_maps w) ∧ length (w_pkt w) = n.

(** [runs n m φ]: on every such state [m] terminates without a fault, keeps
    the state shaped and the frame's length, and its result satisfies [φ]. *)
Definition runs {A} (n : nat) (m : prog world A) (φ : A → Prop) : Prop :=
  spec (fits n) m (λ a w, fits n w ∧ φ a).
(** [ends n m]: the same for a program that may resize the frame. *)
Definition ends {A} (n : nat) (m : prog world A) : Prop :=
  spec (fits n) m (λ _ w, shaped (w_maps w)).
Definition anything {A} (a : A) : Prop := True.

(** ** Rules *)

Lemma runs_ret {A} n (a : A) (φ : A → Prop) : φ a → runs n (pret a) φ.
Proof. intros H w Hw. by exists a, w. Qed.

Lemma runs_bind {A B} n (m : prog world A) φ (k : A → prog world B) ψ :
  runs n m φ → (∀ a, φ a → runs n (k a) ψ) → runs n (pbind m k) ψ.
Proof.
  intros Hm Hk w Hw. destruct (Hm w Hw) as (a & w1 & E & Hw1 & Ha).
  destruct (Hk a Ha w1 Hw1) as (b & w2 & E2 & H2). exists b, w2. unfold pbind. by rewrite E.
Qed.

Lemma spec_runs_bind {A B} n (m : prog world A) φ (k : A → prog world B) Q :
  runs n m φ → (∀ a, φ a → spec (fits n) (k a) Q) → spec (fits n) (pbind m k) Q.
Proof.
  intros Hm Hk w Hw. destruct (Hm w Hw) as (a & w1 & E & Hw1 & Ha).
  destruct (Hk a Ha w1 Hw1) as (b & w2 & E2 & H2). exists b, w2. unfold pbind. by rewrite E.
Qed.
Lemma ends_bind {A B} n (m : prog world A) φ (k : A → prog world B) :
  runs n m φ → (∀ a, φ a → ends n (k a)) → ends n (pbind m k).
Proof. apply spec_runs_bind. Qed.

(** After a resize of unknown size. *)
Lemma ends_seq {A B} n (m : prog world A) (k : A → prog world B) :
  ends n m → (∀ a n', ends n' (k a)) → ends n (pbind m k).
Proof.
  intros Hm Hk w Hw. destruct (Hm w Hw) as (a & w1 & E & Hw1).
  destruct (Hk a (length (w_pkt w1)) w1) as (b & w2 & E2 & H2); [done|].
  exists b, w2. unfold pbind. by rewrite E.
Qed.
Lemma ends_ret {A} n (a : A) : ends n (pret a).
Proof. intros w [Hw _]. by exists a, w. Qed.

Lemma runs_ends {A} n (m : prog world A) φ : runs n m φ → ends n m.
Proof. intros H w Hw. destruct (H w Hw) as (a & w1 & E & [Hs _] & _). by exists a, w1. Qed.

Lemma runs_conseq {A} n (m : prog world A) (φ ψ : A → Prop) :
  runs n m φ → (∀ a, φ a → ψ a) → runs n m ψ.
Proof. intros H Hi w Hw. destruct (H w Hw) as (a & w1 & E & Hw1 & Ha). exists a, w1. auto. Qed.

(** What a program that runs leaves behind. *)
Lemma runs_inv {A} n (m : prog world A) φ w a w' :
  runs n m φ → fits n w → m w = Some (a, w') → fits n w' ∧ φ a.
Proof. intros H Hw E. destruct (H w Hw) as (? & ? & E' & ?). rewrite E in E'. by injection E' as -> ->. Qed.

Lemma runs_gets {A} n (f : Maps → A) (φ : A → Prop) :
  (∀ m, shaped m → φ (f m)) → runs n (gets f) φ.
Proof. intros H w [Hs Hl]. exists (f (w_maps w)), w. split; [done|]. split; [done|auto]. Qed.

Lemma runs_get_pkt n : runs n get_pkt (λ p, length p = n).
Proof. intros w [Hs Hl]. by exists (w_pkt w), w. Qed.

Lemma runs_access {A} n (f : list Z → mem A) (φ : A → Prop) :
  (∀ p, length p = n → ∃ a, f p = Some a ∧ φ a) → runs n (access f) φ.
Proof.
  intros H w [Hs Hl]. destruct (H (w_pkt w) Hl) as (a & E & Ha). exists a, w.
  unfold access. by rewrite E.
Qed.

Lemma runs_rdn n i k : (i + k <= n)%nat → runs n (access (λ p, rdn p i k)) (λ a, length a = k).
Proof.
  intros Hi. apply runs_access. intros p Hp. rewrite rdn_slice by lia.
  eexists. split; [done|]. apply length_slice. lia.
Qed.
Lemma runs_rd8 n i : (i < n)%nat → runs n (access (λ p, rd8 p i)) anything.
Proof. intros Hi. apply runs_access. intros p Hp. rewrite rd8_at by lia. by eexists. Qed.
Lemma runs_rd16 n i : (i + 1 < n)%nat → runs n (access (λ p, rd16 p i)) anything.
Proof. intros Hi. apply runs_access. intros p Hp. rewrite rd16_at by lia. by eexists. Qed.

Lemma runs_rewrite n (f : list Z → mem (list Z)) :
  (∀ p, length p = n → ∃ q, f p = Some q ∧ length q = n) → runs n (rewrite_pkt f) anything.
Proof.
  intros H w [Hs Hl]. destruct (H (w_pkt w) Hl) as (q & E & Hq).
  unfold rewrite_pkt. rewrite E. by eexists _, _.
Qed.

Lemma runs_rewrite_opt n (f : list Z → mem (option (list Z))) :
  (∀ p, length p = n → ∃ r, f p = Some r ∧ ∀ q, r = Some q → length q = n) →
  runs n (rewrite_opt f) anything.
Proof.
  intros H w [Hs Hl]. destruct (H (w_pkt w) Hl) as (r & E & Hq).
  unfold rewrite_opt. rewrite E. destruct r as [q|]; [|by eexists _, _].
  eexists _, _. split; [reflexivity|]. split; [|done]. split; [done|]. by apply Hq.
Qed.

Lemma runs_now `{Kernel} n : runs n now anything.
Proof. intros w Hw. by eexists _, _. Qed.

Lemma runs_redirect `{Kernel} n i : runs n (bpf_redirect i) anything.
Proof. intros w Hw. by eexists _, _. Qed.

Lemma runs_update n f : (∀ m, shaped m → shaped (f m)) → runs n (update f) anything.
Proof. intros H w [Hs Hl]. eexists _, _. split; [reflexivity|]. split; [|done]. split; [by apply H|done]. Qed.

Lemma runs_pwhen n b m : runs n m anything → runs n (pwhen b m) anything.
Proof. intros H. destruct b; [done|]. by apply runs_ret. Qed.

(** Resizes. *)
Lemma spec_adjust_head `{KL : KernelLaws} {B} n d (k : bool → prog world B) Q :
  d ≠ 0 → spec (fits n) (k false) Q →
  (∀ n', Z.of_nat n' = Z.of_nat n - d → spec (fits n') (k true) Q) →
  spec (fits n) (pbind (xdp_adjust_head d) k) Q.
Proof.
  intros Hd Hf Ht w [Hs Hl]. unfold pbind, xdp_adjust_head, resize.
  destruct (adjust_head d (w_pkt w)) as [p|] eqn:E; [|by apply Hf].
  destruct (decide (0 < d)) as [Hpos|Hneg].
  - apply adjust_head_shrink in E as [Hle ->]; [|done].
    apply (Ht (n - Z.to_nat d)%nat); [lia|]. split; [done|]. cbn. rewrite length_drop. lia.
  - apply adjust_head_grow in E as (h & Hh & _ & ->); [|lia].
    apply (Ht (n + Z.to_nat (- d))%nat); [lia|]. split; [done|]. cbn. rewrite length_app. lia.
Qed.

Lemma ends_adjust_head `{KL : KernelLaws} {B} n d (k : bool → prog world B) :
  d ≠ 0 → ends n (k false) →
  (∀ n', Z.of_nat n' = Z.of_nat n - d → ends n' (k true)) →
  ends n (pbind (xdp_adjust_head d) k).
Proof. apply spec_adjust_head. Qed.

(** ** Components *)

Lemma shaped_conntrack `{KL : KernelLaws} m k e :
  shaped m → length (ce_xlate_ip e) = 4%nat → shaped (with_conntrack (lru_insert k e) m).
Proof.
  intros [] He. split; try done. cbn. intros k' e' E.
  destruct (decide (k' = k)) as [->|Hne].
  - rewrite lru_insert_same in E. by injection E as <-.
  - destruct (lru_insert_other k e (m_conntrack m) k' Hne) as [E'|E']; rewrite E' in E; eauto.
    done.
Qed.

Section components.
Context `{KL : KernelLaws}.

Lemma runs_ct_insert n k e : length (ce_xlate_ip e) = 4%nat → runs n (ct_insert k e) anything.
Proof. intros He. apply runs_update. intros m Hm. by apply shaped_conntrack. Qed.

Lemma runs_ct_key n off vni : runs n (access (λ p, ct_key p off vni)) (λ r, ∀ k, r = Some k →
  length (ck_src_ip k) = 4%nat ∧ length (ck_dst_ip k) = 4%nat).
Proof.
  apply runs_access. intros p Hp. destruct (ct_key_total p off vni) as [r E]. exists r.
  split; [done|]. intros k ->. apply ct_key_inv in E as (Hl & _ & -> & -> & _).
  split; apply length_slice; lia.
Qed.

Lemma runs_ct_touch n off k e :
  length (ce_xlate_ip e) = 4%nat → runs n (ct_touch off k e) anything.
Proof.
  intros He. unfold ct_touch. eapply runs_bind; [apply runs_now|]. intros t _.
  eapply runs_bind.
  { apply (runs_access n _ anything). intros p _. destruct (tcp_flags_total p off) as [r ->].
    by eexists. }
  intros fl _. eapply runs_bind; [|intros; by apply runs_ret]. by apply runs_ct_insert.
Qed.

Lemma runs_ct_ensure_default n off k : runs n (ct_ensure_default off k) anything.
Proof.
  unfold ct_ensure_default. eapply runs_bind.
  { apply (runs_access n _ anything). intros p _. destruct (tcp_flags_total p off) as [r ->].
    by eexists. }
  intros fl _. eapply runs_bind; [apply runs_now|]. intros t _.
  eapply runs_bind; [by apply runs_ct_insert|]. intros _ _.
  eapply runs_bind; [by apply (runs_gets n _ anything)|]. intros ct _.
  destruct (ct !! _); [by apply runs_ret|]. by apply runs_ct_insert.
Qed.

Lemma runs_ct_apply n off e :
  length (ce_xlate_ip e) = 4%nat → runs n (rewrite_pkt (λ p, ct_apply p off e)) anything.
Proof.
  intros He. apply runs_rewrite. intros p Hp.
  destruct (ct_apply_total p off e He) as (q & E & Hq). exists q. split; [done|congruence].
Qed.

Lemma runs_vip n off vni b :
  runs n (pbind (gets m_vips) (λ vips, rewrite_pkt (λ p, rewrite_raw vips p off vni b))) anything.
Proof.
  eapply runs_bind.
  { apply (runs_gets n _ (λ vips, ∀ k v, vips !! k = Some v → length v = 4%nat)).
    intros m Hm. apply Hm. }
  intros vips Hv. apply runs_rewrite. intros p Hp.
  destruct (rewrite_raw_total vips p off vni b Hv) as (q & E & Hq). exists q. split; [done|congruence].
Qed.

Lemma runs_nat_probe n fuel i extra vni nat_ip pmin start range proto src sport chosen :
  length src = 4%nat →
  runs n (nat_probe fuel i extra vni nat_ip pmin start range proto src sport chosen) anything.
Proof.
  intros Hs. revert i. induction fuel as [|fuel IH]; intros i; cbn [nat_probe].
  { by apply runs_ret. }
  eapply runs_bind; [by apply (runs_gets n _ anything)|]. intros ct _.
  destruct (ct !! _); [apply IH|].
  eapply runs_bind; [apply runs_now|]. intros t _.
  eapply runs_bind; [by apply runs_ct_insert|]. intros _ _. by apply runs_ret.
Qed.

Lemma runs_nat_port_of n extra k nat_ip pmin range :
  length (ck_src_ip k) = 4%nat → length nat_ip = 4%nat →
  runs n (nat_port_of extra k nat_ip pmin range) anything.
Proof.
  intros Hk Hn.
  assert (runs n (nat_alloc extra k nat_ip pmin range) anything) as Ha.
  { unfold nat_alloc. eapply runs_bind; [by apply runs_nat_probe|]. intros c _.
    eapply runs_bind; [apply runs_now|]. intros t _.
    eapply runs_bind; [by apply runs_ct_insert|]. intros _ _. by apply runs_ret. }
  unfold nat_port_of. eapply runs_bind; [by apply (runs_gets n _ anything)|]. intros ct _.
  destruct (ct !! k); [|done]. destruct (has_flag _ _); [by apply runs_ret|done].
Qed.

Lemma runs_nat_snat_egress n off vni ext : runs n (nat_snat_egress off vni ext) anything.
Proof.
  unfold nat_snat_egress. destruct (negb ext); [by apply runs_ret|].
  eapply runs_bind; [apply runs_get_pkt|]. cbv beta. intros p0 Hp0.
  destruct (short p0 _) eqn:El; [by apply runs_ret|]. apply short_false in El.
  eapply runs_bind.
  { apply (runs_access n _ (λ a, length a = 4%nat)). intros p Hp.
    rewrite rdn_slice by lia. eexists. split; [done|]. apply length_slice. lia. }
  cbv beta. intros src Hsrc. eapply runs_bind.
  { apply (runs_access n _ anything). intros p Hp. rewrite rdn_slice by lia. by eexists. }
  intros dst _. eapply runs_bind.
  { apply (runs_gets n _ (λ nats, ∀ k v, nats !! k = Some v → length (nv_nat_ipv4 v) = 4%nat)).
    intros m Hm. apply Hm. }
  intros nats Hnats. destruct (nats !! _) as [nat|] eqn:En; [|by apply runs_ret].
  apply Hnats in En. destruct (_ =? 0); [by apply runs_ret|]. eapply runs_bind.
  { apply (runs_access n _ anything). intros p Hp. destruct (l4_ports_total p off) as [r ->].
    by eexists. }
  intros [[[proto sport] dport]|] _; [|by apply runs_ret].
  eapply runs_bind; [by apply runs_nat_port_of|]. intros port _.
  eapply runs_bind; [|intros; by apply runs_ret]. apply runs_rewrite. intros p Hp.
  destruct (nat_write_total p off src (nv_nat_ipv4 nat) proto sport port) as (q & E & Hq);
    [lia|done|]. exists q. split; [done|congruence].
Qed.

Lemma runs_meter_pass n i len ext : runs n (meter_pass i len ext) anything.
Proof.
  intros w [Hs Hl]. destruct (meter_pass_run i len ext w) as (b & w' & E & Hp & _ & f & Hm).
  exists b, w'. split; [done|]. split; [|done]. split; [|congruence].
  rewrite Hm. destruct Hs. by split.
Qed.

Lemma runs_fw n off i dir : runs n (λ w, match fw_eval_dir (w_maps w) (w_pkt w) off i dir with
  | Some a => Some (a, w) | None => None end) anything.
Proof.
  intros w Hw. destruct (fw_eval_dir_total (w_maps w) (w_pkt w) off i dir) as [a ->].
  by exists a, w.
Qed.

(** ** Delivery *)

Lemma ends_encap_out n e :
  length (ep_gateway_mac e) = 6%nat → length (ep_uplink_mac e) = 6%nat →
  length (ep_src_underlay e) = 16%nat → length (ep_nexthop_ipv6 e) = 16%nat →
  (14 <= n)%nat → ends n (encap_out e).
Proof.
  intros H1 H2 H3 H4 Hn. unfold encap_out. apply ends_adjust_head; [done|..].
  { apply ends_ret. }
  intros n' Hn'. cbn [negb]. eapply ends_bind.
  { apply runs_rewrite_opt. intros p Hp. exists (Some (outer_v6 e ++ drop 54 p)).
    assert (54 <= length p)%nat as Hl by (unfold IPV6_LEN in Hn'; lia). split.
    - by apply write_outer_v6_run'.
    - intros q [= <-]. unfold outer_v6. rewrite !length_app, length_drop, H1, H2, H3, H4.
      cbn [length to_be16]. lia. }
  intros ok _. destruct ok; [|apply ends_ret].
  eapply ends_bind; [apply runs_redirect|]. intros a _.
  apply ends_ret.
Qed.

Lemma runs_reforward n l lb b :
  local_shaped l → length lb = 16%nat → length b = 16%nat → runs n (reforward l lb b) anything.
Proof.
  intros [Hu Hg] Hlb Hb. unfold reforward. eapply runs_bind; [apply runs_get_pkt|]. cbv beta. intros p0 Hp0.
  destruct (short p0 _) eqn:El; [by apply runs_ret|]. apply short_false in El.
  unfold ETH_LEN, IPV6_LEN in El. eapply runs_bind; [|intros; apply runs_redirect].
  apply runs_rewrite. intros p Hp. unfold reforward_write, ETH_LEN. cbn [Nat.add].
  repeat write_step. eexists. split; [reflexivity|]. lia.
Qed.

Lemma runs_write_guest_eth n mac et :
  (14 <= n)%nat → length mac = 6%nat → runs n (rewrite_pkt (write_guest_eth mac et)) anything.
Proof.
  intros Hn Hm. apply runs_rewrite. intros p Hp.
  rewrite write_guest_eth_run by lia. eexists. split; [reflexivity|].
  unfold guest_eth. rewrite !length_app, length_drop, Hm. cbn [length to_be16 GW_MAC]. lia.
Qed.

(** ** NAT64 *)

Lemma nat64_l4_to_v4_total p l4 src6 dst6 src4 dst4 proto len sport port ck :
  (l4 + 8 <= length p)%nat →
  ∃ r, nat64_l4_to_v4 p l4 src6 dst6 src4 dst4 proto len sport port ck = Some r ∧
    ∀ q, r = Some q → length q = length p.
Proof.
  intros Hl. unfold nat64_l4_to_v4. destruct (_ =? IPPROTO_ICMP).
  - unfold nat64_icmp_to_v4. rewrite rd16_at by lia. cbn [mbind option_bind].
    repeat write_step. eexists. split; [done|]. intros q' [= <-]. lia.
  - destruct (_ =? IPPROTO_TCP); destruct (short p _) eqn:E; try (by eexists);
      apply short_false in E; unfold nat64_ports_to_v4; repeat write_step;
      (eexists; split; [done|]; intros q' [= <-]; lia).
Qed.

Lemma ends_nat64_translate n src6 dst6 nip d4 proto len sport port ck :
  (54 <= n)%nat → length nip = 4%nat →
  spec (fits n) (nat64_translate src6 dst6 nip d4 proto len sport port ck)
    (λ r w, shaped (w_maps w) ∧ (r = Ok tt → (14 <= length (w_pkt w))%nat)).
Proof.
  intros Hn Hnip. unfold nat64_translate, ETH_LEN. cbn [Nat.add].
  eapply spec_runs_bind.
  { apply (runs_access n _ (λ a, length a = 6%nat)). intros p Hp. rewrite rdn_slice by lia.
    eexists. split; [done|]. apply length_slice. lia. }
  cbv beta. intros ed Hed. eapply spec_runs_bind.
  { apply (runs_access n _ (λ a, length a = 6%nat)). intros p Hp. rewrite rdn_slice by lia.
    eexists. split; [done|]. apply length_slice. lia. }
  cbv beta. intros es Hes. eapply spec_runs_bind.
  { apply (runs_access n _ anything). intros p Hp. rewrite rd8_at by lia. by eexists. }
  intros hop _. apply spec_adjust_head; [done|by intros w [? ?]; eexists _, _|].
  intros n' Hn'. cbn [negb]. eapply spec_runs_bind; [apply runs_get_pkt|]. cbv beta. intros p0 Hp0.
  destruct (short p0 _) eqn:El; [by intros w [? ?]; eexists _, _|].
  apply short_false in El.
  eapply spec_runs_bind.
  { apply runs_rewrite. intros p Hp. unfold nat64_v4_headers, ETH_LEN.
    repeat write_step. eexists. split; [reflexivity|lia]. }
  intros _ _. unfold rewrite_or_err. intros w [Hs Hl]. unfold pbind, rewrite_opt.
  destruct (nat64_l4_to_v4_total (w_pkt w) 34 src6 dst6 nip d4 proto len sport port ck) 
    as (r & -> & Hr); [lia|]. destruct r as [q|]; eexists _, _; (split; [reflexivity|]); [|done].
  split; [done|]. intros _. cbn. rewrite (Hr q eq_refl). lia.
Qed.

Lemma shaped_route m routes len d r :
  shaped m → routes = m_routes m ∨ routes = m_routes6 m → lpm_lookup routes len d = Some r →
  length (rv_nexthop_ipv6 r) = 16%nat.
Proof.
  intros Hm [-> | ->] E; apply lpm_lookup_stored in E as [k E]; [by eapply sh_routes|by eapply sh_routes6].
Qed.

Lemma runs_routes n (f : Maps → gmap LpmKey RouteValue) :
  (∀ m, f m = m_routes m) ∨ (∀ m, f m = m_routes6 m) →
  runs n (gets f) (λ routes, ∀ len d r, lpm_lookup routes len d = Some r →
    length (rv_nexthop_ipv6 r) = 16%nat).
Proof.
  intros Hf. apply runs_gets. intros m Hm len d r.
  apply (shaped_route m); [done|]. destruct Hf as [Hf|Hf]; rewrite Hf; auto.
Qed.

Lemma runs_nats n :
  runs n (gets m_nat) (λ nats, ∀ k v, nats !! k = Some v → length (nv_nat_ipv4 v) = 4%nat).
Proof. apply runs_gets. intros m Hm. apply Hm. Qed.

Lemma runs_local n : runs n (gets m_local) (λ l, ∀ l', l = Some l' → local_shaped l').
Proof. apply runs_gets. intros m Hm. apply Hm. Qed.

Lemma ends_nat64_forward n vni d4 ul :
  (14 <= n)%nat → length ul = 16%nat → ends n (nat64_forward vni d4 ul).
Proof.
  intros Hn Hul. unfold nat64_forward. eapply ends_bind; [apply runs_routes; by left|].
  cbv beta. intros routes Hr. destruct (lpm_lookup _ _ _) as [route|] eqn:E; [|apply ends_ret].
  apply Hr in E. eapply ends_bind; [apply runs_get_pkt|]. intros p _.
  eapply ends_bind; [apply runs_local|]. cbv beta. intros [l|] Hlo; [|apply ends_ret].
  destruct (Hlo l eq_refl). eapply ends_seq; [by apply ends_encap_out|].
  intros [act|] n'; apply ends_ret.
Qed.

Lemma ends_nat64_egress n vni guest ul :
  length guest = 4%nat → length ul = 16%nat → ends n (nat64_egress vni guest ul).
Proof.
  intros Hg Hul. unfold nat64_egress, ETH_LEN, IPV6_LEN. cbn [Nat.add].
  eapply ends_bind; [apply runs_get_pkt|]. cbv beta. intros p0 Hp0.
  destruct (short p0 62) eqn:El; [apply ends_ret|]. apply short_false in El.
  eapply ends_bind.
  { apply (runs_access n _ (λ a, length a = 16%nat)). intros p Hp. rewrite rdn_slice by lia.
    eexists. split; [done|]. apply length_slice. lia. }
  cbv beta. intros d6 Hd6. destruct (negb _); [apply ends_ret|].
  eapply ends_bind; [apply runs_nats|]. cbv beta. intros nats Hnats.
  destruct (nats !! _) as [nat|] eqn:En; [|apply ends_ret]. apply Hnats in En.
  destruct (_ =? 0); [apply ends_ret|].
  eapply ends_bind.
  { apply (runs_access n _ anything). intros p Hp. rewrite rdn_slice by lia. by eexists. }
  intros s6 _. eapply ends_bind.
  { apply (runs_access n _ anything). intros p Hp. rewrite rd8_at by lia. by eexists. }
  intros nh _. eapply ends_bind.
  { apply (runs_access n _ anything). intros p Hp. rewrite rd16_at by lia. by eexists. }
  intros len _. destruct (short p0 _); [apply ends_ret|].
  eapply ends_bind.
  { apply (runs_access n _ anything). intros p Hp.
    destruct (nat64_l4_total p nh) as [r ->]. by eexists. }
  intros [[[[proto sport] dport] ck]|] _; [|apply ends_ret].
  eapply ends_bind; [by apply runs_nat_port_of|]. intros port _.
  intros w Hw.
  destruct (ends_nat64_translate n s6 d6 (nv_nat_ipv4 nat) (drop 12 d6) proto len sport port ck
    ltac:(lia) En w Hw) as (r & w1 & E & Hs & Hr).
  unfold rbind, pbind at 1. rewrite E. destruct r as [[]|]; [|by eexists _, _].
  apply (ends_nat64_forward (length (w_pkt w1))); [by apply Hr|done|done].
Qed.

Lemma nat64_l4_to_v6_total p src4 dst4 src6 dst6 proto len sport ck :
  (62 <= length p)%nat →
  ∃ r, nat64_l4_to_v6 p src4 dst4 src6 dst6 proto len sport ck = Some r.
Proof.
  intros Hl. unfold nat64_l4_to_v6, ETH_LEN, IPV6_LEN. cbn [Nat.add]. destruct (_ =? IPPROTO_ICMP).
  - rewrite rd16_at by lia. cbn [mbind option_bind]. repeat write_step. by eexists.
  - destruct (_ =? IPPROTO_TCP); destruct (short p _) eqn:E; try (by eexists);
      apply short_false in E; repeat write_step; by eexists.
Qed.

Lemma nat64_reply_csum_total p proto :
  ∃ r, nat64_reply_csum p proto = Some r ∧ anything r.
Proof.
  unfold nat64_reply_csum, ETH_LEN, IPV6_LEN. cbn [Nat.add].
  mem_go; eexists; (split; [reflexivity|exact I]).
Qed.

Lemma ends_nat64_ingress n tap mac sport :
  length mac = 6%nat → ends n (nat64_ingress tap mac sport).
Proof.
  intros Hm. unfold nat64_ingress, ETH_LEN, IPV6_LEN. cbn [Nat.add].
  eapply ends_bind; [apply runs_get_pkt|]. cbv beta. intros p0 Hp0.
  destruct (short p0 _) eqn:El; [apply ends_ret|]. apply short_false in El.
  assert (∀ i, (i < 82)%nat → runs n (access (λ p, rd8 p i)) anything) as Hrd8.
  { intros i Hi. apply runs_access. intros p Hp. rewrite rd8_at by lia. by eexists. }
  assert (∀ i, (i + 4 <= 82)%nat → runs n (access (λ p, rdn p i 4)) (λ a, length a = 4%nat)) as Hrdn.
  { intros i Hi. apply runs_access. intros p Hp. rewrite rdn_slice by lia.
    eexists. split; [done|]. apply length_slice. lia. }
  eapply ends_bind; [apply Hrd8; lia|]. intros b _. destruct (negb _); [apply ends_ret|].
  eapply ends_bind; [apply Hrd8; lia|]. intros proto _. destruct (negb _); [apply ends_ret|].
  eapply ends_bind; [apply Hrd8; lia|]. intros ttl _.
  eapply ends_bind; [apply Hrdn; lia|]. cbv beta. intros src4 Hsrc.
  eapply ends_bind; [apply Hrdn; lia|]. cbv beta. intros dst4 Hdst.
  eapply ends_bind.
  { apply (runs_access n _ anything). intros p Hp. rewrite rd16_at by lia. by eexists. }
  intros tot _. destruct (_ <? 20); [apply ends_ret|]. eapply ends_bind.
  { apply (runs_access n _ anything). intros p Hp.
    apply nat64_reply_csum_total. }
  intros [ck|] _; [|apply ends_ret].
  eapply ends_bind.
  { apply (runs_gets n _ (λ ports, ∀ i v, ports !! i = Some v → port_shaped v)). intros m Hs. apply Hs. }
  cbv beta. intros ports Hports. destruct (ports !! tap) as [m|] eqn:Em; [|apply ends_ret].
  apply Hports in Em. destruct (bool_decide _); [apply ends_ret|].
  unfold nat64_deliver, ETH_LEN, IPV6_LEN. cbn [Nat.add].
  apply ends_adjust_head; [done|apply ends_ret|]. intros n' Hn'. cbn [negb].
  eapply ends_bind; [apply runs_get_pkt|]. cbv beta. intros p1 Hp1.
  destruct (short p1 _) eqn:El1; [apply ends_ret|]. apply short_false in El1.
  eapply ends_bind.
  { apply runs_rewrite. intros p Hp. rewrite nat64_v6_headers_run by (done || apply Em || lia).
    eexists. split; [reflexivity|]. rewrite length_app, v6_front_length, length_drop
      by (done || apply Em). lia. }
  intros _ _. intros w [Hs Hl]. unfold rbind, rewrite_or_err, rewrite_opt, pbind.
  edestruct (nat64_l4_to_v6_total (w_pkt w)) as [r ->]; [lia|].
  destruct r; by eexists _, _.
Qed.
End components.
