(* ===== verification/Handles.v ===== *)
(** * Handles

    The typed map handles of the control plane (xdp-dp/src/maps.rs), as
    updates of the maps the datapath reads.  [None] is an error of the map
    operation, which leaves the maps as they were: no room for a new key, no
    such key to remove. *)
From S2P Require Import Prelude Bytes Types Kernel Safe.

(** ** Definitions *)

(** An update of one map of the state. *)
Definition on_map {M} (get : Maps → M) (set : (M → M) → Maps → Maps) (f : M → option M)
    (m : Maps) : option Maps :=
  (λ x, set (λ _, x) m) <$> f (get m).

Definition Interfaces_upsert (k : IfaceKey) (v : IfaceValue) :=
  on_map m_interfaces with_interfaces (hash_insert 1024 k v).
Definition Interfaces_remove (k : IfaceKey) := on_map m_interfaces with_interfaces (hash_remove k).
Definition LocalMap_set (l : Local) (m : Maps) : option Maps := Some (with_local (λ _, Some l) m).
Definition PortMetaMap_upsert (ifindex : Z) (v : PortMeta) :=
  on_map m_port_meta with_port_meta (hash_insert 1024 ifindex v).
Definition PortMetaMap_remove (ifindex : Z) :=
  on_map m_port_meta with_port_meta (hash_remove ifindex).

Section routes.
Context `{Kernel}.

Definition route_key (vni : Z) (ipv4 : list Z) (prefix_len : Z) : LpmKey :=
  mkLpmKey (32 + Z.min prefix_len 32) (to_be32 vni ++ ipv4).
Definition Routes_upsert (vni : Z) (ipv4 : list Z) (prefix_len : Z) (v : RouteValue) :=
  on_map m_routes with_routes (lpm_insert (route_key vni ipv4 prefix_len) v).
Definition Routes_remove (vni : Z) (ipv4 : list Z) (prefix_len : Z) :=
  on_map m_routes with_routes (lpm_remove (route_key vni ipv4 prefix_len)).

Definition route6_key (vni : Z) (ipv6 : list Z) (prefix_len : Z) : LpmKey :=
  mkLpmKey (32 + Z.min prefix_len 128) (to_be32 vni ++ ipv6).
Definition Routes6_upsert (vni : Z) (ipv6 : list Z) (prefix_len : Z) (v : RouteValue) :=
  on_map m_routes6 with_routes6 (lpm_insert (route6_key vni ipv6 prefix_len) v).
Definition Routes6_remove (vni : Z) (ipv6 : list Z) (prefix_len : Z) :=
  on_map m_routes6 with_routes6 (lpm_remove (route6_key vni ipv6 prefix_len)).
End routes.

Definition Vips_upsert (k : VipKey) (v : list Z) := on_map m_vips with_vips (hash_insert 1024 k v).
Definition Vips_remove (k : VipKey) := on_map m_vips with_vips (hash_remove k).
Definition Vips_get (k : VipKey) (m : Maps) : option (list Z) := m_vips m !! k.
Definition Lb_upsert (k : LbKey) (v : LbValue) := on_map m_lb with_lb (hash_insert 1024 k v).
Definition Lb_remove (k : LbKey) := on_map m_lb with_lb (hash_remove k).
Definition Maglev_upsert (k : MaglevKey) (v : list Z) :=
  on_map m_maglev with_maglev (hash_insert 65536 k v).
Definition Maglev_remove (k : MaglevKey) := on_map m_maglev with_maglev (hash_remove k).
Definition Conntrack_remove (k : CtKey) := on_map m_conntrack with_conntrack (hash_remove k).
Definition Conntrack_entries (m : Maps) : list (CtKey * CtEntry) := map_to_list (m_conntrack m).
Definition Nat_upsert (k : NatKey) (v : NatValue) := on_map m_nat with_nat (hash_insert 1024 k v).
Definition Nat_remove (k : NatKey) := on_map m_nat with_nat (hash_remove k).
Definition Nat_get (k : NatKey) (m : Maps) : option NatValue := m_nat m !! k.
Definition FwRules_upsert (k : FwRuleKey) (v : FwRule) :=
  on_map m_fw_rules with_fw_rules (hash_insert 16384 k v).
Definition FwRules_remove (k : FwRuleKey) := on_map m_fw_rules with_fw_rules (hash_remove k).
Definition FwMetaMap_upsert (ifindex : Z) (v : FwMeta) :=
  on_map m_fw_meta with_fw_meta (hash_insert 1024 ifindex v).
Definition FwConfig_set (enforce : Z) (m : Maps) : option Maps :=
  Some (with_fw_config (λ _, Some enforce) m).
Definition Underlay_upsert (k : list Z) (v : UnderlayValue) :=
  on_map m_underlay with_underlay (hash_insert 4096 k v).
Definition Underlay_remove (k : list Z) := on_map m_underlay with_underlay (hash_remove k).
Definition Underlay_get (k : list Z) (m : Maps) : option UnderlayValue := m_underlay m !! k.
Definition NeighborNat_upsert (idx : Z) (v : NeighborNatEntry) :=
  on_map m_neighbor_nat with_neighbor_nat (hash_insert 64 idx v).
Definition Meter_upsert (ifindex : Z) (v : MeterState) :=
  on_map m_meter with_meter (hash_insert 1024 ifindex v).
Definition Meter_remove (ifindex : Z) := on_map m_meter with_meter (hash_remove ifindex).
Definition NatIps_set (vni : Z) (nat_ip : list Z) :=
  on_map m_nat_ips with_nat_ips (hash_insert 1024 (mkVipKey vni nat_ip) 1).
Definition NatIps_remove (vni : Z) (nat_ip : list Z) :=
  on_map m_nat_ips with_nat_ips (hash_remove (mkVipKey vni nat_ip)).
Definition NeighborNatCount_set (count : Z) (m : Maps) : option Maps :=
  Some (with_neighbor_nat_count (λ _, Some count) m).
Definition DhcpConfigMap_set (c : DhcpConfig) (m : Maps) : option Maps :=
  Some (with_dhcp_config (λ _, Some c) m).
Definition DhcpMetaMap_upsert (ifindex : Z) (v : DhcpMeta) :=
  on_map m_dhcp_meta with_dhcp_meta (hash_insert 1024 ifindex v).
Definition DhcpMetaMap_remove (ifindex : Z) :=
  on_map m_dhcp_meta with_dhcp_meta (hash_remove ifindex).

(** ** Lemmas *)

(** The map after a successful operation. *)
Lemma hash_insert_Some {K V} `{Countable K} max (k : K) (v : V) m m' :
  hash_insert max k v m = Some m' → m' = <[k := v]> m.
Proof. unfold hash_insert. destruct (m !! k); [by intros [= <-]|]. destruct (_ <? _); congruence. Qed.
Lemma hash_remove_Some {K V} `{Countable K} (k : K) (m m' : gmap K V) :
  hash_remove k m = Some m' → m' = delete k m.
Proof. unfold hash_remove. destruct (m !! k); congruence. Qed.
Lemma on_map_Some {M} (get : Maps → M) set f m m' :
  on_map get set f m = Some m' → ∃ x, f (get m) = Some x ∧ m' = set (λ _, x) m.
Proof. unfold on_map. destruct (f (get m)); [|done]. intros [= <-]. eauto. Qed.
Lemma on_insert_Some {K V} `{Countable K} (get : Maps → gmap K V) set max k v m m' :
  on_map get set (hash_insert max k v) m = Some m' → m' = set (λ _, <[k := v]> (get m)) m.
Proof. intros (x & ->%hash_insert_Some & ->)%on_map_Some. done. Qed.
Lemma on_remove_Some {K V} `{Countable K} (get : Maps → gmap K V) set k m m' :
  on_map get set (hash_remove k) m = Some m' → m' = set (λ _, delete k (get m)) m.
Proof. intros (x & ->%hash_remove_Some & ->)%on_map_Some. done. Qed.

(** Overwriting an existing key always succeeds. *)
Lemma hash_insert_present {K V} `{Countable K} max (k : K) (v : V) m :
  is_Some (m !! k) → hash_insert max k v m = Some (<[k := v]> m).
Proof. intros [x E]. unfold hash_insert. by rewrite E. Qed.

(** ** Lemmas: sizes of map values *)

(** An update that keeps the sizes of map values. *)
Definition keeps_shape (f : Maps → option Maps) : Prop :=
  ∀ m m', shaped m → f m = Some m' → shaped m'.

(** Values of a map after an insertion or a removal. *)
Lemma insert_values {K V} `{Countable K} (P : V → Prop) (m : gmap K V) k x :
  P x → (∀ k v, m !! k = Some v → P v) → ∀ k' v, <[k := x]> m !! k' = Some v → P v.
Proof. intros Hx Hm k' v. rewrite lookup_insert_Some. intros [[_ <-]|[_ E]]; eauto. Qed.
Lemma delete_values {K V} `{Countable K} (P : V → Prop) (m : gmap K V) k :
  (∀ k v, m !! k = Some v → P v) → ∀ k' v, delete k m !! k' = Some v → P v.
Proof. intros Hm k' v. rewrite lookup_delete_Some. intros [_ E]. eauto. Qed.

Ltac shape_insert :=
  intros ? ? [] ->%on_insert_Some; split; try done; cbn; by apply insert_values.
Ltac shape_delete :=
  intros ? ? [] ->%on_remove_Some; split; try done; cbn; by apply delete_values.

Lemma shape_Interfaces_upsert k v : keeps_shape (Interfaces_upsert k v).
Proof. intros ? ? [] ->%on_insert_Some. by split. Qed.
Lemma shape_Interfaces_remove k : keeps_shape (Interfaces_remove k).
Proof. intros ? ? [] ->%on_remove_Some. by split. Qed.
Lemma shape_PortMetaMap_upsert i v : port_shaped v → keeps_shape (PortMetaMap_upsert i v).
Proof. intros. shape_insert. Qed.
Lemma shape_PortMetaMap_remove i : keeps_shape (PortMetaMap_remove i).
Proof. shape_delete. Qed.
Lemma shape_Underlay_upsert k v :
  length (uv_guest_mac v) = 6%nat → keeps_shape (Underlay_upsert k v).
Proof.
  intros Hv ? ? [] ->%on_insert_Some. split; try done. cbn.
  by apply (insert_values (λ v, length (uv_guest_mac v) = 6%nat)).
Qed.
Lemma shape_Underlay_remove k : keeps_shape (Underlay_remove k).
Proof.
  intros ? ? [] ->%on_remove_Some. split; try done. cbn.
  by apply (delete_values (λ v, length (uv_guest_mac v) = 6%nat)).
Qed.
Lemma shape_Vips_upsert k v : length v = 4%nat → keeps_shape (Vips_upsert k v).
Proof.
  intros Hv ? ? [] ->%on_insert_Some. split; try done. cbn.
  by apply (insert_values (λ v, length v = 4%nat)).
Qed.
Lemma shape_Vips_remove k : keeps_shape (Vips_remove k).
Proof.
  intros ? ? [] ->%on_remove_Some. split; try done. cbn.
  by apply (delete_values (λ v, length v = 4%nat)).
Qed.
Lemma shape_Lb_upsert k v : keeps_shape (Lb_upsert k v).
Proof. intros ? ? [] ->%on_insert_Some. by split. Qed.
Lemma shape_Lb_remove k : keeps_shape (Lb_remove k).
Proof. intros ? ? [] ->%on_remove_Some. by split. Qed.
Lemma shape_Maglev_upsert k v : length v = 16%nat → keeps_shape (Maglev_upsert k v).
Proof.
  intros Hv ? ? [] ->%on_insert_Some. split; try done. cbn.
  by apply (insert_values (λ v, length v = 16%nat)).
Qed.
Lemma shape_Maglev_remove k : keeps_shape (Maglev_remove k).
Proof.
  intros ? ? [] ->%on_remove_Some. split; try done. cbn.
  by apply (delete_values (λ v, length v = 16%nat)).
Qed.
Lemma shape_Conntrack_remove k : keeps_shape (Conntrack_remove k).
Proof.
  intros ? ? [] ->%on_remove_Some. split; try done. cbn.
  by apply (delete_values (λ v, length (ce_xlate_ip v) = 4%nat)).
Qed.
Lemma shape_Nat_upsert k v : length (nv_nat_ipv4 v) = 4%nat → keeps_shape (Nat_upsert k v).
Proof.
  intros Hv ? ? [] ->%on_insert_Some. split; try done. cbn.
  by apply (insert_values (λ v, length (nv_nat_ipv4 v) = 4%nat)).
Qed.
Lemma shape_Nat_remove k : keeps_shape (Nat_remove k).
Proof.
  intros ? ? [] ->%on_remove_Some. split; try done. cbn.
  by apply (delete_values (λ v, length (nv_nat_ipv4 v) = 4%nat)).
Qed.
Lemma shape_FwRules_upsert k v : keeps_shape (FwRules_upsert k v).
Proof. intros ? ? [] ->%on_insert_Some. by split. Qed.
Lemma shape_FwRules_remove k : keeps_shape (FwRules_remove k).
Proof. intros ? ? [] ->%on_remove_Some. by split. Qed.
Lemma shape_FwMetaMap_upsert i v : keeps_shape (FwMetaMap_upsert i v).
Proof. intros ? ? [] ->%on_insert_Some. by split. Qed.
Lemma shape_NeighborNat_upsert i v :
  length (ne_underlay v) = 16%nat → keeps_shape (NeighborNat_upsert i v).
Proof.
  intros Hv ? ? [] ->%on_insert_Some. split; try done. cbn.
  by apply (insert_values (λ v, length (ne_underlay v) = 16%nat)).
Qed.
Lemma shape_NeighborNatCount_set n : keeps_shape (NeighborNatCount_set n).
Proof. intros ? ? [] [= <-]. by split. Qed.
Lemma shape_Meter_upsert i v : keeps_shape (Meter_upsert i v).
Proof. intros ? ? [] ->%on_insert_Some. by split. Qed.
Lemma shape_Meter_remove i : keeps_shape (Meter_remove i).
Proof. intros ? ? [] ->%on_remove_Some. by split. Qed.
Lemma shape_NatIps_set v ip : keeps_shape (NatIps_set v ip).
Proof. intros ? ? [] ->%on_insert_Some. by split. Qed.
Lemma shape_NatIps_remove v ip : keeps_shape (NatIps_remove v ip).
Proof. intros ? ? [] ->%on_remove_Some. by split. Qed.
Lemma shape_DhcpConfigMap_set c : dhcp_config_shaped c → keeps_shape (DhcpConfigMap_set c).
Proof. intros Hc ? ? [] [= <-]. split; try done. by intros ? [= <-]. Qed.
Lemma shape_DhcpMetaMap_upsert i v : dhcp_meta_shaped v → keeps_shape (DhcpMetaMap_upsert i v).
Proof. intros Hv. shape_insert. Qed.
Lemma shape_DhcpMetaMap_remove i : keeps_shape (DhcpMetaMap_remove i).
Proof. shape_delete. Qed.

Section route_shapes.
Context `{KL : KernelLaws}.

Lemma shape_Routes_upsert vni ip len v :
  length (rv_nexthop_ipv6 v) = 16%nat → keeps_shape (Routes_upsert vni ip len v).
Proof.
  intros Hv ? ? [] (x & Ex & ->)%on_map_Some. split; try done. cbn. intros k' v' E.
  destruct (lpm_insert_values _ _ _ _ _ _ Ex E) as [->|[k0 E0]]; eauto.
Qed.
Lemma shape_Routes_remove vni ip len : keeps_shape (Routes_remove vni ip len).
Proof.
  intros ? ? [] (x & Ex & ->)%on_map_Some. split; try done. cbn. intros k' v' E.
  destruct (lpm_remove_values _ _ _ _ _ Ex E) as [k0 E0]. eauto.
Qed.
Lemma shape_Routes6_upsert vni ip len v :
  length (rv_nexthop_ipv6 v) = 16%nat → keeps_shape (Routes6_upsert vni ip len v).
Proof.
  intros Hv ? ? [] (x & Ex & ->)%on_map_Some. split; try done. cbn. intros k' v' E.
  destruct (lpm_insert_values _ _ _ _ _ _ Ex E) as [->|[k0 E0]]; eauto.
Qed.
Lemma shape_Routes6_remove vni ip len : keeps_shape (Routes6_remove vni ip len).
Proof.
  intros ? ? [] (x & Ex & ->)%on_map_Some. split; try done. cbn. intros k' v' E.
  destruct (lpm_remove_values _ _ _ _ _ Ex E) as [k0 E0]. eauto.
Qed.
End route_shapes.

Create HintDb dp_shape.
#[export] Hint Resolve shape_Interfaces_upsert shape_Interfaces_remove shape_PortMetaMap_upsert
  shape_PortMetaMap_remove shape_Underlay_upsert shape_Underlay_remove shape_Vips_upsert
  shape_Vips_remove shape_Lb_upsert shape_Lb_remove shape_Maglev_upsert shape_Maglev_remove
  shape_Conntrack_remove shape_Nat_upsert shape_Nat_remove shape_FwRules_upsert
  shape_FwRules_remove shape_FwMetaMap_upsert shape_NeighborNat_upsert
  shape_NeighborNatCount_set shape_Meter_upsert shape_Meter_remove shape_NatIps_set
  shape_NatIps_remove shape_DhcpConfigMap_set shape_DhcpMetaMap_upsert shape_DhcpMetaMap_remove
  shape_Routes_upsert shape_Routes_remove shape_Routes6_upsert shape_Routes6_remove : dp_shape.
