(* ===== verification/Dhcp4.v ===== *)
(** * Dhcp4

    The DHCPv4 responder: the request parser and the reply writer
    (xdp-dp-common/src/lib.rs, module dhcp) and the XDP glue that learns the
    guest's MAC address and gathers the reply (xdp-dp-ebpf/src/dhcp.rs). *)
From S2P Require Import Prelude Bytes Csum Types Kernel Parse Rewrite Encap ArpNd Safe Handles.

(** ** Definitions *)

Definition DHCP_MAGIC : Z := 0x63825363.
Definition OPT_PAD : Z := 0.
Definition OPT_END : Z := 255.
Definition OPT_MESSAGE_TYPE : Z := 53.
Definition OPT_LEASE_TIME : Z := 51.
Definition OPT_SERVER_ID : Z := 54.
Definition OPT_CLASSLESS_ROUTE : Z := 121.
Definition OPT_SUBNET_MASK : Z := 1.
Definition OPT_DNS : Z := 6.
Definition OPT_HOSTNAME : Z := 12.
Definition OPT_MTU : Z := 26.
Definition DHCP_MSG_DISCOVER : Z := 1.
Definition DHCP_MSG_REQUEST : Z := 3.
Definition DHCP_MSG_OFFER : Z := 2.
Definition DHCP_MSG_ACK : Z := 5.

Definition F_BOOTP : nat := 42.
Definition BOOTP_MAGIC_OFF : nat := 236.
Definition F_OPTS : nat := 282.
Definition MIN_DHCP_LEN : nat := 282.
Definition OPTS_SCAN_BYTES : nat := 128.
Definition O_MSGTYPE : nat := 0.
Definition O_LEASE : nat := 3.
Definition O_SERVERID : nat := 9.
Definition O_CLASSLESS : nat := 15.
Definition O_SUBNET : nat := 29.
Definition O_MTU : nat := 35.
Definition O_ROUTER : nat := 39.
Definition O_DNS : nat := 45.
Definition O_HOSTNAME : nat := 79.
Definition OPT_BLOCK_MAX : nat := 146.
Definition REPLY_LEN : nat := 428.
Definition MAX_HOSTNAME : nat := 64.

Record Dhcpv4Request := mkDhcpv4Request
  { rq_reply_type : Z; rq_client_mac : list Z; rq_xid_secs_flags : list Z }.
(** [dns_len] and [hostname_len] as [nat]. *)
Record Dhcpv4Reply := mkDhcpv4Reply
  { rp_reply_type : Z; rp_client_mac : list Z; rp_yiaddr : list Z; rp_gateway_ipv4 : list Z;
    rp_server_mac : list Z; rp_xid_secs_flags : list Z; rp_mtu : Z; rp_dns : list (list Z);
    rp_dns_len : nat; rp_lease_secs : Z; rp_hostname : list Z; rp_hostname_len : nat }.

Definition looks_like_dhcpv4 (p : list Z) : mem bool :=
  if short p MIN_DHCP_LEN then Some false else
  ethertype ← rd16 p 12;
  if negb (ethertype =? ETH_P_IP) then Some false else
  vihl ← rd8 p ETH_LEN;
  if negb (Z.land vihl 0x0f =? 5) then Some false else
  proto ← rd8 p (ETH_LEN + 9);
  if negb (proto =? IPPROTO_UDP) then Some false else
  udp_dst ← rd16 p (ETH_LEN + 22);
  Some (udp_dst =? 67).

Definition looks_like_dhcpv6 (p : list Z) : mem bool :=
  if short p (ETH_LEN + 40 + 8 + 4) then Some false else
  ethertype ← rd16 p 12;
  if negb (ethertype =? ETH_P_IPV6) then Some false else
  nexthdr ← rd8 p (ETH_LEN + 6);
  if negb (nexthdr =? IPPROTO_UDP) then Some false else
  udp_dst ← rd16 p (ETH_LEN + 40 + 2);
  Some (udp_dst =? 547).

(** The option state machine: its variables, one byte ([None] leaves the
    loop), and the loop over at most [n] bytes from [i]. *)
Record Scan := mkScan { sm_state : Z; sm_remain : Z; sm_is_msgtype : bool; msg_type : Z }.
Definition scan_init : Scan := mkScan 0 0 false 0.
Definition scan_step (b : Z) (s : Scan) : option Scan :=
  if sm_state s =? 0 then
    if b =? OPT_PAD then Some s
    else if b =? OPT_END then None
    else Some (mkScan 1 (sm_remain s) (b =? OPT_MESSAGE_TYPE) (msg_type s))
  else if sm_state s =? 1 then
    Some (mkScan (if b =? 0 then 0 else 2) b (sm_is_msgtype s) (msg_type s))
  else
    let mt := if sm_is_msgtype s && (sm_remain s =? 1) then b else msg_type s in
    let remain := sm_remain s - 1 in
    Some (mkScan (if remain =? 0 then 0 else 2) remain (sm_is_msgtype s) mt).
Fixpoint opt_scan (n : nat) (p : list Z) (i : nat) (s : Scan) : mem Scan :=
  match n with
  | O => Some s
  | S n =>
      if short p (F_OPTS + i + 1) then Some s else
      b ← rd8 p (F_OPTS + i);
      match scan_step b s with
      | Some s => opt_scan n p (i + 1) s
      | None => Some s
      end
  end.

Definition parse_dhcpv4_request (p : list Z) : mem (option Dhcpv4Request) :=
  if short p MIN_DHCP_LEN then Some None else
  ethertype ← rd16 p 12;
  if negb (ethertype =? ETH_P_IP) then Some None else
  vihl ← rd8 p ETH_LEN;
  if negb (Z.land vihl 0x0f =? 5) then Some None else
  proto ← rd8 p (ETH_LEN + 9);
  if negb (proto =? IPPROTO_UDP) then Some None else
  udp_dst ← rd16 p (ETH_LEN + 22);
  if negb (udp_dst =? 67) then Some None else
  m ← rdn p (F_BOOTP + BOOTP_MAGIC_OFF) 4;
  let magic := be32 (at_ m 0) (at_ m 1) (at_ m 2) (at_ m 3) in
  if negb (magic =? DHCP_MAGIC) then Some None else
  s ← opt_scan OPTS_SCAN_BYTES p 0 scan_init;
  let t := msg_type s in
  if negb (t =? DHCP_MSG_DISCOVER) && negb (t =? DHCP_MSG_REQUEST) then Some None else
  let reply_type := if t =? DHCP_MSG_DISCOVER then DHCP_MSG_OFFER else DHCP_MSG_ACK in
  client_mac ← rdn p 6 6;
  xid_secs_flags ← rdn p (F_BOOTP + 4) 8;
  Some (Some (mkDhcpv4Request reply_type client_mac xid_secs_flags)).

(** [*p.add(off + k) = src[k]] for [k < n]. *)
Fixpoint copy_bytes (n k : nat) (src : list Z) (off : nat) (p : list Z) : mem (list Z) :=
  match n with
  | O => Some p
  | S n => b ← src !! k; p ← wr8 p (off + k) b; copy_bytes n (k + 1) src off p
  end.

(** The parts of [write_dhcpv4_reply], in order: the BOOTP fields, the fixed
    options, the MTU and router slots, the DNS slot, the host name slot, and
    the Ethernet, IPv4 and UDP headers. *)
Definition write_bootp (r : Dhcpv4Reply) (p : list Z) : mem (list Z) :=
  let gw := rp_gateway_ipv4 r in
  p ← wr8 p F_BOOTP 2;
  p ← wrn p (F_BOOTP + 4) (rp_xid_secs_flags r);
  p ← wrn p (F_BOOTP + 16) (rp_yiaddr r);
  p ← wrn p (F_BOOTP + 20) gw;
  p ← wrn p (F_BOOTP + 24) gw;
  p ← wrn p (F_BOOTP + 28) (rp_client_mac r);
  wrn p (F_BOOTP + 44) (replicate 192 0).
Definition write_fixed_opts (r : Dhcpv4Reply) (p : list Z) : mem (list Z) :=
  let gw := rp_gateway_ipv4 r in
  p ← wrn p (F_OPTS + O_MSGTYPE) [OPT_MESSAGE_TYPE; 1; rp_reply_type r];
  p ← wrn p (F_OPTS + O_LEASE) ([OPT_LEASE_TIME; 4] ++ to_be32 (rp_lease_secs r));
  p ← wrn p (F_OPTS + O_SERVERID) [OPT_SERVER_ID; 4; at_ gw 0; at_ gw 1; at_ gw 2; at_ gw 3];
  p ← wrn p (F_OPTS + O_CLASSLESS) [OPT_CLASSLESS_ROUTE; 12; 16; 169; 254; 0; 0; 0; 0; 0;
                                    at_ gw 0; at_ gw 1; at_ gw 2; at_ gw 3];
  wrn p (F_OPTS + O_SUBNET) [OPT_SUBNET_MASK; 4; 0xff; 0xff; 0xff; 0xff].
Definition write_mtu_opt (r : Dhcpv4Reply) (p : list Z) : mem (list Z) :=
  p ← (if negb (rp_mtu r =? 0)
       then p ← wrn p (F_OPTS + O_MTU) [OPT_MTU; 2]; wr16 p (F_OPTS + O_MTU + 2) (rp_mtu r)
       else wrn p (F_OPTS + O_MTU) (replicate 4 OPT_PAD));
  wrn p (F_OPTS + O_ROUTER) (replicate 6 OPT_PAD).
Fixpoint write_dns (n j : nat) (dns : list (list Z)) (p : list Z) : mem (list Z) :=
  match n with
  | O => Some p
  | S n =>
      d ← dns !! j;
      p ← wrn p (F_OPTS + O_DNS + 2 + j * 4) [at_ d 0; at_ d 1; at_ d 2; at_ d 3];
      write_dns n (j + 1) dns p
  end.
Definition write_dns_opt (r : Dhcpv4Reply) (p : list Z) : mem (list Z) :=
  p ← wrn p (F_OPTS + O_DNS) (replicate 34 OPT_PAD);
  let dns_len := Nat.min (rp_dns_len r) DHCP_MAX_DNS in
  if (0 <? dns_len)%nat then
    p ← wrn p (F_OPTS + O_DNS) [OPT_DNS; wrap8 (Z.of_nat (dns_len * 4))];
    write_dns dns_len 0 (rp_dns r) p
  else Some p.
Definition write_hostname_opt (r : Dhcpv4Reply) (p : list Z) : mem (list Z) :=
  p ← wrn p (F_OPTS + O_HOSTNAME) (replicate 66 OPT_PAD);
  let hn_len := Nat.min (rp_hostname_len r) MAX_HOSTNAME in
  p ← (if (0 <? hn_len)%nat then
         p ← wrn p (F_OPTS + O_HOSTNAME) [OPT_HOSTNAME; wrap8 (Z.of_nat hn_len)];
         copy_bytes hn_len 0 (rp_hostname r) (F_OPTS + O_HOSTNAME + 2) p
       else Some p);
  wr8 p (F_OPTS + OPT_BLOCK_MAX - 1) OPT_END.
Definition dhcp_ip_hdr (vihl tos : Z) (gw : list Z) : list Z :=
  let ip_total := Z.of_nat (REPLY_LEN - ETH_LEN) in
  [vihl; tos] ++ to_be16 ip_total ++ [0; 0; 0; 0; 64; IPPROTO_UDP; 0; 0;
   at_ gw 0; at_ gw 1; at_ gw 2; at_ gw 3; 255; 255; 255; 255].
Definition write_headers (r : Dhcpv4Reply) (p : list Z) : mem (list Z) :=
  p ← wrn p 0 (rp_client_mac r);
  p ← wrn p 6 (rp_server_mac r);
  p ← wr16 p 12 ETH_P_IP;
  vihl ← rd8 p ETH_LEN;
  tos ← rd8 p (ETH_LEN + 1);
  let h := dhcp_ip_hdr vihl tos (rp_gateway_ipv4 r) in
  let ip_csum := csum_fold (csum_add_words (csum_add_words 0 (take 10 h)) (drop 12 h)) in
  p ← wrn p ETH_LEN h;
  p ← wr16 p (ETH_LEN + 10) ip_csum;
  let udp_len := Z.of_nat (REPLY_LEN - ETH_LEN - 20) in
  p ← wr16 p (ETH_LEN + 20) 67;
  p ← wr16 p (ETH_LEN + 22) 68;
  p ← wr16 p (ETH_LEN + 24) udp_len;
  wr16 p (ETH_LEN + 26) 0.
Definition write_dhcpv4_reply (r : Dhcpv4Reply) (p : list Z) : mem (option (list Z)) :=
  if short p REPLY_LEN then Some None else
  p ← write_bootp r p;
  p ← write_fixed_opts r p;
  p ← write_mtu_opt r p;
  p ← write_dns_opt r p;
  p ← write_hostname_opt r p;
  p ← write_headers r p;
  Some (Some p).

Section programs.
Context `{Kernel}.
Local Open Scope dp_scope.

Definition with_mac (mac : list Z) (m : PortMeta) : PortMeta :=
  mkPortMeta (pm_vni m) (pm_guest_ipv4 m) (pm_gateway_ipv4 m) mac (pm_underlay_ipv6 m)
    (pm_gateway_ipv6 m) (pm_guest_ipv6 m).
Definition learn_mac (ifindex : Z) (meta : PortMeta) (eth_src : list Z) : prog world unit :=
  if bool_decide (eth_src = pm_guest_mac meta) then pret tt else
  update (with_port_meta (hash_insert_ 1024 ifindex (with_mac eth_src meta))) ;;;
  (let* underlay := gets m_underlay in
   match underlay !! pm_underlay_ipv6 meta with
   | Some u => update (with_underlay (hash_insert_ 4096 (pm_underlay_ipv6 meta)
                         (mkUnderlayValue (uv_vni u) (uv_tap_ifindex u) eth_src)))
   | None => pret tt
   end) ;;;
  let ikey := mkIfaceKey (pm_vni meta) (pm_guest_ipv4 meta) in
  let* interfaces := gets m_interfaces in
  match interfaces !! ikey with
  | Some iv => update (with_interfaces (hash_insert_ 1024 ikey
                 (mkIfaceValue (iv_tap_ifindex iv) (iv_is_local iv) (iv_underlay_ipv6 iv) eth_src)))
  | None => pret tt
  end.

(** The first [n] entries of [src], the rest as initialised. *)
Definition fill {A} (n total : nat) (src : list A) (zero : A) : list A :=
  take n src ++ replicate (total - n) zero.
Definition gather_dhcpv4_reply (req : Dhcpv4Request) (meta : PortMeta) (ifindex : Z) (m : Maps)
    : Dhcpv4Reply :=
  let '(mtu, dns, dns_len) :=
    match m_dhcp_config m with
    | Some cfg =>
        let dns_len := Nat.min (Z.to_nat (dc_dns4_len cfg)) DHCP_MAX_DNS in
        (dc_mtu cfg, fill dns_len DHCP_MAX_DNS (dc_dns4 cfg) (replicate 4 0), dns_len)
    | None => (1500, replicate DHCP_MAX_DNS (replicate 4 0), O)
    end in
  let '(hostname, hn_len) :=
    match m_dhcp_meta m !! ifindex with
    | Some dm =>
        let hn_len := Nat.min (Z.to_nat (dm_hostname_len dm)) MAX_HOSTNAME in
        (fill hn_len MAX_HOSTNAME (dm_hostname dm) 0, hn_len)
    | None => (replicate MAX_HOSTNAME 0, O)
    end in
  mkDhcpv4Reply (rq_reply_type req) (rq_client_mac req) (pm_guest_ipv4 meta)
    (pm_gateway_ipv4 meta) GW_MAC (rq_xid_secs_flags req) mtu dns dns_len 0xffffffff
    hostname hn_len.

Definition try_dhcpv4_reply (ifindex : Z) (meta : PortMeta) : prog world (option Z) :=
  let* req := access parse_dhcpv4_request in
  match req with
  | None => pret None
  | Some req =>
      learn_mac ifindex meta (rq_client_mac req) ;;;
      let* r := gets (gather_dhcpv4_reply req meta ifindex) in
      let* p := get_pkt in
      let cur_len := length p in
      let* resized := (if (cur_len =? REPLY_LEN)%nat then pret true
                       else xdp_adjust_tail (Z.of_nat REPLY_LEN - Z.of_nat cur_len)) in
      if negb resized then pret None else
      let* written := rewrite_opt (write_dhcpv4_reply r) in
      if negb written then pret None else
      let* act := reflect ifindex in
      pret (Some act)
  end.
End programs.

(** ** Specification *)

(** The DHCP options (RFC 2132) a field holds: padding, options of a code, a
    length and a value, up to the end option. *)
Inductive options : list Z → list (Z * list Z) → Prop :=
  | options_end l : options (OPT_END :: l) []
  | options_pad l o : options l o → options (OPT_PAD :: l) o
  | options_opt c v l o :
      c ≠ OPT_PAD → c ≠ OPT_END → options l o →
      options (c :: Z.of_nat (length v) :: v ++ l) ((c, v) :: o).

(** The message type of an option list: the last one given. *)
Definition message_type (t : Z) (o : list (Z * list Z)) : Z :=
  fold_left (λ t x, if x.1 =? OPT_MESSAGE_TYPE then List.last x.2 t else t) o t.

(** An IPv4 UDP frame to the DHCP server port, with its options. *)
Record dhcpv4_frame (p : list Z) (o : list (Z * list Z)) : Prop := {
  df_len : (282 <= length p)%nat;
  df_type : w16 p 12 = ETH_P_IP;
  df_ihl : Z.land (at_ p 14) 0x0f = 5;
  df_udp : at_ p 23 = IPPROTO_UDP;
  df_port : w16 p 36 = 67;
  df_magic : slice p 278 4 = [0x63; 0x82; 0x53; 0x63];
  df_opts : options (take 128 (drop 282 p)) o }.

(** The options of a reply. *)
Definition dns_servers (m : Maps) : list (list Z) :=
  match m_dhcp_config m with
  | Some c => take (Nat.min (Z.to_nat (dc_dns4_len c)) DHCP_MAX_DNS) (dc_dns4 c)
  | None => []
  end.
Definition host_name (m : Maps) (ifindex : Z) : list Z :=
  match m_dhcp_meta m !! ifindex with
  | Some v => take (Nat.min (Z.to_nat (dm_hostname_len v)) MAX_HOSTNAME) (dm_hostname v)
  | None => []
  end.
Definition link_mtu (m : Maps) : Z :=
  match m_dhcp_config m with Some c => dc_mtu c | None => 1500 end.
Definition opt_if {A} (v : list A) (o : Z * list Z) : list (Z * list Z) :=
  if (0 <? length v)%nat then [o] else [].
Definition lease_options (reply_type : Z) (gw : list Z) (mtu : Z) (dns : list (list Z))
    (host : list Z) : list (Z * list Z) :=
  [(OPT_MESSAGE_TYPE, [reply_type]);
   (OPT_LEASE_TIME, [255; 255; 255; 255]);
   (OPT_SERVER_ID, gw);
   (** 169.254.0.0/16 on the link, everything else through the gateway *)
   (OPT_CLASSLESS_ROUTE, [16; 169; 254; 0; 0; 0; 0] ++ [0] ++ gw);
   (OPT_SUBNET_MASK, [255; 255; 255; 255])]
  ++ (if mtu =? 0 then [] else [(OPT_MTU, to_be16 mtu)])
  ++ opt_if dns (OPT_DNS, concat dns)
  ++ opt_if host (OPT_HOSTNAME, host).

(** A reply of type [rt] to the request [p]: an IPv4 UDP broadcast from the
    gateway to the client, with the leased address and the options. *)
Record dhcpv4_reply (p : list Z) (rt : Z) (meta : PortMeta) (ifindex : Z) (m : Maps) (q : list Z)
    : Prop := {
  dr_len : length q = 428%nat;
  dr_eth : slice q 0 14 = slice p 6 6 ++ GW_MAC ++ to_be16 ETH_P_IP;
  dr_proto : slice q 16 8 = to_be16 414 ++ [0; 0; 0; 0; 64; IPPROTO_UDP];
  dr_addrs : slice q 26 8 = pm_gateway_ipv4 meta ++ [255; 255; 255; 255];
  dr_csum : csum_valid (wsl q 14 20);
  dr_udp : slice q 34 8 = to_be16 67 ++ to_be16 68 ++ to_be16 394 ++ to_be16 0;
  dr_op : at_ q 42 = 2;
  dr_xid : slice q 46 8 = slice p 46 8;
  dr_bootp : slice q 58 18
    = pm_guest_ipv4 meta ++ pm_gateway_ipv4 meta ++ pm_gateway_ipv4 meta ++ slice p 6 6;
  dr_magic : slice q 278 4 = slice p 278 4;
  dr_opts : options (slice q 282 146)
    (lease_options rt (pm_gateway_ipv4 meta) (link_mtu m) (dns_servers m) (host_name m ifindex)) }.

(** ** Lemmas: the parser *)

Fixpoint scan_list (l : list Z) (s : Scan) : Scan :=
  match l with
  | [] => s
  | b :: l => match scan_step b s with Some s => scan_list l s | None => s end
  end.

Lemma opt_scan_run n p i s : opt_scan n p i s = Some (scan_list (take n (drop (F_OPTS + i) p)) s).
Proof.
  revert i s. induction n as [|n IH]; intros i s; cbn [opt_scan]; [done|].
  destruct (short p _) eqn:E.
  - apply short_true in E. rewrite drop_ge by lia. done.
  - apply short_false in E. rewrite rd8_at by lia. cbn [mbind option_bind].
    rewrite (drop_S p (at_ p (F_OPTS + i))).
    + cbn. destruct (scan_step _ s) as [s'|]; [|done]. rewrite IH.
      by replace (F_OPTS + (i + 1))%nat with (S (F_OPTS + i)) by lia.
    + pose proof (rd8_at p (F_OPTS + i)) as Er. unfold rd8 in Er. apply Er. lia.
Qed.

Lemma scan_value v l mt t :
  scan_list (v ++ l) (mkScan (if Z.of_nat (length v) =? 0 then 0 else 2) (Z.of_nat (length v)) mt t)
  = scan_list l (mkScan 0 0 mt (if mt then List.last v t else t)).
Proof.
  revert t. induction v as [|b v IH]; intros t; [by destruct mt|].
  rewrite (proj2 (Z.eqb_neq _ 0)) by (cbn; lia). cbn [app scan_list scan_step].
  unfold scan_step. cbn [sm_state sm_remain sm_is_msgtype msg_type].
  change (2 =? 0) with false. change (2 =? 1) with false. cbn [length].
  replace (Z.of_nat (S (length v)) - 1) with (Z.of_nat (length v)) by lia.
  rewrite IH. do 2 f_equal. destruct mt; [|done]. cbn [andb].
  destruct v as [|b' v]; [done|]. by rewrite (proj2 (Z.eqb_neq _ 1)) by (cbn; lia).
Qed.

Lemma scan_options l o rem mt t :
  options l o → msg_type (scan_list l (mkScan 0 rem mt t)) = message_type t o.
Proof.
  intros H. revert rem mt t. induction H as [l|l o H IH|c v l o H0 H255 H IH]; intros rem mt t.
  - done.
  - apply IH.
  - cbn [scan_list]. unfold scan_step at 1. cbn [sm_state sm_remain sm_is_msgtype msg_type].
    change (0 =? 0) with true. cbn iota. rewrite !(proj2 (Z.eqb_neq c _)) by done.
    unfold scan_step. cbn [sm_state sm_remain sm_is_msgtype msg_type].
    change (1 =? 0) with false. change (1 =? 1) with true. cbn iota.
    rewrite scan_value. rewrite IH. unfold message_type. cbn [fold_left fst snd].
    by destruct (c =? OPT_MESSAGE_TYPE).
Qed.

Lemma parse_dhcpv4_request_run p o :
  dhcpv4_frame p o →
  parse_dhcpv4_request p = Some (
    let t := message_type 0 o in
    if negb (t =? DHCP_MSG_DISCOVER) && negb (t =? DHCP_MSG_REQUEST) then None else
    Some (mkDhcpv4Request (if t =? DHCP_MSG_DISCOVER then DHCP_MSG_OFFER else DHCP_MSG_ACK)
            (slice p 6 6) (slice p 46 8))).
Proof.
  intros [Hl He Hi Hu Hp Hm Ho]. unfold parse_dhcpv4_request, MIN_DHCP_LEN, ETH_LEN, F_BOOTP,
    BOOTP_MAGIC_OFF. cbn [Nat.add]. rewrite short_false_eq by lia.
  rewrite !rd16_w16, !rd8_at, !rdn_slice by lia. cbn [mbind option_bind].
  rewrite He, Hi, Hu, Hp, Hm. cbn -[opt_scan slice Z.eqb]. rewrite opt_scan_run.
  cbn [mbind option_bind]. change (F_OPTS + 0)%nat with 282%nat.
  unfold scan_init. rewrite (scan_options _ o) by done. by destruct (negb _ && negb _).
Qed.

(** Whatever it reads, the parser reads inside the frame. *)
Lemma parse_dhcpv4_request_total p :
  ∃ r, parse_dhcpv4_request p = Some r ∧
    ∀ q, r = Some q → length (rq_client_mac q) = 6%nat ∧ length (rq_xid_secs_flags q) = 8%nat ∧
      (282 <= length p)%nat.
Proof.
  unfold parse_dhcpv4_request, MIN_DHCP_LEN, ETH_LEN, F_BOOTP, BOOTP_MAGIC_OFF. cbn [Nat.add].
  mem_go; try (by eexists). rewrite opt_scan_run. cbn [mbind option_bind].
  destruct (negb _ && negb _); [by eexists|].
  eexists. split; [done|]. intros q [= <-]. cbn [rq_client_mac rq_xid_secs_flags].
  by rewrite !length_slice by lia.
Qed.

(** ** Lemmas: the writer *)

(** The option block, slot by slot. *)
Definition padded (n : nat) (l : list Z) : list Z := l ++ replicate (n - length l) OPT_PAD.
Definition fixed_opts (r : Dhcpv4Reply) : list Z :=
  let gw := rp_gateway_ipv4 r in
  [OPT_MESSAGE_TYPE; 1; rp_reply_type r] ++ ([OPT_LEASE_TIME; 4] ++ to_be32 (rp_lease_secs r))
  ++ [OPT_SERVER_ID; 4; at_ gw 0; at_ gw 1; at_ gw 2; at_ gw 3]
  ++ [OPT_CLASSLESS_ROUTE; 12; 16; 169; 254; 0; 0; 0; 0; 0; at_ gw 0; at_ gw 1; at_ gw 2; at_ gw 3]
  ++ [OPT_SUBNET_MASK; 4; 0xff; 0xff; 0xff; 0xff].
Definition mtu_opt (r : Dhcpv4Reply) : list Z :=
  if rp_mtu r =? 0 then [] else [OPT_MTU; 2] ++ to_be16 (rp_mtu r).
Definition dns_opt (r : Dhcpv4Reply) : list Z :=
  let n := Nat.min (rp_dns_len r) DHCP_MAX_DNS in
  if (0 <? n)%nat then [OPT_DNS; Z.of_nat (n * 4)] ++ concat (take n (rp_dns r)) else [].
Definition host_opt (r : Dhcpv4Reply) : list Z :=
  let n := Nat.min (rp_hostname_len r) MAX_HOSTNAME in
  if (0 <? n)%nat then [OPT_HOSTNAME; Z.of_nat n] ++ take n (rp_hostname r) else [].
Definition opts_block (r : Dhcpv4Reply) : list Z :=
  fixed_opts r ++ padded 10 (mtu_opt r) ++ padded 34 (dns_opt r) ++ padded 66 (host_opt r) ++ [OPT_END].

Record reply_shaped (r : Dhcpv4Reply) : Prop := {
  rs_client : length (rp_client_mac r) = 6%nat;
  rs_server : length (rp_server_mac r) = 6%nat;
  rs_yiaddr : length (rp_yiaddr r) = 4%nat;
  rs_gw : length (rp_gateway_ipv4 r) = 4%nat;
  rs_xid : length (rp_xid_secs_flags r) = 8%nat;
  rs_dns : length (rp_dns r) = DHCP_MAX_DNS ∧ Forall (λ d, length d = 4%nat) (rp_dns r);
  rs_host : length (rp_hostname r) = MAX_HOSTNAME }.

(** Run the next write of the goal. *)
Ltac len_solve :=
  lazymatch goal with
  | |- context [length (splice _ _ _)] => rewrite length_splice; len_solve
  | |- context [length (_ ++ _)] => rewrite length_app; len_solve
  | |- _ => rewrite ?length_replicate; cbn [length app to_be16 to_be32] in *; lia
  end.
Ltac wr_run :=
  first [rewrite wrn_splice by len_solve
        |rewrite wr8_splice by len_solve
        |rewrite wr16_splice by len_solve];
  cbn [mbind option_bind].

Lemma splice_padded p i n l :
  (i + n <= length p)%nat → (length l <= n)%nat →
  splice (splice p i (replicate n OPT_PAD)) i l = splice p i (padded n l).
Proof.
  intros Hp Hl. rewrite (splice_inner p i _ 0) by (rewrite ?length_replicate; lia).
  rewrite splice_front. unfold padded. by rewrite drop_replicate.
Qed.

Lemma copy_bytes_run n k src off p :
  (k + n <= length src)%nat → (off + k + n <= length p)%nat →
  copy_bytes n k src off p = Some (splice p (off + k) (take n (drop k src))).
Proof.
  revert k p. induction n as [|n IH]; intros k p Hs Hp; cbn [copy_bytes].
  { by rewrite take_0, splice_nil. }
  pose proof (rd8_at src k ltac:(lia)) as Ek. unfold rd8 in Ek. rewrite Ek.
  cbn [mbind option_bind]. rewrite wr8_splice by lia. cbn [mbind option_bind].
  rewrite IH by (rewrite ?length_splice; cbn; lia).
  rewrite splice_next by (rewrite ?length_take, ?length_drop; cbn; lia).
  rewrite (drop_S src (at_ src k) k) by done. cbn [take].
  by replace (k + 1)%nat with (S k) by lia.
Qed.

Lemma write_dns_run n j dns p :
  Forall (λ d, length d = 4%nat) dns → (j + n <= length dns)%nat →
  (F_OPTS + O_DNS + 2 + (j + n) * 4 <= length p)%nat →
  write_dns n j dns p = Some (splice p (F_OPTS + O_DNS + 2 + j * 4) (concat (take n (drop j dns)))).
Proof.
  intros Hd. revert j p. induction n as [|n IH]; intros j p Hj Hp; cbn [write_dns].
  { by rewrite take_0, splice_nil. }
  destruct (lookup_lt_is_Some_2 dns j) as [d Ed]; [lia|]. rewrite Ed.
  pose proof (proj1 (Forall_lookup _ _) Hd j d Ed) as Hl. cbn beta in Hl.
  cbn [mbind option_bind]. wr_run.
  rewrite (drop_S dns d j) by done. cbn [take concat].
  rewrite IH by len_solve.
  assert (length (concat (take n (drop (j + 1) dns))) = (4 * n)%nat) as Hc.
  { assert (Forall (λ d, length d = 4%nat) (take n (drop (j + 1) dns))) as Hf
      by (by apply Forall_take, Forall_drop).
    assert (length (take n (drop (j + 1) dns)) = n) as Hn by (rewrite length_take, length_drop; lia).
    rewrite <- Hn at 2. clear - Hf. induction Hf as [|x l Hx Hf IHf]; [done|].
    cbn [concat length]. rewrite length_app, IHf, Hx. lia. }
  rewrite splice_next by (rewrite ?Hc; len_solve).
  replace (j + 1)%nat with (S j) by lia. explode_arr d 4 Hl. reflexivity.
Qed.

Lemma length_padded n l : (length l <= n)%nat → length (padded n l) = n.
Proof. intros H. unfold padded. rewrite length_app, length_replicate. lia. Qed.

Lemma concat_length {A} n (l : list (list A)) :
  Forall (λ d, length d = n) l → length (concat l) = (n * length l)%nat.
Proof.
  induction 1 as [|x l Hx Hf IH]; [cbn; lia|]. cbn [concat length]. rewrite length_app, IH, Hx. lia.
Qed.

Lemma fixed_opts_length r : length (fixed_opts r) = 35%nat.
Proof. reflexivity. Qed.
Lemma mtu_opt_length r : (length (mtu_opt r) <= 10)%nat.
Proof. unfold mtu_opt. destruct (_ =? 0); cbn; lia. Qed.
Lemma dns_opt_length r : reply_shaped r → (length (dns_opt r) <= 34)%nat.
Proof.
  intros Hr. unfold dns_opt, DHCP_MAX_DNS. destruct (_ <? _)%nat; [|cbn; lia].
  destruct (rs_dns r Hr) as [Hn Hd]. rewrite length_app, (concat_length 4); [|by apply Forall_take].
  rewrite length_take. cbn [length]. lia.
Qed.
Lemma host_opt_length r : (length (host_opt r) <= 66)%nat.
Proof.
  unfold host_opt, MAX_HOSTNAME. destruct (_ <? _)%nat; [|cbn; lia].
  rewrite length_app, length_take. cbn [length]. lia.
Qed.

Section blocks.
Variables (r : Dhcpv4Reply) (p : list Z).
Hypothesis Hr : reply_shaped r.
Hypothesis Hl : (428 <= length p)%nat.

Lemma write_fixed_run : write_fixed_opts r p = Some (splice p 282 (fixed_opts r)).
Proof.
  unfold write_fixed_opts, fixed_opts, F_OPTS, O_MSGTYPE, O_LEASE, O_SERVERID, O_CLASSLESS, O_SUBNET.
  cbn [Nat.add]. repeat wr_run. by repeat rewrite splice_next by len_solve.
Qed.

Lemma write_mtu_run : write_mtu_opt r p = Some (splice p 317 (padded 10 (mtu_opt r))).
Proof.
  unfold write_mtu_opt, mtu_opt, F_OPTS, O_MTU, O_ROUTER. cbn [Nat.add].
  destruct (rp_mtu r =? 0); cbn [negb]; repeat wr_run; by repeat rewrite splice_next by len_solve.
Qed.

Lemma write_dns_opt_run : write_dns_opt r p = Some (splice p 327 (padded 34 (dns_opt r))).
Proof.
  destruct (rs_dns r Hr) as [Hn Hd]. pose proof (dns_opt_length r Hr) as Hb.
  unfold write_dns_opt, dns_opt in *. set (n := Nat.min _ _) in *.
  assert (n <= 8)%nat as Hn8 by (unfold n, DHCP_MAX_DNS; lia).
  change (F_OPTS + O_DNS)%nat with 327%nat. wr_run.
  destruct (0 <? n)%nat; [|by rewrite <- splice_padded, splice_nil by len_solve].
  wr_run. rewrite write_dns_run; [|done|rewrite Hn; unfold DHCP_MAX_DNS; lia|].
  2: { unfold F_OPTS, O_DNS. len_solve. }
  rewrite drop_0. change (F_OPTS + O_DNS + 2 + 0 * 4)%nat with 329%nat.
  rewrite splice_next; [|rewrite length_splice by len_solve; len_solve|reflexivity].
  rewrite splice_padded by len_solve. do 3 f_equal. unfold padded. do 4 f_equal.
  rewrite wrap8_mod. apply Z.mod_small. lia.
Qed.

Lemma write_hostname_run :
  write_hostname_opt r p = Some (splice p 361 (padded 66 (host_opt r) ++ [OPT_END])).
Proof.
  pose proof (rs_host r Hr) as Hn. pose proof (host_opt_length r) as Hb.
  unfold write_hostname_opt, host_opt in *. set (n := Nat.min _ _) in *.
  assert (n <= 64)%nat as Hn8 by (unfold n, MAX_HOSTNAME; lia). unfold MAX_HOSTNAME in Hn.
  change (F_OPTS + O_HOSTNAME)%nat with 361%nat. change (F_OPTS + OPT_BLOCK_MAX - 1)%nat with 427%nat.
  wr_run. destruct (0 <? n)%nat; cbn [mbind option_bind].
  - wr_run. rewrite copy_bytes_run by len_solve. cbn [mbind option_bind]. rewrite drop_0.
    change (361 + 2 + 0)%nat with 363%nat.
    rewrite splice_next; [|rewrite length_splice by len_solve; len_solve|reflexivity].
    assert (wrap8 (Z.of_nat n) = Z.of_nat n) as ->.
    { rewrite wrap8_mod. apply Z.mod_small. lia. }
    rewrite splice_padded by len_solve. pose proof (length_padded _ _ Hb) as Hpd.
    rewrite wr8_splice by (rewrite length_splice; rewrite ?Hpd; lia).
    by rewrite splice_next by (rewrite length_padded by done; cbn; lia).
  - rewrite wr8_splice by len_solve. by rewrite splice_next by len_solve.
Qed.
End blocks.

Lemma write_opts_run r p :
  reply_shaped r → (428 <= length p)%nat →
  (p ← write_fixed_opts r p; p ← write_mtu_opt r p; p ← write_dns_opt r p; write_hostname_opt r p)
  = Some (splice p 282 (opts_block r)).
Proof.
  intros Hr Hl.
  pose proof (length_padded _ _ (mtu_opt_length r)) as H1.
  pose proof (length_padded _ _ (dns_opt_length r Hr)) as H2.
  pose proof (length_padded _ _ (host_opt_length r)) as H3.
  pose proof (fixed_opts_length r) as H4.
  rewrite write_fixed_run by done. cbn [mbind option_bind].
  rewrite write_mtu_run by len_solve. cbn [mbind option_bind].
  rewrite splice_next by (rewrite ?H1, H4; lia).
  rewrite write_dns_opt_run; [|done|rewrite length_splice; rewrite ?length_app, ?H1, ?H4; lia].
  cbn [mbind option_bind]. rewrite splice_next by (rewrite ?length_app, ?H1, ?H2, H4; lia).
  rewrite write_hostname_run; [|done|rewrite length_splice; rewrite ?length_app, ?H1, ?H2, ?H4; lia].
  rewrite splice_next by (rewrite ?length_app, ?H1, ?H2, ?H3, ?H4; cbn; lia).
  unfold opts_block. by rewrite <- !app_assoc.
Qed.

(** The first 42 bytes: Ethernet, IPv4 with checksum [c], UDP. *)
Definition dhcp_headers (r : Dhcpv4Reply) (vihl tos c : Z) : list Z :=
  rp_client_mac r ++ rp_server_mac r ++ to_be16 ETH_P_IP
  ++ [vihl; tos] ++ to_be16 414 ++ [0; 0; 0; 0; 64; IPPROTO_UDP] ++ to_be16 c
  ++ rp_gateway_ipv4 r ++ [255; 255; 255; 255]
  ++ to_be16 67 ++ to_be16 68 ++ to_be16 394 ++ to_be16 0.
Definition ip_csum (vihl tos : Z) (gw : list Z) : Z :=
  let h := dhcp_ip_hdr vihl tos gw in
  csum_fold (csum_add_words (csum_add_words 0 (take 10 h)) (drop 12 h)).

Lemma dhcp_headers_length r vihl tos c : reply_shaped r → length (dhcp_headers r vihl tos c) = 42%nat.
Proof.
  intros [Hc Hs _ Hg _ _ _]. unfold dhcp_headers. rewrite !length_app, Hc, Hs, Hg. reflexivity.
Qed.

Lemma write_headers_run r p :
  reply_shaped r → (428 <= length p)%nat →
  write_headers r p = Some (splice p 0
    (dhcp_headers r (at_ p 14) (at_ p 15) (ip_csum (at_ p 14) (at_ p 15) (rp_gateway_ipv4 r)))).
Proof.
  intros [Hc Hs _ Hg _ _ _] Hl. unfold write_headers, ETH_LEN. cbn [Nat.add].
  wr_run. wr_run. wr_run. rewrite !rd8_at by len_solve. cbn [mbind option_bind].
  rewrite !(splice_next p 0) by len_solve. rewrite !at_splice_out by len_solve.
  fold (ip_csum (at_ p 14) (at_ p 15) (rp_gateway_ipv4 r)).
  set (c := ip_csum _ _ _). set (vihl := at_ p 14). set (tos := at_ p 15). clearbody c vihl tos.
  unfold dhcp_headers. destruct r as [rt cm ya gw sm xid mtu dns dl lease host hl]. cbn in Hc, Hs, Hg |- *.
  explode_arr cm 6 Hc. explode_arr sm 6 Hs. explode_arr gw 4 Hg.
  unfold dhcp_ip_hdr. do 6 wr_run.
  rewrite (splice_next p 0) by len_solve.
  rewrite (splice_inner p 0 _ 24) by len_solve.
  rewrite !(splice_next p 0) by len_solve. reflexivity.
Qed.

(** The frame after [write_bootp]. *)
Definition bootp_fields (r : Dhcpv4Reply) : list Z :=
  rp_yiaddr r ++ rp_gateway_ipv4 r ++ rp_gateway_ipv4 r ++ rp_client_mac r.
Definition bootp (r : Dhcpv4Reply) (p : list Z) : list Z :=
  splice (splice (splice (splice p 42 [2]) 46 (rp_xid_secs_flags r)) 58 (bootp_fields r))
    86 (replicate 192 0).

Lemma write_bootp_run r p :
  reply_shaped r → (428 <= length p)%nat →
  write_bootp r p = Some (bootp r p) ∧ length (bootp r p) = length p.
Proof.
  intros [Hc _ Hy Hg Hx _ _] Hl. unfold write_bootp, bootp, bootp_fields, F_BOOTP. cbn [Nat.add].
  split.
  - repeat wr_run. do 3 (rewrite (splice_next _ 58) by len_solve). by rewrite <- !app_assoc.
  - assert (length (rp_yiaddr r ++ rp_gateway_ipv4 r ++ rp_gateway_ipv4 r ++ rp_client_mac r) = 18%nat)
      as Hf by len_solve. len_solve.
Qed.

Definition dhcp_reply (r : Dhcpv4Reply) (p : list Z) : list Z :=
  splice (splice (bootp r p) 282 (opts_block r)) 0
    (dhcp_headers r (at_ p 14) (at_ p 15) (ip_csum (at_ p 14) (at_ p 15) (rp_gateway_ipv4 r))).

Lemma opts_block_length r : reply_shaped r → length (opts_block r) = 146%nat.
Proof.
  intros Hr. unfold opts_block. rewrite !length_app, fixed_opts_length.
  rewrite !length_padded; [done|apply host_opt_length|by apply dns_opt_length|apply mtu_opt_length].
Qed.

Lemma write_dhcpv4_reply_run r p :
  reply_shaped r → (428 <= length p)%nat → write_dhcpv4_reply r p = Some (Some (dhcp_reply r p)).
Proof.
  intros Hr Hl. unfold write_dhcpv4_reply. rewrite short_false_eq by done.
  destruct (write_bootp_run r p Hr Hl) as [-> Hb]. cbn [mbind option_bind].
  pose proof (opts_block_length r Hr) as Ho.
  pose proof (write_opts_run r (bootp r p) Hr ltac:(lia)) as E.
  destruct (write_fixed_opts r _) as [p1|]; [|done]. cbn [mbind option_bind] in *.
  destruct (write_mtu_opt r _) as [p2|]; [|done]. cbn [mbind option_bind] in *.
  destruct (write_dns_opt r _) as [p3|]; [|done]. cbn [mbind option_bind] in *.
  rewrite E. cbn [mbind option_bind]. rewrite write_headers_run by (done || len_solve).
  cbn [mbind option_bind]. unfold dhcp_reply. do 3 f_equal.
  assert (∀ i, (i < 42)%nat → at_ (splice (bootp r p) 282 (opts_block r)) i = at_ p i) as Hat.
  { intros i Hi. destruct Hr as [Hc _ Hy Hg Hx _ _].
    assert (length (bootp_fields r) = 18%nat) as Hf by (unfold bootp_fields; len_solve).
    rewrite at_splice_out by lia. unfold bootp. rewrite !at_splice_out by len_solve. done. }
  by rewrite !Hat by lia.
Qed.

(** What a reply's fields hold. *)
Lemma dhcp_reply_headers r p :
  reply_shaped r → (428 <= length p)%nat →
  slice (dhcp_reply r p) 0 42 = dhcp_headers r (at_ p 14) (at_ p 15)
    (ip_csum (at_ p 14) (at_ p 15) (rp_gateway_ipv4 r)) ∧
  slice (dhcp_reply r p) 282 146 = opts_block r ∧
  length (dhcp_reply r p) = length p ∧
  ∀ i n, (42 <= i)%nat → (i + n <= 282)%nat → slice (dhcp_reply r p) i n = slice (bootp r p) i n.
Proof.
  intros Hr Hl. destruct (write_bootp_run r p Hr Hl) as [_ Hb].
  pose proof (opts_block_length r Hr) as Ho. unfold dhcp_reply.
  set (h := dhcp_headers _ _ _ _). assert (length h = 42%nat) as Hh by (by apply dhcp_headers_length).
  split; [|split; [|split]].
  - apply slice_splice_at; [done|]. rewrite length_splice by lia. lia.
  - rewrite slice_splice_out by len_solve. apply slice_splice_at; [done|lia].
  - len_solve.
  - intros i n Hi Hn. rewrite slice_splice_out by len_solve. by rewrite slice_splice_out by lia.
Qed.

Lemma bootp_slices r p :
  reply_shaped r → (428 <= length p)%nat →
  at_ (bootp r p) 42 = 2 ∧ slice (bootp r p) 46 8 = rp_xid_secs_flags r ∧
  slice (bootp r p) 58 18 = bootp_fields r ∧ slice (bootp r p) 278 4 = slice p 278 4.
Proof.
  intros [Hc _ Hy Hg Hx _ _] Hl. unfold bootp.
  assert (length (bootp_fields r) = 18%nat) as Hf by (unfold bootp_fields; len_solve).
  split; [|split; [|split]].
  - rewrite !at_splice_out by len_solve. by rewrite at_splice_in by (cbn; lia).
  - rewrite !slice_splice_out by len_solve. apply slice_splice_at; [done|len_solve].
  - rewrite slice_splice_out by len_solve. apply slice_splice_at; [done|len_solve].
  - by rewrite !slice_splice_out by len_solve.
Qed.

(** The IPv4 header's checksum. *)
Lemma ip_csum_valid r vihl tos :
  reply_shaped r → bytes_ok (rp_gateway_ipv4 r) → is_byte vihl → is_byte tos →
  csum_valid (wsl (dhcp_headers r vihl tos (ip_csum vihl tos (rp_gateway_ipv4 r))) 14 20).
Proof.
  intros [Hc Hs _ Hg _ _ _] Hgb Hv Ht. unfold dhcp_headers, wsl.
  destruct r as [rt cm ya gw sm xid mtu dns dl lease host hl]. cbn in Hc, Hs, Hg, Hgb |- *.
  explode_arr cm 6 Hc. explode_arr sm 6 Hs. explode_arr gw 4 Hg.
  unfold ip_csum, dhcp_ip_hdr. cbn [app take drop to_be16].
  match goal with |- context [csum_add_words (csum_add_words 0 ?a) ?b] =>
    set (l1 := a); set (l2 := b) end.
  assert (bytes_ok l1) as H1.
  { unfold l1. constructor; [done|]. constructor; [done|]. by apply bytes_ok_b. }
  assert (bytes_ok l2) as H2.
  { unfold l2, at_, bytes_ok in *. cbn [nth].
    repeat match goal with H : Forall _ (_ :: _) |- _ => apply Forall_cons in H as [? H] end.
    repeat (constructor; [first [done|unfold is_byte; lia]|]). constructor. }
  pose proof (wsum_words_bound l1 5 H1 eq_refl) as B1.
  pose proof (wsum_words_bound l2 4 H2 eq_refl) as B2.
  rewrite (csum_add_words_run l1) by (done || lia || by exists 5%nat).
  rewrite (csum_add_words_run l2) by (done || lia || by exists 4%nat).
  set (s := 0 + wsum l1 + wsum l2). set (c := csum_fold s).
  assert (is_u16 c) as Hcs by apply csum_fold_range.
  assert (0 < s) as Hpos.
  { pose proof (be16_range vihl tos Hv Ht). unfold s, l1, is_u16 in *. cbn [wsum] in *.
    pose proof (wsum_nonneg l2 H2). change (be16 (Z.of_nat _ ≫ 8) _) with 414 in *.
    change (be16 0 0) with 0. change (be16 64 IPPROTO_UDP) with 16401. lia. }
  pose proof (csum_fold_valid s ltac:(lia)) as Hval. fold c in Hval.
  replace (wsum _) with (s + c); [done|].
  unfold s, l1, l2, slice. cbn [drop take wsum]. rewrite (be16_to_be16 c) by done.
  unfold at_. cbn [nth]. change (be16 (Z.of_nat _ ≫ 8) _) with 414.
  change (be16 (414 ≫ 8) _) with 414. lia.
Qed.

(** ** Lemmas: the options of a reply *)

Lemma options_pads n l o : options l o → options (replicate n OPT_PAD ++ l) o.
Proof. intros H. induction n as [|n IH]; [done|]. cbn. by constructor. Qed.

Lemma options_opt' c k v l o :
  c ≠ OPT_PAD → c ≠ OPT_END → k = Z.of_nat (length v) → options l o →
  options ((c :: k :: v) ++ l) ((c, v) :: o).
Proof. intros H1 H2 -> H. by apply options_opt. Qed.

Lemma options_slot n c k v l o :
  c ≠ OPT_PAD → c ≠ OPT_END → k = Z.of_nat (length v) → options l o →
  options (padded n (c :: k :: v) ++ l) ((c, v) :: o).
Proof.
  intros H1 H2 Hk H. unfold padded. rewrite <- app_assoc. apply options_opt'; [done..|].
  by apply options_pads.
Qed.
Lemma options_empty n l o : options l o → options (padded n [] ++ l) o.
Proof. intros H. by apply options_pads. Qed.

Lemma opts_block_options r :
  reply_shaped r → rp_lease_secs r = 0xffffffff →
  options (opts_block r)
    (lease_options (rp_reply_type r) (rp_gateway_ipv4 r) (rp_mtu r)
       (take (Nat.min (rp_dns_len r) DHCP_MAX_DNS) (rp_dns r))
       (take (Nat.min (rp_hostname_len r) MAX_HOSTNAME) (rp_hostname r))).
Proof.
  intros [_ _ _ Hg _ [Hn Hd] Hh] Hlease. unfold opts_block, lease_options, fixed_opts.
  rewrite Hlease, <- !app_assoc.
  destruct r as [rt cm ya gw sm xid mtu dns dl lease host hl]. cbn [rp_gateway_ipv4 rp_reply_type
    rp_mtu rp_dns rp_dns_len rp_hostname rp_hostname_len] in *.
  explode_arr gw 4 Hg. unfold at_. cbn [nth].
  cbn [app]. do 5 (lazymatch goal with
    | |- options _ ((?c, ?v) :: _) => apply (options_opt' c (Z.of_nat (length v)) v); [done..|]
    end). cbn [app].
  assert (∀ l o, options l o → options (padded 66 (host_opt (mkDhcpv4Reply rt cm ya [z; z0; z1; z2]
    sm xid mtu dns dl lease host hl)) ++ l)
    (opt_if (take (Nat.min hl MAX_HOSTNAME) host) (OPT_HOSTNAME, take (Nat.min hl MAX_HOSTNAME) host)
     ++ o)) as Hhost.
  { intros l o H. unfold host_opt, opt_if. cbn [rp_hostname_len rp_hostname].
    rewrite length_take, Hh. set (n := Nat.min hl MAX_HOSTNAME).
    replace (Nat.min n MAX_HOSTNAME) with n by (unfold n; lia). destruct (0 <? n)%nat.
    - apply options_slot; [done|done| |done]. rewrite length_take, Hh. unfold n. lia.
    - by apply options_empty. }
  assert (∀ l o, options l o → options (padded 34 (dns_opt (mkDhcpv4Reply rt cm ya [z; z0; z1; z2]
    sm xid mtu dns dl lease host hl)) ++ l)
    (opt_if (take (Nat.min dl DHCP_MAX_DNS) dns) (OPT_DNS, concat (take (Nat.min dl DHCP_MAX_DNS) dns))
     ++ o)) as Hdns.
  { intros l o H. unfold dns_opt, opt_if. cbn [rp_dns_len rp_dns].
    rewrite length_take, Hn. set (n := Nat.min dl DHCP_MAX_DNS).
    replace (Nat.min n DHCP_MAX_DNS) with n by (unfold n; lia). destruct (0 <? n)%nat.
    - apply options_slot; [done|done| |done].
      rewrite (concat_length 4) by (by apply Forall_take). rewrite length_take, Hn. unfold n. lia.
    - by apply options_empty. }
  pose proof (Hdns _ _ (Hhost _ _ (options_end []))) as Htail. rewrite (app_nil_r (opt_if _ _)) in Htail.
  unfold mtu_opt. cbn [rp_mtu]. destruct (mtu =? 0).
  - by apply options_empty.
  - by apply options_slot.
Qed.

Lemma hash_insert__present {K V} `{Countable K} max (k : K) (v x : V) (m : gmap K V) :
  m !! k = Some x → hash_insert_ max k v m = <[k := v]> m.
Proof. intros E. unfold hash_insert_, hash_insert. by rewrite E. Qed.
Lemma hash_insert__values {K V} `{Countable K} (P : V → Prop) max (k : K) (x : V) (m : gmap K V) :
  P x → (∀ k v, m !! k = Some v → P v) → ∀ k' v, hash_insert_ max k x m !! k' = Some v → P v.
Proof.
  intros Hx Hm. unfold hash_insert_, hash_insert.
  destruct (m !! k); [by apply insert_values|]. destruct (_ <? max); [by apply insert_values|done].
Qed.

(** The maps after [learn_mac]. *)
Definition learn (ifindex : Z) (meta : PortMeta) (mac : list Z) (m : Maps) : Maps :=
  if bool_decide (mac = pm_guest_mac meta) then m else
  with_macs
    (λ t, match t !! mkIfaceKey (pm_vni meta) (pm_guest_ipv4 meta) with
          | Some v => <[mkIfaceKey (pm_vni meta) (pm_guest_ipv4 meta) :=
              mkIfaceValue (iv_tap_ifindex v) (iv_is_local v) (iv_underlay_ipv6 v) mac]> t
          | None => t end)
    (hash_insert_ 1024 ifindex (with_mac mac meta))
    (λ t, match t !! pm_underlay_ipv6 meta with
          | Some u => <[pm_underlay_ipv6 meta := mkUnderlayValue (uv_vni u) (uv_tap_ifindex u) mac]> t
          | None => t end) m.

Lemma learn_mac_run ifindex meta mac w :
  learn_mac ifindex meta mac w
  = Some (tt, mkWorld (w_pkt w) (learn ifindex meta mac (w_maps w)) (w_tick w) (w_redirect w)).
Proof.
  unfold learn_mac, learn. destruct (bool_decide _); [by destruct w|].
  unfold pbind, update, gets, pret. cbn [w_maps w_pkt w_tick w_redirect m_underlay with_port_meta].
  destruct (m_underlay (w_maps w) !! _) as [u|] eqn:Eu;
    cbn [w_maps w_pkt w_tick w_redirect m_interfaces with_port_meta with_underlay];
    (destruct (m_interfaces (w_maps w) !! _) as [v|] eqn:Ev); destruct w as [p m t rd]; destruct m;
    unfold with_macs, with_port_meta, with_underlay, with_interfaces; cbn in *;
    rewrite ?Eu, ?Ev; try (rewrite (hash_insert__present 4096 _ _ u) by done);
    try (rewrite (hash_insert__present 1024 _ _ v) by done); done.
Qed.

Lemma learn_shaped ifindex meta mac m :
  shaped m → port_shaped meta → length mac = 6%nat → shaped (learn ifindex meta mac m).
Proof.
  intros [] [] Hm. unfold learn. destruct (bool_decide _); [by split|]. split; try done; cbn.
  - apply hash_insert__values; [by split|done].
  - destruct (m_underlay m !! _); [|done]. by apply insert_values.
Qed.

(** ** Lemmas: the responder *)

Lemma length_fill {A} n total (src : list A) zero :
  (n <= length src)%nat → (n <= total)%nat → length (fill n total src zero) = total.
Proof. intros Hs Ht. unfold fill. rewrite length_app, length_take, length_replicate. lia. Qed.
Lemma take_fill {A} n total (src : list A) zero :
  (n <= length src)%nat → take n (fill n total src zero) = take n src.
Proof. intros Hs. unfold fill. rewrite take_app_le by (rewrite length_take; lia). by rewrite take_take, Nat.min_id. Qed.

Lemma gather_shaped req meta ifindex m :
  shaped m → port_shaped meta → length (rq_client_mac req) = 6%nat →
  length (rq_xid_secs_flags req) = 8%nat → reply_shaped (gather_dhcpv4_reply req meta ifindex m).
Proof.
  intros Hm [] Hc Hx. unfold gather_dhcpv4_reply.
  destruct (m_dhcp_config m) as [c|] eqn:Ec; [apply (sh_dhcp m Hm) in Ec as [[Hn Hd] _]|];
    (destruct (m_dhcp_meta m !! ifindex) as [v|] eqn:Ev; [apply (sh_dhcp_meta m Hm) in Ev as [Hh _ _ _]|]);
    unfold DHCP_MAX_DNS, MAX_HOSTNAME in *;
    split; cbn -[fill replicate Nat.min]; rewrite ?length_fill, ?length_replicate by lia; try done;
    (split; [done|]); try (by apply Forall_replicate);
    (apply Forall_app; split; [by apply Forall_take|by apply Forall_replicate]).
Qed.

Lemma gather_options req meta ifindex m :
  shaped m →
  let r := gather_dhcpv4_reply req meta ifindex m in
  rp_mtu r = link_mtu m ∧
  take (Nat.min (rp_dns_len r) DHCP_MAX_DNS) (rp_dns r) = dns_servers m ∧
  take (Nat.min (rp_hostname_len r) MAX_HOSTNAME) (rp_hostname r) = host_name m ifindex.
Proof.
  intros Hm. unfold gather_dhcpv4_reply, link_mtu, dns_servers, host_name.
  destruct (m_dhcp_config m) as [c|] eqn:Ec; [apply (sh_dhcp m Hm) in Ec as [[Hn Hd] _]|];
    (destruct (m_dhcp_meta m !! ifindex) as [v|] eqn:Ev; [apply (sh_dhcp_meta m Hm) in Ev as [Hh _ _ _]|]);
    cbn -[fill replicate Nat.min]; unfold MAX_HOSTNAME in *;
    rewrite <- ?Nat.min_assoc, ?Nat.min_id, ?take_fill by lia; done.
Qed.

(** The frame after the resize: the first 282 bytes are the request's. *)
Lemma resized_spec `{KL : KernelLaws} p w :
  w_pkt w = p → (282 <= length p)%nat → bytes_ok p →
  let d := Z.of_nat REPLY_LEN - Z.of_nat (length p) in
  ∃ b w', (if (length p =? REPLY_LEN)%nat then pret true else xdp_adjust_tail d) w = Some (b, w') ∧
    w_maps w' = w_maps w ∧ w_tick w' = w_tick w ∧ w_redirect w' = w_redirect w ∧
    (b = false → w_pkt w' = p ∧ d ≠ 0 ∧ adjust_tail d p = None) ∧
    (b = true → length (w_pkt w') = 428%nat ∧ bytes_ok (w_pkt w') ∧
       ∀ i n, (i + n <= 282)%nat → slice (w_pkt w') i n = slice p i n).
Proof.
  intros Hw Hl Hb d. unfold d, REPLY_LEN. clear d. destruct (_ =? _)%nat eqn:E.
  { apply Nat.eqb_eq in E. exists true, w. rewrite Hw. split; [done|].
    do 3 (split; [done|]). split; [done|intros _]. by rewrite E. }
  apply Nat.eqb_neq in E. unfold xdp_adjust_tail, resize. rewrite Hw.
  destruct (adjust_tail _ p) as [p1|] eqn:Ea.
  2: { exists false, w. split; [done|]. do 3 (split; [done|]). split; [|done]. intros _.
       split; [done|split; [lia|done]]. }
  eexists true, _. split; [reflexivity|]. cbn [w_maps w_tick w_redirect w_pkt].
  split; [done|split; [done|split; [done|split; [done|intros _]]]].
  destruct (decide (length p < 428)%nat) as [Hlt|Hge].
  - apply adjust_tail_grow in Ea as (t & Ht & Htb & ->); [|lia]. rewrite length_app.
    split; [lia|]. split; [by apply Forall_app|]. intros i n Hi. unfold slice.
    rewrite drop_app_le by lia. apply take_app_le. rewrite length_drop. lia.
  - apply adjust_tail_shrink in Ea as [Hle ->]; [|lia]. rewrite length_take.
    split; [lia|]. split; [by apply Forall_take|]. intros i n Hi. unfold slice.
    rewrite skipn_firstn_comm, take_take. f_equal. lia.
Qed.

Lemma headers_slices r v t c :
  reply_shaped r → let h := dhcp_headers r v t c in
  slice h 0 14 = rp_client_mac r ++ rp_server_mac r ++ to_be16 ETH_P_IP ∧
  slice h 16 8 = to_be16 414 ++ [0; 0; 0; 0; 64; IPPROTO_UDP] ∧
  slice h 26 8 = rp_gateway_ipv4 r ++ [255; 255; 255; 255] ∧
  slice h 34 8 = to_be16 67 ++ to_be16 68 ++ to_be16 394 ++ to_be16 0.
Proof.
  intros [Hc Hs _ Hg _ _ _]. unfold dhcp_headers.
  destruct r as [rt cm ya gw sm xid mtu dns dl lease host hl]. cbn in Hc, Hs, Hg |- *.
  explode_arr cm 6 Hc. explode_arr sm 6 Hs. explode_arr gw 4 Hg. by split_and!.
Qed.

Lemma dhcp_reply_spec req meta ifindex m p p1 :
  shaped m → port_shaped meta → bytes_ok (pm_gateway_ipv4 meta) → (282 <= length p)%nat →
  rq_client_mac req = slice p 6 6 → rq_xid_secs_flags req = slice p 46 8 →
  length p1 = 428%nat → bytes_ok p1 →
  (∀ i n, (i + n <= 282)%nat → slice p1 i n = slice p i n) →
  write_dhcpv4_reply (gather_dhcpv4_reply req meta ifindex m) p1
    = Some (Some (dhcp_reply (gather_dhcpv4_reply req meta ifindex m) p1)) ∧
  dhcpv4_reply p (rq_reply_type req) meta ifindex m
    (dhcp_reply (gather_dhcpv4_reply req meta ifindex m) p1).
Proof.
  intros Hm Hmeta Hgb Hp Ec Ex Hl Hb Hs.
  pose proof (gather_shaped req meta ifindex m Hm Hmeta) as Hr.
  rewrite Ec, Ex, !length_slice in Hr by lia. specialize (Hr eq_refl eq_refl).
  pose proof (gather_options req meta ifindex m Hm) as (Eo1 & Eo2 & Eo3).
  assert (rp_client_mac (gather_dhcpv4_reply req meta ifindex m) = slice p 6 6 ∧
    rp_xid_secs_flags (gather_dhcpv4_reply req meta ifindex m) = slice p 46 8 ∧
    rp_yiaddr (gather_dhcpv4_reply req meta ifindex m) = pm_guest_ipv4 meta ∧
    rp_gateway_ipv4 (gather_dhcpv4_reply req meta ifindex m) = pm_gateway_ipv4 meta ∧
    rp_server_mac (gather_dhcpv4_reply req meta ifindex m) = GW_MAC ∧
    rp_lease_secs (gather_dhcpv4_reply req meta ifindex m) = 0xffffffff ∧
    rp_reply_type (gather_dhcpv4_reply req meta ifindex m) = rq_reply_type req) as (E1&E2&E3&E4&E5&E6&E7).
  { unfold gather_dhcpv4_reply. by destruct (m_dhcp_config m), (m_dhcp_meta m !! ifindex). }
  set (r := gather_dhcpv4_reply req meta ifindex m) in *.
  split; [by apply write_dhcpv4_reply_run; [|lia]|].
  destruct (dhcp_reply_headers r p1 Hr ltac:(lia)) as (Hh & Ho & Hlen & Hin).
  destruct (bootp_slices r p1 Hr ltac:(lia)) as (B1 & B2 & B3 & B4).
  pose proof (ip_csum_valid r (at_ p1 14) (at_ p1 15) Hr) as Hval.
  destruct (headers_slices r (at_ p1 14) (at_ p1 15)
    (ip_csum (at_ p1 14) (at_ p1 15) (rp_gateway_ipv4 r)) Hr) as (S1 & S2 & S3 & S4).
  rewrite <- Hh in *. unfold wsl in *. rewrite !slice_slice in * by lia. cbn [Nat.add] in *.
  split; rewrite ?Hin by lia; try congruence.
  - apply Hval; [congruence|by apply at_byte..].
  - pose proof (Hin 42%nat 1%nat ltac:(lia) ltac:(lia)) as E.
    apply (f_equal (λ l, at_ l 0)) in E. rewrite !at_slice in E by lia. cbn [Nat.add] in E. congruence.
  - unfold bootp_fields in B3. congruence.
  - rewrite B4. apply Hs. lia.
  - rewrite Ho, <- E7, <- E4, <- Eo1, <- Eo2, <- Eo3. by apply opts_block_options.
Qed.

(** The responder runs to a result on every frame and state. *)
Lemma runs_learn_mac n ifindex meta mac :
  port_shaped meta → length mac = 6%nat → runs n (learn_mac ifindex meta mac) anything.
Proof.
  intros Hp Hm w [Hs Hl]. rewrite learn_mac_run. eexists _, _. split; [reflexivity|].
  split; [|done]. split; [by apply learn_shaped|done].
Qed.

Lemma ends_adjust_tail `{KL : KernelLaws} {B} n d (k : bool → prog world B) :
  (∀ b n', ends n' (k b)) → ends n (pbind (xdp_adjust_tail d) k).
Proof.
  intros Hk. apply ends_seq; [|done]. intros w [Hs Hl]. unfold xdp_adjust_tail, resize.
  destruct (adjust_tail d (w_pkt w)); by eexists _, _.
Qed.

Lemma ends_try_dhcpv4_reply `{KL : KernelLaws} n ifindex meta :
  port_shaped meta → ends n (try_dhcpv4_reply ifindex meta).
Proof.
  intros Hp. unfold try_dhcpv4_reply. eapply ends_bind.
  { apply (runs_access n _ (λ r, ∀ q, r = Some q → length (rq_client_mac q) = 6%nat ∧
      length (rq_xid_secs_flags q) = 8%nat)). intros p _.
    destruct (parse_dhcpv4_request_total p) as (r & E & Hr). exists r. split; [done|].
    intros q Hq. by destruct (Hr q Hq) as (? & ? & _). }
  cbv beta. intros [req|] Hreq; [|apply ends_ret]. destruct (Hreq req eq_refl) as [Hc Hx].
  eapply ends_bind; [by apply runs_learn_mac|]. intros _ _. eapply ends_bind.
  { apply (runs_gets n _ reply_shaped). intros m Hm. by apply gather_shaped. }
  intros r Hr. eapply ends_bind; [by apply runs_get_pkt|]. cbv beta zeta. intros p0 _.
  assert (∀ b n', ends n' (if negb b then pret None else
    pbind (rewrite_opt (write_dhcpv4_reply r)) (λ written, if negb written then pret None else
      pbind (reflect ifindex) (λ act, pret (Some act))))) as Hrest.
  { intros b n'. destruct b; cbn [negb]; [|apply ends_ret]. eapply ends_seq.
    - intros w [Hs Hl]. unfold rewrite_opt. destruct (short (w_pkt w) REPLY_LEN) eqn:E.
      + unfold write_dhcpv4_reply. rewrite E. by eexists _, _.
      + apply short_false in E. rewrite write_dhcpv4_reply_run by done. by eexists _, _.
    - intros written n2. destruct written; cbn [negb]; [|apply ends_ret].
      eapply ends_bind; [apply runs_redirect|]. intros a _. apply ends_ret. }
  destruct (_ =? _)%nat.
  - eapply ends_bind; [by apply (runs_ret n true anything)|]. intros b _. apply Hrest.
  - apply ends_adjust_tail. apply Hrest.
Qed.

(** ** Properties *)

(** C35.  A guest that sends a DISCOVER or REQUEST gets an OFFER or ACK for
    its address back on its port, unless the frame cannot be resized: a frame
    of 428 bytes with a valid IPv4 header from the gateway, the request's
    transaction, and options that read as the lease, the server, the routes,
    the mask and the configured MTU, DNS servers and host name.  The maps
    learn the sender's MAC address.  Any other message is left alone. *)
Theorem dhcpv4_answer `{KL : KernelLaws} (ifindex : Z) (meta : PortMeta) (w : world)
    (o : list (Z * list Z)) :
  dhcpv4_frame (w_pkt w) o → bytes_ok (w_pkt w) → shaped (w_maps w) → port_shaped meta →
  bytes_ok (pm_gateway_ipv4 meta) →
  let t := message_type 0 o in
  ∃ act w', try_dhcpv4_reply ifindex meta w = Some (act, w') ∧
    if (t =? DHCP_MSG_DISCOVER) || (t =? DHCP_MSG_REQUEST) then
      w_maps w' = learn ifindex meta (slice (w_pkt w) 6 6) (w_maps w) ∧
      (act = None ∧ w_pkt w' = w_pkt w ∧ adjust_tail (428 - Z.of_nat (length (w_pkt w))) (w_pkt w) = None
       ∨ act = Some (redirect_ret ifindex) ∧ w_redirect w' = Some ifindex ∧
         dhcpv4_reply (w_pkt w) (if t =? DHCP_MSG_DISCOVER then DHCP_MSG_OFFER else DHCP_MSG_ACK)
           meta ifindex (w_maps w) (w_pkt w'))
    else act = None ∧ w' = w.
Proof.
  intros Hf Hb Hm Hmeta Hgb t. unfold try_dhcpv4_reply.
  unfold pbind at 1, access. rewrite (parse_dhcpv4_request_run _ o) by done. cbv zeta.
  fold t. rewrite <- negb_orb. destruct (_ || _); cbn [negb]; [|by exists None, w].
  set (req := mkDhcpv4Request _ _ _). pose proof (df_len _ _ Hf) as Hl.
  set (m' := learn ifindex meta (slice (w_pkt w) 6 6) (w_maps w)).
  assert (shaped m') as Hm' by (apply learn_shaped; [done|done|by apply length_slice; lia]).
  assert (m_dhcp_config m' = m_dhcp_config (w_maps w) ∧ m_dhcp_meta m' = m_dhcp_meta (w_maps w))
    as [Ed Ed'] by (unfold m', learn; by destruct (bool_decide _)).
  unfold pbind at 1. rewrite learn_mac_run. fold m'. cbn [rq_client_mac req]. fold m'.
  unfold pbind at 1, gets. cbn [w_maps]. unfold pbind at 1, get_pkt. cbn [w_pkt]. cbv zeta.
  set (w1 := mkWorld (w_pkt w) m' (w_tick w) (w_redirect w)).
  destruct (resized_spec (w_pkt w) w1 eq_refl Hl Hb) as (b & w2 & E & Em & _ & _ & H0 & H1).
  unfold pbind at 1. rewrite E. destruct b; cbn [negb].
  2: { destruct (H0 eq_refl) as (H2 & _ & H3). exists None, w2. split; [done|]. split; [done|]. by left. }
  destruct (H1 eq_refl) as (Hl2 & Hb2 & Hs2).
  destruct (dhcp_reply_spec req meta ifindex m' (w_pkt w) (w_pkt w2)) as [Ew Hq]; try done.
  unfold pbind at 1, rewrite_opt. rewrite Ew. cbn [negb]. unfold pbind, reflect, bpf_redirect, pret.
  eexists _, _. split; [reflexivity|]. cbn [w_maps w_redirect w_pkt]. split; [done|]. right.
  split; [done|split; [done|]]. unfold link_mtu, dns_servers, host_name in Hq |- *. destruct Hq.
  split; try done. unfold link_mtu, dns_servers, host_name in *. by rewrite Ed, Ed' in *.
Qed.

(** A DISCOVER. *)
Definition demo_port : PortMeta :=
  mkPortMeta 100 [10; 0; 0; 5] demo_gw4 demo_mac (replicate 16 1) demo_gw6 (replicate 16 2).
Definition demo_discover : list Z :=
  replicate 6 0xff ++ demo_mac ++ [8; 0]
  ++ [0x45; 0; 1; 16; 0; 0; 0; 0; 64; 17; 0; 0; 0; 0; 0; 0; 255; 255; 255; 255]
  ++ [0; 68; 0; 67; 0; 252; 0; 0] ++ [1; 1; 6; 0; 0xaa; 0xbb; 0xcc; 0xdd] ++ replicate 228 0
  ++ [0x63; 0x82; 0x53; 0x63] ++ [53; 1; 1; 255].

Lemma dhcpv4_answer_witness :
  ∃ act w', try_dhcpv4_reply 7 demo_port (mkWorld demo_discover empty_maps 0 None) = Some (act, w') ∧
    (act = None ∨ dhcpv4_reply demo_discover 2 demo_port 7 empty_maps (w_pkt w')).
Proof.
  destruct (dhcpv4_answer 7 demo_port (mkWorld demo_discover empty_maps 0 None) [(53, [1])])
    as (act & w' & E & _ & H).
  - split; [vm_compute; lia|reflexivity..|].
    cbn. apply (options_opt 53 [1]); [done|done|]. apply options_end.
  - apply bytes_ok_b. reflexivity.
  - split; cbn; try (by apply empty_all); [done|]. intros c [= <-]. apply zero_dhcp_shaped.
  - by split.
  - by apply bytes_ok_b.
  - exists act, w'. split; [exact E|]. destruct H as [(H & _)|(_ & _ & H)]; [by left|by right].
Defined.
