(* ===== verification/Dhcp6.v ===== *)
(** * Dhcp6

    The DHCPv6 responder (xdp-dp-ebpf/src/dhcp.rs): the option walk of the
    request, the reply built option by option behind a running offset, and its
    UDP checksum. *)
From S2P Require Import Prelude Bytes Csum Types Kernel Parse Rewrite Encap ArpNd Safe Dhcp4.

(** ** Definitions *)

Definition D6_SOLICIT : Z := 1.
Definition D6_ADVERTISE : Z := 2.
Definition D6_REQUEST : Z := 3.
Definition D6_CONFIRM : Z := 4.
Definition D6_REPLY : Z := 7.
Definition D6_OPT_CLIENTID : Z := 1.
Definition D6_OPT_SERVERID : Z := 2.
Definition D6_OPT_IA_NA : Z := 3.
Definition D6_OPT_RAPID_COMMIT : Z := 14.
Definition D6_OPT_USER_CLASS : Z := 15.
Definition D6_OPT_VENDOR_CLASS : Z := 16.
Definition D6_OPT_DNS : Z := 23.
Definition D6_OPT_BOOT_FILE : Z := 59.
Definition DUID_LL_TYPE : Z := 3.
Definition DP_DHCPV6_HW_ID : Z := 0xabcd.
Definition F6_DHCP : nat := 62.
Definition F6_OPTS : nat := 66.
Definition MIN_D6_LEN : nat := 66.
Definition PXE_ENTERPRISE : Z := 343.
Definition PXE_NONE : Z := 0.
Definition PXE_TFTP : Z := 1.
Definition PXE_HTTP : Z := 2.
(** "ipxe/x86_64/ipxe.new" *)
Definition TFTP_PATH : list Z :=
  [105; 112; 120; 101; 47; 120; 56; 54; 95; 54; 52; 47; 105; 112; 120; 101; 46; 110; 101; 119].
Definition D6_MAX_DNS : nat := DHCP_MAX_DNS.
Definition D6_MAX_DUID : nat := 10.
Definition D6_MAX_URL : nat := 120.
Definition D6_MAX_OPTS : nat :=
  14 + (4 + D6_MAX_DUID) + 4 + 50 + (4 + D6_MAX_DNS * 16) + (4 + D6_MAX_URL).
Definition D6_SCAN : nat := 128.
Definition D6_MAX_TOTAL : nat := F6_OPTS + D6_MAX_OPTS.
Definition D6_UDP_CKSUM_LEN : nat := D6_MAX_TOTAL - ETH_LEN - 40.
Definition IA_TEMPLATE : list Z :=
  [0; 3; 0; 46; 0; 0; 0; 0; 0xff; 0xff; 0xff; 0xff; 0xff; 0xff; 0xff; 0xff; 0; 5; 0; 30]
  ++ replicate 16 0
  ++ [0xff; 0xff; 0xff; 0xff; 0xff; 0xff; 0xff; 0xff; 0; 13; 0; 2; 0; 0].
Definition RC_OPT : list Z := [0; 14; 0; 0].
(** "tftp://", "http://", "[", "]/" *)
Definition TFTP_SCHEME : list Z := [116; 102; 116; 112; 58; 47; 47].
Definition HTTP_SCHEME : list Z := [104; 116; 116; 112; 58; 47; 47].
Definition URL_LBRACKET : list Z := [91].
Definition URL_RBRACKET : list Z := [93; 47].

Definition d6_url_len (pxe_mode : Z) (dm : DhcpMeta) : nat :=
  if pxe_mode =? PXE_NONE then O else
  let host_len := Z.to_nat (dm_pxe_host_len dm) in
  if (host_len =? 0)%nat || (46 <? host_len)%nat then O else
  let path_len := if pxe_mode =? PXE_TFTP then length TFTP_PATH
                  else Z.to_nat (dm_boot_filename_len dm) in
  (7 + 1 + host_len + 2 + path_len)%nat.

(** The request's fields that [d6_parse] fills, and those the caller computes. *)
Record D6Request := mkD6Request
  { got_clientid : bool; duid : list Z; duid_len : nat; got_iana : bool; iaid : Z;
    rapid_commit : bool; pxe_mode : Z }.
Record D6Reply := mkD6Reply
  { d6_req : D6Request; reply_type : Z; tid : list Z; dns6_count : nat; url_len : nat;
    real_reply_len : nat; req_src6 : list Z; req_eth_src : list Z }.

Definition set_clientid (n : nat) (d : list Z) (r : D6Request) : D6Request :=
  mkD6Request true d n (got_iana r) (iaid r) (rapid_commit r) (pxe_mode r).
Definition set_iana (id : Z) (r : D6Request) : D6Request :=
  mkD6Request (got_clientid r) (duid r) (duid_len r) true id (rapid_commit r) (pxe_mode r).
Definition set_rapid (r : D6Request) : D6Request :=
  mkD6Request (got_clientid r) (duid r) (duid_len r) (got_iana r) (iaid r) true (pxe_mode r).
Definition set_pxe (mode : Z) (r : D6Request) : D6Request :=
  mkD6Request (got_clientid r) (duid r) (duid_len r) (got_iana r) (iaid r) (rapid_commit r) mode.
Definition d6_init : D6Request := mkD6Request false (replicate 10 0) 0 false 0 false PXE_NONE.

Definition be32_of (b : list Z) : Z := be32 (at_ b 0) (at_ b 1) (at_ b 2) (at_ b 3).

Section programs.
Context `{Kernel}.
Local Open Scope dp_scope.

Definition load (off n : nat) : prog world (option (list Z)) :=
  λ w, Some (load_bytes off n (w_pkt w), w).
(** [store]: [true] on success; every caller drops the result. *)
Definition store (off : nat) (buf : list Z) : prog world bool := resize (store_bytes off buf).

(** The option [code] whose value starts at offset [v] of the options. *)
Definition d6_option (code : Z) (olen v : nat) (r : D6Request) : prog world D6Request :=
  if code =? D6_OPT_RAPID_COMMIT then pret (set_rapid r)
  else if code =? D6_OPT_USER_CLASS then
    pret (if pxe_mode r =? PXE_NONE then set_pxe PXE_HTTP r else r)
  else if code =? D6_OPT_IA_NA then
    let* vb := load (F6_OPTS + v) 4 in
    pret match vb with Some vb => set_iana (be32_of vb) r | None => r end
  else if code =? D6_OPT_VENDOR_CLASS then
    let* vb := load (F6_OPTS + v) 4 in
    pret match vb with
         | Some vb => if (be32_of vb =? PXE_ENTERPRISE) && (pxe_mode r =? PXE_NONE)
                      then set_pxe PXE_TFTP r else r
         | None => r
         end
  else if code =? D6_OPT_CLIENTID then
    let* d := load (F6_OPTS + v) D6_MAX_DUID in
    pret (set_clientid (olen `min` D6_MAX_DUID) (default (duid r) d) r)
  else pret r.

(** [d6_parse]: at most [guard] more options, from offset [i]. *)
Fixpoint d6_parse (guard : nat) (i n : nat) (r : D6Request) : prog world D6Request :=
  match guard with
  | O => pret r
  | S guard =>
      if (i + 4 <=? n)%nat && (i + 4 <=? D6_SCAN)%nat then
        let* hb := load (F6_OPTS + i) 4 in
        match hb with
        | None => pret r
        | Some hb =>
            let code := be16 (at_ hb 0) (at_ hb 1) in
            let olen := (Z.to_nat (be16 (at_ hb 2) (at_ hb 3)) `min` D6_SCAN)%nat in
            let v := (i + 4)%nat in
            let* r := d6_option code olen v r in
            d6_parse guard (v + olen) n r
        end
      else pret r
  end.

(** [d6_store_url]: the number of bytes written. *)
Definition d6_store_url (base : nat) (pxe_mode : Z) (dm : DhcpMeta) : prog world nat :=
  let host_len := Z.to_nat (dm_pxe_host_len dm) in
  if (host_len =? 0)%nat || (46 <? host_len)%nat then pret O else
  store base (if pxe_mode =? PXE_TFTP then TFTP_SCHEME else HTTP_SCHEME) ;;;
  store (base + 7) URL_LBRACKET ;;;
  store (base + 8) (take host_len (dm_pxe_host dm)) ;;;
  let up := (8 + host_len)%nat in
  store (base + up) URL_RBRACKET ;;;
  let up := (up + 2)%nat in
  if pxe_mode =? PXE_TFTP then
    store (base + up) TFTP_PATH ;;; pret (up + length TFTP_PATH)%nat
  else
    let file_len := (Z.to_nat (dm_boot_filename_len dm) `min` 64)%nat in
    if (0 <? file_len)%nat then
      store (base + up) (take file_len (dm_boot_filename dm)) ;;; pret (up + file_len)%nat
    else pret up.

(** The parts of [d6_emit]: the headers, then one option after another, each
    at offset [off] of the options and returning the next offset. *)
Definition emit_headers (meta : PortMeta) (r : D6Reply) (p : list Z) : mem (list Z) :=
  let ipv6_payload_len := wrap16 (Z.of_nat (real_reply_len r - ETH_LEN - 40)) in
  p ← wrn p 0 (req_eth_src r);
  p ← wrn p 6 GW_MAC;
  p ← wr16 p 12 ETH_P_IPV6;
  p ← wr16 p (ETH_LEN + 4) ipv6_payload_len;
  p ← wr8 p (ETH_LEN + 6) IPPROTO_UDP;
  p ← wr8 p (ETH_LEN + 7) 64;
  p ← wrn p (ETH_LEN + 8) (pm_gateway_ipv6 meta);
  p ← wrn p (ETH_LEN + 24) (req_src6 r);
  p ← wr16 p (ETH_LEN + 40) 547;
  p ← wr16 p (ETH_LEN + 42) 546;
  p ← wr16 p (ETH_LEN + 44) ipv6_payload_len;
  p ← wr16 p (ETH_LEN + 46) 0;
  p ← wr8 p F6_DHCP (reply_type r);
  wrn p (F6_DHCP + 1) (tid r).
Definition emit_server_id (meta : PortMeta) (off : nat) (p : list Z) : mem (list Z) :=
  p ← wr16 p (F6_OPTS + off) D6_OPT_SERVERID;
  p ← wr16 p (F6_OPTS + off + 2) 10;
  p ← wr16 p (F6_OPTS + off + 4) DUID_LL_TYPE;
  p ← wr16 p (F6_OPTS + off + 6) DP_DHCPV6_HW_ID;
  wrn p (F6_OPTS + off + 8) (pm_guest_mac meta).
Definition emit_client_id (r : D6Request) (off : nat) (p : list Z) : mem (list Z) :=
  let n := (duid_len r `min` D6_MAX_DUID)%nat in
  p ← wr16 p (F6_OPTS + off) D6_OPT_CLIENTID;
  p ← wr16 p (F6_OPTS + off + 2) (Z.of_nat n);
  copy_bytes n 0 (duid r) (F6_OPTS + off + 4) p.
Definition has_client_id (r : D6Request) : bool :=
  got_clientid r && (0 <? duid_len r `min` D6_MAX_DUID)%nat.
Definition emit_ids (meta : PortMeta) (r : D6Request) (off : nat) : prog world nat :=
  rewrite_pkt (emit_server_id meta off) ;;;
  let off := (off + 14)%nat in
  if has_client_id r then
    rewrite_pkt (emit_client_id r off) ;;;
    pret (off + (4 + (duid_len r `min` D6_MAX_DUID)))%nat
  else pret off.
Definition emit_ia_na (meta : PortMeta) (r : D6Request) (off : nat) : prog world nat :=
  if got_iana r then
    store (F6_OPTS + off) IA_TEMPLATE ;;;
    store (F6_OPTS + off + 4) (to_be32 (iaid r)) ;;;
    store (F6_OPTS + off + 20) (pm_guest_ipv6 meta) ;;;
    pret (off + 50)%nat
  else pret off.
Definition emit_rapid_commit (r : D6Request) (off : nat) : prog world nat :=
  if rapid_commit r then store (F6_OPTS + off) RC_OPT ;;; pret (off + 4)%nat else pret off.
Fixpoint emit_dns_servers (n di off : nat) (dns : list (list Z)) : prog world unit :=
  match n with
  | O => pret tt
  | S n =>
      let* d := access (λ _, dns !! di) in
      store (F6_OPTS + off + 4 + di * 16) d ;;;
      emit_dns_servers n (di + 1) off dns
  end.
Definition emit_dns (cfg : option DhcpConfig) (count off : nat) : prog world nat :=
  let dns6_count := (count `min` D6_MAX_DNS)%nat in
  if (0 <? dns6_count)%nat then
    match cfg with
    | Some cfg =>
        store (F6_OPTS + off) (to_be16 D6_OPT_DNS ++ to_be16 (Z.of_nat (dns6_count * 16))) ;;;
        emit_dns_servers dns6_count 0 off (dc_dns6 cfg) ;;;
        pret (off + (4 + dns6_count * 16))%nat
    | None => pret off
    end
  else pret off.
Definition emit_boot_file (dm : option DhcpMeta) (url_len : nat) (pxe_mode : Z) (off : nat)
    : prog world nat :=
  if (0 <? url_len)%nat then
    match dm with
    | Some dm =>
        store (F6_OPTS + off) (to_be16 D6_OPT_BOOT_FILE ++ to_be16 (Z.of_nat url_len)) ;;;
        let* written := d6_store_url (F6_OPTS + off + 4) pxe_mode dm in
        pret (off + (4 + written))%nat
    | None => pret off
    end
  else pret off.
Definition d6_emit (ifindex : Z) (meta : PortMeta) (r : D6Reply) : prog world unit :=
  let* p := get_pkt in
  if short p D6_MAX_TOTAL then pret tt else
  rewrite_pkt (emit_headers meta r) ;;;
  let* dhcp_cfg := gets m_dhcp_config in
  let* metas := gets m_dhcp_meta in
  let dhcp_meta := metas !! ifindex in
  let* off := emit_ids meta (d6_req r) 0 in
  let* off := emit_ia_na meta (d6_req r) off in
  let* off := emit_rapid_commit (d6_req r) off in
  let* off := emit_dns dhcp_cfg (dns6_count r) off in
  let* off := emit_boot_file dhcp_meta (url_len r) (pxe_mode (d6_req r)) off in
  store (real_reply_len r) [0] ;;;
  pret tt.

(** [d6_checksum]: the words of the datagram, those past [len] left out. *)
Fixpoint d6_csum_words (n j len : nat) (cs : Z) (p : list Z) : mem Z :=
  match n with
  | O => Some cs
  | S n =>
      cs ← (if (j <? len)%nat then w ← rd16 p (ETH_LEN + 40 + j); Some (wrap32 (cs + w)) else Some cs);
      d6_csum_words n (j + 2) len cs p
  end.
Definition d6_checksum (udp_len : Z) (p : list Z) : mem (list Z) :=
  if short p D6_MAX_TOTAL then Some p else
  let len := (Z.to_nat udp_len `min` D6_UDP_CKSUM_LEN)%nat in
  cs ← nd_addr_words 8 0 0 p ETH_LEN;
  let cs := wrap32 (cs + udp_len) in
  let cs := wrap32 (cs + IPPROTO_UDP) in
  cs ← d6_csum_words (D6_UDP_CKSUM_LEN / 2) 0 len cs p;
  wr16 p (ETH_LEN + 46) (csum_fold cs).

(** The sizes the reply is made of. *)
Definition d6_dns_count (cfg : option DhcpConfig) : nat :=
  match cfg with Some cfg => (Z.to_nat (dc_dns6_len cfg) `min` D6_MAX_DNS)%nat | None => O end.
Definition d6_boot_len (pxe_mode : Z) (dm : option DhcpMeta) : nat :=
  if negb (pxe_mode =? PXE_NONE) then
    match dm with Some dm => (d6_url_len pxe_mode dm `min` D6_MAX_URL)%nat | None => O end
  else O.
Definition d6_opts_len (r : D6Request) (dns_count url_len : nat) : nat :=
  ((14 + (if has_client_id r then 4 + (duid_len r `min` D6_MAX_DUID) else 0)
     + (if got_iana r then 50 else 0) + (if rapid_commit r then 4 else 0)
     + (if (0 <? dns_count)%nat then 4 + dns_count * 16 else 0)
     + (if (0 <? url_len)%nat then 4 + url_len else 0)) `min` D6_MAX_OPTS)%nat.

(** The checks of [try_dhcpv6_reply]: the request's message type. *)
Definition d6_detect (p : list Z) : mem (option Z) :=
  if short p MIN_D6_LEN then Some None else
  ethertype ← rd16 p 12;
  if negb (ethertype =? ETH_P_IPV6) then Some None else
  nexthdr ← rd8 p (ETH_LEN + 6);
  if negb (nexthdr =? IPPROTO_UDP) then Some None else
  udp_dst ← rd16 p (ETH_LEN + 40 + 2);
  if negb (udp_dst =? 547) then Some None else
  msg_type ← rd8 p F6_DHCP;
  if negb (msg_type =? D6_SOLICIT) && negb (msg_type =? D6_REQUEST) && negb (msg_type =? D6_CONFIRM)
  then Some None else Some (Some msg_type).

(** [try_dhcpv6_reply] from the growth of the frame on. *)
Definition d6_respond (ifindex : Z) (meta : PortMeta) (msg_type : Z) (n : nat)
    (tid req_src6 req_eth_src : list Z) : prog world (option Z) :=
  let* q := d6_parse 12 0 n d6_init in
  let reply_type := if (msg_type =? D6_SOLICIT) && negb (rapid_commit q)
                    then D6_ADVERTISE else D6_REPLY in
  let* dhcp_cfg := gets m_dhcp_config in
  let* metas := gets m_dhcp_meta in
  let dns6_count := d6_dns_count dhcp_cfg in
  let url_len := d6_boot_len (pxe_mode q) (metas !! ifindex) in
  let real_opts_len := d6_opts_len q dns6_count url_len in
  let r := mkD6Reply q reply_type tid dns6_count url_len (F6_OPTS + real_opts_len)
             req_src6 req_eth_src in
  d6_emit ifindex meta r ;;;
  rewrite_pkt (d6_checksum (wrap16 (Z.of_nat (real_opts_len + F6_OPTS - ETH_LEN - 40)))) ;;;
  let* act := reflect ifindex in
  pret (Some act).
Definition try_dhcpv6_reply (ifindex : Z) (meta : PortMeta) : prog world (option Z) :=
  let* msg_type := access d6_detect in
  match msg_type with
  | None => pret None
  | Some msg_type =>
      let* tid := access (λ p, rdn p (F6_DHCP + 1) 3) in
      let* req_src6 := access (λ p, rdn p (ETH_LEN + 8) 16) in
      let* req_eth_src := access (λ p, rdn p 6 6) in
      let* p := get_pkt in
      let cur_len := length p in
      let opts_avail := (cur_len - F6_OPTS)%nat in
      let n := if (opts_avail <? D6_SCAN)%nat then opts_avail else D6_SCAN in
      let* grown := xdp_adjust_tail (Z.of_nat D6_MAX_TOTAL - Z.of_nat cur_len) in
      if negb grown then pret None else
      d6_respond ifindex meta msg_type n tid req_src6 req_eth_src
  end.
End programs.

(** ** Specification *)

(** The options of a DHCPv6 message: code, length, value. *)
Definition d6_bytes (x : Z * list Z) : list Z :=
  to_be16 x.1 ++ to_be16 (Z.of_nat (length x.2)) ++ x.2.
Definition d6_area (o : list (Z * list Z)) : list Z := concat (d6_bytes <$> o).

(** What an option asks of the responder. *)
Definition d6_apply (r : D6Request) (x : Z * list Z) : D6Request :=
  let '(code, v) := x in
  if code =? D6_OPT_RAPID_COMMIT then set_rapid r
  else if code =? D6_OPT_USER_CLASS then
    if pxe_mode r =? PXE_NONE then set_pxe PXE_HTTP r else r
  else if code =? D6_OPT_IA_NA then set_iana (be32_of v) r
  else if code =? D6_OPT_VENDOR_CLASS then
    if (be32_of v =? PXE_ENTERPRISE) && (pxe_mode r =? PXE_NONE) then set_pxe PXE_TFTP r else r
  else if code =? D6_OPT_CLIENTID then
    set_clientid (length v) v r
  else r.
(** The responder keeps ten bytes of a client's identifier. *)
Definition cut_client_id (x : Z * list Z) : Z * list Z :=
  if x.1 =? D6_OPT_CLIENTID then (x.1, take D6_MAX_DUID x.2) else x.
Definition client_ids_short (o : list (Z * list Z)) : Prop :=
  Forall (λ x, x.1 = D6_OPT_CLIENTID → (length x.2 <= D6_MAX_DUID)%nat) o.
(** The bytes of the identifier that count. *)
Definition d6_norm (r : D6Request) : D6Request :=
  mkD6Request (got_clientid r) (take (duid_len r) (duid r)) (duid_len r) (got_iana r) (iaid r)
    (rapid_commit r) (pxe_mode r).
Definition d6_read (o : list (Z * list Z)) : D6Request := fold_left d6_apply o (d6_norm d6_init).

(** A SOLICIT, REQUEST or CONFIRM of type [t] whose options fit the scan
    window; the options the responder looks into have the bytes it reads. *)
Definition d6_option_ok (x : Z * list Z) : Prop :=
  is_u16 x.1 ∧ (x.1 = D6_OPT_IA_NA ∨ x.1 = D6_OPT_VENDOR_CLASS → (4 <= length x.2)%nat).
Record dhcpv6_frame (p : list Z) (t : Z) (o : list (Z * list Z)) : Prop := {
  d6f_len : length p = (66 + length (d6_area o))%nat;
  d6f_window : (length (d6_area o) <= 128)%nat ∧ (length o <= 12)%nat;
  d6f_type : w16 p 12 = ETH_P_IPV6;
  d6f_udp : at_ p 20 = IPPROTO_UDP;
  d6f_port : w16 p 56 = 547;
  d6f_msg : at_ p 62 = t ∧ (t = D6_SOLICIT ∨ t = D6_REQUEST ∨ t = D6_CONFIRM);
  d6f_opts : slice p 66 (length (d6_area o)) = d6_area o;
  d6f_ok : Forall d6_option_ok o }.

(** The reply's options. *)
Definition d6_url (mode : Z) (dm : DhcpMeta) : list Z :=
  (if mode =? PXE_TFTP then TFTP_SCHEME else HTTP_SCHEME) ++ URL_LBRACKET
  ++ take (Z.to_nat (dm_pxe_host_len dm)) (dm_pxe_host dm) ++ URL_RBRACKET
  ++ (if mode =? PXE_TFTP then TFTP_PATH
      else take (Z.to_nat (dm_boot_filename_len dm)) (dm_boot_filename dm)).
Definition when {A} (b : bool) (x : A) : list A := if b then [x] else [].
Definition ia_na_value (meta : PortMeta) (id : Z) : list Z :=
  to_be32 id ++ replicate 8 0xff ++ [0; 5; 0; 30] ++ pm_guest_ipv6 meta ++ replicate 8 0xff
  ++ [0; 13; 0; 2; 0; 0].
Definition d6_dns (m : Maps) : list (list Z) :=
  match m_dhcp_config m with
  | Some cfg => take (d6_dns_count (Some cfg)) (dc_dns6 cfg)
  | None => []
  end.
Definition d6_boot (mode : Z) (dm : option DhcpMeta) : list (Z * list Z) :=
  match dm with
  | Some dm => when (0 <? d6_boot_len mode (Some dm))%nat (D6_OPT_BOOT_FILE, d6_url mode dm)
  | None => []
  end.
Definition d6_reply_options (meta : PortMeta) (ifindex : Z) (m : Maps) (r : D6Request)
    : list (Z * list Z) :=
  [(D6_OPT_SERVERID, to_be16 DUID_LL_TYPE ++ to_be16 DP_DHCPV6_HW_ID ++ pm_guest_mac meta)]
  ++ when (has_client_id r) (D6_OPT_CLIENTID, take (duid_len r `min` D6_MAX_DUID) (duid r))
  ++ when (got_iana r) (D6_OPT_IA_NA, ia_na_value meta (iaid r))
  ++ when (rapid_commit r) (D6_OPT_RAPID_COMMIT, [])
  ++ when (0 <? length (d6_dns m))%nat (D6_OPT_DNS, concat (d6_dns m))
  ++ d6_boot (pxe_mode r) (m_dhcp_meta m !! ifindex).

(** A reply of type [rt] with options [o] to the request [p]. *)
Record dhcpv6_reply (p : list Z) (rt : Z) (meta : PortMeta) (o : list (Z * list Z)) (q : list Z)
    : Prop := {
  d6r_eth : slice q 0 14 = slice p 6 6 ++ GW_MAC ++ to_be16 ETH_P_IPV6;
  d6r_head : let len := Z.of_nat (12 + length (d6_area o)) in
    slice q 18 42 = to_be16 len ++ [IPPROTO_UDP; 64] ++ pm_gateway_ipv6 meta ++ slice p 22 16
      ++ to_be16 547 ++ to_be16 546 ++ to_be16 len;
  d6r_csum : let n := (12 + length (d6_area o))%nat in
    csum_valid (wsl q 22 32 + Z.of_nat n + IPPROTO_UDP + wsl q 54 n);
  d6r_msg : slice q 62 4 = rt :: slice p 63 3;
  d6r_opts : slice q 66 (length (d6_area o)) = d6_area o;
  d6r_fits : (66 + length (d6_area o) <= length q)%nat }.

(** ** Lemmas: the helpers *)

Definition at_pkt (w : world) (p : list Z) : world := mkWorld p (w_maps w) (w_tick w) (w_redirect w).

Section helpers.
Context `{KL : KernelLaws}.

Lemma load_run i n w :
  (0 < n)%nat → (i + n <= length (w_pkt w))%nat → Z.of_nat (length (w_pkt w)) <= 0xffff →
  load i n w = Some (Some (slice (w_pkt w) i n), w).
Proof. intros H0 Hl Hn. unfold load. by rewrite load_bytes_in by lia. Qed.

Lemma store_next p acc bs j w :
  length p = 404%nat → w_pkt w = splice p 66 acc → j = (66 + length acc)%nat →
  (0 < length bs)%nat → (j + length bs <= 404)%nat →
  store j bs w = Some (true, at_pkt w (splice p 66 (acc ++ bs))).
Proof.
  intros Hp Hw -> H0 Hl. unfold store, resize. rewrite Hw.
  rewrite store_bytes_in by (rewrite ?length_splice; rewrite ?Hp; lia).
  unfold at_pkt. by rewrite splice_next by (rewrite ?Hp; lia).
Qed.

(** [m] appends the option bytes [bs] at the running offset. *)
Definition emits (m : nat → prog world nat) (bs : list Z) : Prop :=
  ∀ w p acc, length p = 404%nat → w_pkt w = splice p 66 acc →
    (66 + length acc + length bs <= 404)%nat →
    m (length acc) w = Some ((length acc + length bs)%nat, at_pkt w (splice p 66 (acc ++ bs))).

Lemma emits_nothing m : (∀ off, m off = pret off) → emits m [].
Proof.
  intros E w p acc _ Hw _. rewrite E, app_nil_r, Nat.add_0_r. unfold pret, at_pkt. rewrite <- Hw.
  by destruct w.
Qed.

Lemma emits_step {A} m bs (k : nat → prog world A) w p acc off :
  emits m bs → length p = 404%nat → w_pkt w = splice p 66 acc →
  off = length acc → (66 + length acc + length bs <= 404)%nat →
  pbind (m off) k w = k (length (acc ++ bs)) (at_pkt w (splice p 66 (acc ++ bs))).
Proof.
  intros Hm Hp Hw -> Hl. unfold pbind. rewrite (Hm w p acc) by done. by rewrite length_app.
Qed.

(** A store of the bytes after [acc]. *)
Lemma store_step {A} p acc bs j (k : bool → prog world A) w :
  length p = 404%nat → w_pkt w = splice p 66 acc → j = (66 + length acc)%nat →
  (0 < length bs)%nat → (j + length bs <= 404)%nat →
  pbind (store j bs) k w = k true (at_pkt w (splice p 66 (acc ++ bs))).
Proof. intros. unfold pbind. by rewrite (store_next p acc). Qed.

(** A write of the program's own at the running offset. *)
Lemma rewrite_step {A} f q (k : unit → prog world A) w :
  f (w_pkt w) = Some q → pbind (rewrite_pkt f) k w = k tt (at_pkt w q).
Proof. intros E. unfold pbind, rewrite_pkt. by rewrite E. Qed.

(** A [wrn] that continues the bytes written so far. *)
Lemma wrn_append p acc bs j :
  length p = 404%nat → j = (66 + length acc)%nat → (j + length bs <= 404)%nat →
  wrn (splice p 66 acc) j bs = Some (splice p 66 (acc ++ bs)).
Proof.
  intros Hp -> Hl. rewrite wrn_splice by (rewrite length_splice; lia).
  by rewrite splice_next by lia.
Qed.

Lemma emit_server_id_run meta p acc :
  length (pm_guest_mac meta) = 6%nat → length p = 404%nat → (66 + length acc + 14 <= 404)%nat →
  emit_server_id meta (length acc) (splice p 66 acc)
  = Some (splice p 66 (acc ++ d6_bytes (D6_OPT_SERVERID,
      to_be16 DUID_LL_TYPE ++ to_be16 DP_DHCPV6_HW_ID ++ pm_guest_mac meta))).
Proof.
  intros Hm Hp Hl. unfold emit_server_id, d6_bytes, wr16, F6_OPTS. cbn [fst snd].
  assert (length (to_be16 DUID_LL_TYPE ++ to_be16 DP_DHCPV6_HW_ID ++ pm_guest_mac meta) = 10%nat)
    as -> by (rewrite !length_app, Hm; reflexivity).
  rewrite (wrn_append p acc) by len_solve. cbn [mbind option_bind].
  rewrite (wrn_append p (acc ++ _)) by len_solve. cbn [mbind option_bind].
  rewrite (wrn_append p ((acc ++ _) ++ _)) by len_solve. cbn [mbind option_bind].
  rewrite (wrn_append p (((acc ++ _) ++ _) ++ _)) by len_solve. cbn [mbind option_bind].
  rewrite (wrn_append p ((((acc ++ _) ++ _) ++ _) ++ _)) by len_solve. by rewrite <- !app_assoc.
Qed.

Lemma emit_client_id_run r p acc :
  let n := (duid_len r `min` D6_MAX_DUID)%nat in
  (n <= length (duid r))%nat → length p = 404%nat → (66 + length acc + (4 + n) <= 404)%nat →
  emit_client_id r (length acc) (splice p 66 acc)
  = Some (splice p 66 (acc ++ d6_bytes (D6_OPT_CLIENTID, take n (duid r)))).
Proof.
  intros n Hd Hp Hl. unfold emit_client_id, d6_bytes, wr16, F6_OPTS. cbn [fst snd]. fold n.
  assert (length (take n (duid r)) = n) as Ht by (rewrite length_take; lia). rewrite Ht.
  rewrite (wrn_append p acc) by len_solve. cbn [mbind option_bind].
  rewrite (wrn_append p (acc ++ _)) by len_solve. cbn [mbind option_bind].
  rewrite copy_bytes_run by len_solve. rewrite drop_0.
  rewrite splice_next by (rewrite ?Ht; len_solve). by rewrite <- !app_assoc.
Qed.

Lemma when_length (b : bool) x : length (d6_area (when b x)) = if b then length (d6_bytes x) else O.
Proof. destruct b; cbn; rewrite ?app_nil_r; done. Qed.
Lemma d6_bytes_length x : length (d6_bytes x) = (4 + length x.2)%nat.
Proof. unfold d6_bytes. rewrite !length_app. cbn. lia. Qed.
Lemma d6_area_app o1 o2 : d6_area (o1 ++ o2) = d6_area o1 ++ d6_area o2.
Proof. unfold d6_area. by rewrite fmap_app, concat_app. Qed.
Lemma d6_area_one x : d6_area [x] = d6_bytes x.
Proof. apply app_nil_r. Qed.

Lemma emits_ids meta r :
  length (pm_guest_mac meta) = 6%nat → (duid_len r `min` D6_MAX_DUID <= length (duid r))%nat →
  emits (emit_ids meta r)
    (d6_area ([(D6_OPT_SERVERID, to_be16 DUID_LL_TYPE ++ to_be16 DP_DHCPV6_HW_ID ++ pm_guest_mac meta)]
      ++ when (has_client_id r) (D6_OPT_CLIENTID, take (duid_len r `min` D6_MAX_DUID) (duid r)))).
Proof.
  intros Hm Hd w p acc Hp Hw Hl. rewrite d6_area_app, d6_area_one, length_app, when_length in *.
  rewrite !d6_bytes_length in *. cbn [fst snd] in *.
  assert (length (to_be16 DUID_LL_TYPE ++ to_be16 DP_DHCPV6_HW_ID ++ pm_guest_mac meta) = 10%nat)
    as Es by (rewrite !length_app, Hm; reflexivity). rewrite Es in *.
  assert (length (take (duid_len r `min` D6_MAX_DUID) (duid r)) = duid_len r `min` D6_MAX_DUID)%nat
    as Et by (rewrite length_take; lia). rewrite Et in *.
  unfold emit_ids. erewrite rewrite_step by (rewrite Hw; apply emit_server_id_run; [done..|lia]).
  destruct (has_client_id r).
  - set (acc1 := acc ++ d6_bytes _).
    assert (length acc + 14 = length acc1)%nat as Ea
      by (unfold acc1; rewrite length_app, d6_bytes_length; cbn [snd]; rewrite Es; lia).
    rewrite Ea. erewrite rewrite_step by (apply emit_client_id_run; [done..|lia]).
    unfold pret, when. rewrite d6_area_one, <- Ea. unfold acc1. rewrite <- app_assoc. do 2 f_equal; lia.
  - unfold pret, when. cbn [d6_area fmap list_fmap concat]. by rewrite app_nil_r.
Qed.

Lemma emits_ia_na meta r :
  length (pm_guest_ipv6 meta) = 16%nat →
  emits (emit_ia_na meta r) (d6_area (when (got_iana r) (D6_OPT_IA_NA, ia_na_value meta (iaid r)))).
Proof.
  intros Hg. unfold emit_ia_na. destruct (got_iana r); [|by apply emits_nothing].
  intros w p acc Hp Hw Hl. unfold when in *. rewrite d6_area_one in *. unfold F6_OPTS.
  assert (length (d6_bytes (D6_OPT_IA_NA, ia_na_value meta (iaid r))) = 50%nat) as E
    by (rewrite d6_bytes_length; unfold ia_na_value; cbn [snd]; rewrite !length_app, Hg; reflexivity).
  rewrite E in *. pose proof (eq_refl : length IA_TEMPLATE = 50%nat) as El.
  rewrite (store_step p acc) by (lia || done).
  unfold store, pbind, resize. cbn [w_pkt at_pkt].
  rewrite store_bytes_in by (cbn [length to_be32]; len_solve). cbn [w_pkt w_maps w_tick w_redirect].
  rewrite store_bytes_in by (rewrite ?Hg; cbn [length to_be32]; len_solve).
  unfold pret, at_pkt. cbn [w_maps w_tick w_redirect]. do 3 f_equal.
  rewrite (splice_inner p 66 _ (length acc + 4)) by (cbn [length to_be32]; len_solve).
  rewrite (splice_inner p 66 _ (length acc + 20)) by (rewrite ?Hg; cbn [length to_be32]; len_solve).
  f_equal. destruct meta as [v g4 gw4 mac ul gw6 g6]. cbn [pm_guest_ipv6] in *.
  unfold d6_bytes, ia_na_value. cbn [fst snd pm_guest_ipv6].
  do 16 (destruct g6 as [|? g6]; [discriminate Hg|]). destruct g6; [|discriminate Hg].
  by rewrite !splice_app_r.
Qed.

Lemma emits_rapid_commit r :
  emits (emit_rapid_commit r) (d6_area (when (rapid_commit r) (D6_OPT_RAPID_COMMIT, []))).
Proof.
  unfold emit_rapid_commit. destruct (rapid_commit r); [|by apply emits_nothing].
  intros w p acc Hp Hw Hl. unfold when in *. rewrite d6_area_one in *. rewrite d6_bytes_length in *.
  cbn [snd length Nat.add] in *. unfold F6_OPTS.
  rewrite (store_step p acc) by (done || (unfold RC_OPT; cbn [length]; lia)). done.
Qed.

Lemma emit_dns_servers_run n di off dns w p acc :
  Forall (λ d, length d = 16%nat) dns → (di + n <= length dns)%nat → length p = 404%nat →
  w_pkt w = splice p 66 acc → length acc = (off + 4 + di * 16)%nat →
  (66 + length acc + n * 16 <= 404)%nat →
  emit_dns_servers n di off dns w
  = Some (tt, at_pkt w (splice p 66 (acc ++ concat (take n (drop di dns))))).
Proof.
  intros Hd. revert di w acc. induction n as [|n IH]; intros di w acc Hn Hp Hw Ha Hl;
    cbn [emit_dns_servers].
  { rewrite take_0. cbn [concat]. rewrite app_nil_r. unfold pret, at_pkt. rewrite <- Hw.
    by destruct w. }
  destruct (lookup_lt_is_Some_2 dns di) as [d Ed]; [lia|].
  pose proof (proj1 (Forall_lookup _ _) Hd di d Ed) as Hdl. cbn beta in Hdl.
  unfold pbind at 1, access. rewrite Ed. unfold F6_OPTS.
  rewrite (store_step p acc) by (done || lia).
  rewrite (IH (di + 1)%nat _ (acc ++ d)) by (done || rewrite ?length_app, ?Hdl; lia).
  rewrite (drop_S dns d di) by done. cbn [take concat]. rewrite <- app_assoc.
  by replace (S di) with (di + 1)%nat by lia.
Qed.

Lemma d6_dns_length c :
  dhcp_config_shaped c → length (take (d6_dns_count (Some c)) (dc_dns6 c)) = d6_dns_count (Some c) ∧
    (d6_dns_count (Some c) <= 8)%nat ∧
    length (concat (take (d6_dns_count (Some c)) (dc_dns6 c))) = (d6_dns_count (Some c) * 16)%nat.
Proof.
  intros [_ [Hn Hd]]. unfold d6_dns_count, D6_MAX_DNS, DHCP_MAX_DNS in *.
  assert (length (take (Z.to_nat (dc_dns6_len c) `min` 8) (dc_dns6 c))
    = Z.to_nat (dc_dns6_len c) `min` 8)%nat as E by (rewrite length_take, Hn; lia).
  split; [done|]. split; [lia|]. rewrite (concat_length 16) by (by apply Forall_take). rewrite E. lia.
Qed.

Lemma emits_dns m :
  (∀ c, m_dhcp_config m = Some c → dhcp_config_shaped c) →
  emits (emit_dns (m_dhcp_config m) (d6_dns_count (m_dhcp_config m)))
    (d6_area (when (0 <? length (d6_dns m))%nat (D6_OPT_DNS, concat (d6_dns m)))).
Proof.
  intros Hs. unfold d6_dns. destruct (m_dhcp_config m) as [c|]; [|by apply emits_nothing].
  destruct (d6_dns_length c (Hs c eq_refl)) as (E1 & E2 & E3). rewrite E1.
  destruct (Hs c eq_refl) as [_ [Hn Hd]].
  set (k := d6_dns_count (Some c)) in *.
  assert (k `min` D6_MAX_DNS = k)%nat as Ek by (unfold D6_MAX_DNS, DHCP_MAX_DNS; lia).
  unfold emit_dns. rewrite Ek. destruct (0 <? k)%nat; [|by apply emits_nothing].
  intros w p acc Hp Hw Hl. unfold when in *. rewrite d6_area_one in *. rewrite d6_bytes_length in *.
  cbn [snd] in *. rewrite E3 in *. unfold F6_OPTS.
  set (hd := to_be16 D6_OPT_DNS ++ to_be16 (Z.of_nat (k * 16))).
  assert (length hd = 4%nat) as Eh by done.
  rewrite (store_step p acc) by (done || lia).
  unfold pbind. rewrite (emit_dns_servers_run _ _ _ _ _ p (acc ++ hd));
    [|done|rewrite Hn; unfold DHCP_MAX_DNS; lia|done|done|rewrite length_app; lia|
      rewrite length_app; lia].
  unfold pret, d6_bytes. cbn [fst snd]. rewrite drop_0, E3, <- !app_assoc. done.
Qed.

Lemma d6_boot_length mode m ifindex :
  shaped m → mode = PXE_NONE ∨ mode = PXE_TFTP ∨ mode = PXE_HTTP →
  match m_dhcp_meta m !! ifindex with
  | Some dm => d6_boot_len mode (Some dm) = 0%nat ∨
      (0 < Z.to_nat (dm_pxe_host_len dm) <= 46)%nat ∧
      d6_boot_len mode (Some dm) = length (d6_url mode dm) ∧ (length (d6_url mode dm) <= 120)%nat ∧
      mode ≠ PXE_NONE
  | None => True
  end.
Proof.
  intros Hs Hm. destruct (m_dhcp_meta m !! ifindex) as [dm|] eqn:E; [|done].
  destruct (sh_dhcp_meta m Hs _ _ E) as [_ Hb Hx Hbl].
  unfold d6_boot_len, d6_url_len, d6_url, D6_MAX_URL. destruct (mode =? PXE_NONE) eqn:Em; [by left|].
  cbn [negb]. destruct (_ || _) eqn:Eh; [by left|right].
  apply orb_false_iff in Eh as [H1 H2]. apply Nat.eqb_neq in H1. apply Nat.ltb_ge in H2.
  split; [lia|]. rewrite !length_app.
  assert (length (if mode =? PXE_TFTP then TFTP_SCHEME else HTTP_SCHEME) = 7%nat) as ->
    by (by destruct (mode =? PXE_TFTP)).
  rewrite length_take. change (length URL_LBRACKET) with 1%nat. change (length URL_RBRACKET) with 2%nat.
  apply Z.eqb_neq in Em. destruct (mode =? PXE_TFTP).
  - change (length TFTP_PATH) with 20%nat. split; [lia|]. split; [lia|done].
  - rewrite length_take. split; [lia|]. split; [lia|done].
Qed.

Lemma d6_store_url_run mode dm w p acc :
  dhcp_meta_shaped dm → (0 < Z.to_nat (dm_pxe_host_len dm) <= 46)%nat → length p = 404%nat →
  w_pkt w = splice p 66 acc → (66 + length acc + length (d6_url mode dm) <= 404)%nat →
  d6_store_url (66 + length acc) mode dm w
  = Some (length (d6_url mode dm), at_pkt w (splice p 66 (acc ++ d6_url mode dm))).
Proof.
  intros [_ Hb Hx Hbl] Hh Hp Hw Hl. unfold d6_store_url, d6_url in *.
  rewrite (proj2 (Nat.eqb_neq _ 0)), (proj2 (Nat.ltb_ge 46 _)) by lia. cbn [orb].
  set (h := Z.to_nat (dm_pxe_host_len dm)) in *.
  assert (length (take h (dm_pxe_host dm)) = h) as Eh by (rewrite length_take; lia).
  set (sch := if mode =? PXE_TFTP then TFTP_SCHEME else HTTP_SCHEME) in *.
  assert (length sch = 7%nat) as Es by (unfold sch; by destruct (mode =? PXE_TFTP)).
  pose proof (eq_refl : length URL_LBRACKET = 1%nat) as El.
  pose proof (eq_refl : length URL_RBRACKET = 2%nat) as Er.
  pose proof (eq_refl : length TFTP_PATH = 20%nat) as Et.
  rewrite !length_app, Es, El, Eh, Er in *.
  rewrite (store_step p acc) by (done || lia).
  rewrite (store_step p (acc ++ sch)) by (done || rewrite ?length_app; lia).
  rewrite (store_step p ((acc ++ sch) ++ URL_LBRACKET)) by (done || rewrite ?length_app; lia).
  rewrite (store_step p (((acc ++ sch) ++ URL_LBRACKET) ++ take h (dm_pxe_host dm)))
    by (done || rewrite ?length_app; lia).
  destruct (mode =? PXE_TFTP).
  - rewrite (store_step p ((((acc ++ sch) ++ URL_LBRACKET) ++ take h (dm_pxe_host dm)) ++ URL_RBRACKET))
      by (done || rewrite ?length_app; lia).
    unfold pret. rewrite <- !app_assoc. do 2 f_equal; lia.
  - set (f := Z.to_nat (dm_boot_filename_len dm)) in *.
    assert (f `min` 64 = f)%nat as -> by lia.
    assert (length (take f (dm_boot_filename dm)) = f) as Ef by (rewrite length_take; lia).
    rewrite Ef in *. destruct (0 <? f)%nat eqn:E0; zbool.
    + rewrite (store_step p ((((acc ++ sch) ++ URL_LBRACKET) ++ take h (dm_pxe_host dm)) ++ URL_RBRACKET))
        by (done || rewrite ?length_app; lia).
      unfold pret. rewrite <- !app_assoc. do 2 f_equal; lia.
    + assert (f = 0)%nat as Ez by lia. rewrite Ez in *. unfold pret. rewrite take_0, app_nil_r, <- !app_assoc.
      do 2 f_equal; lia.
Qed.

Lemma emits_boot_file mode m ifindex :
  shaped m → mode = PXE_NONE ∨ mode = PXE_TFTP ∨ mode = PXE_HTTP →
  emits (emit_boot_file (m_dhcp_meta m !! ifindex) (d6_boot_len mode (m_dhcp_meta m !! ifindex)) mode)
    (d6_area (d6_boot mode (m_dhcp_meta m !! ifindex))).
Proof.
  intros Hs Hm. pose proof (d6_boot_length mode m ifindex Hs Hm) as Hb.
  unfold emit_boot_file, d6_boot. destruct (m_dhcp_meta m !! ifindex) as [dm|] eqn:E.
  2: { apply emits_nothing. intros off. by destruct (0 <? _)%nat. }
  destruct Hb as [Hb|(Hh & Eu & Hu & _)]; [rewrite Hb; by apply emits_nothing|].
  apply (sh_dhcp_meta m Hs) in E. rewrite Eu. destruct (0 <? _)%nat; [|by apply emits_nothing].
  intros w p acc Hp Hw Hl. unfold when in *. rewrite d6_area_one in *. rewrite d6_bytes_length in *.
  cbn [snd] in *. unfold F6_OPTS.
  set (hd := to_be16 D6_OPT_BOOT_FILE ++ to_be16 (Z.of_nat (length (d6_url mode dm)))).
  assert (length hd = 4%nat) as Eh by done.
  rewrite (store_step p acc) by (done || lia).
  replace (66 + length acc + 4)%nat with (66 + length (acc ++ hd))%nat by (rewrite length_app; lia).
  unfold pbind. rewrite (d6_store_url_run mode dm _ p) by (done || rewrite ?length_app; lia).
  unfold pret, d6_bytes. cbn [fst snd]. by rewrite <- !app_assoc.
Qed.

(** ** Lemmas: the reply *)

Record d6_shaped (r : D6Reply) : Prop := {
  d6s_eth : length (req_eth_src r) = 6%nat;
  d6s_src : length (req_src6 r) = 16%nat;
  d6s_tid : length (tid r) = 3%nat;
  d6s_duid : length (duid (d6_req r)) = 10%nat;
  d6s_mode : pxe_mode (d6_req r) = PXE_NONE ∨ pxe_mode (d6_req r) = PXE_TFTP
             ∨ pxe_mode (d6_req r) = PXE_HTTP }.

Definition d6_eth (r : D6Reply) : list Z := req_eth_src r ++ GW_MAC ++ to_be16 ETH_P_IPV6.
Definition d6_head (meta : PortMeta) (r : D6Reply) : list Z :=
  let len := wrap16 (Z.of_nat (real_reply_len r - ETH_LEN - 40)) in
  to_be16 len ++ [IPPROTO_UDP; 64] ++ pm_gateway_ipv6 meta ++ req_src6 r ++ to_be16 547 ++ to_be16 546
  ++ to_be16 len ++ to_be16 0 ++ [reply_type r] ++ tid r.

Lemma d6_eth_length r : d6_shaped r → length (d6_eth r) = 14%nat.
Proof. intros [He _ _ _ _]. unfold d6_eth. rewrite !length_app, He. done. Qed.
Lemma d6_head_length meta r :
  d6_shaped r → length (pm_gateway_ipv6 meta) = 16%nat → length (d6_head meta r) = 48%nat.
Proof. intros [_ Hs Ht _ _] Hg. unfold d6_head. rewrite !length_app, Hs, Ht, Hg. done. Qed.

Lemma emit_headers_run meta r p :
  d6_shaped r → length (pm_gateway_ipv6 meta) = 16%nat → length p = 404%nat →
  emit_headers meta r p = Some (splice (splice p 0 (d6_eth r)) 18 (d6_head meta r)).
Proof.
  intros [He Hs Ht _ _] Hg Hp. unfold emit_headers, ETH_LEN, F6_DHCP. cbn [Nat.add].
  pose proof (eq_refl : length GW_MAC = 6%nat) as Hgw.
  repeat wr_run. unfold d6_eth, d6_head.
  set (len := wrap16 (Z.of_nat (real_reply_len r - ETH_LEN - 40))).
  change (wrap16 (Z.of_nat (real_reply_len r - 14 - 40))) with len.
  repeat (rewrite (splice_next p 0) by len_solve).
  repeat (rewrite (splice_next _ 18) by len_solve). by rewrite <- !app_assoc.
Qed.

Definition padz (q : list Z) (i : nat) : list Z := if (i <? length q)%nat then splice q i [0] else q.

(** The next option of the reply. *)
Ltac emit_next H :=
  erewrite emits_step; [|exact H|done|reflexivity|reflexivity|rewrite ?length_app; cbn [length]; lia].

Lemma d6_emit_run ifindex meta r w :
  d6_shaped r → port_shaped meta → shaped (w_maps w) → length (w_pkt w) = 404%nat →
  let area := d6_area (d6_reply_options meta ifindex (w_maps w) (d6_req r)) in
  (66 + length area <= 404)%nat →
  dns6_count r = d6_dns_count (m_dhcp_config (w_maps w)) →
  url_len r = d6_boot_len (pxe_mode (d6_req r)) (m_dhcp_meta (w_maps w) !! ifindex) →
  real_reply_len r = (66 + length area)%nat →
  d6_emit ifindex meta r w = Some (tt, at_pkt w (padz
    (splice (splice (splice (w_pkt w) 0 (d6_eth r)) 18 (d6_head meta r)) 66 area) (66 + length area))).
Proof.
  intros Hr Hmeta Hs Hp area Hl Ed Eu Er. unfold d6_emit, pbind at 1, get_pkt.
  rewrite short_false_eq by (change D6_MAX_TOTAL with 404%nat; lia).
  erewrite rewrite_step by (apply emit_headers_run; [done|apply Hmeta|done]).
  set (h := splice (splice _ 0 _) 18 _).
  assert (length h = 404%nat) as Hh.
  { pose proof (d6_eth_length r Hr). pose proof (d6_head_length meta r Hr (ps_gw6 _ Hmeta)).
    unfold h. len_solve. }
  unfold pbind at 1, gets. unfold pbind at 1. cbn [w_maps at_pkt].
  set (m := w_maps w) in *. cbv zeta. rewrite Ed, Eu, Er.
  assert (area = d6_area ([(D6_OPT_SERVERID, to_be16 DUID_LL_TYPE ++ to_be16 DP_DHCPV6_HW_ID ++
    pm_guest_mac meta)] ++ when (has_client_id (d6_req r)) (D6_OPT_CLIENTID,
      take (duid_len (d6_req r) `min` D6_MAX_DUID) (duid (d6_req r))))
    ++ d6_area (when (got_iana (d6_req r)) (D6_OPT_IA_NA, ia_na_value meta (iaid (d6_req r))))
    ++ d6_area (when (rapid_commit (d6_req r)) (D6_OPT_RAPID_COMMIT, []))
    ++ d6_area (when (0 <? length (d6_dns m))%nat (D6_OPT_DNS, concat (d6_dns m)))
    ++ d6_area (d6_boot (pxe_mode (d6_req r)) (m_dhcp_meta m !! ifindex))) as Ea.
  { unfold area, d6_reply_options. rewrite !d6_area_app. by rewrite <- !app_assoc. }
  rewrite Ea, !length_app in Hl. cbv zeta in *.
  pose proof (d6s_duid r Hr) as Hdu.
  erewrite (emits_step _ _ _ _ h []);
    [|apply emits_ids; [apply Hmeta|rewrite Hdu; unfold D6_MAX_DUID; lia]|done|by rewrite splice_nil
     |done|cbn [length]; lia].
  emit_next (emits_ia_na meta (d6_req r) (ps_guest6 _ Hmeta)).
  emit_next (emits_rapid_commit (d6_req r)).
  emit_next (emits_dns m (sh_dhcp _ Hs)).
  emit_next (emits_boot_file _ m ifindex Hs (d6s_mode r Hr)).
  rewrite <- !app_assoc, !app_nil_l, <- Ea. unfold pbind, store, resize, pret, padz, at_pkt. cbn [w_pkt].
  assert (length area <= 338)%nat as Hal by (rewrite Ea, !length_app; lia).
  rewrite length_splice, Hh by lia. destruct (_ <? 404)%nat eqn:E; zbool.
  - by rewrite store_bytes_in by (rewrite ?length_splice; cbn [length]; lia).
  - by rewrite store_bytes_out by (rewrite ?length_splice; cbn [length]; lia).
Qed.

(** ** Lemmas: the option walk *)

Definition mode_ok (r : D6Request) : Prop :=
  pxe_mode r = PXE_NONE ∨ pxe_mode r = PXE_TFTP ∨ pxe_mode r = PXE_HTTP.
Definition d6_req_ok (r : D6Request) : Prop := length (duid r) = 10%nat ∧ mode_ok r.

(** Whatever it reads, an option keeps the request's fields in shape. *)
Lemma d6_option_ok_run c n v r w :
  length (w_pkt w) = 404%nat → d6_req_ok r →
  ∃ r', d6_option c n v r w = Some (r', w) ∧ d6_req_ok r'.
Proof.
  intros Hl [Hd Hm]. unfold d6_option, d6_req_ok, mode_ok in *.
  destruct (c =? D6_OPT_RAPID_COMMIT); [by eexists|].
  destruct (c =? D6_OPT_USER_CLASS).
  { destruct (pxe_mode r =? PXE_NONE); eexists; (split; [reflexivity|]); split; cbn; auto. }
  unfold pbind, load, pret. destruct (c =? D6_OPT_IA_NA).
  { destruct (load_bytes _ _ _); by eexists. }
  destruct (c =? D6_OPT_VENDOR_CLASS).
  { destruct (load_bytes _ _ _) as [b|]; [destruct (_ && _)|];
      eexists; (split; [reflexivity|]); split; cbn; auto. }
  destruct (c =? D6_OPT_CLIENTID); [|by eexists].
  eexists. split; [reflexivity|]. split; [|done]. cbn [duid set_clientid].
  destruct (decide (F6_OPTS + v + 10 <= 404)%nat) as [H|H].
  - rewrite load_bytes_in by (unfold D6_MAX_DUID; lia). cbn [default from_option id].
    apply length_slice. unfold D6_MAX_DUID. lia.
  - by rewrite load_bytes_out by (unfold D6_MAX_DUID; lia).
Qed.

Lemma d6_parse_ok_run guard i n r w :
  length (w_pkt w) = 404%nat → d6_req_ok r →
  ∃ r', d6_parse guard i n r w = Some (r', w) ∧ d6_req_ok r'.
Proof.
  intros Hl. revert i r. induction guard as [|g IH]; intros i r Hr; cbn [d6_parse]; [by exists r|].
  destruct (_ && _); [|by exists r]. unfold pbind at 1, load.
  destruct (load_bytes _ _ _) as [hb|]; [|by exists r]. cbv zeta.
  destruct (d6_option_ok_run (be16 (at_ hb 0) (at_ hb 1))
    (Z.to_nat (be16 (at_ hb 2) (at_ hb 3)) `min` D6_SCAN)%nat (i + 4)%nat r w Hl Hr) as (r1 & E & Hr1).
  unfold pbind. rewrite E. by apply IH.
Qed.

(** The identifier kept is made of frame bytes. *)
Lemma d6_option_bytes c n v r w r' :
  length (w_pkt w) = 404%nat → bytes_ok (w_pkt w) → bytes_ok (duid r) →
  d6_option c n v r w = Some (r', w) → bytes_ok (duid r').
Proof.
  intros Hl Hb Hr. unfold d6_option, pbind, load, pret. generalize (F6_OPTS + v)%nat. intros k.
  destruct (c =? D6_OPT_RAPID_COMMIT); [by intros [= <-]|].
  destruct (c =? D6_OPT_USER_CLASS); [by intros [= <-]; destruct (_ =? _)|].
  destruct (c =? D6_OPT_IA_NA); [by intros [= <-]; destruct (load_bytes _ _ _)|].
  destruct (c =? D6_OPT_VENDOR_CLASS).
  { intros [= <-]. destruct (load_bytes _ _ _); [by destruct (_ && _)|done]. }
  destruct (c =? D6_OPT_CLIENTID); intros [= <-]; [|done]. cbn [duid set_clientid].
  destruct (decide (k + 10 <= 404)%nat) as [H|H].
  - rewrite load_bytes_in by (unfold D6_MAX_DUID; lia). by apply bytes_ok_slice.
  - by rewrite load_bytes_out by (unfold D6_MAX_DUID; lia).
Qed.

Lemma d6_parse_bytes guard i n r w r' :
  length (w_pkt w) = 404%nat → bytes_ok (w_pkt w) → d6_req_ok r → bytes_ok (duid r) →
  d6_parse guard i n r w = Some (r', w) → bytes_ok (duid r').
Proof.
  intros Hl Hb. revert i r. induction guard as [|g IH]; intros i r Hr Hd; cbn [d6_parse];
    [by intros [= <-]|].
  destruct (_ && _); [|by intros [= <-]]. unfold pbind at 1, load.
  destruct (load_bytes _ _ _) as [hb|]; [|by intros [= <-]]. cbv zeta.
  destruct (d6_option_ok_run (be16 (at_ hb 0) (at_ hb 1))
    (Z.to_nat (be16 (at_ hb 2) (at_ hb 3)) `min` D6_SCAN)%nat (i + 4)%nat r w Hl Hr) as (r1 & E & Hr1).
  unfold pbind. rewrite E. apply IH; [done|]. by eapply d6_option_bytes.
Qed.

Lemma be32_of_take v : (4 <= length v)%nat → be32_of (take 4 v) = be32_of v.
Proof. intros H. by explode_frame v 4 H. Qed.

(** The state after an option, as the responder keeps it. *)
Definition d6_apply_kept (r : D6Request) (x : Z * list Z) : D6Request :=
  let '(code, v) := x in
  if code =? D6_OPT_RAPID_COMMIT then set_rapid r
  else if code =? D6_OPT_USER_CLASS then
    if pxe_mode r =? PXE_NONE then set_pxe PXE_HTTP r else r
  else if code =? D6_OPT_IA_NA then set_iana (be32_of v) r
  else if code =? D6_OPT_VENDOR_CLASS then
    if (be32_of v =? PXE_ENTERPRISE) && (pxe_mode r =? PXE_NONE) then set_pxe PXE_TFTP r else r
  else if code =? D6_OPT_CLIENTID then
    set_clientid (length v `min` D6_MAX_DUID) (take D6_MAX_DUID v) r
  else r.
Lemma d6_apply_cut r x : d6_apply r (cut_client_id x) = d6_apply_kept r x.
Proof.
  destruct x as [c v]. unfold cut_client_id, d6_apply, d6_apply_kept. cbn [fst snd].
  destruct (c =? D6_OPT_CLIENTID) eqn:E; cbv beta iota; [|by rewrite E].
  zbool. subst c. cbn. by rewrite length_take, Nat.min_comm.
Qed.
Lemma cut_short o : client_ids_short o → cut_client_id <$> o = o.
Proof.
  unfold client_ids_short. induction 1 as [|[c v] o Hx _ IH]; [done|]. cbn. rewrite IH. f_equal.
  unfold cut_client_id. cbn [fst snd] in *. destruct (c =? D6_OPT_CLIENTID) eqn:E; [|done].
  zbool. by rewrite take_ge by auto.
Qed.

Lemma d6_option_run c val v r w :
  length (w_pkt w) = 404%nat → d6_option_ok (c, val) → (v + length val <= 128)%nat →
  slice (w_pkt w) (66 + v) (length val) = val →
  ∃ r', d6_option c (length val) v r w = Some (r', w) ∧
    d6_norm r' = d6_apply (d6_norm r) (cut_client_id (c, val)).
Proof.
  intros Hl [Hc Hv] Hn Hs. cbn [fst snd] in *. rewrite d6_apply_cut.
  unfold d6_option, d6_apply_kept, F6_OPTS, D6_MAX_DUID.
  cbn [pxe_mode d6_norm].
  destruct (c =? D6_OPT_RAPID_COMMIT); [by eexists|].
  destruct (c =? D6_OPT_USER_CLASS); [destruct (pxe_mode r =? PXE_NONE); by eexists|].
  assert (length val <= 128)%nat by lia.
  assert (∀ k, (0 < k)%nat → (k <= 10)%nat →
    load (66 + v) k w = Some (Some (slice (w_pkt w) (66 + v) k), w)) as Hld.
  { intros k H0 Hk. apply load_run; lia. }
  assert ((4 <= length val)%nat → be32_of (slice (w_pkt w) (66 + v) 4) = be32_of val) as H4.
  { intros H4. rewrite <- (be32_of_take val) by done. f_equal.
    transitivity (take 4 (slice (w_pkt w) (66 + v) (length val))); [|by rewrite Hs].
    unfold slice. rewrite take_take. f_equal. lia. }
  destruct (c =? D6_OPT_IA_NA) eqn:E1; zbool.
  { unfold pbind. rewrite Hld by lia. rewrite H4 by auto. by eexists. }
  destruct (c =? D6_OPT_VENDOR_CLASS) eqn:E2; zbool.
  { unfold pbind. rewrite Hld by lia. rewrite H4 by auto. destruct (_ && _); by eexists. }
  destruct (c =? D6_OPT_CLIENTID); [|by eexists].
  unfold pbind. rewrite Hld by lia. eexists. split; [reflexivity|].
  unfold d6_norm, set_clientid. cbn. f_equal. rewrite <- Hs at 2. unfold slice. rewrite !take_take.
  f_equal. lia.
Qed.

Lemma d6_parse_run guard o i n r w :
  length (w_pkt w) = 404%nat → Forall d6_option_ok o → n = (i + length (d6_area o))%nat →
  (n <= 128)%nat → (length o <= guard)%nat →
  slice (w_pkt w) (66 + i) (length (d6_area o)) = d6_area o →
  ∃ r', d6_parse guard i n r w = Some (r', w) ∧ d6_norm r' = fold_left d6_apply (cut_client_id <$> o) (d6_norm r).
Proof.
  intros Hl Hok. revert guard i r. induction Hok as [|[c v] o Hx Hok IH]; intros guard i r Hn Hn' Hg Hs.
  { exists r. split; [|done]. destruct guard; [done|]. cbn [d6_parse].
    rewrite (proj2 (Nat.leb_gt _ _)); [done|]. cbn in Hn. lia. }
  destruct guard as [|g]; [cbn in Hg; lia|]. cbn [d6_parse length] in *.
  change (d6_area ((c, v) :: o)) with (d6_bytes (c, v) ++ d6_area o) in *.
  assert (length (d6_bytes (c, v)) = (4 + length v)%nat) as Eb by apply d6_bytes_length.
  rewrite length_app, Eb in *. unfold D6_SCAN.
  rewrite !(proj2 (Nat.leb_le _ _)) by lia. cbn [andb]. unfold pbind at 1.
  rewrite load_run by (unfold F6_OPTS; lia).
  assert (slice (w_pkt w) (66 + i) (4 + length v) = d6_bytes (c, v)) as H1.
  { transitivity (slice (slice (w_pkt w) (66 + i) (4 + length v + length (d6_area o))) 0 (4 + length v)).
    { rewrite slice_slice by lia. f_equal; lia. }
    rewrite Hs. unfold slice. rewrite drop_0, <- Eb. apply take_app_length. }
  assert (slice (w_pkt w) (66 + (i + 4 + length v)) (length (d6_area o)) = d6_area o) as H2.
  { transitivity (slice (slice (w_pkt w) (66 + i) (4 + length v + length (d6_area o)))
      (4 + length v) (length (d6_area o))).
    { rewrite slice_slice by lia. f_equal; lia. }
    rewrite Hs. unfold slice. rewrite <- Eb, drop_app_length. apply firstn_all. }
  assert (slice (w_pkt w) (F6_OPTS + i) 4 = to_be16 c ++ to_be16 (Z.of_nat (length v))) as H3.
  { unfold F6_OPTS. transitivity (slice (slice (w_pkt w) (66 + i) (4 + length v)) 0 4).
    { rewrite slice_slice by lia. f_equal; lia. }
    rewrite H1. reflexivity. }
  assert (slice (w_pkt w) (66 + (i + 4)) (length v) = v) as H4.
  { transitivity (slice (slice (w_pkt w) (66 + i) (4 + length v)) 4 (length v)).
    { rewrite slice_slice by lia. f_equal; lia. }
    rewrite H1. unfold slice, d6_bytes. cbn [fst snd drop app to_be16]. apply firstn_all. }
  rewrite H3. unfold to_be16, at_. cbn [app nth]. pose proof (proj1 Hx) as Hc. cbn [fst] in Hc.
  rewrite be16_to_be16 by done. rewrite be16_to_be16 by (unfold is_u16; lia).
  rewrite Nat2Z.id. replace (length v `min` 128)%nat with (length v) by lia.
  destruct (d6_option_run c v (i + 4) r w Hl Hx ltac:(lia) H4) as (r1 & E1 & En1).
  unfold pbind. rewrite E1.
  destruct (IH g (i + 4 + length v)%nat r1) as (r2 & E2 & En2); [lia|lia|lia|done|].
  exists r2. split; [done|]. by rewrite En2, En1.
Qed.

(** ** Lemmas: the checksum *)

Lemma d6_csum_words_stop n j len cs p : (len <= j)%nat → d6_csum_words n j len cs p = Some cs.
Proof.
  revert j. induction n as [|n IH]; intros j H; cbn [d6_csum_words]; [done|].
  rewrite (proj2 (Nat.ltb_ge _ _)) by done. apply IH. lia.
Qed.

Lemma d6_csum_words_run n k j len cs p :
  bytes_ok p → (54 + j + 2 * k <= length p)%nat → (k <= n)%nat → (len <= j + 2 * k)%nat →
  (k = 0 ∨ j + 2 * (k - 1) < len)%nat → 0 <= cs → cs + wsl p (54 + j) (2 * k) < 2 ^ 32 →
  d6_csum_words n j len cs p = Some (cs + wsl p (54 + j) (2 * k)).
Proof.
  intros Hb. revert k j cs. induction n as [|n IH]; intros k j cs Hp Hk Hl Hlow Hc Hlt;
    cbn [d6_csum_words].
  { assert (k = 0)%nat as -> by lia. rewrite wsl_0. f_equal. lia. }
  destruct (j <? len)%nat eqn:E; zbool.
  - destruct k as [|k]; [lia|]. rewrite wsl_words in * by lia.
    unfold ETH_LEN. change (14 + 40 + j)%nat with (54 + j)%nat.
    rewrite rd16_w16 by lia. cbn [mbind option_bind].
    pose proof (w16_range p (54 + j) Hb) as Hw. unfold is_u16 in Hw.
    pose proof (wsl_nonneg p (54 + j + 2) (2 * k) Hb).
    rewrite wrap32_mod, Z.mod_small by lia.
    rewrite (IH k (j + 2)%nat); [|lia|lia|lia|lia|lia|].
    + replace (54 + (j + 2))%nat with (54 + j + 2)%nat by lia. f_equal. lia.
    + replace (54 + (j + 2))%nat with (54 + j + 2)%nat by lia. lia.
  - assert (k = 0)%nat as -> by lia. rewrite wsl_0 in *. cbn [mbind option_bind].
    rewrite d6_csum_words_stop by lia. f_equal. lia.
Qed.

(** A last odd byte followed by a zero: the padded sum is the sum. *)
Lemma wsum_pad l : Nat.Odd (length l) → wsum (l ++ [0]) = wsum l.
Proof.
  induction l as [|a|a b l IH] using list_pair_ind; intros [k Hk].
  - cbn in Hk. lia.
  - cbn. lia.
  - cbn [app wsum]. rewrite IH; [done|]. exists (k - 1)%nat. cbn in Hk. lia.
Qed.

(** The words summed are those of the datagram of [n] bytes. *)
Lemma d6_words_of_bytes p n :
  (54 + n <= length p)%nat → (Nat.Odd n → (54 + n < length p)%nat ∧ at_ p (54 + n) = 0) →
  wsl p 54 (2 * ((n + 1) / 2)) = wsl p 54 n.
Proof.
  intros Hl Hodd. destruct (Nat.Even_or_Odd n) as [[k ->]|Ho].
  - do 2 f_equal. rewrite (Nat.mul_comm 2 k), Nat.div_add_l by lia. change (1 / 2)%nat with 0%nat. lia.
  - destruct (Hodd Ho) as [Hlt Hz]. pose proof Ho as [k Hk].
    replace (2 * ((n + 1) / 2))%nat with (n + 1)%nat.
    2: { rewrite Hk. replace (2 * k + 1 + 1)%nat with ((k + 1) * 2)%nat by lia. rewrite Nat.div_mul; lia. }
    unfold wsl. rewrite <- (wsum_pad (slice p 54 n)) by (by rewrite length_slice by lia).
    f_equal. apply at_ext.
    { rewrite length_app, !length_slice by lia. done. }
    rewrite length_slice by lia. intros i Hi. rewrite at_slice by lia.
    unfold at_ at 2. destruct (decide (i < n)%nat).
    + rewrite app_nth1 by (rewrite length_slice; lia). fold (at_ (slice p 54 n) i).
      by rewrite at_slice by lia.
    + replace i with n by lia. rewrite app_nth2 by (rewrite length_slice; lia).
      rewrite length_slice, Nat.sub_diag by lia. exact Hz.
Qed.

Lemma d6_checksum_run p n :
  bytes_ok p → length p = 404%nat → (12 <= n <= 350)%nat → w16 p 60 = 0 →
  (Nat.Odd n → at_ p (54 + n) = 0) →
  ∃ c, d6_checksum (Z.of_nat n) p = Some (splice p 60 (to_be16 c)) ∧ is_u16 c ∧
    csum_valid (wsl (splice p 60 (to_be16 c)) 22 32 + Z.of_nat n + IPPROTO_UDP
                + wsl (splice p 60 (to_be16 c)) 54 n).
Proof.
  intros Hb Hl Hn Hz Hodd. unfold d6_checksum.
  rewrite short_false_eq by (change D6_MAX_TOTAL with 404%nat; lia). rewrite Nat2Z.id.
  change D6_UDP_CKSUM_LEN with 350%nat. replace (n `min` 350)%nat with n by lia.
  pose proof (wsl_bound p 22 8 Hb) as B1. pose proof (wsl_bound p 38 8 Hb) as B2.
  pose proof (wsl_bound p 54 175 Hb) as B3. cbn [Nat.mul Nat.add] in B1, B2.
  pose proof (wsl_nonneg p 22 16 Hb). pose proof (wsl_nonneg p 38 16 Hb).
  pose proof (wsl_split p 22 8 8) as Es. cbn [Nat.add Nat.mul] in Es.
  assert (wsl p 54 (2 * ((n + 1) / 2)) = wsl p 54 n) as Ew.
  { apply d6_words_of_bytes; [lia|]. intros Ho. split; [|by apply Hodd].
    destruct Ho as [k Hk]. lia. }
  assert (n <= 2 * ((n + 1) / 2) <= n + 1)%nat as Hk2.
  { pose proof (Nat.div_mod_eq (n + 1) 2). pose proof (Nat.mod_upper_bound (n + 1) 2). lia. }
  assert ((n + 1) / 2 <= 175)%nat as Hk by lia.
  pose proof (wsl_bound p 54 ((n + 1) / 2) Hb ltac:(lia)) as B4. rewrite Ew in B4.
  pose proof (wsl_nonneg p 54 n Hb).
  unfold ETH_LEN. rewrite nd_addr_words_run by (done || cbn [Nat.add Nat.mul]; lia).
  cbn [mbind option_bind Nat.add Nat.mul]. unfold IPPROTO_UDP.
  rewrite !wrap32_mod, (Z.mod_small (_ + Z.of_nat n)), Z.mod_small by lia.
  rewrite (d6_csum_words_run _ ((n + 1) / 2)); [|done|lia|exact Hk|lia|lia|lia|
    change (54 + 0)%nat with 54%nat; rewrite Ew; lia].
  change (54 + 0)%nat with 54%nat. rewrite Ew. cbn [mbind option_bind].
  rewrite wr16_splice by lia. set (s := 0 + wsl p 22 16 + _ + _ + 17 + _).
  exists (csum_fold s). split; [done|]. assert (is_u16 (csum_fold s)) as Hc by apply csum_fold_range.
  split; [done|]. rewrite wsl_splice_out by (cbn [length to_be16]; lia).
  rewrite wsl_set16 by (done || lia || by exists 3%nat). rewrite Hz.
  pose proof (csum_fold_valid s ltac:(unfold s; lia)) as Hv.
  replace (_ + _) with (s + csum_fold s); [done|]. unfold s. rewrite Es by lia. lia.
Qed.

(** ** Lemmas: the answer *)

Lemma d6_options_norm meta ifindex m r :
  d6_reply_options meta ifindex m (d6_norm r) = d6_reply_options meta ifindex m r.
Proof.
  unfold d6_reply_options, has_client_id, d6_norm. cbn [got_clientid duid duid_len got_iana iaid
    rapid_commit pxe_mode]. rewrite take_take. by replace ((duid_len r `min` D6_MAX_DUID) `min` duid_len r)%nat
    with (duid_len r `min` D6_MAX_DUID)%nat by lia.
Qed.

Lemma d6_opts_len_run meta ifindex m r :
  shaped m → port_shaped meta → d6_req_ok r →
  let area := d6_area (d6_reply_options meta ifindex m r) in
  d6_opts_len r (d6_dns_count (m_dhcp_config m)) (d6_boot_len (pxe_mode r) (m_dhcp_meta m !! ifindex))
  = length area ∧ (length area <= 338)%nat.
Proof.
  intros Hs [_ _ Hmac _ _ Hg6] [Hd Hm]. cbv zeta. unfold d6_reply_options.
  rewrite !d6_area_app, !length_app, !when_length, d6_area_one, !d6_bytes_length. cbn [fst snd].
  assert (length (to_be16 DUID_LL_TYPE ++ to_be16 DP_DHCPV6_HW_ID ++ pm_guest_mac meta) = 10%nat)
    as -> by (rewrite !length_app, Hmac; reflexivity).
  assert (length (take (duid_len r `min` D6_MAX_DUID) (duid r)) = duid_len r `min` D6_MAX_DUID)%nat as ->
    by (rewrite length_take, Hd; unfold D6_MAX_DUID; lia).
  assert (length (ia_na_value meta (iaid r)) = 46%nat) as ->
    by (unfold ia_na_value; rewrite !length_app, Hg6; reflexivity).
  assert ((if (0 <? length (d6_dns m))%nat then (4 + length (concat (d6_dns m)))%nat else 0%nat)
    = (if (0 <? d6_dns_count (m_dhcp_config m))%nat then 4 + d6_dns_count (m_dhcp_config m) * 16 else 0)%nat
    ∧ (d6_dns_count (m_dhcp_config m) <= 8)%nat) as [-> Hdns].
  { unfold d6_dns. destruct (m_dhcp_config m) as [c|] eqn:E; [|cbn; lia].
    apply (sh_dhcp m Hs) in E. destruct (d6_dns_length c E) as (-> & H8 & ->). by split. }
  set (u := d6_boot_len (pxe_mode r) (m_dhcp_meta m !! ifindex)).
  assert (length (d6_area (d6_boot (pxe_mode r) (m_dhcp_meta m !! ifindex)))
    = (if (0 <? u)%nat then 4 + u else 0)%nat ∧ (u <= 120)%nat) as [-> Hu].
  { pose proof (d6_boot_length (pxe_mode r) m ifindex Hs Hm) as Hb. unfold u, d6_boot.
    destruct (m_dhcp_meta m !! ifindex) as [dm|].
    - rewrite when_length, d6_bytes_length. cbn [snd].
      destruct Hb as [->|(_ & -> & Hl & _)]; [by split; [|lia]|]. split; [|lia]. by destruct (0 <? _)%nat.
    - unfold d6_boot_len. destruct (negb _); cbn; lia. }
  unfold d6_opts_len. set (h := has_client_id r). set (a := (duid_len r `min` D6_MAX_DUID)%nat).
  assert (a <= 10)%nat by (unfold a, D6_MAX_DUID; lia). change D6_MAX_OPTS with 338%nat.
  destruct h, (got_iana r), (rapid_commit r), (0 <? d6_dns_count _)%nat, (0 <? u)%nat;
    cbn [length]; lia.
Qed.

(** The configured addresses and names are bytes. *)
Record dhcp_bytes (m : Maps) : Prop := {
  db_dns : ∀ c, m_dhcp_config m = Some c → Forall bytes_ok (dc_dns6 c);
  db_names : ∀ i v, m_dhcp_meta m !! i = Some v →
    bytes_ok (dm_pxe_host v) ∧ bytes_ok (dm_boot_filename v) }.

Lemma bytes_app a b : bytes_ok a → bytes_ok b → bytes_ok (a ++ b).
Proof. intros Ha Hb. by apply Forall_app. Qed.
Lemma bytes_concat l : Forall bytes_ok l → bytes_ok (concat l).
Proof. induction 1 as [|a l Ha Hl IH]; [constructor|]. by apply bytes_app. Qed.
Lemma to_be32_bytes x : bytes_ok (to_be32 x).
Proof.
  unfold to_be32. repeat constructor; unfold is_byte; rewrite wrap8_mod; apply Z.mod_pos_bound; lia.
Qed.
Lemma d6_area_bytes o :
  Forall (λ x, is_u16 x.1 ∧ Z.of_nat (length x.2) < 65536 ∧ bytes_ok x.2) o → bytes_ok (d6_area o).
Proof.
  intros H. apply bytes_concat. induction H as [|[c v] o (Hc & Hl & Hv) Ho IH]; [constructor|].
  cbn [fmap list_fmap]. constructor; [|exact IH]. unfold d6_bytes. cbn [fst snd] in *.
  apply bytes_app; [by apply to_be16_bytes|]. apply bytes_app; [|done].
  apply to_be16_bytes. unfold is_u16. lia.
Qed.
Lemma when_Forall {A} (P : A → Prop) (b : bool) x : (b = true → P x) → Forall P (when b x).
Proof. intros H. destruct b; constructor; auto. Qed.

Lemma d6_reply_bytes meta ifindex m r :
  shaped m → port_shaped meta → d6_req_ok r → dhcp_bytes m → bytes_ok (pm_guest_mac meta) →
  bytes_ok (pm_guest_ipv6 meta) → bytes_ok (duid r) →
  bytes_ok (d6_area (d6_reply_options meta ifindex m r)).
Proof.
  intros Hs Hmeta Hr [Hdns Hnames] Hmac Hg6 Hd. apply d6_area_bytes.
  destruct (d6_opts_len_run meta ifindex m r Hs Hmeta Hr) as [_ Hlen].
  assert (Forall (λ x : Z * list Z, (length x.2 <= 338)%nat) (d6_reply_options meta ifindex m r)) as Hl.
  { revert Hlen. generalize (d6_reply_options meta ifindex m r). induction l as [|x l IH]; intros H;
      [constructor|]. change (d6_area (x :: l)) with (d6_bytes x ++ d6_area l) in H.
    rewrite length_app, d6_bytes_length in H. constructor; [lia|]. apply IH. lia. }
  assert (Forall (λ x : Z * list Z, is_u16 x.1 ∧ bytes_ok x.2) (d6_reply_options meta ifindex m r)) as Hb.
  { unfold d6_reply_options. repeat apply Forall_app_2; try apply when_Forall; try intros _; cbn [fst snd].
    - constructor; [|constructor]. split; [done|]. cbn [snd]. by apply bytes_app; [apply bytes_ok_b|apply bytes_app; [apply bytes_ok_b|]].
    - split; [done|]. by apply Forall_take.
    - split; [done|]. unfold ia_na_value. repeat apply bytes_app; try done; try apply to_be32_bytes; by apply bytes_ok_b.
    - split; [done|constructor].
    - split; [done|]. apply bytes_concat. unfold d6_dns. destruct (m_dhcp_config m) as [c|]; [|constructor].
      apply Forall_take. by apply Hdns.
    - unfold d6_boot. destruct (m_dhcp_meta m !! ifindex) as [v|] eqn:E; [|constructor].
      apply Hnames in E as [H1 H2]. apply when_Forall. intros _. split; [done|]. cbn [snd].
      unfold d6_url. repeat apply bytes_app; try (by apply bytes_ok_b); try (by apply Forall_take);
        destruct (_ =? PXE_TFTP); first [by apply bytes_ok_b|by apply Forall_take]. }
  eapply Forall_impl; [exact (List.Forall_and Hl Hb)|]. cbn beta. intros x (H1 & H2 & H3).
  split; [done|]. split; [lia|done].
Qed.

(** The frame before its checksum, and with it. *)
Definition d6_frame (p1 : list Z) (meta : PortMeta) (r : D6Reply) (area : list Z) : list Z :=
  padz (splice (splice (splice p1 0 (d6_eth r)) 18 (d6_head meta r)) 66 area) (66 + length area).

Lemma d6_frame_slices p1 meta r area :
  length p1 = 404%nat → d6_shaped r → length (pm_gateway_ipv6 meta) = 16%nat →
  (length area <= 338)%nat →
  let q := d6_frame p1 meta r area in
  length q = 404%nat ∧ slice q 0 14 = d6_eth r ∧ slice q 18 48 = d6_head meta r ∧
  slice q 66 (length area) = area ∧ ((66 + length area < 404)%nat → at_ q (66 + length area) = 0).
Proof.
  intros Hl Hr Hg Ha. unfold d6_frame.
  pose proof (d6_eth_length r Hr) as He. pose proof (d6_head_length meta r Hr Hg) as Hh.
  set (h := splice (splice p1 0 (d6_eth r)) 18 (d6_head meta r)).
  assert (length h = 404%nat) as Hhl by (unfold h; len_solve).
  set (q1 := splice h 66 area). assert (length q1 = 404%nat) as Hq1 by (unfold q1; len_solve).
  assert (∀ i n, (i + n <= 66 + length area)%nat →
    slice (padz q1 (66 + length area)) i n = slice q1 i n) as Hpad.
  { intros i n Hi. unfold padz. rewrite Hq1. destruct (_ <? _)%nat eqn:E; zbool; [|done].
    rewrite slice_splice_out; cbn [length]; lia || done. }
  split; [|split; [|split; [|split]]].
  - unfold padz. rewrite Hq1. destruct (_ <? _)%nat eqn:E; zbool; [|done].
    rewrite length_splice; cbn [length]; lia.
  - rewrite Hpad by lia. unfold q1, h. rewrite !slice_splice_out by len_solve.
    by apply slice_splice_at; [|lia].
  - rewrite Hpad by lia. unfold q1. rewrite slice_splice_out by lia. unfold h.
    apply slice_splice_at; [done|len_solve].
  - rewrite Hpad by lia. apply slice_splice_at; [done|lia].
  - intros H. unfold padz. rewrite Hq1, (proj2 (Nat.ltb_lt _ _)) by lia.
    rewrite at_splice_in by (cbn [length]; lia). by rewrite Nat.sub_diag.
Qed.

Lemma d6_frame_bytes p1 meta r area :
  bytes_ok p1 → bytes_ok (req_eth_src r) → bytes_ok (req_src6 r) → bytes_ok (tid r) →
  is_byte (reply_type r) → bytes_ok (pm_gateway_ipv6 meta) → bytes_ok area →
  Z.of_nat (real_reply_len r) < 65536 → bytes_ok (d6_frame p1 meta r area).
Proof.
  intros Hb Be Bs Bt Brt Hgb Ba Hr.
  assert (is_u16 (wrap16 (Z.of_nat (real_reply_len r - ETH_LEN - 40)))) as Hu.
  { rewrite wrap16_small; unfold is_u16; lia. }
  assert (bytes_ok (d6_head meta r)) as Bh.
  { unfold d6_head. repeat apply bytes_app; try done; try (by apply to_be16_bytes);
      try (by apply bytes_ok_b). by constructor. }
  assert (bytes_ok (d6_eth r)) as Bd by (repeat apply bytes_app; [done|by apply bytes_ok_b..]).
  unfold d6_frame, padz. destruct (_ <? _)%nat; repeat apply bytes_ok_splice; try done.
  by apply bytes_ok_b.
Qed.

Lemma d6_head_slices meta r n :
  d6_shaped r → length (pm_gateway_ipv6 meta) = 16%nat → real_reply_len r = (54 + n)%nat →
  Z.of_nat n < 65536 →
  let h := d6_head meta r in
  slice h 0 42 = to_be16 (Z.of_nat n) ++ [IPPROTO_UDP; 64] ++ pm_gateway_ipv6 meta ++ req_src6 r
    ++ to_be16 547 ++ to_be16 546 ++ to_be16 (Z.of_nat n) ∧
  slice h 42 2 = [0; 0] ∧ slice h 44 4 = reply_type r :: tid r.
Proof.
  intros [_ Hs Ht _ _] Hg Hn Hlt. unfold d6_head. rewrite Hn.
  replace (54 + n - ETH_LEN - 40)%nat with n by (unfold ETH_LEN; lia).
  rewrite wrap16_small by (unfold is_u16; lia).
  destruct r as [q rt ti dc ul rl src eth], meta as [v g4 gw4 mac und gw6 g6]. cbn in Hs, Ht, Hg |- *.
  explode_arr src 16 Hs. explode_arr ti 3 Ht. explode_arr gw6 16 Hg. by split_and!.
Qed.

Lemma d6_frame_spec p1 meta r area :
  length p1 = 404%nat → d6_shaped r → length (pm_gateway_ipv6 meta) = 16%nat →
  bytes_ok (d6_frame p1 meta r area) → (length area <= 338)%nat →
  real_reply_len r = (66 + length area)%nat →
  ∃ q, d6_checksum (wrap16 (Z.of_nat (length area + F6_OPTS - ETH_LEN - 40)))
         (d6_frame p1 meta r area) = Some q ∧
    length q = 404%nat ∧ slice q 0 14 = d6_eth r ∧
    slice q 18 42 = slice (d6_head meta r) 0 42 ∧
    csum_valid (wsl q 22 32 + Z.of_nat (12 + length area) + IPPROTO_UDP + wsl q 54 (12 + length area)) ∧
    slice q 62 4 = reply_type r :: tid r ∧ slice q 66 (length area) = area.
Proof.
  intros Hl Hr Hg Hb Ha Er.
  destruct (d6_frame_slices p1 meta r area Hl Hr Hg Ha) as (Hq & Se & Sh & Sa & Sz).
  destruct (d6_head_slices meta r (12 + length area) Hr Hg ltac:(lia) ltac:(lia)) as (_ & S2 & S3).
  set (q0 := d6_frame p1 meta r area) in *.
  assert (wrap16 (Z.of_nat (length area + F6_OPTS - ETH_LEN - 40)) = Z.of_nat (12 + length area)) as ->.
  { unfold F6_OPTS, ETH_LEN. rewrite wrap16_small by (unfold is_u16; lia). lia. }
  rewrite <- Sh, slice_slice in S2, S3 by lia. cbn [Nat.add] in S2, S3.
  destruct (d6_checksum_run q0 (12 + length area) Hb Hq) as (c & Ec & Hc & Hv); [lia| | |].
  { rewrite <- w16_wsl by lia. unfold wsl. by rewrite S2. }
  { intros [k Hk]. rewrite <- Sz by lia. f_equal; lia. }
  exists (splice q0 60 (to_be16 c)). split; [done|].
  assert (length (to_be16 c) = 2%nat) as Hc2 by done.
  rewrite length_splice, !slice_splice_out by lia. split; [done|]. split; [done|].
  split; [by rewrite <- Sh, slice_slice by lia|]. split; [done|]. split; done.
Qed.

(** The request's checks, and the frame after the growth. *)
Lemma d6_detect_run p t o : dhcpv6_frame p t o → d6_detect p = Some (Some t).
Proof.
  intros [Hl _ He Hu Hp [Hm Ht] _ _]. unfold d6_detect, MIN_D6_LEN, ETH_LEN, F6_DHCP. cbn [Nat.add].
  rewrite short_false_eq by lia. rewrite !rd16_w16, !rd8_at by lia. cbn [mbind option_bind].
  rewrite He, Hu, Hp, Hm. cbn [negb Z.eqb Pos.eqb ETH_P_IPV6 IPPROTO_UDP].
  by destruct Ht as [->|[->| ->]].
Qed.

Lemma d6_grow_run p d w :
  w_pkt w = p → (66 <= length p <= 194)%nat → bytes_ok p → d = 404 - Z.of_nat (length p) →
  xdp_adjust_tail d w = Some (false, w) ∧ adjust_tail d p = None ∨
  ∃ p1, xdp_adjust_tail d w = Some (true, at_pkt w p1) ∧ length p1 = 404%nat ∧ bytes_ok p1 ∧
    ∀ i n, (i + n <= length p)%nat → slice p1 i n = slice p i n.
Proof.
  intros Hw Hl Hb ->. unfold xdp_adjust_tail, resize. rewrite Hw.
  destruct (adjust_tail _ p) as [p1|] eqn:Ea; [right|by left].
  apply adjust_tail_grow in Ea as (t & Ht & Htb & ->); [|lia].
  exists (p ++ t). split; [done|]. rewrite length_app. split; [lia|]. split; [by apply bytes_app|].
  intros i n Hi. unfold slice. rewrite drop_app_le by lia. apply take_app_le.
  rewrite length_drop. lia.
Qed.

(** The reply built from the grown frame [p1] and the walk's result [q]. *)
Lemma d6_answer_run ifindex meta t q p p1 w :
  port_shaped meta → shaped (w_maps w) → dhcp_bytes (w_maps w) →
  bytes_ok (pm_guest_mac meta) → bytes_ok (pm_guest_ipv6 meta) → bytes_ok (pm_gateway_ipv6 meta) →
  bytes_ok p → (66 <= length p)%nat → length p1 = 404%nat → bytes_ok p1 → w_pkt w = p1 →
  d6_req_ok q → bytes_ok (duid q) → t = D6_ADVERTISE ∨ t = D6_REPLY →
  let m := w_maps w in
  let cnt := d6_dns_count (m_dhcp_config m) in
  let ul := d6_boot_len (pxe_mode q) (m_dhcp_meta m !! ifindex) in
  let n := d6_opts_len q cnt ul in
  let r := mkD6Reply q t (slice p 63 3) cnt ul (F6_OPTS + n) (slice p 22 16) (slice p 6 6) in
  ∃ f, pbind (d6_emit ifindex meta r) (λ _,
         rewrite_pkt (d6_checksum (wrap16 (Z.of_nat (n + F6_OPTS - ETH_LEN - 40))))) w
       = Some (tt, at_pkt w f) ∧ dhcpv6_reply p t meta (d6_reply_options meta ifindex m q) f.
Proof.
  intros Hmeta Hs Hdb Bm Bg Bgw Bp Hlp Hl1 Bp1 Hw Hq Bd Ht m cnt ul n r.
  destruct (d6_opts_len_run meta ifindex m q Hs Hmeta Hq) as [En Hn]. fold cnt ul in En. fold n in En.
  set (area := d6_area (d6_reply_options meta ifindex m q)) in *.
  assert (d6_shaped r) as Hr.
  { destruct Hq. split; cbn [req_eth_src req_src6 tid d6_req r]; [apply length_slice; lia..|done|done]. }
  pose proof (ps_gw6 _ Hmeta) as Hg. unfold pbind.
  pose proof (d6_emit_run ifindex meta r w Hr Hmeta Hs) as Ee. fold m in Ee.
  change (d6_req r) with q in Ee. fold area in Ee. rewrite Hw in Ee. cbv zeta in Ee.
  rewrite Ee; [|done|lia|done|done|cbn [real_reply_len r]; rewrite En; done]. rewrite En.
  fold (d6_frame p1 meta r area).
  assert (real_reply_len r = (66 + length area)%nat) as Er by (cbn [real_reply_len r]; rewrite En; done).
  destruct (d6_frame_spec p1 meta r area Hl1 Hr Hg) as (f & Ef & Hf & S1 & S2 & S3 & S4 & S5);
    [|lia|done|].
  { apply d6_frame_bytes; try done; try (by apply bytes_ok_slice); [|by apply d6_reply_bytes|rewrite Er; lia].
    unfold is_byte. cbn [reply_type r]. destruct Ht as [-> | ->]; done. }
  exists f. split.
  { unfold rewrite_pkt, at_pkt. cbn [w_pkt w_maps w_tick w_redirect]. by rewrite Ef. }
  destruct (d6_head_slices meta r (12 + length area) Hr Hg ltac:(lia) ltac:(lia)) as (S0 & _ & _).
  split; fold area; cbn zeta; try done; [by rewrite S2, S0|lia].
Qed.

(** ** Lemmas: every frame *)

Lemma adjust_tail_length d p p' :
  adjust_tail d p = Some p' → Z.of_nat (length p') = Z.of_nat (length p) + d.
Proof.
  intros E. destruct (decide (0 <= d)).
  - apply adjust_tail_grow in E as (t & Ht & _ & ->); [|done]. rewrite length_app. lia.
  - apply adjust_tail_shrink in E as [H ->]; [|lia]. rewrite length_take. lia.
Qed.

Lemma d6_csum_words_total n j len cs p :
  (54 + j + 2 * n <= length p)%nat → ∃ s, d6_csum_words n j len cs p = Some s.
Proof.
  revert j cs. induction n as [|n IH]; intros j cs Hl; cbn [d6_csum_words]; [by eexists|].
  destruct (j <? len)%nat; [|apply IH; lia].
  unfold ETH_LEN. rewrite rd16_w16 by lia. apply IH. lia.
Qed.

Lemma d6_checksum_total u p : ∃ q, d6_checksum u p = Some q ∧ length q = length p.
Proof.
  unfold d6_checksum. destruct (short p D6_MAX_TOTAL) eqn:E; [by exists p|].
  apply short_false in E. change D6_MAX_TOTAL with 404%nat in E.
  unfold ETH_LEN. destruct (nd_addr_words_total 8 0 0 p 14) as (s & ->); [cbn [Nat.add Nat.mul]; lia|].
  cbn [mbind option_bind]. change (D6_UDP_CKSUM_LEN / 2)%nat with 175%nat.
  edestruct (d6_csum_words_total 175 0) as (s' & ->); [cbn [Nat.add Nat.mul]; lia|].
  cbn [mbind option_bind]. rewrite wr16_splice by (cbn [Nat.add]; lia).
  eexists. split; [done|]. by rewrite length_splice by (cbn [length to_be16 Nat.add]; lia).
Qed.

Lemma d6_detect_total p : ∃ r, d6_detect p = Some r ∧ (∀ t, r = Some t → (66 <= length p)%nat).
Proof.
  unfold d6_detect, MIN_D6_LEN, ETH_LEN, F6_DHCP. cbn [Nat.add].
  mem_go; eexists; (split; [reflexivity|]); intros t' Ht; done || lia.
Qed.

(** The reply program on a frame of the reply's size. *)
Lemma ends_d6_answer ifindex meta t tid src eth n :
  port_shaped meta → length tid = 3%nat → length src = 16%nat → length eth = 6%nat →
  ends 404 (d6_respond ifindex meta t n tid src eth).
Proof.
  intros Hmeta Ht Hsrc Heth w [Hs Hl]. unfold d6_respond.
  destruct (d6_parse_ok_run 12 0 n d6_init w Hl) as (q & Eq & Hq); [by split; [|left]|].
  unfold pbind at 1. rewrite Eq. do 2 (unfold pbind at 1, gets at 1). cbv zeta.
  destruct (d6_opts_len_run meta ifindex (w_maps w) q Hs Hmeta Hq) as [En Hn].
  set (rt := if _ && _ then _ else _).
  match goal with |- context [d6_emit ifindex meta ?r] => set (rep := r) end.
  unfold pbind at 1. rewrite (d6_emit_run ifindex meta rep w); try done; [|split; try done; apply Hq| |].
  - edestruct d6_checksum_total as (p' & E & _). unfold pbind at 1, rewrite_pkt. rewrite E.
    eexists _, _. split; [reflexivity|done].
  - cbn [d6_req rep]. lia.
  - cbn [real_reply_len rep d6_req]. by rewrite En.
Qed.

Lemma ends_try_dhcpv6_reply n ifindex meta :
  port_shaped meta → ends n (try_dhcpv6_reply ifindex meta).
Proof.
  intros Hmeta. unfold try_dhcpv6_reply. eapply ends_bind.
  { apply (runs_access n _ (λ r, ∀ t, r = Some t → (66 <= n)%nat)). intros p <-.
    apply d6_detect_total. }
  cbv beta. intros [t|] Ht; [|apply ends_ret]. pose proof (Ht t eq_refl) as Hn.
  unfold F6_DHCP, ETH_LEN. cbn [Nat.add].
  eapply ends_bind; [apply runs_rdn; lia|]. cbv beta. intros tid Htid.
  eapply ends_bind; [apply runs_rdn; lia|]. cbv beta. intros src Hsrc.
  eapply ends_bind; [apply runs_rdn; lia|]. cbv beta. intros eth Heth.
  eapply ends_bind; [apply runs_get_pkt|]. cbv beta zeta. intros p0 Hp0.
  intros w [Hs Hl]. unfold pbind at 1, xdp_adjust_tail at 1, resize at 1.
  destruct (adjust_tail _ (w_pkt w)) as [p1|] eqn:E; [|by exists None, w].
  cbn [negb]. apply ends_d6_answer; [done..|]. split; [done|]. cbn [w_pkt].
  apply adjust_tail_length in E. change (Z.of_nat D6_MAX_TOTAL) with 404 in E. lia.
Qed.
End helpers.

(** ** Properties *)


(** A SOLICIT without options. *)
Definition demo_solicit : list Z :=
  replicate 6 0x33 ++ demo_mac ++ [0x86; 0xdd]
  ++ [0x60; 0; 0; 0; 0; 12; 17; 64] ++ replicate 16 2 ++ replicate 16 0xff
  ++ [2; 34; 2; 35; 0; 12; 0; 0] ++ [1; 7; 8; 9].

