(* ===== verification/Egress.v ===== *)
(** * Egress

    The forwarding decision for a frame a guest sent (xdp-dp-ebpf/src/egress.rs):
    conntrack and firewall, VIP and network NAT, tracking, metering, routing;
    and the execution of its verdict. *)
From S2P Require Import Prelude Bytes Types Kernel Parse Firewall Conntrack Meter.
From S2P Require Import Vip Nat Encap ArpNd Lb Nat64 Safe.

(** ** Definitions *)

Inductive EgressVerdict :=
  | Pass
  | Drop
  | ToTap (tap_ifindex : Z) (guest_mac : list Z)   (** [Local] *)
  | Encap (e : EncapParams).

(** The firewall denies the packet and enforcement is on. *)
Definition fw_blocks (ip_off : nat) (ifindex dir : Z) : prog world bool :=
  pbind (gets (λ m, m)) (λ m,
  pbind (access (λ p, fw_eval_dir m p ip_off ifindex dir)) (λ act,
  pret ((act =? FW_ACTION_DROP) && fw_enforcing m))).

(** The tap of a next hop that is an interface of this node. *)
Definition local_tap (underlay : gmap (list Z) UnderlayValue) (nexthop : list Z)
    : option UnderlayValue :=
  match underlay !! nexthop with
  | Some u => if uv_tap_ifindex u =? 0 then None else Some u
  | None => None
  end.

Section programs.
Context `{Kernel}.
Local Open Scope dp_scope.

(** Conntrack and the egress firewall; [true] when the packet is dropped. *)
Definition egress_conntrack (ifindex vni : Z) : prog world bool :=
  let* key := access (λ p, ct_key p ETH_LEN vni) in
  match key with
  | None => pret false
  | Some key =>
      let* ct := gets m_conntrack in
      match ct !! key with
      | Some e =>
          pwhen (has_flag (ce_flags e) CT_REWRITE_SRC) (rewrite_pkt (λ p, ct_apply p ETH_LEN e)) ;;;
          ct_touch ETH_LEN key e ;;;
          pret false
      | None => fw_blocks ETH_LEN ifindex FW_DIR_EGRESS
      end
  end.

(** "Track every flow": a default entry for a flow that has none. *)
Definition track_flow (ip_off : nat) (vni : Z) : prog world unit :=
  let* key := access (λ p, ct_key p ip_off vni) in
  match key with
  | None => pret tt
  | Some key =>
      let* ct := gets m_conntrack in
      match ct !! key with
      | None => ct_ensure_default ip_off key
      | Some _ => pret tt
      end
  end.

(** The verdict for a routed packet: a local tap, or encapsulation. *)
Definition route_verdict (meta : PortMeta) (route : RouteValue) (inner_proto : Z)
    : prog world EgressVerdict :=
  let* underlay := gets m_underlay in
  match local_tap underlay (rv_nexthop_ipv6 route) with
  | Some u => pret (ToTap (uv_tap_ifindex u) (uv_guest_mac u))
  | None =>
      let* p := get_pkt in
      let inner_len := wrap16 (Z.of_nat (length p - ETH_LEN)) in
      let* local := gets m_local in
      match local with
      | None => pret Pass
      | Some local =>
          pret (Encap (mkEncapParams (lo_gateway_mac local) (lo_uplink_mac local)
            (lo_uplink_ifindex local) (pm_underlay_ipv6 meta) (rv_nexthop_ipv6 route)
            inner_len inner_proto))
      end
  end.

(** The part of [forward_decision_v4] after the route lookup. *)
Definition egress_routed (ifindex : Z) (meta : PortMeta) (route : RouteValue)
    : prog world EgressVerdict :=
  let is_ext := negb (rv_is_external route =? 0) in
  nat_snat_egress ETH_LEN (pm_vni meta) is_ext ;;;
  track_flow ETH_LEN (pm_vni meta) ;;;
  let* p := get_pkt in
  let* pass := meter_pass ifindex (Z.of_nat (length p)) is_ext in
  if negb pass then pret Drop else
  route_verdict meta route IPPROTO_IPIP.

(** [forward_decision_v4]; the caller has checked the IPv4 header is there. *)
Definition forward_decision_v4 (ifindex : Z) (meta : PortMeta) : prog world EgressVerdict :=
  let* blocked := egress_conntrack ifindex (pm_vni meta) in
  if blocked then pret Drop else
  snat_egress ETH_LEN (pm_vni meta) ;;;
  dnat_egress ETH_LEN (pm_vni meta) ;;;
  let* dst := access (λ p, rdn p (ETH_LEN + 16) 4) in
  let* routes := gets m_routes in
  match lpm_lookup routes 64 (to_be32 (pm_vni meta) ++ dst) with
  | None => pret Pass
  | Some route => egress_routed ifindex meta route
  end.

(** [forward_decision_v6]. *)
Definition forward_decision_v6 (meta : PortMeta) : prog world EgressVerdict :=
  let* dst := access (λ p, rdn p (ETH_LEN + 24) 16) in
  let* routes := gets m_routes6 in
  match lpm_lookup routes 160 (to_be32 (pm_vni meta) ++ dst) with
  | None => pret Pass
  | Some route => route_verdict meta route IPPROTO_IPV6
  end.

(** The verdict's execution in [try_guest_tx] and [v6_guest_tx]; IPv6 delivery
    also writes the ethertype. *)
Definition local_eth (is_v6 : bool) (guest_mac p : list Z) : mem (list Z) :=
  p ← wrn p 0 guest_mac;
  p ← wrn p 6 GW_MAC;
  if is_v6 then wr16 p 12 ETH_P_IPV6 else Some p.
Definition run_verdict (is_v6 : bool) (v : EgressVerdict) : prog world (result Z) :=
  match v with
  | Pass => pret (Ok XDP_PASS)
  | Drop => pret (Ok XDP_DROP)
  | ToTap tap_ifindex guest_mac =>
      let* p := get_pkt in
      if short p ETH_LEN then pret (Ok XDP_PASS) else
      rewrite_pkt (local_eth is_v6 guest_mac) ;;;
      let* act := bpf_redirect tap_ifindex in
      pret (Ok act)
  | Encap e => encap_out e
  end.

(** [v6_guest_tx] (xdp-dp-ebpf/src/v6.rs). *)
Definition v6_guest_tx (meta : PortMeta) : prog world (result Z) :=
  let? handled := nat64_egress (pm_vni meta) (pm_guest_ipv4 meta) (pm_underlay_ipv6 meta) in
  match handled with
  | Some act => pret (Ok act)
  | None =>
      let* p := get_pkt in
      if short p (ETH_LEN + IPV6_LEN) then pret (Ok XDP_PASS) else
      let* v := forward_decision_v6 meta in
      run_verdict true v
  end.

(** The IPv4 path of [try_guest_tx]. *)
Definition v4_guest_tx (ifindex : Z) (meta : PortMeta) : prog world (result Z) :=
  let* p := get_pkt in
  if short p (ETH_LEN + 20) then pret (Ok XDP_PASS) else
  let* ethertype := access (λ p, rd16 p 12) in
  if negb (ethertype =? ETH_P_IP) then pret (Ok XDP_PASS) else
  let* v := forward_decision_v4 ifindex meta in
  run_verdict false v.

(** [is_dhcp_request]. *)
Definition is_dhcp_request (p : list Z) : mem bool :=
  if short p (ETH_LEN + 44) then Some false else
  ethertype ← rd16 p 12;
  if ethertype =? ETH_P_IP then
    proto ← rd8 p (ETH_LEN + 9);
    if negb (proto =? IPPROTO_UDP) then Some false else
    dport ← rd16 p (ETH_LEN + 22);
    Some (dport =? 67)
  else if ethertype =? ETH_P_IPV6 then
    nh ← rd8 p (ETH_LEN + 6);
    if negb (nh =? IPPROTO_UDP) then Some false else
    dport ← rd16 p (ETH_LEN + 40 + 2);
    Some (dport =? 547)
  else Some false.
End programs.

(** ** Lemmas: no fault *)

Section safety.
Context `{KL : KernelLaws}.

Lemma runs_egress_conntrack n ifindex vni : runs n (egress_conntrack ifindex vni) anything.
Proof.
  unfold egress_conntrack. eapply runs_bind; [apply runs_ct_key|]. intros [key|] _; [|by apply runs_ret].
  eapply runs_bind.
  { apply (runs_gets n _ (λ ct, ∀ k e, ct !! k = Some e → length (ce_xlate_ip e) = 4%nat)).
    intros m Hm. apply Hm. }
  cbv beta. intros ct Hct. destruct (ct !! key) as [e|] eqn:Ee.
  - apply Hct in Ee. eapply runs_bind; [by apply runs_pwhen, runs_ct_apply|]. intros _ _.
    eapply runs_bind; [by apply runs_ct_touch|]. intros _ _. by apply runs_ret.
  - unfold fw_blocks. intros w Hw. unfold pbind, gets, access, pret.
    destruct (fw_eval_dir_total (w_maps w) (w_pkt w) ETH_LEN ifindex FW_DIR_EGRESS) as [a ->].
    by eexists _, _.
Qed.

Lemma runs_track_flow n off vni : runs n (track_flow off vni) anything.
Proof.
  unfold track_flow. eapply runs_bind; [apply runs_ct_key|]. intros [key|] _; [|by apply runs_ret].
  eapply runs_bind; [by apply (runs_gets n _ anything)|]. intros ct _.
  destruct (ct !! key); [by apply runs_ret|]. apply runs_ct_ensure_default.
Qed.

(** A verdict whose addresses have their types' lengths. *)
Definition verdict_shaped (v : EgressVerdict) : Prop :=
  match v with
  | Pass | Drop => True
  | ToTap _ mac => length mac = 6%nat
  | Encap e => length (ep_gateway_mac e) = 6%nat ∧ length (ep_uplink_mac e) = 6%nat ∧
      length (ep_src_underlay e) = 16%nat ∧ length (ep_nexthop_ipv6 e) = 16%nat
  end.

Lemma local_tap_inv underlay nh u :
  local_tap underlay nh = Some u → underlay !! nh = Some u ∧ uv_tap_ifindex u ≠ 0.
Proof. unfold local_tap. destruct (underlay !! nh); [|done]. destruct (_ =? 0) eqn:E; [done|].
  intros [= <-]. zbool. done. Qed.

Lemma runs_route_verdict n meta route proto :
  port_shaped meta → length (rv_nexthop_ipv6 route) = 16%nat →
  runs n (route_verdict meta route proto) verdict_shaped.
Proof.
  intros Hm Hr w [Hs Hl]. unfold route_verdict, pbind, gets, get_pkt.
  destruct (local_tap _ _) as [u|] eqn:Eu.
  { apply local_tap_inv in Eu as [Eu _]. eexists _, _. split; [reflexivity|]. split; [done|].
    by eapply sh_underlay. }
  destruct (m_local (w_maps w)) as [l|] eqn:El; [|by eexists _, _].
  eexists _, _. split; [reflexivity|]. split; [done|].
  destruct (sh_local _ Hs _ El). repeat split; try done. by apply Hm.
Qed.

Lemma runs_forward_decision_v4 n ifindex meta :
  (34 <= n)%nat → port_shaped meta → runs n (forward_decision_v4 ifindex meta) verdict_shaped.
Proof.
  intros Hn Hm. unfold forward_decision_v4.
  eapply runs_bind; [apply runs_egress_conntrack|]. intros b _. destruct b; [by apply runs_ret|].
  eapply runs_bind; [apply runs_vip|]. intros _ _. eapply runs_bind; [apply runs_vip|]. intros _ _.
  eapply runs_bind.
  { apply (runs_access n _ anything). intros p Hp. rewrite rdn_slice by (unfold ETH_LEN; lia).
    by eexists. }
  intros dst _. eapply runs_bind.
  { apply (runs_gets n _ (λ r, ∀ k v, r !! k = Some v → length (rv_nexthop_ipv6 v) = 16%nat)).
    intros m Hs. apply Hs. }
  cbv beta. intros routes Hr. destruct (lpm_lookup _ _ _) as [route|] eqn:E; [|by apply runs_ret].
  apply lpm_lookup_stored in E as [k E]. apply Hr in E. unfold egress_routed.
  eapply runs_bind; [apply runs_nat_snat_egress|]. intros _ _.
  eapply runs_bind; [apply runs_track_flow|]. intros _ _.
  eapply runs_bind; [apply runs_get_pkt|]. intros p _.
  eapply runs_bind; [apply runs_meter_pass|]. intros pass _. destruct pass; [|by apply runs_ret].
  by apply runs_route_verdict.
Qed.

Lemma runs_forward_decision_v6 n meta :
  (54 <= n)%nat → port_shaped meta → runs n (forward_decision_v6 meta) verdict_shaped.
Proof.
  intros Hn Hm. unfold forward_decision_v6. eapply runs_bind.
  { apply (runs_access n _ anything). intros p Hp. rewrite rdn_slice by (unfold ETH_LEN; lia).
    by eexists. }
  intros dst _. eapply runs_bind.
  { apply (runs_gets n _ (λ r, ∀ k v, r !! k = Some v → length (rv_nexthop_ipv6 v) = 16%nat)).
    intros m Hs. apply Hs. }
  cbv beta. intros routes Hr. destruct (lpm_lookup _ _ _) as [route|] eqn:E; [|by apply runs_ret].
  apply lpm_lookup_stored in E as [k E]. apply Hr in E. by apply runs_route_verdict.
Qed.

Lemma local_eth_total b mac p :
  (14 <= length p)%nat → length mac = 6%nat →
  ∃ q, local_eth b mac p = Some q ∧ length q = length p.
Proof.
  intros Hp Hm. unfold local_eth. destruct b; repeat write_step; eexists; (split; [reflexivity|lia]).
Qed.

Lemma ends_run_verdict n b v : (14 <= n)%nat → verdict_shaped v → ends n (run_verdict b v).
Proof.
  intros Hn Hv. destruct v as [| |tap mac|e]; cbn [run_verdict].
  - apply ends_ret.
  - apply ends_ret.
  - eapply ends_bind; [apply runs_get_pkt|]. cbv beta. intros p Hp.
    destruct (short p _); [apply ends_ret|].
    eapply ends_bind.
    { apply runs_rewrite. intros q Hq. destruct (local_eth_total b mac q) as (q' & E & Hq'); [lia|done|].
      exists q'. split; [done|lia]. }
    intros _ _. eapply ends_bind; [apply runs_redirect|]. intros a _. apply ends_ret.
  - destruct Hv as (H1 & H2 & H3 & H4). by apply ends_encap_out.
Qed.

Lemma ends_rbind {A B} n (m : prog world (result A)) (k : A → prog world (result B)) :
  ends n m → (∀ a n', ends n' (k a)) → ends n (rbind m k).
Proof. intros Hm Hk. apply ends_seq; [done|]. intros [a|] n'; [apply Hk|apply ends_ret]. Qed.

Lemma ends_v6_guest_tx n meta : port_shaped meta → ends n (v6_guest_tx meta).
Proof.
  intros Hm. unfold v6_guest_tx. apply ends_rbind.
  { apply ends_nat64_egress; apply Hm. }
  intros [act|] n'; [apply ends_ret|]. eapply ends_bind; [apply runs_get_pkt|]. cbv beta. intros p Hp.
  destruct (short p _) eqn:El; [apply ends_ret|]. apply short_false in El. unfold ETH_LEN, IPV6_LEN in El.
  eapply ends_bind; [apply runs_forward_decision_v6; [lia|done]|].
  intros v Hv. apply ends_run_verdict; [lia|done].
Qed.

Lemma ends_v4_guest_tx n ifindex meta : port_shaped meta → ends n (v4_guest_tx ifindex meta).
Proof.
  intros Hm. unfold v4_guest_tx. eapply ends_bind; [apply runs_get_pkt|]. cbv beta. intros p Hp.
  destruct (short p _) eqn:El; [apply ends_ret|]. apply short_false in El. unfold ETH_LEN in El.
  eapply ends_bind.
  { apply (runs_access n _ anything). intros q Hq. rewrite rd16_at by lia. by eexists. }
  intros et _. destruct (negb _); [apply ends_ret|].
  eapply ends_bind; [apply runs_forward_decision_v4; [lia|done]|].
  intros v Hv. apply ends_run_verdict; [lia|done].
Qed.
End safety.

(** ** The firewall on guest traffic *)

(** No conntrack entry for the frame's flow. *)
Definition new_flow (m : Maps) (p : list Z) (ip_off : nat) (vni : Z) : Prop :=
  ∃ key, ct_key p ip_off vni = Some (Some key) ∧ m_conntrack m !! key = None.

(** The frame opens a flow that the rule list of its direction denies, and
    enforcement is on. *)
Definition denied (m : Maps) (p : list Z) (ip_off : nat) (vni dir : Z)
    (rules : list FwRule) : Prop :=
  new_flow m p ip_off vni ∧ fw_enforcing m = true ∧
  ∃ sel, fw_selectors p ip_off = Some sel ∧ fw_decide rules dir sel = FW_ACTION_DROP.

Section enforcement.
Context `{KL : KernelLaws}.

Lemma egress_conntrack_blocks ifindex vni rules w b w' :
  fw_synced (w_maps w) ifindex rules → (34 <= length (w_pkt w))%nat →
  egress_conntrack ifindex vni w = Some (b, w') →
  (b = true ↔ denied (w_maps w) (w_pkt w) ETH_LEN vni FW_DIR_EGRESS rules) ∧ (b = true → w' = w).
Proof.
  intros Hs Hl. unfold egress_conntrack. intros E.
  apply pbind_inv in E as (key & w1 & E1 & E). unfold access in E1.
  destruct (ct_key (w_pkt w) ETH_LEN vni) as [ok|] eqn:Ek; [|done]. injection E1 as <- <-.
  destruct ok as [key|]; [|injection E as <- <-; split; [|done]; split; [done|];
    intros [(k & Ek' & _) _]; congruence].
  apply pbind_inv in E as (ct & w1 & E1 & E). injection E1 as <- <-.
  destruct (m_conntrack (w_maps w) !! key) as [e|] eqn:Ee.
  - apply pbind_inv in E as (? & ? & _ & E). apply pbind_inv in E as (? & ? & _ & E).
    injection E as <- _. split; [|done]. split; [done|]. intros [(k & Ek' & Hn) _]. congruence.
  - unfold fw_blocks, pbind, gets, access, pret in E.
    destruct (fw_eval_decide (w_maps w) (w_pkt w) ETH_LEN ifindex FW_DIR_EGRESS rules)
      as (sel & Esel & Ed); [done|by right|done|].
    rewrite Ed in E. injection E as <- <-. split; [|done]. rewrite andb_true_iff, Z.eqb_eq. split.
    + intros [Hd He]. split; [by exists key|]. eauto.
    + intros (_ & He & s & Es & Hd). split; [congruence|done].
Qed.

Lemma route_verdict_no_drop meta route proto w v w' :
  route_verdict meta route proto w = Some (v, w') → v ≠ Drop.
Proof.
  unfold route_verdict, pbind, gets, get_pkt, pret. destruct (local_tap _ _); [congruence|].
  destruct (m_local _); congruence.
Qed.

(** A [Drop] of the routed part is the meter's. *)
Lemma egress_routed_drop n ifindex meta route w w' :
  fits n w → egress_routed ifindex meta route w = Some (Drop, w') →
  ∃ ext w1, length (w_pkt w1) = n ∧ meter_pass ifindex (Z.of_nat n) ext w1 = Some (false, w').
Proof.
  intros Hw E. unfold egress_routed in E.
  apply pbind_inv in E as (? & w1 & E1 & E). eapply runs_inv in E1 as [H1 _];
    [|apply runs_nat_snat_egress|exact Hw].
  apply pbind_inv in E as (? & w2 & E2 & E). eapply runs_inv in E2 as [H2 _];
    [|apply runs_track_flow|exact H1].
  apply pbind_inv in E as (p & w3 & E3 & E). injection E3 as <- <-.
  apply pbind_inv in E as (pass & w4 & E4 & E). destruct pass.
  - by apply route_verdict_no_drop in E.
  - injection E as <-. destruct H2 as [_ Hl]. rewrite Hl in E4. eauto.
Qed.
End enforcement.

(** ** Properties *)

(** C5.  The egress firewall on guest traffic: with maps that hold an ordered
    rule list for the port, an IPv4 frame that opens a flow the list denies
    is dropped while enforcement is on, before anything is rewritten or
    recorded; and a frame is dropped for no other reason than that or its
    port's rate limit. *)
Theorem egress_firewall_enforced `{KL : KernelLaws} (ifindex : Z) (meta : PortMeta)
    (rules : list FwRule) (w : world) :
  fw_synced (w_maps w) ifindex rules → shaped (w_maps w) → port_shaped meta →
  (ETH_LEN + 20 <= length (w_pkt w))%nat →
  let is_denied := denied (w_maps w) (w_pkt w) ETH_LEN (pm_vni meta) FW_DIR_EGRESS rules in
  ∃ v w', forward_decision_v4 ifindex meta w = Some (v, w') ∧
    (is_denied → v = Drop ∧ w' = w) ∧
    (v = Drop → is_denied ∨ ∃ ext w1, length (w_pkt w1) = length (w_pkt w) ∧
       meter_pass ifindex (Z.of_nat (length (w_pkt w))) ext w1 = Some (false, w')).
Proof.
  unfold ETH_LEN at 1. cbn [Nat.add]. intros Hs Hsh Hm Hl.
  assert (fits (length (w_pkt w)) w) as Hw by done.
  destruct (runs_forward_decision_v4 _ ifindex meta Hl Hm w Hw) as (v & w' & E & _).
  exists v, w'. split; [done|]. unfold forward_decision_v4 in E.
  apply pbind_inv in E as (b & w1 & E1 & E).
  pose proof E1 as E1'. eapply egress_conntrack_blocks in E1' as [Hb Hw1]; [|done|done].
  eapply runs_inv in E1 as [H1 _]; [|apply runs_egress_conntrack|exact Hw]. destruct b.
  { injection E as <- <-. rewrite <- Hb. auto. }
  split; [rewrite <- Hb; done|]. intros ->. right.
  apply pbind_inv in E as (? & w2 & E2 & E). eapply runs_inv in E2 as [H2 _]; [|apply runs_vip|exact H1].
  apply pbind_inv in E as (? & w3 & E3 & E). eapply runs_inv in E3 as [H3 _]; [|apply runs_vip|exact H2].
  apply pbind_inv in E as (dst & w4 & E4 & E). unfold access in E4.
  destruct (rdn _ _ _) as [a|]; [|done]. injection E4 as <- <-.
  apply pbind_inv in E as (routes & w5 & E5 & E). injection E5 as <- <-.
  destruct (lpm_lookup _ _ _) as [route|]; [|done]. by eapply egress_routed_drop.
Qed.

Definition demo_meta : PortMeta :=
  mkPortMeta 100 [10; 0; 0; 5] [169; 254; 0; 1] [2; 0; 0; 0; 0; 9] (replicate 16 1)
    (replicate 16 0xfe) (replicate 16 0xfd).
Definition demo_fw_world : world := mkWorld (demo_packet 81) demo_maps 0 None.

Lemma demo_meta_shaped : port_shaped demo_meta.
Proof. by split. Qed.
Lemma demo_maps_shaped : shaped demo_maps.
Proof. split; cbn; first [by apply empty_all|done]. Qed.

Lemma egress_firewall_enforced_witness :
  forward_decision_v4 7 demo_meta demo_fw_world = Some (Drop, demo_fw_world).
Proof.
  destruct (egress_firewall_enforced 7 demo_meta [demo_rule 1 1 22; demo_rule 0 1 80] demo_fw_world)
    as (v & w' & E & Hd & _).
  - split; [vm_compute; reflexivity|vm_compute; reflexivity|].
    repeat (apply List.Forall_cons || apply List.Forall_nil); auto.
  - apply demo_maps_shaped.
  - apply demo_meta_shaped.
  - vm_compute. lia.
  - rewrite E. destruct Hd as [-> ->]; [|reflexivity].
    split; [|split; [done|]].
    + eexists. split; [vm_compute; reflexivity|done].
    + eexists. split; vm_compute; reflexivity.
Defined.
