(* ===== verification/Ingress.v ===== *)
(** * Ingress

    A frame from the uplink (xdp-dp-ebpf/src/ingress.rs and the receive half
    of src/v6.rs): load balancing, reverse NAT and NAT64, neighbor NAT, echo
    replies for service addresses, the ingress firewall, tracking,
    decapsulation and delivery to the guest's tap. *)
From S2P Require Import Prelude Bytes Csum Types Kernel Parse Rewrite Firewall Conntrack Meter.
From S2P Require Import Vip Nat Encap ArpNd Lb Nat64 Safe Egress.

(** ** Definitions *)

Definition ICMP_ECHO_REPLY : Z := 0.
Definition ICMPV6_ECHO_REPLY : Z := 129.

(** RFC 1624 update of an ICMP checksum whose type word changes. *)
Definition echo_csum (old_cksum old_word new_word : Z) : Z :=
  csum_fold (not16 old_cksum + not16 old_word + new_word).

(** Flip the type of the ICMP message at [l4], its checksum updated. *)
Definition echo_flip (l4 : nat) (old_word new_word new_type : Z) (p : list Z) : mem (list Z) :=
  old_cksum ← rd16 p (l4 + 2);
  p ← wr8 p l4 new_type;
  wr16 p (l4 + 2) (echo_csum old_cksum old_word new_word).

(** Exchange the two [n]-byte addresses at [src] and [dst]. *)
Definition swap_addrs (src dst n : nat) (p : list Z) : mem (list Z) :=
  a ← rdn p src n;
  b ← rdn p dst n;
  p ← wrn p src b;
  wrn p dst a.

(** Send the encapsulated frame back: outer Ethernet and addresses. *)
Definition outer_reply (local : Local) (outer_src outer_dst p : list Z) : mem (list Z) :=
  p ← wrn p 0 (lo_gateway_mac local);
  p ← wrn p 6 (lo_uplink_mac local);
  p ← wrn p (ETH_LEN + 8) outer_dst;
  wrn p (ETH_LEN + 24) outer_src.

(** The inner packet is an option-less IPv4 echo request. *)
Definition is_echo_request (p : list Z) : mem bool :=
  let ip_off := (ETH_LEN + IPV6_LEN)%nat in
  if short p (ip_off + 28) then Some false else
  b ← rd8 p ip_off;
  if negb (Z.land b 0x0f =? 5) then Some false else
  proto ← rd8 p (ip_off + 9);
  if negb (proto =? IPPROTO_ICMP) then Some false else
  t ← rd8 p (ip_off + 20);
  Some (t =? ICMP_ECHO_REQUEST).

(** The inner packet is an IPv6 echo request. *)
Definition is_echo_request6 (p : list Z) : mem bool :=
  let inner_ip6_off := (ETH_LEN + IPV6_LEN)%nat in
  let icmpv6_off := (inner_ip6_off + IPV6_LEN)%nat in
  if short p (icmpv6_off + 8) then Some false else
  nh ← rd8 p (inner_ip6_off + 6);
  if negb (nh =? IPPROTO_ICMPV6) then Some false else
  t ← rd8 p icmpv6_off;
  Some (t =? ICMPV6_ECHO_REQUEST).

(** The key under which a NAT return packet is tracked: the peer is zeroed. *)
Definition nat_return_key (nat_ips : gmap VipKey Z) (vni : Z) (key : CtKey) : CtKey :=
  match nat_ips !! mkVipKey vni (ck_dst_ip key) with
  | Some _ => mkCtKey (ck_vni key) [0; 0; 0; 0] (ck_dst_ip key) 0 (ck_dst_port key) (ck_proto key)
  | None => key
  end.

Section programs.
Context `{Kernel}.
Local Open Scope dp_scope.

(** [try_icmp_echo_reply]. *)
Definition try_icmp_echo_reply (vni tap_ifindex : Z) (outer_src outer_dst : list Z)
    : prog world (option Z) :=
  let ip_off := (ETH_LEN + IPV6_LEN)%nat in
  let l4 := (ip_off + 20)%nat in
  let* req := access is_echo_request in
  if negb req then pret None else
  let* inner_dst := access (λ p, rdn p (ip_off + 16) 4) in
  let* nat_ips := gets m_nat_ips in
  let owned := match nat_ips !! mkVipKey vni inner_dst with Some _ => true | None => false end in
  if negb (tap_ifindex =? 0) && negb owned then pret None else
  rewrite_pkt (echo_flip l4 0x0800 0 ICMP_ECHO_REPLY) ;;;
  rewrite_pkt (swap_addrs (ip_off + 12) (ip_off + 16) 4) ;;;
  let* local := gets m_local in
  match local with
  | None => pret None
  | Some local =>
      rewrite_pkt (outer_reply local outer_src outer_dst) ;;;
      let* act := bpf_redirect (lo_uplink_ifindex local) in
      pret (Some act)
  end.

(** [try_icmpv6_echo_reply]. *)
Definition try_icmpv6_echo_reply (outer_src outer_dst : list Z) : prog world (option Z) :=
  let inner_ip6_off := (ETH_LEN + IPV6_LEN)%nat in
  let icmpv6_off := (inner_ip6_off + IPV6_LEN)%nat in
  let* req := access is_echo_request6 in
  if negb req then pret None else
  rewrite_pkt (echo_flip icmpv6_off 0x8000 0x8100 ICMPV6_ECHO_REPLY) ;;;
  rewrite_pkt (swap_addrs (inner_ip6_off + 8) (inner_ip6_off + 24) 16) ;;;
  let* local := gets m_local in
  match local with
  | None => pret None
  | Some local =>
      rewrite_pkt (outer_reply local outer_src outer_dst) ;;;
      let* act := bpf_redirect (lo_uplink_ifindex local) in
      pret (Some act)
  end.

(** Reforward through this node's uplink; [Err] without a LOCAL entry. *)
Definition reforward_to (outer_dst backend : list Z) : prog world (result Z) :=
  let* local := gets m_local in
  match local with
  | None => pret Err
  | Some local => let* act := reforward local outer_dst backend in pret (Ok act)
  end.

(** Reverse NAT: the guest address, original port and NAT64 flag when a
    [CT_REWRITE_DST] entry matched and was applied. *)
Definition uplink_nat (vni : Z) : prog world (option (list Z * Z * bool)) :=
  let off := (ETH_LEN + IPV6_LEN)%nat in
  let* key := access (λ p, ct_key p off vni) in
  match key with
  | None => pret None
  | Some key =>
      let* nat_ips := gets m_nat_ips in
      let key := nat_return_key nat_ips vni key in
      let* ct := gets m_conntrack in
      match ct !! key with
      | Some e =>
          if has_flag (ce_flags e) CT_REWRITE_DST then
            let is_nat64 := has_flag (ce_flags e) CT_F_NAT64 in
            let orig_sport := ce_xlate_port e in
            rewrite_pkt (λ p, ct_apply p off e) ;;;
            let* e := ct_touch off key e in
            pret (Some (ce_xlate_ip e, orig_sport, is_nat64))
          else pret None
      | None => pret None
      end
  end.

(** The node that owns the packet's NAT address and port, if it is another. *)
Definition uplink_neighbor (vni : Z) : prog world (option (list Z)) :=
  let off := (ETH_LEN + IPV6_LEN)%nat in
  let* p := get_pkt in
  if short p (off + 20) then pret None else
  let* inner_dst := access (λ p, rdn p (off + 16) 4) in
  let* ports := access (λ p, l4_ports p off) in
  match ports with
  | None => pret None
  | Some (_, _, dport) => gets (λ m, neighbor_nat_lookup m vni inner_dst dport)
  end.

(** The ingress firewall on new flows; [true] when the packet is dropped. *)
Definition uplink_firewall (vni tap_ifindex : Z) : prog world bool :=
  let off := (ETH_LEN + IPV6_LEN)%nat in
  let* key := access (λ p, ct_key p off vni) in
  match key with
  | None => pret false
  | Some key =>
      let* ct := gets m_conntrack in
      match ct !! key with
      | Some _ => pret false
      | None => fw_blocks off tap_ifindex FW_DIR_INGRESS
      end
  end.

(** Refresh the flow's entry, or create the default ones. *)
Definition uplink_track (vni : Z) : prog world unit :=
  let off := (ETH_LEN + IPV6_LEN)%nat in
  let* key := access (λ p, ct_key p off vni) in
  match key with
  | None => pret tt
  | Some key =>
      let* ct := gets m_conntrack in
      match ct !! key with
      | Some e => ct_touch off key e ;;; pret tt
      | None => ct_ensure_default off key
      end
  end.

(** The end of the pipeline: firewall, tracking, decapsulation, VIP
    translation and redirect; [plain] for a packet that neither the load
    balancer nor reverse NAT took. *)
Definition uplink_deliver (vni tap_ifindex : Z) (guest_mac : list Z) (plain : bool)
    : prog world (result Z) :=
  let* blocked := uplink_firewall vni tap_ifindex in
  if blocked then pret (Ok XDP_DROP) else
  pwhen plain (uplink_track vni) ;;;
  let? _ := decap guest_mac ETH_P_IP in
  pwhen plain (dnat_ingress ETH_LEN vni) ;;;
  let* act := bpf_redirect tap_ifindex in
  pret (Ok act).

(** A packet no load balancer took, addressed to interface [u]. *)
Definition uplink_plain (u : UnderlayValue) (outer_dst : list Z) : prog world (result Z) :=
  let vni := uv_vni u in
  let tap_ifindex := uv_tap_ifindex u in
  let* nat_guest := uplink_nat vni in
  match nat_guest with
  | Some (_, orig_sport, true) =>
      let? r := nat64_ingress tap_ifindex (uv_guest_mac u) orig_sport in
      pret (Ok (default XDP_PASS r))
  | Some (_, _, false) => uplink_deliver vni tap_ifindex (uv_guest_mac u) false
  | None =>
      let* owner := uplink_neighbor vni in
      match owner with
      | Some owner_ul => reforward_to outer_dst owner_ul
      | None =>
          let* outer_src := access (λ p, rdn p (ETH_LEN + 8) 16) in
          let* handled := try_icmp_echo_reply vni tap_ifindex outer_src outer_dst in
          match handled with
          | Some act => pret (Ok act)
          | None => uplink_deliver vni tap_ifindex (uv_guest_mac u) true
          end
      end
  end.

(** An inner IPv4 packet for interface [u]. *)
Definition v4_uplink_rx (u : UnderlayValue) (outer_dst : list Z) : prog world (result Z) :=
  let vni := uv_vni u in
  let off := (ETH_LEN + IPV6_LEN)%nat in
  let* m := gets (λ m, m) in
  let* lb_ul := access (λ p, lb_select_forward m p off vni) in
  match lb_ul with
  | Some bul =>
      match m_underlay m !! bul with
      | Some bu => uplink_deliver vni (uv_tap_ifindex bu) (uv_guest_mac bu) false
      | None => reforward_to outer_dst bul
      end
  | None =>
      let* err := access (λ p, lb_select_forward_icmp_error m p off vni) in
      match err with
      | Some bul => reforward_to outer_dst bul
      | None => uplink_plain u outer_dst
      end
  end.

(** Decapsulate an IPv6 packet and redirect it to a tap. *)
Definition v6_deliver (u : UnderlayValue) : prog world (result Z) :=
  let? _ := decap (uv_guest_mac u) ETH_P_IPV6 in
  let* act := bpf_redirect (uv_tap_ifindex u) in
  pret (Ok act).

(** [v6_uplink_rx]. *)
Definition v6_uplink_rx : prog world (result Z) :=
  let* p := get_pkt in
  if short p (ETH_LEN + IPV6_LEN + 40) then pret (Ok XDP_PASS) else
  let* outer_dst := access (λ p, rdn p (ETH_LEN + 24) 16) in
  let* outer_src := access (λ p, rdn p (ETH_LEN + 8) 16) in
  let* m := gets (λ m, m) in
  match m_underlay m !! outer_dst with
  | None => pret (Ok XDP_PASS)
  | Some u =>
      let* lb_backend := access (λ p, lb_select_forward_v6 m p (ETH_LEN + IPV6_LEN) (uv_vni u)) in
      match lb_backend with
      | Some bul =>
          match m_underlay m !! bul with
          | Some bu => v6_deliver bu
          | None => reforward_to outer_dst bul
          end
      | None =>
          if uv_tap_ifindex u =? 0 then
            let* handled := try_icmpv6_echo_reply outer_src outer_dst in
            pret (Ok (default XDP_DROP handled))
          else v6_deliver u
      end
  end.

(** [try_uplink_rx]. *)
Definition try_uplink_rx : prog world (result Z) :=
  let* p := get_pkt in
  if short p (ETH_LEN + IPV6_LEN + 20) then pret (Ok XDP_PASS) else
  let* ethertype := access (λ p, rd16 p 12) in
  if negb (ethertype =? ETH_P_IPV6) then pret (Ok XDP_PASS) else
  let* nexthdr := access (λ p, rd8 p (ETH_LEN + 6)) in
  if nexthdr =? IPPROTO_IPV6 then v6_uplink_rx else
  if negb (nexthdr =? IPPROTO_IPIP) then pret (Ok XDP_PASS) else
  let* outer_dst := access (λ p, rdn p (ETH_LEN + 24) 16) in
  let* underlay := gets m_underlay in
  match underlay !! outer_dst with
  | None => pret (Ok XDP_PASS)
  | Some u => v4_uplink_rx u outer_dst
  end.
End programs.

(** ** Lemmas: no fault *)

Lemma lb_pick_stored m k h b : lb_pick m k h = Some b → ∃ mk, m_maglev m !! mk = Some b.
Proof.
  unfold lb_pick. destruct (m_lb m !! k) as [lb|]; [|done]. cbn [mbind option_bind].
  destruct (_ =? 0); [done|eauto].
Qed.

Lemma neighbor_scan_stored fuel i count slots vni dst dport b :
  neighbor_scan fuel i count slots vni dst dport = Some b →
  ∃ j e, slots !! j = Some e ∧ ne_underlay e = b.
Proof.
  revert i. induction fuel as [|fuel IH]; intros i; [done|]. cbn [neighbor_scan].
  destruct (count <=? i); [done|]. destruct (slots !! i) as [e|] eqn:E; [|apply IH].
  destruct (_ && _ && _ && _ && _); [intros [= <-]; eauto|apply IH].
Qed.

Lemma is_echo_request_total p : ∃ b, is_echo_request p = Some b ∧ (b = true → (82 <= length p)%nat).
Proof.
  unfold is_echo_request, ETH_LEN, IPV6_LEN. cbn [Nat.add].
  destruct (short p 82) eqn:E; [by eexists|]. apply short_false in E.
  mem_go; by eexists.
Qed.

Lemma is_echo_request6_total p :
  ∃ b, is_echo_request6 p = Some b ∧ (b = true → (102 <= length p)%nat).
Proof.
  unfold is_echo_request6, ETH_LEN, IPV6_LEN. cbn [Nat.add].
  destruct (short p 102) eqn:E; [by eexists|]. apply short_false in E.
  mem_go; by eexists.
Qed.

Lemma echo_flip_total l4 a b t p : (l4 + 4 <= length p)%nat →
  ∃ q, echo_flip l4 a b t p = Some q ∧ length q = length p.
Proof.
  intros Hl. unfold echo_flip. rewrite rd16_at by lia. cbn [mbind option_bind].
  repeat write_step. eexists. split; [reflexivity|lia].
Qed.

Lemma swap_addrs_total s d n p : (s + n <= length p)%nat → (d + n <= length p)%nat →
  ∃ q, swap_addrs s d n p = Some q ∧ length q = length p.
Proof.
  intros Hs Hd. unfold swap_addrs. rewrite !rdn_slice by lia. cbn [mbind option_bind].
  destruct (wrn_len p s (slice p d n)) as (q & -> & Hq); [rewrite length_slice; lia|].
  cbn [mbind option_bind].
  destruct (wrn_len q d (slice p s n)) as (q' & -> & Hq'); [rewrite length_slice; lia|].
  eexists. split; [reflexivity|lia].
Qed.

Lemma outer_reply_total l src dst p :
  local_shaped l → length src = 16%nat → length dst = 16%nat → (54 <= length p)%nat →
  ∃ q, outer_reply l src dst p = Some q ∧ length q = length p.
Proof.
  intros [Hu Hg] Hs Hd Hl. unfold outer_reply, ETH_LEN. cbn [Nat.add].
  repeat write_step. eexists. split; [reflexivity|lia].
Qed.

Section safety.
Context `{KL : KernelLaws}.

(** The common end of the two echo repliers. *)
Lemma runs_echo_tail n (f g : list Z → mem (list Z)) src dst :
  (54 <= n)%nat → length src = 16%nat → length dst = 16%nat →
  (∀ p, length p = n → ∃ q, f p = Some q ∧ length q = n) →
  (∀ p, length p = n → ∃ q, g p = Some q ∧ length q = n) →
  runs n (rewrite_pkt f ;;; rewrite_pkt g ;;;
    let* local := gets m_local in
    match local with
    | None => pret None
    | Some local =>
        rewrite_pkt (outer_reply local src dst) ;;;
        let* act := bpf_redirect (lo_uplink_ifindex local) in
        pret (Some act)
    end)%dp anything.
Proof.
  intros Hn Hs Hd Hf Hg. eapply runs_bind; [by apply runs_rewrite|]. intros _ _.
  eapply runs_bind; [by apply runs_rewrite|]. intros _ _.
  eapply runs_bind; [apply runs_local|]. cbv beta. intros [l|] Hl; [|by apply runs_ret].
  eapply runs_bind.
  { apply runs_rewrite. intros p Hp. destruct (outer_reply_total l src dst p) as (q & E & Hq);
      [by apply Hl|done|done|lia|]. exists q. split; [done|lia]. }
  intros _ _. eapply runs_bind; [apply runs_redirect|]. intros a _. by apply runs_ret.
Qed.

Lemma runs_try_icmp_echo_reply n vni tap src dst :
  length src = 16%nat → length dst = 16%nat →
  runs n (try_icmp_echo_reply vni tap src dst) anything.
Proof.
  intros Hs Hd. unfold try_icmp_echo_reply, ETH_LEN, IPV6_LEN. cbn [Nat.add]. eapply runs_bind.
  { apply (runs_access n _ (λ b, b = true → (82 <= n)%nat)). intros p Hp.
    destruct (is_echo_request_total p) as (b & E & Hb). exists b. rewrite <- Hp. done. }
  cbv beta. intros [|] Hb; [|by apply runs_ret]. specialize (Hb eq_refl). cbn [negb].
  eapply runs_bind; [apply runs_rdn; lia|]. intros idst _.
  eapply runs_bind; [by apply (runs_gets n _ anything)|]. intros ips _.
  destruct (_ && _); [by apply runs_ret|]. apply runs_echo_tail; [lia|done|done|..]; intros p Hp.
  - destruct (echo_flip_total 74 0x0800 0 ICMP_ECHO_REPLY p) as (q & E & Hq); [lia|].
    exists q. split; [done|lia].
  - destruct (swap_addrs_total 66 70 4 p) as (q & E & Hq); [lia..|]. exists q. split; [done|lia].
Qed.

Lemma runs_try_icmpv6_echo_reply n src dst :
  length src = 16%nat → length dst = 16%nat →
  runs n (try_icmpv6_echo_reply src dst) anything.
Proof.
  intros Hs Hd. unfold try_icmpv6_echo_reply, ETH_LEN, IPV6_LEN. cbn [Nat.add]. eapply runs_bind.
  { apply (runs_access n _ (λ b, b = true → (102 <= n)%nat)). intros p Hp.
    destruct (is_echo_request6_total p) as (b & E & Hb). exists b. rewrite <- Hp. done. }
  cbv beta. intros [|] Hb; [|by apply runs_ret]. specialize (Hb eq_refl). cbn [negb].
  apply runs_echo_tail; [lia|done|done|..]; intros p Hp.
  - destruct (echo_flip_total 94 0x8000 0x8100 ICMPV6_ECHO_REPLY p) as (q & E & Hq); [lia|].
    exists q. split; [done|lia].
  - destruct (swap_addrs_total 62 78 16 p) as (q & E & Hq); [lia..|]. exists q. split; [done|lia].
Qed.

Lemma ends_reforward_to n dst b :
  length dst = 16%nat → length b = 16%nat → ends n (reforward_to dst b).
Proof.
  intros Hd Hb. unfold reforward_to. eapply ends_bind; [apply runs_local|]. cbv beta.
  intros [l|] Hl; [|apply ends_ret].
  eapply ends_bind; [apply runs_reforward; auto|]. intros a _. apply ends_ret.
Qed.

Lemma runs_conntrack n : runs n (gets m_conntrack) (λ ct, ∀ k e, ct !! k = Some e → length (ce_xlate_ip e) = 4%nat).
Proof. apply runs_gets. intros m Hm. apply Hm. Qed.

Lemma runs_uplink_nat n vni : runs n (uplink_nat vni) anything.
Proof.
  unfold uplink_nat. eapply runs_bind; [apply runs_ct_key|]. intros [key|] _; [|by apply runs_ret].
  eapply runs_bind; [by apply (runs_gets n _ anything)|]. intros ips _. cbv zeta.
  eapply runs_bind; [apply runs_conntrack|]. cbv beta. intros ct Hct.
  destruct (ct !! _) as [e|] eqn:E; [|by apply runs_ret]. apply Hct in E.
  destruct (has_flag _ _); [|by apply runs_ret].
  eapply runs_bind; [by apply runs_ct_apply|]. intros _ _.
  eapply runs_bind; [by apply runs_ct_touch|]. intros e' _. by apply runs_ret.
Qed.

Lemma runs_uplink_neighbor n vni :
  runs n (uplink_neighbor vni) (λ r, ∀ b, r = Some b → length b = 16%nat).
Proof.
  unfold uplink_neighbor, ETH_LEN, IPV6_LEN. cbn [Nat.add].
  eapply runs_bind; [apply runs_get_pkt|]. cbv beta. intros p Hp.
  destruct (short p _) eqn:E; [by apply runs_ret|]. apply short_false in E.
  eapply runs_bind; [apply runs_rdn; lia|]. intros dst _.
  eapply runs_bind.
  { apply (runs_access n _ anything). intros q _. destruct (l4_ports_total q 54) as [r ->]. by eexists. }
  intros [[[? ?] dport]|] _; [|by apply runs_ret]. apply runs_gets. intros m Hm b Hb.
  unfold neighbor_nat_lookup in Hb. destruct (m_neighbor_nat_count m); [|done].
  apply neighbor_scan_stored in Hb as (j & e & Ee & <-). by eapply sh_neighbor.
Qed.

Lemma runs_uplink_firewall n vni tap : runs n (uplink_firewall vni tap) anything.
Proof.
  unfold uplink_firewall. eapply runs_bind; [apply runs_ct_key|]. intros [key|] _; [|by apply runs_ret].
  eapply runs_bind; [apply runs_conntrack|]. intros ct _. destruct (ct !! key); [by apply runs_ret|].
  unfold fw_blocks. intros w Hw. unfold pbind, gets, access, pret.
  destruct (fw_eval_dir_total (w_maps w) (w_pkt w) (ETH_LEN + IPV6_LEN) tap FW_DIR_INGRESS)
    as [a ->]. by eexists _, _.
Qed.

Lemma runs_uplink_track n vni : runs n (uplink_track vni) anything.
Proof.
  unfold uplink_track. eapply runs_bind; [apply runs_ct_key|]. intros [key|] _; [|by apply runs_ret].
  eapply runs_bind; [apply runs_conntrack|]. cbv beta. intros ct Hct.
  destruct (ct !! key) as [e|] eqn:E.
  - apply Hct in E. eapply runs_bind; [by apply runs_ct_touch|]. intros e' _. by apply runs_ret.
  - apply runs_ct_ensure_default.
Qed.

Lemma spec_decap n mac et : length mac = 6%nat →
  ends n (decap mac et).
Proof.
  intros Hm. unfold decap. apply ends_adjust_head; [done|apply ends_ret|]. intros n' Hn'. cbn [negb].
  eapply ends_bind; [apply runs_get_pkt|]. cbv beta. intros p Hp.
  destruct (short p _) eqn:E; [apply ends_ret|]. apply short_false in E. unfold ETH_LEN in E.
  eapply ends_bind; [apply runs_write_guest_eth; [lia|done]|]. intros _ _. apply ends_ret.
Qed.

Lemma ends_uplink_deliver n vni tap mac plain :
  length mac = 6%nat → ends n (uplink_deliver vni tap mac plain).
Proof.
  intros Hm. unfold uplink_deliver. eapply ends_bind; [apply runs_uplink_firewall|]. intros b _.
  destruct b; [apply ends_ret|].
  eapply ends_bind; [apply runs_pwhen, runs_uplink_track|]. intros _ _.
  apply ends_rbind; [by apply spec_decap|]. intros _ n'.
  eapply ends_bind; [apply runs_pwhen, runs_vip|]. intros _ _.
  eapply ends_bind; [apply runs_redirect|]. intros a _. apply ends_ret.
Qed.

Lemma ends_uplink_plain n u dst :
  (54 <= n)%nat → length (uv_guest_mac u) = 6%nat → length dst = 16%nat →
  ends n (uplink_plain u dst).
Proof.
  intros Hn Hm Hd. unfold uplink_plain. eapply ends_bind; [apply runs_uplink_nat|].
  intros [[[g s] [|]]|] _.
  - apply ends_rbind; [by apply ends_nat64_ingress|]. intros r n'. apply ends_ret.
  - by apply ends_uplink_deliver.
  - eapply ends_bind; [apply runs_uplink_neighbor|]. cbv beta. intros [b|] Hb.
    { apply ends_reforward_to; auto. }
    eapply ends_bind; [apply runs_rdn; unfold ETH_LEN; lia|]. cbv beta. intros src Hs.
    eapply ends_bind; [by apply runs_try_icmp_echo_reply|]. intros [act|] _; [apply ends_ret|].
    by apply ends_uplink_deliver.
Qed.

Lemma runs_lb n (f : Maps → list Z → mem (option (list Z))) m :
  shaped m → (∀ p, ∃ r, f m p = Some r ∧ ∀ b, r = Some b → ∃ k, m_maglev m !! k = Some b) →
  runs n (access (f m)) (λ r, ∀ b, r = Some b → length b = 16%nat).
Proof.
  intros Hm Hf. apply runs_access. intros p _. destruct (Hf p) as (r & E & Hr). exists r.
  split; [done|]. intros b Hb. destruct (Hr b Hb) as [k Ek]. by eapply sh_maglev.
Qed.

Lemma lb_select_forward_stored m off vni p : ∃ r, lb_select_forward m p off vni = Some r ∧
  ∀ b, r = Some b → ∃ k, m_maglev m !! k = Some b.
Proof.
  unfold lb_select_forward. mem_go; [by eexists|].
  destruct (l4_ports_total p off) as [r ->]. cbn [mbind option_bind].
  destruct r as [[[proto sp] dp]|]; eexists; (split; [reflexivity|]); [|done].
  intros b Hb. by eapply lb_pick_stored.
Qed.
Lemma lb_icmp_error_stored m off vni p : ∃ r, lb_select_forward_icmp_error m p off vni = Some r ∧
  ∀ b, r = Some b → ∃ k, m_maglev m !! k = Some b.
Proof.
  unfold lb_select_forward_icmp_error. mem_go; try (by eexists);
    (eexists; split; [reflexivity|]; intros b Hb; by eapply lb_pick_stored).
Qed.
Lemma lb_select_forward_v6_stored m off vni p : ∃ r, lb_select_forward_v6 m p off vni = Some r ∧
  ∀ b, r = Some b → ∃ k, m_maglev m !! k = Some b.
Proof.
  unfold lb_select_forward_v6. mem_go; try (by eexists);
    (eexists; split; [reflexivity|]; intros b Hb; by eapply lb_pick_stored).
Qed.

Lemma ends_v4_uplink_rx n u dst :
  (54 <= n)%nat → length (uv_guest_mac u) = 6%nat → length dst = 16%nat →
  ends n (v4_uplink_rx u dst).
Proof.
  intros Hn Hm Hd. unfold v4_uplink_rx. eapply ends_bind; [by apply (runs_gets n _ shaped)|].
  intros m Hs. eapply ends_bind.
  { apply (runs_lb n (λ m p, lb_select_forward m p _ _) m Hs), lb_select_forward_stored. }
  cbv beta. intros [b|] Hb.
  { destruct (m_underlay m !! b) as [bu|] eqn:E.
    - apply ends_uplink_deliver. by eapply sh_underlay.
    - apply ends_reforward_to; auto. }
  eapply ends_bind.
  { apply (runs_lb n (λ m p, lb_select_forward_icmp_error m p _ _) m Hs), lb_icmp_error_stored. }
  cbv beta. intros [b|] Hb'; [apply ends_reforward_to; auto|]. by apply ends_uplink_plain.
Qed.

Lemma ends_v6_deliver n u : length (uv_guest_mac u) = 6%nat → ends n (v6_deliver u).
Proof.
  intros Hm. unfold v6_deliver. apply ends_rbind; [by apply spec_decap|]. intros _ n'.
  eapply ends_bind; [apply runs_redirect|]. intros a _. apply ends_ret.
Qed.

Lemma ends_v6_uplink_rx n : ends n v6_uplink_rx.
Proof.
  unfold v6_uplink_rx. eapply ends_bind; [apply runs_get_pkt|]. cbv beta. intros p Hp.
  destruct (short p _) eqn:E; [apply ends_ret|]. apply short_false in E.
  unfold ETH_LEN, IPV6_LEN in *. cbn [Nat.add] in *.
  eapply ends_bind; [apply runs_rdn; lia|]. cbv beta. intros dst Hd.
  eapply ends_bind; [apply runs_rdn; lia|]. cbv beta. intros src Hsrc.
  eapply ends_bind; [by apply (runs_gets n _ shaped)|]. intros m Hs.
  destruct (m_underlay m !! dst) as [u|] eqn:Eu; [|apply ends_ret].
  eapply ends_bind.
  { apply (runs_lb n (λ m p, lb_select_forward_v6 m p _ _) m Hs), lb_select_forward_v6_stored. }
  cbv beta. intros [b|] Hb.
  { destruct (m_underlay m !! b) as [bu|] eqn:Eb.
    - apply ends_v6_deliver. by eapply sh_underlay.
    - apply ends_reforward_to; auto. }
  destruct (_ =? 0).
  - eapply ends_bind; [by apply runs_try_icmpv6_echo_reply|]. intros a _. apply ends_ret.
  - apply ends_v6_deliver. by eapply sh_underlay.
Qed.

Lemma ends_try_uplink_rx n : ends n try_uplink_rx.
Proof.
  unfold try_uplink_rx. eapply ends_bind; [apply runs_get_pkt|]. cbv beta. intros p Hp.
  destruct (short p _) eqn:E; [apply ends_ret|]. apply short_false in E.
  unfold ETH_LEN, IPV6_LEN in *. cbn [Nat.add] in *.
  eapply ends_bind; [apply runs_rd16; lia|]. intros et _. destruct (negb _); [apply ends_ret|].
  eapply ends_bind; [apply runs_rd8; lia|]. intros nh _. destruct (_ =? _); [apply ends_v6_uplink_rx|].
  destruct (negb _); [apply ends_ret|].
  eapply ends_bind; [apply runs_rdn; lia|]. cbv beta. intros dst Hd.
  eapply ends_bind.
  { apply (runs_gets n _ (λ un, ∀ k v, un !! k = Some v → length (uv_guest_mac v) = 6%nat)).
    intros m Hs. apply Hs. }
  cbv beta. intros un Hun. destruct (un !! dst) as [u|] eqn:Eu; [|apply ends_ret].
  apply ends_v4_uplink_rx; eauto. lia.
Qed.
End safety.

(** ** Lemmas: echo replies *)

(** A byte write is a write of the word it is in. *)
Lemma splice_byte_word p i v :
  bytes_ok p → is_byte v → (i + 2 <= length p)%nat →
  splice p i [v] = splice p i (to_be16 (be16 v (at_ p (i + 1)))).
Proof.
  intros Hb Hv Hl. pose proof (at_byte p (i + 1) Hb) as H1.
  assert (is_u16 (be16 v (at_ p (i + 1)))) as Hu by (by apply be16_range).
  assert (to_be16 (be16 v (at_ p (i + 1))) = [v; at_ p (i + 1)]) as E.
  { unfold to_be16. rewrite be16_add by done. unfold is_byte in *.
    rewrite wrap8_mod, Z.shiftr_div_pow2 by lia. change (2 ^ 8) with 256. f_equal; [|f_equal].
    - rewrite Z.add_comm, Z.mul_comm, Z.div_add, Z.div_small by lia. lia.
    - rewrite Z.add_comm, Z.mul_comm, Z.mod_add, Z.mod_small by lia. done. }
  rewrite E. apply at_ext; [rewrite !length_splice; cbn; lia|].
  rewrite length_splice by (cbn; lia). intros j Hj.
  destruct (decide (j = i)) as [->|]; [rewrite !at_splice_in by (cbn; lia); by rewrite Nat.sub_diag|].
  rewrite at_splice_out by (cbn; lia). destruct (decide (j = i + 1)%nat) as [->|].
  - rewrite at_splice_in by (cbn; lia). by replace (i + 1 - i)%nat with 1%nat by lia.
  - by rewrite at_splice_out by (cbn; lia).
Qed.

Lemma echo_csum_mod c a b :
  is_u16 c → is_u16 a → is_u16 b → ∃ k, echo_csum c a b + b = c + a + 65535 * k.
Proof.
  intros Hc Ha Hb. unfold echo_csum. rewrite !not16_sub by done. unfold is_u16 in *.
  rewrite csum_fold_residue by lia. destruct (residue_repr (65535 - c + (65535 - a) + b)) as (k & _ & E);
    [lia|]. exists (k - 1). lia.
Qed.

(** The exchange of two equally long fields. *)
Definition swapped (p : list Z) (s d n : nat) : list Z :=
  splice (splice p s (slice p d n)) d (slice p s n).

Section swap.
Context (p : list Z) (s d n : nat).
Context (Hs : (s + n <= d)%nat) (Hd : (d + n <= length p)%nat).

Lemma swap_addrs_run : swap_addrs s d n p = Some (swapped p s d n).
Proof using Hs Hd.
  unfold swap_addrs, swapped. rewrite !rdn_slice by lia. cbn [mbind option_bind].
  rewrite wrn_splice by (rewrite length_slice; lia). cbn [mbind option_bind].
  rewrite wrn_splice; [done|]. rewrite length_splice; rewrite ?length_slice; lia.
Qed.

Lemma swapped_length : length (swapped p s d n) = length p.
Proof using Hs Hd. unfold swapped. rewrite !length_splice; rewrite ?length_slice; rewrite ?length_splice;
  rewrite ?length_slice; lia. Qed.

Lemma swapped_bytes : bytes_ok p → bytes_ok (swapped p s d n).
Proof using. intros Hb. by repeat (apply bytes_ok_splice || apply bytes_ok_slice). Qed.

Lemma swapped_slices : slice (swapped p s d n) s n = slice p d n ∧ slice (swapped p s d n) d n = slice p s n.
Proof using Hs Hd.
  assert (length (slice p s n) = n ∧ length (slice p d n) = n) as [Ha Hb] by (rewrite !length_slice; lia).
  assert (length (splice p s (slice p d n)) = length p) as Hl by (apply length_splice; lia).
  unfold swapped. split.
  - rewrite slice_splice_out by lia.
    apply slice_splice_at; lia.
  - apply slice_splice_at; lia.
Qed.

Lemma swapped_at i : (i < s ∨ s + n <= i < d ∨ d + n <= i)%nat → at_ (swapped p s d n) i = at_ p i.
Proof using Hs Hd.
  intros Hi. unfold swapped. rewrite !at_splice_out; rewrite ?length_splice; rewrite ?length_slice; lia || done.
Qed.

Lemma swapped_wsl_out i m :
  (i + m <= length p)%nat → (i + m <= s ∨ d + n <= i)%nat →
  wsl (swapped p s d n) i m = wsl p i m.
Proof using Hs Hd.
  intros Hm Hi. unfold swapped.
  rewrite !wsl_splice_out; rewrite ?length_splice; rewrite ?length_slice; lia || done.
Qed.

Lemma swapped_wsl i m :
  (i + m <= length p)%nat → (i <= s)%nat → (d + n <= i + m)%nat → Nat.Even (s - i) →
  Nat.Even (d - i) → Nat.Even n → wsl (swapped p s d n) i m = wsl p i m.
Proof using Hs Hd.
  intros Hm Hi1 Hi2 E1 E2 E3. unfold swapped.
  assert (length (slice p s n) = n ∧ length (slice p d n) = n) as [Ha Hb] by (rewrite !length_slice; lia).
  assert (length (splice p s (slice p d n)) = length p) as Hl by (apply length_splice; lia).
  rewrite wsl_splice_in by (rewrite ?Ha; done || lia).
  rewrite wsl_splice_in by (rewrite ?Hb; done || lia). rewrite Ha, Hb.
  rewrite wsl_splice_out by (rewrite ?Hb; lia). unfold wsl. lia.
Qed.
End swap.

(** The message after [echo_flip]. *)
Section flip.
Context (p : list Z) (l4 n : nat) (t0 t : Z).
Context (Hb : bytes_ok p) (Hn : (4 <= n)%nat) (Hl : (l4 + n <= length p)%nat).
Context (H0 : at_ p l4 = t0) (Ht : is_byte t).

Definition flipped : list Z :=
  splice (splice p l4 [t]) (l4 + 2) (to_be16 (echo_csum (w16 p (l4 + 2)) (256 * t0) (256 * t))).

Lemma flip_csum_range c a b : is_u16 (echo_csum c a b).
Proof using. apply csum_fold_range. Qed.

Lemma echo_flip_run : echo_flip l4 (256 * t0) (256 * t) t p = Some flipped.
Proof using Hn Hl.
  unfold echo_flip, flipped. rewrite rd16_w16 by lia. cbn [mbind option_bind].
  rewrite wr8_splice by lia. cbn [mbind option_bind].
  by rewrite wr16_splice by (rewrite length_splice; cbn; lia).
Qed.

Lemma flipped_length : length flipped = length p.
Proof using Hn Hl. unfold flipped. rewrite !length_splice; rewrite ?length_splice; cbn; lia. Qed.

Lemma flipped_bytes : bytes_ok flipped.
Proof using Hb Ht.
  unfold flipped. apply bytes_ok_splice; [apply bytes_ok_splice; [done|]|].
  - by repeat constructor; apply Ht.
  - apply to_be16_bytes, flip_csum_range.
Qed.

Lemma flipped_at i : (i < l4 ∨ i = l4 + 1 ∨ l4 + 4 <= i)%nat → at_ flipped i = at_ p i.
Proof using Hn Hl.
  intros Hi. unfold flipped. rewrite !at_splice_out; rewrite ?length_splice; cbn; lia || done.
Qed.

Lemma flipped_type : at_ flipped l4 = t.
Proof using Hn Hl.
  unfold flipped. rewrite at_splice_out by (rewrite ?length_splice; cbn; lia).
  rewrite at_splice_in by (cbn; lia). by rewrite Nat.sub_diag.
Qed.

Lemma flipped_slice_out i m :
  (i + m <= length p)%nat → (i + m <= l4 ∨ l4 + 4 <= i)%nat → slice flipped i m = slice p i m.
Proof using Hn Hl.
  intros Hm Hi. unfold flipped.
  rewrite !slice_splice_out; rewrite ?length_splice; cbn; lia || done.
Qed.

Lemma flipped_wsl : ∃ k, wsl flipped l4 n = wsl p l4 n + 65535 * k.
Proof using Hb Hn Hl H0 Ht.
  pose proof (at_byte p l4 Hb) as Hb0. rewrite H0 in Hb0.
  pose proof (at_byte p (l4 + 1) Hb) as Hb1. unfold flipped.
  rewrite splice_byte_word by (done || lia).
  rewrite wsl_set16_2; try (apply be16_range || apply flip_csum_range); try done; try lia;
    [|exists 0%nat; lia|exists 1%nat; lia].
  destruct (echo_csum_mod (w16 p (l4 + 2)) (256 * t0) (256 * t)) as [k E];
    [by apply w16_range|unfold is_byte, is_u16 in *; lia..|].
  exists k. unfold w16 at 1. rewrite H0, !be16_add by done. lia.
Qed.
End flip.

Lemma outer_reply_run l src dst p :
  local_ok l → is_arr 16 src → is_arr 16 dst → (54 <= length p)%nat →
  ∃ q, outer_reply l src dst p = Some q ∧ length q = length p ∧ drop 54 q = drop 54 p ∧
    slice q 22 16 = dst ∧ slice q 38 16 = src.
Proof.
  intros Hlo Hs Hd Hl. change (outer_reply l src dst p) with (reforward_write l dst src p).
  rewrite reforward_write_run by done. destruct Hlo as [[Hu _] [Hg _]].
  destruct Hs as [Hs _], Hd as [Hd _].
  set (h := lo_gateway_mac l ++ lo_uplink_mac l ++ drop 12 p).
  assert (length h = length p) as Hh by (unfold h; rewrite !length_app, length_drop; lia).
  assert (length (splice h 22 dst) = length p) as Hh2 by (rewrite length_splice; lia).
  eexists. split; [reflexivity|]. rewrite length_splice by lia. split; [done|]. split; [|split].
  - rewrite !drop_splice by lia. unfold h. rewrite !drop_app_ge by lia. rewrite drop_drop.
    f_equal. lia.
  - rewrite slice_splice_out by lia. apply slice_splice_at; lia.
  - apply slice_splice_at; lia.
Qed.

(** Frames with the same bytes from 54 on. *)
Lemma drop_at k p q i : drop k p = drop k q → (k <= i)%nat → at_ p i = at_ q i.
Proof.
  intros E Hi. replace i with (k + (i - k))%nat by lia. by rewrite <- !at_drop, E.
Qed.
Lemma drop_slice k p q i n : drop k p = drop k q → (k <= i)%nat → slice p i n = slice q i n.
Proof.
  intros E Hi. replace i with (k + (i - k))%nat by lia. by rewrite <- !slice_drop, E.
Qed.

Section echo.
Context `{KL : KernelLaws}.

(** The run of the common end of the two repliers. *)
Lemma echo_tail_run (f g : list Z → mem (list Z)) src dst p1 p2 w act w' :
  is_arr 16 src → is_arr 16 dst → (∀ l, m_local (w_maps w) = Some l → local_ok l) →
  (54 <= length p2)%nat → f (w_pkt w) = Some p1 → g p1 = Some p2 →
  (rewrite_pkt f ;;; rewrite_pkt g ;;;
    let* local := gets m_local in
    match local with
    | None => pret None
    | Some local =>
        rewrite_pkt (outer_reply local src dst) ;;;
        let* act := bpf_redirect (lo_uplink_ifindex local) in
        pret (Some act)
    end)%dp w = Some (Some act, w') →
  ∃ l, m_local (w_maps w) = Some l ∧ w_redirect w' = Some (lo_uplink_ifindex l) ∧
    w_maps w' = w_maps w ∧ length (w_pkt w') = length p2 ∧ drop 54 (w_pkt w') = drop 54 p2 ∧
    slice (w_pkt w') 22 16 = dst ∧ slice (w_pkt w') 38 16 = src.
Proof.
  intros Hs Hd Hlo Hl Ef Eg. unfold pbind, rewrite_pkt, gets, bpf_redirect, pret. rewrite Ef.
  cbn [w_pkt w_maps]. rewrite Eg. cbn [w_pkt w_maps].
  destruct (m_local (w_maps w)) as [l|] eqn:El; [|done]. exists l. split; [done|].
  destruct (outer_reply_run l src dst p2) as (q & Eq & Hq & Hdrop & Hs1 & Hs2); [by apply Hlo|done..|].
  cbn [w_pkt] in *. rewrite Eq in *.
  match goal with H : Some _ = Some (Some act, w') |- _ => injection H as _ <- end.
  cbn. auto 10.
Qed.
End echo.

Lemma is_echo_request_inv p :
  is_echo_request p = Some true →
  (82 <= length p)%nat ∧ Z.land (at_ p 54) 0x0f = 5 ∧ at_ p 63 = IPPROTO_ICMP ∧ at_ p 74 = 8.
Proof.
  unfold is_echo_request, ETH_LEN, IPV6_LEN. cbn [Nat.add]. mem_go; intros [=]; zbool; auto.
Qed.

Lemma is_echo_request6_inv p :
  is_echo_request6 p = Some true →
  (102 <= length p)%nat ∧ at_ p 60 = IPPROTO_ICMPV6 ∧ at_ p 94 = 128.
Proof.
  unfold is_echo_request6, ETH_LEN, IPV6_LEN. cbn [Nat.add]. mem_go; intros [=]; zbool; auto.
Qed.

(** The frame that answers a valid echo request carries a valid reply. *)
Lemma echo_frame_valid p n q :
  bytes_ok p → packet_valid p 54 n → (8 <= n)%nat → (74 + n <= length p)%nat →
  Z.land (at_ p 54) 0x0f = 5 → at_ p 63 = IPPROTO_ICMP → at_ p 74 = 8 → 0 < wsl p 78 (n - 4) →
  length q = length p → drop 54 q = drop 54 (swapped (flipped p 74 8 0) 66 70 4) →
  packet_valid q 54 n ∧ at_ q 74 = 0 ∧ slice q 66 4 = slice p 70 4 ∧ slice q 70 4 = slice p 66 4 ∧
  drop 78 q = drop 78 p.
Proof.
  intros Hb [Hip Hl4] Hn Hl H5 H1 H8 Hpos Hlq E.
  assert (is_byte 0) as B0 by (unfold is_byte; lia).
  set (f := flipped p 74 8 0) in *.
  assert (length f = length p) as Hlf by (apply (flipped_length p 74 n); lia).
  assert (bytes_ok f) as Hbf by (by apply flipped_bytes).
  set (g := swapped f 66 70 4) in *.
  assert (length g = length p) as Hlg by (unfold g; rewrite swapped_length; lia).
  destruct (swapped_slices f 66 70 4) as [S1 S2]; [lia..|]. fold g in S1, S2.
  assert (∀ i m, (74 <= i)%nat → (i + m <= length p)%nat → wsl q i m = wsl f i m) as Hw.
  { intros i m Hi Hm. unfold wsl. rewrite (drop_slice 54 q g) by (done || lia).
    fold (wsl g i m). fold (wsl f i m). apply swapped_wsl_out; lia. }
  assert (∀ i, (74 <= i)%nat → at_ q i = at_ f i) as Ha.
  { intros i Hi. rewrite (drop_at 54 q g) by (done || lia). apply swapped_at; lia. }
  assert (at_ q 63 = 1) as Hq1.
  { rewrite (drop_at 54 q g) by (done || lia). unfold g. rewrite swapped_at by lia.
    unfold f. rewrite (flipped_at p 74 n) by lia. done. }
  split; [split; [|split; [|split]]|split; [|split; [|split]]].
  - unfold ip_sum, wsl. rewrite (drop_slice 54 q g) by (done || lia). fold (wsl g 54 20).
    unfold g. rewrite swapped_wsl; try lia; [|by exists 6%nat|by exists 8%nat|by exists 2%nat].
    unfold f, wsl. rewrite (flipped_slice_out p 74 n) by lia. done.
  - cbn [Nat.add]. lia.
  - cbn [Nat.add]. lia.
  - intros _. cbn [Nat.add] in *. unfold icmp_sum. rewrite Hw by lia.
    destruct (flipped_wsl p 74 n 8 0) as [k Ek]; [done|lia|done..|]. fold f in Ek.
    apply (csum_valid_congr _ (wsl p 74 n) k); [|done|by apply wsl_nonneg|by apply Hl4].
    assert (wsl f 74 n = wsl f 74 4 + wsl f 78 (n - 4)) as Es.
    { apply (wsl_cut f 74 4 n); [by exists 2%nat|lia..]. }
    rewrite Es. assert (wsl f 78 (n - 4) = wsl p 78 (n - 4)) as ->.
    { unfold wsl, f. by rewrite (flipped_slice_out p 74 n) by lia. }
    pose proof (wsl_nonneg f 74 4 Hbf). lia.
  - rewrite Ha by lia. unfold f. apply (flipped_type p 74 n); lia.
  - rewrite (drop_slice 54 q g) by (done || lia). rewrite S1. apply (flipped_slice_out p 74 n); lia.
  - rewrite (drop_slice 54 q g) by (done || lia). rewrite S2. apply (flipped_slice_out p 74 n); lia.
  - apply at_ext; [rewrite !length_drop; lia|]. intros i Hi. rewrite !at_drop, Ha by lia.
    apply (flipped_at p 74 n); lia.
Qed.

(** ICMPv6: the checksum covers the addresses, which change places. *)
Lemma echo6_frame_valid p n q :
  bytes_ok p → csum_valid (v6_sum p 54 n IPPROTO_ICMPV6) → (8 <= n)%nat →
  (94 + n <= length p)%nat → at_ p 60 = IPPROTO_ICMPV6 → at_ p 94 = 128 →
  length q = length p → drop 54 q = drop 54 (swapped (flipped p 94 128 129) 62 78 16) →
  csum_valid (v6_sum q 54 n IPPROTO_ICMPV6) ∧ at_ q 94 = 129 ∧
  slice q 62 16 = slice p 78 16 ∧ slice q 78 16 = slice p 62 16 ∧ drop 98 q = drop 98 p.
Proof.
  intros Hb Hv Hn Hl H60 H94 Hlq E.
  assert (is_byte 129) as B0 by (unfold is_byte; lia).
  set (f := flipped p 94 128 129) in *.
  assert (length f = length p) as Hlf by (apply (flipped_length p 94 n); lia).
  assert (bytes_ok f) as Hbf by (by apply flipped_bytes).
  set (g := swapped f 62 78 16) in *.
  assert (length g = length p) as Hlg by (unfold g; rewrite swapped_length; lia).
  destruct (swapped_slices f 62 78 16) as [S1 S2]; [lia..|]. fold g in S1, S2.
  assert (∀ i, (94 <= i)%nat → at_ q i = at_ f i) as Ha.
  { intros i Hi. rewrite (drop_at 54 q g) by (done || lia). apply swapped_at; lia. }
  split; [|split; [|split; [|split]]].
  - destruct (flipped_wsl p 94 n 128 129) as [k Ek]; [done|lia|done..|]. fold f in Ek.
    assert (v6_sum q 54 n IPPROTO_ICMPV6 = v6_sum g 54 n IPPROTO_ICMPV6) as Eq.
    { unfold v6_sum, wsl. cbn [Nat.add]. by rewrite !(drop_slice 54 q g) by (done || lia). }
    assert (v6_sum g 54 n IPPROTO_ICMPV6 = v6_sum p 54 n IPPROTO_ICMPV6 + 65535 * k) as Es.
    { unfold v6_sum, g. cbn [Nat.add]. rewrite (swapped_wsl_out f 62 78 16) with (i := 94%nat) by lia.
      rewrite Ek, swapped_wsl; try lia; [|by exists 0%nat|by exists 8%nat|by exists 8%nat].
      unfold f at 1, wsl at 1. rewrite (flipped_slice_out p 94 n) by lia. fold (wsl p 62 32). lia. }
    rewrite Eq. assert (∀ r, bytes_ok r → 0 < v6_sum r 54 n IPPROTO_ICMPV6) as Hpos.
    { intros r Hr. unfold v6_sum, IPPROTO_ICMPV6. pose proof (wsl_nonneg r (54 + 8) 32 Hr).
      pose proof (wsl_nonneg r (54 + 40) n Hr). lia. }
    apply (csum_valid_congr _ (v6_sum p 54 n IPPROTO_ICMPV6) k); [|done| |done].
    + by apply Hpos, swapped_bytes.
    + by apply Z.lt_le_incl, Hpos.
  - rewrite Ha by lia. unfold f. apply (flipped_type p 94 n); lia.
  - rewrite (drop_slice 54 q g) by (done || lia). rewrite S1. apply (flipped_slice_out p 94 n); lia.
  - rewrite (drop_slice 54 q g) by (done || lia). rewrite S2. apply (flipped_slice_out p 94 n); lia.
  - apply at_ext; [rewrite !length_drop; lia|]. intros i Hi. rewrite !at_drop, Ha by lia.
    apply (flipped_at p 94 n); lia.
Qed.

(** ** Properties: echo replies *)

(** C16.  An IPv4 echo request for a load-balanced or NAT address that the
    datapath answers itself: a request with valid checksums (and anything
    but zeros after its checksum) gets a reply with valid checksums, its
    addresses exchanged and its identifier and payload unchanged, sent back
    to the underlay address it came from. *)
Theorem icmp_echo_reply_valid `{KL : KernelLaws} (vni tap : Z) (src dst : list Z) (n : nat)
    (w w' : world) (act : Z) :
  let p := w_pkt w in
  bytes_ok p → packet_valid p 54 n → (8 <= n)%nat → (74 + n <= length p)%nat →
  0 < wsl p 78 (n - 4) → is_arr 16 src → is_arr 16 dst →
  (∀ l, m_local (w_maps w) = Some l → local_ok l) →
  try_icmp_echo_reply vni tap src dst w = Some (Some act, w') →
  let q := w_pkt w' in
  (tap = 0 ∨ is_Some (m_nat_ips (w_maps w) !! mkVipKey vni (slice p 70 4))) ∧
  packet_valid q 54 n ∧ at_ q 74 = ICMP_ECHO_REPLY ∧
  slice q 66 4 = slice p 70 4 ∧ slice q 70 4 = slice p 66 4 ∧ drop 78 q = drop 78 p ∧
  slice q 22 16 = dst ∧ slice q 38 16 = src ∧ w_maps w' = w_maps w ∧
  ∃ l, m_local (w_maps w) = Some l ∧ w_redirect w' = Some (lo_uplink_ifindex l).
Proof.
  intros p Hb Hv Hn Hl Hpos Hs Hd Hlo E. unfold try_icmp_echo_reply, ETH_LEN, IPV6_LEN in E.
  cbn [Nat.add] in E. unfold pbind at 1, access in E. fold p in E.
  destruct (is_echo_request p) as [[|]|] eqn:Er; cbn [negb] in E; [|done..].
  apply is_echo_request_inv in Er as (_ & H5 & H1 & H8).
  unfold pbind at 1 in E. fold p in E. rewrite rdn_slice in E by lia.
  unfold pbind at 1, gets at 1 in E.
  assert (tap = 0 ∨ is_Some (m_nat_ips (w_maps w) !! mkVipKey vni (slice p 70 4))) as Hown.
  { destruct (tap =? 0) eqn:Et; zbool; [by left|]. right.
    by destruct (m_nat_ips (w_maps w) !! _); [|discriminate E]. }
  split; [done|]. destruct (_ && _); [discriminate E|].
  pose proof (flipped_length p 74 n 8 0 ltac:(lia) Hl) as Hf.
  assert (length (swapped (flipped p 74 8 0) 66 70 4) = length p) as Hg
    by (rewrite swapped_length; lia).
  eapply (echo_tail_run _ _ src dst (flipped p 74 8 0) (swapped (flipped p 74 8 0) 66 70 4)) in E
    as (l & El & Hr & Hm & Hlen & Hdrop & O1 & O2); [|done|done|done|lia| |].
  - destruct (echo_frame_valid p n (w_pkt w')) as (V & T & A1 & A2 & D); try done; [congruence|].
    eauto 20.
  - apply (echo_flip_run p 74 n 8 0); lia.
  - apply swap_addrs_run; lia.
Qed.

(** C17.  The same for an IPv6 echo request to a load-balanced address. *)
Theorem icmpv6_echo_reply_valid `{KL : KernelLaws} (src dst : list Z) (n : nat)
    (w w' : world) (act : Z) :
  let p := w_pkt w in
  bytes_ok p → csum_valid (v6_sum p 54 n IPPROTO_ICMPV6) → (8 <= n)%nat →
  (94 + n <= length p)%nat → is_arr 16 src → is_arr 16 dst →
  (∀ l, m_local (w_maps w) = Some l → local_ok l) →
  try_icmpv6_echo_reply src dst w = Some (Some act, w') →
  let q := w_pkt w' in
  csum_valid (v6_sum q 54 n IPPROTO_ICMPV6) ∧ at_ q 94 = ICMPV6_ECHO_REPLY ∧
  slice q 62 16 = slice p 78 16 ∧ slice q 78 16 = slice p 62 16 ∧ drop 98 q = drop 98 p ∧
  slice q 22 16 = dst ∧ slice q 38 16 = src ∧ w_maps w' = w_maps w ∧
  ∃ l, m_local (w_maps w) = Some l ∧ w_redirect w' = Some (lo_uplink_ifindex l).
Proof.
  intros p Hb Hv Hn Hl Hs Hd Hlo E. unfold try_icmpv6_echo_reply, ETH_LEN, IPV6_LEN in E.
  cbn [Nat.add] in E. unfold pbind at 1, access in E. fold p in E.
  destruct (is_echo_request6 p) as [[|]|] eqn:Er; cbn [negb] in E; [|done..].
  apply is_echo_request6_inv in Er as (_ & H60 & H94).
  pose proof (flipped_length p 94 n 128 129 ltac:(lia) Hl) as Hf.
  assert (length (swapped (flipped p 94 128 129) 62 78 16) = length p) as Hg
    by (rewrite swapped_length; lia).
  eapply (echo_tail_run _ _ src dst (flipped p 94 128 129)
    (swapped (flipped p 94 128 129) 62 78 16)) in E
    as (l & El & Hr & Hm & Hlen & Hdrop & O1 & O2); [|done|done|done|lia| |].
  - destruct (echo6_frame_valid p n (w_pkt w')) as (V & T & A1 & A2 & D); try done; [congruence|].
    eauto 20.
  - apply (echo_flip_run p 94 n 128 129); lia.
  - apply swap_addrs_run; lia.
Qed.

Definition demo_local_maps : Maps := with_local (λ _, Some demo_local) empty_maps.
(** A ping of 203.0.113.1, and of fd00::5. *)
Definition demo_echo4 : list Z :=
  replicate 54 7 ++ [0x45; 0; 0; 32; 0; 0; 0; 0; 64; 1; 124; 212; 192; 0; 2; 7; 203; 0; 113; 1]
  ++ [8; 0; 243; 241; 0; 7; 0; 1; 1; 2; 3; 4].
Definition demo_echo6 : list Z :=
  replicate 54 7 ++ [0x60; 0; 0; 0; 0; 12; 58; 64] ++ [0x20; 1] ++ replicate 13 0 ++ [7]
  ++ [0xfd] ++ replicate 14 0 ++ [5] ++ [128; 0; 94; 157; 0; 7; 0; 1; 1; 2; 3; 4].
Definition demo_echo_world (p : list Z) : world := mkWorld p demo_local_maps 0 None.
Definition demo_echo4_out : world :=
  after (try_icmp_echo_reply 100 0 (replicate 16 1) (replicate 16 2)) (demo_echo_world demo_echo4).
Definition demo_echo6_out : world :=
  after (try_icmpv6_echo_reply (replicate 16 1) (replicate 16 2)) (demo_echo_world demo_echo6).

Lemma demo_local_maps_ok l : m_local demo_local_maps = Some l → local_ok l.
Proof. intros [= <-]. apply demo_local_ok. Qed.

Lemma icmp_echo_reply_valid_witness :
  packet_valid (w_pkt demo_echo4_out) 54 12 ∧ slice (w_pkt demo_echo4_out) 70 4 = [192; 0; 2; 7].
Proof.
  destruct (icmp_echo_reply_valid 100 0 (replicate 16 1) (replicate 16 2) 12
    (demo_echo_world demo_echo4) demo_echo4_out 4) as (_ & V & _ & _ & A & _).
  - by apply bytes_ok_b.
  - split; [vm_compute; reflexivity|]. split; [discriminate|]. split; [discriminate|].
    intros _. vm_compute. reflexivity.
  - lia.
  - vm_compute. lia.
  - vm_compute. reflexivity.
  - by apply is_arr_b.
  - by apply is_arr_b.
  - apply demo_local_maps_ok.
  - vm_compute. reflexivity.
  - split; [exact V|]. rewrite A. reflexivity.
Defined.

Lemma icmpv6_echo_reply_valid_witness :
  csum_valid (v6_sum (w_pkt demo_echo6_out) 54 12 IPPROTO_ICMPV6).
Proof.
  destruct (icmpv6_echo_reply_valid (replicate 16 1) (replicate 16 2) 12
    (demo_echo_world demo_echo6) demo_echo6_out 4) as (V & _).
  - by apply bytes_ok_b.
  - vm_compute. reflexivity.
  - lia.
  - vm_compute. lia.
  - by apply is_arr_b.
  - by apply is_arr_b.
  - apply demo_local_maps_ok.
  - vm_compute. reflexivity.
  - exact V.
Defined.

(** ** Property: memory safety *)

(** C1.  Every frame the uplink delivers is processed to a result: from any
    state whose map values have the sizes of their types, the receive
    program terminates, never reads or writes outside the frame, and leaves
    such a state. *)
Theorem uplink_rx_safe `{KL : KernelLaws} (w : world) :
  shaped (w_maps w) →
  ∃ r w', try_uplink_rx w = Some (r, w') ∧ shaped (w_maps w').
Proof. intros H. by apply (ends_try_uplink_rx (length (w_pkt w))). Qed.

(** A frame cut inside the inner packet, for a known interface. *)
Definition demo_cut : list Z :=
  replicate 12 7 ++ to_be16 ETH_P_IPV6 ++ [0x60; 0; 0; 0; 0; 24; IPPROTO_IPIP; 64]
  ++ replicate 16 1 ++ replicate 16 2
  ++ [0x45; 0; 0; 24; 0; 0; 0; 0; 64; 1; 0; 0; 192; 0; 2; 7; 203; 0; 113; 1] ++ [8; 0; 0; 0].
Definition demo_rx_maps : Maps :=
  with_underlay (λ _, {[ replicate 16 2 := mkUnderlayValue 100 0 demo_mac ]}) demo_local_maps.

Lemma demo_rx_maps_shaped : shaped demo_rx_maps.
Proof.
  split; cbn; try (by apply empty_all).
  - by refine (singleton_all (K := list Z) _ _ (λ u, length (uv_guest_mac u) = 6%nat) _).
  - by intros l [= <-].
  - by intros c [= <-].
Qed.

Lemma uplink_rx_safe_witness :
  ∃ r w', try_uplink_rx (mkWorld demo_cut demo_rx_maps 0 None) = Some (r, w') ∧ shaped (w_maps w').
Proof.
  apply (uplink_rx_safe (mkWorld demo_cut demo_rx_maps 0 None)). apply demo_rx_maps_shaped.
Defined.
