(* ===== verification/Guest.v ===== *)
(** * Guest

    The programs attached to the interfaces (xdp-dp-ebpf/src/main.rs) and the
    dispatch of guest traffic (xdp-dp-ebpf/src/egress.rs): the gateway's
    responders first, then DHCP through the tail call, then forwarding. *)
From S2P Require Import Prelude Bytes Csum Types Kernel Parse Rewrite Encap ArpNd Safe Dhcp4 Dhcp6.
From S2P Require Import Egress Ingress.

(** ** Definitions *)

Section programs.
Context `{Kernel}.
Local Open Scope dp_scope.

(** [dhcp_handle], the tail-call target. *)
Definition dhcp_handle (ifindex : Z) : prog world Z :=
  let* ports := gets m_port_meta in
  match ports !! ifindex with
  | None => pret XDP_PASS
  | Some meta =>
      let* r4 := try_dhcpv4_reply ifindex meta in
      match r4 with
      | Some act => pret act
      | None =>
          let* r6 := try_dhcpv6_reply ifindex meta in
          match r6 with
          | Some act => pret act
          | None => pret XDP_PASS
          end
      end
  end.

(** [try_guest_tx]; [dhcp_slot] says that the tail call finds a program in
    GUEST_PROGS, which then gives the result. *)
Definition try_guest_tx (dhcp_slot : bool) (ifindex : Z) : prog world (result Z) :=
  let* ports := gets m_port_meta in
  match ports !! ifindex with
  | None => pret Err
  | Some meta =>
      let* arp := try_arp_reply ifindex meta in
      match arp with
      | Some act => pret (Ok act)
      | None =>
          let* nd := try_nd_reply ifindex meta in
          match nd with
          | Some act => pret (Ok act)
          | None =>
              let* dhcp := access is_dhcp_request in
              if dhcp then
                if dhcp_slot then let* act := dhcp_handle ifindex in pret (Ok act)
                else pret (Ok XDP_PASS)
              else
                let* p := get_pkt in
                let* is_v6 := (if short p 14 then pret false
                               else let* et := access (λ p, rd16 p 12) in pret (et =? ETH_P_IPV6)) in
                if is_v6 then v6_guest_tx meta else v4_guest_tx ifindex meta
          end
      end
  end.

(** The entry points of main.rs: an error passes the frame to the stack. *)
Definition or_pass (r : result Z) : Z := match r with Ok act => act | Err => XDP_PASS end.
Definition xdp_pass : prog world Z := pret XDP_PASS.
Definition guest_tx (dhcp_slot : bool) (ifindex : Z) : prog world Z :=
  let* r := try_guest_tx dhcp_slot ifindex in pret (or_pass r).
Definition guest_dhcp (ifindex : Z) : prog world Z := dhcp_handle ifindex.
Definition uplink_rx : prog world Z := let* r := try_uplink_rx in pret (or_pass r).
End programs.

(** ** Lemmas: no fault *)

Section safety.
Context `{KL : KernelLaws}.

Lemma runs_responder n (f : list Z → mem (option (list Z))) ifindex :
  (∀ p, ∃ r, f p = Some r ∧ ∀ q, r = Some q → length q = length p) →
  runs n (let* done := rewrite_opt f in
          if done then let* act := reflect ifindex in pret (Some act) else pret None)%dp anything.
Proof.
  intros Hf. eapply runs_bind.
  { apply runs_rewrite_opt. intros p <-. apply Hf. }
  intros [|] _; [|by apply runs_ret]. eapply runs_bind; [apply runs_redirect|].
  intros a _. by apply runs_ret.
Qed.

Lemma is_dhcp_request_total p : ∃ b, is_dhcp_request p = Some b.
Proof. unfold is_dhcp_request, ETH_LEN. mem_go; by eexists. Qed.

Lemma ends_dhcp_handle n ifindex : ends n (dhcp_handle ifindex).
Proof.
  unfold dhcp_handle. eapply ends_bind.
  { apply (runs_gets n _ (λ ports, ∀ meta, ports !! ifindex = Some meta → port_shaped meta)).
    intros m Hm meta E. by apply (sh_port m Hm ifindex). }
  cbv beta. intros ports Hports. destruct (ports !! ifindex) as [meta|]; [|apply ends_ret].
  specialize (Hports meta eq_refl). apply ends_seq; [by apply ends_try_dhcpv4_reply|].
  intros [act|] n'; [apply ends_ret|]. apply ends_seq; [by apply ends_try_dhcpv6_reply|].
  intros [act|] n''; apply ends_ret.
Qed.

Lemma ends_try_guest_tx n slot ifindex : ends n (try_guest_tx slot ifindex).
Proof.
  unfold try_guest_tx. eapply ends_bind.
  { apply (runs_gets n _ (λ ports, ∀ meta, ports !! ifindex = Some meta → port_shaped meta)).
    intros m Hm meta E. by apply (sh_port m Hm ifindex). }
  cbv beta. intros ports Hports. destruct (ports !! ifindex) as [meta|]; [|apply ends_ret].
  specialize (Hports meta eq_refl). pose proof Hports as [].
  eapply ends_bind; [apply runs_responder; intros p; by apply try_write_arp_reply_total|].
  intros [act|] _; [apply ends_ret|].
  eapply ends_bind; [apply runs_responder; intros p; by apply try_write_nd_reply_total|].
  intros [act|] _; [apply ends_ret|].
  eapply ends_bind.
  { apply (runs_access n _ anything). intros p _. destruct (is_dhcp_request_total p) as (b & ->).
    by exists b. }
  intros [|] _.
  { destruct slot; [|apply ends_ret]. apply ends_seq; [apply ends_dhcp_handle|].
    intros act n'. apply ends_ret. }
  eapply ends_bind; [apply runs_get_pkt|]. cbv beta. intros p Hp.
  eapply (ends_bind n _ anything).
  { destruct (short p 14) eqn:Es; [by apply runs_ret|]. apply short_false in Es.
    eapply runs_bind; [apply runs_rd16; lia|]. intros et _. by apply runs_ret. }
  intros [|] _; [by apply ends_v6_guest_tx|by apply ends_v4_guest_tx].
Qed.
End safety.

(** ** Lemmas: where a responder redirects *)

Section redirects.
Context `{KL : KernelLaws}.

(** [stays i m]: a redirect that [m] asks for goes to interface [i]. *)
Definition only_to (i : Z) (w : world) : Prop := w_redirect w = None ∨ w_redirect w = Some i.
Definition stays {A} (i : Z) (m : prog world A) : Prop :=
  ∀ w a w', m w = Some (a, w') → only_to i w → only_to i w'.

Lemma stays_ret {A} i (a : A) : stays i (pret a).
Proof. by intros w b w' [= _ <-]. Qed.
Lemma stays_bind {A B} i (m : prog world A) (k : A → prog world B) :
  stays i m → (∀ a, stays i (k a)) → stays i (pbind m k).
Proof.
  intros Hm Hk w b w' E Hw. unfold pbind in E. destruct (m w) as [[a w1]|] eqn:E1; [|done].
  eapply Hk; [exact E|]. by eapply Hm.
Qed.
Lemma stays_gets {A} i (f : Maps → A) : stays i (gets f).
Proof. by intros w b w' [= _ <-]. Qed.
Lemma stays_get_pkt i : stays i get_pkt.
Proof. by intros w b w' [= _ <-]. Qed.
Lemma stays_update i f : stays i (update f).
Proof. by intros w b w' [= _ <-]. Qed.
Lemma stays_access {A} i (f : list Z → mem A) : stays i (access f).
Proof. intros w b w' E. unfold access in E. destruct (f (w_pkt w)); [|done]. by injection E as _ <-. Qed.
Lemma stays_rewrite i f : stays i (rewrite_pkt f).
Proof. intros w b w' E. unfold rewrite_pkt in E. destruct (f (w_pkt w)); [|done]. by injection E as _ <-. Qed.
Lemma stays_rewrite_opt i f : stays i (rewrite_opt f).
Proof.
  intros w b w' E. unfold rewrite_opt in E. destruct (f (w_pkt w)) as [[q|]|]; [| |done];
    by injection E as _ <-.
Qed.
Lemma stays_resize i f : stays i (resize f).
Proof. intros w b w' E. unfold resize in E. destruct (f (w_pkt w)); by injection E as _ <-. Qed.
Lemma stays_load i off n : stays i (load off n).
Proof. by intros w b w' [= _ <-]. Qed.
Lemma stays_store i off bs : stays i (store off bs).
Proof. apply stays_resize. Qed.
Lemma stays_redirect i : stays i (bpf_redirect i).
Proof. intros w b w' [= _ <-] _. by right. Qed.
End redirects.

Create HintDb stays discriminated.
#[export] Hint Resolve stays_ret stays_gets stays_get_pkt stays_update stays_access stays_rewrite
  stays_rewrite_opt stays_resize stays_load stays_store stays_redirect : stays.
(** Follows a program's branches. *)
Ltac stays_go :=
  repeat first
    [ solve [auto with stays nocore]
    | progress cbv beta zeta
    | apply stays_bind; [|intros ?]
    | match goal with |- stays _ (match ?x with _ => _ end) => destruct x end ].

Section responders.
Context `{KL : KernelLaws}.

Lemma stays_learn_mac i ifindex meta mac : stays i (learn_mac ifindex meta mac).
Proof. unfold learn_mac. stays_go. Qed.
Lemma stays_dhcpv4 i meta : stays i (try_dhcpv4_reply i meta).
Proof.
  unfold try_dhcpv4_reply, reflect, xdp_adjust_tail. pose proof stays_learn_mac. stays_go.
Qed.

Lemma stays_d6_parse i guard j n r : stays i (d6_parse guard j n r).
Proof.
  revert j r. induction guard as [|g IH]; intros j r; cbn [d6_parse]; [apply stays_ret|].
  unfold d6_option. stays_go.
Qed.
Lemma stays_emit_dns_servers i n di off dns : stays i (emit_dns_servers n di off dns).
Proof.
  revert di. induction n as [|n IH]; intros di; cbn [emit_dns_servers]; [apply stays_ret|].
  stays_go.
Qed.
Lemma stays_d6_emit i ifindex meta r : stays i (d6_emit ifindex meta r).
Proof.
  unfold d6_emit, emit_ids, emit_ia_na, emit_rapid_commit, emit_dns, emit_boot_file, d6_store_url.
  pose proof stays_emit_dns_servers. stays_go.
Qed.
Lemma stays_dhcpv6 i meta : stays i (try_dhcpv6_reply i meta).
Proof.
  unfold try_dhcpv6_reply, d6_respond, reflect, xdp_adjust_tail.
  pose proof stays_d6_parse. pose proof stays_d6_emit. stays_go.
Qed.
Lemma stays_dhcp_handle i : stays i (dhcp_handle i).
Proof.
  unfold dhcp_handle. pose proof stays_dhcpv4. pose proof stays_dhcpv6. stays_go.
Qed.

(** A responder that declines leaves the frame alone. *)
Lemma responder_declines f ifindex w a w' :
  (let* done := rewrite_opt f in
   if done then let* act := reflect ifindex in pret (Some act) else pret None)%dp w = Some (a, w') →
  only_to ifindex w → only_to ifindex w' ∧ (a = None → w' = w).
Proof.
  intros E Hw. unfold pbind, rewrite_opt in E. destruct (f (w_pkt w)) as [[q|]|]; [| |done].
  - injection E as <- <-. split; [by right|done].
  - injection E as <- <-. done.
Qed.

Lemma guest_dhcp_stays slot i w a w' :
  try_guest_tx slot i w = Some (a, w') → is_dhcp_request (w_pkt w) = Some true →
  only_to i w → only_to i w'.
Proof.
  intros E Hd Hw. unfold try_guest_tx in E. unfold pbind at 1, gets in E.
  destruct (m_port_meta (w_maps w) !! i) as [meta|]; [|by injection E as _ <-].
  unfold pbind at 1 in E. destruct (try_arp_reply i meta w) as [[r1 w1]|] eqn:E1; [|done].
  apply responder_declines in E1 as [H1 Hn1]; [|done].
  destruct r1 as [act|]; [by injection E as _ <-|]. rewrite (Hn1 eq_refl) in E. clear H1 Hn1.
  unfold pbind at 1 in E. destruct (try_nd_reply i meta w) as [[r2 w2]|] eqn:E2; [|done].
  apply responder_declines in E2 as [H2 Hn2]; [|done].
  destruct r2 as [act|]; [by injection E as _ <-|]. rewrite (Hn2 eq_refl) in E. clear H2 Hn2.
  unfold pbind at 1, access in E. rewrite Hd in E.
  destruct slot; [|by injection E as _ <-].
  refine (stays_bind i _ _ (stays_dhcp_handle i) _ _ _ _ E Hw). intros act. apply stays_ret.
Qed.
End responders.

(** ** Property *)

(** C2.  Every frame a guest sends is processed to a result: the transmit
    program terminates, never reads or writes outside the frame, and keeps the
    maps' values in shape.  A DHCP request is never forwarded: a redirect goes
    back to the port it came from, whether or not the responder answers. *)
Theorem guest_tx_safe `{KL : KernelLaws} (dhcp_slot : bool) (ifindex : Z) (w : world) :
  shaped (w_maps w) → w_redirect w = None →
  ∃ act w', guest_tx dhcp_slot ifindex w = Some (act, w') ∧ shaped (w_maps w') ∧
    (is_dhcp_request (w_pkt w) = Some true →
     w_redirect w' = None ∨ w_redirect w' = Some ifindex).
Proof.
  intros Hs Hr. destruct (ends_try_guest_tx (length (w_pkt w)) dhcp_slot ifindex w)
    as (r & w' & E & Hs'); [done|].
  exists (or_pass r), w'. split; [unfold guest_tx, pbind; by rewrite E|]. split; [done|].
  intros Hd. eapply guest_dhcp_stays; [exact E|exact Hd|by left].
Qed.

Lemma guest_tx_safe_witness :
  let w := mkWorld demo_discover (with_port_meta (λ _, {[ 7 := demo_port ]}) empty_maps) 0 None in
  is_dhcp_request demo_discover = Some true ∧
  ∃ act w', guest_tx true 7 w = Some (act, w') ∧ shaped (w_maps w') ∧
    (w_redirect w' = None ∨ w_redirect w' = Some 7).
Proof.
  cbv zeta. split; [reflexivity|].
  destruct (guest_tx_safe true 7
    (mkWorld demo_discover (with_port_meta (λ _, {[ 7 := demo_port ]}) empty_maps) 0 None))
    as (act & w' & E & Hs & Hd).
  - split; cbn; try (by apply empty_all); [|done|].
    + intros i v [<- <-]%lookup_singleton_Some. by split.
    + intros c [= <-]. apply zero_dhcp_shaped.
  - reflexivity.
  - exists act, w'. split; [exact E|]. split; [exact Hs|]. apply Hd. reflexivity.
Defined.
