(* ===== verification/Skb.v ===== *)
(** * Skb

    Socket buffers, which the tc programs work on: the packet is the linear
    head, which direct access sees, followed by fragments, and helpers move
    the boundary and resize the packet. *)
From S2P Require Import Prelude Bytes Types Kernel Dhcp6 Safe.

(** ** Definitions *)

(** The head is the frame of the world, so that the programs shared with XDP
    run on it as they are; the rest of the packet comes after it. *)
Definition skb : Type := world * list Z.
Definition head_len (s : skb) : nat := length (w_pkt s.1).
(** [skb->len] and the packet's bytes. *)
Definition skb_len (s : skb) : nat := (head_len s + length s.2)%nat.
Definition skb_bytes (s : skb) : list Z := w_pkt s.1 ++ s.2.

Class SkbKernel := {
  (** [bpf_skb_pull_data]: the new length of the head. *)
  skb_pull : nat → list Z → list Z → option nat;
  (** [bpf_skb_change_tail] to an absolute length, [bpf_skb_adjust_room] with
      BPF_ADJ_ROOM_MAC by a number of bytes: head and rest. *)
  skb_change_tail : nat → list Z → list Z → option (list Z * list Z);
  skb_adjust_room : nat → list Z → list Z → option (list Z * list Z);
  (** The action [bpf_redirect] returns to a classifier. *)
  tc_redirect_ret : Z → Z }.

(** The documented behaviour the programs rely on. *)
Class SkbLaws `{SK : SkbKernel} : Prop := {
  (** At least the bytes asked for become linear, none is added. *)
  skb_pull_len n h r k :
    skb_pull n h r = Some k → (n <= k)%nat ∧ (length h <= k <= length (h ++ r))%nat;
  skb_change_tail_len n h r h' r' :
    skb_change_tail n h r = Some (h', r') → length (h' ++ r') = n;
  skb_change_tail_kept n h r h' r' :
    skb_change_tail n h r = Some (h', r') →
    take (n `min` length (h ++ r)) (h' ++ r') = take (n `min` length (h ++ r)) (h ++ r);
  (** Room is made between the Ethernet header and what follows it. *)
  skb_adjust_room_mac n h r h' r' :
    skb_adjust_room n h r = Some (h', r') →
    ∃ gap, length gap = n ∧ (14 <= length h)%nat ∧ h' = take 14 h ++ gap ++ drop 14 h ∧ r' = r }.

(** A program on the head, and one that goes through helpers for the whole
    packet ([bpf_skb_load_bytes], [bpf_skb_store_bytes]) and keeps its size. *)
Definition on_head {A} (m : prog world A) : prog skb A :=
  λ s, match m s.1 with Some (a, w) => Some (a, (w, s.2)) | None => None end.
Definition on_packet {A} (m : prog world A) : prog skb A :=
  λ s, match m (at_pkt s.1 (skb_bytes s)) with
       | Some (a, w) =>
           Some (a, (at_pkt w (take (head_len s) (w_pkt w)), drop (head_len s) (w_pkt w)))
       | None => None
       end.
Definition get_skb {A} (f : skb → A) : prog skb A := λ s, Some (f s, s).

Section helpers.
Context `{SkbKernel}.

Definition pull_data (n : nat) : prog skb bool :=
  λ s, match skb_pull n (w_pkt s.1) s.2 with
       | Some k => Some (true, (at_pkt s.1 (take k (skb_bytes s)), drop k (skb_bytes s)))
       | None => Some (false, s)
       end.
Definition skb_resize (f : list Z → list Z → option (list Z * list Z)) : prog skb bool :=
  λ s, match f (w_pkt s.1) s.2 with
       | Some (h, r) => Some (true, (at_pkt s.1 h, r))
       | None => Some (false, s)
       end.
Definition change_tail (n : nat) : prog skb bool := skb_resize (skb_change_tail n).
Definition adjust_room (n : nat) : prog skb bool := skb_resize (skb_adjust_room n).
Definition tc_redirect (ifindex : Z) : prog skb Z :=
  λ s, Some (tc_redirect_ret ifindex,
             (mkWorld (w_pkt s.1) (w_maps s.1) (w_tick s.1) (Some ifindex), s.2)).
End helpers.

(** ** No fault

    The rules of Safe.v for programs on socket buffers, by the length of the
    head; fragments are arbitrary. *)
Definition tc_fits (n : nat) (s : skb) : Prop := fits n s.1.
Definition tc_runs {A} (n : nat) (m : prog skb A) (φ : A → Prop) : Prop :=
  ∀ s, tc_fits n s → ∃ a s', m s = Some (a, s') ∧ tc_fits n s' ∧ φ a.
Definition tc_ends {A} (n : nat) (m : prog skb A) : Prop :=
  ∀ s, tc_fits n s → ∃ a s', m s = Some (a, s') ∧ shaped (w_maps s'.1).

Lemma tc_ends_ret {A} n (a : A) : tc_ends n (pret a).
Proof. intros s [Hs _]. by exists a, s. Qed.
Lemma tc_runs_ret {A} n (a : A) (φ : A → Prop) : φ a → tc_runs n (pret a) φ.
Proof. intros Ha s Hs. by exists a, s. Qed.
Lemma tc_ends_bind {A B} n (m : prog skb A) φ (k : A → prog skb B) :
  tc_runs n m φ → (∀ a, φ a → tc_ends n (k a)) → tc_ends n (pbind m k).
Proof.
  intros Hm Hk s Hs. destruct (Hm s Hs) as (a & s1 & E & H1 & Ha).
  destruct (Hk a Ha s1 H1) as (b & s2 & E2 & H2). exists b, s2. unfold pbind. by rewrite E.
Qed.
Lemma tc_runs_bind {A B} n (m : prog skb A) φ (k : A → prog skb B) ψ :
  tc_runs n m φ → (∀ a, φ a → tc_runs n (k a) ψ) → tc_runs n (pbind m k) ψ.
Proof.
  intros Hm Hk s Hs. destruct (Hm s Hs) as (a & s1 & E & H1 & Ha).
  destruct (Hk a Ha s1 H1) as (b & s2 & E2 & H2). exists b, s2. unfold pbind. by rewrite E.
Qed.
Lemma tc_ends_seq {A B} n (m : prog skb A) (k : A → prog skb B) :
  tc_ends n m → (∀ a n', tc_ends n' (k a)) → tc_ends n (pbind m k).
Proof.
  intros Hm Hk s Hs. destruct (Hm s Hs) as (a & s1 & E & H1).
  destruct (Hk a (head_len s1) s1) as (b & s2 & E2 & H2); [done|].
  exists b, s2. unfold pbind. by rewrite E.
Qed.
Lemma tc_runs_head {A} n (m : prog world A) φ : runs n m φ → tc_runs n (on_head m) φ.
Proof.
  intros Hm s Hs. destruct (Hm s.1 Hs) as (a & w & E & Hw & Ha).
  exists a, (w, s.2). unfold on_head. by rewrite E.
Qed.
Lemma tc_ends_head {A} n (m : prog world A) : ends n m → tc_ends n (on_head m).
Proof.
  intros Hm s Hs. destruct (Hm s.1 Hs) as (a & w & E & Hw).
  exists a, (w, s.2). unfold on_head. by rewrite E.
Qed.
(** On the whole packet, whatever follows the head. *)
Lemma tc_runs_packet {A} n (m : prog world A) φ :
  (∀ N, (n <= N)%nat → runs N m φ) → tc_runs n (on_packet m) φ.
Proof.
  intros Hm s [Hs Hl]. destruct (Hm (skb_len s) ltac:(unfold skb_len, head_len; lia)
    (at_pkt s.1 (skb_bytes s))) as (a & w & E & [Hw Hn] & Ha).
  { split; [done|]. unfold at_pkt, skb_bytes, skb_len, head_len. cbn. by rewrite length_app. }
  eexists a, _. unfold on_packet. rewrite E. split; [done|]. split; [|done]. split; [done|].
  cbn. rewrite length_take, Hn. unfold skb_len, head_len. lia.
Qed.
Lemma tc_runs_get_skb {A} n (f : skb → A) (φ : A → Prop) :
  (∀ s, head_len s = n → φ (f s)) → tc_runs n (get_skb f) φ.
Proof. intros Hf s [Hs Hl]. exists (f s), s. split; [done|]. split; [done|]. by apply Hf. Qed.

Section laws.
Context `{SL : SkbLaws}.

(** After a pull the head has the bytes asked for, or is as it was. *)
Lemma tc_ends_pull {B} n k (m : bool → prog skb B) :
  (∀ ok n', (n <= n')%nat → (ok = true → (k <= n')%nat) → tc_ends n' (m ok)) →
  tc_ends n (pbind (pull_data k) m).
Proof.
  intros Hm s [Hs Hl]. unfold pbind, pull_data. destruct (skb_pull k (w_pkt s.1) s.2) as [j|] eqn:E.
  - apply skb_pull_len in E as [Hk [H1 H2]]. apply (Hm true j); [lia|done|]. split; [done|].
    cbn. rewrite length_take. unfold skb_bytes. lia.
  - by apply (Hm false n).
Qed.
Lemma tc_ends_resize {B} n f (m : bool → prog skb B) :
  (∀ ok n', tc_ends n' (m ok)) → tc_ends n (pbind (skb_resize f) m).
Proof.
  intros Hm s Hs. unfold pbind, skb_resize. destruct (f (w_pkt s.1) s.2) as [[h r]|].
  - eapply (Hm true (length h)). split; [apply Hs|done].
  - by apply (Hm false n).
Qed.
Lemma tc_ends_redirect n i : tc_ends n (tc_redirect i).
Proof. intros s [Hs _]. by eexists _, _. Qed.
End laws.
