(* ===== verification/Tc.v ===== *)
(** * Tc

    The guest edge on tc (xdp-dp-ebpf/src/tc.rs), which is the default: the
    dispatch of guest traffic on socket buffers, the execution of the shared
    forwarding verdicts, and the tail-called DHCP and NAT64 programs
    (tc variants in dhcp.rs and nat64.rs). *)
From S2P Require Import Prelude Bytes Csum Types Kernel Parse Rewrite Conntrack Nat Encap ArpNd.
From S2P Require Import Firewall Nat64 Dhcp4 Dhcp6 Egress Guest Safe Skb.

Definition TC_ACT_OK : Z := 0.
Definition TC_ACT_SHOT : Z := 2.

Section programs.
Context `{Kernel} `{SkbKernel}.
Local Open Scope dp_scope.

(** ** Definitions: forwarding *)

(** The verdict's execution; IPv6 delivery also writes the ethertype. *)
Definition tc_encap_out (e : EncapParams) : prog skb Z :=
  let* ok := adjust_room IPV6_LEN in
  if negb ok then pret TC_ACT_OK else
  let* ok := pull_data (ETH_LEN + IPV6_LEN) in
  if negb ok then pret TC_ACT_OK else
  let* ok := on_head (rewrite_opt (λ p, write_outer_v6 p e)) in
  if ok then tc_redirect (ep_uplink_ifindex e) else pret TC_ACT_SHOT.
Definition tc_run_verdict (is_v6 : bool) (v : EgressVerdict) : prog skb Z :=
  match v with
  | Pass => pret TC_ACT_OK
  | Drop => pret TC_ACT_SHOT
  | ToTap tap_ifindex guest_mac =>
      let* p := on_head get_pkt in
      if short p ETH_LEN then pret TC_ACT_OK else
      on_head (rewrite_pkt (local_eth is_v6 guest_mac)) ;;;
      tc_redirect tap_ifindex
  | Encap e => tc_encap_out e
  end.

(** ** Definitions: NAT64 *)

(** [tc_nat64_egress] once the ports are known: one growth by twenty bytes
    makes room for the outer headers and the smaller inner header; the outer
    headers are written in place, byte for byte those of [write_outer_v6]. *)
Definition tc_nat64_translate (src6 dst6 nat_ipv4 ipv4_dst : list Z)
    (proto l4_len hop_limit sport nat_port old_ck : Z) : prog skb (result unit) :=
  let* ok := adjust_room 20 in
  if negb ok then pret Err else
  let* ok := pull_data (ETH_LEN + IPV6_LEN + 20 + 8) in
  if negb ok then pret Err else
  let* p := on_head get_pkt in
  if short p (ETH_LEN + IPV6_LEN + 20 + 8) then pret Err else
  let total_len := wrap16 (20 + l4_len) in
  on_head (rewrite_pkt (λ p, wrn p (ETH_LEN + IPV6_LEN)
    (ip4hdr total_len hop_limit proto nat_ipv4 ipv4_dst))) ;;;
  on_head (rewrite_or_err (λ p, nat64_l4_to_v4 p (ETH_LEN + IPV6_LEN + 20) src6 dst6 nat_ipv4
    ipv4_dst proto l4_len sport nat_port old_ck)).
Definition tc_nat64_forward (vni : Z) (ipv4_dst underlay : list Z) (l4_len : Z)
    : prog skb (result (option Z)) :=
  let* routes := on_head (gets m_routes) in
  match lpm_lookup routes 64 (to_be32 vni ++ ipv4_dst) with
  | None => pret (Ok None)
  | Some route =>
      let* local := on_head (gets m_local) in
      match local with
      | None => pret Err
      | Some local =>
          let inner_len := wrap16 (20 + l4_len) in
          let e := mkEncapParams (lo_gateway_mac local) (lo_uplink_mac local)
                     (lo_uplink_ifindex local) underlay (rv_nexthop_ipv6 route)
                     inner_len IPPROTO_IPIP in
          let* ok := on_head (rewrite_opt (λ p, write_outer_v6 p e)) in
          if negb ok then pret Err else
          let* act := tc_redirect (lo_uplink_ifindex local) in
          pret (Ok (Some act))
      end
  end.
(** [tc_nat64_egress]; port allocation ([tc_nat64_alloc_port]) is that of
    [nat_port_of]. *)
Definition tc_nat64_egress (vni : Z) (guest_ipv4 underlay : list Z)
    : prog skb (result (option Z)) :=
  pull_data (ETH_LEN + IPV6_LEN + 8) ;;;
  let* p := on_head get_pkt in
  if short p (ETH_LEN + IPV6_LEN + 8) then pret (Ok None) else
  let* ip6_dst := on_head (access (λ p, rdn p (ETH_LEN + 24) 16)) in
  if negb (is_nat64_addr ip6_dst) then pret (Ok None) else
  let ipv4_dst := drop 12 ip6_dst in
  let* nats := on_head (gets m_nat) in
  match nats !! mkNatKey vni guest_ipv4 with
  | None => pret (Ok None)
  | Some nat =>
      let range := wrap16 (nv_port_max nat - nv_port_min nat) in
      if range =? 0 then pret (Ok None) else
      let* ip6_src := on_head (access (λ p, rdn p (ETH_LEN + 8) 16)) in
      let* nh := on_head (access (λ p, rd8 p (ETH_LEN + 6))) in
      let* l4_len := on_head (access (λ p, rd16 p (ETH_LEN + 4))) in
      if short p (ETH_LEN + IPV6_LEN + Z.to_nat l4_len) then pret (Ok None) else
      let* l4 := on_head (access (λ p, nat64_l4 p nh)) in
      match l4 with
      | None => pret (Ok None)
      | Some (proto, sport, dport, old_ck) =>
          let fwd_key := mkCtKey vni guest_ipv4 ipv4_dst sport dport proto in
          let* nat_port := on_head
            (nat_port_of CT_F_NAT64 fwd_key (nv_nat_ipv4 nat) (nv_port_min nat) range) in
          let* hop_limit := on_head (access (λ p, rd8 p (ETH_LEN + 7))) in
          let? _ := tc_nat64_translate ip6_src ip6_dst (nv_nat_ipv4 nat) ipv4_dst
                      proto l4_len hop_limit sport nat_port old_ck in
          tc_nat64_forward vni ipv4_dst underlay l4_len
      end
  end.

(** [tc_guest_nat64]. *)
Definition tc_guest_nat64 (ifindex : Z) : prog skb Z :=
  let* ports := on_head (gets m_port_meta) in
  match ports !! ifindex with
  | None => pret TC_ACT_OK
  | Some meta =>
      let* r := tc_nat64_egress (pm_vni meta) (pm_guest_ipv4 meta) (pm_underlay_ipv6 meta) in
      match r with
      | Ok (Some act) => pret act
      | Ok None => pret TC_ACT_OK
      | Err => pret TC_ACT_SHOT
      end
  end.

(** ** Definitions: DHCP *)

(** The skb variants go through the helpers that see the whole packet. *)
Definition tc_store (off : nat) (buf : list Z) : prog skb bool := on_packet (store off buf).
Definition tc_d6_store_url (base : nat) (pxe_mode : Z) (dm : DhcpMeta) : prog skb nat :=
  on_packet (d6_store_url base pxe_mode dm).
Definition tc_d6_parse (n : nat) (r : D6Request) : prog skb D6Request :=
  on_packet (d6_parse 12 0 n r).
(** [tc_d6_emit]: the writes at fixed offsets are direct, and in the head. *)
Definition tc_d6_emit (ifindex : Z) (meta : PortMeta) (r : D6Reply) : prog skb unit :=
  let* p := on_head get_pkt in
  if short p D6_MAX_TOTAL then pret tt else on_packet (d6_emit ifindex meta r).

(** [tc_dhcpv6_respond]: the options are read before the packet grows. *)
Definition tc_dhcpv6_respond (ifindex : Z) (meta : PortMeta) : prog skb bool :=
  let* ok := pull_data MIN_D6_LEN in
  if negb ok then pret false else
  let* msg_type := on_head (access d6_detect) in
  match msg_type with
  | None => pret false
  | Some msg_type =>
      let* tid := on_head (access (λ p, rdn p (F6_DHCP + 1) 3)) in
      let* req_src6 := on_head (access (λ p, rdn p (ETH_LEN + 8) 16)) in
      let* req_eth_src := on_head (access (λ p, rdn p 6 6)) in
      let* cur_len := get_skb head_len in
      let* len := get_skb skb_len in
      let opts_avail := (len - F6_OPTS)%nat in
      let n := if (opts_avail <? D6_SCAN)%nat then opts_avail else D6_SCAN in
      let* q := tc_d6_parse n d6_init in
      let reply_type := if (msg_type =? D6_SOLICIT) && negb (rapid_commit q)
                        then D6_ADVERTISE else D6_REPLY in
      let* dhcp_cfg := on_head (gets m_dhcp_config) in
      let* metas := on_head (gets m_dhcp_meta) in
      let dns6_count := d6_dns_count dhcp_cfg in
      let url_len := d6_boot_len (pxe_mode q) (metas !! ifindex) in
      let real_opts_len := d6_opts_len q dns6_count url_len in
      let r := mkD6Reply q reply_type tid dns6_count url_len (F6_OPTS + real_opts_len)
                 req_src6 req_eth_src in
      let* resized := (if (cur_len =? D6_MAX_TOTAL)%nat then pret true
                       else change_tail D6_MAX_TOTAL) in
      if negb resized then pret false else
      let* ok := pull_data D6_MAX_TOTAL in
      if negb ok then pret false else
      tc_d6_emit ifindex meta r ;;;
      on_head (rewrite_pkt
        (d6_checksum (wrap16 (Z.of_nat (real_opts_len + F6_OPTS - ETH_LEN - 40))))) ;;;
      pret true
  end.

(** [tc_guest_dhcp]. *)
Definition tc_dhcpv4_respond (ifindex : Z) (meta : PortMeta) : prog skb Z :=
  let* ok := pull_data MIN_DHCP_LEN in
  if negb ok then pret TC_ACT_OK else
  let* req := on_head (access parse_dhcpv4_request) in
  match req with
  | None => pret TC_ACT_OK
  | Some req =>
      on_head (learn_mac ifindex meta (rq_client_mac req)) ;;;
      let* r := on_head (gets (gather_dhcpv4_reply req meta ifindex)) in
      let* cur_len := get_skb head_len in
      let* resized := (if (cur_len =? REPLY_LEN)%nat then pret true else change_tail REPLY_LEN) in
      if negb resized then pret TC_ACT_OK else
      let* ok := pull_data REPLY_LEN in
      if negb ok then pret TC_ACT_OK else
      let* written := on_head (rewrite_opt (write_dhcpv4_reply r)) in
      if negb written then pret TC_ACT_SHOT else tc_redirect ifindex
  end.
Definition tc_guest_dhcp (ifindex : Z) : prog skb Z :=
  let* ports := on_head (gets m_port_meta) in
  match ports !! ifindex with
  | None => pret TC_ACT_OK
  | Some meta =>
      let* is_v6 := on_head (access looks_like_dhcpv6) in
      if is_v6 then
        let* replied := tc_dhcpv6_respond ifindex meta in
        if replied then tc_redirect ifindex else pret TC_ACT_OK
      else tc_dhcpv4_respond ifindex meta
  end.

(** ** Definitions: dispatch *)

(** A tail call: the program in the slot gives the result, an empty slot lets
    the packet pass. *)
Definition tail_call (slot : bool) (m : prog skb Z) : prog skb Z :=
  if slot then m else pret TC_ACT_OK.
(** An in-place responder, which needs [n] bytes in the head. *)
Definition tc_respond (n : nat) (f : list Z → mem (option (list Z))) : prog skb bool :=
  let* ok := pull_data n in
  if ok then on_head (rewrite_opt f) else pret false.

Definition tc_v6 (dhcp_slot nat64_slot : bool) (ifindex : Z) (meta : PortMeta) : prog skb Z :=
  let* ok := pull_data (ETH_LEN + IPV6_LEN) in
  let* p := on_head get_pkt in
  let* is_nat64 := (if ok && negb (short p (ETH_LEN + IPV6_LEN)) then
                      let* dst := on_head (access (λ p, rdn p (ETH_LEN + 24) 16)) in
                      pret (is_nat64_addr dst)
                    else pret false) in
  if is_nat64 then tail_call nat64_slot (tc_guest_nat64 ifindex) else
  let* nd := tc_respond (ETH_LEN + IPV6_LEN + 32)
               (λ p, try_write_nd_reply p (pm_gateway_ipv6 meta) (pm_guest_mac meta)) in
  if nd then tc_redirect ifindex else
  let* dhcp := on_head (access looks_like_dhcpv6) in
  if dhcp then tail_call dhcp_slot (tc_guest_dhcp ifindex) else
  pull_data (ETH_LEN + IPV6_LEN) ;;;
  let* p := on_head get_pkt in
  if short p (ETH_LEN + IPV6_LEN) then pret TC_ACT_OK else
  let* v := on_head (forward_decision_v6 meta) in
  tc_run_verdict true v.
Definition tc_v4 (dhcp_slot : bool) (ifindex ethertype : Z) (meta : PortMeta) : prog skb Z :=
  let* dhcp := on_head (access looks_like_dhcpv4) in
  if dhcp then tail_call dhcp_slot (tc_guest_dhcp ifindex) else
  if ethertype =? ETH_P_IP then
    pull_data (ETH_LEN + 40) ;;;
    let* p := on_head get_pkt in
    if short p (ETH_LEN + 20) then pret TC_ACT_OK else
    let* v := on_head (forward_decision_v4 ifindex meta) in
    tc_run_verdict false v
  else pret TC_ACT_OK.

(** [tc_guest_tx]; the slots say which tail calls find a program in
    GUEST_PROGS_TC. *)
Definition tc_guest_tx (dhcp_slot nat64_slot : bool) (ifindex : Z) : prog skb Z :=
  let* ports := on_head (gets m_port_meta) in
  match ports !! ifindex with
  | None => pret TC_ACT_OK
  | Some meta =>
      let* p := on_head get_pkt in
      if short p 14 then pret TC_ACT_OK else
      let* ethertype := on_head (access (λ p, rd16 p 12)) in
      if ethertype =? ETH_P_ARP then
        let* arp := tc_respond (ETH_LEN + ARP_LEN)
                      (λ p, try_write_arp_reply p (pm_gateway_ipv4 meta) (pm_guest_mac meta)) in
        if arp then tc_redirect ifindex else pret TC_ACT_OK
      else if ethertype =? ETH_P_IPV6 then tc_v6 dhcp_slot nat64_slot ifindex meta
      else tc_v4 dhcp_slot ifindex ethertype meta
  end.
End programs.

(** ** Lemmas: DHCPv6 on a packet of any size *)

Section dhcpv6.
Context `{KL : KernelLaws}.

Lemma runs_load n off k :
  runs n (load off k) (λ r, ∀ b, r = Some b → length b = k).
Proof.
  intros w Hw. exists (load_bytes off k (w_pkt w)), w. split; [done|]. split; [done|].
  intros b. apply load_bytes_len.
Qed.
Lemma runs_store n off bs : runs n (store off bs) anything.
Proof.
  intros w [Hs Hl]. unfold store, resize. destruct (store_bytes off bs (w_pkt w)) as [p|] eqn:E.
  - apply store_bytes_len in E. eexists _, _. split; [reflexivity|]. split; [|done]. by split; [|cbn; lia].
  - eexists _, _. split; [reflexivity|]. by split; [|].
Qed.

Lemma runs_d6_option n c olen v r :
  d6_req_ok r → runs n (d6_option c olen v r) d6_req_ok.
Proof.
  intros [Hd Hm]. unfold d6_option, d6_req_ok, mode_ok in *.
  repeat match goal with
  | |- runs _ (if ?b then _ else _) _ => destruct b
  | |- runs _ (pbind (load _ _) _) _ => eapply runs_bind; [apply runs_load|cbv beta; intros b Hb]
  | |- runs _ (pret _) _ => apply runs_ret
  end; try done.
  - destruct (_ =? _); cbn; auto.
  - by destruct b.
  - destruct b; [destruct (_ && _)|]; cbn; auto.
  - split; [|done]. cbn. destruct b as [b|]; [by apply Hb|done].
Qed.
Lemma runs_d6_parse n guard i k r :
  d6_req_ok r → runs n (d6_parse guard i k r) d6_req_ok.
Proof.
  revert i r. induction guard as [|g IH]; intros i r Hr; cbn [d6_parse]; [by apply runs_ret|].
  destruct (_ && _); [|by apply runs_ret]. eapply runs_bind; [apply runs_load|]. cbv beta.
  intros [hb|] _; [|by apply runs_ret]. cbv zeta.
  eapply runs_bind; [by apply runs_d6_option|]. intros r' Hr'. by apply IH.
Qed.

(** Programs made of stores alone. *)
Ltac stores :=
  repeat match goal with
  | |- runs _ (if ?b then _ else _) _ => destruct b
  | |- runs _ (match ?x with _ => _ end) _ => destruct x
  | |- runs _ (pbind (store _ _) _) _ => eapply runs_bind; [apply runs_store|intros _ _]
  | |- runs _ (pret _) _ => by apply runs_ret
  end.
Lemma runs_d6_store_url n base mode dm : runs n (d6_store_url base mode dm) anything.
Proof. unfold d6_store_url. cbv zeta. stores. Qed.
Lemma runs_emit_dns_servers n k di off dns :
  (di + k <= length dns)%nat → runs n (emit_dns_servers k di off dns) anything.
Proof.
  revert di. induction k as [|k IH]; intros di Hk; cbn [emit_dns_servers]; [by apply runs_ret|].
  eapply (runs_bind _ _ anything).
  { intros w Hw. destruct (lookup_lt_is_Some_2 dns di) as [d Ed]; [lia|].
    exists d, w. unfold access. by rewrite Ed. }
  intros d _. eapply runs_bind; [apply runs_store|]. intros _ _. apply IH. lia.
Qed.
Lemma runs_emit_dns n cfg count off :
  (∀ c, cfg = Some c → dhcp_config_shaped c) → runs n (emit_dns cfg count off) anything.
Proof.
  intros Hc. unfold emit_dns. cbv zeta. destruct (0 <? _)%nat; [|by apply runs_ret].
  destruct cfg as [c|]; [|by apply runs_ret]. destruct (Hc c eq_refl) as [_ [Hn _]].
  eapply runs_bind; [apply runs_store|]. intros _ _.
  eapply runs_bind; [apply runs_emit_dns_servers; unfold D6_MAX_DNS, DHCP_MAX_DNS in *; lia|].
  intros _ _. by apply runs_ret.
Qed.

Lemma copy_bytes_total k i src off p :
  (i + k <= length src)%nat → (off + i + k <= length p)%nat →
  ∃ q, copy_bytes k i src off p = Some q ∧ length q = length p.
Proof.
  revert i p. induction k as [|k IH]; intros i p Hs Hp; cbn [copy_bytes]; [by exists p|].
  destruct (lookup_lt_is_Some_2 src i) as [b ->]; [lia|]. cbn [mbind option_bind].
  rewrite wr8_splice by lia. cbn [mbind option_bind].
  destruct (IH (i + 1)%nat (splice p (off + i) [b])) as (q & E & Hq);
    [lia|rewrite length_splice by (cbn [length]; lia); lia|].
  exists q. split; [done|]. rewrite Hq. apply length_splice. cbn [length]. lia.
Qed.

Lemma runs_d6_emit n ifindex meta r :
  (404 <= n)%nat → port_shaped meta → d6_shaped r → runs n (d6_emit ifindex meta r) anything.
Proof.
  intros Hn Hmeta Hr. pose proof Hr as [He Hsrc Ht Hd _]. pose proof Hmeta as [].
  unfold d6_emit. eapply runs_bind; [apply runs_get_pkt|]. cbv beta. intros p0 Hp0.
  destruct (short p0 _); [by apply runs_ret|].
  eapply runs_bind.
  { apply runs_rewrite. intros p Hp. unfold emit_headers, ETH_LEN, F6_DHCP. cbn [Nat.add].
    repeat write_step. eexists. split; [reflexivity|lia]. }
  intros _ _. eapply runs_bind.
  { apply (runs_gets n _ (λ o, ∀ c, o = Some c → dhcp_config_shaped c)). intros m Hm. apply Hm. }
  cbv beta. intros cfg Hcfg. eapply runs_bind; [by apply (runs_gets n _ anything)|]. intros metas _. cbv zeta.
  eapply (runs_bind _ _ anything).
  { unfold emit_ids. eapply runs_bind.
    { apply runs_rewrite. intros p Hp. unfold emit_server_id, F6_OPTS. cbn [Nat.add].
      repeat write_step. eexists. split; [reflexivity|lia]. }
    intros _ _. cbv zeta. destruct (has_client_id _); [|by apply runs_ret].
    eapply runs_bind; [|intros _ _; by apply runs_ret].
    apply runs_rewrite. intros p Hp. unfold emit_client_id, F6_OPTS. cbv zeta. cbn [Nat.add].
    do 2 write_step. cbn [mbind option_bind].
    match goal with |- context [copy_bytes ?a ?b ?c ?d ?e] =>
      destruct (copy_bytes_total a b c d e) as (q' & -> & Hq') end;
      [unfold D6_MAX_DUID; lia|unfold D6_MAX_DUID; lia|]. eexists. split; [reflexivity|]. lia. }
  intros off1 _. eapply (runs_bind _ _ anything); [unfold emit_ia_na; stores|].
  intros off2 _. eapply (runs_bind _ _ anything); [unfold emit_rapid_commit; stores|].
  intros off3 _. eapply runs_bind; [by apply runs_emit_dns|].
  intros off4 _. eapply (runs_bind _ _ anything).
  { unfold emit_boot_file. stores. eapply runs_bind; [apply runs_d6_store_url|]. intros k _. by apply runs_ret. }
  intros off5 _. stores.
Qed.
End dhcpv6.

(** ** Lemmas: no fault *)

Section safety.
Context `{KL : KernelLaws} `{SL : SkbLaws}.

(** One direct access or map read, then the rest. *)
Lemma tc_ends_head_bind {A B} n (m : prog world A) φ (k : A → prog skb B) :
  runs n m φ → (∀ a, φ a → tc_ends n (k a)) → tc_ends n (pbind (on_head m) k).
Proof. intros Hm. apply tc_ends_bind. by apply tc_runs_head. Qed.
Lemma tc_ends_adjust_room {B} n k (m : bool → prog skb B) :
  (∀ ok n', tc_ends n' (m ok)) → tc_ends n (pbind (adjust_room k) m).
Proof. apply tc_ends_resize. Qed.
Lemma tc_ends_meta {B} n ifindex (k : gmap Z PortMeta → prog skb B) :
  (∀ ports, (∀ meta, ports !! ifindex = Some meta → port_shaped meta) → tc_ends n (k ports)) →
  tc_ends n (pbind (on_head (gets m_port_meta)) k).
Proof.
  intros Hk. eapply tc_ends_head_bind; [|exact Hk]. apply runs_gets. intros m Hm meta E.
  by apply (sh_port m Hm ifindex).
Qed.

Lemma runs_write_outer n e :
  length (ep_gateway_mac e) = 6%nat → length (ep_uplink_mac e) = 6%nat →
  length (ep_src_underlay e) = 16%nat → length (ep_nexthop_ipv6 e) = 16%nat →
  runs n (rewrite_opt (λ p, write_outer_v6 p e)) anything.
Proof.
  intros H1 H2 H3 H4. apply runs_rewrite_opt. intros p Hp. unfold write_outer_v6.
  destruct (short p _) eqn:E; [by eexists|]. apply short_false in E. unfold ETH_LEN, IPV6_LEN in *.
  cbn [Nat.add] in *. repeat write_step. eexists. split; [reflexivity|]. intros q' [= <-]. lia.
Qed.

Lemma tc_ends_run_verdict n b v : verdict_shaped v → tc_ends n (tc_run_verdict b v).
Proof.
  intros Hv. destruct v as [| |tap mac|e]; cbn [tc_run_verdict]; try apply tc_ends_ret.
  - eapply tc_ends_head_bind; [apply runs_get_pkt|]. cbv beta. intros p Hp.
    destruct (short p _) eqn:E; [apply tc_ends_ret|]. apply short_false in E. unfold ETH_LEN in E.
    eapply tc_ends_head_bind; [|intros _ _; apply tc_ends_redirect].
    apply runs_rewrite. intros q Hq. destruct (local_eth_total b mac q) as (q' & E' & Hq'); [lia|done|].
    exists q'. split; [done|lia].
  - destruct Hv as (H1 & H2 & H3 & H4). unfold tc_encap_out. apply tc_ends_adjust_room.
    intros [|] n'; cbn [negb]; [|apply tc_ends_ret]. apply tc_ends_pull.
    intros [|] n2 _ _; cbn [negb]; [|apply tc_ends_ret].
    eapply tc_ends_head_bind; [by apply runs_write_outer|].
    intros [|] _; [apply tc_ends_redirect|apply tc_ends_ret].
Qed.

Lemma tc_ends_nat64_forward n vni d4 ul len :
  length ul = 16%nat → tc_ends n (tc_nat64_forward vni d4 ul len).
Proof.
  intros Hul. unfold tc_nat64_forward. eapply tc_ends_head_bind; [apply runs_routes; by left|].
  cbv beta. intros routes Hr. destruct (lpm_lookup _ _ _) as [route|] eqn:E; [|apply tc_ends_ret].
  apply Hr in E. eapply tc_ends_head_bind; [apply runs_local|]. cbv beta.
  intros [l|] Hlo; [|apply tc_ends_ret]. destruct (Hlo l eq_refl). cbv zeta.
  eapply tc_ends_head_bind; [by apply runs_write_outer|].
  intros [|] _; cbn [negb]; [|apply tc_ends_ret].
  eapply tc_ends_seq; [apply tc_ends_redirect|]. intros act n'. apply tc_ends_ret.
Qed.
Lemma tc_ends_nat64_translate n src6 dst6 nip d4 proto len hop sport port ck :
  length nip = 4%nat →
  tc_ends n (tc_nat64_translate src6 dst6 nip d4 proto len hop sport port ck).
Proof.
  intros Hnip. unfold tc_nat64_translate, ETH_LEN, IPV6_LEN. cbn [Nat.add].
  apply tc_ends_adjust_room. intros [|] n1; cbn [negb]; [|apply tc_ends_ret].
  apply tc_ends_pull. intros [|] n2 _ _; cbn [negb]; [|apply tc_ends_ret].
  eapply tc_ends_head_bind; [apply runs_get_pkt|]. cbv beta zeta. intros p Hp.
  destruct (short p _) eqn:E; [apply tc_ends_ret|]. apply short_false in E.
  eapply tc_ends_head_bind.
  { apply runs_rewrite. intros q Hq. write_step. eexists. split; [reflexivity|]. lia. }
  intros _ _. apply tc_ends_head. unfold rewrite_or_err. eapply ends_bind.
  { apply runs_rewrite_opt. intros q Hq.
    destruct (nat64_l4_to_v4_total q 74 src6 dst6 nip d4 proto len sport port ck) as (r & Er & Hr); [lia|].
    exists r. split; [done|]. intros q' E'. rewrite (Hr q' E'). lia. }
  intros [|] _; apply ends_ret.
Qed.
Lemma tc_ends_nat64_egress n vni guest ul :
  length guest = 4%nat → length ul = 16%nat → tc_ends n (tc_nat64_egress vni guest ul).
Proof.
  intros Hg Hul. unfold tc_nat64_egress, ETH_LEN, IPV6_LEN. cbn [Nat.add].
  apply tc_ends_pull. intros ok n0 _ _. clear n. rename n0 into n.
  eapply tc_ends_head_bind; [apply runs_get_pkt|]. cbv beta. intros p0 Hp0.
  destruct (short p0 62) eqn:El; [apply tc_ends_ret|]. apply short_false in El.
  eapply tc_ends_head_bind; [apply runs_rdn; lia|]. cbv beta. intros d6 Hd6.
  destruct (negb _); [apply tc_ends_ret|].
  eapply tc_ends_head_bind; [apply runs_nats|]. cbv beta. intros nats Hnats.
  destruct (nats !! _) as [nat|] eqn:En; [|apply tc_ends_ret]. apply Hnats in En.
  cbv zeta. destruct (_ =? 0); [apply tc_ends_ret|].
  eapply tc_ends_head_bind; [apply runs_rdn; lia|]. intros s6 _.
  eapply tc_ends_head_bind; [apply runs_rd8; lia|]. intros nh _.
  eapply tc_ends_head_bind; [apply runs_rd16; lia|]. intros len _.
  destruct (short p0 _); [apply tc_ends_ret|].
  eapply tc_ends_head_bind.
  { apply (runs_access n _ anything). intros p Hp.
    destruct (nat64_l4_total p nh) as [r ->]. by eexists. }
  intros [[[[proto sport] dport] ck]|] _; [|apply tc_ends_ret].
  eapply tc_ends_head_bind; [by apply runs_nat_port_of|]. intros port _.
  eapply tc_ends_head_bind; [apply runs_rd8; lia|]. intros hop _.
  eapply tc_ends_seq; [by apply tc_ends_nat64_translate|].
  intros [[]|] n'; [by apply tc_ends_nat64_forward|apply tc_ends_ret].
Qed.
Lemma tc_ends_guest_nat64 n ifindex : tc_ends n (tc_guest_nat64 ifindex).
Proof.
  unfold tc_guest_nat64. apply (tc_ends_meta _ ifindex). intros ports Hp.
  destruct (ports !! ifindex) as [meta|]; [|apply tc_ends_ret]. destruct (Hp meta eq_refl).
  eapply tc_ends_seq; [by apply tc_ends_nat64_egress|].
  intros [[act|]|] n'; apply tc_ends_ret.
Qed.

(** The growth of a reply: on success the head holds it. *)
Lemma tc_ends_grow {B} n len (b : bool) (k1 k2 : prog skb B) :
  (∀ n', tc_ends n' k1) → (∀ n', (len <= n')%nat → tc_ends n' k2) →
  tc_ends n (let* resized := (if b then pret true else change_tail len) in
             if negb resized then k1 else
             let* ok := pull_data len in
             if negb ok then k1 else k2)%dp.
Proof.
  intros H1 H2. eapply tc_ends_seq.
  { destruct b; [apply tc_ends_ret|]. intros s [Hs Hl]. unfold change_tail, skb_resize.
    destruct (skb_change_tail _ _ _) as [[h r]|]; by eexists _, _. }
  intros [|] n1; cbn [negb]; [|done]. apply tc_ends_pull.
  intros [|] n2 _ Hn2; cbn [negb]; [|done]. apply H2. auto.
Qed.

Lemma tc_ends_dhcpv4 n ifindex meta : port_shaped meta → tc_ends n (tc_dhcpv4_respond ifindex meta).
Proof.
  intros Hp. unfold tc_dhcpv4_respond. apply tc_ends_pull.
  intros [|] n1 _ _; cbn [negb]; [|apply tc_ends_ret]. eapply tc_ends_head_bind.
  { apply (runs_access n1 _ (λ r, ∀ q, r = Some q → length (rq_client_mac q) = 6%nat ∧
      length (rq_xid_secs_flags q) = 8%nat)). intros p _.
    destruct (parse_dhcpv4_request_total p) as (r & E & Hr). exists r. split; [done|].
    intros q Hq. by destruct (Hr q Hq) as (? & ? & _). }
  cbv beta. intros [req|] Hreq; [|apply tc_ends_ret]. destruct (Hreq req eq_refl) as [Hc Hx].
  eapply tc_ends_head_bind; [by apply runs_learn_mac|]. intros _ _. eapply tc_ends_head_bind.
  { apply (runs_gets n1 _ reply_shaped). intros m Hm. by apply gather_shaped. }
  intros r Hr. eapply tc_ends_bind; [by apply (tc_runs_get_skb _ _ anything)|]. intros cur _.
  apply tc_ends_grow; [intros; apply tc_ends_ret|]. intros n2 Hn2.
  eapply tc_ends_seq.
  - apply tc_ends_head. intros w [Hs Hl]. unfold rewrite_opt.
    destruct (short (w_pkt w) REPLY_LEN) eqn:E.
    + unfold write_dhcpv4_reply. rewrite E. by eexists _, _.
    + apply short_false in E. rewrite write_dhcpv4_reply_run by done. by eexists _, _.
  - intros [|] n3; cbn [negb]; [apply tc_ends_redirect|apply tc_ends_ret].
Qed.

Lemma tc_ends_dhcpv6 n ifindex meta : port_shaped meta → tc_ends n (tc_dhcpv6_respond ifindex meta).
Proof.
  intros Hmeta. unfold tc_dhcpv6_respond. apply tc_ends_pull.
  intros [|] n1 _ _; cbn [negb]; [|apply tc_ends_ret]. eapply tc_ends_head_bind.
  { apply (runs_access n1 _ (λ r, ∀ t, r = Some t → (66 <= n1)%nat)). intros p <-.
    apply d6_detect_total. }
  cbv beta. intros [t|] Ht; [|apply tc_ends_ret]. pose proof (Ht t eq_refl) as Hn.
  unfold F6_DHCP, ETH_LEN. cbn [Nat.add].
  eapply tc_ends_head_bind; [apply runs_rdn; lia|]. cbv beta. intros tid Htid.
  eapply tc_ends_head_bind; [apply runs_rdn; lia|]. cbv beta. intros src Hsrc.
  eapply tc_ends_head_bind; [apply runs_rdn; lia|]. cbv beta. intros eth Heth.
  do 2 (eapply tc_ends_bind; [by apply (tc_runs_get_skb _ _ anything)|]; intros ? _). cbv zeta.
  eapply tc_ends_bind.
  { apply tc_runs_packet. intros N _. apply runs_d6_parse. by split; [|left]. }
  intros q [Hd Hm]. eapply tc_ends_head_bind; [by apply (runs_gets n1 _ anything)|]. intros cfg _.
  eapply tc_ends_head_bind; [by apply (runs_gets n1 _ anything)|]. intros metas _. cbv zeta.
  apply tc_ends_grow; [intros; apply tc_ends_ret|]. intros n2 Hn2.
  change D6_MAX_TOTAL with 404%nat in Hn2. eapply (tc_ends_bind _ _ anything).
  { unfold tc_d6_emit. eapply tc_runs_bind; [apply tc_runs_head, runs_get_pkt|].
    intros p _. destruct (short p _); [by apply tc_runs_ret|].
    apply (tc_runs_packet _ _ anything). intros N HN. apply runs_d6_emit; [lia|done|by split]. }
  intros _ _. eapply tc_ends_head_bind; [|intros _ _; apply tc_ends_ret].
  apply runs_rewrite. intros p Hp. edestruct d6_checksum_total as (p' & E & Hp').
  exists p'. split; [exact E|lia].
Qed.
Lemma looks6_total p : ∃ b, looks_like_dhcpv6 p = Some b.
Proof. unfold looks_like_dhcpv6, ETH_LEN. cbn [Nat.add]. mem_go; by eexists. Qed.
Lemma looks4_total p : ∃ b, looks_like_dhcpv4 p = Some b.
Proof. unfold looks_like_dhcpv4, ETH_LEN, MIN_DHCP_LEN. cbn [Nat.add]. mem_go; by eexists. Qed.
Lemma runs_looks6 n : runs n (access looks_like_dhcpv6) anything.
Proof. apply runs_access. intros p _. destruct (looks6_total p) as [b ->]. by exists b. Qed.
Lemma runs_looks4 n : runs n (access looks_like_dhcpv4) anything.
Proof. apply runs_access. intros p _. destruct (looks4_total p) as [b ->]. by exists b. Qed.
Lemma tc_ends_guest_dhcp n ifindex : tc_ends n (tc_guest_dhcp ifindex).
Proof.
  unfold tc_guest_dhcp. apply (tc_ends_meta _ ifindex). intros ports Hp.
  destruct (ports !! ifindex) as [meta|]; [|apply tc_ends_ret]. specialize (Hp meta eq_refl).
  eapply tc_ends_head_bind; [apply runs_looks6|]. intros [|] _; [|by apply tc_ends_dhcpv4].
  eapply tc_ends_seq; [by apply tc_ends_dhcpv6|].
  intros [|] n'; [apply tc_ends_redirect|apply tc_ends_ret].
Qed.
Lemma tc_ends_tail_call n slot m : (∀ n', tc_ends n' m) → tc_ends n (tail_call slot m).
Proof. intros Hm. destruct slot; [apply Hm|apply tc_ends_ret]. Qed.
Lemma tc_ends_respond {B} n k f (m : bool → prog skb B) :
  (∀ p, ∃ r, f p = Some r ∧ ∀ q, r = Some q → length q = length p) →
  (∀ b n', (n <= n')%nat → tc_ends n' (m b)) → tc_ends n (pbind (tc_respond k f) m).
Proof.
  intros Hf Hm s [Hs Hl]. unfold pbind at 1, tc_respond, pbind at 1, pull_data.
  destruct (skb_pull k (w_pkt s.1) s.2) as [j|] eqn:E.
  - apply skb_pull_len in E as [_ [H1 H2]]. unfold on_head, rewrite_opt. cbn [fst w_pkt at_pkt snd].
    assert (length (take j (skb_bytes s)) = j) as Hj by (rewrite length_take; unfold skb_bytes; lia).
    destruct (Hf (take j (skb_bytes s))) as (r & -> & Hr). destruct r as [q|].
    + apply (Hm true j); [lia|]. split; [done|]. cbn. by rewrite (Hr q eq_refl).
    + by apply (Hm false j); [lia|split].
  - unfold pret. by apply (Hm false n).
Qed.

Lemma tc_ends_v4 n slot ifindex et meta :
  port_shaped meta → tc_ends n (tc_v4 slot ifindex et meta).
Proof.
  intros Hp. unfold tc_v4. eapply tc_ends_head_bind; [apply runs_looks4|].
  intros [|] _; [apply tc_ends_tail_call; intros; apply tc_ends_guest_dhcp|].
  destruct (_ =? _); [|apply tc_ends_ret]. apply tc_ends_pull. intros ok n1 _ _.
  eapply tc_ends_head_bind; [apply runs_get_pkt|]. cbv beta. intros p Hl.
  destruct (short p _) eqn:E; [apply tc_ends_ret|]. apply short_false in E. unfold ETH_LEN in E.
  eapply tc_ends_head_bind; [apply runs_forward_decision_v4; [lia|done]|].
  intros v Hv. by apply tc_ends_run_verdict.
Qed.
Lemma tc_ends_v6 n dslot nslot ifindex meta :
  port_shaped meta → tc_ends n (tc_v6 dslot nslot ifindex meta).
Proof.
  intros Hp. pose proof Hp as []. unfold tc_v6. apply tc_ends_pull. intros ok n1 _ _.
  eapply tc_ends_head_bind; [apply runs_get_pkt|]. cbv beta. intros p Hl.
  eapply (tc_ends_bind _ _ anything).
  { destruct (ok && negb (short p _)) eqn:E; [|by apply tc_runs_ret].
    apply andb_true_iff in E as [_ E%negb_true_iff%short_false]. unfold ETH_LEN, IPV6_LEN in *.
    eapply tc_runs_bind; [apply tc_runs_head, runs_rdn; lia|]. intros d _. by apply tc_runs_ret. }
  intros [|] _; [apply tc_ends_tail_call; intros; apply tc_ends_guest_nat64|].
  apply tc_ends_respond; [intros q; by apply try_write_nd_reply_total|].
  intros [|] n2 _; [apply tc_ends_redirect|].
  eapply tc_ends_head_bind; [apply runs_looks6|].
  intros [|] _; [apply tc_ends_tail_call; intros; apply tc_ends_guest_dhcp|].
  apply tc_ends_pull. intros ok2 n3 _ _.
  eapply tc_ends_head_bind; [apply runs_get_pkt|]. cbv beta. intros q Hq.
  destruct (short q _) eqn:E; [apply tc_ends_ret|]. apply short_false in E. unfold ETH_LEN, IPV6_LEN in E.
  eapply tc_ends_head_bind; [apply runs_forward_decision_v6; [lia|done]|].
  intros v Hv. by apply tc_ends_run_verdict.
Qed.
Lemma tc_ends_guest_tx n dslot nslot ifindex : tc_ends n (tc_guest_tx dslot nslot ifindex).
Proof.
  unfold tc_guest_tx. apply (tc_ends_meta _ ifindex). intros ports Hports.
  destruct (ports !! ifindex) as [meta|]; [|apply tc_ends_ret]. pose proof (Hports meta eq_refl) as Hp.
  pose proof Hp as []. eapply tc_ends_head_bind; [apply runs_get_pkt|]. cbv beta. intros p Hl.
  destruct (short p 14) eqn:E; [apply tc_ends_ret|]. apply short_false in E.
  eapply tc_ends_head_bind; [apply runs_rd16; lia|]. intros et _.
  destruct (et =? ETH_P_ARP).
  { apply tc_ends_respond; [intros q; by apply try_write_arp_reply_total|].
    intros [|] n2 _; [apply tc_ends_redirect|apply tc_ends_ret]. }
  destruct (et =? ETH_P_IPV6); [by apply tc_ends_v6|by apply tc_ends_v4].
Qed.
End safety.

(** ** Lemmas: the same on a linear packet *)

(** The kernel finds memory when it is asked for room. *)
Record helpers_succeed `{Kernel} `{SkbKernel} : Prop := {
  hs_head d p : d < 0 → is_Some (adjust_head d p);
  hs_room n h r : (14 <= length h)%nat → is_Some (skb_adjust_room n h r);
  hs_pull n h r : (n <= length (h ++ r))%nat → is_Some (skb_pull n h r) }.

(** XDP and tc actions that mean the same. *)
Definition same_action `{Kernel} `{SkbKernel} (x t : Z) : Prop :=
  x = XDP_PASS ∧ t = TC_ACT_OK ∨ x = XDP_DROP ∧ t = TC_ACT_SHOT ∨
  ∃ i, x = redirect_ret i ∧ t = tc_redirect_ret i.

Section same.
Context `{KL : KernelLaws} `{SL : SkbLaws}.
Context (Hh : helpers_succeed).

(** The two programs end in the same state with the same meaning. *)
Definition agree (x : option (Z * world)) (t : option (Z * skb)) : Prop :=
  ∃ xa ta w, x = Some (xa, w) ∧ t = Some (ta, (w, [])) ∧ same_action xa ta.
Lemma agree_pass w : agree (Some (XDP_PASS, w)) (Some (TC_ACT_OK, (w, []))).
Proof. exists XDP_PASS, TC_ACT_OK, w. split; [done|]. split; [done|]. by left. Qed.

(** On a linear packet a pull only says whether the bytes are there. *)
Lemma pull_linear n w :
  pull_data n (w, []) = Some ((n <=? length (w_pkt w))%nat, (w, [])).
Proof.
  unfold pull_data. cbn [fst snd]. destruct (skb_pull n (w_pkt w) []) as [k|] eqn:E.
  - apply skb_pull_len in E as [Hn [H1 H2]]. rewrite app_nil_r in H2.
    assert (k = length (w_pkt w)) as -> by lia.
    rewrite (proj2 (Nat.leb_le _ _)) by lia. unfold skb_bytes. cbn [fst snd].
    rewrite app_nil_r, firstn_all, drop_all. unfold at_pkt. by destruct w.
  - destruct (n <=? length (w_pkt w))%nat eqn:El; [|done]. zbool.
    destruct (hs_pull Hh n (w_pkt w) []) as [k Ek]; [by rewrite app_nil_r|]. congruence.
Qed.

Lemma verdict_same b v w :
  verdict_shaped v → (14 <= length (w_pkt w))%nat →
  agree (match run_verdict b v w with Some (r, w') => Some (or_pass r, w') | None => None end)
    (tc_run_verdict b v (w, [])).
Proof.
  intros Hv Hl. destruct v as [| |tap mac|e]; cbn [run_verdict tc_run_verdict].
  - apply agree_pass.
  - exists XDP_DROP, TC_ACT_SHOT, w. split; [done|]. split; [done|]. right. by left.
  - unfold pbind, on_head, get_pkt. cbn [fst snd]. destruct (short (w_pkt w) ETH_LEN).
    { apply agree_pass. }
    unfold rewrite_pkt. cbn [fst snd]. destruct (local_eth_total b mac (w_pkt w)) as (q & -> & Hq); [done..|].
    cbn [fst snd]. unfold bpf_redirect, tc_redirect, pret. cbn [fst snd w_pkt w_maps w_tick].
    eexists _, _, _. split; [reflexivity|]. split; [reflexivity|]. right. right. by exists tap.
  - destruct Hv as (H1 & H2 & H3 & H4). unfold encap_out, tc_encap_out, pbind, xdp_adjust_head, resize.
    destruct (hs_head Hh (- Z.of_nat IPV6_LEN) (w_pkt w)) as [p1 E1]; [done|]. rewrite E1.
    apply adjust_head_grow in E1 as (h & Hlh & _ & ->); [|done].
    change (Z.to_nat (- - Z.of_nat IPV6_LEN)) with 40%nat in Hlh.
    unfold adjust_room, skb_resize. cbn [fst snd].
    destruct (hs_room Hh IPV6_LEN (w_pkt w) []) as [[h' r'] E2]; [done|]. rewrite E2.
    apply skb_adjust_room_mac in E2 as (gap & Hg & _ & -> & ->). unfold IPV6_LEN in Hg.
    cbn [negb]. rewrite pull_linear. cbn [w_pkt at_pkt]. unfold ETH_LEN, IPV6_LEN. cbn [Nat.add].
    rewrite (proj2 (Nat.leb_le _ _)) by (rewrite !length_app, length_take, length_drop; lia).
    cbn [negb]. unfold on_head, rewrite_opt. cbn [fst snd w_pkt at_pkt].
    rewrite !write_outer_v6_run' by (try done; rewrite ?length_app, ?length_take, ?length_drop; lia).
    unfold bpf_redirect, tc_redirect, pret, or_pass. cbn [fst snd w_pkt w_maps w_tick].
    replace (drop 54 (take 14 (w_pkt w) ++ gap ++ drop 14 (w_pkt w))) with (drop 54 (h ++ w_pkt w)).
    { eexists _, _, _. split; [reflexivity|]. split; [reflexivity|]. right. right. by eexists. }
    rewrite (drop_app_ge h) by lia. rewrite app_assoc, drop_app_ge
      by (rewrite length_app, length_take; lia).
    rewrite length_app, length_take, Hlh, Hg, Nat.min_l, drop_drop by lia. done.
Qed.

(** Which responder answers which frames. *)
Lemma arp_declines p gw mac :
  (42 <= length p)%nat → w16 p 12 = ETH_P_ARP ∨ try_write_arp_reply p gw mac = Some None.
Proof.
  intros Hl. unfold try_write_arp_reply, ETH_LEN, ARP_LEN. cbn [Nat.add].
  rewrite short_false_eq, (rd16_w16 p 12) by lia. cbn [mbind option_bind].
  destruct (w16 p 12 =? ETH_P_ARP) eqn:E; [left; by apply Z.eqb_eq|right; reflexivity].
Qed.
Lemma arp_short p gw mac : (length p < 42)%nat → try_write_arp_reply p gw mac = Some None.
Proof. intros Hl. unfold try_write_arp_reply, short. by rewrite (proj2 (Nat.ltb_lt _ _)). Qed.
Lemma nd_declines p gw mac :
  (86 <= length p)%nat → w16 p 12 = ETH_P_IPV6 ∨ try_write_nd_reply p gw mac = Some None.
Proof.
  intros Hl. unfold try_write_nd_reply, ETH_LEN, IPV6_LEN. cbn [Nat.add].
  rewrite short_false_eq, (rd16_w16 p 12) by lia. cbn [mbind option_bind].
  destruct (w16 p 12 =? ETH_P_IPV6) eqn:E; [left; by apply Z.eqb_eq|right; reflexivity].
Qed.
Lemma nd_short p gw mac : (length p < 86)%nat → try_write_nd_reply p gw mac = Some None.
Proof. intros Hl. unfold try_write_nd_reply, short. by rewrite (proj2 (Nat.ltb_lt _ _)). Qed.
Lemma nd_not_v6 p gw mac : w16 p 12 ≠ ETH_P_IPV6 → try_write_nd_reply p gw mac = Some None.
Proof.
  intros He. destruct (decide (86 <= length p)%nat) as [H1|H1]; [|apply nd_short; lia].
  by destruct (nd_declines p gw mac H1).
Qed.
Lemma arp_not_arp p gw mac : w16 p 12 ≠ ETH_P_ARP → try_write_arp_reply p gw mac = Some None.
Proof.
  intros He. destruct (decide (42 <= length p)%nat) as [H1|H1]; [|apply arp_short; lia].
  by destruct (arp_declines p gw mac H1).
Qed.
(** What tc takes for DHCP, XDP does too. *)
Lemma looks4_dhcp p : looks_like_dhcpv4 p = Some true → is_dhcp_request p = Some true.
Proof.
  unfold looks_like_dhcpv4, is_dhcp_request, ETH_LEN, MIN_DHCP_LEN. cbn [Nat.add].
  destruct (short p 282) eqn:El; [done|]. apply short_false in El.
  rewrite short_false_eq, !rd16_w16, !rd8_at by lia. cbn [mbind option_bind].
  destruct (w16 p 12 =? ETH_P_IP) eqn:E; cbn [negb]; [|done].
  destruct (Z.land _ _ =? 5); cbn [negb]; [|done].
  by destruct (at_ p 23 =? IPPROTO_UDP).
Qed.
Lemma looks6_dhcp p : looks_like_dhcpv6 p = Some true → is_dhcp_request p = Some true.
Proof.
  unfold looks_like_dhcpv6, is_dhcp_request, ETH_LEN. cbn [Nat.add].
  destruct (short p 66) eqn:El; [done|]. apply short_false in El.
  rewrite short_false_eq, !rd16_w16, !rd8_at by lia. cbn [mbind option_bind].
  destruct (w16 p 12 =? ETH_P_IPV6) eqn:E; cbn [negb]; [|done]. zbool. rewrite E.
  change (ETH_P_IPV6 =? ETH_P_IP) with false. change (ETH_P_IPV6 =? ETH_P_IPV6) with true.
  cbv iota.
  by destruct (at_ p 20 =? IPPROTO_UDP).
Qed.
Lemma looks_false p :
  is_dhcp_request p = Some false → looks_like_dhcpv4 p = Some false ∧ looks_like_dhcpv6 p = Some false.
Proof.
  intros Hd. destruct (looks4_total p) as [[|] E4]; [apply looks4_dhcp in E4; congruence|].
  destruct (looks6_total p) as [[|] E6]; [apply looks6_dhcp in E6; congruence|]. done.
Qed.

(** One step of a program whose outcome is known. *)
Lemma pbind_run {W A B} (m : prog W A) (k : A → prog W B) s a s' :
  m s = Some (a, s') → pbind m k s = k a s'.
Proof. intros E. unfold pbind. by rewrite E. Qed.
(** A responder on a linear packet. *)
Lemma tc_respond_run {B} k f r w (m : bool → prog skb B) :
  f (w_pkt w) = Some r → ((length (w_pkt w) < k)%nat → r = None) →
  pbind (tc_respond k f) m (w, []) =
  match r with Some q => m true (at_pkt w q, []) | None => m false (w, []) end.
Proof.
  intros E Hk. unfold tc_respond, pbind. rewrite (pull_linear k w).
  destruct (k <=? length (w_pkt w))%nat eqn:El.
  - unfold on_head, rewrite_opt. cbn [fst snd]. rewrite E. by destruct r.
  - zbool. by rewrite Hk by lia.
Qed.

(** The result of an XDP handler as the program's action. *)
Definition passed (r : option (result Z * world)) : option (Z * world) :=
  match r with Some (a, w) => Some (or_pass a, w) | None => None end.

(** The forwarding part of both families. *)
Lemma forward_v4_same ifindex meta w :
  shaped (w_maps w) → port_shaped meta → (14 <= length (w_pkt w))%nat → w16 (w_pkt w) 12 = ETH_P_IP →
  agree (passed (v4_guest_tx ifindex meta w))
    ((let* p := on_head get_pkt in
     if short p (ETH_LEN + 20) then pret TC_ACT_OK else
     let* v := on_head (forward_decision_v4 ifindex meta) in tc_run_verdict false v)%dp (w, [])).
Proof.
  intros Hs Hm Hl He. unfold v4_guest_tx, pbind, on_head, get_pkt. cbn [fst snd].
  destruct (short (w_pkt w) (ETH_LEN + 20)) eqn:El; [apply agree_pass|].
  apply short_false in El. unfold ETH_LEN in El. unfold access. rewrite rd16_w16 by lia. rewrite He.
  change (negb (ETH_P_IP =? ETH_P_IP)) with false. cbv iota.
  destruct (runs_forward_decision_v4 (length (w_pkt w)) ifindex meta El Hm w) as (v & w' & E & [Hs' Hl'] & Hv); [done|].
  cbn [fst snd]. rewrite !E. cbn [fst snd]. apply (verdict_same false v w'); [done|lia].
Qed.
Lemma forward_v6_same meta w :
  shaped (w_maps w) → port_shaped meta →
  ((54 <= length (w_pkt w))%nat → is_nat64_addr (slice (w_pkt w) 38 16) = false) →
  agree (passed (v6_guest_tx meta w))
    ((let* p := on_head get_pkt in
     if short p (ETH_LEN + IPV6_LEN) then pret TC_ACT_OK else
     let* v := on_head (forward_decision_v6 meta) in tc_run_verdict true v)%dp (w, [])).
Proof.
  intros Hs Hm Hn.
  assert (nat64_egress (pm_vni meta) (pm_guest_ipv4 meta) (pm_underlay_ipv6 meta) w = Some (Ok None, w)) as E64.
  { unfold nat64_egress, pbind, get_pkt, ETH_LEN, IPV6_LEN. cbn [Nat.add].
    destruct (short (w_pkt w) 62) eqn:E62; [done|]. apply short_false in E62.
    unfold access. rewrite rdn_slice, Hn by lia. done. }
  unfold v6_guest_tx, rbind, pbind, on_head, get_pkt. rewrite E64. cbn [fst snd].
  destruct (short (w_pkt w) (ETH_LEN + IPV6_LEN)) eqn:El; [apply agree_pass|].
  apply short_false in El. unfold ETH_LEN, IPV6_LEN in El.
  destruct (runs_forward_decision_v6 (length (w_pkt w)) meta El Hm w) as (v & w' & E & [Hs' Hl'] & Hv); [done|].
  cbn [fst snd]. rewrite !E. cbn [fst snd]. apply (verdict_same true v w'); [done|lia].
Qed.

(** What XDP does when no responder is concerned. *)
Lemma guest_tx_forwards slot ifindex meta w :
  m_port_meta (w_maps w) !! ifindex = Some meta →
  try_write_arp_reply (w_pkt w) (pm_gateway_ipv4 meta) (pm_guest_mac meta) = Some None →
  try_write_nd_reply (w_pkt w) (pm_gateway_ipv6 meta) (pm_guest_mac meta) = Some None →
  is_dhcp_request (w_pkt w) = Some false →
  guest_tx slot ifindex w =
  passed ((if (14 <=? length (w_pkt w))%nat && (w16 (w_pkt w) 12 =? ETH_P_IPV6) then v6_guest_tx meta
           else v4_guest_tx ifindex meta) w).
Proof.
  intros Em Ea En Ed. unfold guest_tx, try_guest_tx, try_arp_reply, try_nd_reply, rewrite_opt, pbind.
  unfold gets, pret, access, get_pkt. rewrite Em, Ea. cbv beta iota. rewrite En. cbv beta iota.
  rewrite Ed. cbv beta iota.
  destruct (short (w_pkt w) 14) eqn:El.
  - unfold short in El. zbool. rewrite (proj2 (Nat.leb_gt _ _)) by lia. cbn [andb].
    unfold passed. by destruct (v4_guest_tx ifindex meta w) as [[]|].
  - apply short_false in El. rewrite (proj2 (Nat.leb_le _ _)) by lia. cbn [andb].
    rewrite rd16_w16 by lia. unfold passed.
    destruct (w16 (w_pkt w) 12 =? ETH_P_IPV6); [by destruct (v6_guest_tx meta w) as [[]|]|].
    by destruct (v4_guest_tx ifindex meta w) as [[]|].
Qed.

(** A responder's answer is the same redirect, with the same frame. *)
Lemma answered_same i w : agree (Some (redirect_ret i, w)) (Some (tc_redirect_ret i, (w, []))).
Proof. exists (redirect_ret i), (tc_redirect_ret i), w. split; [done|]. split; [done|]. right. right. by exists i. Qed.

(** A frame that is not IP passes. *)
Lemma v4_other ifindex meta w :
  (14 <= length (w_pkt w))%nat → w16 (w_pkt w) 12 ≠ ETH_P_IP →
  passed (v4_guest_tx ifindex meta w) = Some (XDP_PASS, w).
Proof.
  intros Hl He. unfold v4_guest_tx, pbind, get_pkt, access, pret.
  destruct (short (w_pkt w) _); [done|]. rewrite rd16_w16 by lia.
  by rewrite (proj2 (Z.eqb_neq _ _) He).
Qed.
(** The dispatch, on a frame with an ethertype. *)
Lemma tc_guest_tx_enter dslot nslot ifindex meta w :
  m_port_meta (w_maps w) !! ifindex = Some meta → (14 <= length (w_pkt w))%nat →
  tc_guest_tx dslot nslot ifindex (w, []) =
  (if w16 (w_pkt w) 12 =? ETH_P_ARP then
     let* arp := tc_respond (ETH_LEN + ARP_LEN)
                   (λ p, try_write_arp_reply p (pm_gateway_ipv4 meta) (pm_guest_mac meta)) in
     if arp then tc_redirect ifindex else pret TC_ACT_OK
   else if w16 (w_pkt w) 12 =? ETH_P_IPV6 then tc_v6 dslot nslot ifindex meta
   else tc_v4 dslot ifindex (w16 (w_pkt w) 12) meta)%dp (w, []).
Proof.
  intros Em Hl. unfold tc_guest_tx.
  rewrite (pbind_run (on_head (gets m_port_meta)) _ (w, []) (m_port_meta (w_maps w)) (w, [])) by done.
  cbv beta. rewrite Em. rewrite (pbind_run (on_head get_pkt) _ (w, []) (w_pkt w) (w, [])) by done.
  cbv beta. rewrite short_false_eq by done.
  rewrite (pbind_run (on_head (access (λ p, rd16 p 12))) _ (w, []) (w16 (w_pkt w) 12) (w, [])); [done|].
  unfold on_head, access. cbn [fst snd]. by rewrite rd16_w16 by lia.
Qed.

(** ARP frames. *)
Lemma guest_arp_same dslot nslot slot ifindex meta w :
  m_port_meta (w_maps w) !! ifindex = Some meta → port_shaped meta → (14 <= length (w_pkt w))%nat →
  w16 (w_pkt w) 12 = ETH_P_ARP → is_dhcp_request (w_pkt w) = Some false →
  agree (guest_tx slot ifindex w) (tc_guest_tx dslot nslot ifindex (w, [])).
Proof.
  intros Em [] Hl He Hd. rewrite (tc_guest_tx_enter dslot nslot ifindex meta) by done. rewrite He.
  change (ETH_P_ARP =? ETH_P_ARP) with true. cbn iota.
  destruct (try_write_arp_reply_total (w_pkt w) (pm_gateway_ipv4 meta) (pm_guest_mac meta))
    as (r & Er & _); [done..|].
  rewrite (tc_respond_run (ETH_LEN + ARP_LEN) _ r w) by
    (try done; intros Hs; rewrite arp_short in Er by done; congruence).
  destruct r as [q|].
  - unfold guest_tx, try_guest_tx, try_arp_reply, rewrite_opt, pbind, gets, reflect, bpf_redirect, pret.
    rewrite Em, Er. cbn. apply answered_same.
  - rewrite (guest_tx_forwards slot ifindex meta) by (try done; apply nd_not_v6; by rewrite He).
    rewrite He, andb_false_r. rewrite v4_other by (rewrite ?He; done). apply agree_pass.
Qed.

(** IPv4 frames, and those that are neither IP nor ARP. *)
Lemma guest_v4_same dslot nslot slot ifindex meta w :
  shaped (w_maps w) →
  m_port_meta (w_maps w) !! ifindex = Some meta → port_shaped meta → (14 <= length (w_pkt w))%nat →
  w16 (w_pkt w) 12 ≠ ETH_P_ARP → w16 (w_pkt w) 12 ≠ ETH_P_IPV6 →
  is_dhcp_request (w_pkt w) = Some false →
  agree (guest_tx slot ifindex w) (tc_guest_tx dslot nslot ifindex (w, [])).
Proof.
  intros Hs Em Hm Hl Ha H6 Hd. rewrite (tc_guest_tx_enter dslot nslot ifindex meta) by done.
  rewrite (guest_tx_forwards slot ifindex meta) by (done || by apply arp_not_arp || by apply nd_not_v6).
  rewrite (proj2 (Z.eqb_neq _ _) Ha), (proj2 (Z.eqb_neq _ _) H6), andb_false_r. unfold tc_v4.
  rewrite (pbind_run (on_head (access looks_like_dhcpv4)) _ (w, []) false (w, [])); cycle 1.
  { unfold on_head, access. cbn [fst snd]. by rewrite (proj1 (looks_false _ Hd)). }
  cbn iota. destruct (w16 (w_pkt w) 12 =? ETH_P_IP) eqn:E4; zbool.
  - rewrite (pbind_run _ _ _ _ _ (pull_linear (ETH_LEN + 40) w)). by apply forward_v4_same.
  - rewrite v4_other by done. apply agree_pass.
Qed.

(** The destination is looked at where there is one. *)
Lemma nat64_peek b w :
  ((54 <= length (w_pkt w))%nat → is_nat64_addr (slice (w_pkt w) 38 16) = false) →
  (if b && negb (short (w_pkt w) (ETH_LEN + IPV6_LEN)) then
     let* dst := on_head (access (λ p, rdn p (ETH_LEN + 24) 16)) in pret (is_nat64_addr dst)
   else pret false)%dp (w, []) = Some (false, (w, [])).
Proof.
  intros Hn. destruct (_ && _) eqn:E; [|done]. apply andb_true_iff in E as [_ E%negb_true_iff%short_false].
  unfold ETH_LEN, IPV6_LEN in *. cbn [Nat.add] in *. unfold pbind, on_head, access. cbn [fst snd].
  rewrite rdn_slice by lia. by rewrite Hn.
Qed.
(** IPv6 frames. *)
Lemma guest_v6_same dslot nslot slot ifindex meta w :
  shaped (w_maps w) →
  m_port_meta (w_maps w) !! ifindex = Some meta → port_shaped meta → (14 <= length (w_pkt w))%nat →
  w16 (w_pkt w) 12 = ETH_P_IPV6 → is_dhcp_request (w_pkt w) = Some false →
  ((54 <= length (w_pkt w))%nat → is_nat64_addr (slice (w_pkt w) 38 16) = false) →
  agree (guest_tx slot ifindex w) (tc_guest_tx dslot nslot ifindex (w, [])).
Proof.
  intros Hs Em Hm Hl He Hd Hn. rewrite (tc_guest_tx_enter dslot nslot ifindex meta) by done. rewrite He.
  change (ETH_P_IPV6 =? ETH_P_ARP) with false. change (ETH_P_IPV6 =? ETH_P_IPV6) with true. cbn iota.
  unfold tc_v6. rewrite (pbind_run _ _ _ _ _ (pull_linear (ETH_LEN + IPV6_LEN) w)).
  rewrite (pbind_run (on_head get_pkt) _ (w, []) (w_pkt w) (w, [])) by done.
  rewrite (pbind_run _ _ _ _ _ (nat64_peek _ w Hn)). cbn iota.
  destruct (try_write_nd_reply_total (w_pkt w) (pm_gateway_ipv6 meta) (pm_guest_mac meta))
    as (r & Er & _); [by destruct Hm..|].
  rewrite (tc_respond_run (ETH_LEN + IPV6_LEN + 32) _ r w) by
    (try done; intros Hsh; rewrite nd_short in Er by done; congruence).
  destruct r as [q|].
  - unfold guest_tx, try_guest_tx, try_arp_reply, try_nd_reply, rewrite_opt, pbind, gets, reflect,
      bpf_redirect, pret.
    rewrite Em, arp_not_arp by (by rewrite He). cbv beta iota. rewrite Er. cbn. apply answered_same.
  - rewrite (guest_tx_forwards slot ifindex meta) by (done || (apply arp_not_arp; by rewrite He)).
    rewrite (pbind_run (on_head (access looks_like_dhcpv6)) _ (w, []) false (w, [])); cycle 1.
    { unfold on_head, access. cbn [fst snd]. by rewrite (proj2 (looks_false _ Hd)). }
    rewrite (pbind_run _ _ _ _ _ (pull_linear (ETH_LEN + IPV6_LEN) w)).
    rewrite He, (proj2 (Nat.leb_le _ _)) by lia. by apply forward_v6_same.
Qed.

(** A frame without an ethertype passes both programs. *)
Lemma guest_short_same dslot nslot slot ifindex meta w :
  m_port_meta (w_maps w) !! ifindex = Some meta → (length (w_pkt w) < 14)%nat →
  is_dhcp_request (w_pkt w) = Some false →
  agree (guest_tx slot ifindex w) (tc_guest_tx dslot nslot ifindex (w, [])).
Proof.
  intros Em Hl Hd. rewrite (guest_tx_forwards slot ifindex meta)
    by (done || (apply arp_short; lia) || (apply nd_short; lia)).
  rewrite (proj2 (Nat.leb_gt _ _)) by lia. cbn [andb].
  unfold tc_guest_tx, v4_guest_tx, pbind, on_head, gets, get_pkt, pret, short, ETH_LEN.
  cbn [fst snd]. rewrite Em. cbn [fst snd]. rewrite !(proj2 (Nat.ltb_lt _ _)) by lia. apply agree_pass.
Qed.
End same.

(** ** Property *)

(** C6. The two guest edges do the same: on a linear packet that is neither a
    DHCP request nor for NAT64, and while the kernel grants room, the tc program ends
    with the same maps, the same frame, encapsulation included, and the same
    redirect as the XDP program, and with the corresponding action.  This
    covers ARP and neighbor replies, the firewall, metering, address
    translation, local delivery and encapsulation. *)
Theorem tc_guest_as_xdp `{KL : KernelLaws} `{SL : SkbLaws}
    (slot dhcp_slot nat64_slot : bool) (ifindex : Z) (w : world) :
  helpers_succeed → shaped (w_maps w) → is_dhcp_request (w_pkt w) = Some false →
  (w16 (w_pkt w) 12 = ETH_P_IPV6 → (54 <= length (w_pkt w))%nat →
   is_nat64_addr (slice (w_pkt w) 38 16) = false) →
  agree (guest_tx slot ifindex w) (tc_guest_tx dhcp_slot nat64_slot ifindex (w, [])).
Proof.
  intros Hh Hs Hd Hn. destruct (m_port_meta (w_maps w) !! ifindex) as [meta|] eqn:Em.
  - pose proof (sh_port _ Hs ifindex meta Em) as Hm.
    destruct (decide (14 <= length (w_pkt w))%nat); [|apply (guest_short_same _ _ _ _ meta); auto; lia].
    destruct (decide (w16 (w_pkt w) 12 = ETH_P_ARP)); [by eapply guest_arp_same|].
    destruct (decide (w16 (w_pkt w) 12 = ETH_P_IPV6)); [by eapply guest_v6_same; auto|].
    by eapply guest_v4_same.
  - unfold guest_tx, try_guest_tx, tc_guest_tx, pbind, on_head, gets, pret. cbn [fst snd].
    rewrite Em. apply agree_pass.
Qed.

(** A kernel that never runs out of memory: a pull makes all of the packet
    linear, new room is zero. *)
Definition ref_skb_pull (n : nat) (h r : list Z) : option nat :=
  if (n <=? length (h ++ r))%nat then Some (length (h ++ r)) else None.
#[export] Instance ref_skb : SkbKernel := {
  skb_pull := ref_skb_pull;
  skb_change_tail n h r :=
    Some (take n (h ++ r) ++ replicate (n - length (h ++ r)) 0, []);
  skb_adjust_room n h r :=
    if (14 <=? length h)%nat then Some (take 14 h ++ replicate n 0 ++ drop 14 h, r) else None;
  tc_redirect_ret _ := 7 }.
#[export] Instance ref_skb_laws : SkbLaws (SK := ref_skb).
Proof.
  split; unfold skb_pull, skb_change_tail, skb_adjust_room; cbn [ref_skb].
  - intros n h r k. unfold ref_skb_pull. destruct (_ <=? _)%nat eqn:E; [|done]. zbool.
    intros [= <-]. rewrite length_app in *. lia.
  - intros n h r h' r' [= <- <-]. rewrite app_nil_r, length_app, length_take, length_replicate. lia.
  - intros n h r h' r' [= <- <-]. rewrite app_nil_r, take_app_le by (rewrite length_take; lia).
    rewrite take_take. f_equal. lia.
  - intros n h r h' r'. destruct (_ <=? _)%nat eqn:E; [|done]. zbool. intros [= <- <-].
    exists (replicate n 0). rewrite length_replicate. done.
Qed.
Lemma ref_helpers_succeed : helpers_succeed.
Proof.
  split; unfold adjust_head, skb_adjust_room, skb_pull; cbn [ref_skb ref_kernel].
  - intros d p Hd. unfold ref_adjust_head. rewrite (proj2 (Z.leb_gt _ _)) by lia. by eexists.
  - intros n h r Hl. rewrite (proj2 (Nat.leb_le _ _) Hl). by eexists.
  - intros n h r Hl. unfold ref_skb_pull. rewrite (proj2 (Nat.leb_le _ _) Hl). by eexists.
Qed.

Definition demo_edge_world : world :=
  mkWorld (demo_packet 80) (with_port_meta (λ _, {[ 7 := demo_meta ]}) demo_maps) 0 None.
Lemma tc_guest_as_xdp_witness :
  helpers_succeed ∧ agree (guest_tx true 7 demo_edge_world) (tc_guest_tx true true 7 (demo_edge_world, [])).
Proof.
  split; [exact ref_helpers_succeed|]. apply tc_guest_as_xdp.
  - exact ref_helpers_succeed.
  - unfold demo_edge_world. cbn [w_maps]. pose proof demo_maps_shaped as [].
    split; cbn; try done. intros i v [<- <-]%lookup_singleton_Some. apply demo_meta_shaped.
  - reflexivity.
  - intros E _. vm_compute in E. discriminate.
Defined.
