(* ===== verification/TcNat64.v ===== *)
(** * TcNat64

    NAT64 egress exists twice: the XDP program shrinks the frame by the
    difference of the two headers, translates, and grows it for the outer
    headers (xdp-dp-ebpf/src/nat64.rs, [nat64_egress]); the tc program grows it
    once and writes all headers in place ([tc_nat64_egress]).  Here the two
    are shown to build the same packet. *)
From S2P Require Import Prelude Bytes Types Kernel Parse Rewrite Nat Encap Nat64 Dhcp6 Safe Skb Tc.

(** ** Lemmas: the L4 rewrite does not look before the L4 header *)

Lemma rd16_shift x s k : rd16 (x ++ s) (length x + k) = rd16 s k.
Proof.
  assert (∀ j, (x ++ s) !! (length x + j)%nat = s !! j) as E.
  { intros j. rewrite lookup_app_r by lia. f_equal. lia. }
  unfold rd16. by rewrite <- Nat.add_assoc, !E.
Qed.
Lemma wrn_shift x s k b : wrn (x ++ s) (length x + k) b = app x <$> wrn s k b.
Proof.
  unfold wrn. rewrite length_app.
  destruct (k + length b <=? length s)%nat eqn:E; zbool.
  - rewrite (proj2 (Nat.leb_le _ _)) by lia. cbn. f_equal. unfold splice.
    rewrite take_app_add, <- Nat.add_assoc, drop_app_add. by rewrite <- app_assoc.
  - by rewrite (proj2 (Nat.leb_gt _ _)) by lia.
Qed.
Lemma short_shift x s k : short (x ++ s) (length x + k) = short s k.
Proof.
  unfold short. rewrite length_app. destruct (length s <? k)%nat eqn:E; zbool.
  - apply Nat.ltb_lt. lia.
  - apply Nat.ltb_ge. lia.
Qed.
Lemma nat64_l4_shift' x s k src6 dst6 src4 dst4 proto n sport port ck :
  nat64_l4_to_v4 (x ++ s) (length x + k) src6 dst6 src4 dst4 proto n sport port ck =
  option_map (option_map (app x)) (nat64_l4_to_v4 s k src6 dst6 src4 dst4 proto n sport port ck).
Proof.
  unfold nat64_l4_to_v4, nat64_icmp_to_v4, nat64_ports_to_v4, wr8, wr16.
  rewrite <- !Nat.add_assoc, !short_shift, rd16_shift, !wrn_shift.
  destruct (proto =? IPPROTO_ICMP).
  - destruct (rd16 s (k + 6)); [|done]. cbn [mbind option_bind].
    destruct (wrn s k _); [|done]. cbn [mbind option_bind fmap option_fmap option_map].
    rewrite wrn_shift. destruct (wrn _ _ _); [|done]. cbn [mbind option_bind fmap option_fmap option_map].
    rewrite wrn_shift. destruct (wrn _ _ _); [|done]. cbn [mbind option_bind fmap option_fmap option_map].
    rewrite wrn_shift. by destruct (wrn _ _ _).
  - destruct (proto =? IPPROTO_TCP); (destruct (short _ _); [done|]);
      (destruct (wrn s k _); [|done]); cbn [mbind option_bind fmap option_fmap option_map];
      rewrite wrn_shift; by destruct (wrn _ _ _).
Qed.

Lemma nat64_l4_shift m x s k src6 dst6 src4 dst4 proto n sport port ck :
  length x = m →
  nat64_l4_to_v4 (x ++ s) (m + k) src6 dst6 src4 dst4 proto n sport port ck =
  option_map (option_map (app x)) (nat64_l4_to_v4 s k src6 dst6 src4 dst4 proto n sport port ck).
Proof. intros <-. apply nat64_l4_shift'. Qed.

Section same.
Context `{KL : KernelLaws} `{SL : SkbLaws}.
Context (Hh : helpers_succeed).

(** The translated L4 segment: IPv4 header and payload, without what precedes
    it. *)
Lemma v4_frame_split p hdr :
  v4_frame p hdr = (slice p 0 12 ++ to_be16 ETH_P_IP) ++ hdr ++ drop 54 p.
Proof. unfold v4_frame. by rewrite <- !app_assoc. Qed.

(** A step on the linear head, and the pull, of a linear packet. *)
Lemma head_bind {A B} (m : prog world A) (f : A → prog skb B) w :
  pbind (on_head m) f (w, []) = match m w with Some (a, w') => f a (w', []) | None => None end.
Proof. unfold pbind, on_head. cbn [fst snd]. by destruct (m w) as [[a w']|]. Qed.
Lemma pull_bind {B} n (f : bool → prog skb B) w :
  pbind (pull_data n) f (w, []) = f (n <=? length (w_pkt w))%nat (w, []).
Proof. unfold pbind. by rewrite (pull_linear Hh). Qed.

(** What XDP's translation does to the state. *)
Lemma nat64_translate_run src6 dst6 nip d4 proto n sport port ck w w' :
  (54 <= length (w_pkt w))%nat →
  nat64_translate src6 dst6 nip d4 proto n sport port ck w = Some (Ok tt, w') →
  w' = at_pkt w (w_pkt w') ∧
  nat64_l4_to_v4 (v4_frame (w_pkt w) (ip4hdr (wrap16 (20 + n)) (at_ (w_pkt w) 21) proto nip d4))
    34 src6 dst6 nip d4 proto n sport port ck = Some (Some (w_pkt w')).
Proof.
  intros Hl. unfold nat64_translate, pbind, access, ETH_LEN. cbn [Nat.add].
  rewrite !rdn_slice, rd8_at by lia. unfold xdp_adjust_head, resize.
  destruct (adjust_head 20 (w_pkt w)) as [q|] eqn:Ea; [|done].
  apply adjust_head_shrink in Ea as [_ ->]; [|done]. change (Z.to_nat 20) with 20%nat.
  cbn [negb]. unfold get_pkt. cbn [w_pkt]. destruct (short _ _); [done|].
  unfold rewrite_pkt. cbn [w_pkt]. rewrite nat64_v4_headers_run by done.
  unfold rewrite_or_err, rewrite_opt, pbind. cbn [w_pkt].
  destruct (nat64_l4_to_v4 _ _ _ _ _ _ _ _ _ _ _) as [[q|]|] eqn:E; [|done..].
  intros [= <-]. done.
Qed.

(** The two translations build the same segment. *)
Lemma translate_same src6 dst6 nip d4 proto n sport port ck w w' :
  (62 <= length (w_pkt w))%nat →
  nat64_translate src6 dst6 nip d4 proto n sport port ck w = Some (Ok tt, w') →
  ∃ x s, length x = 54%nat ∧ drop 14 (w_pkt w') = s ∧
    length (w_pkt w') = (length (w_pkt w) - 20)%nat ∧
    tc_nat64_translate src6 dst6 nip d4 proto n (at_ (w_pkt w) 21) sport port ck (w, []) =
      Some (Ok tt, (at_pkt w (x ++ s), [])) ∧ w' = at_pkt w (w_pkt w').
Proof.
  intros Hl E. apply nat64_translate_run in E as [Ew E]; [|lia].
  set (hdr := ip4hdr _ _ _ _ _) in E. assert (length hdr = 20%nat) as Hh20 by done.
  set (p := w_pkt w) in *. rewrite v4_frame_split in E.
  set (y := slice p 0 12 ++ to_be16 ETH_P_IP) in E.
  assert (length y = 14%nat) as Hy.
  { unfold y. rewrite length_app, length_slice by lia. done. }
  rewrite (nat64_l4_shift 14 y (hdr ++ drop 54 p) 20 _ _ _ _ _ _ _ _ _ Hy) in E.
  destruct (nat64_l4_to_v4 (hdr ++ drop 54 p) 20 _ _ _ _ _ _ _ _ _) as [[s|]|] eqn:El in E; [|done..].
  injection E as E. assert (length s = (length p - 34)%nat) as Hls.
  { pose proof (nat64_l4_to_v4_total (hdr ++ drop 54 p) 20 src6 dst6 nip d4 proto n sport port ck)
      as (r0 & Er & Hr); [rewrite length_app, length_drop; lia|].
    rewrite El in Er. injection Er as <-. rewrite (Hr s eq_refl), length_app, length_drop. lia. }
  unfold tc_nat64_translate, pbind at 1, adjust_room, skb_resize. cbn [fst snd].
  destruct (hs_room Hh 20 p []) as [[h r] Er]; [lia|]. fold p. rewrite Er.
  apply skb_adjust_room_mac in Er as (gap & Hg & _ & -> & ->). cbn [negb].
  unfold pbind at 1. rewrite (pull_linear Hh). cbn [w_pkt at_pkt]. unfold ETH_LEN, IPV6_LEN. cbn [Nat.add].
  set (x0 := take 14 p ++ gap ++ drop 14 p).
  assert (length x0 = (length p + 20)%nat) as Hx0.
  { unfold x0. rewrite !length_app, length_take, length_drop. lia. }
  rewrite (proj2 (Nat.leb_le _ _)) by lia. cbn [negb].
  unfold pbind at 1, on_head at 1, get_pkt. cbn [fst snd w_pkt at_pkt].
  rewrite short_false_eq by lia. unfold pbind, on_head, rewrite_pkt. cbn [fst snd w_pkt at_pkt].
  fold hdr. rewrite wrn_splice by (rewrite Hh20; lia).
  assert (splice x0 54 hdr = take 54 x0 ++ hdr ++ drop 54 p) as Es.
  { unfold splice. rewrite Hh20. do 2 f_equal. unfold x0.
    rewrite app_assoc, drop_app_ge by (rewrite length_app, length_take; lia).
    rewrite drop_drop. f_equal. rewrite length_app, length_take. lia. }
  rewrite Es. assert (length (take 54 x0) = 54%nat) as Hx by (rewrite length_take; lia).
  unfold rewrite_or_err, rewrite_opt, pbind. cbn [fst snd w_pkt].
  rewrite (nat64_l4_shift 54 (take 54 x0) (hdr ++ drop 54 p) 20 _ _ _ _ _ _ _ _ _ Hx), El.
  cbn [option_map].
  exists (take 54 x0), s. rewrite <- E, length_app. split; [done|].
  split; [rewrite <- Hy; apply drop_app_length|]. split; [lia|]. by rewrite E.
Qed.

(** Behind the same outer headers. *)
Lemma forward_same vni d4 ul n x s w2 act w' :
  shaped (w_maps w2) → length ul = 16%nat → length x = 54%nat →
  (14 <= length (w_pkt w2))%nat → drop 14 (w_pkt w2) = s →
  wrap16 (Z.of_nat (length (w_pkt w2) - ETH_LEN)) = wrap16 (20 + n) →
  nat64_forward vni d4 ul w2 = Some (Ok (Some act), w') →
  ∃ i, w_redirect w' = Some i ∧
    tc_nat64_forward vni d4 ul n (at_pkt w2 (x ++ s), []) =
      Some (Ok (Some (tc_redirect_ret i)), (w', [])).
Proof.
  intros Hs Hul Hx Hl Hd Hn. unfold nat64_forward, tc_nat64_forward, pbind at 1 5, on_head, gets.
  cbn [fst snd w_maps at_pkt]. destruct (lpm_lookup _ _ _) as [route|] eqn:Er; [|done].
  pose proof Er as [k Hk]%lpm_lookup_stored. pose proof (sh_routes _ Hs _ _ Hk) as Hnh.
  unfold pbind, get_pkt, rbind. cbn [fst snd w_maps at_pkt].
  destruct (m_local (w_maps w2)) as [l|] eqn:Elo; [|done]. destruct (sh_local _ Hs _ Elo) as [Hu Hg].
  rewrite Hn. unfold encap_and_redirect. set (e := mkEncapParams _ _ _ _ _ _ _).
  unfold encap_out, xdp_adjust_head, resize, pbind.
  destruct (adjust_head _ (w_pkt w2)) as [q|] eqn:Ea; [|done].
  apply adjust_head_grow in Ea as (h & Hlh & _ & ->); [|done]. change (Z.to_nat _) with 40%nat in Hlh.
  cbn [negb]. unfold rewrite_opt. cbn [w_pkt at_pkt fst snd].
  rewrite (write_outer_v6_run' _ e) by (try done; rewrite length_app; lia).
  assert (drop 54 (h ++ w_pkt w2) = s) as E1 by (rewrite drop_app_ge by lia; by rewrite Hlh).
  assert (drop 54 (x ++ s) = s) as E2 by (rewrite <- Hx; apply drop_app_length).
  rewrite E1. cbn [negb]. unfold bpf_redirect, tc_redirect, pret. intros [= _ <-].
  exists (lo_uplink_ifindex l). split; [done|].
  rewrite Er. cbn [fst snd w_maps at_pkt]. rewrite Elo. cbn [fst snd w_pkt at_pkt]. fold e.
  rewrite (write_outer_v6_run' _ e) by (try done; rewrite length_app; lia). by rewrite E2.
Qed.

(** The port comes from the same allocation, which leaves the frame alone. *)
Lemma egress_same vni guest ul w act w' :
  shaped (w_maps w) → length guest = 4%nat → length ul = 16%nat → bytes_ok (w_pkt w) →
  length (w_pkt w) = (54 + Z.to_nat (w16 (w_pkt w) 18))%nat →
  nat64_egress vni guest ul w = Some (Ok (Some act), w') →
  ∃ i, w_redirect w' = Some i ∧
    tc_nat64_egress vni guest ul (w, []) = Some (Ok (Some (tc_redirect_ret i)), (w', [])).
Proof.
  intros Hs Hg Hul Hb Hlen E. unfold nat64_egress, ETH_LEN, IPV6_LEN in E. cbn [Nat.add] in E.
  unfold pbind at 1, get_pkt in E.
  destruct (short (w_pkt w) 62) eqn:E62; [done|]. pose proof E62 as Hl. apply short_false in Hl.
  unfold tc_nat64_egress, ETH_LEN, IPV6_LEN. cbn [Nat.add].
  rewrite pull_bind, head_bind. unfold get_pkt at 1. rewrite E62.
  unfold pbind at 1, access in E. rewrite head_bind. unfold access at 1.
  rewrite !rdn_slice in E |- * by lia. destruct (negb _); [done|].
  unfold pbind at 1, gets in E. rewrite head_bind. unfold gets at 1.
  destruct (m_nat (w_maps w) !! mkNatKey vni guest) as [nat|] eqn:En; [|done].
  destruct (_ =? 0); [done|].
  unfold pbind at 1 in E. rewrite head_bind. unfold access at 1. rewrite rdn_slice in E |- * by lia.
  unfold pbind at 1 in E. rewrite head_bind. unfold access at 1. rewrite rd8_at in E |- * by lia.
  unfold pbind at 1 in E. rewrite head_bind. unfold access at 1. rewrite rd16_w16 in E |- * by lia.
  rewrite short_false_eq in E |- * by (cbn; lia).
  unfold pbind at 1 in E. rewrite head_bind. unfold access at 1.
  destruct (nat64_l4 _ _) as [[[[[proto sport] dport] ck]|]|]; [|done..].
  apply pbind_inv in E as (port & w1 & Ep & E). rewrite head_bind, Ep.
  apply rbind_inv in E as ([] & w2 & E2 & E).
  destruct (runs_nat_port_of (length (w_pkt w)) CT_F_NAT64
    (mkCtKey vni guest (drop 12 (slice (w_pkt w) 38 16)) sport dport proto) (nv_nat_ipv4 nat)
    (nv_port_min nat) (wrap16 (nv_port_max nat - nv_port_min nat)) Hg (sh_nat _ Hs _ _ En) w)
    as (port' & w1' & Ep' & [Hs1 _] & _); [done|].
  rewrite Ep in Ep'. injection Ep' as <- <-.
  edestruct nat_port_of_run as (port' & w1' & Ep' & [Hf _] & _). rewrite Ep in Ep'.
  injection Ep' as <- <-.
  rewrite head_bind. unfold access. rewrite rd8_at by (rewrite Hf; lia).
  destruct (translate_same _ _ _ _ _ _ _ _ _ _ _ ltac:(rewrite Hf; lia) E2)
    as (x & s & Hx & Hd & Hl2 & Et & E2'). rewrite Hf in Hl2.
  unfold rbind, pbind. rewrite Et. rewrite E2' in E.
  eapply forward_same in E as (i & Hi & E); try done.
  - exists i. split; [done|]. rewrite <- E. by rewrite E2'.
  - cbn [w_pkt at_pkt]. lia.
  - cbn [w_pkt at_pkt]. unfold ETH_LEN. pose proof (w16_range (w_pkt w) 18 Hb). f_equal. lia.
Qed.
End same.

(** ** Property *)

(** C7. NAT64 on the two guest edges: whatever the XDP program translates and
    sends to the uplink, on a linear frame that ends with its IPv6 payload,
    the tc program sends to the same interface, with the same bytes
    (translated headers, port, checksums and outer headers) and the same maps,
    so that both allocate the same NAT port. *)
Theorem tc_nat64_as_xdp `{KL : KernelLaws} `{SL : SkbLaws} (vni : Z) (guest underlay : list Z)
    (w w' : world) (act : Z) :
  helpers_succeed → shaped (w_maps w) → length guest = 4%nat → length underlay = 16%nat →
  bytes_ok (w_pkt w) → length (w_pkt w) = (54 + Z.to_nat (w16 (w_pkt w) 18))%nat →
  nat64_egress vni guest underlay w = Some (Ok (Some act), w') →
  ∃ ifindex, w_redirect w' = Some ifindex ∧
    tc_nat64_egress vni guest underlay (w, []) =
      Some (Ok (Some (tc_redirect_ret ifindex)), (w', [])).
Proof. intros Hh. by apply egress_same. Qed.

Lemma demo_nat64_shaped : shaped demo_nat64_maps.
Proof.
  pose proof empty_maps_shaped as []. split; cbn; try done.
  - by refine (singleton_all (K := LpmKey) _ _ (λ r, length (rv_nexthop_ipv6 r) = 16%nat) _).
  - by intros l [= <-].
  - by refine (singleton_all (K := NatKey) _ _ (λ n, length (nv_nat_ipv4 n) = 4%nat) _).
Qed.

Lemma tc_nat64_as_xdp_witness :
  ∃ act w' i,
    nat64_egress 100 [10; 0; 0; 5] (replicate 16 1) demo_nat64_world = Some (Ok (Some act), w') ∧
    w_redirect w' = Some i ∧
    tc_nat64_egress 100 [10; 0; 0; 5] (replicate 16 1) (demo_nat64_world, []) =
      Some (Ok (Some (tc_redirect_ret i)), (w', [])).
Proof.
  destruct (acted_inv (nat64_egress 100 [10; 0; 0; 5] (replicate 16 1) demo_nat64_world))
    as (act & w' & E); [reflexivity|].
  exists act, w'.
  edestruct (tc_nat64_as_xdp 100 [10; 0; 0; 5] (replicate 16 1) demo_nat64_world w' act)
    as (i & H); [..|exists i; split; [exact E|exact H]].
  - exact ref_helpers_succeed.
  - exact demo_nat64_shaped.
  - reflexivity.
  - reflexivity.
  - by apply bytes_ok_b.
  - vm_compute. reflexivity.
  - exact E.
Defined.
