(* ===== verification/Host.v ===== *)
(** * Host

    What the control plane takes from the operating system, and the parsing of
    it: netdev names ([resolve_iface], xdp-dp/src/control.rs), interface
    indices and MAC addresses (xdp-dp/src/main.rs).  Files are strings of
    ASCII bytes. *)
From Stdlib Require Import Ascii.
From stdpp Require Export strings pretty.
From S2P Require Import Prelude Bytes.
Local Open Scope string_scope.
Local Open Scope Z_scope.

(** ** Definitions *)

(** Whether a path exists, the contents of a file, and whether attaching the
    guest program (tc or XDP) to a netdev succeeds. *)
Class Host := {
  path_exists : string → bool;
  read_file : string → option string;
  attach_guest : bool → string → bool }.

(** [str::strip_prefix]. *)
Fixpoint strip_prefix (pre s : string) : option string :=
  match pre, s with
  | "", _ => Some s
  | String a pre, String b s => if Ascii.eqb a b then strip_prefix pre s else None
  | _, "" => None
  end.

(** The value of a digit in a radix up to 16. *)
Definition digit (radix : Z) (c : ascii) : option Z :=
  let n := Z.of_N (N_of_ascii c) in
  let v := if (48 <=? n) && (n <=? 57) then n - 48
           else if (97 <=? n) && (n <=? 102) then n - 87
           else if (65 <=? n) && (n <=? 70) then n - 55 else 16 in
  if v <? radix then Some v else None.

(** [from_str_radix] of an unsigned type with maximum [max]: an optional plus
    sign, then at least one digit; [None] on a bad digit or overflow. *)
Fixpoint digits_from (radix max acc : Z) (s : string) : option Z :=
  match s with
  | "" => Some acc
  | String c s =>
      match digit radix c with
      | None => None
      | Some d =>
          let acc := acc * radix + d in
          if max <? acc then None else digits_from radix max acc s
      end
  end.
Definition from_str_radix (radix max : Z) (s : string) : option Z :=
  let body := match s with String c r => if Ascii.eqb c "+" then r else s | "" => s end in
  match body with "" => None | _ => digits_from radix max 0 body end.
(** [s.parse::<u32>()]. *)
Definition parse_u32 (s : string) : option Z := from_str_radix 10 4294967295 s.

(** [str::trim] on ASCII text. *)
Definition is_space (c : ascii) : bool :=
  let n := N_of_ascii c in ((9 <=? n) && (n <=? 13) || (n =? 32))%N.
Fixpoint trim_start (s : string) : string :=
  match s with String c r => if is_space c then trim_start r else s | "" => "" end.
Fixpoint trim_end (s : string) : string :=
  match s with
  | "" => ""
  | String c r => match trim_end r with
                  | "" => if is_space c then "" else String c ""
                  | r => String c r
                  end
  end.
Definition trim (s : string) : string := trim_end (trim_start s).

(** [str::split(sep)]: the pieces between separators, at least one. *)
Fixpoint split (sep : ascii) (s : string) : list string :=
  match s with
  | "" => [""]
  | String c r =>
      if Ascii.eqb c sep then "" :: split sep r
      else match split sep r with
           | [] => [String c ""]
           | p :: ps => String c p :: ps
           end
  end.

(** [parse_mac]: the loop over the pieces, then the count. *)
Fixpoint mac_octets (i : nat) (parts : list string) : option (list Z) :=
  match parts with
  | [] => Some []
  | p :: ps =>
      if (6 <=? i)%nat then None else
      b ← from_str_radix 16 255 p;
      bs ← mac_octets (S i) ps;
      Some (b :: bs)
  end.
Definition parse_mac (s : string) : option (list Z) :=
  out ← mac_octets 0 (split ":" s);
  if (length out =? 6)%nat then Some out else None.

(** [ifindex], [mac_of]: read a sysfs file and parse it. *)
Definition ifindex `{Host} (iface : string) : option Z :=
  s ← read_file ("/sys/class/net/" +:+ iface +:+ "/ifindex");
  parse_u32 (trim s).
Definition mac_of `{Host} (iface : string) : option (list Z) :=
  s ← read_file ("/sys/class/net/" +:+ iface +:+ "/address");
  parse_mac (trim s).

(** [resolve_iface]: an existing netdev is itself; [net_tapN], [N >= 2],
    names the kernel tap [dtapvf_(N-2)]. *)
Definition resolve_iface `{Host} (device : string) : string :=
  if path_exists ("/sys/class/net/" +:+ device) then device else
  match strip_prefix "net_tap" device ≫= parse_u32 with
  | Some n => if 2 <=? n then "dtapvf_" +:+ pretty (Z.to_N (n - 2)) else device
  | None => device
  end.

(** ** Lemmas *)

Lemma digit_char d : (d < 10)%N → digit 10 (pretty_N_char d) = Some (Z.of_N d).
Proof.
  intros H. destruct d as [|p]; [done|].
  do 4 (destruct p as [p|p|]; try reflexivity; try (exfalso; lia)).
Qed.

Lemma pretty_go_digits max x s :
  (0 < x)%N → Z.of_N x <= max →
  digits_from 10 max 0 (pretty_N_go x s) = digits_from 10 max (Z.of_N x) s.
Proof.
  revert s. induction (N.lt_wf_0 x) as [x _ IH]. intros s Hx Hm. rewrite pretty_N_go_step by done.
  pose proof (N.div_mod x 10 ltac:(done)) as Hd. pose proof (N.mod_lt x 10 ltac:(done)) as Hr.
  assert (∀ q, (q = x / 10)%N →
    digits_from 10 max (Z.of_N q) (String (pretty_N_char (x `mod` 10)) s)
    = digits_from 10 max (Z.of_N x) s) as Hstep.
  { intros q ->. cbn [digits_from]. rewrite digit_char by lia.
    replace (Z.of_N (x / 10) * 10 + Z.of_N (x `mod` 10)) with (Z.of_N x)
      by (rewrite Hd at 1; generalize (x / 10)%N (x `mod` 10)%N; lia).
    by rewrite (proj2 (Z.ltb_ge _ _)). }
  destruct (decide (x / 10 = 0)%N) as [E|E].
  - rewrite E, pretty_N_go_0. by apply (Hstep 0%N).
  - rewrite IH; [by apply Hstep|apply N.div_lt; lia|revert E; generalize (x / 10)%N; lia|].
    clear Hstep. revert Hd. generalize (x / 10)%N (x `mod` 10)%N. lia.
Qed.

Lemma pretty_go_head x s :
  (0 < x)%N → ∃ d r, (d < 10)%N ∧ pretty_N_go x s = String (pretty_N_char d) r.
Proof.
  revert s. induction (N.lt_wf_0 x) as [x _ IH]. intros s Hx. rewrite pretty_N_go_step by done.
  destruct (decide (x / 10 = 0)%N) as [E|E].
  - rewrite E, pretty_N_go_0. exists (x `mod` 10)%N, s. split; [by apply N.mod_lt|done].
  - apply IH; [apply N.div_lt; lia|revert E; generalize (x / 10)%N; lia].
Qed.

(** Numbers print and parse back. *)
Lemma parse_pretty max n :
  Z.of_N n <= max → from_str_radix 10 max (pretty n) = Some (Z.of_N n).
Proof.
  intros Hm. unfold pretty, pretty_N. destruct (decide (n = 0)%N) as [->|Hn].
  - unfold from_str_radix. cbn -[Z.ltb]. change (Z.of_N 0) with 0 in Hm.
    change (digit 10 "0") with (Some 0). cbn -[Z.ltb]. by rewrite (proj2 (Z.ltb_ge max _)).
  - assert (0 < n)%N as Hp by lia. pose proof (pretty_go_digits max n "" Hp Hm) as E.
    destruct (pretty_go_head n "" Hp) as (d & r & Hd & Er). rewrite Er in *.
    unfold from_str_radix. replace (Ascii.eqb (pretty_N_char d) "+") with false; [exact E|].
    clear -Hd. destruct d as [|p]; [done|].
    do 4 (destruct p as [p|p|]; try reflexivity; try (exfalso; lia)).
Qed.

Lemma digits_from_range radix max acc s n :
  0 <= radix → 0 <= acc <= max → digits_from radix max acc s = Some n → 0 <= n <= max.
Proof.
  intros Hr. revert acc. induction s as [|c s IH]; intros acc Ha; cbn; [by intros [= <-]|].
  destruct (digit radix c) as [d|] eqn:Ed; [|done].
  assert (0 <= d) as Hd.
  { unfold digit in Ed. destruct (_ <? radix); [|done]. injection Ed as <-.
    destruct (_ && _) eqn:E1; zbool; [apply andb_true_iff in E1; zbool; lia|].
    destruct ((97 <=? _) && _) eqn:E2; [apply andb_true_iff in E2 as [? ?]; zbool; lia|].
    destruct ((65 <=? _) && _) eqn:E3; [apply andb_true_iff in E3 as [? ?]; zbool; lia|]. lia. }
  destruct (max <? _) eqn:E; [done|]. zbool. apply IH. nia.
Qed.

Lemma from_str_radix_range radix max s n :
  0 <= radix → 0 <= max → from_str_radix radix max s = Some n → 0 <= n <= max.
Proof.
  intros Hr Hm. unfold from_str_radix.
  destruct s as [|c r]; [done|]. destruct (Ascii.eqb c "+").
  - destruct r; [done|]. apply digits_from_range; lia.
  - apply digits_from_range; lia.
Qed.

Lemma string_cons_app c (s t : string) : String c s +:+ t = String c (s +:+ t).
Proof. done. Qed.

(** ** Specification: MAC addresses as sysfs prints them *)

Definition hex_digit (n : Z) : ascii :=
  ascii_of_N (Z.to_N (if n <? 10 then 48 + n else 87 + n)).
Definition hex2 (b : Z) : string :=
  String (hex_digit (b / 16)) (String (hex_digit (b mod 16)) "").
Fixpoint format_mac (m : list Z) : string :=
  match m with
  | [] => ""
  | [b] => hex2 b
  | b :: m => hex2 b +:+ String ":" (format_mac m)
  end.

(** A character that neither separates octets nor is white space. *)
Definition plain (c : ascii) : bool := negb (Ascii.eqb c ":") && negb (is_space c).
Definition hex2_ok (b : Z) : bool :=
  bool_decide (from_str_radix 16 255 (hex2 b) = Some b)
  && plain (hex_digit (b / 16)) && plain (hex_digit (b mod 16)).

Lemma hex2_all b : is_byte b → hex2_ok b = true.
Proof.
  intros Hb. assert (forallb hex2_ok (seqZ 0 256) = true) as H by (vm_compute; reflexivity).
  rewrite forallb_forall in H. apply H, list_elem_of_In, elem_of_seqZ. unfold is_byte in Hb. lia.
Qed.

Lemma hex2_parse b : is_byte b → from_str_radix 16 255 (hex2 b) = Some b.
Proof.
  intros Hb%hex2_all. unfold hex2_ok in Hb. apply andb_true_iff in Hb as [Hb _].
  apply andb_true_iff in Hb as [Hb _]. by zbool.
Qed.
Lemma hex2_plain b : is_byte b → plain (hex_digit (b / 16)) = true ∧ plain (hex_digit (b mod 16)) = true.
Proof.
  intros Hb%hex2_all. unfold hex2_ok in Hb. apply andb_true_iff in Hb as [Hb H2].
  by apply andb_true_iff in Hb as [_ H1].
Qed.

Lemma split_plain c s : plain c = true →
  split ":" (String c s) = match split ":" s with [] => [String c ""] | p :: ps => String c p :: ps end.
Proof. unfold plain. intros H%andb_true_iff. cbn. destruct H as [H _]. by destruct (Ascii.eqb c ":"). Qed.

Lemma split_hex2 b s : is_byte b →
  split ":" (hex2 b +:+ String ":" s) = hex2 b :: split ":" s.
Proof.
  intros Hb. apply hex2_plain in Hb as [H1 H2]. unfold hex2. rewrite !string_cons_app.
  by rewrite !split_plain by done.
Qed.

Lemma split_format m : bytes_ok m → m ≠ [] → split ":" (format_mac m) = hex2 <$> m.
Proof.
  intros Hm Hne. induction Hm as [|b m Hb Hm IH]; [done|]. destruct m as [|b' m].
  - apply hex2_plain in Hb as [H1 H2]. change (format_mac [b]) with (hex2 b).
    unfold hex2. by rewrite !split_plain by done.
  - change (format_mac (b :: b' :: m)) with (hex2 b +:+ String ":" (format_mac (b' :: m))).
    rewrite split_hex2 by done. by rewrite IH.
Qed.

Lemma mac_octets_format i m :
  bytes_ok m → (i + length m <= 6)%nat → mac_octets i (hex2 <$> m) = Some m.
Proof.
  intros Hm. revert i. induction Hm as [|b m Hb Hm IH]; intros i Hl; [done|].
  cbn [length] in Hl. cbn [fmap list_fmap mac_octets].
  rewrite (proj2 (Nat.leb_gt _ _)) by lia. rewrite hex2_parse by done.
  cbn [mbind option_bind]. rewrite IH by lia. done.
Qed.

Lemma parse_format m : is_arr 6 m → parse_mac (format_mac m) = Some m.
Proof.
  intros [Hl Hb]. unfold parse_mac. rewrite split_format by (done || by destruct m).
  rewrite mac_octets_format by (done || lia). cbn [mbind option_bind]. by rewrite Hl.
Qed.

(** Text without white space, with a newline after it. *)
Lemma trim_start_plain c s : plain c = true → trim_start (String c s) = String c s.
Proof. unfold plain. intros H%andb_true_iff. cbn. destruct H as [_ H]. by destruct (is_space c). Qed.
Fixpoint all_chars (p : ascii → bool) (s : string) : bool :=
  match s with "" => true | String c s => p c && all_chars p s end.
Lemma trim_end_line s :
  all_chars (λ c, negb (is_space c)) s = true → trim_end (s +:+ String "010" "") = s.
Proof.
  induction s as [|c s IH]; [done|]. cbn [all_chars]. intros [Hc Hs]%andb_true_iff.
  rewrite string_cons_app. cbn [trim_end]. rewrite IH by done.
  destruct s; [|done]. by destruct (is_space c).
Qed.
Lemma all_chars_app p s t : all_chars p (s +:+ t) = all_chars p s && all_chars p t.
Proof. induction s as [|c s IH]; [done|]. rewrite string_cons_app. cbn. by rewrite IH, andb_assoc. Qed.

Lemma hex2_no_space b : is_byte b → all_chars (λ c, negb (is_space c)) (hex2 b) = true.
Proof.
  intros Hb. apply hex2_plain in Hb as [H1 H2]. unfold plain in *.
  apply andb_true_iff in H1 as [_ H1], H2 as [_ H2]. cbn. by rewrite H1, H2.
Qed.
Lemma format_no_space m : bytes_ok m → all_chars (λ c, negb (is_space c)) (format_mac m) = true.
Proof.
  intros Hm. induction Hm as [|b m Hb Hm IH]; [done|]. destruct m as [|b' m].
  - by apply hex2_no_space.
  - change (format_mac (b :: b' :: m)) with (hex2 b +:+ String ":" (format_mac (b' :: m))).
    rewrite all_chars_app, hex2_no_space by done. exact IH.
Qed.

Lemma trim_line m : is_arr 6 m → trim (format_mac m +:+ String "010" "") = format_mac m.
Proof.
  intros [Hl Hb]. unfold trim. destruct m as [|b m]; [done|].
  inversion Hb as [|? ? Hb0 Hbm]; subst. pose proof (hex2_plain b Hb0) as [H1 _].
  assert (∃ r, format_mac (b :: m) = String (hex_digit (b / 16)) r) as [r E].
  { destruct m; [by eexists|]. cbn. by eexists. }
  rewrite E, string_cons_app, trim_start_plain by done. rewrite <- string_cons_app, <- E.
  by apply trim_end_line, format_no_space.
Qed.

Lemma mac_octets_bytes i ps m : mac_octets i ps = Some m → bytes_ok m.
Proof.
  revert i m. induction ps as [|q ps IH]; intros i m; cbn [mac_octets]; [by intros [= <-]; constructor|].
  destruct (6 <=? i)%nat; [done|].
  destruct (from_str_radix 16 255 q) as [b|] eqn:Eb; [|done].
  destruct (mac_octets (S i) ps) as [bs|] eqn:Ebs; [|done]. intros [= <-].
  apply from_str_radix_range in Eb; [|lia..]. constructor; [unfold is_byte; lia|by eapply IH].
Qed.
Lemma parse_mac_arr s m : parse_mac s = Some m → is_arr 6 m.
Proof.
  unfold parse_mac. destruct (mac_octets 0 (split ":" s)) as [out|] eqn:E; [|done].
  cbn [mbind option_bind]. destruct (_ =? _)%nat eqn:El; [|done]. intros [= <-].
  split; [by apply Nat.eqb_eq|by eapply mac_octets_bytes].
Qed.
Lemma mac_of_arr `{Host} iface m : mac_of iface = Some m → is_arr 6 m.
Proof. unfold mac_of. destruct (read_file _); cbn [mbind option_bind]; [apply parse_mac_arr|done]. Qed.

(** ** Properties *)

(** The MAC address the daemon gives a guest is the one its tap has: the
    address file sysfs shows for the netdev reads back as those six bytes;
    and whatever the file holds, an address that is accepted is six bytes. *)
Theorem mac_of_sysfs `{Host} (iface : string) (m : list Z) :
  is_arr 6 m →
  read_file ("/sys/class/net/" +:+ iface +:+ "/address") = Some (format_mac m +:+ String "010" "") →
  mac_of iface = Some m ∧ ∀ s m', parse_mac s = Some m' → is_arr 6 m'.
Proof.
  intros Hm E. split; [|apply parse_mac_arr]. unfold mac_of. rewrite E. cbn [mbind option_bind].
  rewrite trim_line by done. by apply parse_format.
Qed.

(** A host with one tap. *)
Definition demo_host : Host := {|
  path_exists p := bool_decide (p = "/sys/class/net/dtapvf_0");
  read_file p :=
    if bool_decide (p = "/sys/class/net/dtapvf_0/address") then Some ("02:00:00:00:00:09" +:+ String "010" "")
    else if bool_decide (p = "/sys/class/net/dtapvf_0/ifindex") then Some ("7" +:+ String "010" "")
    else None;
  attach_guest _ _ := true |}.

Lemma mac_of_sysfs_witness : mac_of (H := demo_host) "dtapvf_0" = Some [2; 0; 0; 0; 0; 9].
Proof.
  refine (proj1 (mac_of_sysfs (H := demo_host) "dtapvf_0" [2; 0; 0; 0; 0; 9] _ _)).
  - by apply is_arr_b.
  - vm_compute. reflexivity.
Defined.

(** The DPDK device names of the gRPC clients resolve to the kernel taps
    their traffic uses: [net_tap(N+2)] to [dtapvf_N], unless a netdev has
    that very name. *)
Theorem resolve_iface_tap `{Host} (n : N) :
  path_exists ("/sys/class/net/" +:+ "net_tap" +:+ pretty (n + 2)%N) = false →
  (n + 2 < 2 ^ 32)%N →
  resolve_iface ("net_tap" +:+ pretty (n + 2)%N) = "dtapvf_" +:+ pretty n.
Proof.
  intros He Hn. unfold resolve_iface. rewrite He.
  change (strip_prefix "net_tap" ("net_tap" +:+ pretty (n + 2)%N)) with (Some (pretty (n + 2)%N)).
  cbn [mbind option_bind]. unfold parse_u32. rewrite parse_pretty by lia.
  rewrite (proj2 (Z.leb_le _ _)) by lia. do 3 f_equal. lia.
Qed.

Lemma resolve_iface_tap_witness :
  resolve_iface (H := demo_host) ("net_tap" +:+ pretty (0 + 2)%N) = "dtapvf_" +:+ pretty 0%N.
Proof. apply (resolve_iface_tap (H := demo_host) 0%N); [vm_compute; reflexivity|lia]. Defined.

(** A host with an uplink and a tap. *)
Definition demo_node_host : Host := {|
  path_exists p := bool_decide (p = "/sys/class/net/eth0") || path_exists (Host := demo_host) p;
  read_file p :=
    if bool_decide (p = "/sys/class/net/eth0/address") then Some "02:00:00:00:00:01"
    else if bool_decide (p = "/sys/class/net/eth0/ifindex") then Some "2"
    else read_file (Host := demo_host) p;
  attach_guest _ _ := true |}.
