(* ===== verification/NetAddr.v ===== *)
(** * NetAddr

    The textual form of IP addresses in the gRPC messages
    (xdp-dp/src/grpc.rs, [encode_ipv4_str] to [decode_ipv6]).  Texts are lists
    of bytes; printing and parsing are the standard library's ([Display] and
    [FromStr] of [core::net], [core::str::from_utf8]). *)
From stdpp Require Import strings.
From Stdlib Require Import Ascii.
From S2P Require Import Prelude Bytes.
Local Open Scope Z_scope.

(** ** Definitions: numbers *)

(** The digits of [n], the most significant first, and their text. *)
Fixpoint digits (radix : Z) (fuel : nat) (n : Z) : list Z :=
  match fuel with
  | O => []
  | S fuel => if n <? radix then [n] else digits radix fuel (n / radix) ++ [n mod radix]
  end.
Definition digit_char (d : Z) : Z := if d <? 10 then 48 + d else 87 + d.
Definition show_dec (n : Z) : list Z := digit_char <$> digits 10 20 n.
Definition show_hex (n : Z) : list Z := digit_char <$> digits 16 20 n.

(** [char::to_digit], for radices up to 16. *)
Definition to_digit (radix c : Z) : option Z :=
  let v := if (48 <=? c) && (c <=? 57) then c - 48
           else if (97 <=? c) && (c <=? 102) then c - 87
           else if (65 <=? c) && (c <=? 70) then c - 55 else 16 in
  if v <? radix then Some v else None.

(** The parser's [read_number] with a digit limit: value, digit count, rest. *)
Fixpoint read_digits (radix : Z) (room : nat) (acc : Z) (count : nat) (s : list Z)
    {struct s} : option (Z * nat * list Z) :=
  match s with
  | [] => Some (acc, count, [])
  | c :: s' =>
      match to_digit radix c with
      | None => Some (acc, count, s)
      | Some d =>
          match room with
          | O => None
          | S room => read_digits radix room (acc * radix + d) (S count) s'
          end
      end
  end.
Definition read_number (radix : Z) (max_digits : nat) (allow_zero_prefix : bool) (max : Z)
    (s : list Z) : option (Z * list Z) :=
  '(v, count, r) ← read_digits radix max_digits 0 0 s;
  if (count =? 0)%nat then None
  else if negb allow_zero_prefix && bool_decide (head s = Some 48) && (1 <? count)%nat then None
  else if max <? v then None else Some (v, r).
Definition read_given_char (c : Z) (s : list Z) : option (list Z) :=
  match s with x :: s => if x =? c then Some s else None | [] => None end.
(** [read_separator]: the separator from the second item on. *)
Definition read_separator {A} (sep : Z) (i : nat) (inner : list Z → option (A * list Z))
    (s : list Z) : option (A * list Z) :=
  match i with O => inner s | S _ => read_given_char sep s ≫= inner end.
(** [parse_with]: the whole text. *)
Definition parse_with {A} (inner : list Z → option (A * list Z)) (s : list Z) : option A :=
  match inner s with Some (v, []) => Some v | _ => None end.

(** ** Definitions: IPv4 *)

Fixpoint read_octets (n i : nat) (s : list Z) : option (list Z * list Z) :=
  match n with
  | O => Some ([], s)
  | S n =>
      '(v, s) ← read_separator 46 i (read_number 10 3 false 255) s;
      '(vs, s) ← read_octets n (S i) s;
      Some (v :: vs, s)
  end.
Definition read_ipv4_addr : list Z → option (list Z * list Z) := read_octets 4 0.
Definition parse_ipv4 (s : list Z) : option (list Z) :=
  if (15 <? length s)%nat then None else parse_with read_ipv4_addr s.
Definition show_ipv4 (a : list Z) : list Z :=
  show_dec (at_ a 0) ++ 46 :: show_dec (at_ a 1) ++ 46 :: show_dec (at_ a 2)
  ++ 46 :: show_dec (at_ a 3).

(** ** Definitions: IPv6 *)

(** [read_groups]: the groups read from index [i] of [limit], [n = limit - i],
    and whether they end with an embedded IPv4 address. *)
Fixpoint read_groups (n limit i : nat) (s : list Z) : list Z * bool * list Z :=
  match n with
  | O => ([], false, s)
  | S n =>
      match (if (i <? limit - 1)%nat then read_separator 58 i read_ipv4_addr s else None) with
      | Some (v4, r) => ([be16 (at_ v4 0) (at_ v4 1); be16 (at_ v4 2) (at_ v4 3)], true, r)
      | None =>
          match read_separator 58 i (read_number 16 4 true 0xffff) s with
          | Some (g, r) => let '(gs, v4, r) := read_groups n limit (S i) r in (g :: gs, v4, r)
          | None => ([], false, s)
          end
      end
  end.
Definition read_segments (s : list Z) : option (list Z * list Z) :=
  let '(head, head_ipv4, s) := read_groups 8 8 0 s in
  if (length head =? 8)%nat then Some (head, s)
  else if head_ipv4 then None
  else
    s ← read_given_char 58 s;
    s ← read_given_char 58 s;
    let limit := (8 - (length head + 1))%nat in
    let '(tail, _, s) := read_groups limit limit 0 s in
    Some (head ++ replicate (8 - length head - length tail) 0 ++ tail, s).
(** Addresses are their sixteen octets. *)
Definition octets_of (segments : list Z) : list Z := concat (to_be16 <$> segments).
Fixpoint segments_of (a : list Z) : list Z :=
  match a with
  | x :: y :: r => be16 x y :: segments_of r
  | _ => []
  end.
Definition parse_ipv6 (s : list Z) : option (list Z) := octets_of <$> parse_with read_segments s.

(** [fmt_subslice]: groups in hexadecimal, separated by colons. *)
Definition show_groups (gs : list Z) : list Z :=
  match gs with
  | [] => []
  | g :: gs => show_hex g ++ concat ((λ g, 58 :: show_hex g) <$> gs)
  end.
(** The longest run of zero segments: its start and length. *)
Fixpoint zero_run (i : nat) (longest current : nat * nat) (segments : list Z) : nat * nat :=
  match segments with
  | [] => longest
  | x :: segments =>
      if x =? 0 then
        let current := (if (current.2 =? 0)%nat then i else current.1, S current.2) in
        let longest := if (longest.2 <? current.2)%nat then current else longest in
        zero_run (S i) longest current segments
      else zero_run (S i) longest (0, 0)%nat segments
  end.
(** [to_ipv4_mapped]. *)
Definition is_ipv4_mapped (a : list Z) : bool :=
  bool_decide (take 12 a = replicate 10 0 ++ [0xff; 0xff]).
(** "::ffff:" *)
Definition MAPPED : list Z := [58; 58; 102; 102; 102; 102; 58].
Definition show_ipv6 (a : list Z) : list Z :=
  if is_ipv4_mapped a then MAPPED ++ show_ipv4 (drop 12 a) else
  let segments := segments_of a in
  let longest := zero_run 0 (0, 0)%nat (0, 0)%nat segments in
  if (1 <? longest.2)%nat then
    show_groups (take longest.1 segments) ++ [58; 58]
    ++ show_groups (drop (longest.1 + longest.2) segments)
  else show_groups segments.

(** [IpAddr::from_str]: [true] for an IPv6 address. *)
Definition parse_ip_is_v6 (s : list Z) : option bool :=
  parse_with (λ s, match read_ipv4_addr s with
                   | Some (_, r) => Some (false, r)
                   | None => '(_, r) ← read_segments s; Some (true, r)
                   end) s.

(** ** Definitions: texts *)

(** [str::from_utf8] accepts the bytes. *)
Definition cont (lo hi b : Z) : bool := (lo <=? b) && (b <=? hi).
Fixpoint utf8_valid (s : list Z) : bool :=
  match s with
  | [] => true
  | b :: r =>
      if b <? 0x80 then utf8_valid r else
      match r with
      | b1 :: r1 =>
          if cont 0xc2 0xdf b then cont 0x80 0xbf b1 && utf8_valid r1 else
          match r1 with
          | b2 :: r2 =>
              if cont 0xe0 0xef b then
                cont (if b =? 0xe0 then 0xa0 else 0x80) (if b =? 0xed then 0x9f else 0xbf) b1
                && cont 0x80 0xbf b2 && utf8_valid r2
              else
              match r2 with
              | b3 :: r3 =>
                  cont 0xf0 0xf4 b
                  && cont (if b =? 0xf0 then 0x90 else 0x80) (if b =? 0xf4 then 0x8f else 0xbf) b1
                  && cont 0x80 0xbf b2 && cont 0x80 0xbf b3 && utf8_valid r3
              | [] => false
              end
          | [] => false
          end
      | [] => false
      end
  end.

(** A literal's bytes, and bytes shown in a message. *)
Definition bytes_of (s : string) : list Z := (λ c, Z.of_N (N_of_ascii c)) <$> String.list_ascii_of_string s.
Definition text_of (b : list Z) : string :=
  String.string_of_list_ascii ((λ x, ascii_of_N (Z.to_N x)) <$> b).

(** ** Lemmas: numbers *)

Definition is_digit (radix d : Z) : Prop := 0 <= d < radix.
Definition value (radix acc : Z) (ds : list Z) : Z := fold_left (λ a d, a * radix + d) ds acc.

Lemma to_digit_char radix d : radix <= 16 → is_digit radix d → to_digit radix (digit_char d) = Some d.
Proof.
  unfold is_digit, to_digit, digit_char. intros Hr Hd. destruct (d <? 10) eqn:E; zbool.
  - replace ((48 <=? 48 + d) && (48 + d <=? 57)) with true by (symmetry; apply andb_true_iff; lia).
    replace (48 + d - 48) with d by lia. by rewrite (proj2 (Z.ltb_lt d radix)) by lia.
  - replace ((48 <=? 87 + d) && (87 + d <=? 57)) with false by (symmetry; apply andb_false_iff; lia).
    replace ((97 <=? 87 + d) && (87 + d <=? 102)) with true by (symmetry; apply andb_true_iff; lia).
    replace (87 + d - 87) with d by lia. by rewrite (proj2 (Z.ltb_lt d radix)) by lia.
Qed.

Lemma digits_value radix fuel n :
  1 < radix → 0 <= n < radix ^ Z.of_nat fuel → value radix 0 (digits radix fuel n) = n.
Proof.
  intros Hr. revert n. induction fuel as [|f IH]; intros n Hn; cbn [digits].
  { rewrite Z.pow_0_r in Hn. unfold value. cbn. lia. }
  rewrite Nat2Z.inj_succ, Z.pow_succ_r in Hn by lia.
  destruct (n <? radix) eqn:E; [unfold value; cbn; lia|]. zbool.
  unfold value in *. rewrite fold_left_app. cbn [fold_left]. rewrite IH.
  - pose proof (Z.div_mod n radix). lia.
  - split; [apply Z.div_pos; lia|]. apply Z.div_lt_upper_bound; lia.
Qed.

Lemma digits_range radix fuel n :
  1 < radix → 0 <= n → Forall (is_digit radix) (digits radix fuel n).
Proof.
  intros Hr. revert n. induction fuel as [|f IH]; intros n Hn; cbn [digits]; [constructor|].
  destruct (n <? radix) eqn:E; zbool; [constructor; [split; lia|constructor]|].
  apply Forall_app. split; [apply IH; apply Z.div_pos; lia|].
  constructor; [apply Z.mod_pos_bound; lia|constructor].
Qed.

Lemma digits_length radix fuel k n :
  1 < radix → (0 < k)%nat → 0 <= n < radix ^ Z.of_nat k → (length (digits radix fuel n) <= k)%nat.
Proof.
  intros Hr. revert k n. induction fuel as [|f IH]; intros k n Hk Hn; cbn [digits]; [cbn; lia|].
  destruct (n <? radix) eqn:E; zbool; [cbn; lia|]. rewrite length_app. cbn [length].
  destruct k as [|[|k]]; [lia|rewrite Z.pow_1_r in Hn; lia|].
  rewrite Nat2Z.inj_succ, Z.pow_succ_r in Hn by lia.
  enough (length (digits radix f (n / radix)) <= S k)%nat by lia. apply IH; [lia|].
  split; [apply Z.div_pos; lia|]. apply Z.div_lt_upper_bound; lia.
Qed.

Lemma digits_nonempty radix fuel n : digits radix (S fuel) n ≠ [].
Proof. cbn [digits]. destruct (n <? radix); [done|]. by destruct (digits radix fuel _). Qed.
Lemma digits_zero radix fuel : 1 < radix → digits radix (S fuel) 0 = [0].
Proof. intros Hr. cbn [digits]. by rewrite (proj2 (Z.ltb_lt 0 radix)) by lia. Qed.

(** The first digit is zero only for the number zero. *)
Lemma digits_head radix fuel n :
  1 < radix → 0 < n < radix ^ Z.of_nat fuel → ∃ d ds, digits radix fuel n = d :: ds ∧ 0 < d.
Proof.
  intros Hr. revert n. induction fuel as [|f IH]; intros n Hn; cbn [digits].
  { rewrite Z.pow_0_r in Hn. lia. }
  rewrite Nat2Z.inj_succ, Z.pow_succ_r in Hn by lia.
  destruct (n <? radix) eqn:E; zbool; [exists n, []; split; [done|lia]|].
  destruct (IH (n / radix)) as (d & ds & -> & Hd).
  { split; [apply Z.div_str_pos; lia|]. apply Z.div_lt_upper_bound; lia. }
  by exists d, (ds ++ [n mod radix]).
Qed.

(** The rest of a text begins with no digit. *)
Definition stops (radix : Z) (r : list Z) : Prop := ∀ c, head r = Some c → to_digit radix c = None.

Lemma read_digits_run radix room acc count ds r :
  radix <= 16 → Forall (is_digit radix) ds → (length ds <= room)%nat → stops radix r →
  read_digits radix room acc count ((digit_char <$> ds) ++ r)
  = Some (value radix acc ds, (count + length ds)%nat, r).
Proof.
  intros Hr Hd. revert room acc count. induction Hd as [|d ds Hd Hds IH]; intros room acc count Hl Hs.
  - cbn [fmap list_fmap app length value fold_left]. rewrite Nat.add_0_r.
    destruct r as [|c r]; [done|]. cbn [read_digits]. by rewrite (Hs c eq_refl).
  - cbn [fmap list_fmap app read_digits length] in *. rewrite to_digit_char by done.
    destruct room as [|room]; [lia|]. rewrite IH by (done || lia). cbn [value fold_left].
    by rewrite Nat.add_succ_r.
Qed.

Lemma read_number_run radix max_digits zero max n r :
  1 < radix <= 16 → (0 < max_digits <= 16)%nat → 0 <= n < radix ^ Z.of_nat max_digits → n <= max →
  stops radix r →
  read_number radix max_digits zero max ((digit_char <$> digits radix 20 n) ++ r) = Some (n, r).
Proof.
  intros Hr Hm Hn Hmax Hs. unfold read_number.
  pose proof (digits_length radix 20 max_digits n ltac:(lia) ltac:(lia) Hn) as Hlen.
  assert (n < radix ^ Z.of_nat 20) as Hn16.
  { eapply Z.lt_le_trans; [apply Hn|]. apply Z.pow_le_mono_r; lia. }
  rewrite read_digits_run; [|lia|apply digits_range; lia|done|done].
  cbn [mbind option_bind]. rewrite digits_value by lia. rewrite (proj2 (Z.ltb_ge max n)) by done.
  destruct (digits radix 20 n) as [|d ds] eqn:E.
  { by apply digits_nonempty in E. }
  cbn [length Nat.add Nat.eqb fmap list_fmap app head].
  match goal with |- context [if ?b then None else _] => destruct b eqn:Eb end; [|done].
  apply andb_true_iff in Eb as [[_ E1]%andb_true_iff E2].
  apply bool_decide_eq_true in E1. injection E1 as E1. apply Nat.ltb_lt in E2. exfalso.
  destruct (decide (n = 0)) as [->|Hn0].
  { rewrite digits_zero in E by lia. injection E as _ <-. cbn in E2. lia. }
  destruct (digits_head radix 20 n) as (d' & ds' & E' & Hd); [lia|lia|].
  rewrite E' in E. injection E as -> ->. unfold digit_char in E1.
  destruct (d <? 10) eqn:Ed; zbool; lia.
Qed.

(** What was read is made of digits. *)
Lemma read_digits_inv radix room acc count s v k r :
  read_digits radix room acc count s = Some (v, k, r) →
  ∃ pre, s = pre ++ r ∧ Forall (λ c, is_Some (to_digit radix c)) pre.
Proof.
  revert room acc count. induction s as [|c s IH]; intros room acc count; cbn [read_digits].
  { intros [= _ _ <-]. by exists []. }
  destruct (to_digit radix c) as [d|] eqn:Ed; [|intros [= _ _ <-]; by exists []].
  destruct room as [|room]; [done|]. intros (pre & -> & Hp)%IH.
  exists (c :: pre). split; [done|]. constructor; [by eexists|done].
Qed.

Lemma read_show_dec n r :
  is_byte n → stops 10 r → read_number 10 3 false 255 (show_dec n ++ r) = Some (n, r).
Proof. unfold is_byte. intros Hn Hs. apply read_number_run; try done; lia. Qed.
Lemma read_show_hex n r :
  is_u16 n → stops 16 r → read_number 16 4 true 0xffff (show_hex n ++ r) = Some (n, r).
Proof. unfold is_u16. intros Hn Hs. apply read_number_run; try done; lia. Qed.

Lemma stops_nil radix : stops radix [].
Proof. by intros c. Qed.
Lemma stops_sep radix c r : c = 46 ∨ c = 58 → radix <= 16 → stops radix (c :: r).
Proof.
  intros Hc Hr c' [= <-]. unfold to_digit. destruct Hc as [-> | ->]; cbn;
    by rewrite (proj2 (Z.ltb_ge 16 radix)) by lia.
Qed.
Lemma stops_dot r : stops 10 (46 :: r).
Proof. apply stops_sep; [by left|lia]. Qed.
Lemma stops_colon r : stops 16 (58 :: r).
Proof. apply stops_sep; [by right|lia]. Qed.
#[local] Hint Resolve stops_nil stops_dot stops_colon : core.

Lemma digit_char_range d : is_digit 16 d → 48 <= digit_char d < 103.
Proof. unfold is_digit, digit_char. intros H. destruct (d <? 10) eqn:E; zbool; lia. Qed.
(** A printed number: digits of its radix. *)
Lemma show_digits radix n :
  1 < radix <= 16 → 0 <= n → Forall (λ c, is_Some (to_digit radix c) ∧ 48 <= c < 103) (digit_char <$> digits radix 20 n).
Proof.
  intros Hr Hn. apply Forall_fmap. eapply Forall_impl; [by apply digits_range; lia|].
  intros d Hd. cbn. rewrite to_digit_char by (done || lia). split; [by eexists|].
  apply digit_char_range. unfold is_digit in *. lia.
Qed.
Lemma show_cons radix n : ∃ c r, digit_char <$> digits radix 20 n = c :: r.
Proof.
  pose proof (digits_nonempty radix 19 n) as H. destruct (digits radix 20 n) as [|d ds]; [done|].
  by eexists _, _.
Qed.

(** ** Lemmas: IPv4 *)

Lemma read_show_ipv4 a r :
  is_arr 4 a → stops 10 r → read_ipv4_addr (show_ipv4 a ++ r) = Some (a, r).
Proof.
  intros [Hl Hb] Hs. destruct a as [|a [|b [|c [|d [|]]]]]; try done.
  unfold bytes_ok in Hb. rewrite !Forall_cons in Hb. destruct Hb as (Ha & Hb & Hc & Hd & _).
  change (show_ipv4 [a; b; c; d]) with
    (show_dec a ++ 46 :: show_dec b ++ 46 :: show_dec c ++ 46 :: show_dec d).
  unfold read_ipv4_addr. cbn [read_octets read_separator].
  do 3 (rewrite <- ?app_assoc, <- ?app_comm_cons; rewrite read_show_dec by auto;
        cbn [mbind option_bind read_given_char Z.eqb Pos.eqb]).
  by rewrite read_show_dec.
Qed.

Lemma show_dec_length n : is_byte n → (1 <= length (show_dec n) <= 3)%nat.
Proof.
  unfold is_byte, show_dec. intros Hn. rewrite length_fmap.
  pose proof (digits_length 10 20 3 n ltac:(lia) ltac:(lia) ltac:(lia)).
  pose proof (digits_nonempty 10 19 n). destruct (digits 10 20 n); [done|cbn in *; lia].
Qed.
Lemma show_ipv4_length a : is_arr 4 a → (7 <= length (show_ipv4 a) <= 15)%nat.
Proof.
  intros [Hl Hb]. unfold show_ipv4. repeat (rewrite length_app; cbn [length]).
  pose proof (show_dec_length (at_ a 0) (at_byte a 0 Hb)).
  pose proof (show_dec_length (at_ a 1) (at_byte a 1 Hb)).
  pose proof (show_dec_length (at_ a 2) (at_byte a 2 Hb)).
  pose proof (show_dec_length (at_ a 3) (at_byte a 3 Hb)). lia.
Qed.

Lemma parse_show_ipv4 a : is_arr 4 a → parse_ipv4 (show_ipv4 a) = Some a.
Proof.
  intros Ha. unfold parse_ipv4, parse_with. pose proof (show_ipv4_length a Ha).
  rewrite (proj2 (Nat.ltb_ge _ _)) by lia.
  rewrite <- (app_nil_r (show_ipv4 a)). by rewrite read_show_ipv4.
Qed.

(** An IPv4 address needs a dot after its first digits. *)
Lemma read_ipv4_dot s v r :
  read_ipv4_addr s = Some (v, r) →
  ∃ pre s', s = pre ++ 46 :: s' ∧ Forall (λ c, is_Some (to_digit 10 c)) pre.
Proof.
  unfold read_ipv4_addr. cbn [read_octets read_separator]. intros E.
  apply bind_Some in E as ([v0 s0] & E0 & E). unfold read_number in E0.
  apply bind_Some in E0 as ([[v1 k] s1] & E1 & E0). apply read_digits_inv in E1 as (pre & -> & Hp).
  exists pre. destruct (k =? 0)%nat; [done|]. destruct (negb false && _ && _); [done|].
  destruct (255 <? v1); [done|]. injection E0 as <- <-.
  apply bind_Some in E as ([v2 s2] & E2 & _). destruct s1 as [|c s1]; [done|].
  cbn [read_given_char] in E2. destruct (c =? 46) eqn:Ec; [|done]. zbool. subst c. by exists s1.
Qed.
Lemma not_ipv4 pre c r :
  Forall (λ c, c ≠ 46) pre → to_digit 10 c = None → c ≠ 46 → read_ipv4_addr (pre ++ c :: r) = None.
Proof.
  intros Hp Hc H46. destruct (read_ipv4_addr _) as [[v r']|] eqn:E; [|done]. exfalso.
  apply read_ipv4_dot in E as (q & s' & E & Hq). revert pre Hp E.
  induction Hq as [|x q Hx Hq IH]; intros pre Hp E.
  - destruct pre as [|y pre]; injection E as -> E; [done|]. by apply Forall_cons in Hp as [? _].
  - destruct pre as [|y pre]; injection E as -> E; [rewrite Hc in Hx; by destruct Hx|].
    apply Forall_cons in Hp as [_ Hp]. by eapply IH.
Qed.
Lemma not_ipv4_end pre : Forall (λ c, c ≠ 46) pre → read_ipv4_addr pre = None.
Proof.
  intros Hp. destruct (read_ipv4_addr pre) as [[v r']|] eqn:E; [|done]. exfalso.
  apply read_ipv4_dot in E as (q & s' & -> & _). apply Forall_app in Hp as [_ Hp].
  by apply Forall_cons in Hp as [? _].
Qed.

(** ** Lemmas: IPv6 *)

(** The text of groups from index [i] on, and what may follow it. *)
Definition groups_text (i : nat) (gs : list Z) : list Z :=
  match i with O => show_groups gs | S _ => concat ((λ g, 58 :: show_hex g) <$> gs) end.
Definition groups_end (r : list Z) : Prop := r = [] ∨ ∃ r', r = 58 :: 58 :: r'.
Definition colon_or_end (r : list Z) : Prop := r = [] ∨ ∃ r', r = 58 :: r'.

Lemma show_hex_no_dot g : is_u16 g → Forall (λ c, c ≠ 46) (show_hex g).
Proof.
  unfold is_u16. intros Hg. eapply Forall_impl; [apply show_digits; lia|]. cbn. intros c [_ H]. lia.
Qed.
Lemma not_ipv4_hex g r : is_u16 g → colon_or_end r → read_ipv4_addr (show_hex g ++ r) = None.
Proof.
  intros Hg [->|[r' ->]].
  - rewrite app_nil_r. apply not_ipv4_end. by apply show_hex_no_dot.
  - apply not_ipv4; [by apply show_hex_no_dot|done|done].
Qed.
Lemma colon_stops r : colon_or_end r → stops 16 r.
Proof. intros [->|[r' ->]]; auto. Qed.

Lemma read_separator_some {A} sep i (inner : list Z → option (A * list Z)) s :
  read_separator sep i inner (match i with O => s | S _ => sep :: s end) = inner s.
Proof. destruct i; [done|]. cbn [read_separator read_given_char]. by rewrite Z.eqb_refl. Qed.

Lemma groups_text_cons i g gs :
  groups_text i (g :: gs)
  = match i with O => show_hex g ++ groups_text 1 gs | S _ => 58 :: show_hex g ++ groups_text 1 gs end.
Proof. by destruct i. Qed.
Lemma groups_text_tail gs r : groups_end r → colon_or_end (groups_text 1 gs ++ r).
Proof.
  intros Hr. destruct gs as [|g gs]; [|right; by eexists].
  destruct Hr as [->|[r' ->]]; [by left|right; by eexists].
Qed.

Lemma no_group i r :
  groups_end r → read_separator 58 i read_ipv4_addr r = None ∧
  read_separator 58 i (read_number 16 4 true 0xffff) r = None.
Proof.
  intros [->|[r' ->]]; destruct i as [|i]; cbn [read_separator read_given_char mbind option_bind].
  - split; [by apply not_ipv4_end|done].
  - done.
  - split; [by apply (not_ipv4 [])|done].
  - change (58 =? 58) with true. cbn [mbind option_bind]. split; [by apply (not_ipv4 [])|done].
Qed.

Lemma read_groups_run n limit i gs r :
  Forall is_u16 gs → (length gs <= n)%nat → groups_end r →
  read_groups n limit i (groups_text i gs ++ r) = (gs, false, r).
Proof.
  intros Hg. revert n i. induction Hg as [|g gs Hg Hgs IH]; intros n i Hn Hr.
  - replace (groups_text i [] ++ r) with r by (by destruct i). destruct n as [|n]; [done|].
    cbn [read_groups]. destruct (no_group i r Hr) as [-> ->]. by destruct (i <? limit - 1)%nat.
  - destruct n as [|n]; cbn [length] in Hn; [lia|]. cbn [read_groups].
    pose proof (groups_text_tail gs r Hr) as Ht.
    assert (groups_text i (g :: gs) ++ r
      = match i with O => show_hex g ++ groups_text 1 gs ++ r
                | S _ => 58 :: (show_hex g ++ groups_text 1 gs ++ r) end) as ->.
    { rewrite groups_text_cons. destruct i; by rewrite <- ?app_comm_cons, <- app_assoc. }
    rewrite !read_separator_some, not_ipv4_hex by done.
    replace (if (i <? limit - 1)%nat then None else None) with (@None (list Z * list Z))
      by (by destruct (i <? limit - 1)%nat).
    rewrite read_show_hex by (done || by apply colon_stops).
    change (groups_text 1 gs) with (groups_text (S i) gs). rewrite IH by (done || lia). done.
Qed.

(** The zero run found is one, inside the address. *)
Lemma zero_run_spec i longest current (pre segments : list Z) :
  length pre = i →
  (longest.1 + longest.2 <= i)%nat → (∀ j, (longest.1 <= j < longest.1 + longest.2)%nat → at_ pre j = 0) →
  (current.2 = 0%nat ∨ (current.1 + current.2 = i)%nat) →
  (∀ j, (current.1 <= j < current.1 + current.2)%nat → at_ pre j = 0) →
  let z := zero_run i longest current segments in
  (z.1 + z.2 <= i + length segments)%nat ∧
  ∀ j, (z.1 <= j < z.1 + z.2)%nat → at_ (pre ++ segments) j = 0.
Proof.
  revert i longest current pre. induction segments as [|x segments IH];
    intros i longest current pre Hi Hl Hlz Hc Hcz; cbn [zero_run length].
  { cbv zeta. rewrite app_nil_r. split; [lia|done]. }
  rewrite <- Nat.add_succ_comm. rewrite (cons_middle x pre segments), app_assoc.
  assert (∀ j, (j < i)%nat → at_ (pre ++ [x]) j = at_ pre j) as Hpre.
  { intros j Hj. unfold at_. by rewrite app_nth1 by lia. }
  assert (at_ (pre ++ [x]) i = x) as Hx by (unfold at_; rewrite app_nth2, Hi, Nat.sub_diag by lia; done).
  destruct (x =? 0) eqn:E.
  - zbool. set (cur := (if (current.2 =? 0)%nat then i else current.1, S current.2)).
    assert (cur.1 + cur.2 = S i)%nat as Hcur.
    { unfold cur. cbn [fst snd]. destruct (Nat.eqb_spec current.2 0); lia. }
    assert (∀ j, (cur.1 <= j < cur.1 + cur.2)%nat → at_ (pre ++ [x]) j = 0) as Hcurz.
    { intros j Hj. destruct (decide (j = i)) as [->|Hne]; [congruence|]. rewrite Hpre by lia.
      apply Hcz. unfold cur in Hj, Hcur. cbn [fst snd] in Hj, Hcur.
      destruct (Nat.eqb_spec current.2 0); lia. }
    apply IH; [rewrite length_app; cbn; lia| | |by right|done].
    + destruct (_ <? _)%nat; lia.
    + intros j. destruct (_ <? _)%nat; [apply Hcurz|]. intros Hj. rewrite Hpre by lia. by apply Hlz.
  - apply IH; [rewrite length_app; cbn; lia|lia| |by left|cbn; lia].
    intros j Hj. rewrite Hpre by lia. by apply Hlz.
Qed.

Lemma zero_run_split segments :
  let z := zero_run 0 (0, 0)%nat (0, 0)%nat segments in
  (z.1 + z.2 <= length segments)%nat ∧
  segments = take z.1 segments ++ replicate z.2 0 ++ drop (z.1 + z.2) segments.
Proof.
  destruct (zero_run_spec 0 (0, 0)%nat (0, 0)%nat [] segments) as [Hl Hz];
    [done|cbn; lia|cbn; lia|by left|cbn; lia|].
  set (z := zero_run _ _ _ _) in *. cbv zeta. cbn [length Nat.add app] in *. split; [done|].
  rewrite <- (take_drop z.1 segments) at 1. f_equal.
  rewrite <- (take_drop z.2 (drop z.1 segments)), drop_drop. f_equal.
  apply at_ext; [rewrite length_take, length_drop, length_replicate; lia|].
  intros j Hj. rewrite length_take, length_drop in Hj.
  unfold at_. rewrite nth_lookup, lookup_take_lt, lookup_drop by lia.
  rewrite (nth_lookup (replicate _ _)), lookup_replicate_2 by lia. cbn.
  specialize (Hz (z.1 + j)%nat ltac:(lia)). unfold at_ in Hz. by rewrite nth_lookup in Hz.
Qed.

Lemma to_be16_be16 x y : is_byte x → is_byte y → to_be16 (be16 x y) = [x; y].
Proof.
  intros Hx Hy. rewrite be16_add by done. unfold is_byte in *. unfold to_be16.
  rewrite wrap8_mod, Z.shiftr_div_pow2 by lia. change (2 ^ 8) with 256.
  replace ((256 * x + y) / 256) with x by (apply (Z.div_unique _ _ _ y); lia).
  do 2 f_equal. symmetry. apply (Z.mod_unique _ _ x); lia.
Qed.
Lemma segments_octets a : bytes_ok a → Nat.Even (length a) → octets_of (segments_of a) = a.
Proof.
  induction a as [|x|x y a IH] using list_pair_ind; intros Hb He; [done|destruct He as [k Hk]; cbn in Hk; lia|].
  unfold bytes_ok in Hb. rewrite !Forall_cons in Hb. destruct Hb as (Hx & Hy & Hb).
  cbn [segments_of]. unfold octets_of. cbn [fmap list_fmap concat]. fold (octets_of (segments_of a)).
  rewrite IH; [by rewrite to_be16_be16|done|]. destruct He as [k Hk]. exists (k - 1)%nat. cbn in Hk. lia.
Qed.
Lemma segments_u16 a : bytes_ok a → Forall is_u16 (segments_of a).
Proof.
  induction a as [|x|x y a IH] using list_pair_ind; intros Hb; [constructor..|].
  unfold bytes_ok in Hb. rewrite !Forall_cons in Hb. destruct Hb as (Hx & Hy & Hb).
  constructor; [by apply be16_range|by apply IH].
Qed.
Lemma segments_length a k : length a = (2 * k)%nat → length (segments_of a) = k.
Proof.
  revert k. induction a as [|x|x y a IH] using list_pair_ind; intros k Hl; cbn in *; [lia..|].
  rewrite (IH (k - 1)%nat); lia.
Qed.

Lemma parse_mapped v4 : is_arr 4 v4 →
  parse_ipv6 (MAPPED ++ show_ipv4 v4) = Some (replicate 10 0 ++ [0xff; 0xff] ++ v4).
Proof.
  intros Ha. unfold parse_ipv6, parse_with, read_segments, MAPPED.
  change ([58; 58; 102; 102; 102; 102; 58] ++ show_ipv4 v4)
    with (groups_text 0 [] ++ 58 :: 58 :: show_hex 0xffff ++ 58 :: show_ipv4 v4).
  rewrite read_groups_run; [|constructor|cbn; lia|right; by eexists].
  cbn [length Nat.eqb Nat.add Nat.sub read_given_char Z.eqb Pos.eqb mbind option_bind].
  change (read_groups 7 7 0 ?s) with
    (match (if (0 <? 7 - 1)%nat then read_separator 58 0 read_ipv4_addr s else None) with
     | Some (v4, r) => ([be16 (at_ v4 0) (at_ v4 1); be16 (at_ v4 2) (at_ v4 3)], true, r)
     | None => match read_separator 58 0 (read_number 16 4 true 0xffff) s with
               | Some (g, r) => let '(gs, v4, r) := read_groups 6 7 1 r in (g :: gs, v4, r)
               | None => ([], false, s)
               end
     end).
  cbn [Nat.ltb Nat.leb Nat.sub read_separator].
  rewrite not_ipv4_hex by (done || right; by eexists). rewrite read_show_hex by (done || auto).
  cbn [read_groups Nat.ltb Nat.leb Nat.sub read_separator read_given_char Z.eqb Pos.eqb mbind option_bind].
  rewrite <- (app_nil_r (show_ipv4 v4)), read_show_ipv4 by auto.
  destruct Ha as [Hl Hb]. destruct v4 as [|a [|b [|c [|d [|]]]]]; try done.
  unfold bytes_ok in Hb. rewrite !Forall_cons in Hb. destruct Hb as (? & ? & ? & ? & _).
  cbn [at_ nth length Nat.sub app fmap option_fmap option_map]. unfold octets_of.
  cbn [replicate app fmap list_fmap concat]. rewrite !to_be16_be16 by done. reflexivity.
Qed.

(** Printing an address and parsing the text gives the address back. *)
Lemma parse_show_ipv6 a : is_arr 16 a → parse_ipv6 (show_ipv6 a) = Some a.
Proof.
  intros [Hl Hb]. unfold show_ipv6. destruct (is_ipv4_mapped a) eqn:Em.
  { unfold is_ipv4_mapped in Em. apply bool_decide_eq_true in Em.
    rewrite parse_mapped; [|split; [by rewrite length_drop, Hl|by apply Forall_drop]].
    rewrite <- (take_drop 12 a) at 2. by rewrite Em, <- app_assoc. }
  pose proof (segments_u16 a Hb) as Hu. pose proof (segments_length a 8 Hl) as H8.
  assert (octets_of (segments_of a) = a) as Ho by (apply segments_octets; [done|by exists 8%nat]).
  destruct (zero_run_split (segments_of a)) as [Hz Hsplit].
  set (z := zero_run _ _ _ _) in *. rewrite H8 in Hz. unfold parse_ipv6, parse_with, read_segments.
  destruct (1 <? z.2)%nat eqn:E.
  - apply Nat.ltb_lt in E. rewrite <- (app_nil_r (show_groups (drop _ _))).
    change (show_groups (take z.1 (segments_of a))) with (groups_text 0 (take z.1 (segments_of a))).
    rewrite read_groups_run; [|by apply Forall_take|rewrite length_take; lia|right; by eexists].
    rewrite length_take, H8. replace (z.1 `min` 8)%nat with z.1 by lia.
    rewrite (proj2 (Nat.eqb_neq z.1 8)) by lia.
    cbn [app read_given_char Z.eqb Pos.eqb mbind option_bind].
    change (show_groups (drop (z.1 + z.2) (segments_of a)))
      with (groups_text 0 (drop (z.1 + z.2) (segments_of a))).
    rewrite read_groups_run; [|by apply Forall_drop|rewrite length_drop; lia|by left].
    rewrite length_drop, H8. replace (8 - z.1 - (8 - (z.1 + z.2)))%nat with z.2 by lia.
    cbn [fmap option_fmap option_map]. by rewrite <- Hsplit, Ho.
  - rewrite <- (app_nil_r (show_groups _)).
    change (show_groups (segments_of a)) with (groups_text 0 (segments_of a)).
    rewrite read_groups_run by (done || lia || by left). rewrite H8.
    cbn [Nat.eqb fmap option_fmap option_map]. by rewrite Ho.
Qed.

(** ** Lemmas: texts *)

Lemma utf8_ascii s : Forall (λ c, c < 128) s → utf8_valid s = true.
Proof.
  induction 1 as [|c s Hc Hs IH]; [done|]. cbn [utf8_valid].
  by rewrite (proj2 (Z.ltb_lt c 0x80)) by done.
Qed.

Definition ascii_text (s : list Z) : Prop := Forall (λ c, c < 128) s.
Lemma show_ascii radix n : 1 < radix <= 16 → 0 <= n → ascii_text (digit_char <$> digits radix 20 n).
Proof.
  intros Hr Hn. eapply Forall_impl; [by apply show_digits|]. cbn. intros c [_ H]. lia.
Qed.
Lemma show_ipv4_ascii a : bytes_ok a → ascii_text (show_ipv4 a).
Proof.
  intros Hb. unfold show_ipv4, ascii_text.
  assert (∀ i, Forall (λ c, c < 128) (show_dec (at_ a i))) as H.
  { intros i. apply show_ascii; [lia|]. pose proof (at_byte a i Hb). unfold is_byte in *. lia. }
  repeat (apply Forall_app; split; [apply H|]; constructor; [lia|]). apply H.
Qed.
Lemma show_groups_ascii gs : Forall is_u16 gs → ascii_text (show_groups gs).
Proof.
  assert (∀ g, is_u16 g → ascii_text (show_hex g)) as Hh.
  { intros g Hg. unfold is_u16 in Hg. apply show_ascii; lia. }
  intros [|g gs' Hg Hgs]; [constructor|]. apply Forall_app. split; [by apply Hh|].
  induction Hgs as [|h hs Hh' Hhs IH]; [constructor|].
  cbn [fmap list_fmap concat app]. constructor; [lia|]. apply Forall_app. split; [by apply Hh|done].
Qed.
Lemma show_ipv6_ascii a : bytes_ok a → ascii_text (show_ipv6 a).
Proof.
  intros Hb. unfold show_ipv6. destruct (is_ipv4_mapped a).
  { apply Forall_app. split; [by repeat constructor|]. apply show_ipv4_ascii. by apply Forall_drop. }
  pose proof (segments_u16 a Hb) as Hu. destruct (_ <? _)%nat; [|by apply show_groups_ascii].
  repeat (apply Forall_app; split); try by repeat constructor.
  - apply show_groups_ascii. by apply Forall_take.
  - apply show_groups_ascii. by apply Forall_drop.
Qed.

(** An IPv6 text has a colon. *)
Lemma show_ipv6_colon a : length a = 16%nat → In 58 (show_ipv6 a).
Proof.
  intros Hl. unfold show_ipv6. destruct (is_ipv4_mapped a); [by left|].
  destruct (_ <? _)%nat; [apply in_or_app; right; by left|].
  pose proof (segments_length a 8 Hl) as H8.
  destruct (segments_of a) as [|g [|h gs]]; [done..|]. apply in_or_app. right. by left.
Qed.

(** What parsing gives. *)
Lemma to_digit_nonneg radix c d : to_digit radix c = Some d → 0 <= d.
Proof.
  unfold to_digit. intros E.
  assert (∀ a b, a && b = true → a = true ∧ b = true) as Hand by (intros a b; apply andb_true_iff).
  destruct (_ && _) eqn:E1 in E; [apply Hand in E1 as [E1 _]; zbool|].
  { destruct (_ <? _); [|done]. injection E as <-. lia. }
  destruct (_ && _) eqn:E2 in E; [apply Hand in E2 as [E2 _]; zbool|].
  { destruct (_ <? _); [|done]. injection E as <-. lia. }
  destruct (_ && _) eqn:E3 in E; [apply Hand in E3 as [E3 _]; zbool|].
  { destruct (_ <? _); [|done]. injection E as <-. lia. }
  destruct (_ <? _); [|done]. injection E as <-. lia.
Qed.
Lemma read_digits_nonneg radix room acc count s v k r :
  0 <= radix → 0 <= acc → read_digits radix room acc count s = Some (v, k, r) → 0 <= v.
Proof.
  intros Hr. revert room acc count. induction s as [|c s IH]; intros room acc count Ha; cbn [read_digits].
  { by intros [= <- _ _]. }
  destruct (to_digit radix c) as [d|] eqn:Ed; [|by intros [= <- _ _]].
  destruct room as [|room]; [done|]. apply to_digit_nonneg in Ed. apply IH. nia.
Qed.
Lemma read_octet_byte s v r : read_number 10 3 false 255 s = Some (v, r) → is_byte v.
Proof.
  unfold read_number. intros E. apply bind_Some in E as ([[w k] s1] & E1 & E).
  apply read_digits_nonneg in E1; [|lia..]. destruct (k =? 0)%nat; [done|].
  destruct (negb false && _ && _); [done|]. destruct (255 <? w) eqn:Em; [done|].
  injection E as -> ->. zbool. unfold is_byte. lia.
Qed.
Lemma read_octets_arr n i s a r : read_octets n i s = Some (a, r) → is_arr n a.
Proof.
  revert i s a r. induction n as [|n IH]; intros i s a r; cbn [read_octets].
  { intros [= <- _]. split; [done|constructor]. }
  intros E. apply bind_Some in E as ([v s1] & E1 & E). apply bind_Some in E as ([vs s2] & E2 & E).
  injection E as <- _. apply IH in E2 as [Hl Hb]. split; [cbn; lia|]. constructor; [|done].
  destruct i as [|i]; cbn [read_separator] in E1; [by eapply read_octet_byte|].
  apply bind_Some in E1 as (s' & _ & E1). by eapply read_octet_byte.
Qed.
Lemma read_groups_length n limit i s :
  (i + n = limit)%nat → (length (read_groups n limit i s).1.1 <= n)%nat.
Proof.
  revert i s. induction n as [|n IH]; intros i s Hn; cbn [read_groups]; [cbn; lia|].
  destruct (i <? limit - 1)%nat eqn:Ei.
  - apply Nat.ltb_lt in Ei. destruct (read_separator 58 i read_ipv4_addr s) as [[v4 r]|]; [cbn; lia|].
    destruct (read_separator _ _ _ _) as [[g r]|]; [|cbn; lia].
    specialize (IH (S i) r ltac:(lia)). destruct (read_groups n limit (S i) r) as [[gs v4] r']. cbn in *. lia.
  - destruct (read_separator _ _ _ _) as [[g r]|]; [|cbn; lia].
    specialize (IH (S i) r ltac:(lia)). destruct (read_groups n limit (S i) r) as [[gs v4] r']. cbn in *. lia.
Qed.
Lemma read_segments_length s a r : read_segments s = Some (a, r) → length a = 8%nat.
Proof.
  unfold read_segments. pose proof (read_groups_length 8 8 0 s eq_refl) as Hh.
  destruct (read_groups 8 8 0 s) as [[h h4] s1]. cbn [fst] in Hh.
  destruct (length h =? 8)%nat eqn:E8; [apply Nat.eqb_eq in E8; by intros [= <- _]|].
  apply Nat.eqb_neq in E8. destruct h4; [done|]. intros E.
  apply bind_Some in E as (s2 & _ & E). apply bind_Some in E as (s3 & _ & E). cbv zeta in E.
  pose proof (read_groups_length (8 - (length h + 1)) (8 - (length h + 1)) 0 s3 eq_refl) as Ht.
  destruct (read_groups _ _ 0 s3) as [[t t4] s4]. cbn [fst] in Ht. injection E as <- _.
  rewrite !length_app, length_replicate. lia.
Qed.
Lemma octets_of_length l : length (octets_of l) = (2 * length l)%nat.
Proof. induction l as [|x l IH]; [done|]. unfold octets_of in *. cbn. rewrite IH. lia. Qed.

Lemma parse_ipv4_length b a : parse_ipv4 b = Some a → length a = 4%nat.
Proof.
  unfold parse_ipv4, parse_with. destruct (15 <? length b)%nat; [done|].
  destruct (read_ipv4_addr b) as [[v [|]]|] eqn:Er; try done. intros [= <-].
  by apply read_octets_arr in Er as [Er _].
Qed.
Lemma parse_ipv6_length b a : parse_ipv6 b = Some a → length a = 16%nat.
Proof.
  unfold parse_ipv6, parse_with. destruct (read_segments b) as [[v [|]]|] eqn:Er; try done.
  intros [= <-]. rewrite octets_of_length. by apply read_segments_length in Er as ->.
Qed.
(** The addresses of a list of texts. *)
Lemma omap_lengths (f : list Z → option (list Z)) n (l : list string) :
  (∀ b a, f b = Some a → length a = n) →
  Forall (λ a, length a = n) (omap (λ s, f (bytes_of s)) l).
Proof.
  intros Hf. apply Forall_forall. intros a (s & _ & E)%list_elem_of_omap. by eapply Hf.
Qed.
