(* ===== verification/Ctl.v ===== *)
(** * Ctl

    The state of the control plane (the [Inner] of xdp-dp/src/control.rs: the
    shadow tables it keeps and the maps it writes) and the form of its
    operations: a program over that state that ends with a value or an
    [anyhow] error, what it changed before an error staying changed.  Every
    operation of the source runs under the state's mutex, so operations are
    sequential here. *)
From S2P Require Import Prelude Bytes Types Kernel Safe Handles Host.
Local Open Scope Z_scope.

(** ** State *)

Record IfaceRecord := mkIfaceRecord
  { ir_vni : Z; ir_ipv4 : list Z; ir_ipv6 : list Z; ir_device : string; ir_underlay : list Z }.
Inductive LbIp := Ipv4 (ip : list Z) | Ipv6 (ip : list Z).
Record LbEntry := mkLbEntry
  { le_vni : Z; le_ip : LbIp; le_lb_underlay : list Z; le_ports : list (Z * Z);
    le_table_id : Z; le_backends : list (list Z) }.
Record PrefixRecord := mkPrefixRecord
  { pr_ip : list Z; pr_len : Z; pr_underlay : list Z; pr_is_ipv6 : bool }.
(** [(vni, prefix, prefix_len, nexthop_vni, nexthop_underlay)]. *)
Record RouteShadow := mkRouteShadow
  { rs_vni : Z; rs_prefix : list Z; rs_len : Z; rs_nexthop_vni : Z; rs_nexthop : list Z }.

(** Ids are byte strings ([Vec<u8>]); [in_links] keeps the device a guest
    program is attached to. *)
Record Inner := mkInner {
  in_maps : Maps;
  in_neigh_nats : list NeighborNatEntry;
  in_lbs : gmap (list Z) LbEntry;
  in_next_table_id : Z;
  in_by_id : gmap (list Z) IfaceRecord;
  in_by_ifindex : gmap (list Z) Z;
  in_iface_underlay : gmap (list Z) (list Z);
  in_prefixes : gmap (list Z) (list PrefixRecord);
  in_fw : gmap Z (list (list Z * FwRule));
  in_lb_prefixes : gmap (list Z) (list PrefixRecord);
  in_links : gmap (list Z) string;
  in_guest_tc : bool;
  in_routes_shadow : list RouteShadow;
  in_routes6_shadow : list RouteShadow;
  in_learned_macs : gmap (list Z) (list Z) }.

Definition set_maps (f : Maps → Maps) (s : Inner) : Inner :=
  mkInner (f (in_maps s)) (in_neigh_nats s) (in_lbs s) (in_next_table_id s) (in_by_id s)
    (in_by_ifindex s) (in_iface_underlay s) (in_prefixes s) (in_fw s) (in_lb_prefixes s)
    (in_links s) (in_guest_tc s) (in_routes_shadow s) (in_routes6_shadow s) (in_learned_macs s).
Definition set_neigh_nats (f : list NeighborNatEntry → list NeighborNatEntry) (s : Inner) : Inner :=
  mkInner (in_maps s) (f (in_neigh_nats s)) (in_lbs s) (in_next_table_id s) (in_by_id s)
    (in_by_ifindex s) (in_iface_underlay s) (in_prefixes s) (in_fw s) (in_lb_prefixes s)
    (in_links s) (in_guest_tc s) (in_routes_shadow s) (in_routes6_shadow s) (in_learned_macs s).
Definition set_lbs (f : gmap (list Z) LbEntry → gmap (list Z) LbEntry) (s : Inner) : Inner :=
  mkInner (in_maps s) (in_neigh_nats s) (f (in_lbs s)) (in_next_table_id s) (in_by_id s)
    (in_by_ifindex s) (in_iface_underlay s) (in_prefixes s) (in_fw s) (in_lb_prefixes s)
    (in_links s) (in_guest_tc s) (in_routes_shadow s) (in_routes6_shadow s) (in_learned_macs s).
Definition set_next_table_id (f : Z → Z) (s : Inner) : Inner :=
  mkInner (in_maps s) (in_neigh_nats s) (in_lbs s) (f (in_next_table_id s)) (in_by_id s)
    (in_by_ifindex s) (in_iface_underlay s) (in_prefixes s) (in_fw s) (in_lb_prefixes s)
    (in_links s) (in_guest_tc s) (in_routes_shadow s) (in_routes6_shadow s) (in_learned_macs s).
Definition set_by_id (f : gmap (list Z) IfaceRecord → gmap (list Z) IfaceRecord) (s : Inner) : Inner :=
  mkInner (in_maps s) (in_neigh_nats s) (in_lbs s) (in_next_table_id s) (f (in_by_id s))
    (in_by_ifindex s) (in_iface_underlay s) (in_prefixes s) (in_fw s) (in_lb_prefixes s)
    (in_links s) (in_guest_tc s) (in_routes_shadow s) (in_routes6_shadow s) (in_learned_macs s).
Definition set_by_ifindex (f : gmap (list Z) Z → gmap (list Z) Z) (s : Inner) : Inner :=
  mkInner (in_maps s) (in_neigh_nats s) (in_lbs s) (in_next_table_id s) (in_by_id s)
    (f (in_by_ifindex s)) (in_iface_underlay s) (in_prefixes s) (in_fw s) (in_lb_prefixes s)
    (in_links s) (in_guest_tc s) (in_routes_shadow s) (in_routes6_shadow s) (in_learned_macs s).
Definition set_iface_underlay (f : gmap (list Z) (list Z) → gmap (list Z) (list Z)) (s : Inner) : Inner :=
  mkInner (in_maps s) (in_neigh_nats s) (in_lbs s) (in_next_table_id s) (in_by_id s)
    (in_by_ifindex s) (f (in_iface_underlay s)) (in_prefixes s) (in_fw s) (in_lb_prefixes s)
    (in_links s) (in_guest_tc s) (in_routes_shadow s) (in_routes6_shadow s) (in_learned_macs s).
Definition set_prefixes (f : gmap (list Z) (list PrefixRecord) → gmap (list Z) (list PrefixRecord)) (s : Inner) : Inner :=
  mkInner (in_maps s) (in_neigh_nats s) (in_lbs s) (in_next_table_id s) (in_by_id s)
    (in_by_ifindex s) (in_iface_underlay s) (f (in_prefixes s)) (in_fw s) (in_lb_prefixes s)
    (in_links s) (in_guest_tc s) (in_routes_shadow s) (in_routes6_shadow s) (in_learned_macs s).
Definition set_fw (f : gmap Z (list (list Z * FwRule)) → gmap Z (list (list Z * FwRule))) (s : Inner) : Inner :=
  mkInner (in_maps s) (in_neigh_nats s) (in_lbs s) (in_next_table_id s) (in_by_id s)
    (in_by_ifindex s) (in_iface_underlay s) (in_prefixes s) (f (in_fw s)) (in_lb_prefixes s)
    (in_links s) (in_guest_tc s) (in_routes_shadow s) (in_routes6_shadow s) (in_learned_macs s).
Definition set_lb_prefixes (f : gmap (list Z) (list PrefixRecord) → gmap (list Z) (list PrefixRecord)) (s : Inner) : Inner :=
  mkInner (in_maps s) (in_neigh_nats s) (in_lbs s) (in_next_table_id s) (in_by_id s)
    (in_by_ifindex s) (in_iface_underlay s) (in_prefixes s) (in_fw s) (f (in_lb_prefixes s))
    (in_links s) (in_guest_tc s) (in_routes_shadow s) (in_routes6_shadow s) (in_learned_macs s).
Definition set_links (f : gmap (list Z) string → gmap (list Z) string) (s : Inner) : Inner :=
  mkInner (in_maps s) (in_neigh_nats s) (in_lbs s) (in_next_table_id s) (in_by_id s)
    (in_by_ifindex s) (in_iface_underlay s) (in_prefixes s) (in_fw s) (in_lb_prefixes s)
    (f (in_links s)) (in_guest_tc s) (in_routes_shadow s) (in_routes6_shadow s) (in_learned_macs s).
Definition set_routes_shadow (f : list RouteShadow → list RouteShadow) (s : Inner) : Inner :=
  mkInner (in_maps s) (in_neigh_nats s) (in_lbs s) (in_next_table_id s) (in_by_id s)
    (in_by_ifindex s) (in_iface_underlay s) (in_prefixes s) (in_fw s) (in_lb_prefixes s)
    (in_links s) (in_guest_tc s) (f (in_routes_shadow s)) (in_routes6_shadow s) (in_learned_macs s).
Definition set_routes6_shadow (f : list RouteShadow → list RouteShadow) (s : Inner) : Inner :=
  mkInner (in_maps s) (in_neigh_nats s) (in_lbs s) (in_next_table_id s) (in_by_id s)
    (in_by_ifindex s) (in_iface_underlay s) (in_prefixes s) (in_fw s) (in_lb_prefixes s)
    (in_links s) (in_guest_tc s) (in_routes_shadow s) (f (in_routes6_shadow s)) (in_learned_macs s).
Definition set_learned_macs (f : gmap (list Z) (list Z) → gmap (list Z) (list Z)) (s : Inner) : Inner :=
  mkInner (in_maps s) (in_neigh_nats s) (in_lbs s) (in_next_table_id s) (in_by_id s)
    (in_by_ifindex s) (in_iface_underlay s) (in_prefixes s) (in_fw s) (in_lb_prefixes s)
    (in_links s) (in_guest_tc s) (in_routes_shadow s) (in_routes6_shadow s) (f (in_learned_macs s)).

(** The state [bring_up] leaves: LOCAL written, everything else empty. *)
Definition bring_up (guest_tc : bool) (local : Local) : Inner :=
  mkInner (with_local (λ _, Some local) empty_maps) [] ∅ 1 ∅ ∅ ∅ ∅ ∅ ∅ ∅ guest_tc [] [] ∅.

(** A node with nothing configured but its uplink. *)
Definition demo_local : Local :=
  mkLocal 2 [2; 0; 0; 0; 0; 1] [2; 0; 0; 0; 0; 2] (replicate 16 0xfd).

(** ** Operations *)

Inductive outcome (A : Type) := Done (a : A) | Bail (msg : string).
Arguments Done {A} a.
Arguments Bail {A} msg.
Definition ctl (A : Type) : Type := Inner → outcome A * Inner.
Definition cret {A} (a : A) : ctl A := λ s, (Done a, s).
Definition bail {A} (msg : string) : ctl A := λ s, (Bail msg, s).
Definition cbind {A B} (m : ctl A) (k : A → ctl B) : ctl B :=
  λ s, match m s with
       | (Done a, s') => k a s'
       | (Bail msg, s') => (Bail msg, s')
       end.
Declare Scope ctl_scope.
Delimit Scope ctl_scope with ctl.
Notation "'let*' x := m 'in' k" := (cbind m (λ x, k))
  (at level 100, x name, m at level 99, k at level 200) : ctl_scope.
Notation "m ;;; k" := (cbind m (λ _, k))
  (at level 100, k at level 200, right associativity) : ctl_scope.

Definition cgets {A} (f : Inner → A) : ctl A := λ s, (Done (f s), s).
Definition cmod (f : Inner → Inner) : ctl unit := λ s, (Done tt, f s).
(** [if b { bail!(msg) }]. *)
Definition bail_if (b : bool) (msg : string) : ctl unit := if b then bail msg else cret tt.
(** [opt.ok_or_else(|| anyhow!(msg))?]. *)
Definition ok_or {A} (o : option A) (msg : string) : ctl A :=
  match o with Some a => cret a | None => bail msg end.
(** A map operation with [?], and one whose result is dropped. *)
Definition mapop (f : Maps → option Maps) (msg : string) : ctl unit :=
  λ s, match f (in_maps s) with
       | Some m => (Done tt, set_maps (λ _, m) s)
       | None => (Bail msg, s)
       end.
Definition mapop_ (f : Maps → option Maps) : ctl unit :=
  λ s, (Done tt, set_maps (λ m, default m (f m)) s).
(** [for x in l { .. }]. *)
Fixpoint cfor {A} (l : list A) (f : A → ctl unit) : ctl unit :=
  match l with
  | [] => cret tt
  | x :: l => cbind (f x) (λ _, cfor l f)
  end.
Definition cwhen (b : bool) (m : ctl unit) : ctl unit := if b then m else cret tt.

(** [map.values().any(p)]. *)
Definition any_value {K V} `{Countable K} (p : V → bool) (m : gmap K V) : bool :=
  existsb p (snd <$> map_to_list m).
Definition arr_eqb (a b : list Z) : bool := bool_decide (a = b).

(** ** Runs *)

Lemma cbind_inv {A B} (m : ctl A) (k : A → ctl B) s b s' :
  cbind m k s = (Done b, s') → ∃ a s1, m s = (Done a, s1) ∧ k a s1 = (Done b, s').
Proof. unfold cbind. destruct (m s) as [[a|msg] s1]; [eauto|done]. Qed.
Lemma bail_if_inv b msg s s' : bail_if b msg s = (Done tt, s') → b = false ∧ s' = s.
Proof. destruct b; [done|]. by intros [= <-]. Qed.
Lemma ok_or_inv {A} (o : option A) msg s a s' : ok_or o msg s = (Done a, s') → o = Some a ∧ s' = s.
Proof. destruct o; [|done]. by intros [= <- <-]. Qed.
Lemma mapop_inv f msg s s' :
  mapop f msg s = (Done tt, s') → ∃ m, f (in_maps s) = Some m ∧ s' = set_maps (λ _, m) s.
Proof. unfold mapop. destruct (f (in_maps s)) as [m|]; [|done]. intros [= <-]. eauto. Qed.

Lemma done_run {A} (m : ctl A) s a : (m s).1 = Done a → m s = (Done a, (m s).2).
Proof. intros <-. apply surjective_pairing. Qed.

(** Take a successful run apart. *)
Ltac ctl_inv E :=
  repeat match type of E with
  | cbind (bail_if _ _) _ _ = (Done _, _) =>
      let E1 := fresh "Hb" in
      apply cbind_inv in E as ([] & ? & E1 & E); apply bail_if_inv in E1 as [E1 ->]
  | cbind (ok_or _ _) _ _ = (Done _, _) =>
      let E1 := fresh "Ho" in let a := fresh "a" in
      apply cbind_inv in E as (a & ? & E1 & E); apply ok_or_inv in E1 as [E1 ->]
  | cbind (cgets _) _ _ = (Done _, _) =>
      let E1 := fresh in
      apply cbind_inv in E as (? & ? & E1 & E); injection E1 as <- <-
  | cbind (cmod _) _ _ = (Done _, _) =>
      let E1 := fresh in
      apply cbind_inv in E as ([] & ? & E1 & E); injection E1 as <-
  | cbind (mapop _ _) _ _ = (Done _, _) =>
      let E1 := fresh "Hm" in let m := fresh "m" in
      apply cbind_inv in E as ([] & ? & E1 & E); apply mapop_inv in E1 as (m & E1 & ->)
  end; cbv beta in E.

Lemma any_value_false {K V} `{Countable K} (p : V → bool) (m : gmap K V) :
  any_value p m = false → ∀ k v, m !! k = Some v → p v = false.
Proof.
  unfold any_value. intros H1 k v E. destruct (p v) eqn:Ep; [|done].
  assert (existsb p (snd <$> map_to_list m) = true); [|congruence].
  apply existsb_exists. exists v. split; [|done]. apply list_elem_of_In, list_elem_of_fmap.
  exists (k, v). split; [done|]. by apply elem_of_map_to_list.
Qed.

Lemma any_value_true {K V} `{Countable K} (p : V → bool) (m : gmap K V) :
  any_value p m = true ↔ ∃ k v, m !! k = Some v ∧ p v = true.
Proof.
  unfold any_value. rewrite existsb_exists. split.
  - intros (v & Hv & Ep). apply list_elem_of_In, list_elem_of_fmap in Hv as ([k x] & -> & Hx).
    apply elem_of_map_to_list in Hx. eauto.
  - intros (k & v & E & Ep). exists v. split; [|done]. apply list_elem_of_In, list_elem_of_fmap.
    exists (k, v). split; [done|]. by apply elem_of_map_to_list.
Qed.

Lemma Forall_filter {A} (P Q : A → Prop) `{∀ x, Decision (Q x)} l :
  Forall P l → Forall P (filter Q l).
Proof. rewrite !Forall_forall. intros Hl x [_ Hx]%list_elem_of_filter. by apply Hl. Qed.

Lemma filter_ext_elem {A} (P Q : A → Prop) `{∀ x, Decision (P x)} `{∀ x, Decision (Q x)} (l : list A) :
  (∀ x, x ∈ l → P x ↔ Q x) → filter P l = filter Q l.
Proof.
  induction l as [|x l IH]; intros Hl; [done|]. rewrite !filter_cons.
  rewrite IH by (intros y Hy; apply Hl; by right).
  assert (P x ↔ Q x) as Hx by (apply Hl; left).
  destruct (decide (P x)), (decide (Q x)); tauto.
Qed.

(** [Vec::retain]. *)
Lemma filter_elem {A} (p : A → bool) l x : x ∈ List.filter p l ↔ x ∈ l ∧ p x = true.
Proof. rewrite !list_elem_of_In. apply filter_In. Qed.
Lemma filter_NoDup_fmap {A B} (f : A → B) (p : A → bool) l :
  NoDup (f <$> l) → NoDup (f <$> List.filter p l).
Proof.
  induction l as [|x l IH]; [done|]. cbn [List.filter fmap list_fmap]. intros [Hx Hl]%NoDup_cons.
  destruct (p x); [|by apply IH]. cbn [fmap list_fmap]. apply NoDup_cons. split; [|by apply IH].
  intros (y & E & Hy)%list_elem_of_fmap. apply Hx, list_elem_of_fmap. exists y.
  split; [done|]. by apply filter_elem in Hy as [Hy _].
Qed.
Lemma filter_length_eq {A} (p : A → bool) l :
  (length (List.filter p l) =? length l)%nat = true → List.filter p l = l.
Proof.
  intros E%Nat.eqb_eq. induction l as [|x l IH]; [done|]. cbn in *. destruct (p x).
  - cbn in *. f_equal. apply IH. lia.
  - pose proof (List.filter_length_le p l). lia.
Qed.
Lemma filter_length_neq {A} (p : A → bool) l :
  (length (List.filter p l) =? length l)%nat = false → existsb (λ x, negb (p x)) l = true.
Proof.
  intros E%Nat.eqb_neq. induction l as [|x l IH]; [done|]. cbn in *. destruct (p x); [|done].
  cbn in *. apply IH. lia.
Qed.

(** A removal whose error is ignored. *)
Lemma default_remove {K V} `{Countable K} (get : Maps → gmap K V) set k m :
  set (λ _, get m) m = m →
  default m (on_map get set (hash_remove k) m) = set (λ _, delete k (get m)) m.
Proof.
  intros Hs. unfold on_map, hash_remove. destruct (get m !! k) eqn:E; [done|]. cbn.
  by rewrite delete_id.
Qed.
Lemma default_on_map {M X} (g : Maps → X) (get : Maps → M) set f m :
  (∀ x, g (set (λ _, x) m) = g m) → g (default m (on_map get set f m)) = g m.
Proof. intros Hg. unfold on_map. destruct (f (get m)); [apply Hg|done]. Qed.

(** ** Invariants *)

(** What the operations keep, by operation. *)
Create HintDb dp_keeps discriminated.
#[export] Hint Constants Opaque : dp_keeps.

(** [m] keeps [I], whether it succeeds or fails. *)
Definition kept (I : Inner → Prop) {A} (m : ctl A) : Prop := ∀ s, I s → I (m s).2.

Section kept.
Context (I : Inner → Prop).

Lemma kept_ret {A} (a : A) : kept I (cret a).
Proof. by intros s. Qed.
Lemma kept_bail {A} msg : kept I (bail (A := A) msg).
Proof. by intros s. Qed.
Lemma kept_bail_if b msg : kept I (bail_if b msg).
Proof. by destruct b; intros s. Qed.
Lemma kept_ok_or {A} (o : option A) msg : kept I (ok_or o msg).
Proof. by destruct o; intros s. Qed.
Lemma kept_bind {A B} (m : ctl A) (k : A → ctl B) :
  kept I m → (∀ a, kept I (k a)) → kept I (cbind m k).
Proof.
  intros Hm Hk s Hs. specialize (Hm s Hs). unfold cbind. destruct (m s) as [[a|msg] s1]; [|done].
  by apply Hk.
Qed.
(** What a successful check or lookup tells the rest. *)
Lemma kept_gets {A B} (f : Inner → A) (k : A → ctl B) :
  (∀ s, I s → kept I (k (f s))) → kept I (cbind (cgets f) k).
Proof. intros H s Hs. by apply (H s). Qed.
Lemma kept_bind_ok {A B} (o : option A) msg (k : A → ctl B) :
  (∀ a, o = Some a → kept I (k a)) → kept I (cbind (ok_or o msg) k).
Proof. intros H. destruct o; [|by intros s]. intros s Hs. by apply H. Qed.
Lemma kept_mod f : (∀ s, I s → I (f s)) → kept I (cmod f).
Proof. intros H s Hs. by apply H. Qed.
Lemma kept_when b m : kept I m → kept I (cwhen b m).
Proof. intros H. destruct b; [done|]. by intros s. Qed.
Lemma kept_for {A} (l : list A) f : (∀ x, x ∈ l → kept I (f x)) → kept I (cfor l f).
Proof.
  induction l as [|x l IH]; intros H; cbn [cfor]; [by intros s|].
  apply kept_bind; [apply H; left|]. intros _. apply IH. intros y Hy. apply H. by right.
Qed.
Lemma kept_mapop f msg :
  (∀ s m, I s → f (in_maps s) = Some m → I (set_maps (λ _, m) s)) → kept I (mapop f msg).
Proof. intros H s Hs. unfold mapop. destruct (f (in_maps s)) eqn:E; [|done]. by eapply H. Qed.
Lemma set_maps_id s : set_maps (λ m, m) s = s.
Proof. by destruct s. Qed.
Lemma set_maps_default f s m :
  f (in_maps s) = Some m → set_maps (λ m, default m (f m)) s = set_maps (λ _, m) s.
Proof. intros E. unfold set_maps. by rewrite E. Qed.
Lemma set_maps_default_None f s :
  f (in_maps s) = None → set_maps (λ m, default m (f m)) s = s.
Proof. intros E. unfold set_maps. rewrite E. by destruct s. Qed.
Lemma kept_mapop_ f :
  (∀ s m, I s → f (in_maps s) = Some m → I (set_maps (λ _, m) s)) → kept I (mapop_ f).
Proof.
  intros H s Hs. unfold mapop_. cbn. destruct (f (in_maps s)) as [m|] eqn:E.
  - rewrite (set_maps_default _ _ _ E). by eapply H.
  - by rewrite set_maps_default_None.
Qed.
End kept.

(** [m] leaves a part of the state alone, whether it succeeds or fails. *)
Definition keeps {X A} (g : Inner → X) (m : ctl A) : Prop := ∀ s, g (m s).2 = g s.

Section keeps.
Context {X : Type} (g : Inner → X).

Lemma keeps_bind {A B} (m : ctl A) (k : A → ctl B) :
  keeps g m → (∀ a, keeps g (k a)) → keeps g (cbind m k).
Proof.
  intros Hm Hk s. specialize (Hm s). unfold cbind. destruct (m s) as [[a|msg] s1]; [|done].
  rewrite <- Hm. apply (Hk a s1).
Qed.
Lemma keeps_for {A} (l : list A) f : (∀ x, keeps g (f x)) → keeps g (cfor l f).
Proof.
  intros H. induction l as [|x l IH]; cbn [cfor]; [by intros s|]. by apply keeps_bind.
Qed.
Lemma keeps_mapop f msg :
  (∀ s m, f (in_maps s) = Some m → g (set_maps (λ _, m) s) = g s) → keeps g (mapop f msg).
Proof. intros H s. unfold mapop. destruct (f (in_maps s)) eqn:E; [|done]. by apply H. Qed.
Lemma keeps_mapop_ f :
  (∀ s m, f (in_maps s) = Some m → g (set_maps (λ _, m) s) = g s) → keeps g (mapop_ f).
Proof.
  intros H s. unfold mapop_. cbn. destruct (f (in_maps s)) as [m|] eqn:E.
  - rewrite (set_maps_default _ _ _ E). by apply H.
  - by rewrite set_maps_default_None.
Qed.
(** An invariant of that part alone. *)
Lemma keeps_kept {A} (I : Inner → Prop) (m : ctl A) :
  keeps g m → (∀ s s', g s' = g s → I s → I s') → kept I m.
Proof. intros Hm HI s. apply HI, Hm. Qed.
End keeps.

(** One step of a proof of [keeps]; the map handles are [on_map]s. *)
Ltac keeps_step :=
  match goal with
  | |- keeps _ (cbind _ _) => apply keeps_bind; [|intros ?]
  | |- keeps _ (cfor _ _) => apply keeps_for; intros ?
  | |- keeps _ (mapop _ _) => apply keeps_mapop; by intros ? ? (? & _ & ->)%on_map_Some
  | |- keeps _ (mapop_ _) => apply keeps_mapop_; by intros ? ? (? & _ & ->)%on_map_Some
  | |- keeps _ (mapop _ _) => apply keeps_mapop; by intros ? ? [= <-]
  | |- keeps _ (mapop_ _) => apply keeps_mapop_; by intros ? ? [= <-]
  | |- keeps _ (cwhen ?b _) => destruct b; cbn [cwhen]
  | |- keeps _ (bail_if ?b _) => destruct b; by intros ?
  | |- keeps _ (ok_or ?o _) => destruct o; by intros ?
  | |- keeps _ (match ?x with _ => _ end) => destruct x
  | |- keeps _ _ => by intros ?
  end.

(** [m] cannot fail, and does [F] to a part of the state. *)
Definition acts {X} (g : Inner → X) (F : X → X) (m : ctl unit) : Prop :=
  ∀ s, ∃ s', m s = (Done tt, s') ∧ g s' = F (g s).

Section acts.
Context {X : Type} (g : Inner → X).

Lemma acts_bind F G m k : acts g F m → acts g G (k tt) → acts g (λ x, G (F x)) (cbind m k).
Proof.
  intros Hm Hk s. destruct (Hm s) as (s1 & E1 & <-). destruct (Hk s1) as (s2 & E2 & <-).
  exists s2. split; [|done]. unfold cbind. by rewrite E1.
Qed.
Lemma acts_eq F G m : acts g F m → (∀ x, F x = G x) → acts g G m.
Proof. intros Hm E s. destruct (Hm s) as (s' & E1 & E2). exists s'. by rewrite <- E. Qed.
Lemma acts_mod F f : (∀ s, g (f s) = F (g s)) → acts g F (cmod f).
Proof. intros H s. exists (f s). by split. Qed.
Lemma acts_mapop_ F f :
  (∀ s, g (set_maps (λ m, default m (f m)) s) = F (g s)) → acts g F (mapop_ f).
Proof. intros H s. eexists. by split. Qed.
Lemma acts_when b m : acts g (λ x, x) m → acts g (λ x, x) (cwhen b m).
Proof. intros H. destruct b; [done|]. intros s. by exists s. Qed.
Lemma acts_when_do (b : bool) F m :
  acts g F m → acts g (λ x, if b then F x else x) (cwhen b m).
Proof. intros H. destruct b; [done|]. intros s. by exists s. Qed.
Lemma acts_for {A} (l : list A) f : (∀ x, acts g (λ x, x) (f x)) → acts g (λ x, x) (cfor l f).
Proof.
  intros H. induction l as [|x l IH]; cbn [cfor]; [intros s; by exists s|].
  apply (acts_bind (λ x, x) (λ x, x)); auto.
Qed.
Lemma acts_gets {A} F (f : Inner → A) k : (∀ a, acts g F (k a)) → acts g F (cbind (cgets f) k).
Proof. intros H s. apply (H (f s)). Qed.
End acts.

Lemma acts_remove {K V} `{Countable K} (get : Maps → gmap K V) set k :
  (∀ m, set (λ _, get m) m = m) → (∀ x m, get (set (λ _, x) m) = x) →
  acts (λ s, get (in_maps s)) (delete k) (mapop_ (on_map get set (hash_remove k))).
Proof. intros H1 H2. apply acts_mapop_. intros s. cbn. by rewrite default_remove, H2. Qed.
Lemma acts_other {M X} (g : Maps → X) (get : Maps → M) set f :
  (∀ x m, g (set (λ _, x) m) = g m) →
  acts (λ s, g (in_maps s)) (λ x, x) (mapop_ (on_map get set f)).
Proof. intros H. apply acts_mapop_. intros s. cbn. by apply default_on_map. Qed.

Ltac acts_step :=
  match goal with
  | |- acts _ _ (cbind (cgets _) _) => apply acts_gets; intros ?
  | |- acts _ (λ x, x) (cbind _ _) => apply (acts_bind _ (λ x, x) (λ x, x))
  | |- acts _ _ (cbind _ _) => eapply acts_bind
  | |- acts _ _ (mapop_ _) =>
      first [apply acts_remove; [by intros []|done] | apply acts_other; done
            | apply (acts_mapop_ _ (λ x, x)); done]
  | |- acts _ _ (cmod _) => apply (acts_mod _ (λ x, x)); done
  | |- acts _ _ (cwhen _ _) => apply acts_when
  | |- acts _ _ (cfor _ _) => apply acts_for; intros ?
  end.

(** The sizes of what the control plane stores: the map values, and the
    shadow values it writes into maps later. *)
Record sized (s : Inner) : Prop := {
  sz_maps : shaped (in_maps s);
  sz_macs : ∀ k v, in_learned_macs s !! k = Some v → length v = 6%nat;
  sz_neigh : Forall (λ e, length (ne_underlay e) = 16%nat) (in_neigh_nats s);
  sz_lbs : ∀ id e, in_lbs s !! id = Some e → Forall (λ b, length b = 16%nat) (le_backends e);
  sz_ifaces : ∀ id r, in_by_id s !! id = Some r → length (ir_ipv4 r) = 4%nat;
  sz_underlay : ∀ id u, in_iface_underlay s !! id = Some u → length u = 16%nat }.

Lemma sized_maps s m : sized s → shaped m → sized (set_maps (λ _, m) s).
Proof. intros [] Hm. by split. Qed.
Lemma kept_shape f msg : keeps_shape f → kept sized (mapop f msg).
Proof. intros Hf. apply kept_mapop. intros s m Hs E. apply sized_maps; [done|]. eapply Hf; [apply Hs|done]. Qed.
Lemma kept_shape_ f : keeps_shape f → kept sized (mapop_ f).
Proof. intros Hf. apply kept_mapop_. intros s m Hs E. apply sized_maps; [done|]. eapply Hf; [apply Hs|done]. Qed.

(** One step of a proof that an operation keeps [sized]. *)
Ltac kept_step :=
  match goal with
  | |- kept _ (cret _) => apply kept_ret
  | |- kept _ (bail _) => apply kept_bail
  | |- kept _ (bail_if _ _) => apply kept_bail_if
  | |- kept _ (cbind (cgets _) _) => apply kept_gets; intros ? ?
  | |- kept _ (cbind (ok_or _ _) _) => apply kept_bind_ok; intros ? ?
  | |- kept _ (cbind _ _) => apply kept_bind; [|intros ?]
  | |- kept _ (cwhen _ _) => apply kept_when
  | |- kept sized (mapop _ _) => apply kept_shape; eauto with dp_shape
  | |- kept sized (mapop_ _) => apply kept_shape_; eauto with dp_shape
  end.
