(* ===== verification/Rpc.v ===== *)
(** * Rpc

    What the gRPC handlers (xdp-dp/src/grpc.rs) are made of: responses and
    errors, the proto messages they share (src/proto/dpdk.proto), the calls
    into the control plane, and the address fields of messages. *)
From stdpp Require Import strings pretty.
From S2P Require Import Prelude Bytes Types NetAddr Ctl.
Local Open Scope string_scope.
Local Open Scope Z_scope.

(** ** Definitions: calls *)

(** [Result<Response<A>, Status>]. *)
Inductive rpc_code := InvalidArgument | FailedPrecondition | Internal | Unimplemented.
Inductive answer (A : Type) := Resp (a : A) | Fail (code : rpc_code) (msg : string).
Arguments Resp {A} a.
Arguments Fail {A} code msg.
(** A handler runs over the control plane's state. *)
Definition rpc (A : Type) : Type := Inner → answer A * Inner.
Definition rret {A} (a : A) : rpc A := λ s, (Resp a, s).
Definition rlift {A} (a : answer A) : rpc A := λ s, (a, s).
Definition rfail {A} (code : rpc_code) (msg : string) : rpc A := rlift (Fail code msg).
Definition rbind {A B} (m : rpc A) (k : A → rpc B) : rpc B :=
  λ s, match m s with
       | (Resp a, s') => k a s'
       | (Fail code msg, s') => (Fail code msg, s')
       end.
Definition rgets {A} (f : Inner → A) : rpc A := λ s, (Resp (f s), s).
Declare Scope rpc_scope.
Delimit Scope rpc_scope with rpc.
Notation "'let*' x := m 'in' k" := (rbind m (λ x, k))
  (at level 100, x name, m at level 99, k at level 200) : rpc_scope.
Notation "m ;;; k" := (rbind m (λ _, k))
  (at level 100, k at level 200, right associativity) : rpc_scope.
Definition abind {A B} (m : answer A) (k : A → answer B) : answer B :=
  match m with Resp a => k a | Fail code msg => Fail code msg end.
(** [opt.ok_or_else(|| Status::invalid_argument(msg))?]. *)
Definition needs {A} (o : option A) (msg : string) : rpc A :=
  match o with Some a => rret a | None => rfail InvalidArgument msg end.

(** The [Service]: whether it controls a datapath, and its addresses. *)
Record Service := mkService
  { sv_control : bool; sv_underlay : list Z; sv_gateway_ipv4 : list Z; sv_gateway_ipv6 : list Z }.
Definition control (sv : Service) : rpc unit :=
  if sv_control sv then rret tt else rfail FailedPrecondition "datapath not initialized".

(** A response: its status and its other fields. *)
Record DpStatus := mkDpStatus { st_code : Z; st_message : string }.
Record Reply (A : Type) := mkReply { rp_status : DpStatus; rp_body : A }.
Arguments mkReply {A} rp_status rp_body.
Arguments rp_status {A} r.
Arguments rp_body {A} r.
Definition ok : DpStatus := mkDpStatus 0 "OK".
Definition err_status (code : Z) (msg : string) : DpStatus := mkDpStatus code msg.

(** [msg.contains(needle)]. *)
Fixpoint contains (needle s : string) : bool :=
  String.prefix needle s || match s with "" => false | String _ s => contains needle s end.
(** How a handler classifies an error: the first row with a needle that occurs
    in the message gives the status. *)
Definition statuses : Type := list (list string * DpStatus).
Definition status_of (table : statuses) (msg : string) : option DpStatus :=
  snd <$> List.find (λ row, existsb (λ needle, contains needle msg) row.1) table.
(** [match control.op(..) { Ok(a) => .., Err(e) => .. }]: an error the table
    does not know is an internal one. *)
Definition attempt {A B} (m : ctl A) (table : statuses) (none : B) (k : A → rpc (Reply B))
    : rpc (Reply B) :=
  λ s, match m s with
       | (Done a, s') => k a s'
       | (Bail msg, s') =>
           match status_of table msg with
           | Some st => (Resp (mkReply st none), s')
           | None => (Fail Internal msg, s')
           end
       end.
(** [Ok(true)] and [Ok(false)] of a deletion. *)
Definition deleted (missing : DpStatus) (b : bool) : rpc (Reply unit) :=
  rret (mkReply (if b then ok else missing) tt).
Definition NOT_FOUND : DpStatus := err_status 201 "NOT_FOUND".
Definition ALREADY_EXISTS : DpStatus := err_status 202 "ALREADY_EXISTS".
Definition BAD_IPVER : DpStatus := err_status 204 "BAD_IPVER".
Definition NO_VM : DpStatus := err_status 205 "NO_VM".
Definition NO_VNI : DpStatus := err_status 206 "NO_VNI".
Definition ROUTE_EXISTS : DpStatus := err_status 301 "ROUTE_EXISTS".
Definition ROUTE_NOT_FOUND : DpStatus := err_status 302 "ROUTE_NOT_FOUND".
Definition SNAT_NO_DATA : DpStatus := err_status 341 "SNAT_NO_DATA".
Definition SNAT_EXISTS : DpStatus := err_status 343 "SNAT_EXISTS".
Definition VNF_INSERT : DpStatus := err_status 401 "VNF_INSERT".
Definition NO_LB : DpStatus := err_status 422 "NO_LB".
Definition NO_DROP_SUPPORT : DpStatus := err_status 441 "NO_DROP_SUPPORT".

(** ** Definitions: addresses *)

(** [IpVersion], [IpAddress] and [Prefix] of the proto file. *)
Definition IPV4 : Z := 0.
Definition IPV6 : Z := 1.
Record IpAddress := mkIpAddress { ia_ipver : Z; ia_address : list Z }.
Record Prefix := mkPrefix
  { px_ip : option IpAddress; px_length : Z; px_underlay_route : list Z }.

Definition encode_ipv6_str (addr : list Z) : list Z := show_ipv6 addr.
Definition encode_ipv4_str (addr : list Z) : list Z := show_ipv4 addr.
Definition decode_ipv4 (bytes : list Z) : answer (list Z) :=
  if (length bytes =? 4)%nat then Resp bytes
  else if negb (utf8_valid bytes) then Fail InvalidArgument "IPv4 address is not valid UTF-8"
  else match parse_ipv4 bytes with
       | Some addr => Resp addr
       | None => Fail InvalidArgument ("invalid IPv4 address string: " +:+ text_of bytes)
       end.
Definition decode_ipv6 (bytes : list Z) : answer (list Z) :=
  if utf8_valid bytes && existsb (Z.eqb 58) bytes then
    match parse_ipv6 bytes with
    | Some addr => Resp addr
    | None => Fail InvalidArgument ("invalid IPv6 address string: " +:+ text_of bytes)
    end
  else if (length bytes =? 16)%nat then Resp bytes
  else Fail InvalidArgument ("IPv6 address must be a string or 16 raw bytes, got "
         +:+ pretty (length bytes) +:+ " bytes").

(** The text of the field is an address of the other family. *)
Definition text_family (bytes : list Z) : option bool :=
  if utf8_valid bytes then parse_ip_is_v6 bytes else None.
Definition is_v6_addr (a : IpAddress) : bool :=
  (ia_ipver a =? IPV6) || default false (text_family (ia_address a)).
Definition is_v4_addr (a : IpAddress) : bool :=
  (ia_ipver a =? IPV4) || default false (negb <$> text_family (ia_address a)).

(** The optional [preferred_underlay_route]: empty or "::" is none. *)
Definition preferred (bytes : list Z) : answer (option (list Z)) :=
  match bytes with
  | [] => Resp None
  | _ => abind (decode_ipv6 bytes) (λ ul,
           Resp (if bool_decide (ul = replicate 16 0) then None else Some ul))
  end.
(** The underlay address derived from the server's: prefix, VNI, address. *)
Definition derive_underlay (sv : Service) (vni : Z) (tail : list Z) : list Z :=
  take 8 (sv_underlay sv) ++ to_be32 vni ++ tail.

(** [mask_from_len]. *)
Definition mask_from_len (len : Z) : list Z :=
  let len := Z.min len 32 in
  to_be32 (if len =? 0 then 0 else wrap32 (Z.shiftl 0xffffffff (32 - len))).
(** The network address of [ip/len]. *)
Definition masked (ip : list Z) (len : Z) : list Z :=
  let mask := mask_from_len len in
  [Z.land (at_ ip 0) (at_ mask 0); Z.land (at_ ip 1) (at_ mask 1);
   Z.land (at_ ip 2) (at_ mask 2); Z.land (at_ ip 3) (at_ mask 3)].

(** The messages of listed addresses. *)
Definition v4_addr (a : list Z) : IpAddress := mkIpAddress IPV4 (encode_ipv4_str a).
Definition v6_addr (a : list Z) : IpAddress := mkIpAddress IPV6 (encode_ipv6_str a).
Definition prefix_msg (row : list Z * Z * list Z * bool) : Prefix :=
  let '(ip, len, ul, is_ipv6) := row in
  mkPrefix (Some (if is_ipv6 then v6_addr (take 16 ip) else v4_addr (take 4 ip))) len
    (encode_ipv6_str ul).

(** ** Definitions: the service state (state.rs) *)

(** [State::initialize] with the identifier a new UUID would be. *)
Definition initialize_state (fresh : string) (uuid : option string) : string * option string :=
  let u := default fresh uuid in (u, Some u).
Definition check_initialized_state (uuid : option string) : option string := uuid.
(** The handlers of both and [get_version]. *)
Definition initialize (fresh : string) (uuid : option string) : Reply string * option string :=
  let '(u, uuid) := initialize_state fresh uuid in (mkReply ok u, uuid).
Definition check_initialized (uuid : option string) : Reply string :=
  match check_initialized_state uuid with
  | Some u => mkReply ok u
  | None => mkReply (mkDpStatus 1 "not initialized") ""
  end.
Definition get_version (client_protocol : string) : Reply (string * string) :=
  mkReply ok (client_protocol, client_protocol).
(** [capture_start], [capture_stop], [capture_status]. *)
Definition capture : rpc (Reply unit) := rfail Unimplemented "not implemented".

(** ** Properties *)

(** C37.  An address the service sends in a response reads back as the same
    address in a request, for both families and whatever the address. *)
Theorem addresses_round_trip (v4 v6 : list Z) :
  is_arr 4 v4 → is_arr 16 v6 →
  decode_ipv4 (encode_ipv4_str v4) = Resp v4 ∧ decode_ipv6 (encode_ipv6_str v6) = Resp v6.
Proof.
  intros H4 H6. split.
  - unfold decode_ipv4, encode_ipv4_str. pose proof (show_ipv4_length v4 H4).
    rewrite (proj2 (Nat.eqb_neq _ _)) by lia.
    rewrite utf8_ascii by (apply show_ipv4_ascii, H4). cbn [negb]. by rewrite parse_show_ipv4.
  - unfold decode_ipv6, encode_ipv6_str. rewrite utf8_ascii by (apply show_ipv6_ascii, H6).
    assert (existsb (Z.eqb 58) (show_ipv6 v6) = true) as ->.
    { apply existsb_exists. exists 58. split; [|done]. apply show_ipv6_colon, H6. }
    cbn [andb]. by rewrite parse_show_ipv6.
Qed.

Definition demo_v6 : list Z := ([0x20; 1; 0xd; 0xb8] ++ replicate 11 0 ++ [1])%list.
Lemma addresses_round_trip_witness :
  decode_ipv4 (encode_ipv4_str [10; 0; 0; 1]) = Resp [10; 0; 0; 1] ∧
  decode_ipv6 (encode_ipv6_str demo_v6)
  = Resp demo_v6.
Proof.
  apply (addresses_round_trip [10; 0; 0; 1] demo_v6);
    by apply is_arr_b.
Defined.
