(* ===== verification/CtlIface.v ===== *)
(** * CtlIface

    Interfaces and DHCP parameters of the control plane
    (xdp-dp/src/control.rs, [create_interface] to [list_interfaces]). *)
From S2P Require Import Prelude Bytes Types Kernel Meter Nat Safe Handles Host Ctl.
Local Open Scope string_scope.
Local Open Scope Z_scope.

(** ** Definitions *)

Record IfaceParams := mkIfaceParams
  { ip_vni : Z; ip_ipv4 : list Z; ip_ipv6 : list Z; ip_gateway_ipv4 : list Z;
    ip_gateway_ipv6 : list Z; ip_underlay_ipv6 : list Z; ip_total_mbps : Z; ip_public_mbps : Z }.

Definition ipv6_zero : list Z := replicate 16 0.

(** [u64::saturating_mul]. *)
Definition saturating_mul64 (a b : Z) : Z := Z.min (a * b) (2 ^ 64 - 1).
Definition meter_state (total_mbps public_mbps : Z) : MeterState :=
  let tb := saturating_mul64 total_mbps 1000000 / 8 in
  let pb := saturating_mul64 public_mbps 1000000 / 8 in
  mkMeterState tb (Z.max (tb / 8) 2000) (tb / 8) 0 pb (Z.max (pb / 8) 2000) (pb / 8) 0.

(** A byte string copied into the front of a zeroed array. *)
Definition copy_into (n : nat) (b : list Z) : list Z :=
  take n b ++ replicate (n - length b) 0.

(** [set_dhcp_config]: at most eight DNS servers of each family. *)
Definition dns_slots (zero : list Z) (l : list (list Z)) : list (list Z) :=
  take DHCP_MAX_DNS l ++ replicate (DHCP_MAX_DNS - length l) zero.
Definition dns_len (l : list (list Z)) : Z :=
  wrap8 (Z.of_nat (length l `min` DHCP_MAX_DNS)).
Definition set_dhcp_config (mtu : Z) (dns4 dns6 : list (list Z)) : ctl unit :=
  mapop (DhcpConfigMap_set (mkDhcpConfig mtu (dns_len dns4) (dns_len dns6)
    (dns_slots (replicate 4 0) dns4) (dns_slots (replicate 16 0) dns6))) "write DHCP_CONFIG[0]".

Definition dhcp_meta_of (hostname pxe_host boot_filename : list Z) : DhcpMeta :=
  mkDhcpMeta (copy_into 64 hostname) (wrap8 (Z.of_nat (length hostname `min` 64)))
    (copy_into 64 boot_filename) (wrap8 (Z.of_nat (length boot_filename `min` 64)))
    (copy_into 46 pxe_host) (wrap8 (Z.of_nat (length pxe_host `min` 46))).

Section programs.
Context `{Kernel} `{Host}.
Local Open Scope ctl_scope.

Definition set_dhcp_meta (interface_id hostname pxe_host boot_filename : list Z) : ctl unit :=
  let* by_ifindex := cgets in_by_ifindex in
  let* ifindex := ok_or (by_ifindex !! interface_id) "unknown interface" in
  mapop (DhcpMetaMap_upsert ifindex (dhcp_meta_of hostname pxe_host boot_filename))
    "insert dhcp_meta".

(** [program_iface_maps]. *)
Definition program_iface_maps (tap : Z) (mac : list Z) (p : IfaceParams) : ctl unit :=
  let* learned := cgets in_learned_macs in
  let effective_mac := default mac (learned !! ip_underlay_ipv6 p) in
  let self := mkRouteValue (ip_vni p) (ip_underlay_ipv6 p) 0 in
  mapop (PortMetaMap_upsert tap
    (mkPortMeta (ip_vni p) (ip_ipv4 p) (ip_gateway_ipv4 p) effective_mac (ip_underlay_ipv6 p)
       (ip_gateway_ipv6 p) (ip_ipv6 p))) "insert port_meta" ;;;
  mapop (Interfaces_upsert (mkIfaceKey (ip_vni p) (ip_ipv4 p))
    (mkIfaceValue tap 1 (ip_underlay_ipv6 p) effective_mac)) "insert iface" ;;;
  mapop (Underlay_upsert (ip_underlay_ipv6 p) (mkUnderlayValue (ip_vni p) tap effective_mac))
    "insert underlay" ;;;
  mapop (Routes_upsert (ip_vni p) (ip_ipv4 p) 32 self) "insert route" ;;;
  cwhen (negb (arr_eqb (ip_ipv6 p) ipv6_zero))
    (mapop (Routes6_upsert (ip_vni p) (ip_ipv6 p) 128 self) "insert route6") ;;;
  cwhen (negb (ip_total_mbps p =? 0) || negb (ip_public_mbps p =? 0))
    (mapop (Meter_upsert tap (meter_state (ip_total_mbps p) (ip_public_mbps p))) "insert meter").

Definition same_iface4 (vni : Z) (ipv4 : list Z) (r : IfaceRecord) : bool :=
  (ir_vni r =? vni) && arr_eqb (ir_ipv4 r) ipv4.
Definition same_iface6 (vni : Z) (ipv6 : list Z) (r : IfaceRecord) : bool :=
  (ir_vni r =? vni) && arr_eqb (ir_ipv6 r) ipv6.

(** The shadow tables' new entries. *)
Definition register_iface (id : list Z) (device : string) (tap : Z) (p : IfaceParams) (s : Inner)
    : Inner :=
  set_iface_underlay <[id := ip_underlay_ipv6 p]>
    (set_by_ifindex <[id := tap]>
      (set_by_id <[id := mkIfaceRecord (ip_vni p) (ip_ipv4 p) (ip_ipv6 p) device (ip_underlay_ipv6 p)]>
        (set_links <[id := device]> s))).

Definition create_interface (id : list Z) (device : string) (p : IfaceParams) : ctl unit :=
  let device := resolve_iface device in
  let* tap := ok_or (ifindex device) ("read ifindex for " +:+ device) in
  let* mac := ok_or (mac_of device) ("read mac for " +:+ device) in
  let* by_id := cgets in_by_id in
  bail_if (bool_decide (is_Some (by_id !! id))) "interface already exists" ;;;
  bail_if (any_value (same_iface4 (ip_vni p) (ip_ipv4 p)) by_id)
    "ROUTE_EXISTS: IP already in use in this VNI" ;;;
  bail_if (negb (arr_eqb (ip_ipv6 p) ipv6_zero)
           && any_value (same_iface6 (ip_vni p) (ip_ipv6 p)) by_id)
    "ROUTE_EXISTS: IPv6 already in use in this VNI" ;;;
  let* guest_tc := cgets in_guest_tc in
  bail_if (negb (attach_guest guest_tc device)) ((if guest_tc then "attach tc_guest_tx to " else "load+attach guest_tx to ") +:+ device) ;;;
  cmod (register_iface id device tap p) ;;;
  program_iface_maps tap mac p.

(** [detach_interface]: the interface's own state. *)
Definition forget_iface (id : list Z) (s : Inner) : Inner :=
  set_links (delete id) (set_prefixes (delete id) (set_iface_underlay (delete id)
    (set_by_ifindex (delete id) (set_by_id (delete id) s)))).

(** Keep the MAC the datapath learned last. *)
Definition learn_mac (underlay : list Z) (s : Inner) : Inner :=
  match Underlay_get underlay (in_maps s) with
  | Some u => set_learned_macs <[underlay := uv_guest_mac u]> s
  | None => s
  end.

Definition unprogram_iface (tap : Z) (rec : IfaceRecord) : ctl unit :=
  mapop_ (PortMetaMap_remove tap) ;;;
  mapop_ (Interfaces_remove (mkIfaceKey (ir_vni rec) (ir_ipv4 rec))) ;;;
  cmod (learn_mac (ir_underlay rec)) ;;;
  mapop_ (Underlay_remove (ir_underlay rec)) ;;;
  mapop_ (Meter_remove tap) ;;;
  mapop_ (DhcpMetaMap_remove tap) ;;;
  mapop_ (Routes_remove (ir_vni rec) (ir_ipv4 rec) 32) ;;;
  cwhen (negb (arr_eqb (ir_ipv6 rec) ipv6_zero))
    (mapop_ (Routes6_remove (ir_vni rec) (ir_ipv6 rec) 128)) ;;;
  cmod (set_fw (delete tap)).

(** Rewrite the slots of the neighbor table, ignoring errors. *)
Fixpoint write_neighbors_ (idx : Z) (es : list NeighborNatEntry) : ctl unit :=
  match es with
  | [] => cret tt
  | e :: es => mapop_ (NeighborNat_upsert idx e) ;;; write_neighbors_ (idx + 1) es
  end.
Definition purge_neighbors (vni : Z) : ctl unit :=
  let* before := cgets in_neigh_nats in
  let remaining := filter (λ e, ne_vni e ≠ vni) before in
  cmod (set_neigh_nats (λ _, remaining)) ;;;
  cwhen (negb (length remaining =? length before)%nat)
    (write_neighbors_ 0 remaining ;;;
     mapop_ (NeighborNatCount_set (Z.of_nat (length remaining)))).

(** The guest's VIP (both directions) and NAT configuration. *)
Definition purge_guest (vni : Z) (ipv4 : list Z) : ctl unit :=
  let* m := cgets in_maps in
  match Vips_get (mkVipKey vni ipv4) m with
  | Some vip => mapop_ (Vips_remove (mkVipKey vni vip))
  | None => cret tt
  end ;;;
  mapop_ (Vips_remove (mkVipKey vni ipv4)) ;;;
  mapop_ (Nat_remove (mkNatKey vni ipv4)).

(** The routes of the VNI. *)
Definition purge_routes (vni : Z) : ctl unit :=
  let* r4 := cgets in_routes_shadow in
  let to_del := filter (λ r, rs_vni r = vni) r4 in
  cfor to_del (λ r, mapop_ (Routes_remove vni (rs_prefix r) (rs_len r))) ;;;
  cmod (set_routes_shadow (filter (λ r, negb (existsb (λ d, (rs_vni r =? vni)
    && arr_eqb (rs_prefix d) (rs_prefix r) && (rs_len d =? rs_len r)) to_del)))) ;;;
  let* r6 := cgets in_routes6_shadow in
  let to_del6 := filter (λ r, rs_vni r = vni) r6 in
  cfor to_del6 (λ r, mapop_ (Routes6_remove vni (rs_prefix r) (rs_len r))) ;;;
  cmod (set_routes6_shadow (filter (λ r, negb (existsb (λ d, (rs_vni r =? vni)
    && arr_eqb (rs_prefix d) (rs_prefix r) && (rs_len d =? rs_len r)) to_del6)))).

Definition vni_still_in_use (vni : Z) (s : Inner) : bool :=
  any_value (λ r, ir_vni r =? vni) (in_by_id s) || any_value (λ lb, le_vni lb =? vni) (in_lbs s).

Definition detach_interface (id : list Z) : ctl bool :=
  let* by_id := cgets in_by_id in
  match by_id !! id with
  | None => cret false
  | Some rec =>
      let* by_ifindex := cgets in_by_ifindex in
      let tap := default 0 (by_ifindex !! id) in
      cmod (forget_iface id) ;;;
      unprogram_iface tap rec ;;;
      let* in_use := cgets (vni_still_in_use (ir_vni rec)) in
      cwhen (negb in_use)
        (purge_neighbors (ir_vni rec) ;;;
         purge_guest (ir_vni rec) (ir_ipv4 rec) ;;;
         purge_routes (ir_vni rec)) ;;;
      cret true
  end.

(** [get_interface], [list_interfaces]. *)
Definition get_interface (id : list Z) (s : Inner) : option IfaceRecord := in_by_id s !! id.
Definition list_interfaces (s : Inner) : list (list Z * IfaceRecord) := map_to_list (in_by_id s).
End programs.

(** ** Lemmas *)

Lemma copy_into_length n b : length (copy_into n b) = n.
Proof. unfold copy_into. rewrite length_app, length_take, length_replicate. lia. Qed.

Lemma dns_slots_shaped zero l n :
  length zero = n → Forall (λ a : list Z, length a = n) l →
  length (dns_slots zero l) = DHCP_MAX_DNS ∧ Forall (λ a, length a = n) (dns_slots zero l).
Proof.
  intros Hz Hl. unfold dns_slots. split.
  - rewrite length_app, length_take, length_replicate. lia.
  - apply Forall_app. split; [by apply Forall_take|by apply Forall_replicate].
Qed.

(** A configured meter, up to the rates its arithmetic is made for. *)
Lemma meter_state_ok total_mbps public_mbps :
  0 <= total_mbps <= 147573 → 0 <= public_mbps <= 147573 → meter_ok (meter_state total_mbps public_mbps).
Proof.
  assert (∀ n, 0 <= n <= 147573 →
    let b := saturating_mul64 n 1000000 / 8 in bucket_ok b (Z.max (b / 8) 2000) (b / 8)) as Hb.
  { intros n Hn b. destruct (decide (n = 0)) as [->|]; [by left|right].
    assert (b = n * 125000) as ->.
    { unfold b, saturating_mul64. rewrite Z.min_l by lia.
      replace (n * 1000000) with (n * 125000 * 8) by lia. by apply Z.div_mul. }
    change (2 ^ 64 / NS) with 18446744073. assert (0 <= n * 125000 / 8) by (apply Z.div_pos; lia). lia. }
  intros Ht Hp. split; by apply Hb.
Qed.

(** Parameters as the protobuf decoder builds them. *)
Record params_shaped (p : IfaceParams) : Prop := {
  pa_ipv4 : length (ip_ipv4 p) = 4%nat;
  pa_ipv6 : length (ip_ipv6 p) = 16%nat;
  pa_gw4 : length (ip_gateway_ipv4 p) = 4%nat;
  pa_gw6 : length (ip_gateway_ipv6 p) = 16%nat;
  pa_underlay : length (ip_underlay_ipv6 p) = 16%nat }.

(** Domains of the tables keyed by interface id agree, the recorded underlay
    is the indexed one, and no two interfaces of a VNI share an address. *)
Record ifaces_ok (s : Inner) : Prop := {
  io_taps : ∀ id, is_Some (in_by_ifindex s !! id) ↔ is_Some (in_by_id s !! id);
  io_links : ∀ id, in_links s !! id = ir_device <$> in_by_id s !! id;
  io_underlay : ∀ id, in_iface_underlay s !! id = ir_underlay <$> in_by_id s !! id;
  io_addr4 : ∀ i j a b, in_by_id s !! i = Some a → in_by_id s !! j = Some b →
    ir_vni a = ir_vni b → ir_ipv4 a = ir_ipv4 b → i = j;
  io_addr6 : ∀ i j a b, in_by_id s !! i = Some a → in_by_id s !! j = Some b →
    ir_vni a = ir_vni b → ir_ipv6 a = ir_ipv6 b → ir_ipv6 a ≠ ipv6_zero → i = j }.

(** The tables [ifaces_ok] is about. *)
Definition iface_tables (s : Inner) :=
  (in_by_id s, in_by_ifindex s, in_links s, in_iface_underlay s).
Lemma kept_ifaces {A} (m : ctl A) : keeps iface_tables m → kept ifaces_ok m.
Proof.
  intros H. eapply keeps_kept; [exact H|]. intros s s' [= E1 E2 E3 E4] [].
  split; rewrite ?E1, ?E2, ?E3, ?E4; done.
Qed.

#[export] Hint Resolve kept_ifaces : dp_keeps.

Section lemmas.
Context `{KL : KernelLaws} `{Host}.
Local Open Scope ctl_scope.

Lemma keeps_program {X} (g : Inner → X) tap mac p :
  (∀ m s, g (set_maps (λ _, m) s) = g s) → keeps g (program_iface_maps tap mac p).
Proof.
  intros Hg. unfold program_iface_maps. repeat (keeps_step || (apply keeps_mapop; by intros)).
Qed.

(** Nothing happens, or every check succeeds and the maps are programmed. *)
Lemma create_interface_cases id dev p s :
  let dev' := resolve_iface dev in
  (∃ msg, create_interface id dev p s = (Bail msg, s)) ∨
  ∃ tap mac, ifindex dev' = Some tap ∧ mac_of dev' = Some mac ∧
    attach_guest (in_guest_tc s) dev' = true ∧ in_by_id s !! id = None ∧
    (∀ k v, in_by_id s !! k = Some v → same_iface4 (ip_vni p) (ip_ipv4 p) v = false) ∧
    (ip_ipv6 p = ipv6_zero ∨
     ∀ k v, in_by_id s !! k = Some v → same_iface6 (ip_vni p) (ip_ipv6 p) v = false) ∧
    create_interface id dev p s = program_iface_maps tap mac p (register_iface id dev' tap p s).
Proof.
  cbn zeta. unfold create_interface. set (dev' := resolve_iface dev).
  destruct (ifindex dev') as [tap|]; [|left; by eexists].
  destruct (mac_of dev') as [mac|]; [|left; by eexists].
  destruct (bool_decide (is_Some (in_by_id s !! id))) eqn:E1.
  { left. unfold cbind, ok_or, cret, cgets. cbv beta iota. rewrite E1. by eexists. }
  destruct (any_value (same_iface4 (ip_vni p) (ip_ipv4 p)) (in_by_id s)) eqn:E2.
  { left. unfold cbind, ok_or, cret, cgets. cbv beta iota. rewrite E1, E2. by eexists. }
  destruct (negb (arr_eqb (ip_ipv6 p) ipv6_zero)
            && any_value (same_iface6 (ip_vni p) (ip_ipv6 p)) (in_by_id s)) eqn:E3.
  { left. unfold cbind, ok_or, cret, cgets. cbv beta iota. rewrite E1, E2, E3. by eexists. }
  destruct (attach_guest (in_guest_tc s) dev') eqn:E4.
  2: { left. unfold cbind, ok_or, cret, cgets, bail_if. cbv beta iota.
       rewrite E1, E2, E3. unfold cret. rewrite E4. by eexists. }
  right. exists tap, mac. split; [done|split; [done|split; [done|]]].
  rewrite bool_decide_eq_false in E1. split; [by apply eq_None_not_Some|].
  split; [by apply any_value_false|]. split.
  - apply andb_false_iff in E3 as [Hz|Hz]; [left|right; by apply any_value_false].
    unfold arr_eqb in Hz. apply negb_false_iff in Hz. by zbool.
  - unfold cbind, ok_or, cret, cgets, bail_if. cbv beta iota.
    rewrite E2, E3, bool_decide_false by done. unfold cret. rewrite E4. done.
Qed.

Lemma same_iface4_false vni ip r :
  same_iface4 vni ip r = false → ¬ (ir_vni r = vni ∧ ir_ipv4 r = ip).
Proof. intros E [<- <-]. unfold same_iface4, arr_eqb in E. by rewrite Z.eqb_refl, bool_decide_true in E. Qed.
Lemma same_iface6_false vni ip r :
  same_iface6 vni ip r = false → ¬ (ir_vni r = vni ∧ ir_ipv6 r = ip).
Proof. intros E [<- <-]. unfold same_iface6, arr_eqb in E. by rewrite Z.eqb_refl, bool_decide_true in E. Qed.

Lemma register_iface_ok id dev tap p s :
  ifaces_ok s → in_by_id s !! id = None →
  (∀ k v, in_by_id s !! k = Some v → same_iface4 (ip_vni p) (ip_ipv4 p) v = false) →
  (ip_ipv6 p = ipv6_zero ∨
   ∀ k v, in_by_id s !! k = Some v → same_iface6 (ip_vni p) (ip_ipv6 p) v = false) →
  ifaces_ok (register_iface id dev tap p s).
Proof.
  intros [H1 H2 H3 H4 H5] Hid Hn4 Hn6. split; cbn.
  - intros k. destruct (decide (id = k)) as [<-|Hk].
    + rewrite !lookup_insert_eq. split; by eexists.
    + by rewrite !lookup_insert_ne.
  - intros k. destruct (decide (id = k)) as [<-|Hk]; [by rewrite !lookup_insert_eq|].
    by rewrite !lookup_insert_ne.
  - intros k. destruct (decide (id = k)) as [<-|Hk]; [by rewrite !lookup_insert_eq|].
    by rewrite !lookup_insert_ne.
  - intros i j a b [[<- <-]|[Hi Ei]]%lookup_insert_Some [[<- <-]|[Hj Ej]]%lookup_insert_Some;
      cbn; intros Ev Ea; [done| | |by eapply H4].
    + by destruct (same_iface4_false _ _ _ (Hn4 _ _ Ej)).
    + by destruct (same_iface4_false _ _ _ (Hn4 _ _ Ei)).
  - intros i j a b [[<- <-]|[Hi Ei]]%lookup_insert_Some [[<- <-]|[Hj Ej]]%lookup_insert_Some;
      cbn; intros Ev Ea Hz; [done| | |by eapply H5].
    + destruct Hn6 as [?|Hn6]; [done|]. by destruct (same_iface6_false _ _ _ (Hn6 _ _ Ej)).
    + rewrite Ea in Hz. destruct Hn6 as [?|Hn6]; [done|].
      by destruct (same_iface6_false _ _ _ (Hn6 _ _ Ei)).
Qed.

Lemma forget_iface_ok id s : ifaces_ok s → ifaces_ok (forget_iface id s).
Proof.
  intros [H1 H2 H3 H4 H5]. split; cbn.
  - intros k. destruct (decide (id = k)) as [<-|Hk]; [by rewrite !lookup_delete_eq|].
    by rewrite !lookup_delete_ne.
  - intros k. destruct (decide (id = k)) as [<-|Hk]; [by rewrite !lookup_delete_eq|].
    by rewrite !lookup_delete_ne.
  - intros k. destruct (decide (id = k)) as [<-|Hk]; [by rewrite !lookup_delete_eq|].
    by rewrite !lookup_delete_ne.
  - intros i j a b [_ Ei]%lookup_delete_Some [_ Ej]%lookup_delete_Some. by eapply H4.
  - intros i j a b [_ Ei]%lookup_delete_Some [_ Ej]%lookup_delete_Some. by eapply H5.
Qed.

Lemma keeps_unprogram {X} (g : Inner → X) tap rec :
  (∀ m s, g (set_maps (λ _, m) s) = g s) → (∀ f s, g (set_learned_macs f s) = g s) →
  (∀ f s, g (set_fw f s) = g s) → keeps g (unprogram_iface tap rec).
Proof.
  intros H1 H2 H3. unfold unprogram_iface.
  repeat (keeps_step || (apply keeps_mapop_; by intros)).
  all: intros s; unfold cmod, learn_mac; cbn; try destruct (Underlay_get _ _); done.
Qed.
Lemma keeps_write_neighbors {X} (g : Inner → X) i es :
  (∀ f s, g (set_maps (λ m, with_neighbor_nat f m) s) = g s) → keeps g (write_neighbors_ i es).
Proof.
  intros Hg. revert i. induction es as [|e es IH]; intros i; cbn [write_neighbors_].
  - by intros s.
  - apply keeps_bind; [|intros _; apply IH]. apply keeps_mapop_.
    intros s m (x & _ & ->)%on_map_Some. apply (Hg (λ _, x) s).
Qed.
(** What the purge of an unused VNI leaves alone. *)
Definition purge_keeps (s : Inner) :=
  (iface_tables s, in_learned_macs s, m_port_meta (in_maps s), m_interfaces (in_maps s),
   m_underlay (in_maps s), m_meter (in_maps s), m_dhcp_meta (in_maps s), in_fw s, in_prefixes s,
   (m_fw_rules (in_maps s), m_fw_meta (in_maps s))).
Lemma keeps_purge vni ip :
  keeps purge_keeps (purge_neighbors vni ;;; purge_guest vni ip ;;; purge_routes vni).
Proof.
  unfold purge_neighbors, purge_guest, purge_routes. repeat keeps_step.
  by apply keeps_write_neighbors.
Qed.

(** Both operations keep the interface tables consistent, whatever happens. *)
Lemma kept_ifaces_create id dev p : kept ifaces_ok (create_interface id dev p).
Proof.
  intros s Hs. destruct (create_interface_cases id dev p s)
    as [[msg ->]|(tap & mac & _ & _ & _ & H1 & H2 & H3 & ->)]; [done|].
  apply (kept_ifaces (program_iface_maps tap mac p)); [by apply keeps_program|]. by apply register_iface_ok.
Qed.
Lemma kept_ifaces_detach id : kept ifaces_ok (detach_interface id).
Proof.
  unfold detach_interface. apply kept_gets. intros s0 _.
  destruct (in_by_id s0 !! id) as [rec|]; [|apply kept_ret].
  apply kept_gets. intros s1 _. apply kept_bind.
  { apply kept_mod. intros s. apply forget_iface_ok. }
  intros _. apply kept_bind; [by apply kept_ifaces, keeps_unprogram|]. intros _.
  apply kept_gets. intros s2 _. apply kept_bind; [|intros _; apply kept_ret].
  apply kept_when. eapply keeps_kept; [apply keeps_purge|]. intros s s' [= E1 E2 E3 E4] [].
  split; rewrite ?E1, ?E2, ?E3, ?E4; done.
Qed.

(** Both keep the sizes of what is stored. *)
Lemma kept_sized_program tap mac p :
  params_shaped p → length mac = 6%nat → kept sized (program_iface_maps tap mac p).
Proof.
  intros [] Hmac. unfold program_iface_maps. kept_step.
  assert (length (default mac (in_learned_macs s !! ip_underlay_ipv6 p)) = 6%nat) as Hm.
  { destruct (in_learned_macs s !! _) eqn:E; [|done]. by eapply sz_macs. }
  repeat kept_step.
  apply shape_PortMetaMap_upsert. by split.
Qed.
Lemma kept_sized_create id dev p : params_shaped p → kept sized (create_interface id dev p).
Proof.
  intros Hp s Hs. destruct (create_interface_cases id dev p s)
    as [[msg ->]|(tap & mac & _ & Em & _ & _ & _ & _ & ->)]; [done|].
  apply mac_of_arr in Em as [Em _].
  apply kept_sized_program; [done|done|]. destruct Hs, Hp. split; try done; cbn.
  - by apply (insert_values (λ r, length (ir_ipv4 r) = 4%nat)).
  - by apply (insert_values (λ u, length u = 16%nat)).
Qed.
Lemma kept_sized_write_neighbors i es :
  Forall (λ e, length (ne_underlay e) = 16%nat) es → kept sized (write_neighbors_ i es).
Proof.
  intros Hes0. revert i. induction Hes0 as [|e es He Hes IH]; intros i; cbn [write_neighbors_];
    repeat kept_step. apply IH.
Qed.
Lemma kept_sized_detach id : kept sized (detach_interface id).
Proof.
  unfold detach_interface. kept_step. destruct (in_by_id s !! id) as [rec|]; [|kept_step].
  unfold unprogram_iface, purge_neighbors, purge_guest, purge_routes. repeat kept_step.
  all: try (apply kept_for; intros r _; kept_step).
  all: try (apply kept_mod; intros s' []; by split).
  - apply kept_mod. intros s' []. split; try done; cbn.
    + by apply (delete_values (λ r, length (ir_ipv4 r) = 4%nat)).
    + by apply (delete_values (λ u, length u = 16%nat)).
  - apply kept_mod. intros s' Hs'. unfold learn_mac.
    destruct (Underlay_get _ _) as [u|] eqn:Eu; [|done]. apply (sh_underlay _ (sz_maps _ Hs')) in Eu.
    destruct Hs'. split; try done; cbn. by apply (insert_values (λ m, length m = 6%nat)).
  - apply kept_mod. intros s' []. split; try done; cbn.
    apply Forall_filter. by apply (Ctl.sz_neigh s2).
  - apply kept_sized_write_neighbors. apply Forall_filter, sz_neigh. done.
  - destruct (Vips_get _ _); kept_step.
Qed.
(** The route of an interface to itself. *)
Definition self_route (p : IfaceParams) : RouteValue :=
  mkRouteValue (ip_vni p) (ip_underlay_ipv6 p) 0.

(** The maps a created interface is programmed into. *)
Record programmed (tap : Z) (mac : list Z) (p : IfaceParams) (m : Maps) : Prop := {
  pg_port : m_port_meta m !! tap = Some (mkPortMeta (ip_vni p) (ip_ipv4 p) (ip_gateway_ipv4 p)
    mac (ip_underlay_ipv6 p) (ip_gateway_ipv6 p) (ip_ipv6 p));
  pg_iface : m_interfaces m !! mkIfaceKey (ip_vni p) (ip_ipv4 p)
    = Some (mkIfaceValue tap 1 (ip_underlay_ipv6 p) mac);
  pg_underlay : m_underlay m !! ip_underlay_ipv6 p = Some (mkUnderlayValue (ip_vni p) tap mac);
  pg_route : lpm_lookup (m_routes m) 64 (to_be32 (ip_vni p) ++ ip_ipv4 p) = Some (self_route p);
  pg_route6 : ip_ipv6 p ≠ ipv6_zero →
    lpm_lookup (m_routes6 m) 160 (to_be32 (ip_vni p) ++ ip_ipv6 p) = Some (self_route p);
  pg_meter : ip_total_mbps p ≠ 0 ∨ ip_public_mbps p ≠ 0 →
    m_meter m !! tap = Some (meter_state (ip_total_mbps p) (ip_public_mbps p)) }.

Lemma cwhen_inv b m s s' :
  cwhen b m s = (Done tt, s') → (b = true ∧ m s = (Done tt, s')) ∨ (b = false ∧ s' = s).
Proof. destruct b; [by left|]. intros [= <-]. by right. Qed.

Lemma Routes_upsert_get vni ip v m m' :
  length ip = 4%nat → Routes_upsert vni ip 32 v m = Some m' →
  lpm_lookup (m_routes m') 64 (to_be32 vni ++ ip) = Some v.
Proof.
  intros Hl (x & Ex & ->)%on_map_Some. eapply lpm_insert_exact; [exact Ex|].
  rewrite length_app, Hl. done.
Qed.
Lemma Routes6_upsert_get vni ip v m m' :
  length ip = 16%nat → Routes6_upsert vni ip 128 v m = Some m' →
  lpm_lookup (m_routes6 m') 160 (to_be32 vni ++ ip) = Some v.
Proof.
  intros Hl (x & Ex & ->)%on_map_Some. eapply lpm_insert_exact; [exact Ex|].
  rewrite length_app, Hl. done.
Qed.

Lemma program_iface_maps_done tap mac p s s' :
  params_shaped p → program_iface_maps tap mac p s = (Done tt, s') →
  programmed tap (default mac (in_learned_macs s !! ip_underlay_ipv6 p)) p (in_maps s').
Proof.
  intros Hp E. unfold program_iface_maps in E. ctl_inv E.
  pose proof (Routes_upsert_get _ _ _ _ _ (pa_ipv4 _ Hp) Hm2) as Hr.
  apply on_map_Some in Hm2 as (rt & _ & ->). cbn [in_maps set_maps] in *.
  apply on_insert_Some in Hm as ->. apply on_insert_Some in Hm0 as ->. apply on_insert_Some in Hm1 as ->.
  apply cbind_inv in E as ([] & s1 & [[Hz E1]|[Hz ->]]%cwhen_inv & E2).
  - apply mapop_inv in E1 as (m6 & E1 & ->).
    pose proof (Routes6_upsert_get _ _ _ _ _ (pa_ipv6 _ Hp) E1) as Hr6.
    apply on_map_Some in E1 as (rt6 & _ & ->). cbn [in_maps set_maps] in *.
    apply cwhen_inv in E2 as [[Hn E2]|[Hn ->]].
    + apply mapop_inv in E2 as (m7 & ->%on_insert_Some & ->).
      split; cbn; first [by rewrite lookup_insert_eq|done].
    + split; cbn; try first [by rewrite lookup_insert_eq|done].
      apply orb_false_iff in Hn as [H1 H2]. apply negb_false_iff in H1, H2. zbool. intros [?|?]; done.
  - assert (ip_ipv6 p = ipv6_zero) as Hz'.
    { unfold arr_eqb in Hz. apply negb_false_iff in Hz. by zbool. }
    apply cwhen_inv in E2 as [[Hn E2]|[Hn ->]].
    + apply mapop_inv in E2 as (m7 & ->%on_insert_Some & ->).
      split; cbn; first [by rewrite lookup_insert_eq|done].
    + split; cbn; try first [by rewrite lookup_insert_eq|done].
      apply orb_false_iff in Hn as [H1 H2]. apply negb_false_iff in H1, H2. zbool. intros [?|?]; done.
Qed.
(** *** Detaching *)

(** What another interface or a load balancer of the VNI means. *)
Definition vni_used (id : list Z) (vni : Z) (s : Inner) : Prop :=
  (∃ i r, i ≠ id ∧ in_by_id s !! i = Some r ∧ ir_vni r = vni) ∨
  (∃ i lb, in_lbs s !! i = Some lb ∧ le_vni lb = vni).
(** A trie without an entry, and without those of a list of routes. *)
Definition unroute (key : LpmKey) (R : gmap LpmKey RouteValue) : gmap LpmKey RouteValue :=
  default R (lpm_remove key R).
Definition unroutes (key : list Z → Z → LpmKey) (rows : list RouteShadow)
    (R : gmap LpmKey RouteValue) : gmap LpmKey RouteValue :=
  foldl (λ R r, unroute (key (rs_prefix r) (rs_len r)) R) R rows.

(** The interface's own rows, and the MAC address [detach_interface] keeps. *)
Definition cleared (tap : Z) (rec : IfaceRecord) (s s' : Inner) : Prop :=
  m_port_meta (in_maps s') = delete tap (m_port_meta (in_maps s)) ∧
  m_interfaces (in_maps s')
    = delete (mkIfaceKey (ir_vni rec) (ir_ipv4 rec)) (m_interfaces (in_maps s)) ∧
  m_underlay (in_maps s') = delete (ir_underlay rec) (m_underlay (in_maps s)) ∧
  m_meter (in_maps s') = delete tap (m_meter (in_maps s)) ∧
  m_dhcp_meta (in_maps s') = delete tap (m_dhcp_meta (in_maps s)) ∧
  in_fw s' = delete tap (in_fw s) ∧
  (m_fw_rules (in_maps s'), m_fw_meta (in_maps s')) = (m_fw_rules (in_maps s), m_fw_meta (in_maps s)) ∧
  in_learned_macs s' = match m_underlay (in_maps s) !! ir_underlay rec with
                       | Some u => <[ir_underlay rec := uv_guest_mac u]> (in_learned_macs s)
                       | None => in_learned_macs s
                       end.
(** What the interfaces of a VNI share: its tries, VIPs, NAT ranges, neighbor
    ranges and routes. *)
Definition vni_state (s : Inner) :=
  (m_routes (in_maps s), m_routes6 (in_maps s), m_vips (in_maps s), m_nat (in_maps s),
   in_neigh_nats s, in_routes_shadow s, in_routes6_shadow s).
(** Without the interface's self-routes. *)
Definition self_unrouted (rec : IfaceRecord) (s : Inner) :=
  (unroute (route_key (ir_vni rec) (ir_ipv4 rec) 32) (m_routes (in_maps s)),
   (if decide (ir_ipv6 rec = ipv6_zero) then m_routes6 (in_maps s)
    else unroute (route6_key (ir_vni rec) (ir_ipv6 rec) 128) (m_routes6 (in_maps s)))).
(** What is left of a VNI whose last interface goes: no route the control plane
    lists, no neighbor range, and no VIP or NAT range of that interface. *)
Definition vni_purged (rec : IfaceRecord) (R : gmap LpmKey RouteValue * gmap LpmKey RouteValue)
    (s : Inner) :=
  let vni := ir_vni rec in
  let key := mkVipKey vni (ir_ipv4 rec) in
  (unroutes (route_key vni) (filter (λ r, rs_vni r = vni) (in_routes_shadow s)) R.1,
   unroutes (route6_key vni) (filter (λ r, rs_vni r = vni) (in_routes6_shadow s)) R.2,
   delete key (match m_vips (in_maps s) !! key with
               | Some vip => delete (mkVipKey vni vip) (m_vips (in_maps s))
               | None => m_vips (in_maps s)
               end),
   delete (mkNatKey vni (ir_ipv4 rec)) (m_nat (in_maps s)),
   filter (λ e, ne_vni e ≠ vni) (in_neigh_nats s),
   filter (λ r, rs_vni r ≠ vni) (in_routes_shadow s),
   filter (λ r, rs_vni r ≠ vni) (in_routes6_shadow s)).

Lemma learn_mac_maps u s : in_maps (learn_mac u s) = in_maps s.
Proof. unfold learn_mac. by destruct (Underlay_get _ _). Qed.

Lemma acts_learn_mac {X} (g : Maps → X) u : acts (λ s, g (in_maps s)) (λ x, x) (cmod (learn_mac u)).
Proof. apply acts_mod. intros s. by rewrite learn_mac_maps. Qed.
Ltac unprogram_acts :=
  unfold unprogram_iface; eapply acts_eq; [repeat (apply acts_learn_mac || acts_step)|done].

(** The MAC address saved is the one in the map when it is removed. *)
Definition mac_state (s : Inner) := (m_underlay (in_maps s), in_learned_macs s).
Definition save_mac (u : list Z) (x : gmap (list Z) UnderlayValue * gmap (list Z) (list Z)) :=
  (x.1, match x.1 !! u with Some v => <[u := uv_guest_mac v]> x.2 | None => x.2 end).
Lemma acts_mac tap rec :
  acts mac_state (λ x, (delete (ir_underlay rec) x.1, (save_mac (ir_underlay rec) x).2))
    (unprogram_iface tap rec).
Proof.
  assert (∀ M (get : Maps → M) set f, (∀ x m, m_underlay (set (λ _, x) m) = m_underlay m) →
    acts mac_state (λ x, x) (mapop_ (on_map get set f))) as Ho.
  { intros M get set f H0. apply acts_mapop_. intros s. unfold mac_state. cbn. f_equal.
    by apply default_on_map. }
  unfold unprogram_iface. eapply acts_eq.
  - do 2 (eapply acts_bind; [by apply Ho|]). eapply acts_bind.
    { apply (acts_mod _ (save_mac (ir_underlay rec))). intros s.
      unfold mac_state, save_mac, learn_mac, Underlay_get. cbn.
      by destruct (m_underlay (in_maps s) !! _). }
    eapply acts_bind.
    { apply (acts_mapop_ _ (λ x, (delete (ir_underlay rec) x.1, x.2))). intros s.
      unfold mac_state. cbn. f_equal. unfold Underlay_remove.
      by rewrite default_remove by by destruct s as [[]]. }
    do 3 (eapply acts_bind; [by apply Ho|]). eapply acts_bind; [by apply acts_when, Ho|].
    by apply (acts_mod _ (λ x, x)).
  - done.
Qed.

Lemma acts_unroute vni ip len :
  acts (λ s, m_routes (in_maps s)) (unroute (route_key vni ip len)) (mapop_ (Routes_remove vni ip len)).
Proof.
  apply acts_mapop_. intros s. cbn. unfold Routes_remove, on_map, unroute. by destruct (lpm_remove _ _).
Qed.
Lemma acts_unroute6 vni ip len :
  acts (λ s, m_routes6 (in_maps s)) (unroute (route6_key vni ip len)) (mapop_ (Routes6_remove vni ip len)).
Proof.
  apply acts_mapop_. intros s. cbn. unfold Routes6_remove, on_map, unroute. by destruct (lpm_remove _ _).
Qed.
(** What a run of such an operation did. *)
Lemma acts_run {X} (g : Inner → X) F m s s' : acts g F m → m s = (Done tt, s') → g s' = F (g s).
Proof. intros Ha E. destruct (Ha s) as (s1 & E1 & <-). rewrite E in E1. by injection E1 as <-. Qed.

Lemma acts_fw tap rec : acts in_fw (delete tap) (unprogram_iface tap rec).
Proof.
  unfold unprogram_iface. eapply acts_eq.
  - repeat (acts_step || (apply (acts_mod _ (delete tap)); done) || (apply (acts_mod _ (λ x, x));
      intros s; unfold learn_mac; by destruct (Underlay_get _ _))).
  - done.
Qed.
Lemma unprogram_iface_routes tap rec s s' :
  unprogram_iface tap rec s = (Done tt, s') →
  (m_routes (in_maps s'), m_routes6 (in_maps s')) = self_unrouted rec s.
Proof.
  intros E. unfold self_unrouted. f_equal; revert E.
  - apply (acts_run (λ s, m_routes (in_maps s))). unfold unprogram_iface. eapply acts_eq.
    + repeat (apply acts_unroute || apply acts_learn_mac || acts_step).
    + done.
  - set (b := negb (arr_eqb (ir_ipv6 rec) ipv6_zero)).
    assert ((if decide (ir_ipv6 rec = ipv6_zero) then m_routes6 (in_maps s)
      else unroute (route6_key (ir_vni rec) (ir_ipv6 rec) 128) (m_routes6 (in_maps s)))
      = (λ x, if b then unroute (route6_key (ir_vni rec) (ir_ipv6 rec) 128) x else x)
          (m_routes6 (in_maps s))) as ->.
    { unfold b, arr_eqb. by destruct (decide _) as [Hz|Hz];
        [rewrite bool_decide_true by done|rewrite bool_decide_false by done]. }
    apply (acts_run (λ s, m_routes6 (in_maps s))
      (λ x, if b then unroute (route6_key (ir_vni rec) (ir_ipv6 rec) 128) x else x)). unfold unprogram_iface. eapply acts_eq.
    + repeat (apply acts_when_do, acts_unroute6 || apply acts_learn_mac || acts_step).
    + done.
Qed.

Lemma unprogram_iface_run tap rec s :
  ∃ s', unprogram_iface tap rec s = (Done tt, s') ∧ cleared tap rec s s' ∧
    vni_state s' = (self_unrouted rec s, m_vips (in_maps s), m_nat (in_maps s),
      in_neigh_nats s, in_routes_shadow s, in_routes6_shadow s).
Proof.
  pose proof (acts_mac tap rec s) as (s' & E & Em). exists s'. split; [done|].
  assert (∀ X (g : Inner → X) F, acts g F (unprogram_iface tap rec) → g s' = F (g s)) as Hg
    by (intros X g F Ha; by apply (acts_run g F _ _ _ Ha)).
  injection Em as Em1 Em2. split.
  - unfold cleared. rewrite Em1, Em2.
    rewrite (Hg _ (λ s, m_port_meta (in_maps s)) (delete tap)) by unprogram_acts.
    rewrite (Hg _ (λ s, m_interfaces (in_maps s)) (delete (mkIfaceKey (ir_vni rec) (ir_ipv4 rec))))
      by unprogram_acts.
    rewrite (Hg _ (λ s, m_meter (in_maps s)) (delete tap)) by unprogram_acts.
    rewrite (Hg _ (λ s, m_dhcp_meta (in_maps s)) (delete tap)) by unprogram_acts.
    rewrite (Hg _ (λ s, m_fw_rules (in_maps s)) id) by unprogram_acts.
    rewrite (Hg _ (λ s, m_fw_meta (in_maps s)) id) by unprogram_acts.
    repeat (split; [done|]). split; [|done].
    apply Hg, acts_fw.
  - unfold vni_state. rewrite (unprogram_iface_routes _ _ _ _ E).
    rewrite (Hg _ (λ s, m_vips (in_maps s)) id) by unprogram_acts.
    rewrite (Hg _ (λ s, m_nat (in_maps s)) id) by unprogram_acts.
    pose proof (keeps_unprogram (λ s, (in_neigh_nats s, in_routes_shadow s, in_routes6_shadow s)) tap rec)
      as Hk.
    specialize (Hk ltac:(done) ltac:(done) ltac:(done) s). rewrite E in Hk.
    by injection Hk as -> -> ->.
Qed.

(** *** The purge of an unused VNI *)

Lemma mapop_remove {A V} `{Countable A} (get : Maps → gmap A V) set k s :
  (∀ m, set (λ _, get m) m = m) →
  mapop_ (on_map get set (hash_remove k)) s
  = (Done tt, set_maps (λ m, set (λ _, delete k (get m)) m) s).
Proof. intros Hs. unfold mapop_, set_maps. by rewrite default_remove. Qed.
Lemma mapop_unroute vni ip len s :
  mapop_ (Routes_remove vni ip len) s
  = (Done tt, set_maps (with_routes (unroute (route_key vni ip len))) s).
Proof.
  unfold mapop_, Routes_remove, on_map, unroute, set_maps, with_routes. destruct s as [[]]. cbn.
  match goal with |- context [lpm_remove ?k ?R] => by destruct (lpm_remove k R) end.
Qed.
Lemma mapop_unroute6 vni ip len s :
  mapop_ (Routes6_remove vni ip len) s
  = (Done tt, set_maps (with_routes6 (unroute (route6_key vni ip len))) s).
Proof.
  unfold mapop_, Routes6_remove, on_map, unroute, set_maps, with_routes6. destruct s as [[]]. cbn.
  match goal with |- context [lpm_remove ?k ?R] => by destruct (lpm_remove k R) end.
Qed.
Lemma for_unroute vni rows s :
  cfor rows (λ r, mapop_ (Routes_remove vni (rs_prefix r) (rs_len r))) s
  = (Done tt, set_maps (with_routes (unroutes (route_key vni) rows)) s).
Proof.
  revert s. induction rows as [|r rows IH]; intros s; cbn [cfor]; [by destruct s as [[]]|].
  unfold cbind. by rewrite mapop_unroute, IH.
Qed.
Lemma for_unroute6 vni rows s :
  cfor rows (λ r, mapop_ (Routes6_remove vni (rs_prefix r) (rs_len r))) s
  = (Done tt, set_maps (with_routes6 (unroutes (route6_key vni) rows)) s).
Proof.
  revert s. induction rows as [|r rows IH]; intros s; cbn [cfor]; [by destruct s as [[]]|].
  unfold cbind. by rewrite mapop_unroute6, IH.
Qed.
Lemma purge_filter vni l :
  filter (λ r, negb (existsb (λ d, (rs_vni r =? vni) && arr_eqb (rs_prefix d) (rs_prefix r)
    && (rs_len d =? rs_len r)) (filter (λ r, rs_vni r = vni) l))) l = filter (λ r, rs_vni r ≠ vni) l.
Proof.
  apply filter_ext_elem. intros r Hr. unfold arr_eqb. destruct (rs_vni r =? vni) eqn:E.
  - zbool. split; [|done]. intros Hn%negb_prop_elim. destruct Hn. apply Is_true_true, existsb_exists.
    exists r. rewrite <- list_elem_of_In, list_elem_of_filter, bool_decide_true, !Z.eqb_refl by done.
    by rewrite E.
  - apply Z.eqb_neq in E. split; [done|]. intros _. apply negb_prop_intro. intros Hx.
    apply Is_true_true, existsb_exists in Hx as (d & _ & Ed). by rewrite <- (Z.eqb_neq _ _) in E.
Qed.
Lemma purge_routes_run vni s :
  ∃ s', purge_routes vni s = (Done tt, s') ∧
    vni_state s' = (unroutes (route_key vni) (filter (λ r, rs_vni r = vni) (in_routes_shadow s))
        (m_routes (in_maps s)),
      unroutes (route6_key vni) (filter (λ r, rs_vni r = vni) (in_routes6_shadow s))
        (m_routes6 (in_maps s)),
      m_vips (in_maps s), m_nat (in_maps s), in_neigh_nats s,
      filter (λ r, rs_vni r ≠ vni) (in_routes_shadow s),
      filter (λ r, rs_vni r ≠ vni) (in_routes6_shadow s)).
Proof.
  unfold purge_routes. unfold cbind at 1, cgets at 1. unfold cbind at 1. rewrite for_unroute.
  unfold cbind at 1, cmod at 1, cbind at 1, cgets at 1, cbind at 1. rewrite for_unroute6.
  eexists. split; [done|]. unfold vni_state. cbn. by rewrite !purge_filter.
Qed.
Lemma purge_guest_run vni ip s :
  let key := mkVipKey vni ip in
  ∃ s', purge_guest vni ip s = (Done tt, s') ∧
    vni_state s' = (m_routes (in_maps s), m_routes6 (in_maps s),
      delete key (match m_vips (in_maps s) !! key with
                  | Some vip => delete (mkVipKey vni vip) (m_vips (in_maps s))
                  | None => m_vips (in_maps s)
                  end),
      delete (mkNatKey vni ip) (m_nat (in_maps s)),
      in_neigh_nats s, in_routes_shadow s, in_routes6_shadow s).
Proof.
  cbn zeta. unfold purge_guest. unfold cbind at 1, cgets at 1. unfold Vips_get.
  unfold Vips_remove, Nat_remove.
  destruct (m_vips (in_maps s) !! _) as [vip|];
    [unfold cbind at 1; rewrite mapop_remove by by intros []|unfold cbind at 1, cret at 1];
    (unfold cbind at 1; rewrite mapop_remove by by intros []);
    (rewrite mapop_remove by by intros []); by eexists.
Qed.
Lemma purge_neighbors_run vni s :
  ∃ s', purge_neighbors vni s = (Done tt, s') ∧
    vni_state s' = (m_routes (in_maps s), m_routes6 (in_maps s), m_vips (in_maps s), m_nat (in_maps s),
      filter (λ e, ne_vni e ≠ vni) (in_neigh_nats s), in_routes_shadow s, in_routes6_shadow s).
Proof.
  unfold purge_neighbors. unfold cbind at 1, cgets at 1. unfold cbind at 1, cmod at 1.
  set (remaining := filter _ _). set (s1 := set_neigh_nats _ s).
  assert (acts vni_state (λ x, x) (cwhen (negb (length remaining =? length (in_neigh_nats s))%nat)
    (write_neighbors_ 0 remaining ;;;
     mapop_ (NeighborNatCount_set (Z.of_nat (length remaining)))))) as Ha.
  { assert (∀ i es, acts vni_state (λ x, x) (write_neighbors_ i es)) as Hw.
    { intros i es. revert i. induction es as [|e es IH]; intros i; cbn [write_neighbors_].
      - intros s0. by exists s0.
      - acts_step; [|apply IH]. apply acts_mapop_. intros s0. unfold vni_state. cbn.
        unfold NeighborNat_upsert, on_map. by destruct (hash_insert _ _ _ _). }
    repeat (acts_step || apply Hw). }
  destruct (Ha s1) as (s' & E & Es). exists s'. by split.
Qed.
Lemma purge_run rec s :
  ∃ s', (purge_neighbors (ir_vni rec) ;;; purge_guest (ir_vni rec) (ir_ipv4 rec) ;;;
         purge_routes (ir_vni rec)) s = (Done tt, s') ∧
    vni_state s' = vni_purged rec (m_routes (in_maps s), m_routes6 (in_maps s)) s.
Proof.
  destruct (purge_neighbors_run (ir_vni rec) s) as (s1 & E1 & F1).
  destruct (purge_guest_run (ir_vni rec) (ir_ipv4 rec) s1) as (s2 & E2 & F2).
  destruct (purge_routes_run (ir_vni rec) s2) as (s3 & E3 & F3). exists s3. split.
  { unfold cbind at 1. rewrite E1. unfold cbind at 1. by rewrite E2. }
  rewrite F3. unfold vni_purged. injection F1 as A1 A2 A3 A4 A5 A6 A7.
  injection F2 as B1 B2 B3 B4 B5 B6 B7. cbn [fst snd].
  by rewrite B1, B2, B3, B4, B5, B6, B7, A1, A2, A3, A4, A5, A6, A7.
Qed.

(** The datapath's neighbor slots are the listed ranges. *)
Definition neighbors_listed (s : Inner) : Prop := neighbors_synced (in_maps s) (in_neigh_nats s).
Definition neighbor_state (s : Inner) :=
  (in_neigh_nats s, m_neighbor_nat (in_maps s), m_neighbor_nat_count (in_maps s)).
Lemma keeps_neighbors_listed {A} (m : ctl A) : keeps neighbor_state m → kept neighbors_listed m.
Proof.
  intros Hk. eapply keeps_kept; [exact Hk|]. intros s s' [= E1 E2 E3].
  unfold neighbors_listed, neighbors_synced. by rewrite E1, E2, E3.
Qed.
(** Slots that exist are overwritten without fail. *)
Lemma write_neighbors_present i es s :
  (∀ j, i <= j < i + Z.of_nat (length es) → is_Some (m_neighbor_nat (in_maps s) !! j)) →
  ∃ f, write_neighbors_ i es s = (Done tt, set_maps (with_neighbor_nat f) s) ∧
    (∀ k, k < i → f (m_neighbor_nat (in_maps s)) !! k = m_neighbor_nat (in_maps s) !! k) ∧
    (∀ j e, es !! j = Some e → f (m_neighbor_nat (in_maps s)) !! (i + Z.of_nat j) = Some e).
Proof.
  revert i s. induction es as [|e es IH]; intros i s Hp; cbn [write_neighbors_].
  { exists (λ x, x). split; [by destruct s as [[]]|]. by split. }
  cbn [length] in Hp. unfold cbind at 1, mapop_ at 1.
  set (s1 := set_maps _ s). assert (s1 = set_maps (with_neighbor_nat <[i := e]>) s) as ->.
  { subst s1. unfold set_maps. f_equal. unfold NeighborNat_upsert, on_map.
    by rewrite hash_insert_present by (apply Hp; lia). }
  destruct (IH (i + 1) (set_maps (with_neighbor_nat <[i := e]>) s)) as (f & Ef & Hlow & Hin).
  { intros j Hj. cbn. apply lookup_insert_is_Some'. right. apply Hp. lia. }
  exists (λ x, f (<[i := e]> x)). split; [exact Ef|]. cbn in Hlow, Hin. split.
  - intros k Hk. rewrite Hlow by lia. by rewrite lookup_insert_ne by lia.
  - intros [|j] x Hx; cbn in Hx.
    + injection Hx as ->. rewrite Z.add_0_r, Hlow by lia. apply lookup_insert_eq.
    + rewrite <- (Hin j x Hx). f_equal. lia.
Qed.
Lemma filter_full {A} (P : A → Prop) `{∀ x, Decision (P x)} (l : list A) :
  length (filter P l) = length l → filter P l = l.
Proof.
  induction l as [|x l IH]; [done|]. rewrite filter_cons. destruct (decide (P x)).
  - intros [= E]. by rewrite IH.
  - pose proof (length_filter P l). simpl. lia.
Qed.
Lemma kept_neighbors_purge vni : kept neighbors_listed (purge_neighbors vni).
Proof.
  intros s (Hc & Hl & Hs). unfold purge_neighbors. unfold cbind at 1, cgets at 1.
  unfold cbind at 1, cmod at 1. set (remaining := filter _ _).
  pose proof (length_filter (λ e, ne_vni e ≠ vni) (in_neigh_nats s)) as Hle. fold remaining in Hle.
  destruct (length remaining =? length (in_neigh_nats s))%nat eqn:E; cbn [negb cwhen].
  - apply Nat.eqb_eq, filter_full in E. unfold remaining. rewrite E. by destruct s as [[]].
  - destruct (write_neighbors_present 0 remaining (set_neigh_nats (λ _, remaining) s))
      as (f & Ef & _ & Hin).
    { intros j Hj. destruct (lookup_lt_is_Some_2 (in_neigh_nats s) (Z.to_nat j)) as [e He]; [lia|]. apply Hs in He. rewrite Z2Nat.id in He by lia. by eexists. }
    unfold cbind at 1. rewrite Ef. split; [done|]. split; [by etrans|]. exact Hin.
Qed.
Lemma kept_neighbors_detach id : kept neighbors_listed (detach_interface id).
Proof.
  unfold detach_interface. apply kept_gets. intros s0 _.
  destruct (in_by_id s0 !! id) as [rec|]; [|apply kept_ret]. apply kept_gets. intros s1 _.
  apply kept_bind; [by apply kept_mod|]. intros _. apply kept_bind.
  { apply keeps_neighbors_listed. unfold unprogram_iface. repeat keeps_step.
    intros s. unfold cmod, learn_mac. cbn. by destruct (Underlay_get _ _). }
  intros _. apply kept_gets. intros s2 _. apply kept_bind; [|intros _; apply kept_ret].
  apply kept_when, kept_bind; [apply kept_neighbors_purge|]. intros _.
  apply keeps_neighbors_listed. unfold purge_guest, purge_routes. repeat keeps_step.
Qed.

Lemma vni_still_in_use_forget id vni s :
  vni_still_in_use vni (forget_iface id s) = true ↔ vni_used id vni s.
Proof.
  unfold vni_still_in_use, vni_used. rewrite orb_true_iff, !any_value_true. cbn.
  apply Morphisms_Prop.or_iff_morphism.
  - split; intros (i & r & Hr).
    + destruct Hr as [[Hi Hr]%lookup_delete_Some Ev%Z.eqb_eq]. exists i, r. by split.
    + destruct Hr as (Hi & Hr & Ev). exists i, r. by rewrite lookup_delete_ne, Z.eqb_eq.
  - split; intros (i & lb & Hl & Ev); exists i, lb; split; try done; by apply Z.eqb_eq.
Qed.

Lemma detach_interface_run id rec s :
  in_by_id s !! id = Some rec →
  ∃ s1 s2, unprogram_iface (default 0 (in_by_ifindex s !! id)) rec (forget_iface id s) = (Done tt, s1) ∧
    detach_interface id s = (Done true, s2) ∧ purge_keeps s2 = purge_keeps s1 ∧
    (vni_used id (ir_vni rec) s ∧ s2 = s1 ∨
     ¬ vni_used id (ir_vni rec) s ∧
     vni_state s2 = vni_purged rec (m_routes (in_maps s1), m_routes6 (in_maps s1)) s1).
Proof.
  intros Er. unfold detach_interface, cbind at 1, cgets at 1. rewrite Er.
  unfold cbind at 1, cgets at 1, cbind at 1, cmod at 1.
  destruct (unprogram_iface_run (default 0 (in_by_ifindex s !! id)) rec (forget_iface id s))
    as (s1 & E1 & _).
  pose proof (keeps_unprogram (λ s, (in_by_id s, in_lbs s)) (default 0 (in_by_ifindex s !! id)) rec
    ltac:(done) ltac:(done) ltac:(done) (forget_iface id s)) as Hk.
  rewrite E1 in Hk. cbn [snd] in Hk. unfold cbind at 1. rewrite E1. unfold cbind at 1, cgets at 1.
  assert (vni_still_in_use (ir_vni rec) s1 = vni_still_in_use (ir_vni rec) (forget_iface id s)) as ->
    by (injection Hk as H1 H2; unfold vni_still_in_use; by rewrite H1, H2).
  pose proof (vni_still_in_use_forget id (ir_vni rec) s) as Hu. exists s1.
  destruct (vni_still_in_use (ir_vni rec) _); cbn [negb cwhen].
  { exists s1. do 3 (split; [done|]). left. split; [by apply Hu|done]. }
  destruct (purge_run rec s1) as (s2 & E2 & Hs). exists s2. split; [done|]. unfold cbind at 1.
  rewrite E2. split; [done|]. split; [|right; split; [by intros U%Hu|done]].
  pose proof (keeps_purge (ir_vni rec) (ir_ipv4 rec) s1) as Hp. by rewrite E2 in Hp.
Qed.
End lemmas.
#[export] Hint Resolve kept_ifaces_create kept_ifaces_detach kept_sized_create kept_sized_detach
  : dp_keeps.

(** ** Properties *)


Definition demo_params : IfaceParams :=
  mkIfaceParams 100 [10; 0; 0; 9] (replicate 16 7) [169; 254; 0; 1] (replicate 16 0xfe)
    (replicate 16 0xfc) 1000 0.

(** A node with that interface. *)
Definition demo_inner : Inner :=
  register_iface [1] "dtapvf_0" 7 demo_params (bring_up true demo_local).

Lemma bring_up_ifaces_ok tc l : ifaces_ok (bring_up tc l).
Proof.
  split; cbn; try done; intros id; try (intros j a b E; by apply (lookup_empty_Some id a) in E).
  rewrite !lookup_empty. by split; intros [].
Qed.
Lemma demo_inner_ok : ifaces_ok demo_inner.
Proof.
  apply register_iface_ok; [apply bring_up_ifaces_ok|done| |right];
    intros k v E; by apply (lookup_empty_Some k v) in E.
Qed.

