(* ===== verification/Delivery.v ===== *)
(** * Delivery

    The control plane and the datapath together: what an interface that was
    created means for the frames of the guests of its VNI. *)
From S2P Require Import Prelude Bytes Types Kernel Parse Firewall Conntrack Meter Vip Nat Safe Egress.
From S2P Require Import Handles Host Ctl CtlIface.
Local Open Scope string_scope.
Local Open Scope Z_scope.

(** ** Specification *)

(** The entries by which the datapath finds an interface: its underlay
    address and its routes to it. *)
Record routed_to `{Kernel} (tap : Z) (mac : list Z) (p : IfaceParams) (m : Maps) : Prop := {
  rt_underlay : m_underlay m !! ip_underlay_ipv6 p = Some (mkUnderlayValue (ip_vni p) tap mac);
  rt_route : lpm_lookup (m_routes m) 64 (to_be32 (ip_vni p) ++ ip_ipv4 p) = Some (self_route p);
  rt_route6 : ip_ipv6 p ≠ ipv6_zero →
    lpm_lookup (m_routes6 m) 160 (to_be32 (ip_vni p) ++ ip_ipv6 p) = Some (self_route p) }.

(** The firewall denies the frame of a guest: it opens a flow, enforcement is
    on, and its port's egress rules drop it. *)
Definition fw_denies (m : Maps) (p : list Z) (ifindex vni : Z) : Prop :=
  new_flow m p ETH_LEN vni ∧ fw_enforcing m = true ∧
  fw_eval_dir m p ETH_LEN ifindex FW_DIR_EGRESS = Some FW_ACTION_DROP.
(** No translation applies to the frame: neither its sender nor its receiver
    has a VIP, and its flow, if it is tracked, is not one of a NAT. *)
Definition untranslated (m : Maps) (p : list Z) (vni : Z) : Prop :=
  m_vips m !! mkVipKey vni (slice p 26 4) = None ∧ m_vips m !! mkVipKey vni (slice p 30 4) = None ∧
  ∀ key e, ct_key p ETH_LEN vni = Some (Some key) → m_conntrack m !! key = Some e →
    has_flag (ce_flags e) CT_REWRITE_SRC = false.

(** ** Lemmas *)

(** What tracking does to the state: the frame stays, and every map but
    CONNTRACK. *)
Definition tracked (w w' : world) : Prop := w_pkt w' = w_pkt w ∧ ct_only (w_maps w) (w_maps w').

Section lemmas.
Context `{Kernel}.

Lemma tracked_refl w : tracked w w.
Proof. split; [done|apply ct_only_refl]. Qed.
Lemma ct_touch_tracked off key e w a w' : ct_touch off key e w = Some (a, w') → tracked w w'.
Proof.
  unfold ct_touch, pbind, now, access, ct_insert, update, pret.
  destruct (tcp_flags _ _); [|done]. intros [= _ <-]. split; [done|apply ct_only_with].
Qed.
Lemma ct_ensure_default_tracked off key w a w' :
  ct_ensure_default off key w = Some (a, w') → tracked w w'.
Proof.
  unfold ct_ensure_default, pbind, now, access, ct_insert, update, pret, gets.
  destruct (tcp_flags _ _); [|done]. cbn. destruct (lru_insert _ _ _ !! _); intros [= _ <-]; by split.
Qed.
Lemma track_flow_tracked off vni w a w' : track_flow off vni w = Some (a, w') → tracked w w'.
Proof.
  unfold track_flow. intros E. apply pbind_inv in E as (key & w1 & E1 & E). unfold access in E1.
  destruct (ct_key _ _ _) as [ok|]; [|done]. injection E1 as <- <-.
  destruct ok; [|injection E as _ <-; apply tracked_refl]. apply pbind_inv in E as (ct & w1 & E1 & E).
  injection E1 as <- <-.
  destruct (m_conntrack _ !! _); [injection E as _ <-; apply tracked_refl|].
  by eapply ct_ensure_default_tracked.
Qed.

(** Conntrack and firewall, for a frame that is not translated. *)
Lemma egress_conntrack_untranslated ifindex vni w b w' :
  untranslated (w_maps w) (w_pkt w) vni → egress_conntrack ifindex vni w = Some (b, w') →
  tracked w w' ∧ (b = true ↔ fw_denies (w_maps w) (w_pkt w) ifindex vni) ∧ (b = true → w' = w).
Proof.
  intros (_ & _ & Hu) E. unfold egress_conntrack in E.
  apply pbind_inv in E as (ok & w1 & E1 & E). unfold access in E1.
  destruct (ct_key (w_pkt w) ETH_LEN vni) as [ok'|] eqn:Ek; [|done]. injection E1 as <- <-.
  destruct ok' as [key|].
  2: { injection E as <- <-. split; [apply tracked_refl|]. split; [|done]. split; [done|].
    intros [(k & Ek' & _) _]. congruence. }
  apply pbind_inv in E as (ct & w1 & E1 & E). injection E1 as <- <-.
  destruct (m_conntrack (w_maps w) !! key) as [e|] eqn:Ee.
  - rewrite (Hu key e eq_refl Ee) in E. apply pbind_inv in E as ([] & w1 & E1 & E).
    injection E1 as <-. apply pbind_inv in E as (e' & w2 & E2 & E). injection E as <- <-.
    split; [by eapply ct_touch_tracked|]. split; [|done]. split; [done|].
    intros [(k & Ek' & Hn) _]. congruence.
  - unfold fw_blocks, pbind, gets, access, pret in E.
    destruct (fw_eval_dir _ _ _ _ _) as [act|] eqn:Ea; [|done]. injection E as <- <-.
    split; [apply tracked_refl|]. split; [|done]. rewrite andb_true_iff, Z.eqb_eq. split.
    + intros [-> He]. split; [by exists key|]. by split.
    + intros (_ & He & Hd). split; [congruence|done].
Qed.

(** Without a mapping for the address, VIP translation changes nothing. *)
Lemma rewrite_raw_no_vip vips p off vni (b : bool) :
  (off + 20 <= length p)%nat → vips !! mkVipKey vni (slice p (off + if b then 12 else 16) 4) = None →
  rewrite_raw vips p off vni b = Some p.
Proof.
  intros Hl Hv. unfold rewrite_raw. destruct (short p _); [done|].
  rewrite rdn_slice by (destruct b; lia). cbn [mbind option_bind]. by rewrite Hv.
Qed.
Lemma vip_egress_id vni vips w :
  m_vips (w_maps w) = vips → (34 <= length (w_pkt w))%nat →
  vips !! mkVipKey vni (slice (w_pkt w) 26 4) = None →
  vips !! mkVipKey vni (slice (w_pkt w) 30 4) = None →
  snat_egress ETH_LEN vni w = Some (tt, w) ∧ dnat_egress ETH_LEN vni w = Some (tt, w).
Proof.
  intros <- Hl Hs Hd. unfold snat_egress, dnat_egress, pbind, gets, rewrite_pkt, ETH_LEN.
  rewrite !rewrite_raw_no_vip by (done || lia). by destruct w.
Qed.

(** A route to an interface of this node: the meter decides. *)
Lemma egress_routed_local ifindex meta route u w v w' :
  rv_is_external route = 0 → local_tap (m_underlay (w_maps w)) (rv_nexthop_ipv6 route) = Some u →
  egress_routed ifindex meta route w = Some (v, w') →
  ∃ w1 pass, tracked w w1 ∧
    meter_pass ifindex (Z.of_nat (length (w_pkt w))) false w1 = Some (pass, w') ∧
    v = (if pass then ToTap (uv_tap_ifindex u) (uv_guest_mac u) else Drop).
Proof.
  intros Hx Hu E. unfold egress_routed in E. rewrite Hx in E. cbn [Z.eqb negb] in E.
  apply pbind_inv in E as (b & w1 & E1 & E). unfold nat_snat_egress in E1. cbn [negb] in E1.
  injection E1 as _ <-. apply pbind_inv in E as ([] & w2 & E2 & E).
  apply track_flow_tracked in E2. apply pbind_inv in E as (p & w3 & E3 & E). injection E3 as <- <-.
  apply pbind_inv in E as (pass & w4 & E4 & E). pose proof E2 as [Hp Hm]. rewrite Hp in E4.
  exists w2, pass. split; [done|]. destruct pass; cbn [negb] in E; [|by injection E as <- <-].
  destruct (meter_pass_run ifindex (Z.of_nat (length (w_pkt w))) false w2)
    as (b' & w4' & E4' & _ & _ & f & Em). rewrite E4' in E4. injection E4 as -> ->.
  unfold route_verdict, pbind, gets in E. rewrite Em, Hm in E.
  cbn [m_underlay with_meter with_conntrack] in E. rewrite Hu in E. by injection E as <- <-.
Qed.

(** The decision on a frame to an interface of this node. *)
Lemma forward_decision_v4_local ifindex meta route u w v w' :
  (34 <= length (w_pkt w))%nat → untranslated (w_maps w) (w_pkt w) (pm_vni meta) →
  lpm_lookup (m_routes (w_maps w)) 64 (to_be32 (pm_vni meta) ++ slice (w_pkt w) 30 4) = Some route →
  rv_is_external route = 0 → local_tap (m_underlay (w_maps w)) (rv_nexthop_ipv6 route) = Some u →
  forward_decision_v4 ifindex meta w = Some (v, w') →
  let denied := fw_denies (w_maps w) (w_pkt w) ifindex (pm_vni meta) in
  denied ∧ v = Drop ∧ w' = w ∨
  ¬ denied ∧ ∃ w1 pass, tracked w w1 ∧
    meter_pass ifindex (Z.of_nat (length (w_pkt w))) false w1 = Some (pass, w') ∧
    v = (if pass then ToTap (uv_tap_ifindex u) (uv_guest_mac u) else Drop).
Proof.
  intros Hl Ht Hr Hx Hu E. unfold forward_decision_v4 in E.
  apply pbind_inv in E as (b & w1 & E1 & E).
  apply egress_conntrack_untranslated in E1 as ([Hp Hm] & Hb & Hw); [|done].
  destruct b; [left; split; [by apply Hb|]; injection E as <- <-; by rewrite Hw|].
  right. split; [by rewrite <- Hb|].
  assert (m_vips (w_maps w1) = m_vips (w_maps w) ∧ m_routes (w_maps w1) = m_routes (w_maps w) ∧
    m_underlay (w_maps w1) = m_underlay (w_maps w)) as (Hvip & Hro & Hun) by by rewrite Hm.
  destruct Ht as (Hs & Hd & _). rewrite <- Hp in Hs, Hd.
  destruct (vip_egress_id (pm_vni meta) _ w1 Hvip) as [Es Ed]; [rewrite Hp; lia|done..|].
  unfold pbind in E. rewrite Es, Ed in E. unfold access, gets in E.
  rewrite rdn_slice in E by (unfold ETH_LEN; rewrite Hp; lia). change (ETH_LEN + 16)%nat with 30%nat in E.
  rewrite Hro, Hp, Hr in E. rewrite <- Hun in Hu.
  eapply egress_routed_local in E as (w2 & pass & [Hp2 Hm2] & E & ->); [|done..].
  exists w2, pass. rewrite Hp in E, Hp2. split; [|done]. split; [done|by eapply ct_only_trans].
Qed.
End lemmas.

(** ** Properties *)

(** C28.  A successful [create_interface] attaches the guest program to the
    resolved netdev and programs the interface's maps, with the MAC address
    last learned for its underlay address, else the netdev's.  As long as the
    underlay and route entries it made are there, an IPv4 frame another guest
    of the VNI sends to the interface, and that no VIP or NAT translates, is
    dropped when the firewall denies it; otherwise the sender's meter decides
    between delivery to the tap under that MAC address and a drop, so that it
    is delivered when the sender has no limit.  It is never encapsulated or
    passed to the host.  An IPv6 frame is always delivered. *)
Theorem create_interface_delivers `{KL : KernelLaws} `{Host} (id : list Z) (dev : string)
    (p : IfaceParams) (s s' : Inner) :
  params_shaped p → create_interface id dev p s = (Done tt, s') →
  ∃ tap mac0, ifindex (resolve_iface dev) = Some tap ∧ mac_of (resolve_iface dev) = Some mac0 ∧
    attach_guest (in_guest_tc s) (resolve_iface dev) = true ∧
    let mac := default mac0 (in_learned_macs s !! ip_underlay_ipv6 p) in
    programmed tap mac p (in_maps s') ∧ routed_to tap mac p (in_maps s') ∧
    ∀ ifindex meta w, routed_to tap mac p (w_maps w) → shaped (w_maps w) → port_shaped meta →
      pm_vni meta = ip_vni p → tap ≠ 0 →
      let denied := fw_denies (w_maps w) (w_pkt w) ifindex (ip_vni p) in
      ((34 <= length (w_pkt w))%nat → slice (w_pkt w) 30 4 = ip_ipv4 p →
       untranslated (w_maps w) (w_pkt w) (ip_vni p) →
       ∃ v w', forward_decision_v4 ifindex meta w = Some (v, w') ∧
         (denied ∧ v = Drop ∧ w' = w ∨
          ¬ denied ∧ ∃ w1 pass, tracked w w1 ∧
            meter_pass ifindex (Z.of_nat (length (w_pkt w))) false w1 = Some (pass, w') ∧
            v = (if pass then ToTap tap mac else Drop)) ∧
         (¬ denied → m_meter (w_maps w) !! ifindex = None → v = ToTap tap mac)) ∧
      ((54 <= length (w_pkt w))%nat → slice (w_pkt w) 38 16 = ip_ipv6 p → ip_ipv6 p ≠ ipv6_zero →
       forward_decision_v6 meta w = Some (ToTap tap mac, w)).
Proof.
  intros Hp E. destruct (create_interface_cases id dev p s)
    as [[msg E']|(tap & mac0 & Et & Em & Ea & _ & _ & _ & E')]; [congruence|].
  exists tap, mac0. split; [done|split; [done|split; [done|]]]. cbn zeta.
  rewrite E' in E. apply program_iface_maps_done in E; [|done]. cbn [in_learned_macs] in E.
  split; [exact E|]. split; [destruct E as [_ _ Eu E4 E6 _]; split; [exact Eu|exact E4|exact E6]|]. clear E E'.
  set (mac := default mac0 _). intros i meta w [Hu H4 H6] Hs Hm Hv Ht.
  assert (local_tap (m_underlay (w_maps w)) (ip_underlay_ipv6 p)
    = Some (mkUnderlayValue (ip_vni p) tap mac)) as Hl.
  { unfold local_tap. rewrite Hu. cbn. by rewrite (proj2 (Z.eqb_neq _ _)). }
  split.
  - intros Hlen Hd Hut. rewrite <- Hd, <- Hv in H4. rewrite <- Hv in Hut |- *.
    destruct (runs_forward_decision_v4 (length (w_pkt w)) i meta Hlen Hm w) as (v & w' & E & _); [done|].
    exists v, w'. split; [done|].
    pose proof (forward_decision_v4_local i meta (self_route p) _ w v w' Hlen Hut H4 eq_refl Hl E) as Hc.
    split; [exact Hc|]. intros Hno Hmt. destruct Hc as [[Hc _]|(_ & w1 & pass & [_ Hm1] & Ep & ->)]; [done|].
    unfold meter_pass, pbind, gets in Ep. rewrite Hm1 in Ep. cbn in Ep. rewrite Hmt in Ep.
    by injection Ep as <- _.
  - intros Hlen Hd Hz. unfold forward_decision_v6, pbind, access, gets.
    rewrite rdn_slice by (unfold ETH_LEN; lia). change (ETH_LEN + 24)%nat with 38%nat.
    rewrite Hd, Hv, (H6 Hz). unfold route_verdict, pbind, gets.
    change (rv_nexthop_ipv6 (self_route p)) with (ip_underlay_ipv6 p). by rewrite Hl.
Qed.

(** A frame of the guest at port 3 to the created interface. *)
Definition demo_created : Maps :=
  in_maps (create_interface (H0 := demo_host) [1] "net_tap2" demo_params (bring_up true demo_local)).2.
Definition demo_to_iface : world :=
  mkWorld (replicate 12 7 ++ [8; 0] ++ [0x45; 0; 0; 28; 0; 0; 0; 0; 64; 17; 0; 0; 10; 0; 0; 5; 10; 0; 0; 9]
    ++ [0; 80; 0; 80; 0; 8; 0; 0]) demo_created 0 None.
Lemma demo_created_shaped : shaped demo_created.
Proof.
  apply sz_maps.
  apply (kept_sized_create (H := demo_host) [1] "net_tap2" demo_params); [by split|].
  split; cbn; try (by intros ?; done); [|done].
  destruct empty_maps_shaped. split; cbn; try done. by intros l [= <-].
Qed.
Lemma create_interface_delivers_witness :
  ∃ tap mac w', forward_decision_v4 3 demo_meta demo_to_iface = Some (ToTap tap mac, w').
Proof.
  destruct (create_interface_delivers (H := demo_host) [1] "net_tap2" demo_params
    (bring_up true demo_local) (create_interface (H0 := demo_host) [1] "net_tap2" demo_params
      (bring_up true demo_local)).2)
    as (tap & mac0 & Et & Em & _ & _ & Hr & Hd).
  - by split.
  - apply done_run. vm_compute. reflexivity.
  - destruct (Hd 3 demo_meta demo_to_iface Hr) as [H4 _].
    + apply demo_created_shaped.
    + by split.
    + reflexivity.
    + vm_compute in Et. by injection Et as <-.
    + destruct H4 as (v & w' & E & _ & Hto).
      * vm_compute. lia.
      * reflexivity.
      * split; [vm_compute; reflexivity|]. split; [vm_compute; reflexivity|].
        intros key e Ek. vm_compute in Ek. injection Ek as <-. vm_compute. discriminate.
      * rewrite Hto in E; [by eexists _, _, _|intros (_ & He & _); vm_compute in He; discriminate|].
        vm_compute. reflexivity.
Defined.
