(* ===== verification/CtlRoute.v ===== *)
(** * CtlRoute

    Routes, alias prefixes and load-balancer prefixes of the control plane
    (xdp-dp/src/control.rs, [create_route] to [reset_vni] and [add_prefix] to
    [list_lb_prefixes_all]). *)
From S2P Require Import Prelude Bytes Types Kernel Safe Handles Host Ctl CtlIface.
Local Open Scope string_scope.
Local Open Scope Z_scope.

(** ** Definitions: routes *)

Definition same_route (vni : Z) (prefix : list Z) (len : Z) (r : RouteShadow) : bool :=
  (rs_vni r =? vni) && arr_eqb (rs_prefix r) prefix && (rs_len r =? len).

Section routes.
Context `{Kernel}.
Local Open Scope ctl_scope.

Definition create_route (vni : Z) (ipv4 : list Z) (prefix_len : Z) (nexthop_ipv6 : list Z)
    (nexthop_vni : Z) (is_external : bool) : ctl unit :=
  let* shadow := cgets in_routes_shadow in
  bail_if (existsb (same_route vni ipv4 prefix_len) shadow) "ROUTE_EXISTS: route already exists" ;;;
  mapop (Routes_upsert vni ipv4 prefix_len
    (mkRouteValue nexthop_vni nexthop_ipv6 (Z.b2z is_external))) "insert route" ;;;
  cmod (set_routes_shadow (λ l, (l ++ [mkRouteShadow vni ipv4 prefix_len nexthop_vni nexthop_ipv6])%list)).

Definition delete_route (vni : Z) (ipv4 : list Z) (prefix_len : Z) : ctl bool :=
  let* shadow := cgets in_routes_shadow in
  let kept := List.filter (λ r, negb (same_route vni ipv4 prefix_len r)) shadow in
  cmod (set_routes_shadow (λ _, kept)) ;;;
  if (length kept =? length shadow)%nat then cret false
  else mapop_ (Routes_remove vni ipv4 prefix_len) ;;; cret true.

Definition create_route6 (vni : Z) (ipv6 : list Z) (prefix_len : Z) (nexthop_ipv6 : list Z)
    (nexthop_vni : Z) (is_external : bool) : ctl unit :=
  let* shadow := cgets in_routes6_shadow in
  bail_if (existsb (same_route vni ipv6 prefix_len) shadow) "ROUTE_EXISTS: route already exists" ;;;
  mapop (Routes6_upsert vni ipv6 prefix_len
    (mkRouteValue nexthop_vni nexthop_ipv6 (Z.b2z is_external))) "insert route6" ;;;
  cmod (set_routes6_shadow (λ l, (l ++ [mkRouteShadow vni ipv6 prefix_len nexthop_vni nexthop_ipv6])%list)).

Definition delete_route6 (vni : Z) (ipv6 : list Z) (prefix_len : Z) : ctl bool :=
  let* shadow := cgets in_routes6_shadow in
  let kept := List.filter (λ r, negb (same_route vni ipv6 prefix_len r)) shadow in
  cmod (set_routes6_shadow (λ _, kept)) ;;;
  if (length kept =? length shadow)%nat then cret false
  else mapop_ (Routes6_remove vni ipv6 prefix_len) ;;; cret true.

(** [list_routes_all]: rows of [(vni, ip, len, nexthop_vni, nexthop, is_ipv6)],
    an IPv4 address in the front of sixteen bytes. *)
Definition route_row (is_v6 : bool) (r : RouteShadow) :=
  (rs_vni r, copy_into 16 (rs_prefix r), rs_len r, rs_nexthop_vni r, rs_nexthop r, is_v6).
Definition list_routes_all (vni : Z) (s : Inner) :=
  let wanted r := (vni =? 0) || (rs_vni r =? vni) in
  ((route_row false <$> List.filter wanted (in_routes_shadow s)) ++
  (route_row true <$> List.filter wanted (in_routes6_shadow s)))%list.

Definition vni_in_use (vni : Z) (s : Inner) : bool :=
  any_value (λ r, ir_vni r =? vni) (in_by_id s)
  || existsb (λ r, rs_vni r =? vni) (in_routes_shadow s)
  || existsb (λ r, rs_vni r =? vni) (in_routes6_shadow s)
  || any_value (λ lb, le_vni lb =? vni) (in_lbs s)
  || existsb (λ n, ne_vni n =? vni) (in_neigh_nats s).

(** [reset_vni] takes the lock anew for every deletion. *)
Definition reset_vni (vni : Z) : ctl unit :=
  let* r4 := cgets in_routes_shadow in
  cfor (List.filter (λ r, rs_vni r =? vni) r4)
    (λ r, cbind (delete_route vni (rs_prefix r) (rs_len r)) (λ _, cret tt)) ;;;
  let* r6 := cgets in_routes6_shadow in
  cfor (List.filter (λ r, rs_vni r =? vni) r6)
    (λ r, cbind (delete_route6 vni (rs_prefix r) (rs_len r)) (λ _, cret tt)).
End routes.

(** ** Definitions: prefixes *)

Definition same_prefix4 (prefix : list Z) (len : Z) (pr : PrefixRecord) : bool :=
  negb (pr_is_ipv6 pr) && arr_eqb (take 4 (pr_ip pr)) prefix && (pr_len pr =? len).
Definition same_prefix6 (prefix : list Z) (len : Z) (pr : PrefixRecord) : bool :=
  pr_is_ipv6 pr && arr_eqb (pr_ip pr) prefix && (pr_len pr =? len).
(** [map.entry(k).or_default().push(x)]. *)
Definition push_at {A} (id : list Z) (x : A) (m : gmap (list Z) (list A)) : gmap (list Z) (list A) :=
  <[id := (default [] (m !! id) ++ [x])%list]> m.
(** [map.get_mut(k)] and [retain]. *)
Definition retain_at {A} (id : list Z) (p : A → bool) (m : gmap (list Z) (list A)) :=
  alter (List.filter p) id m.
Definition listed {A} (p : A → bool) (id : list Z) (m : gmap (list Z) (list A)) : bool :=
  existsb p (default [] (m !! id)).

Section prefixes.
Context `{Kernel}.
Local Open Scope ctl_scope.

(** Another interface of the VNI announces the prefix. *)
Definition prefix_in_vni (id : list Z) (vni : Z) (prefix : list Z) (len : Z) (s : Inner) : bool :=
  existsb (λ x, negb (arr_eqb x.1 id)
      && match in_by_id s !! x.1 with
         | Some orec => (ir_vni orec =? vni) && existsb (same_prefix4 prefix len) x.2
         | None => false
         end) (map_to_list (in_prefixes s)).

Definition add_prefix (id prefix : list Z) (prefix_len : Z) (preferred_ul : option (list Z))
    : ctl (list Z) :=
  let* by_id := cgets in_by_id in
  let* rec := ok_or (by_id !! id) "NO_VM: unknown interface" in
  let* underlays := cgets in_iface_underlay in
  let* underlay := ok_or (underlays !! id) "interface has no underlay" in
  let effective_ul := default underlay preferred_ul in
  let* prefixes := cgets in_prefixes in
  bail_if (listed (same_prefix4 prefix prefix_len) id prefixes) "ROUTE_EXISTS: prefix already exists" ;;;
  let* in_use := cgets (prefix_in_vni id (ir_vni rec) prefix prefix_len) in
  bail_if in_use "ROUTE_EXISTS: prefix already in use in this VNI" ;;;
  mapop (Routes_upsert (ir_vni rec) prefix prefix_len
    (mkRouteValue (ir_vni rec) effective_ul 0)) "insert route" ;;;
  cmod (set_prefixes
    (push_at id (mkPrefixRecord (copy_into 16 prefix) prefix_len effective_ul false))) ;;;
  cret effective_ul.

Definition add_prefix6 (id prefix : list Z) (prefix_len : Z) (preferred_ul : option (list Z))
    : ctl (list Z) :=
  let* by_id := cgets in_by_id in
  let* rec := ok_or (by_id !! id) "NO_VM: unknown interface" in
  let* underlays := cgets in_iface_underlay in
  let* underlay := ok_or (underlays !! id) "interface has no underlay" in
  let effective_ul := default underlay preferred_ul in
  let* prefixes := cgets in_prefixes in
  bail_if (listed (same_prefix6 prefix prefix_len) id prefixes)
    "ROUTE_EXISTS: IPv6 prefix already exists" ;;;
  mapop (Routes6_upsert (ir_vni rec) prefix prefix_len
    (mkRouteValue (ir_vni rec) effective_ul 0)) "insert route6" ;;;
  cmod (set_prefixes (push_at id (mkPrefixRecord prefix prefix_len effective_ul true))) ;;;
  cret effective_ul.

Definition del_prefix (id prefix : list Z) (prefix_len : Z) : ctl bool :=
  let* by_id := cgets in_by_id in
  let* rec := ok_or (by_id !! id) "NO_VM: unknown interface" in
  let* prefixes := cgets in_prefixes in
  cmod (set_prefixes (retain_at id (λ pr, negb (same_prefix4 prefix prefix_len pr)))) ;;;
  if listed (same_prefix4 prefix prefix_len) id prefixes
  then mapop_ (Routes_remove (ir_vni rec) prefix prefix_len) ;;; cret true
  else cret false.

Definition del_prefix6 (id prefix : list Z) (prefix_len : Z) : ctl bool :=
  let* by_id := cgets in_by_id in
  let* rec := ok_or (by_id !! id) "NO_VM: unknown interface" in
  let* prefixes := cgets in_prefixes in
  cmod (set_prefixes (retain_at id (λ pr, negb (same_prefix6 prefix prefix_len pr)))) ;;;
  if listed (same_prefix6 prefix prefix_len) id prefixes
  then mapop_ (Routes6_remove (ir_vni rec) prefix prefix_len) ;;; cret true
  else cret false.

Definition prefix_row (pr : PrefixRecord) := (pr_ip pr, pr_len pr, pr_underlay pr, pr_is_ipv6 pr).
Definition list_prefixes_with_underlay (id : list Z) (s : Inner) :=
  prefix_row <$> default [] (in_prefixes s !! id).
Definition list_prefixes_all (s : Inner) :=
  prefix_row <$> concat (snd <$> map_to_list (in_prefixes s)).
End prefixes.

(** ** Definitions: load-balancer prefixes, which only the shadow holds *)

Section lb_prefixes.
Local Open Scope ctl_scope.

Definition add_lb_prefix (id prefix : list Z) (prefix_len : Z) (preferred_ul : option (list Z))
    : ctl (list Z) :=
  let* by_id := cgets in_by_id in
  let* rec := ok_or (by_id !! id) "NO_VM: unknown interface" in
  let effective_ul := default (ir_underlay rec) preferred_ul in
  let* prefixes := cgets in_lb_prefixes in
  bail_if (listed (same_prefix4 prefix prefix_len) id prefixes)
    "ALREADY_EXISTS: LB prefix already exists" ;;;
  cmod (set_lb_prefixes
    (push_at id (mkPrefixRecord (copy_into 16 prefix) prefix_len effective_ul false))) ;;;
  cret effective_ul.

Definition add_lb_prefix6 (id prefix : list Z) (prefix_len : Z) (preferred_ul : option (list Z))
    : ctl (list Z) :=
  let* by_id := cgets in_by_id in
  let* rec := ok_or (by_id !! id) "NO_VM: unknown interface" in
  let effective_ul := default (ir_underlay rec) preferred_ul in
  let* prefixes := cgets in_lb_prefixes in
  bail_if (listed (same_prefix6 prefix prefix_len) id prefixes)
    "ALREADY_EXISTS: IPv6 LB prefix already exists" ;;;
  cmod (set_lb_prefixes (push_at id (mkPrefixRecord prefix prefix_len effective_ul true))) ;;;
  cret effective_ul.

Definition del_lb_prefix (id prefix : list Z) (prefix_len : Z) : ctl bool :=
  let* by_id := cgets in_by_id in
  bail_if (negb (bool_decide (is_Some (by_id !! id)))) "NO_VM: unknown interface" ;;;
  let* prefixes := cgets in_lb_prefixes in
  cmod (set_lb_prefixes (retain_at id (λ pr, negb (same_prefix4 prefix prefix_len pr)))) ;;;
  cret (listed (same_prefix4 prefix prefix_len) id prefixes).

Definition del_lb_prefix6 (id prefix : list Z) (prefix_len : Z) : ctl bool :=
  let* by_id := cgets in_by_id in
  bail_if (negb (bool_decide (is_Some (by_id !! id)))) "NO_VM: unknown interface" ;;;
  let* prefixes := cgets in_lb_prefixes in
  cmod (set_lb_prefixes (retain_at id (λ pr, negb (same_prefix6 prefix prefix_len pr)))) ;;;
  cret (listed (same_prefix6 prefix prefix_len) id prefixes).

Definition list_lb_prefixes_with_underlay (id : list Z) (s : Inner) :=
  prefix_row <$> default [] (in_lb_prefixes s !! id).
Definition list_lb_prefixes_all (s : Inner) :=
  prefix_row <$> concat (snd <$> map_to_list (in_lb_prefixes s)).
End lb_prefixes.

(** ** Specification: the routes as a finite map *)

Definition route_id (r : RouteShadow) : Z * list Z * Z := (rs_vni r, rs_prefix r, rs_len r).
Definition route_hop (r : RouteShadow) : Z * list Z := (rs_nexthop_vni r, rs_nexthop r).
(** [(vni, prefix, length)] to [(nexthop vni, nexthop)]. *)
Definition route_table (l : list RouteShadow) : gmap (Z * list Z * Z) (Z * list Z) :=
  list_to_map ((λ r, (route_id r, route_hop r)) <$> l).
Definition routes_unique (s : Inner) : Prop :=
  NoDup (route_id <$> in_routes_shadow s) ∧ NoDup (route_id <$> in_routes6_shadow s).

(** Adding a route [k] to a family, stored under [key] of its trie: the key was
    absent from the list, and both take it, or nothing happens. *)
Definition route_created `{Kernel} (k : Z * list Z * Z) (key : LpmKey) (hop : RouteValue)
    (o : outcome unit) (l l' : list RouteShadow) (R R' : gmap LpmKey RouteValue) : Prop :=
  match o with
  | Done _ => route_table l !! k = None ∧
      route_table l' = <[k := (rv_nexthop_vni hop, rv_nexthop_ipv6 hop)]> (route_table l) ∧
      lpm_insert key hop R = Some R'
  | Bail _ => (is_Some (route_table l !! k) ∨ lpm_insert key hop R = None) ∧ l' = l ∧ R' = R
  end.
(** Deleting it: reported and gone from both, or reported absent. *)
Definition route_deleted `{Kernel} (k : Z * list Z * Z) (key : LpmKey) (o : outcome bool)
    (l l' : list RouteShadow) (R R' : gmap LpmKey RouteValue) : Prop :=
  match route_table l !! k with
  | Some _ => o = Done true ∧ R' = unroute key R ∧ route_table l' = delete k (route_table l)
  | None => o = Done false ∧ R' = R ∧ l' = l
  end.

(** ** Lemmas *)

Lemma same_route_true vni p len r : same_route vni p len r = true ↔ route_id r = (vni, p, len).
Proof.
  unfold same_route, route_id, arr_eqb. rewrite !andb_true_iff, !Z.eqb_eq, bool_decide_eq_true.
  split; [intros [[-> ->] ->]; done|intros [= -> -> ->]; done].
Qed.
Lemma existsb_same_route vni p len l :
  existsb (same_route vni p len) l = true ↔ (vni, p, len) ∈ route_id <$> l.
Proof.
  rewrite existsb_exists, list_elem_of_fmap. split.
  - intros (r & Hr & E). exists r. rewrite same_route_true in E. by rewrite list_elem_of_In.
  - intros (r & E & Hr). exists r. by rewrite same_route_true, <- list_elem_of_In.
Qed.

Lemma route_table_lookup l k v :
  NoDup (route_id <$> l) →
  route_table l !! k = Some v ↔ ∃ r, r ∈ l ∧ route_id r = k ∧ route_hop r = v.
Proof.
  intros Hn. unfold route_table. rewrite <- elem_of_list_to_map.
  - rewrite list_elem_of_fmap. split.
    + intros (r & [= -> ->] & Hr). eauto.
    + intros (r & Hr & <- & <-). eauto.
  - rewrite <- list_fmap_compose. exact Hn.
Qed.
Lemma route_table_snoc l r :
  route_id r ∉ route_id <$> l → route_table (l ++ [r]) = <[route_id r := route_hop r]> (route_table l).
Proof.
  intros H. unfold route_table. rewrite fmap_app. cbn. apply list_to_map_snoc.
  rewrite <- list_fmap_compose. exact H.
Qed.
Lemma route_table_filter (P : Z * list Z * Z → Prop)
    `{∀ x : Z * list Z * Z * (Z * list Z), Decision (P x.1)} p l :
  NoDup (route_id <$> l) → (∀ r, p r = true ↔ P (route_id r)) →
  route_table (List.filter p l) = filter (λ x, P x.1) (route_table l).
Proof.
  intros Hn Hp. apply map_eq. intros k. apply option_eq. intros v.
  rewrite map_lookup_filter_Some, !route_table_lookup by (done || by apply filter_NoDup_fmap).
  cbn. split.
  - intros (r & [Hr E]%filter_elem & <- & <-). rewrite Hp in E. eauto.
  - intros ((r & Hr & <- & <-) & E). exists r. rewrite filter_elem, Hp. done.
Qed.
Lemma route_table_drop vni p len l :
  NoDup (route_id <$> l) →
  route_table (List.filter (λ r, negb (same_route vni p len r)) l)
  = delete (vni, p, len) (route_table l).
Proof.
  intros Hn. rewrite (route_table_filter (λ k, k ≠ (vni, p, len))); [|done|].
  - apply map_eq. intros k. apply option_eq. intros v.
    rewrite map_lookup_filter_Some, lookup_delete_Some. cbn. split; [by intros [[]]|intros (Hk & H1); auto].
  - intros r. rewrite negb_true_iff, <- not_true_iff_false, same_route_true. done.
Qed.
Lemma route_table_dom l k : is_Some (route_table l !! k) ↔ k ∈ route_id <$> l.
Proof.
  unfold route_table. rewrite <- elem_of_dom, dom_list_to_map, elem_of_list_to_set.
  by rewrite <- list_fmap_compose.
Qed.

Section runs.
Context `{Kernel}.
Local Open Scope ctl_scope.

Definition drop_route (vni : Z) (p : list Z) (len : Z) (l : list RouteShadow) : list RouteShadow :=
  List.filter (λ r, negb (same_route vni p len r)) l.
Lemma drop_route_found vni p len l :
  negb (length (drop_route vni p len l) =? length l)%nat = existsb (same_route vni p len) l.
Proof.
  unfold drop_route. destruct (_ =? _)%nat eqn:E; cbn [negb].
  - apply filter_length_eq in E. symmetry. apply not_true_iff_false.
    rewrite existsb_exists. intros (r & Hr & Er). rewrite <- E, filter_In, Er in Hr. by destruct Hr.
  - apply filter_length_neq in E. rewrite <- E. clear. induction l as [|x l IH]; [done|].
    cbn. by rewrite negb_involutive, IH.
Qed.

(** A state with other routes of a family: the list and the trie. *)
Definition routes_to (l : list RouteShadow) (R : gmap LpmKey RouteValue) (s : Inner) : Inner :=
  set_routes_shadow (λ _, l) (set_maps (with_routes (λ _, R)) s).
Definition routes6_to (l : list RouteShadow) (R : gmap LpmKey RouteValue) (s : Inner) : Inner :=
  set_routes6_shadow (λ _, l) (set_maps (with_routes6 (λ _, R)) s).
Lemma routes_to_id s : routes_to (in_routes_shadow s) (m_routes (in_maps s)) s = s.
Proof. by destruct s as [[]]. Qed.
Lemma routes6_to_id s : routes6_to (in_routes6_shadow s) (m_routes6 (in_maps s)) s = s.
Proof. by destruct s as [[]]. Qed.

Lemma existsb_table vni p len l :
  existsb (same_route vni p len) l = bool_decide (is_Some (route_table l !! (vni, p, len))).
Proof. apply eq_true_iff_eq. by rewrite bool_decide_eq_true, route_table_dom, existsb_same_route. Qed.
Lemma drop_route_absent vni p len l :
  existsb (same_route vni p len) l = false → drop_route vni p len l = l.
Proof.
  intros E. apply filter_length_eq. pose proof (drop_route_found vni p len l) as Hf.
  rewrite E in Hf. by apply negb_false_iff in Hf.
Qed.

(** What a deletion does: to the list, and to the trie under [key]. *)
Definition route_dropped (vni : Z) (p : list Z) (len : Z) (key : LpmKey) (l : list RouteShadow)
    (R : gmap LpmKey RouteValue) : list RouteShadow * gmap LpmKey RouteValue :=
  (drop_route vni p len l, if existsb (same_route vni p len) l then unroute key R else R).

Lemma delete_route_run vni p len s :
  let x := route_dropped vni p len (route_key vni p len) (in_routes_shadow s) (m_routes (in_maps s)) in
  delete_route vni p len s
  = (Done (existsb (same_route vni p len) (in_routes_shadow s)), routes_to x.1 x.2 s).
Proof.
  cbn zeta. unfold delete_route, route_dropped, cbind, cgets, cmod. cbv beta iota.
  pose proof (drop_route_found vni p len (in_routes_shadow s)) as Hf. rewrite <- Hf.
  fold (drop_route vni p len (in_routes_shadow s)). destruct (_ =? _)%nat; [by destruct s as [[]]|].
  rewrite mapop_unroute. by destruct s as [[]].
Qed.
Lemma delete_route6_run vni p len s :
  let x := route_dropped vni p len (route6_key vni p len) (in_routes6_shadow s) (m_routes6 (in_maps s)) in
  delete_route6 vni p len s
  = (Done (existsb (same_route vni p len) (in_routes6_shadow s)), routes6_to x.1 x.2 s).
Proof.
  cbn zeta. unfold delete_route6, route_dropped, cbind, cgets, cmod. cbv beta iota.
  pose proof (drop_route_found vni p len (in_routes6_shadow s)) as Hf. rewrite <- Hf.
  fold (drop_route vni p len (in_routes6_shadow s)). destruct (_ =? _)%nat; [by destruct s as [[]]|].
  rewrite mapop_unroute6. by destruct s as [[]].
Qed.

(** Deleting every route of a list. *)
Definition drop_routes (vni : Z) (ds l : list RouteShadow) : list RouteShadow :=
  foldl (λ l d, drop_route vni (rs_prefix d) (rs_len d) l) l ds.
Lemma drop_routes_filter vni ds l :
  drop_routes vni ds l =
  List.filter (λ r, negb (existsb (λ d, same_route vni (rs_prefix d) (rs_len d) r) ds)) l.
Proof.
  unfold drop_routes. revert l. induction ds as [|d ds IH]; intros l; cbn [foldl existsb].
  - induction l as [|r l IH]; [done|]. cbn. by f_equal.
  - rewrite IH. unfold drop_route. clear IH. induction l as [|r l IH]; [done|]. cbn [List.filter].
    destruct (same_route vni (rs_prefix d) (rs_len d) r); cbn [negb orb]; [done|].
    cbn [List.filter]. by rewrite IH.
Qed.
Lemma drop_vni vni l :
  drop_routes vni (List.filter (λ r, rs_vni r =? vni) l) l = List.filter (λ r, negb (rs_vni r =? vni)) l.
Proof.
  rewrite drop_routes_filter. apply filter_ext_in. intros r Hr. f_equal.
  apply eq_true_iff_eq. rewrite existsb_exists. split.
  - intros (d & _ & Ed%same_route_true). injection Ed as -> _ _. apply Z.eqb_refl.
  - intros Hv. exists r. rewrite filter_In. split; [done|]. apply same_route_true.
    zbool. by rewrite <- Hv.
Qed.

(** The rows still to be deleted are listed until their turn. *)
Definition listed_rows (vni : Z) (ds l : list RouteShadow) : Prop :=
  NoDup (route_id <$> ds) ∧ ∀ d, d ∈ ds → rs_vni d = vni ∧ d ∈ l.
Lemma listed_rows_step vni d ds l key R :
  listed_rows vni (d :: ds) l →
  listed_rows vni ds (drop_route vni (rs_prefix d) (rs_len d) l) ∧
  (route_dropped vni (rs_prefix d) (rs_len d) key l R).2 = unroute key R.
Proof.
  intros [[Hd Hn]%NoDup_cons Hl]. destruct (Hl d) as [Hv Hin]; [left|]. split.
  - split; [done|]. intros x Hx. destruct (Hl x) as [Hx1 Hx2]; [by right|]. split; [done|].
    unfold drop_route. rewrite filter_elem, negb_true_iff. split; [done|].
    apply not_true_iff_false. rewrite same_route_true. intros E. apply Hd.
    apply list_elem_of_fmap. exists x. split; [|done]. rewrite E. unfold route_id. by rewrite Hv.
  - unfold route_dropped. cbn [snd]. replace (existsb _ l) with true; [done|]. symmetry.
    apply existsb_same_route, list_elem_of_fmap. exists d. unfold route_id. by rewrite Hv.
Qed.
Lemma listed_rows_vni vni l :
  NoDup (route_id <$> l) → listed_rows vni (List.filter (λ r, rs_vni r =? vni) l) l.
Proof.
  intros Hn. split; [by apply filter_NoDup_fmap|]. intros d [Hd Ev%Z.eqb_eq]%filter_elem. by split.
Qed.
Lemma for_delete_route vni ds s :
  listed_rows vni ds (in_routes_shadow s) →
  cfor ds (λ r, cbind (delete_route vni (rs_prefix r) (rs_len r)) (λ _, cret tt)) s
  = (Done tt, routes_to (drop_routes vni ds (in_routes_shadow s))
       (unroutes (route_key vni) ds (m_routes (in_maps s))) s).
Proof.
  revert s. induction ds as [|d ds IH]; intros s Hl; cbn [cfor]; [by destruct s as [[]]|].
  destruct (listed_rows_step _ _ _ _ (route_key vni (rs_prefix d) (rs_len d)) (m_routes (in_maps s)) Hl)
    as [Hl' E].
  unfold cbind at 1 2. rewrite delete_route_run. cbn zeta. rewrite E. unfold cret at 1.
  by rewrite IH.
Qed.
Lemma for_delete_route6 vni ds s :
  listed_rows vni ds (in_routes6_shadow s) →
  cfor ds (λ r, cbind (delete_route6 vni (rs_prefix r) (rs_len r)) (λ _, cret tt)) s
  = (Done tt, routes6_to (drop_routes vni ds (in_routes6_shadow s))
       (unroutes (route6_key vni) ds (m_routes6 (in_maps s))) s).
Proof.
  revert s. induction ds as [|d ds IH]; intros s Hl; cbn [cfor]; [by destruct s as [[]]|].
  destruct (listed_rows_step _ _ _ _ (route6_key vni (rs_prefix d) (rs_len d)) (m_routes6 (in_maps s)) Hl)
    as [Hl' E].
  unfold cbind at 1 2. rewrite delete_route6_run. cbn zeta. rewrite E. unfold cret at 1.
  by rewrite IH.
Qed.
Lemma reset_vni_run vni s :
  let of_vni l := List.filter (λ r, rs_vni r =? vni) l in
  let others l := List.filter (λ r, negb (rs_vni r =? vni)) l in
  let l := in_routes_shadow s in let l6 := in_routes6_shadow s in
  routes_unique s →
  reset_vni vni s = (Done tt,
    routes6_to (others l6) (unroutes (route6_key vni) (of_vni l6) (m_routes6 (in_maps s)))
      (routes_to (others l) (unroutes (route_key vni) (of_vni l) (m_routes (in_maps s))) s)).
Proof.
  cbn zeta. intros [Hn Hn6]. unfold reset_vni. unfold cbind at 1, cgets at 1. cbv beta iota.
  unfold cbind at 1. rewrite for_delete_route by by apply listed_rows_vni.
  unfold cbind at 1, cgets at 1. cbv beta iota.
  rewrite for_delete_route6 by by apply listed_rows_vni. by rewrite !drop_vni.
Qed.

(** What an insertion does. *)
Definition route_pushed (vni : Z) (ip : list Z) (len : Z) (key : LpmKey) (hop : RouteValue)
    (l : list RouteShadow) (R : gmap LpmKey RouteValue)
    : option (list RouteShadow * gmap LpmKey RouteValue) :=
  if existsb (same_route vni ip len) l then None
  else (λ R', ((l ++ [mkRouteShadow vni ip len (rv_nexthop_vni hop) (rv_nexthop_ipv6 hop)])%list, R'))
         <$> lpm_insert key hop R.
Lemma create_route_run vni ip len nh nvni ext s :
  match route_pushed vni ip len (route_key vni ip len) (mkRouteValue nvni nh (Z.b2z ext))
    (in_routes_shadow s) (m_routes (in_maps s)) with
  | Some (l, R) => create_route vni ip len nh nvni ext s = (Done tt, routes_to l R s)
  | None => ∃ msg, create_route vni ip len nh nvni ext s = (Bail msg, s)
  end.
Proof.
  unfold route_pushed, create_route, cbind, cgets, bail_if, mapop, cmod, bail, cret. cbv beta iota.
  destruct (existsb _ _); [by eexists|]. unfold Routes_upsert, on_map.
  destruct (lpm_insert _ _ _); [by destruct s as [[]]|by eexists].
Qed.
Lemma create_route6_run vni ip len nh nvni ext s :
  match route_pushed vni ip len (route6_key vni ip len) (mkRouteValue nvni nh (Z.b2z ext))
    (in_routes6_shadow s) (m_routes6 (in_maps s)) with
  | Some (l, R) => create_route6 vni ip len nh nvni ext s = (Done tt, routes6_to l R s)
  | None => ∃ msg, create_route6 vni ip len nh nvni ext s = (Bail msg, s)
  end.
Proof.
  unfold route_pushed, create_route6, cbind, cgets, bail_if, mapop, cmod, bail, cret. cbv beta iota.
  destruct (existsb _ _); [by eexists|]. unfold Routes6_upsert, on_map.
  destruct (lpm_insert _ _ _); [by destruct s as [[]]|by eexists].
Qed.

(** The list and the trie refine a finite map. *)
Lemma route_pushed_created vni ip len key hop l R :
  NoDup (route_id <$> l) →
  match route_pushed vni ip len key hop l R with
  | Some (l', R') => route_created (vni, ip, len) key hop (Done tt) l l' R R' ∧ NoDup (route_id <$> l')
  | None => ∀ msg, route_created (vni, ip, len) key hop (Bail msg) l l R R
  end.
Proof.
  intros Hn. unfold route_pushed. rewrite existsb_table. case_bool_decide as Hk.
  { intros msg. split; [by left|done]. }
  destruct (lpm_insert key hop R) as [R'|] eqn:E; cbn; [|intros _; split; [by right|done]].
  assert ((vni, ip, len) ∉ route_id <$> l) as Hni by by rewrite <- route_table_dom. split.
  - split; [by apply eq_None_not_Some|]. split; [|done].
    by apply (route_table_snoc _ (mkRouteShadow vni ip len _ _)).
  - rewrite fmap_app. apply NoDup_app. split; [done|]. split; [|apply NoDup_singleton].
    intros x Hx ->%list_elem_of_singleton. by apply Hni.
Qed.
Lemma route_dropped_deleted vni ip len key l R :
  NoDup (route_id <$> l) →
  let x := route_dropped vni ip len key l R in
  route_deleted (vni, ip, len) key (Done (existsb (same_route vni ip len) l)) l x.1 R x.2 ∧
  NoDup (route_id <$> x.1).
Proof.
  intros Hn. cbn zeta. split; [|by apply filter_NoDup_fmap]. unfold route_deleted, route_dropped.
  pose proof (existsb_table vni ip len l) as Hd. cbn [fst snd]. rewrite Hd.
  destruct (route_table l !! _) eqn:E; [rewrite bool_decide_true by by eexists|].
  - split; [done|]. split; [done|]. by apply route_table_drop.
  - rewrite bool_decide_false by by intros []. split; [done|]. split; [done|].
    apply drop_route_absent. rewrite Hd. by apply bool_decide_false; intros [].
Qed.
End runs.

(** Interface [i], of record [r], announces the IPv4 prefix [pr]. *)
Definition announces (s : Inner) (i : list Z) (r : IfaceRecord) (pr : PrefixRecord) : Prop :=
  in_by_id s !! i = Some r ∧ pr_is_ipv6 pr = false ∧ pr ∈ default [] (in_prefixes s !! i).
Definition prefix_id (pr : PrefixRecord) : list Z * Z := (take 4 (pr_ip pr), pr_len pr).
Definition v4_prefixes (v : list PrefixRecord) : list PrefixRecord :=
  List.filter (λ pr, negb (pr_is_ipv6 pr)) v.
(** No prefix is announced twice in a VNI. *)
Definition prefixes_unique (s : Inner) : Prop :=
  (∀ i, NoDup (prefix_id <$> v4_prefixes (default [] (in_prefixes s !! i)))) ∧
  (∀ i j a b pa pb, announces s i a pa → announces s j b pb → ir_vni a = ir_vni b →
     prefix_id pa = prefix_id pb → i = j).

Section prefix_lemmas.
Context `{Kernel}.
Local Open Scope ctl_scope.

Lemma same_prefix4_true prefix len pr :
  same_prefix4 prefix len pr = true ↔ pr_is_ipv6 pr = false ∧ prefix_id pr = (prefix, len).
Proof.
  unfold same_prefix4, arr_eqb, prefix_id.
  rewrite !andb_true_iff, negb_true_iff, bool_decide_eq_true, Z.eqb_eq.
  split; [intros [[-> ->] ->]; done|intros [-> [= -> ->]]; done].
Qed.

Lemma push_announces s id new i r pr :
  announces (set_prefixes (push_at id new) s) i r pr →
  announces s i r pr ∨ (i = id ∧ pr = new ∧ in_by_id s !! id = Some r).
Proof.
  intros (Hr & H6 & Hx). cbn in Hr, Hx. unfold push_at in Hx.
  destruct (decide (id = i)) as [->|Hi].
  - rewrite lookup_insert_eq in Hx. cbn in Hx. apply elem_of_app in Hx as [Hx|Hx]; [by left|].
    apply list_elem_of_singleton in Hx as ->. by right.
  - rewrite lookup_insert_ne in Hx by done. by left.
Qed.

(** The checks of [add_prefix]: nobody in the VNI announces the prefix. *)
Lemma fresh_prefix s id r prefix len :
  in_by_id s !! id = Some r → listed (same_prefix4 prefix len) id (in_prefixes s) = false →
  prefix_in_vni id (ir_vni r) prefix len s = false →
  ∀ i a pa, announces s i a pa → ir_vni a = ir_vni r → prefix_id pa ≠ (prefix, len).
Proof.
  intros Hr Hl Hv i a pa (Ha & E6 & Ex) Evni Ep.
  assert (same_prefix4 prefix len pa = true) as Es by by apply same_prefix4_true.
  destruct (in_prefixes s !! i) as [v|] eqn:Ev; cbn in Ex; [|by apply elem_of_nil in Ex].
  assert (existsb (same_prefix4 prefix len) v = true) as Hex.
  { apply existsb_exists. exists pa. split; [|done]. by apply list_elem_of_In. }
  destruct (decide (i = id)) as [->|Hne].
  - unfold listed in Hl. rewrite Ev in Hl. cbn in Hl. congruence.
  - assert (prefix_in_vni id (ir_vni r) prefix len s = true); [|congruence].
    unfold prefix_in_vni. apply existsb_exists. exists (i, v).
    split; [by apply list_elem_of_In, elem_of_map_to_list|]. cbn. unfold arr_eqb.
    by rewrite Ha, Evni, Z.eqb_refl, Hex, bool_decide_false.
Qed.

Lemma add_prefix_inv id prefix len pul s ul s' :
  add_prefix id prefix len pul s = (Done ul, s') →
  ∃ r u m, in_by_id s !! id = Some r ∧ in_iface_underlay s !! id = Some u ∧ ul = default u pul ∧
    listed (same_prefix4 prefix len) id (in_prefixes s) = false ∧
    prefix_in_vni id (ir_vni r) prefix len s = false ∧
    Routes_upsert (ir_vni r) prefix len (mkRouteValue (ir_vni r) ul 0) (in_maps s) = Some m ∧
    s' = set_prefixes (push_at id (mkPrefixRecord (copy_into 16 prefix) len ul false))
           (set_maps (λ _, m) s).
Proof.
  unfold add_prefix. intros E. ctl_inv E. injection E as <- <-. exists a, a0, m. done.
Qed.
(** Errors change nothing. *)
Lemma add_prefix_bail id prefix len pul s msg s' :
  add_prefix id prefix len pul s = (Bail msg, s') → s' = s.
Proof.
  unfold add_prefix, cbind, cgets, ok_or, bail_if, mapop, cmod, bail, cret. cbv beta iota.
  destruct (in_by_id s !! id); [|congruence]. destruct (in_iface_underlay s !! id); [|congruence].
  destruct (listed _ _ _); [congruence|]. destruct (prefix_in_vni _ _ _ _ _); [congruence|].
  destruct (Routes_upsert _ _ _ _ _); congruence.
Qed.

Lemma prefix_id_new prefix len ul :
  length prefix = 4%nat → prefix_id (mkPrefixRecord (copy_into 16 prefix) len ul false) = (prefix, len).
Proof. intros Hp. do 5 (destruct prefix as [|? prefix]; try done). Qed.

Lemma kept_unique_add_prefix id prefix len pul :
  length prefix = 4%nat → kept prefixes_unique (add_prefix id prefix len pul).
Proof.
  intros Hp s Hs. destruct (add_prefix id prefix len pul s) as [[ul|msg] s'] eqn:E.
  2: { apply add_prefix_bail in E as ->. done. }
  apply add_prefix_inv in E as (r & u & m & Hr & _ & _ & Hl & Hv & _ & ->). cbn [snd].
  pose proof (fresh_prefix s id r prefix len Hr Hl Hv) as Hf.
  pose proof (prefix_id_new prefix len ul Hp) as Hid.
  set (new := mkPrefixRecord (copy_into 16 prefix) len ul false) in *. destruct Hs as [Hs1 Hs2].
  split.
  - intros i. cbn. unfold push_at. destruct (decide (id = i)) as [->|Hi].
    2: { rewrite lookup_insert_ne by done. apply Hs1. }
    rewrite lookup_insert_eq. cbn. unfold v4_prefixes. rewrite List.filter_app, fmap_app.
    apply NoDup_app. split; [apply Hs1|]. split; [|apply NoDup_singleton].
    intros k (pa & -> & Hk)%list_elem_of_fmap Hn. apply list_elem_of_singleton in Hn.
    apply filter_elem in Hk as [Hk H6]. apply negb_true_iff in H6.
    apply (Hf i r pa); [done|done|]. congruence.
  - intros i j a b pa pb Ha Hb Evni Ep.
    apply push_announces in Ha as [Ha|(-> & -> & Ha)], Hb as [Hb|(-> & -> & Hb)].
    + by eapply Hs2.
    + destruct (Hf i a pa); [done| |congruence]. rewrite Evni. cbn in Hb. congruence.
    + destruct (Hf j b pb); [done| |congruence]. rewrite <- Evni. cbn in Ha. congruence.
    + done.
Qed.

Lemma retain_elem (id : list Z) (p : PrefixRecord → bool) (i : list Z) (m : gmap (list Z) (list PrefixRecord)) (x : PrefixRecord) :
  x ∈ default [] (retain_at id p m !! i) → x ∈ default [] (m !! i).
Proof.
  unfold retain_at. destruct (decide (id = i)) as [->|Hi].
  - rewrite lookup_alter_eq. destruct (m !! i); cbn; [|done]. by intros [? _]%filter_elem.
  - by rewrite lookup_alter_ne.
Qed.
Lemma kept_unique_retain id p : kept prefixes_unique (cmod (set_prefixes (retain_at id p))).
Proof.
  apply kept_mod. intros s [H1 H2]. split.
  - intros i. cbn. unfold retain_at. destruct (decide (id = i)) as [->|Hi].
    2: { rewrite lookup_alter_ne by done. apply H1. }
    rewrite lookup_alter_eq. specialize (H1 i). destruct (in_prefixes s !! i) as [v|]; cbn in *; [|done].
    unfold v4_prefixes in *. clear -H1. induction v as [|x v IH]; [done|]. cbn [List.filter] in *.
    destruct (pr_is_ipv6 x) eqn:E6; cbn [negb] in H1.
    + destruct (p x); [cbn [List.filter]; rewrite E6; cbn [negb]|]; by apply IH.
    + cbn [fmap list_fmap] in H1. apply NoDup_cons in H1 as [Hx Hv].
      destruct (p x); [|by apply IH]. cbn [List.filter]. rewrite E6. cbn [negb fmap list_fmap].
      apply NoDup_cons. split; [|by apply IH].
      intros (y & Ey & [[Hy _]%filter_elem Hy6]%filter_elem)%list_elem_of_fmap. apply Hx.
      apply list_elem_of_fmap. exists y. split; [done|]. by apply filter_elem.
  - intros i j a b pa pb (Ha & Ha6 & Hpa) (Hb & Hb6 & Hpb). cbn in *.
    apply retain_elem in Hpa, Hpb. by apply H2.
Qed.
End prefix_lemmas.

(** ** Lemmas: what the operations keep *)

Section kept.
Context `{KL : KernelLaws}.

Lemma keeps_ifaces_create_route vni ip len nh nvni ext :
  keeps iface_tables (create_route vni ip len nh nvni ext).
Proof. unfold create_route. repeat keeps_step. Qed.
Lemma keeps_ifaces_create_route6 vni ip len nh nvni ext :
  keeps iface_tables (create_route6 vni ip len nh nvni ext).
Proof. unfold create_route6. repeat keeps_step. Qed.
Lemma keeps_ifaces_delete_route vni ip len : keeps iface_tables (delete_route vni ip len).
Proof. unfold delete_route. repeat keeps_step. Qed.
Lemma keeps_ifaces_delete_route6 vni ip len : keeps iface_tables (delete_route6 vni ip len).
Proof. unfold delete_route6. repeat keeps_step. Qed.
Lemma keeps_ifaces_reset_vni vni : keeps iface_tables (reset_vni vni).
Proof. unfold reset_vni, delete_route, delete_route6. repeat keeps_step. Qed.
Lemma keeps_ifaces_add_prefix id prefix len pul : keeps iface_tables (add_prefix id prefix len pul).
Proof. unfold add_prefix. repeat keeps_step. Qed.
Lemma keeps_ifaces_add_prefix6 id prefix len pul : keeps iface_tables (add_prefix6 id prefix len pul).
Proof. unfold add_prefix6. repeat keeps_step. Qed.
Lemma keeps_ifaces_del_prefix id prefix len : keeps iface_tables (del_prefix id prefix len).
Proof. unfold del_prefix. repeat keeps_step. Qed.
Lemma keeps_ifaces_del_prefix6 id prefix len : keeps iface_tables (del_prefix6 id prefix len).
Proof. unfold del_prefix6. repeat keeps_step. Qed.
Lemma keeps_ifaces_add_lb_prefix id prefix len pul :
  keeps iface_tables (add_lb_prefix id prefix len pul).
Proof. unfold add_lb_prefix. repeat keeps_step. Qed.
Lemma keeps_ifaces_add_lb_prefix6 id prefix len pul :
  keeps iface_tables (add_lb_prefix6 id prefix len pul).
Proof. unfold add_lb_prefix6. repeat keeps_step. Qed.
Lemma keeps_ifaces_del_lb_prefix id prefix len : keeps iface_tables (del_lb_prefix id prefix len).
Proof. unfold del_lb_prefix. repeat keeps_step. Qed.
Lemma keeps_ifaces_del_lb_prefix6 id prefix len : keeps iface_tables (del_lb_prefix6 id prefix len).
Proof. unfold del_lb_prefix6. repeat keeps_step. Qed.

Ltac sized_step :=
  first [kept_step | apply kept_for; intros ? _ | (apply kept_mod; intros ? []; by split)
         | match goal with |- kept _ (if ?b then _ else _) => destruct b end].

Lemma kept_sized_create_route vni ip len nh nvni ext :
  length nh = 16%nat → kept sized (create_route vni ip len nh nvni ext).
Proof. intros. unfold create_route. repeat sized_step. Qed.
Lemma kept_sized_create_route6 vni ip len nh nvni ext :
  length nh = 16%nat → kept sized (create_route6 vni ip len nh nvni ext).
Proof. intros. unfold create_route6. repeat sized_step. Qed.
Lemma kept_sized_delete_route vni ip len : kept sized (delete_route vni ip len).
Proof. unfold delete_route. repeat sized_step. Qed.
Lemma kept_sized_delete_route6 vni ip len : kept sized (delete_route6 vni ip len).
Proof. unfold delete_route6. repeat sized_step. Qed.
Lemma kept_sized_reset_vni vni : kept sized (reset_vni vni).
Proof. unfold reset_vni, delete_route, delete_route6. repeat sized_step. Qed.

(** An optional preferred underlay address. *)
Definition opt_shaped (o : option (list Z)) : Prop := ∀ u, o = Some u → length u = 16%nat.
Lemma effective_length s id u pul :
  sized s → in_iface_underlay s !! id = Some u → opt_shaped pul → length (default u pul) = 16%nat.
Proof. intros Hs Hu Hp. destruct pul; [by apply Hp|]. by eapply sz_underlay. Qed.
Lemma kept_sized_add_prefix id prefix len pul :
  opt_shaped pul → kept sized (add_prefix id prefix len pul).
Proof.
  intros Hp. unfold add_prefix. do 4 sized_step.
  assert (length (default a0 pul) = 16%nat) by by eapply effective_length. repeat sized_step.
Qed.
Lemma kept_sized_add_prefix6 id prefix len pul :
  opt_shaped pul → kept sized (add_prefix6 id prefix len pul).
Proof.
  intros Hp. unfold add_prefix6. do 4 sized_step.
  assert (length (default a0 pul) = 16%nat) by by eapply effective_length. repeat sized_step.
Qed.
Lemma kept_sized_del_prefix id prefix len : kept sized (del_prefix id prefix len).
Proof. unfold del_prefix. repeat sized_step. Qed.
Lemma kept_sized_del_prefix6 id prefix len : kept sized (del_prefix6 id prefix len).
Proof. unfold del_prefix6. repeat sized_step. Qed.
Lemma kept_sized_add_lb_prefix id prefix len pul : kept sized (add_lb_prefix id prefix len pul).
Proof. unfold add_lb_prefix. repeat sized_step. Qed.
Lemma kept_sized_add_lb_prefix6 id prefix len pul : kept sized (add_lb_prefix6 id prefix len pul).
Proof. unfold add_lb_prefix6. repeat sized_step. Qed.
Lemma kept_sized_del_lb_prefix id prefix len : kept sized (del_lb_prefix id prefix len).
Proof. unfold del_lb_prefix. repeat sized_step. Qed.
Lemma kept_sized_del_lb_prefix6 id prefix len : kept sized (del_lb_prefix6 id prefix len).
Proof. unfold del_lb_prefix6. repeat sized_step. Qed.
End kept.
#[export] Hint Resolve keeps_ifaces_create_route keeps_ifaces_create_route6 keeps_ifaces_delete_route
  keeps_ifaces_delete_route6 keeps_ifaces_reset_vni keeps_ifaces_add_prefix keeps_ifaces_add_prefix6
  keeps_ifaces_del_prefix keeps_ifaces_del_prefix6 keeps_ifaces_add_lb_prefix
  keeps_ifaces_add_lb_prefix6 keeps_ifaces_del_lb_prefix keeps_ifaces_del_lb_prefix6 : dp_keeps.
#[export] Hint Resolve kept_sized_create_route kept_sized_create_route6 kept_sized_delete_route
  kept_sized_delete_route6 kept_sized_reset_vni kept_sized_add_prefix kept_sized_add_prefix6
  kept_sized_del_prefix kept_sized_del_prefix6 kept_sized_add_lb_prefix kept_sized_add_lb_prefix6
  kept_sized_del_lb_prefix kept_sized_del_lb_prefix6 : dp_keeps.

(** ** Properties *)


Definition demo_route : RouteShadow := mkRouteShadow 100 [10; 1; 0; 0] 16 200 (replicate 16 3).

(** C40.  Alias prefixes: [add_prefix] and [del_prefix], whether they succeed
    or fail, keep every IPv4 prefix announced at most once per VNI; a
    successful [add_prefix] lists the prefix with the interface's underlay
    address, or the preferred one, and a host prefix is routed there. *)
Theorem prefixes_stay_unique `{KL : KernelLaws} (id prefix : list Z) (len : Z)
    (pul : option (list Z)) (s : Inner) :
  length prefix = 4%nat → prefixes_unique s →
  prefixes_unique (add_prefix id prefix len pul s).2 ∧ prefixes_unique (del_prefix id prefix len s).2 ∧
  ∀ ul s', add_prefix id prefix len pul s = (Done ul, s') → ∃ r,
    in_by_id s !! id = Some r ∧
    (ul = default ul pul ∧ (pul = None → in_iface_underlay s !! id = Some ul)) ∧
    list_prefixes_with_underlay id s'
      = (list_prefixes_with_underlay id s ++ [(copy_into 16 prefix, len, ul, false)])%list ∧
    (len = 32 → lpm_lookup (m_routes (in_maps s')) 64 (to_be32 (ir_vni r) ++ prefix)%list
      = Some (mkRouteValue (ir_vni r) ul 0)).
Proof.
  intros Hp Hs. split; [by apply kept_unique_add_prefix|]. split.
  - revert s Hs. change (kept prefixes_unique (del_prefix id prefix len)). unfold del_prefix.
    apply kept_gets. intros s1 _. apply kept_bind_ok. intros r _. apply kept_gets. intros s2 _.
    apply kept_bind; [apply kept_unique_retain|]. intros _.
    destruct (listed _ _ _); [|apply kept_ret]. apply kept_bind; [|intros _; apply kept_ret].
    apply kept_mapop_. done.
  - intros ul s' E. apply add_prefix_inv in E as (r & u & m & Hr & Hu & -> & _ & _ & Em & ->).
    exists r. split; [done|]. split; [by destruct pul|].
    split; [|intros ->; by eapply Routes_upsert_get].
    unfold list_prefixes_with_underlay. cbn. unfold push_at. rewrite lookup_insert_eq. cbn.
    by rewrite fmap_app.
Qed.

Lemma prefixes_stay_unique_witness :
  prefixes_unique (add_prefix [1] [10; 2; 0; 0] 24 None demo_inner).2.
Proof.
  refine (proj1 (prefixes_stay_unique [1] [10; 2; 0; 0] 24 None demo_inner _ _)).
  - reflexivity.
  - split; [intros i; apply NoDup_nil_2|]. intros i j a b pa pb (_ & _ & Hp) _.
    by apply elem_of_nil in Hp.
Defined.
