(* ===== verification/CtlFw.v ===== *)
(** * CtlFw

    Firewall rules of the control plane (xdp-dp/src/control.rs,
    [fw_reprogram] to [list_fw_rules]). *)
From S2P Require Import Prelude Bytes Types Kernel Firewall Safe Handles Host Ctl CtlIface.
Local Open Scope string_scope.
Local Open Scope Z_scope.

(** ** Definitions *)

Section programs.
Local Open Scope ctl_scope.

(** Clear the slots [i .. i + n - 1], ignoring absent ones. *)
Fixpoint fw_clear (ifindex : Z) (i : Z) (n : nat) : ctl unit :=
  match n with
  | O => cret tt
  | S n => mapop_ (FwRules_remove (mkFwRuleKey ifindex i)) ;;; fw_clear ifindex (i + 1) n
  end.
(** Write the rules from slot [i] on and count them per direction. *)
Fixpoint fw_write (ifindex i : Z) (rules : list FwRule) (ingress egress : Z) : ctl FwMeta :=
  match rules with
  | [] => cret (mkFwMeta ingress egress)
  | r :: rules =>
      mapop (FwRules_upsert (mkFwRuleKey ifindex i) r) "insert fw_rule" ;;;
      if fr_direction r =? FW_DIR_EGRESS
      then fw_write ifindex (i + 1) rules ingress (egress + 1)
      else fw_write ifindex (i + 1) rules (ingress + 1) egress
  end.
(** The rules an interface's shadow holds, in order. *)
Definition fw_of (ifindex : Z) (s : Inner) : list (list Z * FwRule) := default [] (in_fw s !! ifindex).

Definition fw_reprogram (ifindex : Z) : ctl unit :=
  let* rules := cgets (fw_of ifindex) in
  fw_clear ifindex 0 FW_MAX_RULES ;;;
  let* meta := fw_write ifindex 0 (snd <$> rules) 0 0 in
  mapop (FwMetaMap_upsert ifindex meta) "insert fw_meta".

Definition has_rule (rule_id : list Z) (rules : list (list Z * FwRule)) : bool :=
  existsb (λ x, arr_eqb x.1 rule_id) rules.
(** [fw.entry(ifindex).or_default()]. *)
Definition fw_entry (ifindex : Z) (s : Inner) : Inner := set_fw <[ifindex := fw_of ifindex s]> s.

Definition add_fw_rule (interface_id rule_id : list Z) (rule : FwRule) : ctl unit :=
  let* by_ifindex := cgets in_by_ifindex in
  let* ifindex := ok_or (by_ifindex !! interface_id) "NO_VM: unknown interface" in
  cmod (fw_entry ifindex) ;;;
  let* entry := cgets (fw_of ifindex) in
  bail_if (FW_MAX_RULES <=? length entry)%nat "too many firewall rules for interface (max 16)" ;;;
  bail_if (has_rule rule_id entry) "ALREADY_EXISTS: firewall rule already exists" ;;;
  cmod (set_fw <[ifindex := (entry ++ [(rule_id, rule)])%list]>) ;;;
  fw_reprogram ifindex.

Definition del_fw_rule (interface_id rule_id : list Z) : ctl bool :=
  let* by_ifindex := cgets in_by_ifindex in
  let* ifindex := ok_or (by_ifindex !! interface_id) "NO_VM: unknown interface" in
  cmod (fw_entry ifindex) ;;;
  let* entry := cgets (fw_of ifindex) in
  let kept := List.filter (λ x, negb (arr_eqb x.1 rule_id)) entry in
  cmod (set_fw <[ifindex := kept]>) ;;;
  if (length kept =? length entry)%nat then cret false
  else fw_reprogram ifindex ;;; cret true.

Definition get_fw_rule (interface_id rule_id : list Z) (s : Inner) : option FwRule :=
  ifindex ← in_by_ifindex s !! interface_id;
  rules ← in_fw s !! ifindex;
  snd <$> List.find (λ x, arr_eqb x.1 rule_id) rules.
Definition list_fw_rules (interface_id : list Z) (s : Inner) : list (list Z * FwRule) :=
  match in_by_ifindex s !! interface_id with
  | Some ifindex => fw_of ifindex s
  | None => []
  end.
End programs.

(** ** Lemmas *)

(** Runs that touch the rule slots only. *)
Definition with_rules (f : gmap FwRuleKey FwRule → gmap FwRuleKey FwRule) (s : Inner) : Inner :=
  set_maps (λ m, with_fw_rules f m) s.

Lemma with_rules_rules f s : m_fw_rules (in_maps (with_rules f s)) = f (m_fw_rules (in_maps s)).
Proof. done. Qed.

(** Only the slots of [ifindex] in [[i, i + n)] are cleared. *)
Lemma fw_clear_run ifindex i n s :
  ∃ f, fw_clear ifindex i n s = (Done tt, with_rules f s) ∧
    ∀ rules k, f rules !! k =
      if bool_decide (fk_ifindex k = ifindex ∧ i <= fk_idx k < i + Z.of_nat n) then None else rules !! k.
Proof.
  revert i s. induction n as [|n IH]; intros i s.
  - exists (λ x, x). split; [by destruct s as [[]]|]. intros rules k.
    rewrite bool_decide_false; [done|]. lia.
  - cbn [fw_clear]. unfold cbind, mapop_ at 1.
    set (s1 := set_maps _ s). assert (s1 = with_rules (delete (mkFwRuleKey ifindex i)) s) as E1.
    { subst s1. unfold with_rules, set_maps. f_equal. unfold FwRules_remove.
      by rewrite default_remove by by destruct s as [[]]. }
    rewrite E1. destruct (IH (i + 1) (with_rules (delete (mkFwRuleKey ifindex i)) s)) as (f & Ef & Hf).
    exists (λ x, f (delete (mkFwRuleKey ifindex i) x)). split; [exact Ef|].
    intros rules k. rewrite Hf. destruct (decide (mkFwRuleKey ifindex i = k)) as [<-|Hk].
    + rewrite lookup_delete_eq. cbn. destruct (bool_decide _); by rewrite bool_decide_true by lia.
    + rewrite lookup_delete_ne by done.
      assert (fk_ifindex k = ifindex → fk_idx k ≠ i) as Hne.
      { intros <- <-. apply Hk. by destruct k. }
      assert ((fk_ifindex k = ifindex ∧ i + 1 <= fk_idx k < i + 1 + Z.of_nat n) ↔
              (fk_ifindex k = ifindex ∧ i <= fk_idx k < i + Z.of_nat (S n))) as Hiff by intuition lia.
      by rewrite (bool_decide_ext _ _ Hiff).
Qed.

(** A successful write puts the rules into consecutive slots. *)
Lemma fw_write_run ifindex i rules ing egr s meta s' :
  0 <= i → fw_write ifindex i rules ing egr s = (Done meta, s') →
  ingress_count meta = ing + ingress_count (fw_meta_of rules) ∧
  egress_count meta = egr + egress_count (fw_meta_of rules) ∧
  ∃ f, s' = with_rules f s ∧ ∀ m k, f m !! k =
    match (if bool_decide (fk_ifindex k = ifindex ∧ i <= fk_idx k)
           then rules !! Z.to_nat (fk_idx k - i) else None) with
    | Some r => Some r
    | None => m !! k
    end.
Proof.
  revert i ing egr s. induction rules as [|r rules IH]; intros i ing egr s Hi E.
  - injection E as <- <-. split; [cbn; lia|]. split; [cbn; lia|]. exists (λ x, x).
    split; [by destruct s as [[]]|]. intros m k. by destruct (bool_decide _).
  - cbn [fw_write] in E. apply cbind_inv in E as ([] & s1 & (m1 & ->%on_insert_Some & ->)%mapop_inv & E).
    set (ki := mkFwRuleKey ifindex i) in *.
    assert (∃ ing' egr', fw_write ifindex (i + 1) rules ing' egr'
        (with_rules <[ki := r]> s) = (Done meta, s') ∧
      ing' = ing + (if fr_direction r =? FW_DIR_EGRESS then 0 else 1) ∧
      egr' = egr + (if fr_direction r =? FW_DIR_EGRESS then 1 else 0)) as (ing' & egr' & E' & -> & ->).
    { destruct (_ =? _); eexists _, _; (split; [exact E|]); lia. }
    apply IH in E' as (H1 & H2 & f & -> & Hf); [|lia].
    assert (∀ P `{∀ r, Decision (P r)}, length (filter P (r :: rules))
      = ((if decide (P r) then 1 else 0) + length (filter P rules))%nat) as Hc.
    { intros P ?. rewrite filter_cons. by destruct (decide _). }
    rewrite H1, H2. unfold fw_meta_of. cbn [ingress_count egress_count]. rewrite !Hc.
    split; [destruct (_ =? _) eqn:Ed; zbool; repeat destruct (decide _); try done; lia|].
    split; [destruct (_ =? _) eqn:Ed; zbool; repeat destruct (decide _); try done; lia|].
    exists (λ m, f (<[ki := r]> m)). split; [by destruct s as [[]]|]. intros m k. rewrite Hf.
    destruct (decide (ki = k)) as [<-|Hk].
    + rewrite lookup_insert_eq. subst ki. cbn [fk_ifindex fk_idx].
      rewrite (bool_decide_false (_ ∧ i + 1 <= i)) by lia. rewrite bool_decide_true by lia.
      by rewrite Z.sub_diag.
    + rewrite lookup_insert_ne by done.
      assert (fk_ifindex k = ifindex → fk_idx k ≠ i) as Hne.
      { intros <- <-. apply Hk. by destruct k. }
      destruct (decide (fk_ifindex k = ifindex ∧ i <= fk_idx k)) as [[Hk1 Hk2]|Hno].
      * rewrite !bool_decide_true by (specialize (Hne Hk1); lia).
        specialize (Hne Hk1). replace (Z.to_nat (fk_idx k - i)) with (S (Z.to_nat (fk_idx k - (i + 1)))) by lia.
        done.
      * by rewrite !bool_decide_false by lia.
Qed.

Lemma omap_lookup_seq {A} (l : list A) k n g :
  (length l <= n)%nat → (∀ i, (k <= i < k + n)%nat → g i = l !! (i - k)%nat) →
  omap g (seq k n) = l.
Proof.
  revert l k. induction n as [|n IH]; intros l k Hl Hg.
  - by destruct l; [|simpl in Hl; lia].
  - cbn [seq omap list_omap]. rewrite Hg by lia. rewrite Nat.sub_diag. destruct l as [|x l].
    + cbn. apply (IH [] (S k)); [simpl; lia|]. intros i Hi. by rewrite Hg by lia.
    + cbn. f_equal. apply IH; [simpl in Hl; lia|]. intros i Hi. rewrite Hg by lia.
      by replace (i - k)%nat with (S (i - S k)) by lia.
Qed.

(** A successful reprogramming synchronises the maps with the shadow, for
    rules whose direction is one of the two. *)
Lemma fw_reprogram_run ifindex s s' :
  let rules := snd <$> fw_of ifindex s in
  fw_reprogram ifindex s = (Done tt, s') → (length rules <= FW_MAX_RULES)%nat →
  Forall (λ r, fr_direction r = FW_DIR_INGRESS ∨ fr_direction r = FW_DIR_EGRESS) rules →
  fw_synced (in_maps s') ifindex rules ∧ in_fw s' = in_fw s.
Proof.
  cbn zeta. set (rules := snd <$> fw_of ifindex s). intros E Hl Hd. unfold fw_reprogram in E.
  ctl_inv E. fold rules in E. destruct (fw_clear_run ifindex 0 FW_MAX_RULES s) as (f & Ef & Hf).
  unfold cbind at 1 in E. rewrite Ef in E.
  apply cbind_inv in E as (meta & s1 & E1 & (m & ->%on_insert_Some & ->)%mapop_inv).
  apply fw_write_run in E1 as (H1 & H2 & g & -> & Hg); [|lia].
  split; [|done]. split; [| |done].
  - unfold fw_slots. apply (omap_lookup_seq rules 0 FW_MAX_RULES); [done|]. intros i Hi.
    change (g (f (m_fw_rules (in_maps s))) !! mkFwRuleKey ifindex (Z.of_nat i) = rules !! (i - 0)%nat).
    rewrite Hg, Hf. cbn [fk_ifindex fk_idx]. rewrite bool_decide_true by lia. rewrite Z.sub_0_r, Nat2Z.id, Nat.sub_0_r.
    destruct (rules !! i); [done|]. by rewrite bool_decide_true by lia.
  - cbn [in_maps set_maps m_fw_meta with_fw_meta]. rewrite lookup_insert_eq. f_equal. destruct meta as [a b]. cbn in H1, H2.
    unfold fw_meta_of in *. cbn in *. by rewrite H1, H2.
Qed.

(** The other interfaces' slots and counts are left alone. *)
Lemma fw_reprogram_others ifindex s s' other rules :
  fw_reprogram ifindex s = (Done tt, s') → other ≠ ifindex →
  fw_synced (in_maps s) other rules → fw_synced (in_maps s') other rules.
Proof.
  intros E Hne [Hs Hm Hd]. unfold fw_reprogram in E. ctl_inv E.
  destruct (fw_clear_run ifindex 0 FW_MAX_RULES s) as (f & Ef & Hf).
  unfold cbind at 1 in E. rewrite Ef in E.
  apply cbind_inv in E as (meta & s1 & E1 & (m & ->%on_insert_Some & ->)%mapop_inv).
  apply fw_write_run in E1 as (_ & _ & g & -> & Hg); [|lia].
  split; [| |done].
  - rewrite <- Hs. unfold fw_slots. apply list_omap_ext, Forall_Forall2_diag, Forall_forall.
    intros i _. change (g (f (m_fw_rules (in_maps s))) !! mkFwRuleKey other (Z.of_nat i)
      = m_fw_rules (in_maps s) !! mkFwRuleKey other (Z.of_nat i)).
    rewrite Hg, Hf. cbn [fk_ifindex fk_idx]. rewrite !bool_decide_false by tauto. done.
  - cbn [in_maps set_maps m_fw_meta with_fw_meta]. by rewrite lookup_insert_ne.
Qed.

(** ** The shadow *)

Definition dir_ok (r : FwRule) : Prop :=
  fr_direction r = FW_DIR_INGRESS ∨ fr_direction r = FW_DIR_EGRESS.
(** At most sixteen rules per interface, with distinct ids and proper
    directions. *)
Record fw_list_ok (l : list (list Z * FwRule)) : Prop := {
  fl_len : (length l <= FW_MAX_RULES)%nat;
  fl_ids : NoDup (fst <$> l);
  fl_dirs : Forall dir_ok (snd <$> l) }.
Definition fw_wf (s : Inner) : Prop := ∀ tap l, in_fw s !! tap = Some l → fw_list_ok l.

Lemma fw_list_nil : fw_list_ok [].
Proof. split; [cbn; lia|constructor|constructor]. Qed.
Lemma fw_wf_of s tap : fw_wf s → fw_list_ok (fw_of tap s).
Proof. intros H. unfold fw_of. destruct (in_fw s !! tap) eqn:E; [by eapply H|apply fw_list_nil]. Qed.
Lemma fw_wf_set s tap l : fw_wf s → fw_list_ok l → fw_wf (set_fw <[tap := l]> s).
Proof. intros Hs Hl k l' E. cbn in E. apply lookup_insert_Some in E as [[_ <-]|[_ E]]; [done|by eapply Hs]. Qed.

Lemma has_rule_false rid l : has_rule rid l = false ↔ rid ∉ fst <$> l.
Proof.
  unfold has_rule, arr_eqb. rewrite <- not_true_iff_false, existsb_exists, list_elem_of_fmap.
  split; intros H1 H2; apply H1.
  - destruct H2 as (x & -> & Hx). exists x. rewrite bool_decide_eq_true. by rewrite <- list_elem_of_In.
  - destruct H2 as (x & Hx & E). zbool. exists x. by rewrite list_elem_of_In.
Qed.
Lemma fw_list_snoc l rid r :
  fw_list_ok l → (length l < FW_MAX_RULES)%nat → has_rule rid l = false → dir_ok r →
  fw_list_ok (l ++ [(rid, r)])%list.
Proof.
  intros [H1 H2 H3] Hl Hr%has_rule_false Hd. split.
  - rewrite length_app. simpl. lia.
  - rewrite fmap_app. apply NoDup_app. split; [done|]. split; [|apply NoDup_singleton].
    intros x Hx Hx'. apply list_elem_of_singleton in Hx' as ->. done.
  - rewrite fmap_app. apply Forall_app. split; [done|]. by constructor.
Qed.
Lemma fw_list_filter l p : fw_list_ok l → fw_list_ok (List.filter p l).
Proof.
  intros [H1 H2 H3]. split.
  - pose proof (List.filter_length_le p l). lia.
  - by apply filter_NoDup_fmap.
  - rewrite Forall_fmap in *. rewrite Forall_forall in *. intros x [Hx _]%filter_elem. by apply H3.
Qed.

Lemma keeps_fw_reprogram {X} (g : Inner → X) tap :
  (∀ m s, g (set_maps (λ _, m) s) = g s) → keeps g (fw_reprogram tap).
Proof.
  intros Hg. assert (∀ i n, keeps g (fw_clear tap i n)) as Hc.
  { intros i n. revert i. induction n as [|n IH]; intros i; cbn [fw_clear]; [by intros s|].
    apply keeps_bind; [|intros _; apply IH]. apply keeps_mapop_. by intros. }
  assert (∀ rules i a b, keeps g (fw_write tap i rules a b)) as Hw.
  { intros rules. induction rules as [|r rules IH]; intros i a b; cbn [fw_write]; [by intros s|].
    apply keeps_bind; [|intros _; destruct (_ =? _); apply IH]. apply keeps_mapop. by intros. }
  unfold fw_reprogram. repeat (keeps_step || apply Hc || apply Hw).
Qed.

Lemma get_fw_rule_None id rid tap s :
  in_by_ifindex s !! id = Some tap → has_rule rid (fw_of tap s) = false → get_fw_rule id rid s = None.
Proof.
  intros Et Hr. unfold get_fw_rule. rewrite Et. cbn [mbind option_bind]. unfold fw_of in Hr.
  destruct (in_fw s !! tap) as [l|]; [|done]. cbn in Hr |- *. unfold has_rule in Hr.
  destruct (List.find _ l) as [x|] eqn:E; [|done]. apply find_some in E as [Hx E].
  assert (existsb (λ x, arr_eqb x.1 rid) l = true); [|congruence]. apply existsb_exists. eauto.
Qed.

Lemma kept_wf_reprogram tap : kept fw_wf (fw_reprogram tap).
Proof. eapply keeps_kept; [by apply (keeps_fw_reprogram in_fw)|]. unfold fw_wf. by intros s s' ->. Qed.

Lemma fw_entry_of tap s : fw_of tap (fw_entry tap s) = fw_of tap s.
Proof. unfold fw_of, fw_entry. cbn. by rewrite lookup_insert_eq. Qed.

Lemma kept_wf_add id rid r : dir_ok r → kept fw_wf (add_fw_rule id rid r).
Proof.
  intros Hd s Hs. unfold add_fw_rule. unfold cbind at 1, cgets at 1, cbind at 1, ok_or.
  destruct (in_by_ifindex s !! id) as [tap|]; [|done]. unfold cret at 1.
  unfold cbind at 1, cmod at 1, cbind at 1, cgets at 1. rewrite fw_entry_of.
  assert (fw_wf (fw_entry tap s)) as He by by apply fw_wf_set, fw_wf_of.
  unfold cbind at 1, bail_if. destruct (_ <=? _)%nat eqn:El; [done|]. apply Nat.leb_gt in El.
  unfold cret at 1, cbind at 1. destruct (has_rule rid _) eqn:Eh; [done|].
  unfold cret at 1, cbind at 1, cmod at 1. apply kept_wf_reprogram. apply fw_wf_set; [done|].
  apply fw_list_snoc; [by apply fw_wf_of|done..].
Qed.
Lemma kept_wf_del id rid : kept fw_wf (del_fw_rule id rid).
Proof.
  intros s Hs. unfold del_fw_rule. unfold cbind at 1, cgets at 1, cbind at 1, ok_or.
  destruct (in_by_ifindex s !! id) as [tap|]; [|done]. unfold cret at 1.
  unfold cbind at 1, cmod at 1, cbind at 1, cgets at 1. rewrite fw_entry_of.
  unfold cbind at 1, cmod at 1. set (kept_l := List.filter _ _).
  assert (fw_wf (set_fw <[tap := kept_l]> (fw_entry tap s))) as He.
  { apply fw_wf_set; [by apply fw_wf_set, fw_wf_of|]. by apply fw_list_filter, fw_wf_of. }
  destruct (_ =? _)%nat; [done|].
  apply (kept_bind fw_wf (fw_reprogram tap) (λ _, cret true)); [apply kept_wf_reprogram| |done].
  intros []. apply kept_ret.
Qed.

(** Successful runs, taken apart. *)
Lemma add_fw_rule_inv id rid r s s' :
  add_fw_rule id rid r s = (Done tt, s') → fw_wf s → dir_ok r →
  ∃ tap s1, in_by_ifindex s !! id = Some tap ∧ fw_wf s1 ∧ in_by_ifindex s1 = in_by_ifindex s ∧
    in_maps s1 = in_maps s ∧ has_rule rid (fw_of tap s) = false ∧
    fw_of tap s1 = (fw_of tap s ++ [(rid, r)])%list ∧ fw_reprogram tap s1 = (Done tt, s').
Proof.
  intros E Hs Hd. unfold add_fw_rule in E. ctl_inv E. rewrite fw_entry_of in *.
  apply Nat.leb_gt in Hb. exists a, (set_fw <[a := (fw_of a s ++ [(rid, r)])%list]> (fw_entry a s)).
  split; [done|]. split.
  { apply fw_wf_set; [by apply fw_wf_set, fw_wf_of|]. apply fw_list_snoc; [by apply fw_wf_of|done..]. }
  do 3 (split; [done|]). split; [|done]. unfold fw_of at 1. cbn. by rewrite lookup_insert_eq.
Qed.
Lemma del_fw_rule_inv id rid s b s' :
  del_fw_rule id rid s = (Done b, s') → fw_wf s →
  ∃ tap s1, in_by_ifindex s !! id = Some tap ∧ fw_wf s1 ∧ in_by_ifindex s1 = in_by_ifindex s ∧
    in_maps s1 = in_maps s ∧ b = has_rule rid (fw_of tap s) ∧
    fw_of tap s1 = List.filter (λ x, negb (arr_eqb x.1 rid)) (fw_of tap s) ∧
    if b then fw_reprogram tap s1 = (Done tt, s') else s' = s1.
Proof.
  intros E Hs. unfold del_fw_rule in E. ctl_inv E. rewrite fw_entry_of in *.
  set (kept_l := List.filter _ _) in *. exists a, (set_fw <[a := kept_l]> (fw_entry a s)).
  split; [done|]. split.
  { apply fw_wf_set; [by apply fw_wf_set, fw_wf_of|]. by apply fw_list_filter, fw_wf_of. }
  do 2 (split; [done|]). assert (fw_of a (set_fw <[a := kept_l]> (fw_entry a s)) = kept_l) as Hk.
  { unfold fw_of at 1. cbn. by rewrite lookup_insert_eq. }
  rewrite Hk. unfold kept_l in E. destruct (_ =? _)%nat eqn:El.
  - injection E as <- <-. split; [|done]. apply filter_length_eq in El. symmetry.
    apply has_rule_false. rewrite <- El. intros (x & -> & Hx)%list_elem_of_fmap.
    apply filter_elem in Hx as [_ Hx]. unfold arr_eqb in Hx. by rewrite bool_decide_true in Hx.
  - apply cbind_inv in E as ([] & s2 & E2 & E). injection E as <- <-. split; [|done].
    apply filter_length_neq in El. symmetry. unfold has_rule. rewrite <- El. clear.
    induction (fw_of a s) as [|x l IH]; [done|]. cbn. by rewrite negb_involutive, IH.
Qed.

(** ** What the operations keep *)

Lemma keeps_ifaces_add_fw id rid r : keeps iface_tables (add_fw_rule id rid r).
Proof. unfold add_fw_rule. repeat keeps_step. by apply keeps_fw_reprogram. Qed.
Lemma keeps_ifaces_del_fw id rid : keeps iface_tables (del_fw_rule id rid).
Proof.
  unfold del_fw_rule. repeat keeps_step. by apply keeps_fw_reprogram.
Qed.
Lemma kept_sized_fw_reprogram tap : kept sized (fw_reprogram tap).
Proof.
  assert (∀ i n, kept sized (fw_clear tap i n)) as Hc.
  { intros i n. revert i. induction n as [|n IH]; intros i; cbn [fw_clear]; repeat kept_step. apply IH. }
  assert (∀ rules i a b, kept sized (fw_write tap i rules a b)) as Hw.
  { intros rules. induction rules as [|r rules IH]; intros i a b; cbn [fw_write]; repeat kept_step.
    destruct (_ =? _); apply IH. }
  unfold fw_reprogram. repeat (kept_step || apply Hc || apply Hw).
Qed.
Lemma kept_sized_add_fw id rid r : kept sized (add_fw_rule id rid r).
Proof.
  unfold add_fw_rule. repeat kept_step; try (apply kept_mod; intros ? []; by split).
  apply kept_sized_fw_reprogram.
Qed.
Lemma kept_sized_del_fw id rid : kept sized (del_fw_rule id rid).
Proof.
  unfold del_fw_rule. repeat kept_step; try (apply kept_mod; intros ? []; by split).
  destruct (_ =? _)%nat; repeat kept_step. apply kept_sized_fw_reprogram.
Qed.

(** Detaching an interface empties its shadow list only: the rules stay in
    the maps, for the next interface with the same index. *)
Lemma detach_leaves_fw `{Kernel} tap rec :
  keeps (λ s, (m_fw_rules (in_maps s), m_fw_meta (in_maps s))) (unprogram_iface tap rec) ∧
  acts in_fw (delete tap) (unprogram_iface tap rec).
Proof.
  split.
  - unfold unprogram_iface. repeat keeps_step. intros s. unfold cmod. cbn.
    by rewrite learn_mac_maps.
  - unfold unprogram_iface. eapply acts_eq.
    + do 2 (eapply acts_bind; [by apply (acts_mapop_ _ (λ x, x))|]). eapply acts_bind.
      { apply (acts_mod _ (λ x, x)). intros s. unfold learn_mac. by destruct (Underlay_get _ _). }
      do 4 (eapply acts_bind; [by apply (acts_mapop_ _ (λ x, x))|]).
      eapply acts_bind; [by apply acts_when, (acts_mapop_ _ (λ x, x))|].
      by apply (acts_mod _ (delete tap)).
    + done.
Qed.
#[export] Hint Resolve keeps_ifaces_add_fw keeps_ifaces_del_fw kept_sized_add_fw kept_sized_del_fw
  : dp_keeps.

(** ** Properties *)

(** C30.  The firewall the datapath enforces is the rule list of the gRPC
    interface: [add_fw_rule] appends a rule with a new id and leaves FW_RULES
    and FW_META in agreement with the list; so does [del_fw_rule], which
    removes the rule of the id and reports whether there was one; other
    interfaces' rules are not affected.  An interface never has more than
    sixteen rules or two of the same id, even after an error. *)
Theorem fw_rules_programmed (id rid : list Z) (r : FwRule) (s : Inner) :
  fw_wf s → dir_ok r →
  fw_wf (add_fw_rule id rid r s).2 ∧ fw_wf (del_fw_rule id rid s).2 ∧
  let others tap s' := ∀ tap' rules, tap' ≠ tap →
    fw_synced (in_maps s) tap' rules → fw_synced (in_maps s') tap' rules in
  (∀ s', add_fw_rule id rid r s = (Done tt, s') → ∃ tap, in_by_ifindex s !! id = Some tap ∧
     get_fw_rule id rid s = None ∧
     list_fw_rules id s' = (list_fw_rules id s ++ [(rid, r)])%list ∧
     fw_synced (in_maps s') tap (snd <$> list_fw_rules id s') ∧ others tap s') ∧
  (∀ b s', del_fw_rule id rid s = (Done b, s') → ∃ tap, in_by_ifindex s !! id = Some tap ∧
     list_fw_rules id s' = List.filter (λ x, negb (arr_eqb x.1 rid)) (list_fw_rules id s) ∧
     b = has_rule rid (list_fw_rules id s) ∧
     (b = true → fw_synced (in_maps s') tap (snd <$> list_fw_rules id s')) ∧ others tap s').
Proof.
  intros Hs Hd. split; [by apply kept_wf_add|]. split; [by apply kept_wf_del|]. cbn zeta.
  unfold list_fw_rules. split.
  - intros s' E. apply add_fw_rule_inv in E as (tap & s1 & Et & Hw & Eb & Em & Hr & Ef & E); [|done..].
    pose proof (keeps_fw_reprogram in_by_ifindex tap (λ _ _, eq_refl) s1) as Hk. rewrite E in Hk. cbn in Hk.
    pose proof (fw_wf_of s1 tap Hw) as [L1 L2 L3].
    pose proof E as E'. apply fw_reprogram_run in E' as [Hsync Hfw]; [|by rewrite length_fmap|done].
    exists tap. split; [done|]. rewrite Hk, Eb, Et.
    assert (fw_of tap s' = fw_of tap s1) as Hof by (unfold fw_of; by rewrite Hfw).
    split; [by apply get_fw_rule_None with tap|]. split; [by rewrite Hof|].
    split; [by rewrite Hof|]. intros tap' rules Hne Ho. rewrite <- Em in Ho.
    by eapply fw_reprogram_others.
  - intros b s' E. apply del_fw_rule_inv in E as (tap & s1 & Et & Hw & Eb & Em & -> & Ef & E); [|done].
    exists tap. split; [done|]. rewrite Et. destruct (has_rule rid (fw_of tap s)).
    + pose proof (keeps_fw_reprogram in_by_ifindex tap (λ _ _, eq_refl) s1) as Hk. rewrite E in Hk. cbn in Hk.
      pose proof (fw_wf_of s1 tap Hw) as [L1 L2 L3].
      pose proof E as E'. apply fw_reprogram_run in E' as [Hsync Hfw]; [|by rewrite length_fmap|done].
      assert (fw_of tap s' = fw_of tap s1) as Hof by (unfold fw_of; by rewrite Hfw).
      rewrite Hk, Eb, Et, Hof. split; [done|]. split; [done|]. split; [done|].
      intros tap' rules Hne Ho. rewrite <- Em in Ho. by eapply fw_reprogram_others.
    + subst s'. rewrite Eb, Et. split; [done|]. split; [done|]. split; [done|].
      intros tap' rules _ Ho. by rewrite Em.
Qed.

Definition demo_fw_rule : FwRule := demo_rule FW_DIR_INGRESS FW_ACTION_ACCEPT 80.
Lemma fw_rules_programmed_witness :
  ∃ s', add_fw_rule [1] [5] demo_fw_rule demo_inner = (Done tt, s') ∧
    fw_synced (in_maps s') 7 [demo_fw_rule].
Proof.
  destruct (fw_rules_programmed [1] [5] demo_fw_rule demo_inner) as (_ & _ & Ha & _).
  - intros tap l E. by apply (lookup_empty_Some tap l) in E.
  - by left.
  - destruct (Ha (add_fw_rule [1] [5] demo_fw_rule demo_inner).2) as (tap & Et & _ & El & Hs & _).
    + apply done_run. vm_compute. reflexivity.
    + eexists. split; [apply done_run; vm_compute; reflexivity|].
      assert (in_by_ifindex demo_inner !! [1] = Some 7) as E7 by (vm_compute; reflexivity).
      rewrite Et in E7. injection E7 as ->. rewrite El in Hs. exact Hs.
Defined.
