(* ===== verification/CtlLb.v ===== *)
(** * CtlLb

    Load balancers of the control plane (xdp-dp/src/control.rs, [create_lb] to
    [delete_lb]): the services, their backends, and the Maglev tables built
    from them. *)
From S2P Require Import Prelude Bytes Types Kernel Maglev Lb Safe Handles Host Ctl CtlIface.
Local Open Scope string_scope.
Local Open Scope Z_scope.

(** ** Definitions *)

Definition last4 (ip : LbIp) : list Z :=
  match ip with Ipv4 ip => ip | Ipv6 ip => drop 12 ip end.
Definition lb_key (vni : Z) (ip : LbIp) (service : Z * Z) : LbKey :=
  mkLbKey vni (last4 ip) service.1 service.2.
Definition with_backends (bs : list (list Z)) (e : LbEntry) : LbEntry :=
  mkLbEntry (le_vni e) (le_ip e) (le_lb_underlay e) (le_ports e) (le_table_id e) bs.

Section programs.
Local Open Scope ctl_scope.

Definition create_lb (id : list Z) (vni : Z) (ip : LbIp) (lb_underlay : list Z)
    (ports : list (Z * Z)) : ctl unit :=
  let* lbs := cgets in_lbs in
  bail_if (bool_decide (is_Some (lbs !! id))) "load balancer already exists" ;;;
  let* table_id := cgets in_next_table_id in
  cmod (set_next_table_id (λ n, (n + 1) mod 2 ^ 32)) ;;;
  cfor ports (λ service,
    mapop (Lb_upsert (lb_key vni ip service) (mkLbValue table_id (Z.of_nat TABLE_SIZE))) "insert lb") ;;;
  mapop (Underlay_upsert lb_underlay (mkUnderlayValue vni 0 (replicate 6 0))) "insert underlay" ;;;
  cmod (set_lbs <[id := mkLbEntry vni ip lb_underlay ports table_id []]>).

(** [g.maglev.upsert(slot, backends[bi])] for the slots of a table. *)
Fixpoint write_slots (table_id slot : Z) (table : list Z) (backends : list (list Z)) : ctl unit :=
  match table with
  | [] => cret tt
  | bi :: table =>
      let* b := ok_or (backends !! Z.to_nat bi) "index out of bounds" in
      mapop (Maglev_upsert (mkMaglevKey table_id slot) b) "insert maglev" ;;;
      write_slots table_id (slot + 1) table backends
  end.
Fixpoint clear_slots (table_id slot : Z) (n : nat) : ctl unit :=
  match n with
  | O => cret tt
  | S n => mapop_ (Maglev_remove (mkMaglevKey table_id slot)) ;;; clear_slots table_id (slot + 1) n
  end.
(** [crate::maglev::build] and the loop over its slots. *)
Definition program_table (table_id : Z) (backends : list (list Z)) : ctl unit :=
  let* table := ok_or (build backends) "maglev::build" in
  write_slots table_id 0 table backends.

Definition add_lb_target (id backend : list Z) : ctl unit :=
  let* lbs := cgets in_lbs in
  let* entry := ok_or (lbs !! id) "unknown load balancer" in
  bail_if (bool_decide (backend ∈ le_backends entry)) "load balancer target already exists" ;;;
  let backends := (le_backends entry ++ [backend])%list in
  cmod (set_lbs <[id := with_backends backends entry]>) ;;;
  program_table (le_table_id entry) backends.

Definition del_lb_target (id backend : list Z) : ctl bool :=
  let* lbs := cgets in_lbs in
  let* entry := ok_or (lbs !! id) "unknown load balancer" in
  let backends := List.filter (λ b, negb (arr_eqb b backend)) (le_backends entry) in
  cmod (set_lbs <[id := with_backends backends entry]>) ;;;
  if (length backends =? length (le_backends entry))%nat then cret false else
  (if (length backends =? 0)%nat then clear_slots (le_table_id entry) 0 TABLE_SIZE
   else program_table (le_table_id entry) backends) ;;;
  cret true.

Definition lb_row (e : LbEntry) := (le_vni e, le_ip e, le_lb_underlay e, le_ports e).
Definition get_lb (id : list Z) (s : Inner) := lb_row <$> in_lbs s !! id.
Definition list_lbs (s : Inner) := (λ x, (x.1, lb_row x.2)) <$> map_to_list (in_lbs s).
Definition list_lb_targets (id : list Z) (s : Inner) : list (list Z) :=
  default [] (le_backends <$> in_lbs s !! id).
Definition list_lb_targets_all (s : Inner) : list (list Z) :=
  concat ((λ x, le_backends x.2) <$> map_to_list (in_lbs s)).

Definition delete_lb (id : list Z) : ctl bool :=
  let* lbs := cgets in_lbs in
  match lbs !! id with
  | None => cret false
  | Some entry =>
      cmod (set_lbs (delete id)) ;;;
      cfor (le_ports entry) (λ service, mapop_ (Lb_remove (lb_key (le_vni entry) (le_ip entry) service))) ;;;
      clear_slots (le_table_id entry) 0 TABLE_SIZE ;;;
      cret true
  end.
End programs.

(** ** Lemmas *)

Definition with_slots (f : gmap MaglevKey (list Z) → gmap MaglevKey (list Z)) (s : Inner) : Inner :=
  set_maps (λ m, with_maglev f m) s.
(** [k] is one of the slots [slot .. slot + n - 1] of the table. *)
Definition slot_of (table_id slot : Z) (n : nat) (k : MaglevKey) : Prop :=
  mk_table_id k = table_id ∧ slot <= mk_slot k < slot + Z.of_nat n.
#[export] Instance slot_of_dec table_id slot n k : Decision (slot_of table_id slot n k).
Proof. unfold slot_of. apply _. Defined.

(** A successful write puts the backends into the table's slots. *)
Lemma write_slots_run table_id slot table backends s s' :
  write_slots table_id slot table backends s = (Done tt, s') →
  ∃ f, s' = with_slots f s ∧
    (∀ m k, ¬ slot_of table_id slot (length table) k → f m !! k = m !! k) ∧
    (∀ m i bi, table !! i = Some bi →
       ∃ b, backends !! Z.to_nat bi = Some b ∧
         f m !! mkMaglevKey table_id (slot + Z.of_nat i) = Some b).
Proof.
  revert slot s. induction table as [|bi table IH]; intros slot s E.
  - injection E as <-. exists (λ x, x). split; [by destruct s as [[]]|]. split; [done|].
    intros m i bi Hi. by rewrite lookup_nil in Hi.
  - cbn [write_slots] in E. ctl_inv E. apply on_insert_Some in Hm as ->.
    set (k0 := mkMaglevKey table_id slot) in *.
    apply IH in E as (f & -> & Hout & Hin). exists (λ m, f (<[k0 := a]> m)).
    split; [by destruct s as [[]]|]. split.
    + intros m k Hk. rewrite Hout.
      * rewrite lookup_insert_ne; [done|]. intros <-. apply Hk. split; cbn; [done|lia].
      * intros [H1 H2]. apply Hk. split; [done|]. simpl length. lia.
    + intros m [|i] bi' Hi; cbn in Hi.
      * injection Hi as <-. exists a. split; [done|]. rewrite Z.add_0_r. rewrite Hout.
        -- apply lookup_insert_eq.
        -- intros [_ H2]. cbn in H2. lia.
      * destruct (Hin (<[k0 := a]> m) i bi' Hi) as (b & Eb & Ek). exists b. split; [done|].
        rewrite <- Ek. do 2 f_equal. lia.
Qed.
Lemma clear_slots_run table_id slot n s :
  ∃ f, clear_slots table_id slot n s = (Done tt, with_slots f s) ∧
    ∀ m k, f m !! k = if decide (slot_of table_id slot n k) then None else m !! k.
Proof.
  revert slot s. induction n as [|n IH]; intros slot s.
  - exists (λ x, x). split; [by destruct s as [[]]|]. intros m k.
    rewrite decide_False; [done|]. intros [_ H]. lia.
  - cbn [clear_slots]. unfold cbind, mapop_ at 1. set (k0 := mkMaglevKey table_id slot).
    set (s1 := set_maps _ s). assert (s1 = with_slots (delete k0) s) as ->.
    { subst s1. unfold with_slots, set_maps. f_equal. unfold Maglev_remove.
      by rewrite default_remove by by destruct s as [[]]. }
    destruct (IH (slot + 1) (with_slots (delete k0) s)) as (f & Ef & Hf).
    exists (λ x, f (delete k0 x)). split; [exact Ef|]. intros m k. rewrite Hf.
    destruct (decide (k0 = k)) as [<-|Hk].
    + rewrite lookup_delete_eq. rewrite (decide_True (P := slot_of table_id slot (S n) k0)).
      * by destruct (decide _).
      * split; cbn; [done|lia].
    + rewrite lookup_delete_ne by done.
      assert (mk_table_id k = table_id → mk_slot k ≠ slot) as Hne.
      { intros <- <-. apply Hk. by destruct k. }
      destruct (decide (slot_of table_id (slot + 1) n k)) as [[H1 H2]|Hno].
      * rewrite decide_True; [done|]. split; [done|lia].
      * rewrite decide_False; [done|]. intros [H1 H2]. apply Hno. split; [done|].
        specialize (Hne H1). lia.
Qed.

(** The LB map holds the services of the entry. *)
Definition services_in (m : Maps) (e : LbEntry) : Prop :=
  ∀ service, service ∈ le_ports e →
    m_lb m !! lb_key (le_vni e) (le_ip e) service
      = Some (mkLbValue (le_table_id e) (Z.of_nat TABLE_SIZE)).
(** The slots of a table that send to a backend. *)
Definition slots_of (m : Maps) (table_id : Z) (b : list Z) : list Z :=
  filter (λ slot, m_maglev m !! mkMaglevKey table_id slot = Some b) (seqZ 0 (Z.of_nat TABLE_SIZE)).
(** The datapath's tables are those of the entry: every slot of a service sends
    to one of the backends, and every backend has its even share of slots. *)
Definition lb_programmed (m : Maps) (e : LbEntry) : Prop :=
  (∀ service, service ∈ le_ports e →
    lb_synced m (lb_key (le_vni e) (le_ip e) service) (le_backends e)) ∧
  (NoDup (le_backends e) → ∀ b, b ∈ le_backends e →
    let share := (TABLE_SIZE / length (le_backends e))%nat in
    (share <= length (slots_of m (le_table_id e) b) <= share + 1)%nat).

Lemma filter_fmap_length {A B} (P : B → Prop) (Q : A → Prop) `{∀ x, Decision (P x)}
    `{∀ x, Decision (Q x)} (f : A → B) l :
  (∀ x, x ∈ l → P (f x) ↔ Q x) → length (filter P (f <$> l)) = length (filter Q l).
Proof.
  induction l as [|x l IH]; intros Hl; [done|]. rewrite fmap_cons, !filter_cons.
  specialize (IH ltac:(intros y Hy; apply Hl; by right)). pose proof (Hl x ltac:(left)).
  destruct (decide (P (f x))), (decide (Q x)); cbn; [by rewrite IH|tauto|tauto|done].
Qed.
(** A table of indices, written out. *)
Lemma slots_of_count m table_id table bs j b :
  NoDup bs → bs !! j = Some b → length table = TABLE_SIZE →
  (∀ x, x ∈ table → 0 <= x < Z.of_nat (length bs)) →
  (∀ i bi, table !! i = Some bi → ∃ b, bs !! Z.to_nat bi = Some b ∧
     m_maglev m !! mkMaglevKey table_id (0 + Z.of_nat i) = Some b) →
  length (slots_of m table_id b) = count (Z.of_nat j) table.
Proof.
  intros Hn Hj Hl Hr Hm. unfold slots_of, count.
  rewrite <- (filter_fmap_length (λ o, o = Some b) _
    (λ slot, m_maglev m !! mkMaglevKey table_id slot)) by done.
  assert (((λ slot, m_maglev m !! mkMaglevKey table_id slot) <$> seqZ 0 (Z.of_nat TABLE_SIZE))
    = (λ x, bs !! Z.to_nat x) <$> table) as ->.
  { apply list_eq. intros i. rewrite !list_lookup_fmap. destruct (table !! i) as [bi|] eqn:Ei.
    - destruct (Hm i bi Ei) as (b' & Eb & Em). apply lookup_lt_Some in Ei.
      rewrite lookup_seqZ_lt by lia. cbn. by rewrite Em, Eb.
    - apply lookup_ge_None in Ei. rewrite lookup_seqZ_ge by lia. done. }
  apply filter_fmap_length. intros x Hx. pose proof (Hr x Hx). split.
  - intros Ex. pose proof (NoDup_lookup _ _ _ _ Hn Ex Hj). lia.
  - intros ->. by rewrite Nat2Z.id.
Qed.

Lemma program_table_run table_id backends s s' :
  (0 < length backends)%nat → Z.of_nat (length backends) < U32_MAX →
  program_table table_id backends s = (Done tt, s') →
  ∃ f, s' = with_slots f s ∧
    (∀ m k, mk_table_id k ≠ table_id → f m !! k = m !! k) ∧
    (∀ m slot, 0 <= slot < Z.of_nat TABLE_SIZE →
       ∃ b, f m !! mkMaglevKey table_id slot = Some b ∧ b ∈ backends) ∧
    (NoDup backends → ∀ b, b ∈ backends →
       let share := (TABLE_SIZE / length backends)%nat in
       (share <= length (slots_of (in_maps s') table_id b) <= share + 1)%nat).
Proof.
  intros Hn Hu E. destruct (build_spec backends Hn Hu) as (table & Et & _).
  destruct (build_even backends table Hn Hu Et) as (Hl & Hr & Hc).
  unfold program_table in E. rewrite Et in E. unfold cbind at 1, ok_or, cret in E.
  apply write_slots_run in E as (f & -> & Hout & Hin). exists f. split; [done|]. split; [|split].
  - intros m k Hk. apply Hout. by intros [? _].
  - intros m slot Hs. destruct (lookup_lt_is_Some_2 table (Z.to_nat slot)) as [bi Hbi].
    { rewrite Hl. lia. }
    destruct (Hin m _ _ Hbi) as (b & Eb & Ek). exists b. split.
    + rewrite <- Ek. do 2 f_equal. lia.
    + by eapply list_elem_of_lookup_2.
  - intros Hd b [j Hj]%list_elem_of_lookup. cbn zeta.
    rewrite (slots_of_count _ _ table backends j b Hd Hj Hl Hr); [|apply Hin].
    apply Hc. by eapply lookup_lt_Some.
Qed.

(** Only the table of one load balancer changes. *)
Definition others_served (e : LbEntry) (s s' : Inner) : Prop :=
  m_lb (in_maps s') = m_lb (in_maps s) ∧
  ∀ k, mk_table_id k ≠ le_table_id e → m_maglev (in_maps s') !! k = m_maglev (in_maps s) !! k.
Lemma program_table_synced e bs s s' :
  services_in (in_maps s) e → (0 < length bs)%nat → Z.of_nat (length bs) < U32_MAX →
  program_table (le_table_id e) bs s = (Done tt, s') →
  services_in (in_maps s') e ∧ lb_programmed (in_maps s') (with_backends bs e) ∧
  others_served e s s' ∧ in_lbs s' = in_lbs s.
Proof.
  intros Hs Hn Hu E. apply program_table_run in E as (f & -> & Hout & Hin & Hsh); [|done..].
  split; [exact Hs|]. split; [|split; [|done]].
  - split; [|exact Hsh]. intros service Hp. cbn in Hp |- *.
    exists (mkLbValue (le_table_id e) (Z.of_nat TABLE_SIZE)).
    split; [by apply Hs|]. split; [done|]. intros slot Hslot. by apply Hin.
  - split; [done|]. intros k. apply Hout.
Qed.

(** No packet is forwarded to a service whose table is empty. *)
Definition lb_unserved (m : Maps) (e : LbEntry) : Prop :=
  ∀ service hash, service ∈ le_ports e →
    lb_pick m (lb_key (le_vni e) (le_ip e) service) hash = None.

Lemma clear_table_run e s :
  services_in (in_maps s) e →
  ∃ s', clear_slots (le_table_id e) 0 TABLE_SIZE s = (Done tt, s') ∧ in_lbs s' = in_lbs s ∧
    services_in (in_maps s') e ∧ lb_unserved (in_maps s') e ∧ others_served e s s'.
Proof.
  intros Hs. destruct (clear_slots_run (le_table_id e) 0 TABLE_SIZE s) as (f & E & Hf).
  exists (with_slots f s). split; [done|]. split; [done|]. split; [exact Hs|]. split.
  - intros service hash Hp. unfold lb_pick. cbn [in_maps with_slots set_maps m_lb with_maglev].
    rewrite (Hs service Hp). cbn [mbind option_bind lv_size lv_table_id].
    rewrite (proj2 (Z.eqb_neq _ _)) by done. cbn [m_maglev with_maglev]. rewrite Hf, decide_True; [done|].
    split; [done|]. apply Z.mod_pos_bound. unfold TABLE_SIZE. lia.
  - split; [done|]. intros k Hne. cbn [in_maps with_slots set_maps m_maglev with_maglev].
    rewrite Hf, decide_False; [done|]. intros [H1 _]. exact (Hne H1).
Qed.

Lemma filter_member {A} `{EqDecision A} (l : list (list A)) (P : list A → bool) b :
  (∀ x, P x = negb (bool_decide (x = b))) →
  (length (List.filter P l) =? length l)%nat = negb (bool_decide (b ∈ l)).
Proof.
  intros HP. destruct (_ =? _)%nat eqn:E; symmetry.
  - apply filter_length_eq in E. apply negb_true_iff, bool_decide_eq_false. intros Hb.
    rewrite <- E in Hb. apply filter_elem in Hb as [_ Hb]. rewrite HP, bool_decide_true in Hb; done.
  - apply filter_length_neq, existsb_exists in E as (x & Hx & E). apply negb_false_iff, bool_decide_eq_true.
    rewrite HP, negb_involutive in E. zbool. subst. by apply list_elem_of_In.
Qed.

(** ** What the operations keep *)

Lemma keeps_write_slots {X} (g : Inner → X) table_id slot table backends :
  (∀ m s, g (set_maps (λ _, m) s) = g s) → keeps g (write_slots table_id slot table backends).
Proof.
  intros Hg. revert slot. induction table as [|bi table IH]; intros slot; cbn [write_slots]; [by intros s|].
  apply keeps_bind; [destruct (backends !! _); by intros s|]. intros b.
  apply keeps_bind; [|intros _; apply IH]. apply keeps_mapop. by intros.
Qed.
Lemma keeps_clear_slots {X} (g : Inner → X) table_id slot n :
  (∀ m s, g (set_maps (λ _, m) s) = g s) → keeps g (clear_slots table_id slot n).
Proof.
  intros Hg. revert slot. induction n as [|n IH]; intros slot; cbn [clear_slots]; [by intros s|].
  apply keeps_bind; [|intros _; apply IH]. apply keeps_mapop_. by intros.
Qed.
Lemma keeps_program_table {X} (g : Inner → X) table_id backends :
  (∀ m s, g (set_maps (λ _, m) s) = g s) → keeps g (program_table table_id backends).
Proof.
  intros Hg. unfold program_table. apply keeps_bind; [destruct (build _); by intros s|].
  intros table. by apply keeps_write_slots.
Qed.
Ltac keeps_lb_step :=
  match goal with
  | |- keeps _ (program_table _ _) => by apply keeps_program_table
  | |- keeps _ (clear_slots _ _ _) => by apply keeps_clear_slots
  | _ => keeps_step
  end.
Lemma keeps_ifaces_create_lb id vni ip ul ports : keeps iface_tables (create_lb id vni ip ul ports).
Proof. unfold create_lb. repeat keeps_lb_step. Qed.
Lemma keeps_ifaces_add_lb_target id b : keeps iface_tables (add_lb_target id b).
Proof. unfold add_lb_target. repeat keeps_lb_step. Qed.
Lemma keeps_ifaces_del_lb_target id b : keeps iface_tables (del_lb_target id b).
Proof. unfold del_lb_target. repeat keeps_lb_step. Qed.
Lemma keeps_ifaces_delete_lb id : keeps iface_tables (delete_lb id).
Proof. unfold delete_lb. repeat keeps_lb_step. Qed.

Lemma kept_sized_write_slots table_id slot table backends :
  Forall (λ b, length b = 16%nat) backends → kept sized (write_slots table_id slot table backends).
Proof.
  intros Hb. revert slot. induction table as [|bi table IH]; intros slot; cbn [write_slots]; [kept_step|].
  apply kept_bind_ok. intros b Eb. pose proof (Forall_lookup_1 _ _ _ _ Hb Eb) as Hl. cbv beta in Hl.
  repeat kept_step. apply IH.
Qed.
Lemma kept_sized_clear_slots table_id slot n : kept sized (clear_slots table_id slot n).
Proof.
  revert slot. induction n as [|n IH]; intros slot; cbn [clear_slots]; repeat kept_step. apply IH.
Qed.
Lemma kept_sized_create_lb id vni ip ul ports : kept sized (create_lb id vni ip ul ports).
Proof.
  unfold create_lb. repeat kept_step; try (apply kept_mod; intros ? []; by split).
  - apply kept_for. intros p _. kept_step.
  - apply kept_mod. intros s1 []. split; try done. cbn.
    by apply (insert_values (λ e, Forall (λ b, length b = 16%nat) (le_backends e))).
Qed.
Lemma set_lb_sized id bs e s :
  sized s → Forall (λ b, length b = 16%nat) bs → sized (set_lbs <[id := with_backends bs e]> s).
Proof.
  intros [] Hb. split; try done. cbn.
  by apply (insert_values (λ e, Forall (λ b, length b = 16%nat) (le_backends e))).
Qed.
Lemma kept_sized_add_lb_target id b : length b = 16%nat → kept sized (add_lb_target id b).
Proof.
  intros Hb. unfold add_lb_target. kept_step. apply kept_bind_ok. intros e Ee.
  assert (Forall (λ b, length b = 16%nat) (le_backends e ++ [b])) as Hbs.
  { apply Forall_app. split; [by eapply sz_lbs|by repeat constructor]. }
  repeat kept_step.
  - apply kept_mod. intros s1 Hs1. by apply set_lb_sized.
  - unfold program_table. apply kept_bind_ok. intros t _. by apply kept_sized_write_slots.
Qed.
Lemma kept_sized_del_lb_target id b : kept sized (del_lb_target id b).
Proof.
  unfold del_lb_target. kept_step. apply kept_bind_ok. intros e Ee.
  assert (Forall (λ b, length b = 16%nat) (List.filter (λ x, negb (arr_eqb x b)) (le_backends e))) as Hbs.
  { apply sz_lbs in Ee; [|done]. rewrite Forall_forall in *. intros x [Hx _]%filter_elem. by apply Ee. }
  repeat kept_step.
  - apply kept_mod. intros s1 Hs1. by apply set_lb_sized.
  - destruct (_ =? _)%nat; [kept_step|]. kept_step; [|kept_step].
    destruct (_ =? _)%nat; [apply kept_sized_clear_slots|].
    unfold program_table. apply kept_bind_ok. intros t _. by apply kept_sized_write_slots.
Qed.
Lemma kept_sized_delete_lb id : kept sized (delete_lb id).
Proof.
  unfold delete_lb. kept_step. destruct (in_lbs s !! id); [|kept_step]. repeat kept_step.
  - apply kept_mod. intros s1 []. split; try done. cbn.
    by apply (delete_values (λ e, Forall (λ b, length b = 16%nat) (le_backends e))).
  - apply kept_for. intros p _. kept_step.
  - apply kept_sized_clear_slots.
Qed.
#[export] Hint Resolve keeps_ifaces_create_lb keeps_ifaces_add_lb_target keeps_ifaces_del_lb_target
  keeps_ifaces_delete_lb kept_sized_create_lb kept_sized_add_lb_target kept_sized_del_lb_target
  kept_sized_delete_lb : dp_keeps.

(** ** Properties *)

(** C31.  Backends: [add_lb_target] appends a new backend and [del_lb_target]
    removes one, reporting whether it was there, so that no backend is listed
    twice.  After either, every service of the load balancer is served from
    the current backends alone, and each of them has its even share of the
    table's slots, the number of slots divided by that of the backends up to
    one; so [lb_select_forward] picks a current backend for every packet, and
    an added one is served.  When the last backend went, no packet is
    forwarded.  Other tables and the services are as before. *)
Theorem lb_targets_programmed (id b : list Z) (e : LbEntry) (s : Inner) :
  in_lbs s !! id = Some e → services_in (in_maps s) e → NoDup (le_backends e) →
  Z.of_nat (length (le_backends e)) + 1 < U32_MAX →
  (∀ s', add_lb_target id b s = (Done tt, s') →
     let e' := with_backends (le_backends e ++ [b])%list e in
     ¬ b ∈ le_backends e ∧ in_lbs s' = <[id := e']> (in_lbs s) ∧ NoDup (le_backends e') ∧
     services_in (in_maps s') e' ∧ lb_programmed (in_maps s') e' ∧ others_served e s s') ∧
  (∀ r s', del_lb_target id b s = (Done r, s') →
     let bs := List.filter (λ x, negb (arr_eqb x b)) (le_backends e) in
     let e' := with_backends bs e in
     r = bool_decide (b ∈ le_backends e) ∧ in_lbs s' = <[id := e']> (in_lbs s) ∧ NoDup bs ∧
     services_in (in_maps s') e' ∧
     (r = true → bs ≠ [] → lb_programmed (in_maps s') e') ∧
     (r = true → bs = [] → lb_unserved (in_maps s') e') ∧ others_served e s s').
Proof.
  intros Ee Hs Hd Hu. split.
  - intros s' E. unfold add_lb_target in E. ctl_inv E. rewrite Ee in Ho. injection Ho as <-.
    apply bool_decide_eq_false in Hb. split; [done|].
    apply program_table_synced in E as (H1 & H2 & H3 & H4); [|done|rewrite length_app; simpl; lia..].
    rewrite H4. split; [done|]. split; [|by split_and!]. apply NoDup_app. split; [done|].
    split; [|apply NoDup_singleton]. by intros x Hx ->%list_elem_of_singleton.
  - intros r s' E. unfold del_lb_target in E. ctl_inv E. rewrite Ee in Ho. injection Ho as <-.
    set (bs := List.filter _ _) in *. cbn zeta.
    assert ((length bs =? length (le_backends e))%nat = negb (bool_decide (b ∈ le_backends e))) as Hl.
    { by apply filter_member. }
    pose proof (filter_NoDup_fmap (@Datatypes.id (list Z)) (λ x, negb (arr_eqb x b)) (le_backends e)) as Hdb.
    rewrite !list_fmap_id in Hdb. specialize (Hdb Hd). fold bs in Hdb.
    pose proof (List.filter_length_le (λ x, negb (arr_eqb x b)) (le_backends e)) as Hle. fold bs in Hle.
    rewrite Hl in E. destruct (bool_decide (b ∈ le_backends e)); cbn [negb] in E.
    2: { injection E as <- <-. by do 6 (split; [done|]). }
    apply cbind_inv in E as ([] & s1 & E1 & E). injection E as <- <-. destruct (_ =? 0)%nat eqn:E0.
    + apply Nat.eqb_eq, nil_length_inv in E0.
      edestruct (clear_table_run e) as (s2 & E2 & H1 & H2 & H3 & H4); [|rewrite E2 in E1].
      { exact Hs. }
      injection E1 as <-. rewrite H1. split; [done|]. split; [done|]. split; [done|]. rewrite E0.
      split; [exact H2|]. split; [by intros _ []|]. split; [intros _ _; exact H3|exact H4].
    + apply Nat.eqb_neq in E0.
      apply program_table_synced in E1 as (H1 & H2 & H3 & H4); [|done|lia..].
      rewrite H4. do 5 (split; [done|]). split; [|exact H3]. intros _ Ebs. by rewrite Ebs in E0.
Qed.

Definition demo_lb : LbEntry :=
  mkLbEntry 100 (Ipv4 [10; 0; 0; 80]) (replicate 16 4) [(80, 6)] 1 [replicate 16 5].
Definition demo_lb_inner : Inner :=
  set_maps (with_lb (λ _, {[ mkLbKey 100 [10; 0; 0; 80] 80 6 := mkLbValue 1 1021 ]}))
    (set_lbs (λ _, {[ [9] := demo_lb ]}) (bring_up true demo_local)).
Lemma lb_targets_programmed_witness :
  lb_unserved (in_maps (del_lb_target [9] (replicate 16 5) demo_lb_inner).2) (with_backends [] demo_lb).
Proof.
  destruct (lb_targets_programmed [9] (replicate 16 5) demo_lb demo_lb_inner) as [_ Hd].
  - vm_compute. reflexivity.
  - intros service Hp. apply list_elem_of_singleton in Hp as ->. vm_compute. reflexivity.
  - apply NoDup_singleton.
  - vm_compute. reflexivity.
  - destruct (Hd true (del_lb_target [9] (replicate 16 5) demo_lb_inner).2) as (_ & _ & _ & _ & _ & H & _).
    + apply done_run. vm_compute. reflexivity.
    + apply H; reflexivity.
Defined.
