(* ===== verification/CtlNat.v ===== *)
(** * CtlNat

    VIPs, network NAT and neighbor NAT of the control plane
    (xdp-dp/src/control.rs, [create_vip] to [delete_nat] and
    [neigh_nat_reprogram] to [list_neighbor_nats]). *)
From stdpp Require Import sorting.
From S2P Require Import Prelude Bytes Types Kernel Nat Safe Handles Host Ctl CtlIface.
Local Open Scope string_scope.
Local Open Scope Z_scope.

(** ** Definitions: VIPs *)

(** A preferred underlay address somebody uses. *)
Definition underlay_taken (pul : list Z) (s : Inner) : bool :=
  any_value (λ r, arr_eqb (ir_underlay r) pul) (in_by_id s)
  || any_value (λ lb, arr_eqb (le_lb_underlay lb) pul) (in_lbs s).
Definition taken (pul : option (list Z)) (s : Inner) : bool :=
  match pul with Some pul => underlay_taken pul s | None => false end.

Section vips.
Local Open Scope ctl_scope.

Definition create_vip (id vip : list Z) (preferred_ul : option (list Z)) : ctl (list Z) :=
  let* by_id := cgets in_by_id in
  let* rec := ok_or (by_id !! id) "NO_VM: unknown interface" in
  let key := mkVipKey (ir_vni rec) (ir_ipv4 rec) in
  let* m := cgets in_maps in
  bail_if (bool_decide (is_Some (Vips_get key m))) "SNAT_EXISTS: VIP already set for this interface" ;;;
  let* collision := cgets (taken preferred_ul) in
  bail_if collision "VNF_INSERT: preferred underlay collision" ;;;
  mapop (Vips_upsert key vip) "insert vip" ;;;
  mapop (Vips_upsert (mkVipKey (ir_vni rec) vip) (ir_ipv4 rec)) "insert vip" ;;;
  cret (default (ir_underlay rec) preferred_ul).

Definition delete_vip (id : list Z) : ctl bool :=
  let* by_id := cgets in_by_id in
  let* rec := ok_or (by_id !! id) "NO_VM: unknown interface" in
  let key := mkVipKey (ir_vni rec) (ir_ipv4 rec) in
  let* m := cgets in_maps in
  match Vips_get key m with
  | None => cret false
  | Some vip =>
      mapop_ (Vips_remove (mkVipKey (ir_vni rec) vip)) ;;;
      mapop_ (Vips_remove key) ;;;
      cret true
  end.

Definition get_vip (id : list Z) (s : Inner) : option (list Z * list Z) :=
  rec ← in_by_id s !! id;
  vip ← Vips_get (mkVipKey (ir_vni rec) (ir_ipv4 rec)) (in_maps s);
  Some (vip, ir_underlay rec).
End vips.

(** ** Definitions: network NAT *)

(** The NAT configuration of an interface. *)
Definition nat_of (r : IfaceRecord) (m : Maps) : option NatValue :=
  Nat_get (mkNatKey (ir_vni r) (ir_ipv4 r)) m.
Definition ranges_overlap (min1 max1 min2 max2 : Z) : bool := (min1 <? max2) && (min2 <? max1).
(** An interface of the VNI uses some of the ports of the NAT address. *)
Definition nat_overlaps (vni : Z) (nat_ip : list Z) (pmin pmax : Z) (s : Inner) : bool :=
  any_value (λ r, (ir_vni r =? vni) &&
    match nat_of r (in_maps s) with
    | Some v => arr_eqb (nv_nat_ipv4 v) nat_ip
                && ranges_overlap pmin pmax (nv_port_min v) (nv_port_max v)
    | None => false
    end) (in_by_id s).

(** An entry of a flow the guest's NAT translated: forward by the guest's
    address, reverse by the NAT address and the port range. *)
Definition ct_of_guest (vni : Z) (gip nat_ip : list Z) (pmin pmax : Z) (k : CtKey) (e : CtEntry) : bool :=
  (ck_vni k =? vni) &&
  ((arr_eqb (ck_src_ip k) gip
    && (has_flag (ce_flags e) CT_REWRITE_SRC || has_flag (ce_flags e) CT_F_SRC_NAT))
   || (arr_eqb (ck_dst_ip k) nat_ip && (pmin <=? ck_dst_port k) && (ck_dst_port k <? pmax)
       && has_flag (ce_flags e) CT_REWRITE_DST)).

(** A row [(id, guest, nat_ip, port_min, port_max, vni, underlay)]. *)
Definition NatRow : Type := list Z * list Z * list Z * Z * Z * Z * list Z.
Definition row_order (a b : NatRow) : Prop := be_num b.1.1.1.1.1.2 <= be_num a.1.1.1.1.1.2.
#[export] Instance row_order_dec a b : Decision (row_order a b).
Proof. unfold row_order. apply _. Defined.

Section nats.
Local Open Scope ctl_scope.

Definition create_nat (id nat_ip : list Z) (port_min port_max : Z) (preferred_ul : option (list Z))
    : ctl (list Z) :=
  let* by_id := cgets in_by_id in
  let* rec := ok_or (by_id !! id) "NO_VM: unknown interface" in
  let* m := cgets in_maps in
  bail_if (bool_decide (is_Some (nat_of rec m)))
    "SNAT_EXISTS: NAT already configured for this interface" ;;;
  let* overlap := cgets (nat_overlaps (ir_vni rec) nat_ip port_min port_max) in
  bail_if overlap "SNAT_EXISTS: overlapping NAT port range" ;;;
  let* collision := cgets (taken preferred_ul) in
  bail_if collision "VNF_INSERT: preferred underlay collision" ;;;
  mapop (Nat_upsert (mkNatKey (ir_vni rec) (ir_ipv4 rec)) (mkNatValue nat_ip port_min port_max))
    "insert nat" ;;;
  mapop_ (NatIps_set (ir_vni rec) nat_ip) ;;;
  cret (default (ir_underlay rec) preferred_ul).

Definition get_nat (id : list Z) (s : Inner) :=
  rec ← in_by_id s !! id;
  v ← nat_of rec (in_maps s);
  Some (nv_nat_ipv4 v, nv_port_min v, nv_port_max v, ir_underlay rec, ir_vni rec).

(** [list_local_nats]: by guest address, descending; the order of equal
    addresses (of different VNIs) is that of the hash map. *)
Definition nat_row (x : list Z * IfaceRecord) (v : NatValue) :=
  (x.1, ir_ipv4 x.2, nv_nat_ipv4 v, nv_port_min v, nv_port_max v, ir_vni x.2, ir_underlay x.2).
Definition list_local_nats (s : Inner) :=
  merge_sort row_order
    (omap (λ x, nat_row x <$> nat_of x.2 (in_maps s)) (map_to_list (in_by_id s))).

Definition ct_flush_for_guest (vni : Z) (gip nat_ip : list Z) (port_min port_max : Z) : ctl unit :=
  let* m := cgets in_maps in
  cfor (fst <$> List.filter (λ x, ct_of_guest vni gip nat_ip port_min port_max x.1 x.2)
         (Conntrack_entries m))
    (λ k, mapop_ (Conntrack_remove k)).

(** Another interface of the VNI uses the NAT address. *)
Definition nat_ip_used (id : list Z) (vni : Z) (nat_ip : list Z) (s : Inner) : bool :=
  existsb (λ x, negb (arr_eqb x.1 id) && (ir_vni x.2 =? vni) &&
    match nat_of x.2 (in_maps s) with
    | Some v => arr_eqb (nv_nat_ipv4 v) nat_ip
    | None => false
    end) (map_to_list (in_by_id s)).

Definition delete_nat (id : list Z) : ctl bool :=
  let* by_id := cgets in_by_id in
  let* rec := ok_or (by_id !! id) "NO_VM: unknown interface" in
  let* m := cgets in_maps in
  match nat_of rec m with
  | None => cret false
  | Some v =>
      mapop_ (Nat_remove (mkNatKey (ir_vni rec) (ir_ipv4 rec))) ;;;
      let* still_used := cgets (nat_ip_used id (ir_vni rec) (nv_nat_ipv4 v)) in
      cwhen (negb still_used) (mapop_ (NatIps_remove (ir_vni rec) (nv_nat_ipv4 v))) ;;;
      ct_flush_for_guest (ir_vni rec) (ir_ipv4 rec) (nv_nat_ipv4 v) (nv_port_min v) (nv_port_max v) ;;;
      cret true
  end.
End nats.

(** ** Definitions: neighbor NAT *)

(** An entry that is the same or claims some of the ports. *)
Definition neighbor_clash (vni : Z) (nat_ip : list Z) (pmin pmax : Z) (e : NeighborNatEntry) : bool :=
  arr_eqb (ne_nat_ip e) nat_ip &&
  (((ne_vni e =? vni) && (ne_port_min e =? pmin) && (ne_port_max e =? pmax))
   || ranges_overlap (ne_port_min e) (ne_port_max e) pmin pmax).
Definition same_neighbor (vni : Z) (nat_ip : list Z) (pmin pmax : Z) (e : NeighborNatEntry) : bool :=
  (ne_vni e =? vni) && arr_eqb (ne_nat_ip e) nat_ip && (ne_port_min e =? pmin) && (ne_port_max e =? pmax).

Section neighbors.
Local Open Scope ctl_scope.

Fixpoint write_neighbors (idx : Z) (es : list NeighborNatEntry) : ctl unit :=
  match es with
  | [] => cret tt
  | e :: es => mapop (NeighborNat_upsert idx e) "insert neighbor_nat" ;;; write_neighbors (idx + 1) es
  end.
Definition neigh_nat_reprogram : ctl unit :=
  let* es := cgets in_neigh_nats in
  write_neighbors 0 es ;;;
  mapop (NeighborNatCount_set (Z.of_nat (length es))) "set neighbor_nat_count".

Definition add_neighbor_nat (vni : Z) (nat_ip : list Z) (port_min port_max : Z) (underlay : list Z)
    : ctl unit :=
  let* es := cgets in_neigh_nats in
  bail_if (NB_MAX_ENTRIES <=? length es)%nat "neighbor NAT table full (max 64)" ;;;
  bail_if (existsb (neighbor_clash vni nat_ip port_min port_max) es)
    "ALREADY_EXISTS: neighbor NAT entry already exists or port range overlaps" ;;;
  cmod (set_neigh_nats
    (λ es, (es ++ [mkNeighborNatEntry underlay nat_ip vni port_min port_max 1])%list)) ;;;
  neigh_nat_reprogram.

Definition del_neighbor_nat (vni : Z) (nat_ip : list Z) (port_min port_max : Z) : ctl bool :=
  let* es := cgets in_neigh_nats in
  let kept := List.filter (λ e, negb (same_neighbor vni nat_ip port_min port_max e)) es in
  cmod (set_neigh_nats (λ _, kept)) ;;;
  if (length kept =? length es)%nat then cret false
  else neigh_nat_reprogram ;;; cret true.

Definition list_neighbor_nats (s : Inner) : list NeighborNatEntry := in_neigh_nats s.
End neighbors.

(** ** Lemmas: NAT port ranges *)

(** Interface [i] owns a port of a NAT address of the VNI. *)
Definition owns_port (s : Inner) (i : list Z) (vni : Z) (nat_ip : list Z) (port : Z) : Prop :=
  ∃ r v, in_by_id s !! i = Some r ∧ ir_vni r = vni ∧ nat_of r (in_maps s) = Some v ∧
    nv_nat_ipv4 v = nat_ip ∧ nv_port_min v <= port < nv_port_max v.
(** No two interfaces own the same. *)
Definition nats_disjoint (s : Inner) : Prop :=
  ∀ i j vni nat_ip port, owns_port s i vni nat_ip port → owns_port s j vni nat_ip port → i = j.

(** A conntrack entry of a flow that the guest's NAT translated: its packets
    leave the guest with their source rewritten, or arrive at one of the ports
    of the NAT address and have their destination rewritten. *)
Definition guest_flow (vni : Z) (gip nat_ip : list Z) (pmin pmax : Z) (k : CtKey) (e : CtEntry) : Prop :=
  ck_vni k = vni ∧
  (ck_src_ip k = gip ∧ (Z.testbit (ce_flags e) 0 = true ∨ Z.testbit (ce_flags e) 2 = true) ∨
   ck_dst_ip k = nat_ip ∧ pmin <= ck_dst_port k < pmax ∧ Z.testbit (ce_flags e) 1 = true).
Lemma has_flag_testbit flags n : 0 <= n → has_flag flags (2 ^ n) = Z.testbit flags n.
Proof.
  intros Hn. unfold has_flag. destruct (Z.testbit flags n) eqn:E.
  - apply negb_true_iff, Z.eqb_neq. intros H0. apply (f_equal (λ x, Z.testbit x n)) in H0.
    rewrite Z.land_spec, E, Z.pow2_bits_true, Z.bits_0 in H0; done.
  - apply negb_false_iff, Z.eqb_eq, Z.bits_inj'. intros i Hi. rewrite Z.land_spec, Z.bits_0.
    destruct (decide (i = n)) as [->|]; [by rewrite E|]. rewrite Z.pow2_bits_false by lia.
    apply andb_false_r.
Qed.
Lemma ct_of_guest_flow vni gip nip pmin pmax k e :
  ct_of_guest vni gip nip pmin pmax k e = true ↔ guest_flow vni gip nip pmin pmax k e.
Proof.
  unfold ct_of_guest, guest_flow, arr_eqb.
  rewrite (has_flag_testbit _ 0), (has_flag_testbit _ 2), (has_flag_testbit _ 1) by done.
  rewrite !andb_true_iff, !orb_true_iff, !andb_true_iff, orb_true_iff, !bool_decide_eq_true,
    Z.eqb_eq, Z.leb_le, Z.ltb_lt. tauto.
Qed.
(** The entries of an allocation are such flows. *)
Lemma allocation_guest_flow vni gip nip pmin pmax port t extra :
  (∀ k, ck_vni k = vni → ck_src_ip k = gip →
     guest_flow vni gip nip pmin pmax k (fwd_entry t extra nip port)) ∧
  (∀ proto sport, pmin <= port < pmax →
     guest_flow vni gip nip pmin pmax (nat_rev_key vni nip port proto) (rev_entry t extra gip sport)).
Proof.
  split.
  - intros k Hv Hs. split; [done|]. left. split; [done|]. left. cbn [ce_flags fwd_entry].
    by rewrite !Z.lor_spec.
  - intros proto sport Hp. split; [done|]. right. split; [done|]. split; [done|].
    cbn [ce_flags rev_entry]. by rewrite !Z.lor_spec.
Qed.

Lemma ranges_overlap_sym a b c d : ranges_overlap a b c d = ranges_overlap c d a b.
Proof. unfold ranges_overlap. apply andb_comm. Qed.
(** What a port means: no port is in both ranges. *)
Lemma ranges_overlap_false a b c d port :
  ranges_overlap a b c d = false → a <= port < b → c <= port < d → False.
Proof. unfold ranges_overlap. intros [H|H]%andb_false_iff; zbool; lia. Qed.

Lemma create_nat_inv id nip pmin pmax pul s ul s' :
  create_nat id nip pmin pmax pul s = (Done ul, s') →
  ∃ r m, in_by_id s !! id = Some r ∧ nat_of r (in_maps s) = None ∧
    nat_overlaps (ir_vni r) nip pmin pmax s = false ∧ ul = default (ir_underlay r) pul ∧
    m_nat m = <[mkNatKey (ir_vni r) (ir_ipv4 r) := mkNatValue nip pmin pmax]> (m_nat (in_maps s)) ∧
    s' = set_maps (λ _, m) s.
Proof.
  unfold create_nat. intros E. ctl_inv E. apply on_insert_Some in Hm as ->.
  apply bool_decide_eq_false in Hb. injection E as <- <-.
  set (m := with_nat _ _). exists a, (default m (NatIps_set (ir_vni a) nip m)).
  split; [done|]. split; [by apply eq_None_not_Some|]. do 2 (split; [done|]). split; [|done].
  by apply (default_on_map m_nat).
Qed.
Lemma create_nat_bail id nip pmin pmax pul s msg s' :
  create_nat id nip pmin pmax pul s = (Bail msg, s') → s' = s.
Proof.
  unfold create_nat, cbind, cgets, ok_or, bail_if, mapop, mapop_, bail, cret. cbv beta iota.
  destruct (in_by_id s !! id); [|congruence]. destruct (bool_decide _); [congruence|].
  destruct (nat_overlaps _ _ _ _ _); [congruence|]. destruct (taken _ _); [congruence|].
  destruct (Nat_upsert _ _ _); congruence.
Qed.

(** A port of the new range, or one owned before. *)
Lemma create_nat_owns id r nip pmin pmax s m i vni ip port :
  ifaces_ok s → in_by_id s !! id = Some r →
  m_nat m = <[mkNatKey (ir_vni r) (ir_ipv4 r) := mkNatValue nip pmin pmax]> (m_nat (in_maps s)) →
  owns_port (set_maps (λ _, m) s) i vni ip port →
  (i = id ∧ vni = ir_vni r ∧ ip = nip ∧ pmin <= port < pmax) ∨ owns_port s i vni ip port.
Proof.
  intros Hi Hr Em (a & va & Ha & Hv & Na & Hip & Hp). unfold nat_of, Nat_get in Na. cbn in Ha, Na.
  rewrite Em in Na. apply lookup_insert_Some in Na as [[Hk <-]|[_ Hn]]; [left|right; by exists a, va].
  injection Hk as Hvk H4. cbn in Hip, Hp. split; [by eapply io_addr4|]. by rewrite <- Hv, Hvk.
Qed.
Lemma kept_disjoint_create_nat id nip pmin pmax pul :
  kept (λ s, ifaces_ok s ∧ nats_disjoint s) (create_nat id nip pmin pmax pul).
Proof.
  intros s [Hi Hd]. destruct (create_nat id nip pmin pmax pul s) as [[ul|msg] s'] eqn:E.
  2: { by apply create_nat_bail in E as ->. }
  apply create_nat_inv in E as (r & m & Hr & _ & Ho & _ & Em & ->). cbn [snd].
  assert (∀ i port, pmin <= port < pmax → ¬ owns_port s i (ir_vni r) nip port) as Hfree.
  { intros i port Hp (a & va & Ha & Hv & Na & Hip & Hpa).
    pose proof (any_value_false _ _ Ho i a Ha) as H1. cbv beta in H1.
    rewrite Na, (proj2 (Z.eqb_eq _ _) Hv) in H1. unfold arr_eqb in H1.
    rewrite bool_decide_true in H1 by done. by eapply ranges_overlap_false. }
  split; [by destruct Hi|]. intros i j vni ip port H1 H2.
  apply (create_nat_owns id r nip pmin pmax) in H1 as [(-> & -> & -> & Hp)|H1]; [| |done..];
    apply (create_nat_owns id r nip pmin pmax) in H2 as [(-> & E1 & E2 & Hp')|H2];
    try done; subst.
  - by apply Hfree in H2.
  - by apply Hfree in H1.
  - by eapply Hd.
Qed.

(** Fewer interfaces and ranges stay disjoint. *)
Lemma nats_disjoint_less s s' :
  (∀ i r, in_by_id s' !! i = Some r → in_by_id s !! i = Some r) →
  (∀ k v, m_nat (in_maps s') !! k = Some v → m_nat (in_maps s) !! k = Some v) →
  nats_disjoint s → nats_disjoint s'.
Proof.
  intros Ei Hn Hd i j vni ip port (a & va & Ha & Va & Na & Pa) (b & vb & Hb & Vb & Nb & Pb).
  apply (Hd i j vni ip port); [exists a, va|exists b, vb]; (split; [by apply Ei|]; split; [done|]);
    (split; [by apply Hn|done]).
Qed.
(** [detach_interface] takes an interface, and a range when the VNI empties. *)
Lemma disjoint_detach `{KL : KernelLaws} `{Host} id s :
  nats_disjoint s → nats_disjoint (detach_interface id s).2.
Proof.
  intros Hd. destruct (in_by_id s !! id) as [r|] eqn:Er.
  2: { unfold detach_interface, cbind, cgets. by rewrite Er. }
  destruct (detach_interface_run id r s Er) as (s1 & s2 & E1 & -> & Ek & Hu). cbn [snd].
  destruct (unprogram_iface_run (default 0 (in_by_ifindex s !! id)) r (forget_iface id s))
    as (s1' & E1' & _ & Hv).
  rewrite E1 in E1'. injection E1' as <-. injection Hv as _ _ _ V4 _ _ _.
  pose proof (keeps_unprogram in_by_id (default 0 (in_by_ifindex s !! id)) r
    ltac:(done) ltac:(done) ltac:(done) (forget_iface id s)) as Hb.
  rewrite E1 in Hb. cbn in Hb, V4. unfold purge_keeps, iface_tables in Ek.
  injection Ek as Ei _. apply (nats_disjoint_less s); [| |done].
  - intros i a. rewrite Ei, Hb. by intros [_ ?]%lookup_delete_Some.
  - intros k v. destruct Hu as [[_ ->]|[_ Hn]]; [by rewrite V4|].
    injection Hn as _ _ _ -> _ _ _. rewrite V4. by intros [_ ?]%lookup_delete_Some.
Qed.
(** A new interface owns no port, unless a range was left for its address. *)
Lemma disjoint_create_interface `{KL : KernelLaws} `{Host} id dev p s :
  m_nat (in_maps s) !! mkNatKey (ip_vni p) (ip_ipv4 p) = None →
  nats_disjoint s → nats_disjoint (create_interface id dev p s).2.
Proof.
  intros Hno Hd. destruct (create_interface_cases id dev p s)
    as [[msg ->]|(tap & mac & _ & _ & _ & _ & _ & _ & ->)]; [done|].
  set (s1 := register_iface _ _ _ _ _).
  assert (keeps (λ s, (in_by_id s, m_nat (in_maps s))) (program_iface_maps tap mac p)) as Hk
    by (unfold program_iface_maps; repeat keeps_step).
  specialize (Hk s1). destruct (program_iface_maps tap mac p s1) as [o s2]. injection Hk as Kb Kn.
  cbn [snd]. assert (∀ i vni ip port, owns_port s2 i vni ip port → owns_port s i vni ip port) as Ho.
  { intros i vni ip port (a & v & Ha & Hv & Na & Hp). unfold nat_of, Nat_get in Na.
    rewrite Kn in Na. rewrite Kb in Ha. cbn in Ha, Na.
    apply lookup_insert_Some in Ha as [[_ <-]|[_ Ha]]; [|by exists a, v].
    cbn in Na. by rewrite Hno in Na. }
  intros i j vni ip port H1%Ho H2%Ho. by eapply Hd.
Qed.

(** The flush removes exactly the guest's translated flows. *)
Lemma remove_keys_run ks s :
  ∃ s', cfor ks (λ k, mapop_ (Conntrack_remove k)) s = (Done tt, s') ∧
    in_by_id s' = in_by_id s ∧ m_nat (in_maps s') = m_nat (in_maps s) ∧
    m_nat_ips (in_maps s') = m_nat_ips (in_maps s) ∧
    m_conntrack (in_maps s') = filter (λ x, x.1 ∉ ks) (m_conntrack (in_maps s)).
Proof.
  revert s. induction ks as [|k ks IH]; intros s.
  - exists s. do 4 (split; [done|]). symmetry. apply map_filter_id. intros k v _ H. by apply elem_of_nil in H.
  - cbn [cfor]. unfold cbind at 1, mapop_ at 1. set (s1 := set_maps _ s).
    assert (s1 = set_maps (with_conntrack (delete k)) s) as ->.
    { subst s1. unfold set_maps. f_equal. unfold Conntrack_remove.
      by rewrite default_remove by by destruct s as [[]]. }
    destruct (IH (set_maps (with_conntrack (delete k)) s)) as (s' & E & E1 & E2 & E3 & E4).
    exists s'. split; [exact E|]. rewrite E1, E2, E3, E4. do 3 (split; [done|]).
    cbn. apply map_eq. intros k'. apply option_eq. intros v.
    rewrite !map_lookup_filter_Some, lookup_delete_Some, not_elem_of_cons. cbn. 
    split; [intros [[H1 H2] H3]; auto|intros [H1 [H2 H3]]; auto].
Qed.
Lemma ct_flush_run vni gip nip pmin pmax s :
  ∃ s', ct_flush_for_guest vni gip nip pmin pmax s = (Done tt, s') ∧
    in_by_id s' = in_by_id s ∧ m_nat (in_maps s') = m_nat (in_maps s) ∧
    m_nat_ips (in_maps s') = m_nat_ips (in_maps s) ∧
    ∀ k e, m_conntrack (in_maps s') !! k = Some e ↔
      m_conntrack (in_maps s) !! k = Some e ∧ ¬ guest_flow vni gip nip pmin pmax k e.
Proof.
  setoid_rewrite <- ct_of_guest_flow.
  unfold ct_flush_for_guest. unfold cbind at 1, cgets at 1. set (ks := fst <$> _).
  destruct (remove_keys_run ks s) as (s' & E & E1 & E2 & E3 & E4). exists s'.
  do 4 (split; [done|]). intros k e. rewrite E4, map_lookup_filter_Some. cbn.
  split; intros [Hk Hn]; (split; [done|]).
  - intros Ht. apply Hn. subst ks. apply list_elem_of_fmap.
    exists (k, e). split; [done|]. apply filter_elem. split; [|done]. by apply elem_of_map_to_list.
  - subst ks. intros ((k' & e') & Ek & [Hx Ht]%filter_elem)%list_elem_of_fmap. cbn in *. subst k'.
    apply elem_of_map_to_list in Hx. rewrite Hk in Hx. injection Hx as <-. by apply Hn.
Qed.

Lemma delete_nat_run id r v s :
  in_by_id s !! id = Some r → nat_of r (in_maps s) = Some v →
  ∃ s', delete_nat id s = (Done true, s') ∧ in_by_id s' = in_by_id s ∧
    m_nat (in_maps s') = delete (mkNatKey (ir_vni r) (ir_ipv4 r)) (m_nat (in_maps s)) ∧
    ∀ k e, m_conntrack (in_maps s') !! k = Some e ↔ m_conntrack (in_maps s) !! k = Some e ∧
      ¬ guest_flow (ir_vni r) (ir_ipv4 r) (nv_nat_ipv4 v) (nv_port_min v) (nv_port_max v) k e.
Proof.
  intros Hr Hv. unfold delete_nat. unfold cbind at 1, cgets at 1. rewrite Hr.
  unfold cbind at 1, ok_or, cret at 1, cbind at 1, cgets at 1. rewrite Hv.
  unfold cbind at 1, mapop_ at 1. set (s1 := set_maps _ s).
  assert (s1 = set_maps (with_nat (delete (mkNatKey (ir_vni r) (ir_ipv4 r)))) s) as ->.
  { subst s1. unfold set_maps. f_equal. unfold Nat_remove.
    by rewrite default_remove by by destruct s as [[]]. }
  unfold cbind at 1, cgets at 1. set (s2 := set_maps _ s).
  assert (∃ s3, cwhen (negb (nat_ip_used id (ir_vni r) (nv_nat_ipv4 v) s2))
      (mapop_ (NatIps_remove (ir_vni r) (nv_nat_ipv4 v))) s2 = (Done tt, s3) ∧
    in_by_id s3 = in_by_id s2 ∧ m_nat (in_maps s3) = m_nat (in_maps s2) ∧
    m_conntrack (in_maps s3) = m_conntrack (in_maps s2)) as (s3 & E3 & F1 & F2 & F3).
  { destruct (negb _); cbn [cwhen]; [|by exists s2]. eexists. split; [reflexivity|].
    split; [done|]. split; [by apply (default_on_map m_nat)|by apply (default_on_map m_conntrack)]. }
  unfold cbind at 1. rewrite E3.
  destruct (ct_flush_run (ir_vni r) (ir_ipv4 r) (nv_nat_ipv4 v) (nv_port_min v) (nv_port_max v) s3)
    as (s4 & E4 & G1 & G2 & _ & G4).
  exists s4. unfold cbind. rewrite E4. split; [done|]. rewrite G1, F1, G2, F2. do 2 (split; [done|]).
  intros k e. by rewrite G4, F3.
Qed.
Lemma disjoint_delete_nat id s : nats_disjoint s → nats_disjoint (delete_nat id s).2.
Proof.
  intros Hd. destruct (in_by_id s !! id) as [r|] eqn:Er.
  2: { unfold delete_nat, cbind, cgets, ok_or, bail. by rewrite Er. }
  destruct (nat_of r (in_maps s)) as [v|] eqn:Ev.
  2: { unfold delete_nat, cbind, cgets, ok_or, cret. by rewrite Er, Ev. }
  destruct (delete_nat_run id r v s Er Ev) as (s' & -> & E1 & E2 & _). cbn [snd].
  apply (nats_disjoint_less s); [by rewrite E1| |done]. intros k w. rewrite E2.
  by intros [_ Hw]%lookup_delete_Some.
Qed.

(** ** Lemmas: VIPs *)

Lemma create_vip_inv id vip pul s ul s' :
  create_vip id vip pul s = (Done ul, s') →
  ∃ r m, in_by_id s !! id = Some r ∧ Vips_get (mkVipKey (ir_vni r) (ir_ipv4 r)) (in_maps s) = None ∧
    taken pul s = false ∧ ul = default (ir_underlay r) pul ∧ s' = set_maps (λ _, m) s ∧
    m_vips m = <[mkVipKey (ir_vni r) vip := ir_ipv4 r]>
      (<[mkVipKey (ir_vni r) (ir_ipv4 r) := vip]> (m_vips (in_maps s))).
Proof.
  unfold create_vip. intros E. ctl_inv E. apply on_insert_Some in Hm as ->, Hm0 as ->.
  apply bool_decide_eq_false in Hb. injection E as <- <-. eexists a, _. split; [done|].
  split; [by apply eq_None_not_Some|]. do 3 (split; [done|]). done.
Qed.
Lemma delete_vip_run id r vip s :
  in_by_id s !! id = Some r → Vips_get (mkVipKey (ir_vni r) (ir_ipv4 r)) (in_maps s) = Some vip →
  ∃ s', delete_vip id s = (Done true, s') ∧
    m_vips (in_maps s') = delete (mkVipKey (ir_vni r) (ir_ipv4 r))
      (delete (mkVipKey (ir_vni r) vip) (m_vips (in_maps s))).
Proof.
  intros Hr Hv. unfold delete_vip. unfold cbind at 1, cgets at 1. rewrite Hr.
  unfold cbind at 1, ok_or, cret at 1, cbind at 1, cgets at 1. rewrite Hv.
  eexists. split; [reflexivity|]. cbn. unfold Vips_remove.
  rewrite default_remove by by destruct (default _ _). cbn.
  by rewrite default_remove by by destruct s as [[]].
Qed.

(** ** Lemmas: neighbor NAT *)

(** The entries own different ports. *)
Definition apart (e1 e2 : NeighborNatEntry) : Prop :=
  ne_nat_ip e1 = ne_nat_ip e2 →
  ne_port_max e1 <= ne_port_min e2 ∨ ne_port_max e2 <= ne_port_min e1.
Lemma neighbors_disjoint_cons e es :
  neighbors_disjoint (e :: es) ↔ Forall (apart e) es ∧ neighbors_disjoint es.
Proof.
  split.
  - intros H. split.
    + apply Forall_lookup_2. intros i x Hx Hip. by apply (H 0%nat (S i) e x).
    + intros i j a b Ha Hb Hne. apply (H (S i) (S j) a b); [done|done|lia].
  - intros [H1 H2] [|i] [|j] a b Ha Hb Hne Hip; cbn in Ha, Hb.
    + done.
    + injection Ha as ->. by apply (Forall_lookup_1 _ _ _ _ H1 Hb).
    + injection Hb as ->. destruct (Forall_lookup_1 _ _ _ _ H1 Ha); [by symmetry|by right|by left].
    + apply (H2 i j a b); try done. lia.
Qed.
Lemma neighbors_disjoint_filter p es : neighbors_disjoint es → neighbors_disjoint (List.filter p es).
Proof.
  induction es as [|e es IH]; [done|]. rewrite neighbors_disjoint_cons. intros [H1 H2].
  cbn [List.filter]. destruct (p e); [|by apply IH]. apply neighbors_disjoint_cons. split; [|by apply IH].
  rewrite Forall_forall in *. intros x [Hx _]%filter_elem. by apply H1.
Qed.
Lemma neighbors_disjoint_snoc es e :
  neighbors_disjoint es → Forall (λ x, apart x e) es → neighbors_disjoint (es ++ [e])%list.
Proof.
  induction es as [|x es IH]; intros H1 H2; cbn [app].
  - apply neighbors_disjoint_cons. split; [by constructor|done].
  - apply neighbors_disjoint_cons in H1 as [Hx Hes]. apply Forall_cons in H2 as [H2 H3].
    apply neighbors_disjoint_cons. split; [|by apply IH]. apply Forall_app. split; [done|].
    apply Forall_cons. by split; [|constructor].
Qed.
Lemma no_clash_apart vni nip pmin pmax ul es :
  existsb (neighbor_clash vni nip pmin pmax) es = false →
  Forall (λ x, apart x (mkNeighborNatEntry ul nip vni pmin pmax 1)) es.
Proof.
  intros H. apply Forall_forall. intros x Hx Hip. cbn in Hip |- *.
  assert (neighbor_clash vni nip pmin pmax x = false) as Hc.
  { apply not_true_iff_false. intros Ht. rewrite <- not_true_iff_false in H. apply H.
    apply existsb_exists. exists x. by rewrite <- list_elem_of_In. }
  unfold neighbor_clash, arr_eqb in Hc. rewrite bool_decide_true in Hc by done. cbn [andb] in Hc.
  apply orb_false_iff in Hc as [_ Hc]. unfold ranges_overlap in Hc.
  apply andb_false_iff in Hc as [Hc|Hc]; zbool; lia.
Qed.

Lemma write_neighbors_run i es s s' :
  0 <= i → write_neighbors i es s = (Done tt, s') →
  ∃ m, s' = set_maps (λ _, m) s ∧ (∀ k, k < i → m_neighbor_nat m !! k = m_neighbor_nat (in_maps s) !! k) ∧
    (∀ j e, es !! j = Some e → m_neighbor_nat m !! (i + Z.of_nat j) = Some e).
Proof.
  revert i s. induction es as [|e es IH]; intros i s Hi E; cbn [write_neighbors] in E.
  - injection E as <-. exists (in_maps s). split; [by destruct s|]. split; [done|].
    intros j e Hj. by rewrite lookup_nil in Hj.
  - apply cbind_inv in E as ([] & s1 & (m1 & ->%on_insert_Some & ->)%mapop_inv & E).
    apply IH in E as (m & -> & Hlow & Hin); [|lia]. exists m. split; [done|].
    cbn [in_maps set_maps m_neighbor_nat with_neighbor_nat] in Hlow. split.
    + intros k Hk. rewrite Hlow by lia. by rewrite lookup_insert_ne by lia.
    + intros [|j] x Hx; cbn in Hx.
      * injection Hx as ->. rewrite Z.add_0_r, Hlow by lia. apply lookup_insert_eq.
      * rewrite <- (Hin j x Hx). f_equal. lia.
Qed.
Lemma neigh_nat_reprogram_run s s' :
  neigh_nat_reprogram s = (Done tt, s') → (length (in_neigh_nats s) <= NB_MAX_ENTRIES)%nat →
  in_neigh_nats s' = in_neigh_nats s ∧ neighbors_synced (in_maps s') (in_neigh_nats s).
Proof.
  intros E Hl. unfold neigh_nat_reprogram in E. ctl_inv E.
  apply cbind_inv in E as ([] & s1 & E1 & (m2 & [= <-] & ->)%mapop_inv).
  apply write_neighbors_run in E1 as (m & -> & _ & Hin); [|lia]. split; [done|].
  split; [done|]. split; [done|]. intros j e He. by apply Hin.
Qed.

(** The table is within its capacity and its entries own different ports. *)
Definition neighbors_wf (s : Inner) : Prop :=
  (length (in_neigh_nats s) <= NB_MAX_ENTRIES)%nat ∧ neighbors_disjoint (in_neigh_nats s).

Lemma keeps_write_neighbors_strict {X} (g : Inner → X) i es :
  (∀ m s, g (set_maps (λ _, m) s) = g s) → keeps g (write_neighbors i es).
Proof.
  intros Hg. revert i. induction es as [|e es IH]; intros i; cbn [write_neighbors]; [by intros s|].
  apply keeps_bind; [|intros _; apply IH]. apply keeps_mapop. by intros.
Qed.
Lemma keeps_neigh_reprogram {X} (g : Inner → X) :
  (∀ m s, g (set_maps (λ _, m) s) = g s) → keeps g neigh_nat_reprogram.
Proof.
  intros Hg. unfold neigh_nat_reprogram. apply keeps_bind; [by intros s|]. intros es.
  apply keeps_bind; [by apply keeps_write_neighbors_strict|]. intros _. apply keeps_mapop. by intros.
Qed.
Lemma kept_wf_neigh_reprogram : kept neighbors_wf neigh_nat_reprogram.
Proof.
  eapply keeps_kept; [by apply (keeps_neigh_reprogram in_neigh_nats)|].
  unfold neighbors_wf. by intros s s' ->.
Qed.

Lemma kept_wf_add_neighbor vni nip pmin pmax ul : kept neighbors_wf (add_neighbor_nat vni nip pmin pmax ul).
Proof.
  intros s [Hl Hd]. unfold add_neighbor_nat. unfold cbind at 1, cgets at 1, cbind at 1, bail_if.
  destruct (_ <=? _)%nat eqn:El; [done|]. apply Nat.leb_gt in El. unfold cret at 1, cbind at 1.
  destruct (existsb _ _) eqn:Ec; [done|]. unfold cret at 1, cbind at 1, cmod.
  apply kept_wf_neigh_reprogram. split; cbn.
  - rewrite length_app. simpl. lia.
  - apply neighbors_disjoint_snoc; [done|]. by apply no_clash_apart.
Qed.
Lemma kept_wf_del_neighbor vni nip pmin pmax : kept neighbors_wf (del_neighbor_nat vni nip pmin pmax).
Proof.
  intros s [Hl Hd]. unfold del_neighbor_nat. unfold cbind at 1, cgets at 1, cbind at 1, cmod.
  set (kept_l := List.filter _ _). set (s1 := set_neigh_nats _ s).
  assert (neighbors_wf s1) as Hw.
  { split; cbn; [|by apply neighbors_disjoint_filter].
    pose proof (List.filter_length_le (λ e, negb (same_neighbor vni nip pmin pmax e)) (in_neigh_nats s)).
    unfold kept_l. lia. }
  destruct (_ =? _)%nat; [done|].
  apply (kept_bind neighbors_wf neigh_nat_reprogram (λ _, cret true));
    [apply kept_wf_neigh_reprogram|intros []; apply kept_ret|done].
Qed.

(** ** What the operations keep *)

Ltac keeps_nat_step :=
  match goal with
  | |- keeps _ neigh_nat_reprogram => by apply keeps_neigh_reprogram
  | _ => keeps_step
  end.
Lemma keeps_ifaces_create_vip id vip pul : keeps iface_tables (create_vip id vip pul).
Proof. unfold create_vip. repeat keeps_nat_step. Qed.
Lemma keeps_ifaces_delete_vip id : keeps iface_tables (delete_vip id).
Proof. unfold delete_vip. repeat keeps_nat_step. Qed.
Lemma keeps_ifaces_create_nat id nip pmin pmax pul :
  keeps iface_tables (create_nat id nip pmin pmax pul).
Proof. unfold create_nat. repeat keeps_nat_step. Qed.
Lemma keeps_ifaces_delete_nat id : keeps iface_tables (delete_nat id).
Proof. unfold delete_nat, ct_flush_for_guest. repeat keeps_nat_step. Qed.
Lemma keeps_ifaces_add_neighbor vni nip pmin pmax ul :
  keeps iface_tables (add_neighbor_nat vni nip pmin pmax ul).
Proof. unfold add_neighbor_nat. repeat keeps_nat_step. Qed.
Lemma keeps_ifaces_del_neighbor vni nip pmin pmax :
  keeps iface_tables (del_neighbor_nat vni nip pmin pmax).
Proof. unfold del_neighbor_nat. repeat keeps_nat_step. Qed.

Lemma kept_sized_create_vip id vip pul : length vip = 4%nat → kept sized (create_vip id vip pul).
Proof.
  intros Hv. unfold create_vip. kept_step. apply kept_bind_ok. intros r Hr.
  assert (length (ir_ipv4 r) = 4%nat) as H4 by by eapply sz_ifaces. repeat kept_step.
Qed.
Lemma kept_sized_delete_vip id : kept sized (delete_vip id).
Proof. unfold delete_vip. repeat kept_step. destruct (Vips_get _ _); repeat kept_step. Qed.
Lemma kept_sized_create_nat id nip pmin pmax pul :
  length nip = 4%nat → kept sized (create_nat id nip pmin pmax pul).
Proof. intros Hv. unfold create_nat. repeat kept_step. Qed.
Lemma kept_sized_delete_nat id : kept sized (delete_nat id).
Proof.
  unfold delete_nat, ct_flush_for_guest. repeat kept_step. destruct (nat_of _ _); repeat kept_step.
  apply kept_for. intros k _. kept_step.
Qed.
Lemma kept_sized_reprogram : kept sized neigh_nat_reprogram.
Proof.
  assert (∀ i es, Forall (λ e, length (ne_underlay e) = 16%nat) es → kept sized (write_neighbors i es)) as Hw.
  { intros i es Hes. revert i. induction Hes as [|e es He Hes IH]; intros i; cbn [write_neighbors];
      repeat kept_step. apply IH. }
  unfold neigh_nat_reprogram. apply kept_gets. intros s Hs.
  apply kept_bind; [by apply Hw, sz_neigh|]. intros _. kept_step.
Qed.
Lemma kept_sized_add_neighbor vni nip pmin pmax ul :
  length ul = 16%nat → kept sized (add_neighbor_nat vni nip pmin pmax ul).
Proof.
  intros Hu. unfold add_neighbor_nat. repeat kept_step; [|apply kept_sized_reprogram].
  apply kept_mod. intros s1 []. split; try done. cbn. apply Forall_app. split; [done|].
  apply Forall_cons. by split; [|constructor].
Qed.
Lemma kept_sized_del_neighbor vni nip pmin pmax : kept sized (del_neighbor_nat vni nip pmin pmax).
Proof.
  unfold del_neighbor_nat. apply kept_gets. intros s Hs. apply kept_bind.
  - apply kept_mod. intros s1 []. split; try done. cbn.
    pose proof (Ctl.sz_neigh _ Hs) as Hn. rewrite Forall_forall in *. intros x [Hx _]%filter_elem. by apply Hn.
  - intros _. destruct (_ =? _)%nat; [kept_step|]. kept_step; [apply kept_sized_reprogram|kept_step].
Qed.
#[export] Hint Resolve keeps_ifaces_create_vip keeps_ifaces_delete_vip keeps_ifaces_create_nat
  keeps_ifaces_delete_nat keeps_ifaces_add_neighbor keeps_ifaces_del_neighbor kept_sized_create_vip
  kept_sized_delete_vip kept_sized_create_nat kept_sized_delete_nat kept_sized_add_neighbor
  kept_sized_del_neighbor : dp_keeps.

(** ** Properties *)

(** C32.  Within a VNI, no two interfaces own the same port of a NAT address,
    where the ports of a range run from its minimum up to, and without, its
    maximum (an inverted range, which [create_nat] also accepts, has none).
    The four operations that change an interface or a NAT range keep this,
    whatever they answer: [create_nat], [delete_nat], [detach_interface], and
    [create_interface] when no range is left for the new interface's address
    (a range that [detach_interface] left behind would be taken over).
    [create_nat] succeeds only for an interface without NAT and gives it the
    range; [delete_nat] takes the range and removes from conntrack exactly the
    flows it translated for the guest, among them both entries of every port
    allocation. *)
Theorem nat_ranges_stay_disjoint `{KL : KernelLaws} `{Host} (id nip : list Z) (pmin pmax : Z)
    (pul : option (list Z)) (dev : string) (p : IfaceParams) (s : Inner) :
  ifaces_ok s → nats_disjoint s →
  nats_disjoint (create_nat id nip pmin pmax pul s).2 ∧ nats_disjoint (delete_nat id s).2 ∧
  nats_disjoint (detach_interface id s).2 ∧
  (m_nat (in_maps s) !! mkNatKey (ip_vni p) (ip_ipv4 p) = None →
   nats_disjoint (create_interface id dev p s).2) ∧
  (∀ ul s', create_nat id nip pmin pmax pul s = (Done ul, s') →
     get_nat id s = None ∧ ∃ r, in_by_id s !! id = Some r ∧
     get_nat id s' = Some (nip, pmin, pmax, ir_underlay r, ir_vni r)) ∧
  (∀ r v, in_by_id s !! id = Some r → nat_of r (in_maps s) = Some v → ∃ s',
     delete_nat id s = (Done true, s') ∧ get_nat id s' = None ∧
     (∀ k e, m_conntrack (in_maps s') !! k = Some e ↔ m_conntrack (in_maps s) !! k = Some e ∧
       ¬ guest_flow (ir_vni r) (ir_ipv4 r) (nv_nat_ipv4 v) (nv_port_min v) (nv_port_max v) k e) ∧
     ∀ k t extra port, ck_vni k = ir_vni r → ck_src_ip k = ir_ipv4 r →
       nv_port_min v <= port < nv_port_max v →
       m_conntrack (in_maps s') !! k ≠ Some (fwd_entry t extra (nv_nat_ipv4 v) port) ∧
       m_conntrack (in_maps s') !! nat_rev_key (ck_vni k) (nv_nat_ipv4 v) port (ck_proto k)
         ≠ Some (rev_entry t extra (ck_src_ip k) (ck_src_port k))).
Proof.
  intros Hi Hd. split; [by apply (kept_disjoint_create_nat id nip pmin pmax pul s)|].
  split; [by apply disjoint_delete_nat|]. split; [by apply disjoint_detach|].
  split; [intros Hno; by apply disjoint_create_interface|]. split.
  - intros ul s' E. apply create_nat_inv in E as (r & m & Hr & Hn & _ & _ & Em & ->).
    unfold get_nat. cbn [in_by_id set_maps in_maps]. rewrite Hr. cbn [mbind option_bind].
    rewrite Hn. split; [done|]. exists r. split; [done|]. unfold nat_of, Nat_get. rewrite Em.
    by rewrite lookup_insert_eq.
  - intros r v Hr Hv. destruct (delete_nat_run id r v s Hr Hv) as (s' & E & E1 & E2 & E3).
    exists s'. split; [done|]. split.
    { unfold get_nat, nat_of, Nat_get. rewrite E1, Hr. cbn [mbind option_bind]. rewrite E2.
      by rewrite lookup_delete_eq. }
    split; [done|]. intros k t extra port Hk Hsrc Hp.
    destruct (allocation_guest_flow (ir_vni r) (ir_ipv4 r) (nv_nat_ipv4 v) (nv_port_min v)
      (nv_port_max v) port t extra) as [Hf Hb].
    rewrite Hk, Hsrc. split; intros [_ Hno]%E3; apply Hno; [by apply Hf|by apply Hb].
Qed.

Lemma nat_ranges_stay_disjoint_witness :
  nats_disjoint (create_nat [1] [203; 0; 113; 9] 1024 2048 None demo_inner).2.
Proof.
  refine (proj1 (nat_ranges_stay_disjoint (H := demo_host) [1] [203; 0; 113; 9] 1024 2048 None "net_tap2"
    demo_params demo_inner _ _)).
  - exact demo_inner_ok.
  - intros i j vni ip port (a & va & _ & _ & E & _).
    by apply (lookup_empty_Some (mkNatKey (ir_vni a) (ir_ipv4 a)) va) in E.
Defined.

(** C33.  The neighbor NAT table: [add_neighbor_nat] and [del_neighbor_nat],
    whether they succeed or fail, keep at most 64 entries whose port ranges do
    not overlap per NAT address; after a success the datapath's slots mirror
    the list, which is what its lookup needs to find the owner of a port. *)
Theorem neighbor_table_mirrored (vni : Z) (nip : list Z) (pmin pmax : Z) (ul : list Z) (s : Inner) :
  neighbors_wf s →
  let add := add_neighbor_nat vni nip pmin pmax ul s in
  let del := del_neighbor_nat vni nip pmin pmax s in
  neighbors_wf add.2 ∧ neighbors_wf del.2 ∧
  (∀ s', add = (Done tt, s') →
     list_neighbor_nats s' = (list_neighbor_nats s ++ [mkNeighborNatEntry ul nip vni pmin pmax 1])%list ∧
     neighbors_synced (in_maps s') (list_neighbor_nats s')) ∧
  (∀ s', del = (Done true, s') →
     list_neighbor_nats s'
       = List.filter (λ e, negb (same_neighbor vni nip pmin pmax e)) (list_neighbor_nats s) ∧
     neighbors_synced (in_maps s') (list_neighbor_nats s')) ∧
  (∀ s', del = (Done false, s') → s' = s).
Proof.
  intros Hw. cbn zeta. pose proof (kept_wf_add_neighbor vni nip pmin pmax ul s Hw) as Ha.
  pose proof (kept_wf_del_neighbor vni nip pmin pmax s Hw) as Hdel.
  split; [done|]. split; [done|]. split; [|split].
  - intros s' E. unfold add_neighbor_nat in E. ctl_inv E. apply Nat.leb_gt in Hb.
    apply neigh_nat_reprogram_run in E as [E1 E2].
    + unfold list_neighbor_nats. by rewrite E1.
    + cbn. rewrite length_app. simpl. lia.
  - intros s' E. unfold del_neighbor_nat in E. ctl_inv E. destruct (_ =? _)%nat; [done|].
    apply cbind_inv in E as ([] & s1 & E & [= <-]).
    apply neigh_nat_reprogram_run in E as [E1 E2].
    + unfold list_neighbor_nats. by rewrite E1.
    + destruct Hw as [Hl _]. cbn. pose proof (List.filter_length_le
        (λ e, negb (same_neighbor vni nip pmin pmax e)) (in_neigh_nats s)). lia.
  - intros s' E. unfold del_neighbor_nat in E. ctl_inv E. destruct (_ =? _)%nat eqn:El.
    + injection E as <-. apply filter_length_eq in El. rewrite El. by destruct s.
    + by apply cbind_inv in E as ([] & s1 & _ & [=]).
Qed.

Lemma neighbor_table_mirrored_witness :
  neighbors_wf (add_neighbor_nat 100 [203; 0; 113; 9] 1024 2048 (replicate 16 6) demo_inner).2.
Proof.
  refine (proj1 (neighbor_table_mirrored 100 [203; 0; 113; 9] 1024 2048 (replicate 16 6) demo_inner _)).
  split; [cbn; lia|]. intros i j e1 e2 E. by destruct i.
Defined.

(** VIPs come and go in pairs: a successful [create_vip] maps the
    guest's address to the VIP and back, as the datapath's two rewrites need,
    and [delete_vip] then restores the table, provided the VIP was not
    mapped before. *)
Theorem create_delete_vip (id vip : list Z) (pul : option (list Z)) (s s1 : Inner) (ul : list Z) :
  create_vip id vip pul s = (Done ul, s1) →
  ∃ r, in_by_id s !! id = Some r ∧ get_vip id s = None ∧
    (vip ≠ ir_ipv4 r → get_vip id s1 = Some (vip, ir_underlay r)) ∧
    m_vips (in_maps s1) !! mkVipKey (ir_vni r) vip = Some (ir_ipv4 r) ∧
    (m_vips (in_maps s) !! mkVipKey (ir_vni r) vip = None → vip ≠ ir_ipv4 r →
     ∃ s2, delete_vip id s1 = (Done true, s2) ∧ m_vips (in_maps s2) = m_vips (in_maps s)).
Proof.
  intros E. apply create_vip_inv in E as (r & m & Hr & Hn & _ & _ & -> & Em). exists r.
  split; [done|]. unfold get_vip, Vips_get in *. cbn [in_by_id set_maps in_maps]. rewrite Hr.
  cbn [mbind option_bind]. rewrite Hn. split; [done|].
  assert (vip ≠ ir_ipv4 r → m_vips m !! mkVipKey (ir_vni r) (ir_ipv4 r) = Some vip) as Hg.
  { intros Hne. rewrite Em, lookup_insert_ne, lookup_insert_eq; [done|congruence]. }
  split; [intros Hne; by rewrite Hg|]. split; [rewrite Em; apply lookup_insert_eq|].
  intros Hv Hne. destruct (delete_vip_run id r vip (set_maps (λ _, m) s) Hr (Hg Hne)) as (s2 & E2 & E3).
  exists s2. split; [exact E2|]. rewrite E3. cbn [in_maps set_maps]. rewrite Em.
  rewrite delete_insert_id; [by rewrite delete_insert_id|].
  rewrite lookup_insert_ne; [done|congruence].
Qed.

Lemma create_delete_vip_witness :
  m_vips (in_maps (create_vip [1] [203; 0; 113; 7] None demo_inner).2)
    !! mkVipKey 100 [203; 0; 113; 7] = Some [10; 0; 0; 9].
Proof.
  destruct (create_delete_vip [1] [203; 0; 113; 7] None demo_inner
    (create_vip [1] [203; 0; 113; 7] None demo_inner).2 (replicate 16 0xfc)) as (r & Hr & _ & _ & Hv & _).
  - apply done_run. vm_compute. reflexivity.
  - assert (in_by_id demo_inner !! [1]
      = Some (mkIfaceRecord 100 [10; 0; 0; 9] (replicate 16 7) "dtapvf_0" (replicate 16 0xfc))) as E
      by (vm_compute; reflexivity).
    rewrite Hr in E. injection E as ->. exact Hv.
Defined.
