(* ===== verification/GrpcIface.v ===== *)
(** * GrpcIface

    The gRPC handlers of interfaces, routes, prefixes and load-balancer
    prefixes (xdp-dp/src/grpc.rs): decoding and validation of the request, the
    control-plane operation, and the status its error becomes.  A handler
    takes the fields of its request that the source reads. *)
From stdpp Require Import strings.
From S2P Require Import Prelude Bytes Types Kernel Safe Handles Host NetAddr Ctl Rpc.
From S2P Require Import CtlIface CtlRoute.
Local Open Scope string_scope.
Local Open Scope Z_scope.

(** ** Definitions: interfaces *)

Record CreateInterfaceRequest := mkCreateInterfaceRequest
  { ci_interface_id : list Z; ci_vni : Z; ci_ipv4_config : option (list Z);
    ci_ipv6_config : option (list Z); ci_pxe_config : option (list Z * list Z);
    ci_device_name : string; ci_metering : option (Z * Z);
    ci_preferred_underlay_route : list Z; ci_hostname : list Z }.
Record Interface := mkInterface
  { if_id : list Z; if_vni : Z; if_primary_ipv4 : list Z; if_primary_ipv6 : list Z;
    if_underlay_route : list Z; if_pci_name : string; if_metering : Z * Z; if_hostname : string }.
Record Route := mkRoute
  { rt_prefix : option Prefix; rt_nexthop_vni : Z; rt_nexthop_address : option IpAddress;
    rt_weight : Z }.

Definition make_interface (id : list Z) (vni : Z) (ipv4 ipv6 underlay : list Z) (device : string)
    : Interface :=
  mkInterface id vni (encode_ipv4_str ipv4) (encode_ipv6_str ipv6) (encode_ipv6_str underlay)
    device (0, 0) "".
Definition interface_of (id : list Z) (r : IfaceRecord) : Interface :=
  make_interface id (ir_vni r) (ir_ipv4 r) (ir_ipv6 r) (ir_underlay r) (ir_device r).

Definition create_interface_errors : statuses :=
  [(["already exists"], ALREADY_EXISTS);
   (["NOT_FOUND"; "invalid pci"; "no such device"; "read ifindex"], NOT_FOUND);
   (["IP already in use"; "ROUTE_EXISTS"; "route already"], ROUTE_EXISTS);
   (["preferred underlay collision"; "VNF_INSERT"], VNF_INSERT)].
Definition route_errors : statuses := [(["already exists"; "ROUTE_EXISTS"], ROUTE_EXISTS)].
Definition prefix_errors : statuses :=
  [(["NO_VM"; "unknown interface"], NO_VM); (["already exists"; "ROUTE_EXISTS"], ROUTE_EXISTS)].
Definition lb_prefix_errors : statuses :=
  [(["NO_VM"; "unknown interface"], NO_VM); (["already exists"; "ROUTE_EXISTS"], ALREADY_EXISTS)].
Definition no_vm_errors : statuses := [(["NO_VM"; "unknown interface"], NO_VM)].

Section handlers.
Context `{Kernel} `{Host}.
Variable sv : Service.
Local Open Scope rpc_scope.

(** The request's addresses and rates: the parameters of the operation. *)
Definition iface_params (r : CreateInterfaceRequest) : rpc IfaceParams :=
  let* primary := needs (ci_ipv4_config r) "ipv4_config is required" in
  let* ipv4 := rlift (decode_ipv4 primary) in
  let* ipv6 := rlift (match ci_ipv6_config r with
                      | Some (_ :: _ as b) => decode_ipv6 b
                      | _ => Resp (replicate 16 0)
                      end) in
  if bool_decide (ipv4 = replicate 4 0) && bool_decide (ipv6 = replicate 16 0) then
    rfail InvalidArgument
      "Invalid ipv4_config.primary_address and ipv6_config.primary_address combination"
  else
    let* pul := rlift (preferred (ci_preferred_underlay_route r)) in
    let underlay := default (derive_underlay sv (ci_vni r) ipv4) pul in
    let '(total_mbps, public_mbps) := default (0, 0) (ci_metering r) in
    rret (mkIfaceParams (ci_vni r) ipv4 ipv6 (sv_gateway_ipv4 sv) (sv_gateway_ipv6 sv) underlay
            total_mbps public_mbps).
(** The DHCP parameters: the PXE fields only with a server. *)
Definition pxe_of (r : CreateInterfaceRequest) : list Z * list Z :=
  match ci_pxe_config r with
  | Some (_ :: _ as next_server, boot_filename) => (next_server, boot_filename)
  | _ => ([], [])
  end.
Definition create_interface (r : CreateInterfaceRequest) : rpc (Reply (list Z)) :=
  control sv ;;;
  let* p := iface_params r in
  attempt (CtlIface.create_interface (ci_interface_id r) (ci_device_name r) p)
    create_interface_errors []
    (λ _,
      let '(pxe_host, boot_file) := pxe_of r in
      attempt (set_dhcp_meta (ci_interface_id r) (ci_hostname r) pxe_host boot_file) [] []
        (λ _, rret (mkReply ok (encode_ipv6_str (ip_underlay_ipv6 p))))).

Definition list_interfaces : rpc (Reply (list Interface)) :=
  control sv ;;;
  let* l := rgets CtlIface.list_interfaces in
  rret (mkReply ok ((λ x, interface_of x.1 x.2) <$> l)).
Definition get_interface (id : list Z) : rpc (Reply (option Interface)) :=
  control sv ;;;
  let* r := rgets (CtlIface.get_interface id) in
  match r with
  | Some r => rret (mkReply ok (Some (interface_of id r)))
  | None => rret (mkReply NOT_FOUND None)
  end.
Definition delete_interface (id : list Z) : rpc (Reply unit) :=
  control sv ;;;
  attempt (detach_interface id) [] tt (deleted NOT_FOUND).

(** ** Definitions: routes *)

(** An unknown VNI. *)
Definition unknown_vni (vni : Z) (s : Inner) : bool := negb (vni =? 0) && negb (vni_in_use vni s).

(** The family test of the next hop: the field, or its text. *)
Definition bad_nexthop (a : IpAddress) : bool :=
  (ia_ipver a =? IPV4)
  || negb (ia_ipver a =? IPV6) && default false (negb <$> text_family (ia_address a)).
Definition create_route (vni : Z) (route : option Route) : rpc (Reply unit) :=
  control sv ;;;
  let* route := needs route "route is required" in
  let* prefix := needs (rt_prefix route) "route.prefix is required" in
  let* prefix_ip := needs (px_ip prefix) "route.prefix.ip is required" in
  let* nexthop := needs (rt_nexthop_address route) "route.nexthop_address is required" in
  if bad_nexthop nexthop then rret (mkReply BAD_IPVER tt) else
  let* nexthop_ipv6 := rlift (decode_ipv6 (ia_address nexthop)) in
  let* unknown := rgets (unknown_vni vni) in
  if unknown then rret (mkReply NO_VNI tt) else
  let is_external := px_length prefix =? 0 in
  if ia_ipver prefix_ip =? IPV6 then
    let* ipv6 := rlift (decode_ipv6 (ia_address prefix_ip)) in
    attempt (create_route6 vni ipv6 (px_length prefix) nexthop_ipv6 (rt_nexthop_vni route) is_external)
      route_errors tt (λ _, rret (mkReply ok tt))
  else
    let* raw_ipv4 := rlift (decode_ipv4 (ia_address prefix_ip)) in
    attempt (CtlRoute.create_route vni (masked raw_ipv4 (px_length prefix)) (px_length prefix)
               nexthop_ipv6 (rt_nexthop_vni route) is_external)
      route_errors tt (λ _, rret (mkReply ok tt)).

Definition delete_route (vni : Z) (route : option Route) : rpc (Reply unit) :=
  control sv ;;;
  let* unknown := rgets (unknown_vni vni) in
  if unknown then rret (mkReply NO_VNI tt) else
  let* route := needs route "route is required" in
  let* prefix := needs (rt_prefix route) "route.prefix is required" in
  let* ip := needs (px_ip prefix) "route.prefix.ip is required" in
  if ia_ipver ip =? IPV6 then
    let* ipv6 := rlift (decode_ipv6 (ia_address ip)) in
    attempt (delete_route6 vni ipv6 (px_length prefix)) [] tt (deleted ROUTE_NOT_FOUND)
  else
    let* raw_ipv4 := rlift (decode_ipv4 (ia_address ip)) in
    attempt (CtlRoute.delete_route vni (masked raw_ipv4 (px_length prefix)) (px_length prefix))
      [] tt (deleted ROUTE_NOT_FOUND).

(** [list_routes] shows the IPv4 rows. *)
Definition route_msg (row : Z * list Z * Z * Z * list Z * bool) : option Route :=
  let '(_, p, l, nhop_vni, n, is_ipv6) := row in
  if is_ipv6 then None else
  Some (mkRoute (Some (mkPrefix (Some (v4_addr (take 4 p))) l [])) nhop_vni (Some (v6_addr n)) 0).
Definition list_routes (vni : Z) : rpc (Reply (list Route)) :=
  control sv ;;;
  let* unknown := rgets (unknown_vni vni) in
  if unknown then rret (mkReply NO_VNI []) else
  let* rows := rgets (list_routes_all vni) in
  rret (mkReply ok (omap route_msg rows)).
Definition check_vni_in_use (vni : Z) : rpc (Reply bool) :=
  control sv ;;;
  let* in_use := rgets (vni_in_use vni) in
  rret (mkReply ok in_use).
Definition reset_vni (vni : Z) : rpc (Reply unit) :=
  control sv ;;;
  attempt (CtlRoute.reset_vni vni) [] tt (λ _, rret (mkReply ok tt)).

(** ** Definitions: prefixes *)

(** The interface named in a request exists. *)
Definition known_iface (id : list Z) (s : Inner) : bool :=
  bool_decide (is_Some (CtlIface.get_interface id s)).

(** The list of one interface, or of all for an empty id. *)
Definition listed_prefixes (all : Inner → list (list Z * Z * list Z * bool))
    (one : list Z → Inner → list (list Z * Z * list Z * bool)) (iface_id : list Z)
    : rpc (Reply (list Prefix)) :=
  match iface_id with
  | [] => let* rows := rgets all in rret (mkReply ok (prefix_msg <$> rows))
  | _ =>
      let* known := rgets (known_iface iface_id) in
      if negb known then rret (mkReply NO_VM []) else
      let* rows := rgets (one iface_id) in
      rret (mkReply ok (prefix_msg <$> rows))
  end.
Definition list_prefixes (iface_id : list Z) : rpc (Reply (list Prefix)) :=
  control sv ;;; listed_prefixes list_prefixes_all list_prefixes_with_underlay iface_id.
Definition list_load_balancer_prefixes (iface_id : list Z) : rpc (Reply (list Prefix)) :=
  control sv ;;; listed_prefixes list_lb_prefixes_all list_lb_prefixes_with_underlay iface_id.

(** The prefix of a request and its address. *)
Definition prefix_of (prefix : option Prefix) : rpc (Prefix * IpAddress) :=
  let* pfx := needs prefix "prefix is required" in
  let* addr := needs (px_ip pfx) "prefix.ip is required" in
  rret (pfx, addr).

Definition create_prefix (interface_id : list Z) (prefix : option Prefix) (pul : list Z)
    : rpc (Reply (list Z)) :=
  control sv ;;;
  let* pa := prefix_of prefix in
  let '(pfx, addr) := pa in
  let* preferred_ul := rlift (preferred pul) in
  if ia_ipver addr =? IPV6 then
    let* ip := rlift (decode_ipv6 (ia_address addr)) in
    attempt (add_prefix6 interface_id ip (px_length pfx) preferred_ul) prefix_errors []
      (λ underlay, rret (mkReply ok (encode_ipv6_str underlay)))
  else
    let* ip := rlift (decode_ipv4 (ia_address addr)) in
    attempt (add_prefix interface_id ip (px_length pfx) preferred_ul) prefix_errors []
      (λ underlay, rret (mkReply ok (encode_ipv6_str underlay))).
Definition delete_prefix (interface_id : list Z) (prefix : option Prefix) : rpc (Reply unit) :=
  control sv ;;;
  let* pa := prefix_of prefix in
  let '(pfx, addr) := pa in
  if ia_ipver addr =? IPV6 then
    let* ip := rlift (decode_ipv6 (ia_address addr)) in
    attempt (del_prefix6 interface_id ip (px_length pfx)) no_vm_errors tt (deleted ROUTE_NOT_FOUND)
  else
    let* ip := rlift (decode_ipv4 (ia_address addr)) in
    attempt (del_prefix interface_id ip (px_length pfx)) no_vm_errors tt (deleted ROUTE_NOT_FOUND).

Definition create_load_balancer_prefix (interface_id : list Z) (prefix : option Prefix)
    (pul : list Z) : rpc (Reply (list Z)) :=
  control sv ;;;
  let* pa := prefix_of prefix in
  let '(pfx, addr) := pa in
  let* preferred_ul := rlift (preferred pul) in
  if ia_ipver addr =? IPV6 then
    let* ip := rlift (decode_ipv6 (ia_address addr)) in
    attempt (add_lb_prefix6 interface_id ip (px_length pfx) preferred_ul) lb_prefix_errors []
      (λ underlay, rret (mkReply ok (encode_ipv6_str underlay)))
  else
    let* ip := rlift (decode_ipv4 (ia_address addr)) in
    attempt (add_lb_prefix interface_id ip (px_length pfx) preferred_ul) lb_prefix_errors []
      (λ underlay, rret (mkReply ok (encode_ipv6_str underlay))).
Definition delete_load_balancer_prefix (interface_id : list Z) (prefix : option Prefix)
    : rpc (Reply unit) :=
  control sv ;;;
  let* pa := prefix_of prefix in
  let '(pfx, addr) := pa in
  if ia_ipver addr =? IPV6 then
    let* ip := rlift (decode_ipv6 (ia_address addr)) in
    attempt (del_lb_prefix6 interface_id ip (px_length pfx)) no_vm_errors tt (deleted NOT_FOUND)
  else
    let* ip := rlift (decode_ipv4 (ia_address addr)) in
    attempt (del_lb_prefix interface_id ip (px_length pfx)) no_vm_errors tt (deleted NOT_FOUND).
End handlers.
