(* ===== verification/GrpcFw.v ===== *)
(** * GrpcFw

    The firewall messages and handlers (xdp-dp/src/grpc.rs): the translation
    of rules between the proto form and the datapath's, and its inverse. *)
From stdpp Require Import strings.
From S2P Require Import Prelude Bytes Types Kernel Safe Handles NetAddr Ctl Rpc.
From S2P Require Import CtlIface CtlFw GrpcIface.
Local Open Scope string_scope.
Local Open Scope Z_scope.

(** ** Definitions: messages *)

(** [TrafficDirection], [FirewallAction]. *)
Definition INGRESS : Z := 0.
Definition EGRESS : Z := 1.
Definition DROP : Z := 0.
Definition ACCEPT : Z := 1.
Record PortFilter := mkPortFilter
  { src_port_lower : Z; src_port_upper : Z; dst_port_lower : Z; dst_port_upper : Z }.
Inductive Filter :=
  | Tcp (f : PortFilter)
  | Udp (f : PortFilter)
  | Icmp (icmp_type icmp_code : Z).
(** [protocol_filter] is a message with an optional filter. *)
Record FirewallRule := mkFirewallRule
  { pb_id : list Z; pb_direction : Z; pb_action : Z; pb_priority : Z;
    pb_source_prefix : option Prefix; pb_destination_prefix : option Prefix;
    pb_protocol_filter : option (option Filter) }.

(** ** Definitions: decoding *)

(** [decode_fw_prefix]: an IPv6 prefix matches everything. *)
Definition decode_fw_prefix (addr : IpAddress) (length : Z) : answer (list Z * list Z) :=
  if is_v6_addr addr then Resp (replicate 4 0, replicate 4 0)
  else abind (decode_ipv4 (ia_address addr)) (λ ip, Resp (ip, mask_from_len length)).
Definition decode_fw_side (prefix : option Prefix) : answer (list Z * list Z) :=
  match prefix with
  | Some (mkPrefix (Some addr) length _) => decode_fw_prefix addr length
  | _ => Resp (replicate 4 0, replicate 4 0)
  end.
(** A lower and an upper port, an ICMP field: negative is any. *)
Definition port_low (x : Z) : Z := if x <? 0 then 0 else wrap16 x.
Definition port_high (x : Z) : Z := if x <? 0 then 65535 else wrap16 x.
Definition icmp_any (x : Z) : Z := if x <? 0 then 0xffff else wrap16 x.
(** [(proto, src_min, src_max, dst_min, dst_max, icmp_type, icmp_code)]. *)
Definition decode_ports (proto : Z) (f : PortFilter) : Z * Z * Z * Z * Z * Z * Z :=
  (proto, port_low (src_port_lower f), port_high (src_port_upper f),
   port_low (dst_port_lower f), port_high (dst_port_upper f), 0xffff, 0xffff).
Definition decode_filter (pf : option (option Filter)) : Z * Z * Z * Z * Z * Z * Z :=
  match mjoin pf with
  | None => (0, 0, 65535, 0, 65535, 0xffff, 0xffff)
  | Some (Tcp f) => decode_ports 6 f
  | Some (Udp f) => decode_ports 17 f
  | Some (Icmp t c) => (1, 0, 65535, 0, 65535, icmp_any t, icmp_any c)
  end.
Definition decode_fw_rule (r : FirewallRule) : answer FwRule :=
  let direction := if pb_direction r =? EGRESS then FW_DIR_EGRESS else FW_DIR_INGRESS in
  let action := if pb_action r =? ACCEPT then FW_ACTION_ACCEPT else FW_ACTION_DROP in
  abind (decode_fw_side (pb_source_prefix r)) (λ src,
  abind (decode_fw_side (pb_destination_prefix r)) (λ dst,
    let '(proto, smin, smax, dmin, dmax, it, ic) := decode_filter (pb_protocol_filter r) in
    Resp (mkFwRule src.1 src.2 dst.1 dst.2 smin smax dmin dmax it ic proto action direction 1))).

(** ** Definitions: encoding *)

(** [u32::count_ones] of a mask. *)
Fixpoint ones (n : nat) (x : Z) : Z :=
  match n with O => 0 | S n => Z.b2z (Z.testbit x (Z.of_nat n)) + ones n x end.
Definition count_ones (mask : list Z) : Z :=
  ones 32 (be32 (at_ mask 0) (at_ mask 1) (at_ mask 2) (at_ mask 3)).
Definition enc_port (min max : Z) : Z * Z :=
  if (min =? 0) && (max =? 65535) then (-1, -1) else (min, max).
Definition enc_ports (r : FwRule) : PortFilter :=
  let '(spl, spu) := enc_port (fr_src_port_min r) (fr_src_port_max r) in
  let '(dpl, dpu) := enc_port (fr_dst_port_min r) (fr_dst_port_max r) in
  mkPortFilter spl spu dpl dpu.
Definition enc_icmp (x : Z) : Z := if x =? 0xffff then -1 else x.
Definition encode_filter (r : FwRule) : option (option Filter) :=
  if fr_proto r =? 6 then Some (Some (Tcp (enc_ports r)))
  else if fr_proto r =? 17 then Some (Some (Udp (enc_ports r)))
  else if fr_proto r =? 1 then
    Some (Some (Icmp (enc_icmp (fr_icmp_type r)) (enc_icmp (fr_icmp_code r))))
  else None.
Definition encode_side (ip mask : list Z) : option Prefix :=
  Some (mkPrefix (Some (v4_addr ip)) (count_ones mask) []).
Definition encode_fw_rule (rule_id : list Z) (r : FwRule) : FirewallRule :=
  mkFirewallRule rule_id
    (if fr_direction r =? FW_DIR_EGRESS then EGRESS else INGRESS)
    (if fr_action r =? FW_ACTION_ACCEPT then ACCEPT else DROP) 1000
    (encode_side (fr_src_ip r) (fr_src_mask r)) (encode_side (fr_dst_ip r) (fr_dst_mask r))
    (encode_filter r).

(** ** Definitions: handlers *)

(** [gen_rule_id] with the clock's nanoseconds. *)
Definition gen_rule_id (nanos : Z) : list Z := (bytes_of "fw-" ++ show_dec nanos)%list.
Definition fw_rule_errors : statuses :=
  [(["NO_VM"; "unknown interface"], NO_VM);
   (["already exists"; "ALREADY_EXISTS"], ALREADY_EXISTS)].

Section handlers.
Variable sv : Service.
Local Open Scope rpc_scope.

Definition list_firewall_rules (interface_id : list Z) : rpc (Reply (list FirewallRule)) :=
  control sv ;;;
  let* known := rgets (known_iface interface_id) in
  if negb known then rret (mkReply NO_VM []) else
  let* pairs := rgets (list_fw_rules interface_id) in
  rret (mkReply ok ((λ x, encode_fw_rule x.1 x.2) <$> pairs)).

Definition create_firewall_rule (nanos : Z) (interface_id : list Z) (rule : option FirewallRule)
    : rpc (Reply (list Z)) :=
  control sv ;;;
  let* pbrule := needs rule "rule is required" in
  if pb_action pbrule =? DROP then rret (mkReply NO_DROP_SUPPORT []) else
  let rule_id := match pb_id pbrule with [] => gen_rule_id nanos | id => id end in
  let* fw := rlift (decode_fw_rule pbrule) in
  attempt (add_fw_rule interface_id rule_id fw) fw_rule_errors []
    (λ _, rret (mkReply ok rule_id)).

Definition get_firewall_rule (interface_id rule_id : list Z) : rpc (Reply (option FirewallRule)) :=
  control sv ;;;
  let* known := rgets (known_iface interface_id) in
  if negb known then rret (mkReply NO_VM None) else
  let* fw := rgets (get_fw_rule interface_id rule_id) in
  match fw with
  | Some fw => rret (mkReply ok (Some (encode_fw_rule rule_id fw)))
  | None => rret (mkReply NOT_FOUND None)
  end.

Definition delete_firewall_rule (interface_id rule_id : list Z) : rpc (Reply unit) :=
  control sv ;;;
  let* known := rgets (known_iface interface_id) in
  if negb known then rret (mkReply NO_VM tt) else
  attempt (del_fw_rule interface_id rule_id) [] tt (deleted NOT_FOUND).
End handlers.

(** ** Lemmas: a rule and its message *)

Lemma decode_ipv4_arr b a : bytes_ok b → decode_ipv4 b = Resp a → is_arr 4 a.
Proof.
  unfold decode_ipv4. intros Hb. destruct (length b =? 4)%nat eqn:El.
  { intros [= <-]. apply Nat.eqb_eq in El. by split. }
  destruct (negb _); [done|]. unfold parse_ipv4, parse_with.
  destruct (_ <? _)%nat; [done|]. destruct (read_ipv4_addr b) as [[v [|]]|] eqn:E; try done.
  intros [= <-]. by eapply read_octets_arr.
Qed.

(** A printed IPv4 address is not taken for IPv6, and reads back. *)
Lemma v4_addr_family a : is_arr 4 a → is_v6_addr (v4_addr a) = false.
Proof.
  intros Ha. unfold is_v6_addr, v4_addr, text_family, encode_ipv4_str. cbn [ia_ipver ia_address].
  rewrite utf8_ascii by (apply show_ipv4_ascii, Ha). unfold parse_ip_is_v6, parse_with.
  rewrite <- (app_nil_r (show_ipv4 a)), read_show_ipv4 by (done || by intros c). done.
Qed.
Lemma decode_v4_addr a : is_arr 4 a → decode_ipv4 (encode_ipv4_str a) = Resp a.
Proof.
  intros Ha. unfold decode_ipv4, encode_ipv4_str. pose proof (show_ipv4_length a Ha).
  rewrite (proj2 (Nat.eqb_neq _ _)) by lia.
  rewrite utf8_ascii by (apply show_ipv4_ascii, Ha). cbn [negb]. by rewrite parse_show_ipv4.
Qed.

(** A netmask is given back by its length. *)
Lemma mask_count len : 0 <= len → mask_from_len (count_ones (mask_from_len len)) = mask_from_len len.
Proof.
  intros Hl. assert (mask_from_len len = mask_from_len (Z.min len 32)) as ->.
  { unfold mask_from_len. by rewrite <- Z.min_assoc, Z.min_id. }
  assert (Z.min len 32 ∈ seqZ 0 33) as Hin by (apply elem_of_seqZ; lia).
  revert Hin. generalize (Z.min len 32). apply Forall_forall.
  apply (bool_decide_unpack _). vm_compute. exact I.
Qed.

(** What decoding a side of a rule gives: an address and a netmask. *)
Definition side_ok (x : list Z * list Z) : Prop :=
  is_arr 4 x.1 ∧ ∃ len, 0 <= len ∧ x.2 = mask_from_len len.
Definition prefix_ok (p : option Prefix) : Prop :=
  ∀ px a, p = Some px → px_ip px = Some a → 0 <= px_length px ∧ bytes_ok (ia_address a).
Lemma decode_side_ok p x : prefix_ok p → decode_fw_side p = Resp x → side_ok x.
Proof.
  assert (side_ok (replicate 4 0, replicate 4 0)) as H0.
  { split; [by apply is_arr_b|]. by exists 0. }
  intros Hp. destruct p as [[[a|] len u]|]; cbn [decode_fw_side]; try by intros [= <-].
  destruct (Hp _ _ eq_refl eq_refl) as [Hlen Hb]. cbn in Hlen, Hb. unfold decode_fw_prefix.
  destruct (is_v6_addr a); [by intros [= <-]|].
  destruct (decode_ipv4 _) as [ip|] eqn:E; cbn [abind]; [|done]. intros [= <-].
  split; [by eapply decode_ipv4_arr|]. by exists len.
Qed.
Lemma decode_encode_side ip mask : side_ok (ip, mask) → decode_fw_side (encode_side ip mask) = Resp (ip, mask).
Proof.
  intros [Ha (len & Hlen & Hm)]. cbn [fst snd] in *. cbn [decode_fw_side encode_side].
  unfold decode_fw_prefix. rewrite v4_addr_family by done. cbn [v4_addr ia_address].
  rewrite decode_v4_addr by done. cbn [abind]. by rewrite Hm, mask_count.
Qed.

Lemma enc_port_back lo hi :
  is_u16 lo → is_u16 hi →
  port_low (enc_port lo hi).1 = lo ∧ port_high (enc_port lo hi).2 = hi.
Proof.
  unfold is_u16, enc_port. intros Hlo Hhi. destruct (_ && _) eqn:E; cbn [fst snd].
  - apply andb_true_iff in E as [E1 E2]. zbool. by subst.
  - unfold port_low, port_high. rewrite !(proj2 (Z.ltb_ge _ 0)) by lia.
    rewrite !wrap16_mod, !Z.mod_small by lia. done.
Qed.
Lemma enc_icmp_back x : is_u16 x → icmp_any (enc_icmp x) = x.
Proof.
  unfold is_u16, enc_icmp. intros Hx. destruct (x =? 0xffff) eqn:E; zbool; [by subst|].
  unfold icmp_any. rewrite (proj2 (Z.ltb_ge _ 0)), wrap16_mod, Z.mod_small by lia. done.
Qed.
Lemma port_ranges x : is_u16 (port_low x) ∧ is_u16 (port_high x) ∧ is_u16 (icmp_any x).
Proof.
  unfold port_low, port_high, icmp_any, is_u16. rewrite wrap16_mod.
  pose proof (Z.mod_pos_bound x 65536 ltac:(lia)). destruct (x <? 0); lia.
Qed.

Definition filter_of (r : FwRule) : Z * Z * Z * Z * Z * Z * Z :=
  (fr_proto r, fr_src_port_min r, fr_src_port_max r, fr_dst_port_min r, fr_dst_port_max r,
   fr_icmp_type r, fr_icmp_code r).
Lemma decode_ports_back proto r f :
  filter_of r = decode_ports proto f → decode_ports proto (enc_ports r) = filter_of r.
Proof.
  unfold filter_of, decode_ports, enc_ports. intros E.
  destruct (port_ranges (src_port_lower f)) as (H1 & _). destruct (port_ranges (src_port_upper f)) as (_ & H2 & _).
  destruct (port_ranges (dst_port_lower f)) as (H3 & _). destruct (port_ranges (dst_port_upper f)) as (_ & H4 & _).
  injection E as -> -> -> -> -> -> ->.
  destruct (enc_port_back _ _ H1 H2) as [E1 E2]. destruct (enc_port_back _ _ H3 H4) as [E3 E4].
  destruct (enc_port (port_low (src_port_lower f)) _) as [a b].
  destruct (enc_port (port_low (dst_port_lower f)) _) as [c d]. cbn in *. congruence.
Qed.
Lemma decode_encode_filter pf r :
  filter_of r = decode_filter pf → decode_filter (encode_filter r) = filter_of r.
Proof.
  intros E. assert (fr_proto r = (decode_filter pf).1.1.1.1.1.1) as Ep by (by rewrite <- E).
  unfold decode_filter in *. unfold encode_filter. destruct (mjoin pf) as [[f|f|t c]|]; cbn in Ep;
    rewrite Ep; cbn [Z.eqb Pos.eqb mjoin option_join].
  - by eapply decode_ports_back.
  - by eapply decode_ports_back.
  - unfold filter_of in *. destruct (port_ranges t) as (_ & _ & Ht). destruct (port_ranges c) as (_ & _ & Hc).
    injection E as -> -> -> -> -> -> ->. by rewrite !enc_icmp_back.
  - by rewrite E.
Qed.

(** The prefixes of a message as the wire delivers them. *)
Definition message_ok (pb : FirewallRule) : Prop :=
  prefix_ok (pb_source_prefix pb) ∧ prefix_ok (pb_destination_prefix pb).
Lemma decode_encode_rule pb r id :
  message_ok pb → decode_fw_rule pb = Resp r → decode_fw_rule (encode_fw_rule id r) = Resp r.
Proof.
  intros [Hs Hd] E. unfold decode_fw_rule in E.
  destruct (decode_fw_side (pb_source_prefix pb)) as [src|] eqn:Es; cbn [abind] in E; [|done].
  destruct (decode_fw_side (pb_destination_prefix pb)) as [dst|] eqn:Ed; cbn [abind] in E; [|done].
  apply decode_side_ok in Es; [|done]. apply decode_side_ok in Ed; [|done].
  destruct src as [sip smask], dst as [dip dmask].
  destruct (decode_filter _) as [[[[[[proto a] b] c] d] it] ic] eqn:Ef. injection E as <-.
  unfold decode_fw_rule, encode_fw_rule.
  cbn [pb_source_prefix pb_destination_prefix pb_protocol_filter pb_direction pb_action
    fr_src_ip fr_src_mask fr_dst_ip fr_dst_mask fr_direction fr_action fst snd].
  rewrite !decode_encode_side by done. cbn [abind fst snd].
  rewrite (decode_encode_filter (pb_protocol_filter pb)) by (by rewrite Ef). cbn [filter_of].
  unfold filter_of. cbn [fr_proto fr_src_port_min fr_src_port_max fr_dst_port_min fr_dst_port_max
    fr_icmp_type fr_icmp_code]. do 2 f_equal.
  - by destruct (pb_action pb =? ACCEPT).
  - by destruct (pb_direction pb =? EGRESS).
Qed.

Lemma decode_dir_ok pb r : decode_fw_rule pb = Resp r → dir_ok r.
Proof.
  unfold decode_fw_rule. intros E.
  destruct (decode_fw_side (pb_source_prefix pb)) as [src|]; cbn [abind] in E; [|done].
  destruct (decode_fw_side (pb_destination_prefix pb)) as [dst|]; cbn [abind] in E; [|done].
  destruct (decode_filter _) as [[[[[[proto a] b] c] d] it] ic]. injection E as <-.
  unfold dir_ok. cbn. destruct (_ =? _); auto.
Qed.

Lemma find_snoc {A} (p : A → bool) l x :
  existsb p l = false → p x = true → List.find p (l ++ [x])%list = Some x.
Proof.
  induction l as [|y l IH]; cbn [existsb app List.find]; intros Hl Hx; [by rewrite Hx|].
  apply orb_false_iff in Hl as [-> Hl]. by apply IH.
Qed.

(** ** Properties *)


(** A rule that permits TCP to port 80 of 10.0.0.0/24 from anywhere. *)
Definition demo_pb_rule : FirewallRule :=
  mkFirewallRule [5] EGRESS ACCEPT 1000 None
    (Some (mkPrefix (Some (mkIpAddress IPV4 (bytes_of "10.0.0.0"))) 24 []))
    (Some (Some (Tcp (mkPortFilter (-1) (-1) 80 80)))).
Definition demo_service : Service :=
  mkService true (replicate 16 0xfd) [10; 0; 0; 1] (replicate 16 0xfe).
