(* ===== verification/GrpcLb.v ===== *)
(** * GrpcLb

    The gRPC handlers of load balancers and their targets
    (xdp-dp/src/grpc.rs). *)
From stdpp Require Import strings pretty.
From S2P Require Import Prelude Bytes Types Kernel Safe Handles NetAddr Ctl Rpc.
From S2P Require Import CtlLb.
Local Open Scope string_scope.
Local Open Scope Z_scope.

(** ** Definitions *)

Record LbPort := mkLbPort { lp_port : Z; lp_protocol : Z }.
Record Loadbalancer := mkLoadbalancer
  { lb_id : list Z; lb_vni : Z; lb_ip : IpAddress; lb_ports : list LbPort;
    lb_underlay_route : list Z }.

Definition lb_errors : statuses := [(["already exists"], ALREADY_EXISTS)].
Definition add_target_errors : statuses :=
  [(["unknown load balancer"; "NO_LB"], NO_LB); (["already exists"; "BACKIP_ADD"], ALREADY_EXISTS)].
Definition del_target_errors : statuses := [(["unknown load balancer"; "NO_LB"], NO_LB)].

(** The validation loop; [seen] is the set of pairs met so far. *)
Fixpoint check_ports (seen : list (Z * Z)) (ports : list LbPort) : answer unit :=
  match ports with
  | [] => Resp tt
  | p :: ports =>
      if (lp_protocol p =? 1) || (lp_protocol p =? 58) then
        Fail InvalidArgument "ICMP is not a supported LB protocol"
      else if 65535 <? lp_port p then
        Fail InvalidArgument ("port " +:+ pretty (lp_port p) +:+ " out of range")
      else if bool_decide ((lp_port p, lp_protocol p) ∈ seen) then
        Fail InvalidArgument "duplicate port/protocol combination"
      else check_ports ((lp_port p, lp_protocol p) :: seen) ports
  end.
Definition service_of (p : LbPort) : Z * Z := (wrap16 (lp_port p), wrap8 (lp_protocol p)).
Definition port_msg (x : Z * Z) : LbPort := mkLbPort x.1 x.2.
Definition lb_ip_msg (ip : LbIp) : IpAddress :=
  match ip with Ipv4 ip => v4_addr ip | Ipv6 ip => v6_addr ip end.

Section handlers.
Variable sv : Service.
Local Open Scope rpc_scope.

(** The service address and the load balancer's underlay. *)
Definition lb_address (vni : Z) (addr : IpAddress) (preferred_ul : option (list Z))
    : answer (LbIp * list Z) :=
  if is_v6_addr addr then
    abind (decode_ipv6 (ia_address addr)) (λ ipv6,
      Resp (Ipv6 ipv6, default (derive_underlay sv vni (drop 12 ipv6)) preferred_ul))
  else
    abind (decode_ipv4 (ia_address addr)) (λ ipv4,
      Resp (Ipv4 ipv4, default (derive_underlay sv vni ipv4) preferred_ul)).
Definition create_load_balancer (id : list Z) (loadbalanced_ip : option IpAddress) (vni : Z)
    (ports : list LbPort) (pul : list Z) : rpc (Reply (list Z)) :=
  control sv ;;;
  let* addr := needs loadbalanced_ip "loadbalanced_ip is required" in
  let* preferred_ul := rlift (preferred pul) in
  let* ia := rlift (lb_address vni addr preferred_ul) in
  let '(ip, lb_underlay) := ia in
  rlift (check_ports [] ports) ;;;
  attempt (create_lb id vni ip lb_underlay (service_of <$> ports)) lb_errors []
    (λ _, rret (mkReply ok (encode_ipv6_str lb_underlay))).

(** [(ip, vni, ports, underlay)] of [GetLoadBalancerResponse]. *)
Definition get_load_balancer (id : list Z)
    : rpc (Reply (option IpAddress * Z * list LbPort * list Z)) :=
  control sv ;;;
  let* lb := rgets (get_lb id) in
  match lb with
  | Some (vni, ip, lb_underlay, ports) =>
      rret (mkReply ok (Some (lb_ip_msg ip), vni, port_msg <$> ports, encode_ipv6_str lb_underlay))
  | None => rret (mkReply NOT_FOUND (None, 0, [], []))
  end.
Definition delete_load_balancer (id : list Z) : rpc (Reply unit) :=
  control sv ;;;
  attempt (delete_lb id) [] tt (deleted NOT_FOUND).
Definition list_load_balancers : rpc (Reply (list Loadbalancer)) :=
  control sv ;;;
  let* l := rgets list_lbs in
  rret (mkReply ok ((λ x,
    let '(id, (vni, ip, lb_underlay, ports)) := x in
    mkLoadbalancer id vni (lb_ip_msg ip) (port_msg <$> ports) (encode_ipv6_str lb_underlay)) <$> l)).

Definition create_load_balancer_target (id : list Z) (target_ip : option IpAddress)
    : rpc (Reply unit) :=
  control sv ;;;
  let* addr := needs target_ip "target_ip is required" in
  if is_v4_addr addr then rret (mkReply BAD_IPVER tt) else
  let* backend_underlay := rlift (decode_ipv6 (ia_address addr)) in
  attempt (add_lb_target id backend_underlay) add_target_errors tt (λ _, rret (mkReply ok tt)).
Definition list_load_balancer_targets (id : list Z) : rpc (Reply (list IpAddress)) :=
  control sv ;;;
  match id with
  | [] => let* l := rgets list_lb_targets_all in rret (mkReply ok (v6_addr <$> l))
  | _ =>
      let* lb := rgets (get_lb id) in
      match lb with
      | None => rret (mkReply NO_LB [])
      | Some _ => let* l := rgets (list_lb_targets id) in rret (mkReply ok (v6_addr <$> l))
      end
  end.
Definition delete_load_balancer_target (id : list Z) (target_ip : option IpAddress)
    : rpc (Reply unit) :=
  control sv ;;;
  let* addr := needs target_ip "target_ip is required" in
  if is_v4_addr addr then rret (mkReply BAD_IPVER tt) else
  let* backend_underlay := rlift (decode_ipv6 (ia_address addr)) in
  attempt (del_lb_target id backend_underlay) del_target_errors tt (deleted NOT_FOUND).
End handlers.
