(* ===== verification/GrpcNat.v ===== *)
(** * GrpcNat

    The gRPC handlers of VIPs, network NAT and neighbor NAT
    (xdp-dp/src/grpc.rs). *)
From stdpp Require Import strings.
From S2P Require Import Prelude Bytes Types Kernel Safe Handles NetAddr Ctl Rpc.
From S2P Require Import CtlIface CtlRoute CtlNat GrpcIface.
Local Open Scope string_scope.
Local Open Scope Z_scope.

(** ** Definitions *)

Record NatEntry := mkNatEntry
  { nt_nat_ip : option IpAddress; nt_min_port : Z; nt_max_port : Z; nt_underlay_route : list Z;
    nt_vni : Z; nt_actual_nat_ip : option IpAddress }.

Definition vip_errors : statuses :=
  [(["NO_VM"; "unknown interface"], NO_VM); (["already exists"; "SNAT_EXISTS"], SNAT_EXISTS);
   (["VNF_INSERT"; "underlay collision"], VNF_INSERT)].
Definition nat_errors : statuses :=
  [(["NO_VM"; "unknown interface"], NO_VM); (["already exists"; "SNAT_EXISTS"], SNAT_EXISTS)].
Definition neighbor_errors : statuses :=
  [(["already exists"; "ALREADY_EXISTS"], ALREADY_EXISTS)].

(** The rows of the two lists. *)
Definition local_nat_msg (row : NatRow) : NatEntry :=
  let '(_, guest_ipv4, nat_ip, port_min, port_max, vni, _) := row in
  mkNatEntry (Some (v4_addr guest_ipv4)) port_min port_max [] vni (Some (v4_addr nat_ip)).
Definition neighbor_msg (e : NeighborNatEntry) : NatEntry :=
  mkNatEntry None (ne_port_min e) (ne_port_max e) (encode_ipv6_str (ne_underlay e)) (ne_vni e)
    (Some (v4_addr (ne_nat_ip e))).
Definition row_nat_ip (row : NatRow) : list Z := row.1.1.1.1.2.
(** [filter_ip.is_none() || filter_ip == Some(ip)]. *)
Definition selected (filter_ip : option (list Z)) (ip : list Z) : bool :=
  match filter_ip with None => true | Some f => bool_decide (f = ip) end.

Section handlers.
Variable sv : Service.
Local Open Scope rpc_scope.

(** An IPv4 address is required; IPv6 is refused with a status. *)
Definition v4_only {A} (ip : option IpAddress) (name : string) (none : A)
    (k : list Z → rpc (Reply A)) : rpc (Reply A) :=
  let* addr := needs ip (name +:+ " is required") in
  if is_v6_addr addr then rret (mkReply BAD_IPVER none) else
  let* a := rlift (decode_ipv4 (ia_address addr)) in
  k a.
(** The interface must exist. *)
Definition with_iface {A} (id : list Z) (none : A) (k : rpc (Reply A)) : rpc (Reply A) :=
  let* known := rgets (known_iface id) in
  if negb known then rret (mkReply NO_VM none) else k.

Definition create_vip (interface_id : list Z) (vip_ip : option IpAddress) (pul : list Z)
    : rpc (Reply (list Z)) :=
  control sv ;;;
  v4_only vip_ip "vip_ip" [] (λ vip,
    let* preferred_ul := rlift (preferred pul) in
    attempt (CtlNat.create_vip interface_id vip preferred_ul) vip_errors []
      (λ underlay, rret (mkReply ok (encode_ipv6_str underlay)))).
Definition get_vip (interface_id : list Z) : rpc (Reply (option IpAddress * list Z)) :=
  control sv ;;;
  with_iface interface_id (None, [])
    (let* v := rgets (CtlNat.get_vip interface_id) in
     match v with
     | Some (vip, underlay) => rret (mkReply ok (Some (v4_addr vip), encode_ipv6_str underlay))
     | None => rret (mkReply SNAT_NO_DATA (None, []))
     end).
Definition delete_vip (interface_id : list Z) : rpc (Reply unit) :=
  control sv ;;;
  with_iface interface_id tt
    (attempt (CtlNat.delete_vip interface_id) [] tt (deleted SNAT_NO_DATA)).

Definition create_nat (interface_id : list Z) (nat_ip : option IpAddress) (min_port max_port : Z)
    (pul : list Z) : rpc (Reply (list Z)) :=
  control sv ;;;
  v4_only nat_ip "nat_ip" [] (λ ip,
    let* preferred_ul := rlift (preferred pul) in
    attempt (CtlNat.create_nat interface_id ip (wrap16 min_port) (wrap16 max_port) preferred_ul)
      nat_errors []
      (λ underlay, rret (mkReply ok (encode_ipv6_str underlay)))).
(** [(nat_ip, min_port, max_port, underlay_route)]. *)
Definition get_nat (interface_id : list Z) : rpc (Reply (option IpAddress * Z * Z * list Z)) :=
  control sv ;;;
  with_iface interface_id (None, 0, 0, [])
    (let* v := rgets (CtlNat.get_nat interface_id) in
     match v with
     | Some (nat_ip, min_port, max_port, underlay, _) =>
         rret (mkReply ok (Some (v4_addr nat_ip), min_port, max_port, encode_ipv6_str underlay))
     | None => rret (mkReply SNAT_NO_DATA (None, 0, 0, []))
     end).
Definition delete_nat (interface_id : list Z) : rpc (Reply unit) :=
  control sv ;;;
  with_iface interface_id tt
    (attempt (CtlNat.delete_nat interface_id) [] tt (deleted SNAT_NO_DATA)).

(** The optional filter of the lists; 0.0.0.0 lists all local NATs. *)
Definition list_local_nats (nat_ip : option IpAddress) : rpc (Reply (list NatEntry)) :=
  control sv ;;;
  let listing (filter_ip : option (list Z)) : rpc (Reply (list NatEntry)) :=
    let* rows := rgets CtlNat.list_local_nats in
    rret (mkReply ok (local_nat_msg
      <$> List.filter (λ row, selected filter_ip (row_nat_ip row)) rows)) in
  match nat_ip with
  | None => listing None
  | Some addr =>
      if is_v6_addr addr then rret (mkReply BAD_IPVER []) else
      let* ip := rlift (decode_ipv4 (ia_address addr)) in
      listing (if bool_decide (ip = replicate 4 0) then None else Some ip)
  end.

Definition create_neighbor_nat (nat_ip : option IpAddress) (vni min_port max_port : Z)
    (underlay_route : list Z) : rpc (Reply unit) :=
  control sv ;;;
  v4_only nat_ip "nat_ip" tt (λ ip,
    let* underlay := rlift (decode_ipv6 underlay_route) in
    attempt (add_neighbor_nat vni ip (wrap16 min_port) (wrap16 max_port) underlay) neighbor_errors tt
      (λ _, rret (mkReply ok tt))).
Definition delete_neighbor_nat (nat_ip : option IpAddress) (vni min_port max_port : Z)
    : rpc (Reply unit) :=
  control sv ;;;
  v4_only nat_ip "nat_ip" tt (λ ip,
    attempt (del_neighbor_nat vni ip (wrap16 min_port) (wrap16 max_port)) [] tt (deleted NOT_FOUND)).
Definition list_neighbor_nats (nat_ip : option IpAddress) : rpc (Reply (list NatEntry)) :=
  control sv ;;;
  let listing (filter_ip : option (list Z)) : rpc (Reply (list NatEntry)) :=
    let* es := rgets CtlNat.list_neighbor_nats in
    rret (mkReply ok (neighbor_msg
      <$> List.filter (λ e, selected filter_ip (ne_nat_ip e)) es)) in
  match nat_ip with
  | None => listing None
  | Some addr =>
      if is_v6_addr addr then rret (mkReply BAD_IPVER []) else
      let* ip := rlift (decode_ipv4 (ia_address addr)) in
      listing (Some ip)
  end.
End handlers.
