(* ===== verification/GrpcErrors.v ===== *)
(** * GrpcErrors

    The service's error behaviour across its handlers (xdp-dp/src/grpc.rs):
    what requests about missing objects and malformed requests answer, and
    that they change nothing. *)
From stdpp Require Import strings.
From S2P Require Import Prelude Bytes Types Kernel Safe Handles Host NetAddr Ctl Rpc.
From S2P Require Import CtlIface CtlRoute CtlFw CtlLb CtlNat.
From S2P Require Import GrpcIface GrpcFw GrpcLb GrpcNat.
Local Open Scope string_scope.
Local Open Scope Z_scope.

(** The handler answers with a status and leaves the state as it was. *)
Definition answers {A} (m : rpc (Reply A)) (st : DpStatus) (s : Inner) : Prop :=
  ∃ body, m s = (Resp (mkReply st body), s).

(** ** Lemmas *)

Section answers.
Variable (sv : Service) (s : Inner).
Hypothesis Hsv : sv_control sv = true.

Lemma answers_control {A} (m : rpc (Reply A)) st :
  answers m st s → answers (rbind (control sv) (λ _, m)) st s.
Proof. unfold answers, rbind, control. by rewrite Hsv. Qed.
Lemma answers_lift {A B} (a : answer A) x (k : A → rpc (Reply B)) st :
  a = Resp x → answers (k x) st s → answers (rbind (rlift a) k) st s.
Proof. by intros ->. Qed.
Lemma answers_gets {A B} (f : Inner → A) (k : A → rpc (Reply B)) st :
  answers (k (f s)) st s → answers (rbind (rgets f) k) st s.
Proof. done. Qed.
Lemma answers_ret {A} (a : A) st : answers (rret (mkReply st a)) st s.
Proof. by eexists. Qed.
Lemma answers_attempt {A B} (m : ctl A) msg table (none : B) k st :
  m s = (Bail msg, s) → status_of table msg = Some st → answers (attempt m table none k) st s.
Proof. intros E Es. unfold answers, attempt. rewrite E, Es. by eexists. Qed.

Lemma answers_iface {A} id (none : A) k : in_by_id s !! id = None → answers (with_iface id none k) NO_VM s.
Proof.
  intros E. unfold with_iface. apply answers_gets. unfold known_iface, CtlIface.get_interface.
  rewrite E. apply answers_ret.
Qed.
Lemma answers_prefix {A} pfx a (k : Prefix * IpAddress → rpc (Reply A)) st :
  px_ip pfx = Some a → answers (k (pfx, a)) st s → answers (rbind (prefix_of (Some pfx)) k) st s.
Proof. intros Ha. unfold answers, rbind, prefix_of, needs, rret. cbn. by rewrite Ha. Qed.
Lemma answers_v4 {A} a name ip (none : A) k st :
  is_v6_addr a = false → decode_ipv4 (ia_address a) = Resp ip → answers (k ip) st s →
  answers (v4_only (Some a) name none k) st s.
Proof. intros Ha Hd Hk. unfold v4_only, rbind, needs, rret. rewrite Ha. unfold rlift. by rewrite Hd. Qed.
End answers.

(** The control-plane operations on an interface that does not exist. *)
Section missing.
Variable (s : Inner) (id : list Z).
Hypothesis Hid : in_by_id s !! id = None.

Lemma missing_id {A} (k : IfaceRecord → ctl A) :
  cbind (cgets in_by_id) (λ by_id, cbind (ok_or (by_id !! id) "NO_VM: unknown interface") k) s
  = (Bail "NO_VM: unknown interface", s).
Proof. unfold cbind, cgets, ok_or, bail. by rewrite Hid. Qed.
Lemma missing_if {A} (k : gmap (list Z) IfaceRecord → ctl A) :
  cbind (cgets in_by_id) (λ by_id, cbind
    (bail_if (negb (bool_decide (is_Some (by_id !! id)))) "NO_VM: unknown interface") (λ _, k by_id)) s
  = (Bail "NO_VM: unknown interface", s).
Proof.
  unfold cbind, cgets, bail_if, bail. rewrite Hid. rewrite bool_decide_false; [done|]. by intros [? ?].
Qed.
End missing.

(** ** Properties *)

(** An address field that decodes for the family it announces. *)
Definition addr_ok (a : IpAddress) : Prop :=
  if ia_ipver a =? IPV6 then ∃ ip, decode_ipv6 (ia_address a) = Resp ip
  else ∃ ip, decode_ipv4 (ia_address a) = Resp ip.

(** Takes a handler apart up to the operation it attempts. *)
Ltac answer_step :=
  first
    [ apply answers_control; [assumption|]
    | apply answers_iface; assumption
    | eapply answers_prefix; [eassumption|]
    | eapply answers_v4; [eassumption..|]
    | eapply answers_lift; [eassumption|]
    | eapply answers_attempt; [first [by apply missing_id|by apply missing_if]|reflexivity] ].

(** C39.  A request that names an interface the service does not have is
    answered with NO_VM (NOT_FOUND for the interface itself), whichever of the
    handlers it goes to, and changes nothing. *)
Theorem unknown_interface_answers `{KL : KernelLaws} (sv : Service) (s : Inner)
    (id : list Z) :
  sv_control sv = true → ifaces_ok s → in_by_id s !! id = None → id ≠ [] →
  (answers (GrpcIface.get_interface sv id) NOT_FOUND s ∧ answers (delete_interface sv id) NOT_FOUND s ∧
   answers (list_prefixes sv id) NO_VM s ∧ answers (list_load_balancer_prefixes sv id) NO_VM s ∧
   answers (GrpcNat.get_vip sv id) NO_VM s ∧ answers (GrpcNat.delete_vip sv id) NO_VM s ∧
   answers (GrpcNat.get_nat sv id) NO_VM s ∧ answers (GrpcNat.delete_nat sv id) NO_VM s ∧
   answers (list_firewall_rules sv id) NO_VM s ∧
   ∀ rid, answers (get_firewall_rule sv id rid) NO_VM s ∧ answers (delete_firewall_rule sv id rid) NO_VM s) ∧
  (∀ pfx a pul u, px_ip pfx = Some a → addr_ok a → preferred pul = Resp u →
   answers (create_prefix sv id (Some pfx) pul) NO_VM s ∧ answers (delete_prefix sv id (Some pfx)) NO_VM s ∧
   answers (create_load_balancer_prefix sv id (Some pfx) pul) NO_VM s ∧
   answers (delete_load_balancer_prefix sv id (Some pfx)) NO_VM s) ∧
  (∀ a ip pul u pmin pmax, is_v6_addr a = false → decode_ipv4 (ia_address a) = Resp ip →
   preferred pul = Resp u →
   answers (GrpcNat.create_vip sv id (Some a) pul) NO_VM s ∧
   answers (GrpcNat.create_nat sv id (Some a) pmin pmax pul) NO_VM s) ∧
  (∀ nanos pb r, decode_fw_rule pb = Resp r → pb_action pb ≠ DROP →
   answers (create_firewall_rule sv nanos id (Some pb)) NO_VM s).
Proof.
  intros Hsv Hok Hid Hne.
  assert (in_by_ifindex s !! id = None) as Htap.
  { destruct (in_by_ifindex s !! id) as [t|] eqn:E; [|done].
    pose proof (proj1 (io_taps s Hok id) (mk_is_Some _ _ E)) as [r Hr]. congruence. }
  assert (known_iface id s = false) as Hk by (unfold known_iface, CtlIface.get_interface; by rewrite Hid).
  split; [|split; [|split]].
  - unfold GrpcIface.get_interface, delete_interface, list_prefixes, list_load_balancer_prefixes,
      listed_prefixes, list_firewall_rules, get_firewall_rule, delete_firewall_rule,
      GrpcNat.get_vip, GrpcNat.delete_vip, GrpcNat.get_nat, GrpcNat.delete_nat.
    destruct id as [|x id]; [done|]. split_and!; [| | | | | | | | |intros rid; split];
      repeat answer_step; try (apply answers_gets; rewrite Hk; apply answers_ret).
    + apply answers_gets. unfold CtlIface.get_interface. rewrite Hid. apply answers_ret.
    + unfold answers, attempt, detach_interface, cbind, cgets. rewrite Hid. by eexists.
  - intros pfx a pul u Hpfx Ha Hpul. unfold create_prefix, delete_prefix, create_load_balancer_prefix,
      delete_load_balancer_prefix, prefix_of.
    unfold addr_ok in Ha. destruct (ia_ipver a =? IPV6) eqn:E6; destruct Ha as [ip Hip];
      split_and!; repeat answer_step; rewrite ?E6; repeat answer_step.
  - intros a ip pul u pmin pmax Ha Hip Hpul. unfold GrpcNat.create_vip, GrpcNat.create_nat.
    split; repeat answer_step.
  - intros nanos pb r Er Hd. unfold create_firewall_rule. answer_step.
    unfold answers, rbind, needs, rret. destruct (pb_action pb =? DROP) eqn:E; [by zbool|].
    unfold rlift. rewrite Er. unfold attempt, add_fw_rule, cbind, cgets, ok_or, bail. rewrite Htap.
    by eexists.
Qed.

Lemma unknown_interface_answers_witness :
  answers (delete_interface demo_service [9]) NOT_FOUND demo_inner ∧
  answers (GrpcNat.create_vip demo_service [9] (Some (mkIpAddress IPV4 [192; 0; 2; 1])) []) NO_VM demo_inner.
Proof.
  destruct (unknown_interface_answers demo_service demo_inner [9]) as ((_ & Hd & _) & _ & Hv & _).
  - reflexivity.
  - apply demo_inner_ok.
  - vm_compute. reflexivity.
  - done.
  - split; [exact Hd|]. apply (Hv (mkIpAddress IPV4 [192; 0; 2; 1]) [192; 0; 2; 1] [] None 0 0); reflexivity.
Defined.

(** ** Observations *)

(** A colliding preferred underlay is a status for [create_vip] and an
    internal error for [create_nat]: only the first handler knows the
    message. *)
Lemma nat_collision_is_internal :
  status_of vip_errors "VNF_INSERT: preferred underlay collision" = Some VNF_INSERT ∧
  status_of nat_errors "VNF_INSERT: preferred underlay collision" = None.
Proof. split; reflexivity. Qed.

(** Sixteen raw bytes that are text with a colon in it are not taken as an
    address. *)
Lemma raw_ipv6_with_colon :
  ∃ msg, decode_ipv6 (replicate 15 65 ++ [58])%list = Fail InvalidArgument msg.
Proof. vm_compute. by eexists. Qed.
