(* ===== verification/Bringup.v ===== *)
(** * Bringup

    The bringup and tc-bringup commands (xdp-dp/src/main.rs): a datapath
    configured from the command line instead of over gRPC.  Each flag is
    parsed and programmed in turn; an error ends the command, and what was
    programmed before it stays. *)
From Stdlib Require Import Ascii.
From stdpp Require Import strings.
From S2P Require Import Prelude Bytes Types Kernel Safe Handles Firewall Maglev Host NetAddr.
From S2P Require Import CtlIface CtlFw Guest Ingress Skb Tc.
Local Open Scope string_scope.
Local Open Scope Z_scope.

(** ** Definitions: programs over the maps *)

(** A command runs over the maps; [Err] is an error it reports, a fault is a
    panic. *)
Definition setup (A : Type) : Type := prog Maps (result A).
Definition sok {A} (a : A) : setup A := pret (Ok a).
(** [expr?] for an expression without effects. *)
Definition ask {A} (o : option A) : setup A :=
  pret (match o with Some a => Ok a | None => Err end).
Definition panic {A} : setup A := λ _, None.
(** A map operation with [?], and one whose result is dropped. *)
Definition put (f : Maps → option Maps) : setup unit :=
  λ m, match f m with Some m' => Some (Ok tt, m') | None => Some (Err, m) end.
Definition put_ (f : Maps → option Maps) : setup unit :=
  λ m, Some (Ok tt, default m (f m)).
(** [for x in l { .. }] over variables [acc]. *)
Fixpoint each {A S} (f : A → S → setup S) (l : list A) (acc : S) : setup S :=
  match l with
  | [] => sok acc
  | x :: l => rbind (f x acc) (λ acc, each f l acc)
  end.
(** A loop that keeps no variables. *)
Definition each_ {A} (f : A → setup unit) (l : list A) : setup unit :=
  each (λ x _, f x) l tt.

(** ** Definitions: texts *)

Definition ipv4 (s : string) : option (list Z) := parse_ipv4 (bytes_of s).
Definition ipv6 (s : string) : option (list Z) := parse_ipv6 (bytes_of s).
(** [s.parse()] at the unsigned types. *)
Definition parse_u8 (s : string) : option Z := from_str_radix 10 255 s.
Definition parse_u16 (s : string) : option Z := from_str_radix 10 65535 s.
Definition parse_u64 (s : string) : option Z := from_str_radix 10 (2 ^ 64 - 1) s.

(** [split_once]: at the first separator. *)
Fixpoint split_once (sep : ascii) (s : string) : option (string * string) :=
  match s with
  | "" => None
  | String c r =>
      if Ascii.eqb c sep then Some ("", r)
      else '(a, b) ← split_once sep r; Some (String c a, b)
  end.
(** [rfind]: the text before and after the last separator. *)
Fixpoint rsplit_once (sep : ascii) (s : string) : option (string * string) :=
  match s with
  | "" => None
  | String c r =>
      match rsplit_once sep r with
      | Some (a, b) => Some (String c a, b)
      | None => if Ascii.eqb c sep then Some ("", r) else None
      end
  end.
(** [splitn(n, sep)]: at most [n] pieces. *)
Fixpoint splitn (n : nat) (sep : ascii) (s : string) : list string :=
  match n with
  | O => []
  | S O => [s]
  | S n => match split_once sep s with
           | Some (a, r) => a :: splitn n sep r
           | None => [s]
           end
  end.
(** [v.join(":")]. *)
Fixpoint join_colon (l : list string) : string :=
  match l with
  | [] => ""
  | [s] => s
  | s :: l => s +:+ ":" +:+ join_colon l
  end.

(** ** Definitions: flags *)

(** A prefix with an optional length. *)
Definition parse_prefix (host_len : Z) (s : string) : option (string * Z) :=
  match split_once "/" s with
  | Some (ip, l) => l ← parse_u32 l; Some (ip, l)
  | None => Some (s, host_len)
  end.
(** [--remote], [--remote6]. *)
Definition parse_remote (addr : string → option (list Z)) (host_len : Z) (s : string)
    : option (list Z * Z * list Z * Z) :=
  match split "=" s with
  | [dst; nexthop; vni] =>
      '(ip, plen) ← parse_prefix host_len dst;
      ip ← addr ip; nh ← ipv6 nexthop; vni ← parse_u32 vni;
      Some (ip, plen, nh, vni)
  | _ => None
  end.
(** [parse_lb_spec]. *)
Definition lb_spec : Type := list Z * Z * Z * list Z.
Definition parse_lb_spec (spec : string) : option lb_spec :=
  match split ":" spec with
  | ip :: port :: proto :: rest =>
      ip ← ipv4 ip; port ← parse_u16 port; proto ← parse_u8 proto;
      lb_underlay ← ipv6 (trim (join_colon rest));
      Some (ip, port, proto, lb_underlay)
  | _ => None
  end.
(** [<ip>:<port_min>:<port_max>], followed by anything. *)
Definition parse_ports (s : string) : option (list Z * Z * Z) :=
  match split ":" s with
  | ip :: port_min :: port_max :: _ =>
      ip ← ipv4 ip; port_min ← parse_u16 port_min; port_max ← parse_u16 port_max;
      Some (ip, port_min, port_max)
  | _ => None
  end.
(** [parse_cidr]: address and mask. *)
Definition cidr_mask (len : Z) : list Z :=
  to_be32 (if len =? 0 then 0 else wrap32 (Z.shiftl 0xffffffff (32 - len))).
Definition parse_cidr (s : string) : option (list Z * list Z) :=
  '(ip, len) ← split_once "/" s;
  ip ← ipv4 ip; len ← parse_u32 len;
  if len <=? 32 then Some (ip, cidr_mask len) else None.

Definition parse_dir (s : string) : option Z :=
  if bool_decide (s = "in") then Some FW_DIR_INGRESS
  else if bool_decide (s = "eg") then Some FW_DIR_EGRESS else None.
Definition parse_action (s : string) : option Z :=
  if bool_decide (s = "accept") then Some FW_ACTION_ACCEPT
  else if bool_decide (s = "drop") then Some FW_ACTION_DROP else None.
Definition parse_proto (s : string) : option Z :=
  if bool_decide (s = "any") then Some 0
  else if bool_decide (s = "icmp") then Some 1
  else if bool_decide (s = "tcp") then Some 6
  else if bool_decide (s = "udp") then Some 17 else None.
Definition parse_dports (s : string) : option (Z * Z) :=
  if bool_decide (s = "*") then Some (0, 65535)
  else p ← parse_u16 s; Some (p, p).
(** [--fw-rule]: the interface and the rule. *)
Definition parse_fw_rule `{Host} (spec : string) : option (Z * FwRule) :=
  match split ":" spec with
  | [ifname; dir; action; proto; src; dst; dport] =>
      i ← ifindex ifname;
      direction ← parse_dir dir; action ← parse_action action; proto ← parse_proto proto;
      '(src_ip, src_mask) ← parse_cidr src;
      '(dst_ip, dst_mask) ← parse_cidr dst;
      '(dst_port_min, dst_port_max) ← parse_dports dport;
      Some (i, mkFwRule src_ip src_mask dst_ip dst_mask 0 65535 dst_port_min dst_port_max
                 0xffff 0xffff proto action direction 1)
  | _ => None
  end.

Section commands.
Context `{Kernel} `{Host}.
Local Open Scope dp_scope.

(** ** Definitions: guests and routes *)

(** The columns of [--guest] that [--guest6] looks up by interface name. *)
Record GuestV4 := mkGuestV4
  { g4_ipv4 : list Z; g4_mac : list Z; g4_underlay : list Z; g4_vni : Z }.

Definition bring_guest (gw : list Z) (g : string) (guest_v4 : gmap string GuestV4)
    : setup (gmap string GuestV4) :=
  match split "=" g with
  | [ifname; ip; mac; ul; vni] =>
      let? ip := ask (ipv4 ip) in
      let? guest_mac := ask (parse_mac mac) in
      let? underlay := ask (ipv6 ul) in
      let? vni := ask (parse_u32 vni) in
      let? tap := ask (ifindex ifname) in
      let? _ := put (PortMetaMap_upsert tap
        (mkPortMeta vni ip gw guest_mac underlay (replicate 16 0) (replicate 16 0))) in
      let? _ := put (Interfaces_upsert (mkIfaceKey vni ip)
        (mkIfaceValue tap 1 underlay guest_mac)) in
      let? _ := put (Underlay_upsert underlay (mkUnderlayValue vni tap guest_mac)) in
      sok (<[ifname := mkGuestV4 ip guest_mac underlay vni]> guest_v4)
  | _ => pret Err
  end.
Definition bring_guest6 (gw gw6 : list Z) (guest_v4 : gmap string GuestV4) (g6 : string)
    : setup unit :=
  match split "=" g6 with
  | [ifname; overlay; ul; vni] =>
      let? overlay_ipv6 := ask (ipv6 overlay) in
      let? underlay_ipv6 := ask (ipv6 ul) in
      let? vni := ask (parse_u32 vni) in
      let? tap := ask (ifindex ifname) in
      let v4 := default (mkGuestV4 (replicate 4 0) (replicate 6 0) (replicate 16 0) vni)
                  (guest_v4 !! ifname) in
      let? _ := put (PortMetaMap_upsert tap
        (mkPortMeta vni (g4_ipv4 v4) gw (g4_mac v4) underlay_ipv6 gw6 overlay_ipv6)) in
      if bool_decide (is_Some (guest_v4 !! ifname)) then sok tt
      else put (Underlay_upsert underlay_ipv6 (mkUnderlayValue vni tap (g4_mac v4)))
  | _ => pret Err
  end.
Definition bring_remote6 (r6 : string) : setup unit :=
  let? r := ask (parse_remote ipv6 128 r6) in
  let '(ip, plen, nh, vni) := r in
  put (Routes6_upsert vni ip plen (mkRouteValue vni nh 0)).
Definition bring_remote (external_set : list (list Z)) (r : string) : setup unit :=
  let? r := ask (parse_remote ipv4 32 r) in
  let '(ip, plen, nh, vni) := r in
  put (Routes_upsert vni ip plen (mkRouteValue vni nh (if bool_decide (ip ∈ external_set) then 1 else 0))).
Definition bring_vip (v : string) : setup unit :=
  let? gv := ask (split_once "=" v) in
  let? g := ask (ipv4 gv.1) in
  let? vip := ask (ipv4 gv.2) in
  let? _ := put (Vips_upsert (mkVipKey 0 g) vip) in
  put (Vips_upsert (mkVipKey 0 vip) g).

(** ** Definitions: load balancers *)

(** [table_ids], [backends] and [next_table_id]. *)
Record LbArgs := mkLbArgs
  { la_tables : gmap lb_spec Z; la_backends : gmap Z (list (list Z)); la_next : Z }.

Definition bring_lb (lb : string) (s : LbArgs) : setup LbArgs :=
  let? spec := ask (parse_lb_spec lb) in
  let '(ip, port, proto, lb_underlay) := spec in
  let tid := la_next s in
  let s := mkLbArgs (<[spec := tid]> (la_tables s)) (<[tid := []]> (la_backends s)) (tid + 1) in
  let? _ := put (Lb_upsert (mkLbKey 0 ip port proto) (mkLbValue tid (Z.of_nat TABLE_SIZE))) in
  let? _ := put (Underlay_upsert lb_underlay (mkUnderlayValue 0 0 (replicate 6 0))) in
  sok s.
Definition bring_lb_target (t : string) (s : LbArgs) : setup LbArgs :=
  let? st := ask (split_once "=" t) in
  let? spec := ask (parse_lb_spec st.1) in
  let? backend := ask (ipv6 st.2) in
  let? tid := ask (la_tables s !! spec) in
  match la_backends s !! tid with
  | Some bes => sok (mkLbArgs (la_tables s) (<[tid := (bes ++ [backend])%list]> (la_backends s)) (la_next s))
  | None => panic
  end.
(** The slots of a table; [bes[bi as usize]] panics out of range. *)
Definition bring_slot (tid : Z) (bes : list (list Z)) (x : nat * Z) : setup unit :=
  match bes !! Z.to_nat x.2 with
  | Some b => put (Maglev_upsert (mkMaglevKey tid (Z.of_nat x.1)) b)
  | None => panic
  end.
Definition bring_table (x : Z * list (list Z)) : setup unit :=
  if (length x.2 =? 0)%nat then sok tt else
  match build x.2 with
  | Some table => each_ (bring_slot x.1 x.2) (imap pair table)
  | None => panic
  end.

(** ** Definitions: NAT, firewall and rates *)

Definition bring_nat (n : string) : setup unit :=
  let? gc := ask (split_once "=" n) in
  let? gip := ask (ipv4 gc.1) in
  let? cfg := ask (parse_ports gc.2) in
  let '(nat_ip, port_min, port_max) := cfg in
  let? _ := put (Nat_upsert (mkNatKey 0 gip) (mkNatValue nat_ip port_min port_max)) in
  put_ (NatIps_set 0 nat_ip).

(** [fw_slots] and [fw_counts]: the next slot of an interface, and its rules
    per direction. *)
Record FwArgs := mkFwArgs { fa_slots : gmap Z Z; fa_counts : gmap Z (Z * Z) }.
Definition bring_fw_rule (spec : string) (s : FwArgs) : setup FwArgs :=
  let? r := ask (parse_fw_rule spec) in
  let '(i, rule) := r in
  let slot := default 0 (fa_slots s !! i) in
  if negb (slot <? Z.of_nat FW_MAX_RULES) then pret Err else
  let? _ := put (FwRules_upsert (mkFwRuleKey i slot) rule) in
  let c := default (0, 0) (fa_counts s !! i) in
  let c := if fr_direction rule =? FW_DIR_EGRESS then (c.1, c.2 + 1) else (c.1 + 1, c.2) in
  sok (mkFwArgs (<[i := slot + 1]> (fa_slots s)) (<[i := c]> (fa_counts s))).
Definition bring_fw_meta (x : Z * (Z * Z)) : setup unit :=
  put (FwMetaMap_upsert x.1 (mkFwMeta x.2.1 x.2.2)).
Definition bring_firewall (enforce : bool) (fw_rules : list string) : setup unit :=
  let? _ := put (FwConfig_set (if enforce then 1 else 0)) in
  let? s := each bring_fw_rule fw_rules (mkFwArgs ∅ ∅) in
  each_ bring_fw_meta (map_to_list (fa_counts s)).

Definition bring_marker (spec : string) : setup unit :=
  let? uv := ask (rsplit_once ":" spec) in
  let? vni := ask (parse_u32 uv.2) in
  let? ul := ask (ipv6 uv.1) in
  put (Underlay_upsert ul (mkUnderlayValue vni 0 (replicate 6 0))).
Definition bring_neigh (spec : string) (idx : Z) : setup Z :=
  if negb (idx <? Z.of_nat NB_MAX_ENTRIES) then pret Err else
  match splitn 3 "@" spec with
  | [head; ul; vni] =>
      let? vni := ask (parse_u32 vni) in
      let? underlay := ask (ipv6 ul) in
      let? cfg := ask (parse_ports head) in
      let '(nat_ip, port_min, port_max) := cfg in
      let? _ := put (NeighborNat_upsert idx
        (mkNeighborNatEntry underlay nat_ip vni port_min port_max 1)) in
      sok (idx + 1)
  | _ => pret Err
  end.
Definition bring_meter (spec : string) : setup unit :=
  let? ir := ask (split_once "=" spec) in
  let? tp := ask (split_once ":" ir.2) in
  let? total_mbps := ask (parse_u64 tp.1) in
  let? public_mbps := ask (parse_u64 tp.2) in
  let? tap := ask (ifindex ir.1) in
  put (Meter_upsert tap (meter_state total_mbps public_mbps)).
Definition bring_dhcp (mtu : Z) (dns4 dns6 : list string) : setup unit :=
  let dns4 := omap ipv4 dns4 in
  let dns6 := omap ipv6 dns6 in
  put (DhcpConfigMap_set (mkDhcpConfig (wrap16 mtu) (dns_len dns4) (dns_len dns6)
    (dns_slots (replicate 4 0) dns4) (dns_slots (replicate 16 0) dns6))).

(** ** Definitions: the commands *)

Definition bring_local (uplink gateway_mac local_underlay : string) : setup unit :=
  let? i := ask (ifindex uplink) in
  let? mac := ask (mac_of uplink) in
  let? gm := ask (parse_mac gateway_mac) in
  let? ul := ask (ipv6 local_underlay) in
  put (LocalMap_set (mkLocal i mac gm ul)).
Definition gateway6_of (s : option string) : option (list Z) :=
  match s with Some s => ipv6 s | None => Some (replicate 16 0) end.

Record BringupArgs := mkBringupArgs
  { ba_uplink : string; ba_local_underlay : string; ba_gateway : string;
    ba_gateway_mac : string; ba_guests : list string; ba_remotes : list string;
    ba_vips : list string; ba_lbs : list string; ba_lb_targets : list string;
    ba_nats : list string; ba_externals : list string; ba_fw_rules : list string;
    ba_firewall_enforce : bool; ba_neigh_nats : list string; ba_underlay_markers : list string;
    ba_meters : list string; ba_gateway6 : option string; ba_guests6 : list string;
    ba_remotes6 : list string; ba_dhcp_mtu : option Z; ba_dhcp_dns : list string;
    ba_dhcpv6_dns : list string }.

(** Guests, routes, VIPs, load balancers and NAT. *)
Definition bring_forwarding (a : BringupArgs) : setup unit :=
  let? _ := bring_local (ba_uplink a) (ba_gateway_mac a) (ba_local_underlay a) in
  let? gw := ask (ipv4 (ba_gateway a)) in
  let? guest_v4 := each (bring_guest gw) (ba_guests a) ∅ in
  let? gw6 := ask (gateway6_of (ba_gateway6 a)) in
  let? _ := each_ (bring_guest6 gw gw6 guest_v4) (ba_guests6 a) in
  let? _ := each_ bring_remote6 (ba_remotes6 a) in
  let? external_set := ask (mapM ipv4 (ba_externals a)) in
  let? _ := each_ (bring_remote external_set) (ba_remotes a) in
  let? _ := each_ bring_vip (ba_vips a) in
  let? s := each bring_lb (ba_lbs a) (mkLbArgs ∅ ∅ 1) in
  let? s := each bring_lb_target (ba_lb_targets a) s in
  let? _ := each_ bring_table (map_to_list (la_backends s)) in
  each_ bring_nat (ba_nats a).
(** What follows the firewall. *)
Definition bring_services (a : BringupArgs) : setup unit :=
  let? _ := each_ bring_marker (ba_underlay_markers a) in
  let? n := each bring_neigh (ba_neigh_nats a) 0 in
  let? _ := put (NeighborNatCount_set n) in
  let? _ := each_ bring_meter (ba_meters a) in
  bring_dhcp (default 1500 (ba_dhcp_mtu a)) (ba_dhcp_dns a) (ba_dhcpv6_dns a).
(** The second pass of [Cmd::Bringup]: all maps; the first loads the programs
    and attaches them. *)
Definition bringup (a : BringupArgs) : setup unit :=
  let? _ := bring_forwarding a in
  let? _ := bring_firewall (ba_firewall_enforce a) (ba_fw_rules a) in
  bring_services a.

Record TcBringupArgs := mkTcBringupArgs
  { ta_tap : string; ta_guest_ipv4 : string; ta_gateway_ipv4 : string; ta_gateway6 : string;
    ta_guest_mac : string; ta_gateway_mac : string; ta_dhcp_mtu : Z; ta_dhcp_dns : list string;
    ta_uplink : option string; ta_local_underlay : string; ta_guest_underlay : string;
    ta_remotes : list string; ta_guest6 : option string; ta_remotes6 : list string }.

(** [--remote] of tc-bringup: host routes only. *)
Definition tc_bring_remote (r : string) : setup unit :=
  match split "=" r with
  | [dst; nexthop; vni] =>
      let? ip := ask (ipv4 dst) in
      let? nh := ask (ipv6 nexthop) in
      let? vni := ask (parse_u32 vni) in
      put (Routes_upsert vni ip 32 (mkRouteValue vni nh 0))
  | _ => pret Err
  end.
Definition tc_bring_dhcp (mtu : Z) (dns4 : list string) : setup unit :=
  let dns4 := omap ipv4 dns4 in
  put (DhcpConfigMap_set (mkDhcpConfig (wrap16 mtu) (dns_len dns4) 0
    (dns_slots (replicate 4 0) dns4) (replicate DHCP_MAX_DNS (replicate 16 0)))).
(** [Cmd::TcBringup], after and between the loader's steps. *)
Definition tc_bringup (a : TcBringupArgs) : setup unit :=
  let? tap_ifindex := ask (ifindex (ta_tap a)) in
  let? guest_mac := ask (parse_mac (ta_guest_mac a)) in
  let? guest_underlay := ask (ipv6 (ta_guest_underlay a)) in
  let? guest_ipv6 := ask (gateway6_of (ta_guest6 a)) in
  let? guest_ipv4 := ask (ipv4 (ta_guest_ipv4 a)) in
  let? gateway_ipv4 := ask (ipv4 (ta_gateway_ipv4 a)) in
  let? gateway_ipv6 := ask (ipv6 (ta_gateway6 a)) in
  let? _ := put (PortMetaMap_upsert tap_ifindex
    (mkPortMeta 100 guest_ipv4 gateway_ipv4 guest_mac guest_underlay gateway_ipv6 guest_ipv6)) in
  let? _ := match ta_uplink a with
            | Some uplink => bring_local uplink (ta_gateway_mac a) (ta_local_underlay a)
            | None => sok tt
            end in
  let? _ := put (Underlay_upsert guest_underlay (mkUnderlayValue 100 tap_ifindex guest_mac)) in
  let? _ := each_ tc_bring_remote (ta_remotes a) in
  let? _ := each_ bring_remote6 (ta_remotes6 a) in
  tc_bring_dhcp (ta_dhcp_mtu a) (ta_dhcp_dns a).
End commands.

(** ** Lemmas: rules

    [sets P m φ]: from maps that satisfy [P] the command [m] does not panic,
    keeps [P] whether it succeeds or not, and its result satisfies [φ]. *)
Section rules.
Context (P : Maps → Prop).

Definition sets {A} (m : setup A) (φ : A → Prop) : Prop :=
  ∀ s, P s → ∃ r s', m s = Some (r, s') ∧ P s' ∧ ∀ a, r = Ok a → φ a.
(** An update that keeps [P]. *)
Definition keeps_map (f : Maps → option Maps) : Prop := ∀ m m', P m → f m = Some m' → P m'.

Lemma sets_ok {A} (a : A) (φ : A → Prop) : φ a → sets (sok a) φ.
Proof. intros Ha s Hs. exists (Ok a), s. split; [done|]. split; [done|]. by intros b [= <-]. Qed.
Lemma sets_err {A} (φ : A → Prop) : sets (pret Err) φ.
Proof. intros s Hs. by exists Err, s. Qed.
Lemma sets_ask {A} (o : option A) (φ : A → Prop) : (∀ a, o = Some a → φ a) → sets (ask o) φ.
Proof. intros Ho. destruct o as [a|]; [by apply sets_ok, Ho|apply sets_err]. Qed.
Lemma sets_put f : keeps_map f → sets (put f) anything.
Proof.
  intros Hf s Hs. unfold put. destruct (f s) as [m'|] eqn:E; eexists _, _; split; try done.
  split; [by eapply Hf|done].
Qed.
Lemma sets_put_ f : keeps_map f → sets (put_ f) anything.
Proof.
  intros Hf s Hs. unfold put_. eexists _, _. split; [done|]. split; [|done].
  destruct (f s) as [m'|] eqn:E; [by eapply Hf|done].
Qed.
Lemma sets_bind {A B} (m : setup A) φ (k : A → setup B) ψ :
  sets m φ → (∀ a, φ a → sets (k a) ψ) → sets (rbind m k) ψ.
Proof.
  intros Hm Hk s Hs. destruct (Hm s Hs) as (r & s1 & E & H1 & Hr).
  unfold rbind, pbind. rewrite E. destruct r as [a|]; [by apply Hk; [apply Hr|]|].
  exists Err, s1. by split.
Qed.
(** [let? x := ask o in ..]. *)
Lemma sets_let {A B} (o : option A) (k : A → setup B) ψ :
  (∀ a, o = Some a → sets (k a) ψ) → sets (rbind (ask o) k) ψ.
Proof. intros Hk. eapply sets_bind; [apply sets_ask; exact Hk|]. by intros a Ha. Qed.
Lemma sets_put_then {B} f (k : unit → setup B) ψ :
  keeps_map f → sets (k tt) ψ → sets (rbind (put f) k) ψ.
Proof. intros Hf Hk. eapply sets_bind; [by apply sets_put|]. by intros [] _. Qed.
Lemma sets_each {A S} (f : A → S → setup S) l (I : S → Prop) acc :
  (∀ x acc, x ∈ l → I acc → sets (f x acc) I) → I acc → sets (each f l acc) I.
Proof.
  revert acc. induction l as [|x l IH]; intros acc Hf Hi; cbn [each]; [by apply sets_ok|].
  eapply sets_bind; [apply Hf; [by left|done]|]. intros acc' Hi'. apply IH; [|done].
  intros y b Hy. apply Hf. by right.
Qed.
Lemma sets_each_ {A} (f : A → setup unit) l :
  (∀ x, x ∈ l → sets (f x) anything) → sets (each_ f l) anything.
Proof. intros Hf. apply sets_each; [|done]. intros x acc Hx _. by apply Hf. Qed.
Lemma sets_each_then {A B} (f : A → setup unit) l (k : unit → setup B) ψ :
  (∀ x, x ∈ l → sets (f x) anything) → sets (k tt) ψ → sets (rbind (each_ f l) k) ψ.
Proof. intros Hf Hk. eapply sets_bind; [by apply sets_each_|]. by intros [] _. Qed.
End rules.

(** The maps the firewall evaluates, and the other flags leave alone. *)
Definition fw_view (m : Maps) := (m_fw_config m, m_fw_rules m, m_fw_meta m).
Definition framed (c : option Z * gmap FwRuleKey FwRule * gmap Z FwMeta) (m : Maps) : Prop :=
  shaped m ∧ fw_view m = c.
Lemma framed_put c f :
  keeps_shape f → (∀ m m', f m = Some m' → fw_view m' = fw_view m) → keeps_map (framed c) f.
Proof. intros Hf Hv m m' [Hs Hc] E. split; [by eapply Hf|]. by rewrite (Hv m m'). Qed.

(** An update of another map. *)
Ltac frame_put :=
  apply framed_put;
    [ auto with dp_shape
    | let E := fresh in
      intros ? ? E;
      first [ apply on_insert_Some in E as -> | apply on_map_Some in E as (? & _ & ->)
            | injection E as <- ]; reflexivity ].
(** Follows a command: parses, then updates. *)
Ltac bring_go :=
  repeat first
    [ progress cbv beta
    | apply sets_err
    | apply sets_let; intros ? ?
    | apply sets_put_then; [frame_put|]
    | apply sets_put; frame_put
    | apply sets_ok; try exact I
    | match goal with |- sets _ (match ?x with _ => _ end) _ => destruct x eqn:? end ].

(** What the texts parse to. *)
Lemma ipv4_length s a : ipv4 s = Some a → length a = 4%nat.
Proof. apply parse_ipv4_length. Qed.
Lemma ipv6_length s a : ipv6 s = Some a → length a = 16%nat.
Proof. apply parse_ipv6_length. Qed.
Lemma parse_mac_length s a : parse_mac s = Some a → length a = 6%nat.
Proof. by intros [Hl _]%parse_mac_arr. Qed.
Lemma mac_of_length `{Host} s a : mac_of s = Some a → length a = 6%nat.
Proof. by intros [Hl _]%mac_of_arr. Qed.
Lemma gateway6_length s a : gateway6_of s = Some a → length a = 16%nat.
Proof. destruct s; [apply ipv6_length|]. by intros [= <-]. Qed.
Lemma parse_remote_length addr n s ip plen nh vni :
  parse_remote addr n s = Some (ip, plen, nh, vni) → length nh = 16%nat.
Proof.
  unfold parse_remote. destruct (split "=" s) as [|a [|b [|c [|]]]]; try done. intros E.
  apply bind_Some in E as ([x y] & _ & E). apply bind_Some in E as (? & _ & E).
  apply bind_Some in E as (? & E6 & E). apply bind_Some in E as (? & _ & E).
  injection E as <- <- <- <-. by eapply ipv6_length.
Qed.
Lemma parse_ports_length s ip a b : parse_ports s = Some (ip, a, b) → length ip = 4%nat.
Proof.
  unfold parse_ports. destruct (split ":" s) as [|x [|y [|z l]]]; try done. intros E.
  apply bind_Some in E as (? & E4 & E). apply bind_Some in E as (? & _ & E).
  apply bind_Some in E as (? & _ & E). injection E as <- <- <-. by eapply ipv4_length.
Qed.
#[export] Hint Resolve ipv4_length ipv6_length parse_mac_length mac_of_length gateway6_length
  parse_remote_length parse_ports_length : dp_shape.

Section frames.
Context `{KL : KernelLaws} `{Host}.
Variable c : option Z * gmap FwRuleKey FwRule * gmap Z FwMeta.

(** The columns of the guests seen so far have their sizes. *)
Definition guests_shaped (guest_v4 : gmap string GuestV4) : Prop :=
  ∀ i g, guest_v4 !! i = Some g → length (g4_ipv4 g) = 4%nat ∧ length (g4_mac g) = 6%nat.

Lemma sets_local uplink gm ul : sets (framed c) (bring_local uplink gm ul) anything.
Proof.
  unfold bring_local. bring_go.
  intros m m' [] [= <-]. split; try done. intros l [= <-]. split; cbn; eauto with dp_shape.
Qed.
Lemma sets_guest gw g guest_v4 :
  length gw = 4%nat → guests_shaped guest_v4 → sets (framed c) (bring_guest gw g guest_v4) guests_shaped.
Proof.
  intros Hgw Hg. unfold bring_guest. bring_go.
  - apply shape_PortMetaMap_upsert. split; cbn; eauto with dp_shape.
  - apply shape_Underlay_upsert. cbn. eauto with dp_shape.
  - intros i v. rewrite lookup_insert_Some. intros [[_ <-]|[_ E]]; [|by eapply Hg].
    cbn. eauto with dp_shape.
Qed.
Lemma guests_default guest_v4 i vni :
  guests_shaped guest_v4 →
  let g := default (mkGuestV4 (replicate 4 0) (replicate 6 0) (replicate 16 0) vni) (guest_v4 !! i) in
  length (g4_ipv4 g) = 4%nat ∧ length (g4_mac g) = 6%nat.
Proof. intros Hg. destruct (guest_v4 !! i) as [v|] eqn:E; [by apply (Hg _ _ E)|done]. Qed.
Lemma sets_guest6 gw gw6 guest_v4 g :
  length gw = 4%nat → length gw6 = 16%nat → guests_shaped guest_v4 →
  sets (framed c) (bring_guest6 gw gw6 guest_v4 g) anything.
Proof.
  intros Hgw Hgw6 Hg. unfold bring_guest6. bring_go.
  - destruct (guests_default guest_v4 s a1 Hg). apply shape_PortMetaMap_upsert.
    split; cbn; eauto with dp_shape.
  - destruct (guests_default guest_v4 s a1 Hg). by apply shape_Underlay_upsert.
Qed.
Lemma sets_remote6 r : sets (framed c) (bring_remote6 r) anything.
Proof. unfold bring_remote6. bring_go. subst. apply shape_Routes6_upsert. cbn. eauto with dp_shape. Qed.
Lemma sets_remote ext r : sets (framed c) (bring_remote ext r) anything.
Proof. unfold bring_remote. bring_go. all: subst; apply shape_Routes_upsert; cbn; eauto with dp_shape. Qed.
Lemma sets_vip v : sets (framed c) (bring_vip v) anything.
Proof. unfold bring_vip. bring_go. all: apply shape_Vips_upsert; eauto with dp_shape. Qed.
Lemma sets_nat n : sets (framed c) (bring_nat n) anything.
Proof.
  unfold bring_nat. bring_go; [apply shape_Nat_upsert; cbn; eauto with dp_shape|].
  apply sets_put_. frame_put.
Qed.
Lemma sets_marker m : sets (framed c) (bring_marker m) anything.
Proof. unfold bring_marker. bring_go. Qed.
Lemma sets_neigh spec idx : sets (framed c) (bring_neigh spec idx) anything.
Proof. unfold bring_neigh. bring_go. all: try done. apply shape_NeighborNat_upsert. cbn. eauto with dp_shape. Qed.
Lemma sets_meter spec : sets (framed c) (bring_meter spec) anything.
Proof. unfold bring_meter. bring_go. Qed.
Lemma dns_of_texts (f : string → option (list Z)) n zero l :
  length zero = n → (∀ s a, f s = Some a → length a = n) →
  length (dns_slots zero (omap f l)) = DHCP_MAX_DNS ∧
  Forall (λ a, length a = n) (dns_slots zero (omap f l)).
Proof.
  intros Hz Hf. apply dns_slots_shaped; [done|]. apply Forall_forall.
  intros a (s & _ & E)%list_elem_of_omap. by eapply Hf.
Qed.
Lemma sets_dhcp mtu dns4 dns6 : sets (framed c) (bring_dhcp mtu dns4 dns6) anything.
Proof.
  unfold bring_dhcp. bring_go. apply shape_DhcpConfigMap_set.
  split; apply dns_of_texts; eauto with dp_shape.
Qed.
Lemma sets_tc_remote r : sets (framed c) (tc_bring_remote r) anything.
Proof. unfold tc_bring_remote. bring_go. apply shape_Routes_upsert. cbn. eauto with dp_shape. Qed.
Lemma sets_tc_dhcp mtu dns4 : sets (framed c) (tc_bring_dhcp mtu dns4) anything.
Proof.
  unfold tc_bring_dhcp. bring_go. apply shape_DhcpConfigMap_set. split; cbn [dc_dns4 dc_dns6].
  - apply dns_of_texts; eauto with dp_shape.
  - split; [done|by apply Forall_replicate].
Qed.

(** The services' tables exist, with addresses as backends. *)
Definition lbs_ok (bound : nat) (s : LbArgs) : Prop :=
  (∀ spec tid, la_tables s !! spec = Some tid → is_Some (la_backends s !! tid)) ∧
  (∀ tid bes, la_backends s !! tid = Some bes →
    (length bes <= bound)%nat ∧ Forall (λ b, length b = 16%nat) bes).

Lemma sets_lb n lb s : lbs_ok n s → sets (framed c) (bring_lb lb s) (lbs_ok n).
Proof.
  intros [Ht Hb]. unfold bring_lb. bring_go. split; cbn.
  - intros spec tid. rewrite lookup_insert_Some. intros [[_ <-]|[_ E]].
    + rewrite lookup_insert_eq. by eexists.
    + apply lookup_insert_is_Some. destruct (decide (la_next s = tid)); [by left|right]. split; [done|by eapply Ht].
  - intros tid bes. rewrite lookup_insert_Some. intros [[_ <-]|[_ E]]; [|by eapply Hb].
    split; [cbn; lia|done].
Qed.
Lemma sets_lb_target n t s :
  lbs_ok n s → sets (framed c) (bring_lb_target t s) (lbs_ok (S n)).
Proof.
  intros [Ht Hb]. unfold bring_lb_target. bring_go.
  - split; cbn.
    + intros sp tid E. apply lookup_insert_is_Some'. right. by eapply Ht.
    + intros tid bes. rewrite lookup_insert_Some. intros [[_ <-]|[_ E]].
      * destruct (Hb _ _ Heqo) as [Hl Hf]. rewrite length_app. cbn. split; [lia|].
        apply Forall_app. split; [done|]. constructor; [|done]. eauto with dp_shape.
      * destruct (Hb _ _ E). split; [lia|done].
  - match goal with E : la_tables s !! _ = Some _ |- _ => apply Ht in E as [? ?] end. congruence.
Qed.
Lemma sets_slot tid bes i bi :
  0 <= bi < Z.of_nat (length bes) → Forall (λ b, length b = 16%nat) bes →
  sets (framed c) (bring_slot tid bes (i, bi)) anything.
Proof.
  intros Hi Hf. unfold bring_slot. cbn [fst snd].
  destruct (lookup_lt_is_Some_2 bes (Z.to_nat bi)) as [b Eb]; [lia|]. rewrite Eb.
  apply sets_put, framed_put; [|by intros ? ? ->%on_insert_Some].
  apply shape_Maglev_upsert. by apply (Forall_lookup_1 _ _ _ _ Hf Eb).
Qed.
Lemma sets_table x :
  Z.of_nat (length x.2) < U32_MAX → Forall (λ b, length b = 16%nat) x.2 →
  sets (framed c) (bring_table x) anything.
Proof.
  intros Hu Hf. unfold bring_table. destruct (length x.2 =? 0)%nat eqn:E0; [by apply sets_ok|].
  apply Nat.eqb_neq in E0. destruct (build_spec x.2) as (table & -> & _ & Hx & _); [lia|done|].
  apply sets_each_. intros [i bi] Hin. apply elem_of_lookup_imap_1 in Hin as (j & y & E & Hy).
  injection E as -> ->. apply sets_slot; [|done]. apply Hx. by eapply list_elem_of_lookup_2.
Qed.
End frames.

(** ** Lemmas: firewall rules *)

(** The rules the flags give an interface, in order. *)
Definition rules_of `{Host} (i : Z) (specs : list string) : list FwRule :=
  omap (λ spec, '(j, r) ← parse_fw_rule spec; if j =? i then Some r else None) specs.

Section firewall.
Context `{Host}.

Lemma rules_of_snoc i specs spec j r :
  parse_fw_rule spec = Some (j, r) →
  rules_of i (specs ++ [spec]) = (rules_of i specs ++ if j =? i then [r] else [])%list.
Proof.
  intros E. unfold rules_of. rewrite omap_app. f_equal. cbn. rewrite E. cbn. by destruct (j =? i).
Qed.
Lemma parse_fw_rule_dir spec i r :
  parse_fw_rule spec = Some (i, r) → fr_direction r = FW_DIR_INGRESS ∨ fr_direction r = FW_DIR_EGRESS.
Proof.
  unfold parse_fw_rule. destruct (split ":" spec) as [|a [|b [|c [|d [|e [|f [|g [|]]]]]]]]; try done.
  intros E. apply bind_Some in E as (? & _ & E). apply bind_Some in E as (dir & Ed & E).
  apply bind_Some in E as (? & _ & E). apply bind_Some in E as (? & _ & E).
  apply bind_Some in E as ([] & _ & E). apply bind_Some in E as ([] & _ & E).
  apply bind_Some in E as ([] & _ & E). injection E as _ <-. cbn [fr_direction].
  unfold parse_dir in Ed. destruct (bool_decide _); [injection Ed as <-; by left|].
  destruct (bool_decide _); [injection Ed as <-; by right|done].
Qed.
Lemma rules_of_dirs i specs :
  Forall (λ r, fr_direction r = FW_DIR_INGRESS ∨ fr_direction r = FW_DIR_EGRESS) (rules_of i specs).
Proof.
  apply Forall_forall. intros r (spec & _ & E)%list_elem_of_omap.
  apply bind_Some in E as ([j r'] & E & E'). destruct (j =? i); [|done]. injection E' as <-.
  by eapply parse_fw_rule_dir.
Qed.

(** The loop's variables and the slots after the flags [specs]. *)
Definition counts_of (rules : list FwRule) : option (Z * Z) :=
  match rules with
  | [] => None
  | _ => Some (ingress_count (fw_meta_of rules), egress_count (fw_meta_of rules))
  end.
Record fw_inv (cfg : option Z) (specs : list string) (s : FwArgs) (m : Maps) : Prop := {
  fi_slots : ∀ i, default 0 (fa_slots s !! i) = Z.of_nat (length (rules_of i specs));
  fi_counts : ∀ i, fa_counts s !! i = counts_of (rules_of i specs);
  fi_len : ∀ i, (length (rules_of i specs) <= FW_MAX_RULES)%nat;
  fi_rules : ∀ i k, m_fw_rules m !! mkFwRuleKey i (Z.of_nat k) = rules_of i specs !! k;
  fi_meta : m_fw_meta m = ∅;
  fi_cfg : m_fw_config m = cfg }.

Lemma counts_snoc rules r :
  fr_direction r = FW_DIR_INGRESS ∨ fr_direction r = FW_DIR_EGRESS →
  counts_of (rules ++ [r]) = Some
    (let c := default (0, 0) (counts_of rules) in
     if fr_direction r =? FW_DIR_EGRESS then (c.1, c.2 + 1) else (c.1 + 1, c.2)).
Proof.
  intros Hd.
  assert (default (0, 0) (counts_of rules) =
    (ingress_count (fw_meta_of rules), egress_count (fw_meta_of rules))) as -> by by destruct rules.
  assert (counts_of (rules ++ [r]) = Some (ingress_count (fw_meta_of (rules ++ [r])),
    egress_count (fw_meta_of (rules ++ [r])))) as -> by by destruct rules.
  unfold fw_meta_of. cbn [ingress_count egress_count]. rewrite !filter_app, !length_app.
  f_equal. cbn zeta. cbn [fst snd]. rewrite !filter_cons, !filter_nil.
  destruct (fr_direction r =? FW_DIR_EGRESS) eqn:E; zbool.
  - rewrite decide_False, decide_True by (done || (intros Hn; by apply Hn)). cbn. f_equal; lia.
  - rewrite decide_True, decide_False by done. cbn. f_equal; lia.
Qed.

Lemma bring_fw_rule_run cfg specs spec s m :
  shaped m → fw_inv cfg specs s m →
  ∃ r m', bring_fw_rule spec s m = Some (r, m') ∧ shaped m' ∧
    ∀ s', r = Ok s' → fw_inv cfg (specs ++ [spec]) s' m'.
Proof.
  intros Hs Hi. unfold bring_fw_rule, rbind at 1, pbind at 1, ask, pret.
  destruct (parse_fw_rule spec) as [[j r]|] eqn:E; [|by eexists _, _].
  destruct Hi as [H1 H2 H3 H4 H5 H6]. rewrite H1.
  destruct (_ <? _) eqn:El; cbn [negb]; [|by eexists _, _]. zbool.
  unfold rbind, pbind, put. destruct (FwRules_upsert _ _ m) as [m'|] eqn:Eu; [|by eexists _, _].
  eexists _, m'. split; [reflexivity|]. split; [by eapply shape_FwRules_upsert|].
  intros s' [= <-]. apply on_insert_Some in Eu as ->. pose proof (parse_fw_rule_dir _ _ _ E) as Hd.
  split; cbn; try done; intros i; rewrite (rules_of_snoc i specs spec j r E);
    destruct (decide (j = i)) as [<-|Hj];
    rewrite ?Z.eqb_refl, ?(proj2 (Z.eqb_neq j i) Hj), ?app_nil_r; try done.
  - rewrite lookup_insert_eq, length_app. cbn. lia.
  - by rewrite lookup_insert_ne.
  - rewrite lookup_insert_eq, counts_snoc, H2 by done. done.
  - by rewrite lookup_insert_ne.
  - rewrite length_app. cbn. lia.
  - intros k. destruct (decide (k = length (rules_of j specs))) as [->|Hk].
    + by rewrite lookup_insert_eq, list_lookup_middle.
    + rewrite lookup_insert_ne by (intros [= Hk']; lia). rewrite H4.
      destruct (decide (k < length (rules_of j specs))%nat).
      * by rewrite lookup_app_l.
      * rewrite !lookup_ge_None_2; [done|rewrite length_app; cbn; lia|lia].
  - intros k. rewrite lookup_insert_ne by (intros [= Hk']; lia). by rewrite H4.
Qed.
Lemma bring_fw_rules_run cfg specs done s m :
  shaped m → fw_inv cfg done s m →
  ∃ r m', each bring_fw_rule specs s m = Some (r, m') ∧ shaped m' ∧
    ∀ s', r = Ok s' → fw_inv cfg (done ++ specs) s' m'.
Proof.
  revert done s m. induction specs as [|spec specs IH]; intros done s m Hs Hi.
  { eexists _, _. split; [reflexivity|]. split; [done|]. rewrite app_nil_r. by intros s' [= <-]. }
  cbn [each]. destruct (bring_fw_rule_run cfg done spec s m Hs Hi) as (r & m1 & E & Hs1 & Hr).
  unfold rbind, pbind. rewrite E. destruct r as [s1|]; [|by eexists _, _].
  destruct (IH (done ++ [spec])%list s1 m1 Hs1 (Hr s1 eq_refl)) as (r & m2 & -> & Hs2 & Hr2).
  exists r, m2. rewrite <- app_assoc in Hr2. done.
Qed.
End firewall.

Section programmed.
Context `{Host}.

(** [FW_META] after the counts of a list of interfaces are written. *)
Lemma bring_fw_meta_run l m :
  shaped m → NoDup l.*1 →
  ∃ r m', each_ bring_fw_meta l m = Some (r, m') ∧ shaped m' ∧
    m_fw_rules m' = m_fw_rules m ∧ m_fw_config m' = m_fw_config m ∧
    (r = Ok tt → ∀ i, m_fw_meta m' !! i =
       match (list_to_map l : gmap Z (Z * Z)) !! i with
       | Some c => Some (mkFwMeta c.1 c.2)
       | None => m_fw_meta m !! i
       end).
Proof.
  unfold each_. revert m. induction l as [|[j c] l IH]; intros m Hs Hn; cbn [each].
  { eexists _, _. split; [reflexivity|]. by split_and!. }
  apply NoDup_cons in Hn as [Hj Hn]. unfold bring_fw_meta at 1, rbind at 1, pbind, put. cbn [fst snd].
  destruct (FwMetaMap_upsert _ _ m) as [m1|] eqn:Eu; [|by eexists _, _].
  pose proof (shape_FwMetaMap_upsert _ _ m m1 Hs Eu) as Hs1. apply on_insert_Some in Eu.
  destruct (IH m1 Hs1 Hn) as (r & m2 & E & Hs2 & Hr & Hc & Hm). exists r, m2.
  split; [exact E|]. split; [done|]. subst m1. cbn in Hr, Hc. do 2 (split; [done|]).
  intros Hok i. rewrite (Hm Hok). cbn [list_to_map foldr uncurry m_fw_meta with_fw_meta].
  destruct (decide (j = i)) as [<-|Hji].
  - rewrite (not_elem_of_list_to_map_1 l j Hj), lookup_insert_eq. symmetry. cbn.
    by rewrite lookup_insert_eq.
  - rewrite lookup_insert_ne by done. cbn. by rewrite lookup_insert_ne.
Qed.

(** The maps say what the flags said. *)
Record fw_programmed (enforce : bool) (specs : list string) (m : Maps) : Prop := {
  fp_config : m_fw_config m = Some (if enforce then 1 else 0);
  fp_slots : ∀ i, fw_slots (m_fw_rules m) i = rules_of i specs;
  fp_meta : ∀ i, m_fw_meta m !! i =
    match rules_of i specs with [] => None | rules => Some (fw_meta_of rules) end }.

Lemma bring_firewall_run enforce specs m :
  shaped m → m_fw_rules m = ∅ → m_fw_meta m = ∅ →
  ∃ r m', bring_firewall enforce specs m = Some (r, m') ∧ shaped m' ∧
    (r = Ok tt → fw_programmed enforce specs m').
Proof.
  intros Hs Hr Hm. unfold bring_firewall, rbind, pbind, put at 1, FwConfig_set.
  set (m1 := with_fw_config _ m). assert (shaped m1) as Hs1 by (destruct Hs; by split).
  destruct (bring_fw_rules_run (Some (if enforce then 1 else 0)) specs [] (mkFwArgs ∅ ∅) m1 Hs1)
    as (r & m2 & -> & Hs2 & Hi).
  { split; cbn; try done; intros i; unfold FW_MAX_RULES; try lia. intros k. by rewrite Hr. }
  destruct r as [s|]; [|by eexists _, _]. specialize (Hi s eq_refl).
  cbn [app] in Hi. destruct Hi as [_ H2 H3 H4 H5 H6].
  destruct (bring_fw_meta_run (map_to_list (fa_counts s)) m2 Hs2 (NoDup_fst_map_to_list _))
    as (r & m3 & -> & Hs3 & Er & Ec & Em).
  exists r, m3. split; [done|]. split; [done|]. intros Hok. split.
  - by rewrite Ec.
  - intros i. unfold fw_slots. apply (omap_lookup_seq _ 0 FW_MAX_RULES); [apply H3|]. intros k Hk.
    by rewrite Er, H4, Nat.sub_0_r.
  - intros i. rewrite (Em Hok), list_to_map_to_list, H2, H5. unfold counts_of.
    destruct (rules_of i specs); [by rewrite lookup_empty|done].
Qed.

(** What the datapath decides on such maps. *)
Lemma fw_programmed_decides enforce specs m i dir p off :
  fw_programmed enforce specs m → dir = FW_DIR_INGRESS ∨ dir = FW_DIR_EGRESS →
  (off + 20 <= length p)%nat →
  ∃ sel, fw_selectors p off = Some sel ∧
    fw_eval_dir m p off i dir = Some (fw_decide (rules_of i specs) dir sel).
Proof.
  intros [Hc Hsl Hm] Hd Hl. destruct (rules_of i specs) as [|r rs] eqn:E.
  - destruct (fw_selectors_total p off Hl) as [sel Esel]. exists sel. split; [done|].
    unfold fw_eval_dir. by rewrite Hm, E.
  - rewrite <- E. apply fw_eval_decide; [|done|done]. split; [done|by rewrite Hm, E|apply rules_of_dirs].
Qed.
End programmed.

(** ** Lemmas: the commands *)

Section runs.
Context `{KL : KernelLaws} `{Host}.

Lemma sets_targets c n l s :
  lbs_ok n s → sets (framed c) (each bring_lb_target l s) (lbs_ok (n + length l)).
Proof.
  revert n s. induction l as [|t l IH]; intros n s Hs; cbn [each length].
  { apply sets_ok. by rewrite Nat.add_0_r. }
  eapply sets_bind; [by apply sets_lb_target|]. intros s' Hs'.
  rewrite Nat.add_succ_r. by apply (IH (S n)).
Qed.
Lemma sets_forwarding c a :
  Z.of_nat (length (ba_lb_targets a)) < U32_MAX → sets (framed c) (bring_forwarding a) anything.
Proof.
  intros Hu. unfold bring_forwarding. eapply sets_bind; [apply sets_local|]. intros _ _.
  apply sets_let. intros gw Hgw%ipv4_length.
  eapply sets_bind; [apply (sets_each _ _ _ guests_shaped); [|done]|].
  { intros. by apply sets_guest. }
  cbv beta. intros guest_v4 Hg. apply sets_let. intros gw6 Hgw6%gateway6_length.
  apply sets_each_then; [intros; by apply sets_guest6|].
  apply sets_each_then; [intros; apply sets_remote6|]. apply sets_let. intros ext _.
  apply sets_each_then; [intros; apply sets_remote|].
  apply sets_each_then; [intros; apply sets_vip|].
  eapply sets_bind; [apply (sets_each _ _ _ (lbs_ok 0))|].
  { intros. by apply sets_lb. }
  { by split. }
  cbv beta. intros s Hs. eapply sets_bind; [by apply sets_targets|]. intros s' [_ Hb].
  apply sets_each_then; [|apply sets_each_; intros; apply sets_nat].
  intros [tid bes] Hin%elem_of_map_to_list. apply Hb in Hin as [Hl Hf]. apply sets_table; [|done].
  cbn [snd] in *. lia.
Qed.
Lemma sets_services c a : sets (framed c) (bring_services a) anything.
Proof.
  unfold bring_services. apply sets_each_then; [intros; apply sets_marker|].
  eapply sets_bind; [apply (sets_each _ _ _ anything); [|done]; intros; apply sets_neigh|].
  intros n _. apply sets_put_then; [frame_put|].
  apply sets_each_then; [intros; apply sets_meter|]. apply sets_dhcp.
Qed.
Lemma bringup_run a m :
  shaped m → m_fw_rules m = ∅ → m_fw_meta m = ∅ → Z.of_nat (length (ba_lb_targets a)) < U32_MAX →
  ∃ r m', bringup a m = Some (r, m') ∧ shaped m' ∧
    (r = Ok tt → fw_programmed (ba_firewall_enforce a) (ba_fw_rules a) m').
Proof.
  intros Hs Hr Hm Hu. unfold bringup, rbind, pbind.
  destruct (sets_forwarding (fw_view m) a Hu m) as (r1 & m1 & -> & [Hs1 Hv1] & _); [done|].
  destruct r1 as [[]|]; [|by eexists _, _]. injection Hv1 as _ Hr1 Hm1.
  destruct (bring_firewall_run (ba_firewall_enforce a) (ba_fw_rules a) m1 Hs1)
    as (r2 & m2 & -> & Hs2 & Hf); [congruence..|].
  destruct r2 as [[]|]; [|by eexists _, _]. destruct (Hf eq_refl) as [F1 F2 F3].
  destruct (sets_services (fw_view m2) a m2) as (r3 & m3 & -> & [Hs3 Hv3] & _); [done|].
  exists r3, m3. split; [done|]. split; [done|]. injection Hv3 as E1 E2 E3. intros _.
  split; by rewrite ?E1, ?E2, ?E3.
Qed.
Lemma sets_tc_bringup c a : sets (framed c) (tc_bringup a) anything.
Proof.
  unfold tc_bringup. do 7 (apply sets_let; intros ? ?). apply sets_put_then.
  { frame_put. apply shape_PortMetaMap_upsert. split; cbn; eauto with dp_shape. }
  eapply sets_bind; [destruct (ta_uplink a); [apply sets_local|by apply sets_ok]|]. intros _ _.
  apply sets_put_then; [frame_put; apply shape_Underlay_upsert; cbn; eauto with dp_shape|].
  apply sets_each_then; [intros; apply sets_tc_remote|].
  apply sets_each_then; [intros; apply sets_remote6|]. apply sets_tc_dhcp.
Qed.
End runs.

(** ** Properties *)

(** C4. The commands never panic, and the datapath they leave is safe: from
    freshly loaded maps, whatever the flags say and wherever an error ends
    the command, every stored value has the size the programs read it with,
    so that every frame of a guest, by XDP or by tc, and of the uplink is
    processed to a result. *)
Theorem bringup_safe `{KL : KernelLaws} `{SL : SkbLaws} `{Host} (a : BringupArgs) (ta : TcBringupArgs)
    (frame rest : list Z) (tick : nat) (slot1 slot2 : bool) (i : Z) :
  Z.of_nat (length (ba_lb_targets a)) < U32_MAX →
  (∃ r m, bringup a empty_maps = Some (r, m) ∧ shaped m ∧
     (∃ act w, guest_tx slot1 i (mkWorld frame m tick None) = Some (act, w)) ∧
     (∃ act w, uplink_rx (mkWorld frame m tick None) = Some (act, w))) ∧
  (∃ r m, tc_bringup ta empty_maps = Some (r, m) ∧ shaped m ∧
     (∃ act s, tc_guest_tx slot1 slot2 i (mkWorld frame m tick None, rest) = Some (act, s))).
Proof.
  intros Hu. split.
  - destruct (bringup_run a empty_maps empty_maps_shaped eq_refl eq_refl Hu) as (r & m & E & Hs & _).
    exists r, m. split; [done|]. split; [done|]. split.
    + destruct (ends_try_guest_tx (length frame) slot1 i (mkWorld frame m tick None)) as (x & w & E' & _);
        [done|]. exists (or_pass x), w. unfold guest_tx, pbind. by rewrite E'.
    + destruct (ends_try_uplink_rx (length frame) (mkWorld frame m tick None)) as (x & w & E' & _);
        [done|]. exists (or_pass x), w. unfold uplink_rx, pbind. by rewrite E'.
  - destruct (sets_tc_bringup (fw_view empty_maps) ta empty_maps) as (r & m & E & [Hs _] & _);
      [split; [apply empty_maps_shaped|done]|].
    exists r, m. split; [done|]. split; [done|].
    destruct (tc_ends_guest_tx (length frame) slot1 slot2 i (mkWorld frame m tick None, rest))
      as (act & s & E' & _); [done|]. by exists act, s.
Qed.


Definition demo_bringup : BringupArgs :=
  mkBringupArgs "eth0" "fd00::1" "10.0.0.1" "02:00:00:00:00:02"
    ["dtapvf_0=10.0.0.5=02:00:00:00:00:09=fd00::2=100"] ["10.0.1.0/24=fd00::3=100"]
    [] [] [] ["10.0.0.5=203.0.113.9:1024:2048"] []
    ["dtapvf_0:eg:accept:tcp:10.0.0.0/8:0.0.0.0/0:443"; "dtapvf_0:eg:drop:any:0.0.0.0/0:10.0.1.0/24:*"]
    true ["203.0.113.9:2048:4096@fd00::3@100"] ["fd00::4:100"] ["dtapvf_0=10:5"] (Some "fe80::1")
    ["dtapvf_0=fd01::5=fd00::2=100"] ["fd01::/64=fd00::3=100"] None ["10.0.0.53"] [].
Definition demo_brought : Maps :=
  match bringup (H0 := demo_node_host) demo_bringup empty_maps with Some (_, m) => m | None => empty_maps end.

Lemma bringup_safe_witness :
  ∃ r m, bringup (H0 := demo_node_host) demo_bringup empty_maps = Some (r, m) ∧ shaped m.
Proof.
  destruct (bringup_safe (H := demo_node_host) demo_bringup
    (mkTcBringupArgs "dtapvf_0" "" "" "" "" "" 1500 [] None "" "" [] None []) [] [] 0 true true 7)
    as [(r & m & E & Hs & _) _].
  - vm_compute. reflexivity.
  - exists r, m. by split.
Defined.
