(* ===== verification/System.v ===== *)
(** * System

    The node as a whole: the control plane under its gRPC requests and its
    DHCP configuration, the conntrack sweeper, and the datapath programs
    handling frames, all over the same maps, in any order.  Every operation of
    the control plane holds the state's mutex and a program sees the maps
    between two of its steps, so a run is a sequence of steps. *)
From stdpp Require Import relations strings.
From S2P Require Import Prelude Bytes Types Kernel Safe Handles ConntrackGc Ingress Guest Skb Tc Host NetAddr.
From S2P Require Import Ctl Rpc CtlIface CtlRoute CtlFw CtlLb CtlNat GrpcIface GrpcFw GrpcLb GrpcNat.
Local Open Scope string_scope.
Local Open Scope Z_scope.

(** ** Definitions *)

(** The requests that change state, with the fields their handlers read. *)
Inductive request :=
  | CreateInterface (r : CreateInterfaceRequest)
  | DeleteInterface (id : list Z)
  | CreateRoute (vni : Z) (route : option Route)
  | DeleteRoute (vni : Z) (route : option Route)
  | ResetVni (vni : Z)
  | CreatePrefix (id : list Z) (prefix : option Prefix) (pul : list Z)
  | DeletePrefix (id : list Z) (prefix : option Prefix)
  | CreateLoadBalancerPrefix (id : list Z) (prefix : option Prefix) (pul : list Z)
  | DeleteLoadBalancerPrefix (id : list Z) (prefix : option Prefix)
  | CreateVip (id : list Z) (vip : option IpAddress) (pul : list Z)
  | DeleteVip (id : list Z)
  | CreateNat (id : list Z) (nat_ip : option IpAddress) (min max : Z) (pul : list Z)
  | DeleteNat (id : list Z)
  | CreateNeighborNat (nat_ip : option IpAddress) (vni min max : Z) (underlay : list Z)
  | DeleteNeighborNat (nat_ip : option IpAddress) (vni min max : Z)
  | CreateLoadBalancer (id : list Z) (ip : option IpAddress) (vni : Z) (ports : list LbPort)
      (pul : list Z)
  | DeleteLoadBalancer (id : list Z)
  | CreateLoadBalancerTarget (id : list Z) (target : option IpAddress)
  | DeleteLoadBalancerTarget (id : list Z) (target : option IpAddress)
  | CreateFirewallRule (nanos : Z) (id : list Z) (rule : option FirewallRule)
  | DeleteFirewallRule (id rule_id : list Z).

Section node.
Context `{K : Kernel} `{SK : SkbKernel} `{HO : Host}.
Variable sv : Service.

(** The state a request leaves, whatever its answer. *)
Definition serve (q : request) (s : Inner) : Inner :=
  match q with
  | CreateInterface r => (GrpcIface.create_interface sv r s).2
  | DeleteInterface id => (delete_interface sv id s).2
  | CreateRoute vni route => (GrpcIface.create_route sv vni route s).2
  | DeleteRoute vni route => (GrpcIface.delete_route sv vni route s).2
  | ResetVni vni => (GrpcIface.reset_vni sv vni s).2
  | CreatePrefix id prefix pul => (create_prefix sv id prefix pul s).2
  | DeletePrefix id prefix => (delete_prefix sv id prefix s).2
  | CreateLoadBalancerPrefix id prefix pul => (create_load_balancer_prefix sv id prefix pul s).2
  | DeleteLoadBalancerPrefix id prefix => (delete_load_balancer_prefix sv id prefix s).2
  | CreateVip id vip pul => (GrpcNat.create_vip sv id vip pul s).2
  | DeleteVip id => (GrpcNat.delete_vip sv id s).2
  | CreateNat id ip min max pul => (GrpcNat.create_nat sv id ip min max pul s).2
  | DeleteNat id => (GrpcNat.delete_nat sv id s).2
  | CreateNeighborNat ip vni min max ul => (create_neighbor_nat sv ip vni min max ul s).2
  | DeleteNeighborNat ip vni min max => (delete_neighbor_nat sv ip vni min max s).2
  | CreateLoadBalancer id ip vni ports pul => (create_load_balancer sv id ip vni ports pul s).2
  | DeleteLoadBalancer id => (delete_load_balancer sv id s).2
  | CreateLoadBalancerTarget id target => (create_load_balancer_target sv id target s).2
  | DeleteLoadBalancerTarget id target => (delete_load_balancer_target sv id target s).2
  | CreateFirewallRule nanos id rule => (create_firewall_rule sv nanos id rule s).2
  | DeleteFirewallRule id rule_id => (delete_firewall_rule sv id rule_id s).2
  end.

(** A frame enters a program with the node's maps; [tick] is the clock. *)
Definition arrives (frame : list Z) (tick : nat) (s : Inner) : world :=
  mkWorld frame (in_maps s) tick None.
Definition after (w : world) (s : Inner) : Inner := set_maps (λ _, w_maps w) s.

Inductive step : Inner → Inner → Prop :=
  | step_request q s : step s (serve q s)
  | step_sweep now m s :
      (** the sweeper's snapshot [m] may be older than the table it prunes *)
      step s (set_maps (with_conntrack (gc_round now m)) s)
  | step_guest slot ifindex frame tick act w s :
      in_guest_tc s = false →
      guest_tx slot ifindex (arrives frame tick s) = Some (act, w) → step s (after w s)
  | step_guest_tc dhcp_slot nat64_slot ifindex head rest tick act w rest' s :
      (** a socket buffer: what is linear, and fragments *)
      in_guest_tc s = true →
      tc_guest_tx dhcp_slot nat64_slot ifindex (arrives head tick s, rest) = Some (act, (w, rest')) →
      step s (after w s)
  | step_uplink frame tick act w s :
      uplink_rx (arrives frame tick s) = Some (act, w) → step s (after w s).

End node.

(** The invariant: sizes of stored values and consistent interface tables. *)
Definition node_ok (s : Inner) : Prop := sized s ∧ ifaces_ok s.
Definition service_ok (sv : Service) : Prop :=
  length (sv_underlay sv) = 16%nat ∧ length (sv_gateway_ipv4 sv) = 4%nat ∧
  length (sv_gateway_ipv6 sv) = 16%nat.

(** ** Definitions: startup (main.rs) *)

(** The arguments of the daemon's [serve] command. *)
Record ServeArgs := mkServeArgs
  { sa_uplink : string; sa_local_underlay : string; sa_gateway : string;
    sa_gateway6 : option string; sa_gateway_mac : string; sa_dhcp_mtu : option Z;
    sa_dhcp_dns : list string; sa_dhcpv6_dns : list string }.

(** Which guest program is attached: tc, unless XDP_DP_GUEST_TC turns it off. *)
Definition guest_tc_of (var : option string) : bool :=
  negb (bool_decide (var ∈ [Some "0"; Some "false"; Some "no"; Some "off"])).

(** The service and the state it starts with; [None] when an argument or a
    sysfs file is refused.  [var] is the environment's XDP_DP_GUEST_TC. *)
Definition start `{Host} (var : option string) (a : ServeArgs) : option (Service * Inner) :=
  underlay ← parse_ipv6 (bytes_of (sa_local_underlay a));
  gateway_ipv4 ← parse_ipv4 (bytes_of (sa_gateway a));
  gateway_ipv6 ← match sa_gateway6 a with
                 | Some s => parse_ipv6 (bytes_of s)
                 | None => Some (replicate 16 0)
                 end;
  uplink_ifindex ← ifindex (sa_uplink a);
  uplink_mac ← mac_of (sa_uplink a);
  gateway_mac ← parse_mac (sa_gateway_mac a);
  let s := bring_up (guest_tc_of var) (mkLocal uplink_ifindex uplink_mac gateway_mac underlay) in
  let dns4 := omap (λ s, parse_ipv4 (bytes_of s)) (sa_dhcp_dns a) in
  let dns6 := omap (λ s, parse_ipv6 (bytes_of s)) (sa_dhcpv6_dns a) in
  match set_dhcp_config (wrap16 (default 1500 (sa_dhcp_mtu a))) dns4 dns6 s with
  | (Done _, s) => Some (mkService true underlay gateway_ipv4 gateway_ipv6, s)
  | (Bail _, _) => None
  end.

(** ** Lemmas: what decoding gives *)

Lemma decode_ipv4_length b a : decode_ipv4 b = Resp a → length a = 4%nat.
Proof.
  unfold decode_ipv4. destruct (length b =? 4)%nat eqn:E4; [apply Nat.eqb_eq in E4; by intros [= <-]|].
  destruct (negb _); [done|]. destruct (parse_ipv4 b) as [v|] eqn:E; [|done]. intros [= <-].
  by eapply parse_ipv4_length.
Qed.
Lemma decode_ipv6_length b a : decode_ipv6 b = Resp a → length a = 16%nat.
Proof.
  unfold decode_ipv6. destruct (_ && _).
  - destruct (parse_ipv6 b) as [v|] eqn:E; [|done]. intros [= <-]. by eapply parse_ipv6_length.
  - destruct (length b =? 16)%nat eqn:E; [|done]. apply Nat.eqb_eq in E. by intros [= <-].
Qed.
Lemma preferred_shaped b o : preferred b = Resp o → opt_shaped o.
Proof.
  unfold preferred. destruct b as [|x b]; [by intros [= <-]|].
  destruct (decode_ipv6 (x :: b)) as [ul|] eqn:E; cbn [abind]; [|done]. apply decode_ipv6_length in E.
  destruct (bool_decide _); intros [= <-]; [done|]. by intros u [= <-].
Qed.
Lemma derive_underlay_length sv vni tail :
  length (sv_underlay sv) = 16%nat → length tail = 4%nat → length (derive_underlay sv vni tail) = 16%nat.
Proof. intros Hs Ht. unfold derive_underlay. rewrite !length_app, length_take, Hs, Ht. done. Qed.
Lemma masked_length ip len : length (masked ip len) = 4%nat.
Proof. done. Qed.

(** ** Lemmas: handlers keep what their operation keeps *)

Definition rkept (I : Inner → Prop) {A} (m : rpc A) : Prop := ∀ s, I s → I (m s).2.

Section rkept.
Context (I : Inner → Prop).

Lemma rkept_ret {A} (a : A) : rkept I (rret a).
Proof. by intros s. Qed.
Lemma rkept_fail {A} code msg : rkept I (rfail (A := A) code msg).
Proof. by intros s. Qed.
Lemma rkept_lift {A B} (x : answer A) (k : A → rpc B) :
  (∀ a, x = Resp a → rkept I (k a)) → rkept I (rbind (rlift x) k).
Proof. intros Hk. destruct x as [a|]; [|by intros s]. intros s. by apply Hk. Qed.
Lemma rkept_gets {A B} (f : Inner → A) (k : A → rpc B) :
  (∀ a, rkept I (k a)) → rkept I (rbind (rgets f) k).
Proof. intros Hk s. apply Hk. Qed.
Lemma rkept_needs {A B} (o : option A) msg (k : A → rpc B) :
  (∀ a, o = Some a → rkept I (k a)) → rkept I (rbind (needs o msg) k).
Proof. intros Hk. destruct o as [a|]; [|by intros s]. intros s. by apply Hk. Qed.
Lemma rkept_control {B} sv (k : rpc B) : rkept I k → rkept I (rbind (control sv) (λ _, k)).
Proof. intros Hk s. unfold rbind, control. destruct (sv_control sv); [apply Hk|done]. Qed.
Lemma rkept_attempt {A B} (m : ctl A) table (none : B) k :
  kept I m → (∀ a, rkept I (k a)) → rkept I (attempt m table none k).
Proof.
  intros Hm Hk s Hs. specialize (Hm s Hs). unfold attempt. destruct (m s) as [[a|msg] s1].
  - by apply Hk.
  - by destruct (status_of table msg).
Qed.
Lemma rkept_deleted missing b : rkept I (deleted missing b).
Proof. by intros s. Qed.
(** A later step may use what an earlier one established of its result. *)
Lemma rkept_bind_post {A B} (P : A → Prop) (m : rpc A) (k : A → rpc B) :
  (∀ s, I s → I (m s).2 ∧ ∀ a, (m s).1 = Resp a → P a) →
  (∀ a, P a → rkept I (k a)) → rkept I (rbind m k).
Proof.
  intros Hm Hk s Hs. specialize (Hm s Hs) as [H1 H2]. unfold rbind.
  destruct (m s) as [[a|code msg] s1]; [|done]. by apply Hk; [apply H2|].
Qed.
End rkept.

Lemma kept_both {A} (I J : Inner → Prop) (m : ctl A) :
  kept I m → kept J m → kept (λ s, I s ∧ J s) m.
Proof. intros HI HJ s [? ?]. split; [by apply HI|by apply HJ]. Qed.

(** One step through a handler; the operations at its leaves are left. *)
Ltac rkept_step :=
  match goal with
  | |- rkept _ (rret _) => apply rkept_ret
  | |- rkept _ (rfail _ _) => apply rkept_fail
  | |- rkept _ (deleted _ _) => apply rkept_deleted
  | |- rkept _ (rbind (control _) _) => apply rkept_control
  | |- rkept _ (rbind (rlift _) _) => apply rkept_lift; intros ? ?
  | |- rkept _ (rbind (rgets _) _) => apply rkept_gets; intros ?
  | |- rkept _ (rbind (needs _ _) _) => apply rkept_needs; intros ? ?
  | |- rkept _ (attempt _ _ _ _) => apply rkept_attempt; [|intros ?]
  | |- rkept _ (let '(_, _) := ?x in _) => destruct x
  | |- rkept _ (if ?b then _ else _) => destruct b
  | |- rkept _ (match ?x with _ => _ end) => destruct x
  end.

Create HintDb shapes discriminated.
#[local] Hint Constants Opaque : shapes.
#[local] Hint Resolve decode_ipv4_length decode_ipv6_length preferred_shaped masked_length : shapes.
(** An operation at a leaf keeps both halves of the invariant. *)
Ltac leaf := apply kept_both; eauto 6 with dp_keeps shapes nocore.

Section handlers.
Context `{KL : KernelLaws} `{SL : SkbLaws} `{Host}.
Variable sv : Service.
Hypothesis Hsv : service_ok sv.

Lemma kept_dhcp_meta id a b c : kept node_ok (set_dhcp_meta id a b c).
Proof.
  apply kept_both; unfold set_dhcp_meta.
  - repeat kept_step. apply shape_DhcpMetaMap_upsert.
    unfold dhcp_meta_of. split; cbn [dm_hostname dm_boot_filename dm_pxe_host dm_boot_filename_len];
      rewrite ?copy_into_length; try done.
    rewrite wrap8_mod. pose proof (Z.mod_le (Z.of_nat (length c `min` 64)) 256). lia.
  - apply kept_ifaces. repeat keeps_step.
Qed.
(** The handlers of GrpcIface. *)
Lemma iface_params_shaped r s :
  (iface_params sv r s).2 = s ∧ ∀ p, (iface_params sv r s).1 = Resp p → params_shaped p.
Proof.
  destruct Hsv as (H1 & H2 & H3). unfold iface_params, rbind, needs, rlift, rret, rfail.
  destruct (ci_ipv4_config r) as [b4|]; [|done].
  destruct (decode_ipv4 b4) as [a4|] eqn:E4; [|done]. apply decode_ipv4_length in E4.
  destruct (match ci_ipv6_config r with Some _ => _ | None => _ end) as [a6|] eqn:E6; [|done].
  assert (length a6 = 16%nat) as L6.
  { destruct (ci_ipv6_config r) as [[|x b]|]; [by injection E6 as <-| |by injection E6 as <-].
    by eapply decode_ipv6_length. }
  destruct (_ && _); [done|]. destruct (preferred _) as [pul|] eqn:Ep; [|done].
  apply preferred_shaped in Ep. destruct (default (0, 0) (ci_metering r)) as [tot pub].
  split; [done|]. intros p [= <-]. split; cbn; try done.
  destruct pul as [u|]; cbn; [by apply Ep|by apply derive_underlay_length].
Qed.
Lemma rkept_create_interface r : rkept node_ok (GrpcIface.create_interface sv r).
Proof.
  unfold GrpcIface.create_interface. apply rkept_control.
  apply (rkept_bind_post _ params_shaped).
  { intros s Hs. destruct (iface_params_shaped r s) as [E HP]. by rewrite E. }
  intros p Hp. rkept_step; [leaf|].
  destruct (pxe_of r) as [h f]. rkept_step; [apply kept_dhcp_meta|apply rkept_ret].
Qed.
Lemma rkept_delete_interface id : rkept node_ok (delete_interface sv id).
Proof. unfold delete_interface. repeat rkept_step. leaf. Qed.
Lemma rkept_routes vni route :
  rkept node_ok (GrpcIface.create_route sv vni route) ∧
  rkept node_ok (GrpcIface.delete_route sv vni route) ∧ rkept node_ok (GrpcIface.reset_vni sv vni).
Proof.
  unfold GrpcIface.create_route, GrpcIface.delete_route, GrpcIface.reset_vni.
  split_and!; repeat rkept_step; leaf.
Qed.
Lemma rkept_prefix_of {B} prefix (k : Prefix * IpAddress → rpc B) :
  (∀ x, rkept node_ok (k x)) → rkept node_ok (rbind (prefix_of prefix) k).
Proof.
  intros Hk. apply (rkept_bind_post _ (λ _, True)); [|by auto]. intros s Hs.
  unfold prefix_of, rbind, needs. destruct prefix as [pfx|]; [|done]. cbn. by destruct (px_ip pfx).
Qed.
Lemma rkept_prefixes id prefix pul :
  rkept node_ok (create_prefix sv id prefix pul) ∧ rkept node_ok (delete_prefix sv id prefix) ∧
  rkept node_ok (create_load_balancer_prefix sv id prefix pul) ∧
  rkept node_ok (delete_load_balancer_prefix sv id prefix).
Proof.
  unfold create_prefix, delete_prefix, create_load_balancer_prefix, delete_load_balancer_prefix.
  split_and!; rkept_step; apply rkept_prefix_of; intros []; repeat rkept_step; leaf.
Qed.

(** The handlers of GrpcNat, GrpcLb and GrpcFw. *)
Lemma rkept_v4_only {A} ip name (none : A) k :
  (∀ a, length a = 4%nat → rkept node_ok (k a)) → rkept node_ok (v4_only ip name none k).
Proof.
  intros Hk. unfold v4_only. rkept_step. rkept_step; [rkept_step|].
  rkept_step. apply Hk. by eauto with shapes nocore.
Qed.
Lemma rkept_with_iface {A} id (none : A) k :
  rkept node_ok k → rkept node_ok (with_iface id none k).
Proof. intros Hk. unfold with_iface. rkept_step. rkept_step; [rkept_step|done]. Qed.
Lemma rkept_nat id ip vni min max pul ul :
  rkept node_ok (GrpcNat.create_vip sv id ip pul) ∧ rkept node_ok (GrpcNat.delete_vip sv id) ∧
  rkept node_ok (GrpcNat.create_nat sv id ip min max pul) ∧ rkept node_ok (GrpcNat.delete_nat sv id) ∧
  rkept node_ok (create_neighbor_nat sv ip vni min max ul) ∧
  rkept node_ok (delete_neighbor_nat sv ip vni min max).
Proof.
  unfold GrpcNat.create_vip, GrpcNat.delete_vip, GrpcNat.create_nat, GrpcNat.delete_nat,
    create_neighbor_nat, delete_neighbor_nat.
  split_and!; rkept_step; first [apply rkept_v4_only; intros a Ha|apply rkept_with_iface];
    repeat rkept_step; leaf.
Qed.
Lemma rkept_lb id ip vni ports pul target :
  rkept node_ok (create_load_balancer sv id ip vni ports pul) ∧
  rkept node_ok (delete_load_balancer sv id) ∧
  rkept node_ok (create_load_balancer_target sv id target) ∧
  rkept node_ok (delete_load_balancer_target sv id target).
Proof.
  unfold create_load_balancer, delete_load_balancer, create_load_balancer_target,
    delete_load_balancer_target.
  split_and!; repeat rkept_step; leaf.
Qed.
Lemma rkept_fw nanos id rule rule_id :
  rkept node_ok (create_firewall_rule sv nanos id rule) ∧
  rkept node_ok (delete_firewall_rule sv id rule_id).
Proof.
  unfold create_firewall_rule, delete_firewall_rule. split; do 2 rkept_step; repeat rkept_step; leaf.
Qed.

Lemma serve_ok q s : node_ok s → node_ok (serve sv q s).
Proof.
  intros Hs. destruct q as [r|id|vni rt|vni rt|vni|id px pul|id px|id px pul|id px|id vip pul|id
    |id ip lo hi pul|id|ip vni lo hi ul|ip vni lo hi|id ip vni ps pul|id|id tgt|id tgt
    |nanos id rule|id rid]; cbn [serve].
  - exact (rkept_create_interface r s Hs).
  - exact (rkept_delete_interface id s Hs).
  - exact (proj1 (rkept_routes vni rt) s Hs).
  - exact (proj1 (proj2 (rkept_routes vni rt)) s Hs).
  - exact (proj2 (proj2 (rkept_routes vni None)) s Hs).
  - exact (proj1 (rkept_prefixes id px pul) s Hs).
  - exact (proj1 (proj2 (rkept_prefixes id px [])) s Hs).
  - exact (proj1 (proj2 (proj2 (rkept_prefixes id px pul))) s Hs).
  - exact (proj2 (proj2 (proj2 (rkept_prefixes id px []))) s Hs).
  - exact ((proj1 (rkept_nat id vip 0 0 0 pul [])) s Hs).
  - exact ((proj1 (proj2 (rkept_nat id None 0 0 0 [] []))) s Hs).
  - exact ((proj1 (proj2 (proj2 (rkept_nat id ip 0 lo hi pul [])))) s Hs).
  - exact ((proj1 (proj2 (proj2 (proj2 (rkept_nat id None 0 0 0 [] []))))) s Hs).
  - exact ((proj1 (proj2 (proj2 (proj2 (proj2 (rkept_nat [] ip vni lo hi [] ul)))))) s Hs).
  - exact ((proj2 (proj2 (proj2 (proj2 (proj2 (rkept_nat [] ip vni lo hi [] [])))))) s Hs).
  - exact ((proj1 (rkept_lb id ip vni ps pul None)) s Hs).
  - exact ((proj1 (proj2 (rkept_lb id None 0 [] [] None))) s Hs).
  - exact ((proj1 (proj2 (proj2 (rkept_lb id None 0 [] [] tgt)))) s Hs).
  - exact ((proj2 (proj2 (proj2 (rkept_lb id None 0 [] [] tgt)))) s Hs).
  - exact ((proj1 (rkept_fw nanos id rule [])) s Hs).
  - exact ((proj2 (rkept_fw 0 id None rid)) s Hs).
Qed.

Lemma kept_dhcp_config mtu dns4 dns6 :
  Forall (λ a, length a = 4%nat) dns4 → Forall (λ a, length a = 16%nat) dns6 →
  kept node_ok (set_dhcp_config mtu dns4 dns6).
Proof.
  intros H4 H6. unfold set_dhcp_config. apply kept_both.
  - apply kept_shape, shape_DhcpConfigMap_set.
    split; by apply dns_slots_shaped.
  - apply kept_ifaces. apply keeps_mapop. by intros ? ? [= <-].
Qed.
Lemma sweep_shaped now m maps : shaped maps → shaped (with_conntrack (gc_round now m) maps).
Proof.
  intros []. split; try done. cbn. intros k v E. unfold gc_round in E. rewrite gc_remove_lookup in E.
  destruct (decide _) in E; [done|]. by eapply sh_ct.
Qed.

(** The programs from a state that satisfies the invariant. *)
Lemma guest_runs slot ifindex frame tick s :
  sized s → ∃ act w, guest_tx slot ifindex (arrives frame tick s) = Some (act, w) ∧ shaped (w_maps w).
Proof.
  intros Hs. destruct (ends_try_guest_tx (length frame) slot ifindex (arrives frame tick s))
    as (r & w & E & Hw); [split; [apply Hs|done]|].
  exists (or_pass r), w. split; [|done]. unfold guest_tx, pbind. by rewrite E.
Qed.
Lemma guest_tc_runs dhcp_slot nat64_slot ifindex head rest tick s :
  sized s → ∃ act w rest',
    tc_guest_tx dhcp_slot nat64_slot ifindex (arrives head tick s, rest) = Some (act, (w, rest')) ∧
    shaped (w_maps w).
Proof.
  intros Hs. destruct (tc_ends_guest_tx (length head) dhcp_slot nat64_slot ifindex (arrives head tick s, rest))
    as (act & [w r] & E & Hw); [split; [apply Hs|done]|]. by exists act, w, r.
Qed.
Lemma uplink_runs frame tick s :
  sized s → ∃ act w, uplink_rx (arrives frame tick s) = Some (act, w) ∧ shaped (w_maps w).
Proof.
  intros Hs. destruct (ends_try_uplink_rx (length frame) (arrives frame tick s))
    as (r & w & E & Hw); [split; [apply Hs|done]|].
  exists (or_pass r), w. split; [|done]. unfold uplink_rx, pbind. by rewrite E.
Qed.

Lemma node_ok_maps s m : node_ok s → shaped m → node_ok (set_maps (λ _, m) s).
Proof. intros [Hs []] Hm. split; [by apply sized_maps|by split]. Qed.
Lemma step_ok s s' : step sv s s' → node_ok s → node_ok s'.
Proof.
  intros Hstep Hs. destruct Hstep as [q s|now m s|slot ifindex frame tick act w s _ E
    |dslot nslot ifindex head rest tick act w r s _ E|frame tick act w s E].
  - by apply serve_ok.
  - apply (node_ok_maps s (with_conntrack (gc_round now m) (in_maps s))); [done|].
    apply sweep_shaped, Hs.
  - destruct (guest_runs slot ifindex frame tick s (proj1 Hs)) as (a & w' & E' & Hw).
    rewrite E in E'. injection E' as <- <-. by apply node_ok_maps.
  - destruct (guest_tc_runs dslot nslot ifindex head rest tick s (proj1 Hs)) as (a & w' & r' & E' & Hw).
    rewrite E in E'. injection E' as <- <- <-. by apply node_ok_maps.
  - destruct (uplink_runs frame tick s (proj1 Hs)) as (a & w' & E' & Hw).
    rewrite E in E'. injection E' as <- <-. by apply node_ok_maps.
Qed.
Lemma steps_ok s s' : rtc (step sv) s s' → node_ok s → node_ok s'.
Proof. induction 1 as [s|s s1 s2 Hstep _ IH]; [done|]. intros Hs. apply IH. by eapply step_ok. Qed.
End handlers.

(** The node starts in a state that satisfies the invariant. *)
Lemma bring_up_ok tc l : local_shaped l → node_ok (bring_up tc l).
Proof.
  intros Hl. split; [|apply bring_up_ifaces_ok]. split; cbn; try done.
  split; cbn; try (by apply empty_all); [by intros l' [= <-]|]. by intros c [= <-].
Qed.
Lemma start_ok `{Host} var a sv s : start var a = Some (sv, s) → service_ok sv ∧ node_ok s.
Proof.
  unfold start. intros E. apply bind_Some in E as (ul & Eu & E). apply bind_Some in E as (g4 & E4 & E).
  apply bind_Some in E as (g6 & E6 & E). apply bind_Some in E as (i & Ei & E).
  apply bind_Some in E as (m & Em & E). apply bind_Some in E as (gm & Eg & E). cbv zeta in E.
  apply mac_of_arr in Em as [Em _]. apply parse_mac_arr in Eg as [Eg _].
  apply parse_ipv6_length in Eu. apply parse_ipv4_length in E4.
  assert (length g6 = 16%nat) as L6.
  { destruct (sa_gateway6 a); [by eapply parse_ipv6_length|by injection E6 as <-]. }
  pose proof (kept_dhcp_config (wrap16 (default 1500 (sa_dhcp_mtu a)))
    (omap (λ s, parse_ipv4 (bytes_of s)) (sa_dhcp_dns a))
    (omap (λ s, parse_ipv6 (bytes_of s)) (sa_dhcpv6_dns a))
    (omap_lengths _ _ _ parse_ipv4_length) (omap_lengths _ _ _ parse_ipv6_length)
    (bring_up (guest_tc_of var) (mkLocal i m gm ul))) as Hk.
  destruct (set_dhcp_config _ _ _ _) as [[u|msg] s'] eqn:Es; [|done]. injection E as <- <-.
  split; [by split_and!|]. apply Hk, bring_up_ok. by split.
Qed.

(** ** Property *)

(** C3.  The node is well typed and never stuck: whatever requests, sweeps and
    frames follow a successful start, in any order, every stored value has the
    size the programs read it with, the interface tables agree with each
    other, and every frame of the uplink and of a guest, through whichever of
    the two guest programs is attached, is processed to a result. *)
Theorem node_never_stuck `{KL : KernelLaws} `{SL : SkbLaws} `{Host} (var : option string) (a : ServeArgs)
    (sv : Service) (s0 s : Inner) :
  start var a = Some (sv, s0) → rtc (step sv) s0 s →
  sized s ∧ ifaces_ok s ∧
  ∀ frame tick,
    (in_guest_tc s = false → ∀ slot ifindex, ∃ act w, guest_tx slot ifindex (arrives frame tick s) = Some (act, w) ∧
       step sv s (after w s)) ∧
    (in_guest_tc s = true → ∀ dhcp_slot nat64_slot ifindex rest, ∃ act w rest',
       tc_guest_tx dhcp_slot nat64_slot ifindex (arrives frame tick s, rest) = Some (act, (w, rest')) ∧
       step sv s (after w s)) ∧
    (∃ act w, uplink_rx (arrives frame tick s) = Some (act, w) ∧ step sv s (after w s)).
Proof.
  intros [Hsv H0]%start_ok Hr. destruct (steps_ok sv Hsv s0 s Hr H0) as [Hs Hi].
  split; [done|]. split; [done|]. intros frame tick. split_and!.
  - intros Hg slot ifindex. destruct (guest_runs slot ifindex frame tick s Hs) as (act & w & E & _).
    exists act, w. split; [done|]. by eapply step_guest.
  - intros Hg dslot nslot ifindex rest.
    destruct (guest_tc_runs dslot nslot ifindex frame rest tick s Hs) as (act & w & r & E & _).
    exists act, w, r. split; [done|]. by eapply step_guest_tc.
  - destruct (uplink_runs frame tick s Hs) as (act & w & E & _).
    exists act, w. split; [done|]. by eapply step_uplink.
Qed.

(** A node on a host with an uplink and a tap. *)
Definition demo_args : ServeArgs :=
  mkServeArgs "eth0" "fd00::1" "10.0.0.1" None "02:00:00:00:00:02" None ["10.0.0.53"] [].
Definition demo_start : Service * Inner :=
  default (demo_service, bring_up false demo_local) (start (H := demo_node_host) (Some "off") demo_args).
Definition demo_iface (id ip : list Z) : request :=
  CreateInterface (mkCreateInterfaceRequest id 100 (Some ip) None None "dtapvf_0" None [] []).
Definition demo_serve (qs : list request) : Inner :=
  foldl (λ s q, serve (HO := demo_node_host) demo_start.1 q s) demo_start.2 qs.
Lemma demo_reachable qs : rtc (step (HO := demo_node_host) demo_start.1) demo_start.2 (demo_serve qs).
Proof.
  unfold demo_serve. generalize demo_start.2.
  induction qs as [|q qs IH]; intros s; [done|]. eapply rtc_l; [apply step_request|]. apply IH.
Qed.

Lemma node_never_stuck_witness :
  let s := demo_serve [demo_iface [1] [10; 0; 0; 5]] in
  is_Some (in_by_id s !! [1]) ∧ ∃ act w, guest_tx false 7 (arrives [] 0 s) = Some (act, w).
Proof.
  intros s. split; [vm_compute; by eexists|].
  destruct (node_never_stuck (H := demo_node_host) (Some "off") demo_args demo_start.1 demo_start.2 s)
    as (_ & _ & Hf).
  { vm_compute. reflexivity. }
  { apply demo_reachable. }
  destruct (Hf [] 0%nat) as [Hg _]. destruct (Hg eq_refl false 7) as (act & w & E & _).
  exists act, w. exact E.
Defined.

(** Deleting an interface while its VNI is used leaves its NAT range behind;
    the range is given to another guest, and an interface that is created with
    the old address takes it over: two guests own the same ports. *)
Definition demo_takeover : list request :=
  let nat := Some (mkIpAddress IPV4 [203; 0; 113; 9]) in
  [ demo_iface [1] [10; 0; 0; 5]; CreateNat [1] nat 1024 2048 []; demo_iface [2] [10; 0; 0; 6];
    DeleteInterface [1]; CreateNat [2] nat 1024 2048 []; demo_iface [3] [10; 0; 0; 5] ].
Lemma nat_range_taken_over :
  rtc (step (HO := demo_node_host) demo_start.1) demo_start.2 (demo_serve demo_takeover) ∧
  ¬ nats_disjoint (demo_serve demo_takeover).
Proof.
  split; [apply demo_reachable|]. intros Hd.
  assert ([2] = [3]); [|done]. apply (Hd _ _ 100 [203; 0; 113; 9] 1024).
  - do 2 eexists. split; [vm_compute; reflexivity|]. split; [reflexivity|].
    split; [vm_compute; reflexivity|]. split; [reflexivity|]. vm_compute. by split.
  - do 2 eexists. split; [vm_compute; reflexivity|]. split; [reflexivity|].
    split; [vm_compute; reflexivity|]. split; [reflexivity|]. vm_compute. by split.
Qed.
